(* ===== verification/_CoqProject ===== *)
-Q . S2P
Prelude.v
F64.v
GoStrings.v
GoSort.v
GoTime.v
Regex.v
Model.v
Score.v
Ipt.v
GoNet.v
DnsFallback.v
Spf.v
AuthHeaders.v
RateLimit.v
Smtp.v
Store.v
SealedBox.v
Ingest.v
Config.v
EnvMigrate.v
Checks.v
Dkim.v
MailHeaders.v
AuthReadback.v
Body.v
Content.v
Blocklists.v
DomainChecks.v
SpamFilters.v
Enrich.v
Runner.v
Analyze.v
Reports.v
Rechecks.v
Views.v
ReportRows.v
WebRequest.v
WebApi.v
Lang.v
Placement.v
WebPages.v
WebAnalysis.v
Events.v
ReportPage.v
TextTables.v
Texts.v
GuideTexts.v
Guides.v
Routes.v
Telemetry.v
Site.v
Pdf.v
Startup.v
Listener.v
Mailer.v
System.v
Service.v
PdfLayout.v
