(* ===== verification/Prelude.v ===== *)
(** * Verification of sender-report

    sender-report is a mail testing service. A visitor gets a mailbox address;
    a mail sent to it is received over SMTP, authenticated (SPF, DKIM, DMARC),
    analysed by a set of checks, scored from 0 to 10, encrypted to the visitor's
    key if there is one, and stored in SQLite until its retention time is over.

    ** How the parts work together

    - cmd/sender-report/main.go starts everything: it migrates the settings file
      (internal/envmigrate), loads the configuration (internal/config), probes the
      storage (storage.go), opens the database (internal/db), loads or generates a
      certificate (internal/tlscert) and builds the two servers.
    - internal/smtp accepts a connection after asking two limiters of
      internal/ratelimit, asks isAllowedRecipient (main.go) at every RCPT TO, and
      hands each message to processInbound.
    - processInbound looks the mailbox up in internal/store, prepends the
      receiver's own headers (auth.go), calls the analyzer, seals the content with
      internal/sealedbox and stores message and report.
    - internal/analyzer runs its network checks concurrently, weighs every check
      and computes the score. TXT records are looked up through
      internal/dnsfallback. Single checks can be run again on demand (Recheck).
    - internal/web serves pages, API and event streams; it creates and deletes
      mailboxes, runs rechecks, reanalyses, simulations and placement tests
      (internal/ipt), and exports reports as PDF (internal/pdf). internal/i18n holds
      its languages, internal/telemetry its counters and alerts.
    - internal/cleanup calls Store.Cleanup at intervals.

    ** The files

    Foundations
    - [Prelude]: outcomes of fallible operations with their bind, tactics.
    - [F64]: binary64 arithmetic as Go uses it for scores, on Stdlib's SpecFloat,
      with bounds on rounded sums and products.
    - [GoStrings], [GoSort], [GoTime], [GoNet], [Regex]: what the sources use of the
      packages strings, strconv, unicode, sort, time, net and regexp, on byte
      strings; the regular expressions of the program with a matcher proved sound and
      complete.
    - [Model]: internal/model/types.go.

    Receiving mail
    - [Smtp]: handleConn as a step function on the unread input and the session.
      The fuel is the size of the input plus one and is always enough.
    - [RateLimit]: internal/ratelimit. Each call takes the current time.
    - [Spf]: the SPF evaluator of auth.go. The recursion has fuel 12, one more
      than the deepest level the depth guard admits; [checkSPFDomain_total] shows
      that it never runs out. The counter behind a pointer and the map of
      visited domains are threaded.
    - [DnsFallback]: internal/dnsfallback. Resolvers are functions.
    - [AuthHeaders]: the rest of auth.go. The libraries for DKIM, DMARC and address
      parsing are the record [auth_lib]. [AuthReadback]: its header as the analyzer reads it.
    - [Store]: internal/store, internal/db, the ticks of internal/cleanup. Tables are
      lists in rowid order; UNIQUE, FOREIGN KEY, ON DELETE CASCADE, AUTOINCREMENT and
      last_insert_rowid behave as in SQLite.
    - [SealedBox]: internal/sealedbox over the class [Crypto], whose documented
      behaviour is the class [CryptoLaws].
    - [Ingest]: processInbound and its helpers, composed of the components above.
    - [Config], [EnvMigrate]: internal/config and internal/envmigrate.
    - [Startup]: the start of main with storage probe, pragmas and certificate; its
      result is the record of what both servers are built from.
    - [Listener]: the accept loop with its goroutines as a step relation, the mail
      handler of main, and the composition of start, connection and delivery.

    Analysing mail (internal/analyzer)
    - [Score]: checkImportance, scoreFor, ComputeScore, clampScore, assignLabel.
    - [Checks], [DomainChecks], [Dkim], [MailHeaders], [Body], [Content],
      [Blocklists], [SpamFilters]: the checks, grouped by what they look at. HTTP, MIME,
      HTML, X.509 and JSON are parameters.
    - [Enrich], [TextTables], [Texts]: category, severity, details and texts every finding gets.
    - [Runner]: runChecksConcurrently as interleaved actors.
    - [Analyze]: a report as a whole; the record [world] holds everything outside the
      program. [Reports], [Rechecks]: what holds of reports and rechecks.

    The web interface (internal/web, internal/i18n, internal/pdf, internal/ipt)
    - [WebRequest]: what the server believes about a request (trusted proxies, client
      address, scheme, host), HTTPS redirect, rate limit.
    - [WebApi], [WebAnalysis], [Events]: the API: mailboxes, payloads, rechecks,
      reanalysis, simulation, event streams.
    - [Ipt], [Placement], [Mailer]: seed accounts, their polling and their health, the
      start of placement tests, the alert mail and the SMTP dialogue that carries it.
    - [Lang]: internal/i18n and the language addresses of seo.go.
    - [Views], [WebPages], [ReportRows], [ReportPage]: the functions of the report template,
      the data of the pages, and the way of a report from the analysis to the page.
    - [GuideTexts], [Guides]: the guides with their structured data, and the sitemap.
    - [Telemetry]: counters, their text, the alert webhook.
    - [Routes], [Site]: routing as net/http does it, the small pages, and a request on
      its whole way through middleware, routing and handler.
    - [Pdf], [PdfLayout]: what the PDF prints, and every drawing function as the calls it makes
      to the PDF library, with the library's cursor, page breaks and footers.

    The whole
    - [System]: requests, deliveries, ticks of the cleanup and results of pollers on one database,
      in any order. [Service]: the state such a run starts from, its limits, and the health checks
      in the background.

    ** What the theorems show

    - Termination and liveness: the SPF evaluation, an SMTP connection, the
      concurrent runner, a placement test and the shutdown of the SMTP server end on
      every input and under every schedule.
    - Limits: the SPF lookup budget, the rate limit of every window and its exact retry
      time, the connections and requests of an address, the message size, the goroutines
      running at once, the links that are opened, the range of the score, the bounds of
      an accepted configuration.
    - Invariants: the database reachable through any sequence of operations, the messages an
      SMTP connection leaves behind, the checks of a report, lifetime totals under deletion; and over
      all parts together: a mailbox that nothing in a run is about stays as it is.
    - Confidentiality and integrity: no clear text of an encrypted mailbox is stored,
      STARTTLS forgets what came before, no header injection, forwarding headers of
      strangers are ignored, HTTPS is enforced, a request touches only the mailbox it names,
      requests outside the limit are harmless, a deleted mailbox leaves nothing behind, a
      recheck cannot clear a verdict or lift the score cap, the password of the alert
      account stays inside TLS.
    - Round trips: dot-stuffing, sealing, saving a report, the receiver's results in its own
      header, the settings file, metrics.
    - Functional behaviour: CIDR matching, PTR names, DMARC alignment, DKIM result,
      retention, recipient acceptance, blocklist verdicts, seed selection, alerts about seed accounts, the report page,
      the place of every card in the PDF and the texts of every finding.
    - Outages: a name server that does not answer is a temporary error for SPF and
      neutral for the checks.

    Examples next to the theorems record behaviour a reader might not expect.

    ** What is left out, and why

    Log lines. The one-line summaries that are written where a check is made (the longer
    texts are in [Texts]). The JSON encoding: columns and payloads hold typed values. Case
    mapping beyond ASCII. HTML templates and scripts, static files, and the bytes of the PDF, which
    the library writes. Requests and deliveries that overlap in time: in [System] each is one step,
    while the code may interleave the database operations of two of them. Failures of the
    database in the middle of an operation: an operation succeeds or fails as a whole.
    Deadlines and time limits of connections, except where a function returns early because of one.
    Third-party packages, services, the file system and random sources are
    parameters. *)


From stdpp Require Export base tactics strings gmap list fin_maps sorting.
From Stdlib Require Export ZArith Lia Ascii String.

(** Notations of the development. *)
Declare Scope sr_scope.
Delimit Scope sr_scope with sr.
#[global] Open Scope sr_scope.

(** Concatenation computes on a constructor. *)
#[global] Arguments String.append !_ _ /.

(** ** Fallible operations

    Go functions that return [(T, error)] return an [outcome]: either the
    value or the error. *)
Inductive outcome (E A : Type) : Type :=
| Ok (a : A)
| Err (e : E).
Arguments Ok {E A} a.
Arguments Err {E A} e.

Definition obind {E A B : Type} (c : outcome E A) (k : A -> outcome E B) : outcome E B :=
  match c with
  | Ok a => k a
  | Err e => Err e
  end.

Notation "'let!' x ':=' c 'in' k" := (obind c (fun x => k))
  (at level 10, x pattern, c at level 100, k at level 200) : sr_scope.

Definition is_ok {E A : Type} (c : outcome E A) : bool :=
  match c with Ok _ => true | Err _ => false end.

Lemma obind_ok {E A B : Type} (c : outcome E A) (k : A -> outcome E B) (b : B) :
  obind c k = Ok b <-> exists a, c = Ok a /\ k a = Ok b.
Proof. destruct c as [a|e]; simpl; split; [eauto|by intros (? & [= ->] & ?)|done|by intros (? & ? & ?)]. Qed.

#[export] Instance Ok_inj {E A : Type} : Inj (=) (=) (@Ok E A).
Proof. intros a b [=]. done. Qed.

(** ** Automation *)

(** Case split on the condition of the first [if] of the goal, keeping the
    equation. *)
Ltac case_if :=
  match goal with
  | |- context [if ?b then _ else _] => let E := fresh "Hif" in destruct b eqn:E
  end.

(** The same in a hypothesis. *)
Ltac case_if_in H :=
  match type of H with
  | context [if ?b then _ else _] => let E := fresh "Hif" in destruct b eqn:E
  end.

(** Turn boolean facts of the context into propositions. *)
Ltac bool_to_prop :=
  repeat match goal with
  | H : andb _ _ = true |- _ => apply andb_true_iff in H as [? ?]
  | H : orb _ _ = false |- _ => apply orb_false_iff in H as [? ?]
  | H : negb _ = true |- _ => apply negb_true_iff in H
  | H : negb _ = false |- _ => apply negb_false_iff in H
  | H : (_ =? _)%string = true |- _ => apply String.eqb_eq in H
  | H : (_ =? _)%string = false |- _ => apply String.eqb_neq in H
  | H : (_ =? _)%Z = true |- _ => apply Z.eqb_eq in H
  | H : (_ =? _)%Z = false |- _ => apply Z.eqb_neq in H
  | H : (_ <? _)%Z = true |- _ => apply Z.ltb_lt in H
  | H : (_ <? _)%Z = false |- _ => apply Z.ltb_ge in H
  | H : (_ <=? _)%Z = true |- _ => apply Z.leb_le in H
  | H : (_ <=? _)%Z = false |- _ => apply Z.leb_gt in H
  | H : (_ <? _)%nat = true |- _ => apply Nat.ltb_lt in H
  | H : (_ <? _)%nat = false |- _ => apply Nat.ltb_ge in H
  | H : (_ <=? _)%nat = true |- _ => apply Nat.leb_le in H
  | H : (_ <=? _)%nat = false |- _ => apply Nat.leb_gt in H
  | H : (_ =? _)%nat = true |- _ => apply Nat.eqb_eq in H
  | H : (_ =? _)%nat = false |- _ => apply Nat.eqb_neq in H
  end.

(** Filtering by a boolean respects permutation. *)
Lemma lfilter_Permutation {A} (p : A -> bool) l1 l2 : l1 ≡ₚ l2 -> List.filter p l1 ≡ₚ List.filter p l2.
Proof. induction 1; simpl; repeat case_if; try done; [by constructor|by constructor|by etrans]. Qed.

(** A list without equal keys has at most one element for a key. *)
Lemma NoDup_fmap_elem {A B} (f : A -> B) l x y : NoDup (f <$> l) -> x ∈ l -> y ∈ l -> f x = f y -> x = y.
Proof.
  induction l as [|z l IH]; [by intros _ ?%not_elem_of_nil|]. rewrite fmap_cons, NoDup_cons, !elem_of_cons.
  intros [Hz Hn] [->|Hx] [->|Hy] He; [done| | |by apply IH].
  - destruct Hz. rewrite He. by apply list_elem_of_fmap_2.
  - destruct Hz. rewrite <- He. by apply list_elem_of_fmap_2.
Qed.
