(* ===== verification/F64.v ===== *)
(** * IEEE 754 binary64 arithmetic

    Go's float64 on the Standard Library's [spec_float]: correctly rounded
    addition, multiplication and division at precision 53 and exponent bound
    1024. Comparison is by exact value. The lemmas bound the result of a
    rounding: a value that does not exceed a bound on the binary64 grid does
    not exceed it after rounding either. *)

From S2P Require Import Prelude.
From Stdlib Require Import SpecFloat.

Local Open Scope Z_scope.

Definition float64 := spec_float.

#[export] Instance float64_eq_dec : EqDecision float64.
Proof. unfold float64. solve_decision. Defined.

Definition fadd : float64 -> float64 -> float64 := SFadd 53 1024.
Definition fsub : float64 -> float64 -> float64 := SFsub 53 1024.
Definition fmul : float64 -> float64 -> float64 := SFmul 53 1024.
Definition fdiv : float64 -> float64 -> float64 := SFdiv 53 1024.

(** [float64(n)] for an integer. *)
Definition f_of_Z (n : Z) : float64 := binary_normalize 53 1024 n 0 false.

(** The decimal literal [num / den] (both exactly representable): the
    correctly rounded quotient. *)
Definition lit (num den : Z) : float64 := fdiv (f_of_Z num) (f_of_Z den).

Definition fzero : float64 := S754_zero false.

(** Signed mantissa and exponent of a finite number. *)
Definition parts (x : float64) : option (Z * Z) :=
  match x with
  | S754_zero _ => Some (0, 0)
  | S754_finite s m e => Some (if s then Z.neg m else Z.pos m, e)
  | _ => None
  end.

Definition fcompare (x y : float64) : option comparison :=
  match x, y with
  | S754_nan, _ | _, S754_nan => None
  | S754_infinity s1, S754_infinity s2 =>
      Some (if Bool.eqb s1 s2 then Eq else if s1 then Lt else Gt)
  | S754_infinity s, _ => Some (if s then Lt else Gt)
  | _, S754_infinity s => Some (if s then Gt else Lt)
  | _, _ =>
      match parts x, parts y with
      | Some (m1, e1), Some (m2, e2) =>
          let ez := Z.min e1 e2 in Some (Z.compare (m1 * 2 ^ (e1 - ez)) (m2 * 2 ^ (e2 - ez)))
      | _, _ => None
      end
  end.

Definition fltb (x y : float64) : bool := match fcompare x y with Some Lt => true | _ => false end.
Definition fleb (x y : float64) : bool := match fcompare x y with Some (Lt | Eq) => true | _ => false end.
Definition feqb (x y : float64) : bool := match fcompare x y with Some Eq => true | _ => false end.

Definition is_finite (x : float64) : bool :=
  match x with S754_zero _ | S754_finite _ _ _ => true | _ => false end.

Definition is_nan (x : float64) : bool := match x with S754_nan => true | _ => false end.

(** [int(x)]: truncation towards zero; the value for a number that has none
    in range is the one of amd64. *)
Definition ftrunc (x : float64) : Z :=
  match x with
  | S754_zero _ => 0
  | S754_finite s m e =>
      let v := if 0 <=? e then Z.pos m * 2 ^ e else Z.pos m / 2 ^ (- e) in
      let v := if s then - v else v in
      if (- 2 ^ 63 <=? v) && (v <? 2 ^ 63) then v else - 2 ^ 63
  | _ => - 2 ^ 63
  end.

(** ** Shifting right with sticky bits *)

(** The record holds the [k] times shifted [X]; a lost bit is remembered. *)
Definition approx (X k : Z) (r : shr_record) : Prop :=
  0 <= shr_m r
  /\ shr_m r * 2 ^ k <= X
  /\ (shr_r r || shr_s r = true -> shr_m r * 2 ^ k < X).

Lemma shr_1_approx X k r : 0 <= k -> approx X k r -> approx X (k + 1) (shr_1 r).
Proof.
  intros Hk. unfold approx. destruct r as [m b s]. simpl.
  rewrite Z.pow_add_r by lia. change (2 ^ 1) with 2.
  assert (0 < 2 ^ k) by lia. intros (H0 & Hle & Hlt).
  destruct m as [|[p|p|]|p]; simpl in *.
  - destruct b, s; simpl in *; auto with lia.
  - replace (Z.pos p~1) with (2 * Z.pos p + 1) in * by lia. split_and!; [lia|nia|intros _; nia].
  - replace (Z.pos p~0) with (2 * Z.pos p) in * by lia.
    split_and!; [lia|nia|]. destruct b, s; simpl in *; intros; try done; specialize (Hlt eq_refl); nia.
  - split_and!; [lia|nia|intros _; lia].
  - lia.
Qed.

Lemma iter_shr_approx n X k r :
  0 <= k -> approx X k r -> approx X (k + Z.pos n) (iter_pos shr_1 n r).
Proof.
  revert k r. induction n as [n IH|n IH|]; intros k r Hk Ha; simpl.
  - replace (k + Z.pos n~1) with (k + 1 + Z.pos n + Z.pos n) by lia.
    apply IH; [lia|]. apply IH; [lia|]. by apply shr_1_approx.
  - replace (k + Z.pos n~0) with (k + Z.pos n + Z.pos n) by lia.
    apply IH; [lia|]. by apply IH.
  - by apply shr_1_approx.
Qed.

(** ** Upper bounds in halves *)

(** [m * 2^e <= B / 2], stated without negative powers. *)
Definition vle (m e B : Z) : Prop := forall k, 0 <= k -> 0 <= e + k -> 2 * m * 2 ^ (e + k) <= B * 2 ^ k.

Lemma vle_intro m e B k0 : 0 <= k0 -> 0 <= e + k0 -> 2 * m * 2 ^ (e + k0) <= B * 2 ^ k0 -> vle m e B.
Proof.
  intros H0 H1 H k Hk Hek. destruct (Z.le_ge_cases k0 k) as [Hc|Hc].
  - assert (E1 : 2 ^ (e + k) = 2 ^ (e + k0) * 2 ^ (k - k0)) by (rewrite <- Z.pow_add_r by lia; f_equal; lia).
    assert (E2 : 2 ^ k = 2 ^ k0 * 2 ^ (k - k0)) by (rewrite <- Z.pow_add_r by lia; f_equal; lia).
    rewrite E1, E2. assert (0 < 2 ^ (k - k0)) by lia. nia.
  - assert (E1 : 2 ^ (e + k0) = 2 ^ (e + k) * 2 ^ (k0 - k)) by (rewrite <- Z.pow_add_r by lia; f_equal; lia).
    assert (E2 : 2 ^ k0 = 2 ^ k * 2 ^ (k0 - k)) by (rewrite <- Z.pow_add_r by lia; f_equal; lia).
    rewrite E1, E2 in H. assert (0 < 2 ^ (k0 - k)) by lia. nia.
Qed.

Lemma digits_bound p : 2 ^ (Z.pos (digits2_pos p) - 1) <= Z.pos p.
Proof.
  induction p as [p IH|p IH|]; simpl.
  - rewrite Pos2Z.inj_succ. replace (Z.succ _ - 1) with (Z.pos (digits2_pos p) - 1 + 1) by lia.
    rewrite Z.pow_add_r by lia. lia.
  - rewrite Pos2Z.inj_succ. replace (Z.succ _ - 1) with (Z.pos (digits2_pos p) - 1 + 1) by lia.
    rewrite Z.pow_add_r by lia. lia.
  - done.
Qed.

(** A positive number within the bound has its leading bit below 2^52. *)
Lemma vle_digits p e B : vle (Z.pos p) e B -> 1 <= B <= 2 ^ 52 -> Z.pos (digits2_pos p) + e <= 52.
Proof.
  intros Hv HB. destruct (Z.le_gt_cases (Z.pos (digits2_pos p) + e) 52) as [|Hgt]; [done|exfalso].
  specialize (Hv (Z.max 0 (- e)) ltac:(lia) ltac:(lia)). pose proof (digits_bound p) as Hd.
  set (d := Z.pos (digits2_pos p)) in *. set (k := Z.max 0 (- e)) in *.
  assert (2 * 2 ^ (d - 1) * 2 ^ (e + k) <= B * 2 ^ k).
  { etrans; [|exact Hv]. assert (0 < 2 ^ (e + k)) by lia. nia. }
  assert (2 * 2 ^ (d - 1) * 2 ^ (e + k) = 2 ^ (d + e) * 2 ^ k).
  { change 2 with (2 ^ 1) at 1. rewrite <- !Z.pow_add_r by lia. f_equal. lia. }
  assert (2 ^ 53 <= 2 ^ (d + e)) by (apply Z.pow_le_mono_r; lia).
  assert (0 < 2 ^ k) by lia. nia.
Qed.

(** ** Rounding keeps the bound *)

Lemma shr_le m e n B r e' :
  0 <= m -> vle m e B -> shr (Build_shr_record m false false) e n = (r, e') ->
  (0 < n -> e + n <= -1) ->
  0 <= shr_m r /\ vle (shr_m r) e' B
  /\ (loc_of_shr_record r <> loc_Exact -> vle (shr_m r + 1) e' B).
Proof.
  intros Hm Hv Hs He. destruct n as [|n|n]; simpl in Hs; injection Hs as <- <-; [by simpl| |by simpl].
  assert (Ha : approx m (Z.pos n) (iter_pos shr_1 n {| shr_m := m; shr_r := false; shr_s := false |})).
  { apply (iter_shr_approx n m 0); [lia|]. unfold approx. simpl. split_and!; [lia|lia|done]. }
  destruct (iter_pos shr_1 n _) as [q b s]. destruct Ha as (Hq & Hle & Hlt). simpl in *.
  specialize (He ltac:(lia)). set (k := - e - Z.pos n) in *.
  assert (Hb : m <= B * 2 ^ (k - 1) * 2 ^ Z.pos n).
  { specialize (Hv (- e) ltac:(lia) ltac:(lia)). rewrite Z.add_opp_diag_r in Hv.
    assert (E : 2 ^ (- e) = 2 * (2 ^ (k - 1) * 2 ^ Z.pos n)).
    { change 2 with (2 ^ 1) at 2. rewrite <- !Z.pow_add_r by lia. f_equal. lia. }
    rewrite E in Hv. lia. }
  assert (Hint : forall x, x <= B * 2 ^ (k - 1) -> vle x (e + Z.pos n) B).
  { intros x Hx. apply (vle_intro _ _ _ k); [lia|lia|]. replace (e + Z.pos n + k) with 0 by lia.
    assert (E : 2 ^ k = 2 * 2 ^ (k - 1)).
    { change 2 with (2 ^ 1) at 2. rewrite <- Z.pow_add_r by lia. f_equal. lia. }
    rewrite E. lia. }
  assert (0 < 2 ^ Z.pos n) by lia. split_and!; [done| |].
  - apply Hint. nia.
  - intros Hloc. apply Hint. assert (b || s = true) by (by destruct b, s).
    specialize (Hlt ltac:(done)). nia.
Qed.

Lemma shr_fexp_le m e B r e' :
  0 <= m -> vle m e B -> 1 <= B <= 2 ^ 52 -> shr_fexp 53 1024 m e loc_Exact = (r, e') ->
  0 <= shr_m r /\ vle (shr_m r) e' B
  /\ (loc_of_shr_record r <> loc_Exact -> vle (shr_m r + 1) e' B).
Proof.
  intros Hm Hv HB. unfold shr_fexp. simpl. intros Hs. destruct m as [|p|p]; [| |lia].
  - (* zero stays zero *)
    assert (Hz : forall n, iter_pos shr_1 n {| shr_m := 0; shr_r := false; shr_s := false |}
                      = {| shr_m := 0; shr_r := false; shr_s := false |}).
    { induction n as [n IH|n IH|]; simpl; rewrite ?IH; done. }
    unfold shr in Hs. case_match; rewrite ?Hz in Hs; injection Hs as <- <-; simpl;
      (split_and!; [done|intros k ? ?; nia|done]).
  - eapply shr_le; [..|exact Hs|]; [done|done|].
    pose proof (vle_digits p e B Hv HB). simpl in *. unfold fexp, emin. lia.
Qed.

Lemma round_even_cases m l : round_nearest_even m l = m \/ l <> loc_Exact /\ round_nearest_even m l = m + 1.
Proof. destruct l as [|[]]; simpl; auto. case_if; auto. Qed.

Lemma binary_round_aux_le s m e B :
  0 <= m -> vle m e B -> 1 <= B <= 2 ^ 52 ->
  binary_round_aux 53 1024 s m e loc_Exact = S754_zero s
  \/ exists m' e', binary_round_aux 53 1024 s m e loc_Exact = S754_finite s m' e' /\ vle (Z.pos m') e' B.
Proof.
  intros Hm Hv HB. unfold binary_round_aux.
  destruct (shr_fexp 53 1024 m e loc_Exact) as [r e1] eqn:H1.
  apply (shr_fexp_le _ _ B) in H1 as (Hr & Hv1 & Hx); [|done..].
  set (m2 := round_nearest_even (shr_m r) (loc_of_shr_record r)).
  assert (Hm2 : 0 <= m2 /\ vle m2 e1 B).
  { subst m2. destruct (round_even_cases (shr_m r) (loc_of_shr_record r)) as [->|[? ->]]; [done|].
    split; [lia|auto]. }
  destruct Hm2 as [Hm2 Hv2]. destruct (shr_fexp 53 1024 m2 e1 loc_Exact) as [r2 e2] eqn:H2.
  apply (shr_fexp_le _ _ B) in H2 as (Hr2 & Hv3 & _); [|done..].
  destruct (shr_m r2) as [|p|p]; [by left| |lia]. right. exists p, e2.
  pose proof (vle_digits p e2 B Hv3 HB). replace (e2 <=? 1024 - 53) with true by (symmetry; apply Z.leb_le; lia).
  done.
Qed.

Lemma iter_xO p d : Z.pos (Pos.iter xO p d) = Z.pos p * 2 ^ Z.pos d.
Proof.
  induction d as [|d IH] using Pos.peano_ind; [simpl; lia|].
  rewrite Pos.iter_succ, Pos2Z.inj_xO, IH, Pos2Z.inj_succ, Z.pow_succ_r by lia. lia.
Qed.

Lemma shl_align_val p e e' :
  Z.pos (fst (shl_align p e e')) = Z.pos p * 2 ^ Z.max 0 (e - e') /\ snd (shl_align p e e') = Z.min e e'.
Proof.
  unfold shl_align. destruct (e' - e) as [|d|d] eqn:E; simpl.
  - replace (Z.max 0 (e - e')) with 0 by lia. lia.
  - replace (Z.max 0 (e - e')) with 0 by lia. lia.
  - rewrite iter_xO. replace (Z.max 0 (e - e')) with (Z.pos d) by lia. lia.
Qed.

Lemma vle_align m e B z : z <= e -> vle m e B -> vle (m * 2 ^ (e - z)) z B.
Proof.
  intros Hz Hv k Hk Hzk. specialize (Hv k Hk ltac:(lia)).
  replace (e + k) with (e - z + (z + k)) in Hv by lia. rewrite Z.pow_add_r in Hv by lia. lia.
Qed.

Lemma binary_round_le s p e B :
  vle (Z.pos p) e B -> 1 <= B <= 2 ^ 52 ->
  binary_round 53 1024 s p e = S754_zero s
  \/ exists m' e', binary_round 53 1024 s p e = S754_finite s m' e' /\ vle (Z.pos m') e' B.
Proof.
  intros Hv HB. unfold binary_round. set (f := fexp _ _ _).
  destruct (shl_align_val p e f) as [Hp He]. destruct (shl_align p e f) as [q z]. simpl in *.
  apply binary_round_aux_le; [lia| |done]. rewrite Hp, He.
  replace (Z.max 0 (e - f)) with (e - Z.min e f) by lia. apply vle_align; [lia|done].
Qed.

(** Non-negative and at most [B / 2]. *)
Definition within (x : float64) (B : Z) : Prop :=
  match x with
  | S754_zero _ => True
  | S754_finite false m e => vle (Z.pos m) e B
  | _ => False
  end.

Lemma vle_mono m e B B' : B <= B' -> vle m e B -> vle m e B'.
Proof. intros HB Hv k Hk Hek. specialize (Hv k Hk Hek). assert (0 < 2 ^ k) by lia. nia. Qed.

Lemma within_mono x B B' : B <= B' -> within x B -> within x B'.
Proof. intros HB. destruct x as [| | |[] m e]; simpl; try done. by apply vle_mono. Qed.

Lemma fadd_within x y B1 B2 :
  within x B1 -> within y B2 -> 1 <= B1 -> 1 <= B2 -> B1 + B2 <= 2 ^ 52 -> within (fadd x y) (B1 + B2).
Proof.
  intros Hx Hy H1 H2 HB. unfold fadd, SFadd.
  destruct x as [sx| | |[] mx ex]; try done; destruct y as [sy| | |[] my ey]; try done.
  - by destruct sx, sy.
  - eapply within_mono; [|exact Hy]. lia.
  - eapply within_mono; [|exact Hx]. lia.
  - simpl in Hx, Hy. set (ez := Z.min ex ey). assert (Hz : ez <= ex /\ ez <= ey) by (unfold ez; lia).
    destruct (shl_align_val mx ex ez) as [Ex _]. destruct (shl_align_val my ey ez) as [Ey _].
    simpl. set (p := (_ + _)%positive).
    destruct (binary_round_le false p ez (B1 + B2)) as [->|(m' & e' & -> & ?)]; [|lia|done|done].
    subst p. rewrite Pos2Z.inj_add, Ex, Ey.
    replace (Z.max 0 (ex - ez)) with (ex - ez) by lia. replace (Z.max 0 (ey - ez)) with (ey - ez) by lia.
    pose proof (vle_align _ ex B1 ez ltac:(lia) Hx) as Vx. pose proof (vle_align _ ey B2 ez ltac:(lia) Hy) as Vy.
    intros k Hk Hek. specialize (Vx k Hk Hek). specialize (Vy k Hk Hek). lia.
Qed.

Lemma fmul_within m e n k B C :
  vle (Z.pos m) e B -> 0 <= k -> Z.pos n = C * 2 ^ k -> 1 <= B * C <= 2 ^ 52 ->
  within (fmul (S754_finite false m e) (S754_finite false n (- k))) (B * C).
Proof.
  intros Hv Hk Hn HB. unfold fmul, SFmul. cbn [xorb].
  destruct (binary_round_aux_le false (Z.pos (m * n)) (e + - k) (B * C)) as [->|(m' & e' & -> & ?)];
    [lia| |done|done|done].
  intros j Hj Hej. rewrite Pos2Z.inj_mul, Hn. specialize (Hv j Hj ltac:(lia)).
  replace (e + j) with (k + (e + - k + j)) in Hv by lia. rewrite Z.pow_add_r in Hv by lia.
  assert (0 < 2 ^ j) by lia. assert (0 < C) by nia. nia.
Qed.

(** Truncation of a bounded number. *)
Lemma ftrunc_within x B : within x B -> 1 <= B <= 2 ^ 52 -> 0 <= ftrunc x <= B / 2.
Proof.
  intros Hx HB. destruct x as [s| | |[] m e]; try done; simpl.
  { split; [done|]. apply Z.div_pos; lia. }
  simpl in Hx. set (v := if 0 <=? e then _ else _).
  assert (Hv : 0 <= v <= B / 2).
  { subst v. case_if; bool_to_prop.
    - specialize (Hx 0 ltac:(lia) ltac:(lia)). rewrite Z.add_0_r in Hx.
      assert (0 < 2 ^ e) by lia. split; [lia|]. apply Z.div_le_lower_bound; lia.
    - specialize (Hx (- e) ltac:(lia) ltac:(lia)). rewrite Z.add_opp_diag_r in Hx.
      assert (0 < 2 ^ (- e)) by lia. split; [apply Z.div_pos; lia|].
      apply Z.div_le_lower_bound; [lia|].
      pose proof (Z.mul_div_le (Z.pos m) (2 ^ (- e)) ltac:(lia)). nia. }
  assert (B / 2 <= 2 ^ 52) by (apply Z.div_le_upper_bound; lia).
  replace ((- 2 ^ 63 <=? v) && (v <? 2 ^ 63)) with true; [done|].
  symmetry. apply andb_true_iff. split; [apply Z.leb_le|apply Z.ltb_lt]; lia.
Qed.

(** What the comparisons with zero and an integer say. *)
Lemma within_of_compare x n :
  is_nan x = false -> fltb x fzero = false -> 0 < n ->
  fltb (S754_finite false (Z.to_pos (n * 2 ^ 49)) (-49)) x = false -> within x (2 * n).
Proof.
  intros Hn H0 Hp H1. destruct x as [s|s| |s m e]; try done.
  - by destruct s.
  - unfold fltb, fcompare, parts, fzero in *. destruct s; [exfalso|].
    + assert (Z.neg m * 2 ^ (e - Z.min e 0) < 0 * 2 ^ (0 - Z.min e 0)) as Hlt.
      { assert (0 < 2 ^ (e - Z.min e 0)) by lia. nia. }
      apply Z.compare_lt_iff in Hlt. cbv zeta in H0. by rewrite Hlt in H0.
    + clear H0. simpl. revert H1. rewrite Z2Pos.id by lia.
      set (ez := Z.min (-49) e).
      destruct (Z.compare _ _) eqn:Hc; intros H1; [apply Z.compare_eq_iff in Hc|done|apply Z.compare_gt_iff in Hc];
        apply (vle_intro _ _ _ (- ez)); try (unfold ez; lia);
        (assert (E : 2 ^ (- ez) = 2 ^ 49 * 2 ^ (-49 - ez)) by (rewrite <- Z.pow_add_r by (unfold ez; lia); f_equal; lia));
        replace (e + - ez) with (e - ez) by lia; rewrite E; lia.
Qed.

(** ** Addition of a finite number never makes a NaN *)

Lemma shr_fexp_nonneg m e l : 0 <= m -> 0 <= shr_m (fst (shr_fexp 53 1024 m e l)).
Proof.
  intros Hm. unfold shr_fexp, shr.
  assert (H1 : forall r, 0 <= shr_m r -> 0 <= shr_m (shr_1 r))
    by (intros [[|[]|] ? ?]; simpl; lia).
  assert (Hn : forall n r, 0 <= shr_m r -> 0 <= shr_m (iter_pos shr_1 n r))
    by (induction n; intros; simpl; auto).
  assert (0 <= shr_m (shr_record_of_loc m l)) by (by destruct l as [|[]]).
  case_match; simpl; auto.
Qed.

Lemma binary_round_aux_not_nan s m e l : 0 <= m -> is_nan (binary_round_aux 53 1024 s m e l) = false.
Proof.
  intros Hm. unfold binary_round_aux. pose proof (shr_fexp_nonneg m e l Hm) as H1.
  destruct (shr_fexp 53 1024 m e l) as [r e1]. simpl in H1.
  set (m2 := round_nearest_even _ _).
  assert (0 <= m2) as Hm2 by (subst m2; destruct (round_even_cases (shr_m r) (loc_of_shr_record r)) as [->|[_ ->]]; lia).
  pose proof (shr_fexp_nonneg m2 e1 loc_Exact Hm2) as H2.
  destruct (shr_fexp 53 1024 m2 e1 loc_Exact) as [r2 e2]. simpl in H2.
  destruct (shr_m r2); [done|by case_if|lia].
Qed.

Lemma fadd_not_nan x y : is_nan x = false -> is_finite y = true -> is_nan (fadd x y) = false.
Proof.
  intros Hx Hy. unfold fadd, SFadd, binary_normalize.
  destruct x as [sx| | |sx mx ex], y as [sy| | |sy my ey]; try done; [by destruct sx, sy|].
  assert (Hr : forall s p e, is_nan (binary_round 53 1024 s p e) = false).
  { intros s p e. unfold binary_round. destruct (shl_align p e _). by apply binary_round_aux_not_nan. }
  by case_match.
Qed.
