(* ===== verification/GoStrings.v ===== *)
(** * Go's [strings] and [strconv] on byte strings

    A Go [string] is a sequence of bytes; it is modelled by [String.string],
    whose characters are the 256 bytes. This file models the functions of the
    Go standard library that the program uses. [ToLower], [ToUpper] and
    [EqualFold] act on ASCII letters and leave every other byte unchanged (the
    Unicode case tables are not modelled); [TrimSpace] and [Fields] recognise
    every white-space rune of [unicode.IsSpace] in its UTF-8 encoding. *)

From S2P Require Import Prelude.

Local Open Scope string_scope.
Local Open Scope list_scope.

(** ** Bytes *)

Definition code (a : ascii) : N := N_of_ascii a.

Definition is_upper (a : ascii) : bool := ((65 <=? code a) && (code a <=? 90))%N.
Definition is_lower (a : ascii) : bool := ((97 <=? code a) && (code a <=? 122))%N.
Definition is_digit (a : ascii) : bool := ((48 <=? code a) && (code a <=? 57))%N.

Definition lower_byte (a : ascii) : ascii :=
  if is_upper a then ascii_of_N (code a + 32) else a.
Definition upper_byte (a : ascii) : ascii :=
  if is_lower a then ascii_of_N (code a - 32) else a.

(** Bytes written in Go as escapes. *)
Definition CR : ascii := "013"%char.
Definition LF : ascii := "010"%char.
Definition TAB : ascii := "009"%char.
Definition chr (a : ascii) : string := String a EmptyString.
Definition crlf : string := String CR (String LF EmptyString).
Definition lf : string := chr LF.
Definition lflf : string := String LF (String LF EmptyString).

Definition isEmpty (s : string) : bool :=
  match s with EmptyString => true | _ => false end.

(** ** Slicing *)

Fixpoint stake (n : nat) (s : string) : string :=
  match n, s with
  | S n', String a s' => String a (stake n' s')
  | _, _ => EmptyString
  end.

Fixpoint sdrop (n : nat) (s : string) : string :=
  match n, s with
  | S n', String _ s' => sdrop n' s'
  | _, _ => s
  end.

Fixpoint srev_app (s acc : string) : string :=
  match s with
  | EmptyString => acc
  | String a s' => srev_app s' (String a acc)
  end.
Definition srev (s : string) : string := srev_app s EmptyString.

Fixpoint smap (f : ascii -> ascii) (s : string) : string :=
  match s with
  | EmptyString => EmptyString
  | String a s' => String (f a) (smap f s')
  end.

Fixpoint sfilter (p : ascii -> bool) (s : string) : string :=
  match s with
  | EmptyString => EmptyString
  | String a s' => if p a then String a (sfilter p s') else sfilter p s'
  end.

(** Every byte of the string satisfies [p]. *)
Fixpoint sforall (p : ascii -> bool) (s : string) : bool :=
  match s with
  | EmptyString => true
  | String a s' => p a && sforall p s'
  end.

Definition selem (a : ascii) (s : string) : bool := negb (sforall (fun b => negb (Ascii.eqb a b)) s).

(** ** Case *)

Definition ToLower (s : string) : string := smap lower_byte s.
Definition ToUpper (s : string) : string := smap upper_byte s.
Definition EqualFold (s t : string) : bool := String.eqb (ToLower s) (ToLower t).

(** ** Searching *)

Fixpoint HasPrefix (s p : string) : bool :=
  match p, s with
  | EmptyString, _ => true
  | String b p', String a s' => Ascii.eqb a b && HasPrefix s' p'
  | String _ _, EmptyString => false
  end.

#[global] Arguments HasPrefix !_ !_ /.

Definition HasSuffix (s p : string) : bool :=
  (String.length p <=? String.length s)%nat &&
  String.eqb (sdrop (String.length s - String.length p) s) p.

(** [strings.Index]; [None] is Go's -1. *)
Fixpoint Index (s sub : string) : option nat :=
  if HasPrefix s sub then Some 0%nat else
  match s with
  | EmptyString => None
  | String _ s' => S <$> Index s' sub
  end.

Fixpoint LastIndex (s sub : string) : option nat :=
  match s with
  | EmptyString => if HasPrefix s sub then Some 0%nat else None
  | String _ s' =>
      match LastIndex s' sub with
      | Some i => Some (S i)
      | None => if HasPrefix s sub then Some 0%nat else None
      end
  end.

Definition Contains (s sub : string) : bool :=
  match Index s sub with Some _ => true | None => false end.

(** [strings.ContainsRune] for an ASCII rune. *)
Definition ContainsRune (s : string) (a : ascii) : bool := selem a s.

(** Number of non-overlapping occurrences of a non-empty [sub]; [skip] bytes
    of the last occurrence are still to be passed over. *)
Fixpoint Count_aux (s sub : string) (skip : nat) : nat :=
  match s with
  | EmptyString => 0
  | String _ s' =>
      match skip with
      | S k => Count_aux s' sub k
      | O => if HasPrefix s sub
             then S (Count_aux s' sub (String.length sub - 1))
             else Count_aux s' sub 0
      end
  end.
Definition Count (s sub : string) : nat := Count_aux s sub 0.

(** ** Replacing, cutting, splitting, joining *)

Fixpoint ReplaceAll_aux (s old new : string) (skip : nat) : string :=
  match s with
  | EmptyString => EmptyString
  | String a s' =>
      match skip with
      | S k => ReplaceAll_aux s' old new k
      | O => if HasPrefix s old
             then new +:+ ReplaceAll_aux s' old new (String.length old - 1)
             else String a (ReplaceAll_aux s' old new 0)
      end
  end.
(** [strings.ReplaceAll] for a non-empty [old]. *)
Definition ReplaceAll (s old new : string) : string := ReplaceAll_aux s old new 0.

(** [strings.Cut]: text before and after the first [sep], and whether it was found. *)
Definition Cut (s sep : string) : string * string * bool :=
  match Index s sep with
  | Some i => (stake i s, sdrop (i + String.length sep) s, true)
  | None => (s, EmptyString, false)
  end.

(** [strings.SplitN s sep 2]. *)
Definition SplitN2 (s sep : string) : list string :=
  match Cut s sep with
  | (a, b, true) => [a; b]
  | (a, _, false) => [a]
  end.

(** [strings.Split] for a one-byte separator. *)
Fixpoint Split (s : string) (sep : ascii) : list string :=
  match s with
  | EmptyString => [EmptyString]
  | String a s' =>
      if Ascii.eqb a sep then EmptyString :: Split s' sep
      else match Split s' sep with
           | w :: ws => String a w :: ws
           | [] => [String a EmptyString]
           end
  end.

Fixpoint Join (l : list string) (sep : string) : string :=
  match l with
  | [] => EmptyString
  | [x] => x
  | x :: l' => x +:+ sep +:+ Join l' sep
  end.

(** ** White space and trimming *)

Definition ascii_space (a : ascii) : bool :=
  (((9 <=? code a) && (code a <=? 13)) || (code a =? 32))%N.

(** Length in bytes of the white-space rune at the front of the string, 0 if
    there is none: the ASCII blanks, U+0085, U+00A0, U+1680, U+2000..U+200A,
    U+2028, U+2029, U+202F, U+205F and U+3000. *)
Definition ws2 (a b : N) : bool := ((a =? 194) && ((b =? 133) || (b =? 160)))%N.
Definition ws3 (a b c : N) : bool :=
  (((a =? 225) && (b =? 154) && (c =? 128))
   || ((a =? 226) && (b =? 128) &&
       (((128 <=? c) && (c <=? 138)) || (c =? 168) || (c =? 169) || (c =? 175)))
   || ((a =? 226) && (b =? 129) && (c =? 159))
   || ((a =? 227) && (b =? 128) && (c =? 128)))%N.

Definition ws_len (s : string) : nat :=
  match s with
  | EmptyString => 0
  | String a s1 =>
      if ascii_space a then 1 else
      match s1 with
      | EmptyString => 0
      | String b s2 =>
          if ws2 (code a) (code b) then 2 else
          match s2 with
          | EmptyString => 0
          | String c _ => if ws3 (code a) (code b) (code c) then 3 else 0
          end
      end
  end%nat.

(** The same on a reversed string: the white-space rune at the end. *)
Definition ws_len_rev (s : string) : nat :=
  match s with
  | EmptyString => 0
  | String a s1 =>
      if ascii_space a then 1 else
      match s1 with
      | EmptyString => 0
      | String b s2 =>
          if ws2 (code b) (code a) then 2 else
          match s2 with
          | EmptyString => 0
          | String c _ => if ws3 (code c) (code b) (code a) then 3 else 0
          end
      end
  end%nat.

(** Drop runes measured by [len] from the front. *)
Fixpoint trim_front (len : string -> nat) (s : string) (skip : nat) : string :=
  match s with
  | EmptyString => EmptyString
  | String _ s' =>
      match skip with
      | S k => trim_front len s' k
      | O => match len s with
             | O => s
             | S k => trim_front len s' k
             end
      end
  end.

Definition TrimLeftSpace (s : string) : string := trim_front ws_len s 0.
Definition TrimRightSpace (s : string) : string := srev (trim_front ws_len_rev (srev s) 0).
Definition TrimSpace (s : string) : string := TrimRightSpace (TrimLeftSpace s).

Definition cut_len (cutset : string) (s : string) : nat :=
  match s with
  | EmptyString => 0
  | String a _ => if selem a cutset then 1 else 0
  end%nat.

(** [strings.TrimLeft], [TrimRight], [Trim] for an ASCII cutset. *)
Definition TrimLeft (s cutset : string) : string := trim_front (cut_len cutset) s 0.
Definition TrimRight (s cutset : string) : string := srev (trim_front (cut_len cutset) (srev s) 0).
Definition Trim (s cutset : string) : string := TrimRight (TrimLeft s cutset) cutset.

Definition TrimPrefix (s p : string) : string :=
  if HasPrefix s p then sdrop (String.length p) s else s.
Definition TrimSuffix (s p : string) : string :=
  if HasSuffix s p then stake (String.length s - String.length p) s else s.

(** [strings.Fields]: the maximal runs of non-space bytes. [cur] is the
    current field, reversed. *)
Fixpoint Fields_aux (s : string) (skip : nat) (cur : string) : list string :=
  let flush := if isEmpty cur then [] else [srev cur] in
  match s with
  | EmptyString => flush
  | String a s' =>
      match skip with
      | S k => Fields_aux s' k EmptyString
      | O => match ws_len s with
             | O => Fields_aux s' 0 (String a cur)
             | S k => flush ++ Fields_aux s' k EmptyString
             end
      end
  end.
Definition Fields (s : string) : list string := Fields_aux s 0 EmptyString.

(** ** Numbers *)

Fixpoint digits_val (s : string) (acc : Z) : option Z :=
  match s with
  | EmptyString => Some acc
  | String a s' =>
      if is_digit a then digits_val s' (acc * 10 + (Z.of_N (code a) - 48))%Z else None
  end.

Definition int64_min : Z := (- 2 ^ 63)%Z.
Definition int64_max : Z := (2 ^ 63 - 1)%Z.

Definition in_int64 (z : Z) : bool := ((int64_min <=? z) && (z <=? int64_max))%Z.

(** [strconv.Atoi] and [strconv.ParseInt(s, 10, 64)] on a 64-bit platform:
    an optional sign and at least one decimal digit, in range; [None] is an
    error. *)
Definition Atoi (s : string) : option Z :=
  let '(neg, digits) :=
    match s with
    | String a s' =>
        if Ascii.eqb a "-" then (true, s')
        else if Ascii.eqb a "+" then (false, s')
        else (false, s)
    | EmptyString => (false, s)
    end in
  if isEmpty digits then None else
  match digits_val digits 0 with
  | None => None
  | Some v => let z := if neg then (- v)%Z else v in
              if in_int64 z then Some z else None
  end.

(** [strconv.Itoa]. *)
Definition digit_char (d : Z) : ascii := ascii_of_N (Z.to_N (d + 48)).
Fixpoint itoa_aux (fuel : nat) (z : Z) (acc : string) : string :=
  match fuel with
  | O => acc
  | S f => let acc' := String (digit_char (z mod 10)) acc in
           if (z / 10 =? 0)%Z then acc' else itoa_aux f (z / 10) acc'
  end.
(** 20 digits are enough for a 64-bit integer. *)
Definition Itoa (z : Z) : string :=
  if (z <? 0)%Z then String "-" (itoa_aux 20 (- z) EmptyString) else itoa_aux 20 z EmptyString.

(** [strconv.ParseBool]. *)
Definition ParseBool (s : string) : option bool :=
  if existsb (String.eqb s) ["1"; "t"; "T"; "true"; "TRUE"; "True"] then Some true
  else if existsb (String.eqb s) ["0"; "f"; "F"; "false"; "FALSE"; "False"] then Some false
  else None.

Definition FormatBool (b : bool) : string := if b then "true" else "false".

(** ** Scanning lines *)

Definition dropCR (s : string) : string := TrimSuffix s (chr CR).

(** The lines of a text as [bufio.ScanLines] cuts them, their ends still on: a
    final newline does not open another line. *)
Definition raw_lines (text : string) : list string :=
  let segs := Split text LF in
  match last segs with
  | Some "" => List.removelast segs
  | _ => segs
  end.

(** What a [bufio.Scanner] delivers that accepts lines of at most [longest]
    bytes; [None] when a line is longer. *)
Definition scan_limit (longest : nat) (text : string) : option (list string) :=
  if existsb (fun l => (longest <? String.length l)%nat) (raw_lines text) then None
  else Some (dropCR <$> raw_lines text).

(** ** Lemmas *)

Lemma sapp_nil_r s : s +:+ "" = s.
Proof. induction s as [|a s IH]; simpl; [done|]. by rewrite IH. Qed.

Lemma sapp_assoc (s t u : string) : (s +:+ t) +:+ u = s +:+ (t +:+ u).
Proof. induction s as [|a s IH]; simpl; [done|]. by rewrite IH. Qed.

Lemma slength_app s t : String.length (s +:+ t) = (String.length s + String.length t)%nat.
Proof. induction s as [|a s IH]; simpl; [done|]. by rewrite IH. Qed.

Lemma sapp_inv_head (s t u : string) : s +:+ t = s +:+ u -> t = u.
Proof. induction s as [|a s IH]; simpl; [done|]. intros [= H]. auto. Qed.

Lemma stake_sdrop n s : stake n s +:+ sdrop n s = s.
Proof. revert s. induction n as [|n IH]; intros [|a s]; simpl; [done..|]. by rewrite IH. Qed.

Lemma slength_sdrop n s : String.length (sdrop n s) = (String.length s - n)%nat.
Proof. revert s. induction n as [|n IH]; intros [|a s]; simpl; try done. Qed.

Lemma slength_stake n s : String.length (stake n s) = Nat.min n (String.length s).
Proof. revert s. induction n as [|n IH]; intros [|a s]; simpl; try done. by rewrite IH. Qed.

Lemma stake_app s t : stake (String.length s) (s +:+ t) = s.
Proof. induction s as [|a s IH]; simpl; [by destruct t|]. by rewrite IH. Qed.

Lemma sdrop_app s t : sdrop (String.length s) (s +:+ t) = t.
Proof. induction s as [|a s IH]; simpl; [by destruct t|]. done. Qed.

Lemma sdrop_app_plus s t n : sdrop (String.length s + n) (s +:+ t) = sdrop n t.
Proof. induction s as [|a s IH]; simpl; done. Qed.

Lemma isEmpty_true s : isEmpty s = true <-> s = "".
Proof. by destruct s. Qed.
Lemma isEmpty_false s : isEmpty s = false <-> s <> "".
Proof. by destruct s. Qed.

Lemma HasPrefix_spec s p : HasPrefix s p = true <-> exists t, s = p +:+ t.
Proof.
  revert s. induction p as [|b p IH]; intros s.
  - split; [by exists s|by destruct s].
  - destruct s as [|a s]; [split; [done|by intros []]|].
    simpl. rewrite andb_true_iff, Ascii.eqb_eq, IH. split.
    + intros [-> [t ->]]. eauto.
    + intros [t [= -> ->]]. eauto.
Qed.

Lemma HasPrefix_nil s : HasPrefix s "" = true.
Proof. by destruct s. Qed.

Lemma HasPrefix_app s t : HasPrefix (s +:+ t) s = true.
Proof. apply HasPrefix_spec. eauto. Qed.

Lemma HasSuffix_spec s p : HasSuffix s p = true <-> exists t, s = t +:+ p.
Proof.
  unfold HasSuffix. rewrite andb_true_iff, Nat.leb_le, String.eqb_eq. split.
  - intros [_ <-]. exists (stake (String.length s - String.length p) s).
    by rewrite stake_sdrop.
  - intros [t ->]. rewrite slength_app.
    replace (String.length t + String.length p - String.length p)%nat with (String.length t) by lia.
    rewrite sdrop_app. split; [lia|done].
Qed.

Lemma Index_Some s sub i :
  Index s sub = Some i -> exists a b, s = a +:+ sub +:+ b /\ String.length a = i.
Proof.
  revert i. induction s as [|c s IH]; intros i; simpl.
  - destruct sub; simpl; [|done]. intros [= <-]. by exists "", "".
  - case_if.
    + intros [= <-]. apply HasPrefix_spec in Hif as [b Hb]. exists "", b. done.
    + destruct (Index s sub) as [j|]; simpl; [|done]. intros [= <-].
      destruct (IH j eq_refl) as (a & b & -> & <-). by exists (String c a), b.
Qed.

Lemma Index_None_app s sub a b : Index s sub = None -> s <> a +:+ sub +:+ b.
Proof.
  revert a. induction s as [|c s IH]; intros a; simpl.
  - destruct sub as [|x sub]; simpl; [done|]. intros _. by destruct a.
  - case_if; [done|]. destruct (Index s sub) eqn:E; [done|]. intros _ Heq.
    destruct a as [|y a].
    + assert (HasPrefix (String c s) sub = true) by (apply HasPrefix_spec; eauto). congruence.
    + injection Heq as -> Heq. by eapply IH.
Qed.

Lemma Contains_spec s sub : Contains s sub = true <-> exists a b, s = a +:+ sub +:+ b.
Proof.
  unfold Contains. destruct (Index s sub) as [i|] eqn:E; split; try done.
  - intros _. apply Index_Some in E as (a & b & ? & _). eauto.
  - intros (a & b & ->). by eapply Index_None_app in E.
Qed.

Lemma sforall_app p s t : sforall p (s +:+ t) = sforall p s && sforall p t.
Proof. induction s as [|a s IH]; simpl; [done|]. by rewrite IH, andb_assoc. Qed.

Lemma sforall_impl (p q : ascii -> bool) s :
  (forall a, p a = true -> q a = true) -> sforall p s = true -> sforall q s = true.
Proof.
  intros Hpq. induction s as [|a s IH]; simpl; [done|].
  rewrite !andb_true_iff. intros [? ?]. auto.
Qed.

Lemma sforall_and p q s : sforall (fun a => p a && q a) s = sforall p s && sforall q s.
Proof. induction s as [|a s IH]; simpl; [done|]. rewrite IH. destruct (p a), (q a), (sforall p s); done. Qed.

Lemma srev_app_spec s acc : srev_app s acc = srev s +:+ acc.
Proof.
  unfold srev. revert acc. induction s as [|a s IH]; intros acc; simpl; [done|].
  rewrite (IH (String a acc)), (IH (String a "")), sapp_assoc. done.
Qed.

Lemma srev_cons a s : srev (String a s) = srev s +:+ chr a.
Proof. unfold srev. simpl. by rewrite srev_app_spec. Qed.

Lemma sforall_srev p s : sforall p (srev s) = sforall p s.
Proof.
  induction s as [|a s IH]; [done|].
  rewrite srev_cons, sforall_app, IH. simpl. rewrite andb_true_r. apply andb_comm.
Qed.

Lemma sforall_stake p n s : sforall p s = true -> sforall p (stake n s) = true.
Proof.
  revert s. induction n as [|n IH]; intros [|a s]; simpl; try done.
  rewrite !andb_true_iff. intros [? ?]. auto.
Qed.

Lemma sforall_sdrop p n s : sforall p s = true -> sforall p (sdrop n s) = true.
Proof.
  revert s. induction n as [|n IH]; intros [|a s]; simpl; try done.
  rewrite andb_true_iff. intros [? ?]. auto.
Qed.

Lemma sforall_trim_front p len s k : sforall p s = true -> sforall p (trim_front len s k) = true.
Proof.
  revert k. induction s as [|a s IH]; intros k; simpl; [done|].
  rewrite andb_true_iff. intros [Ha Hs]. destruct k; [|by apply IH].
  destruct (len _); [|by apply IH]. simpl. by rewrite Ha, Hs.
Qed.

(** Trimming keeps a property of all bytes. *)
Lemma sforall_TrimSpace p s : sforall p s = true -> sforall p (TrimSpace s) = true.
Proof.
  intros Hs. unfold TrimSpace, TrimRightSpace, TrimLeftSpace.
  rewrite sforall_srev. apply sforall_trim_front. rewrite sforall_srev. by apply sforall_trim_front.
Qed.

Lemma sforall_Trim p s c : sforall p s = true -> sforall p (Trim s c) = true.
Proof.
  intros Hs. unfold Trim, TrimRight, TrimLeft.
  rewrite sforall_srev. apply sforall_trim_front. rewrite sforall_srev. by apply sforall_trim_front.
Qed.

Lemma ToLower_app s t : ToLower (s +:+ t) = ToLower s +:+ ToLower t.
Proof. unfold ToLower. induction s as [|a s IH]; simpl; [done|]. by rewrite IH. Qed.

Lemma lower_byte_idem a : lower_byte (lower_byte a) = lower_byte a.
Proof. by destruct a as [[] [] [] [] [] [] [] []]. Qed.

Lemma ToLower_idem s : ToLower (ToLower s) = ToLower s.
Proof. unfold ToLower. induction s as [|a s IH]; simpl; [done|]. by rewrite IH, lower_byte_idem. Qed.

Lemma slength_ToLower s : String.length (ToLower s) = String.length s.
Proof. unfold ToLower. induction s as [|a s IH]; simpl; [done|]. by rewrite IH. Qed.

(** The bytes of a string are all different from [a]. *)
Definition lacks (a : ascii) (s : string) : bool := sforall (fun b => negb (Ascii.eqb b a)) s.

Lemma lacks_ReplaceAll_aux a s new k :
  lacks a new = true -> lacks a (ReplaceAll_aux s (chr a) new k) = true.
Proof.
  intros Hn. revert k. induction s as [|b s IH]; intros k; simpl; [done|].
  destruct k; [|apply IH]. case_if; simpl.
  - unfold lacks in *. rewrite sforall_app, Hn. apply IH.
  - unfold lacks in *. simpl. destruct (Ascii.eqb b a) eqn:E; [by destruct s; simpl in *|]. apply IH.
Qed.

(** [strings.ReplaceAll] of a byte removes it. *)
Lemma lacks_ReplaceAll a s new : lacks a new = true -> lacks a (ReplaceAll s (chr a) new) = true.
Proof. apply lacks_ReplaceAll_aux. Qed.

Lemma sforall_ReplaceAll_aux p s old new k :
  sforall p s = true -> sforall p new = true -> sforall p (ReplaceAll_aux s old new k) = true.
Proof.
  intros Hs Hn. revert k Hs. induction s as [|b s IH]; intros k; simpl; [done|].
  rewrite andb_true_iff. intros [Hb Hs]. destruct k; [|by apply IH].
  case_if; [by rewrite sforall_app, Hn, IH|]. simpl. by rewrite Hb, IH.
Qed.

Lemma sforall_ReplaceAll p s old new :
  sforall p s = true -> sforall p new = true -> sforall p (ReplaceAll s old new) = true.
Proof. apply sforall_ReplaceAll_aux. Qed.

(** Printable, non-blank ASCII: trimming leaves a string of such bytes as it is. *)
Definition visible (a : ascii) : bool := ((33 <=? code a) && (code a <=? 126))%N.

Lemma visible_not_ws a : visible a = true ->
  ascii_space a = false /\ (forall b, ws2 (code a) b = false) /\ (forall b c, ws3 (code a) b c = false).
Proof.
  unfold visible, ascii_space, ws2, ws3. rewrite andb_true_iff, !N.leb_le. intros [H1 H2].
  assert (Hk : forall k, (126 < k)%N -> (code a =? k)%N = false) by (intros; apply N.eqb_neq; lia).
  split_and!.
  - rewrite orb_false_iff, andb_false_iff, !N.leb_gt, N.eqb_neq. lia.
  - intros b. by rewrite Hk.
  - intros b c. by rewrite !Hk.
Qed.

Ltac not_ws Hx :=
  let Hs := fresh "Hs" in let H2 := fresh "H2" in let H3 := fresh "H3" in
  apply visible_not_ws in Hx as (Hs & H2 & H3); rewrite ?Hs, ?H2, ?H3.

Lemma ws_len_visible s : sforall visible s = true -> ws_len s = 0%nat /\ ws_len_rev s = 0%nat.
Proof.
  destruct s as [|a [|b [|c s]]]; simpl; rewrite ?andb_true_r, ?andb_true_iff; [done| | |].
  - intros Ha. by not_ws Ha.
  - intros [Ha Hb]. not_ws Ha. by not_ws Hb.
  - intros (Ha & Hb & Hc & _). not_ws Ha. not_ws Hb. by not_ws Hc.
Qed.

Lemma srev_app_app s t : srev (s +:+ t) = srev t +:+ srev s.
Proof.
  induction s as [|a s IH]; simpl.
  - by rewrite sapp_nil_r.
  - by rewrite !srev_cons, IH, sapp_assoc.
Qed.

Lemma srev_involutive s : srev (srev s) = s.
Proof. induction s as [|a s IH]; [done|]. by rewrite srev_cons, srev_app_app, IH. Qed.

Lemma trim_front_none len s : len s = 0%nat -> trim_front len s 0 = s.
Proof. destruct s; simpl; [done|]. by intros ->. Qed.

Lemma TrimSpace_visible s : sforall visible s = true -> TrimSpace s = s.
Proof.
  intros Hs. unfold TrimSpace, TrimRightSpace, TrimLeftSpace.
  rewrite (trim_front_none _ s) by (by apply ws_len_visible). rewrite trim_front_none.
  - apply srev_involutive.
  - apply ws_len_visible. by rewrite sforall_srev.
Qed.

(** A byte below 128 behind a string belongs to no white-space rune of it. *)
Lemma ws_ascii a b : (code a < 128)%N ->
  ws2 b (code a) = false /\ ws2 (code a) b = false
  /\ (forall c, ws3 b c (code a) = false /\ ws3 (code a) b c = false).
Proof.
  intros Ha. unfold ws2, ws3.
  assert (Hk : forall k, (128 <= k)%N -> (code a =? k)%N = false) by (intros; apply N.eqb_neq; lia).
  assert (Hl : (128 <=? code a)%N = false) by (apply N.leb_gt; lia).
  split_and!; [..|intros c; split]; rewrite ?Hk, ?Hl by done; simpl; rewrite ?andb_false_r; done.
Qed.

Lemma ws_len_snoc t a : (code a < 128)%N -> t <> "" ->
  ws_len (t +:+ chr a) = ws_len t /\ ws_len_rev (t +:+ chr a) = ws_len_rev t.
Proof.
  intros Ha Ht. destruct t as [|x [|y [|z t]]]; [done| | |done];
    destruct (ws_ascii a (code x) Ha) as (E1 & E2 & E3); simpl; rewrite ?E1, ?E2; try (by split).
  destruct (ws_ascii a (code y) Ha) as (_ & _ & E3'). destruct (E3 (code y)) as [-> _], (E3' (code x)) as [_ ->].
  by split.
Qed.

Lemma ws_len_le s : (ws_len s <= String.length s)%nat /\ (ws_len_rev s <= String.length s)%nat.
Proof. destruct s as [|a [|b [|c s]]]; simpl; repeat case_if; lia. Qed.

Lemma trim_front_snoc (len : string -> nat) t a k :
  (forall u, u <> "" -> len (u +:+ chr a) = len u) -> (forall u, (len u <= String.length u)%nat) ->
  (k <= String.length t)%nat ->
  trim_front len (t +:+ chr a) k
  = if isEmpty (trim_front len t k) then trim_front len (chr a) 0 else trim_front len t k +:+ chr a.
Proof.
  intros Hlen Hle. revert k. induction t as [|b t IH]; intros k Hk; simpl in Hk.
  - by replace k with 0%nat by lia.
  - simpl. destruct k as [|k]; [|apply IH; lia].
    pose proof (Hlen (String b t) ltac:(done)) as H. simpl in H. rewrite H.
    pose proof (Hle (String b t)) as H'. simpl in H'. destruct (len (String b t)); [done|]. apply IH. lia.
Qed.

Lemma isEmpty_srev s : isEmpty (srev s) = isEmpty s.
Proof. destruct s as [|a s]; [done|]. rewrite srev_cons. by destruct (srev s). Qed.

(** A trailing ASCII blank is trimmed. *)
Lemma TrimSpace_snoc_blank s a : (code a < 128)%N -> ascii_space a = true -> TrimSpace (s +:+ chr a) = TrimSpace s.
Proof.
  intros Ha Hb. unfold TrimSpace, TrimLeftSpace. rewrite trim_front_snoc; [|intros; by apply ws_len_snoc
    |intros; apply ws_len_le|lia].
  case_if.
  - apply isEmpty_true in Hif as ->. simpl. by rewrite Hb.
  - unfold TrimRightSpace. rewrite srev_app_app. simpl. by rewrite Hb.
Qed.

(** A string that starts with a visible byte still does after trimming. *)
Lemma TrimSpace_head a s : visible a = true -> exists t, TrimSpace (String a s) = String a t.
Proof.
  intros Ha. pose proof Ha as Hv. assert (Hlt : (code a < 128)%N).
  { unfold visible in Ha. apply andb_true_iff in Ha as [_ H%N.leb_le]. lia. }
  unfold TrimSpace, TrimLeftSpace. rewrite trim_front_none.
  2: { simpl. not_ws Hv. by destruct s as [|b [|]]; rewrite ?H2, ?H3. }
  unfold TrimRightSpace. rewrite srev_cons, trim_front_snoc; [|intros; by apply ws_len_snoc|intros; apply ws_len_le|lia].
  assert (Hc : trim_front ws_len_rev (chr a) 0 = chr a).
  { apply trim_front_none. simpl. by not_ws Ha. }
  case_if; [rewrite Hc; by exists ""|]. rewrite srev_app_app. by eexists.
Qed.

Lemma dropCR_cases s : dropCR s = s \/ exists t, s = t +:+ chr CR /\ dropCR s = t.
Proof.
  unfold dropCR, TrimSuffix. case_if; [|by left]. apply HasSuffix_spec in Hif as [t ->]. right. exists t.
  split; [done|]. rewrite slength_app. replace (_ + _ - _)%nat with (String.length t) by lia. apply stake_app.
Qed.

(** ** Numbers and separators *)

Definition itoa_char (a : ascii) : bool := ((48 <=? code a) && (code a <=? 57) || (code a =? 45))%N.

Lemma digit_char_itoa z : itoa_char (digit_char (z mod 10)) = true.
Proof.
  assert (Hk : forall k, (0 <= k <= 9)%Z -> itoa_char (digit_char k) = true).
  { intros k Hk. assert (k = 0 \/ k = 1 \/ k = 2 \/ k = 3 \/ k = 4 \/ k = 5 \/ k = 6 \/ k = 7 \/ k = 8 \/ k = 9)%Z as Hc by lia.
    repeat destruct Hc as [->|Hc]; [done..|]. by subst. }
  apply Hk. pose proof (Z.mod_pos_bound z 10). lia.
Qed.

Lemma itoa_aux_chars fuel z acc :
  sforall itoa_char acc = true ->
  sforall itoa_char (itoa_aux fuel z acc) = true /\ (String.length (itoa_aux fuel z acc) <= fuel + String.length acc)%nat.
Proof.
  revert z acc. induction fuel as [|fuel IH]; intros z acc Hacc; cbn [itoa_aux]; [by split|].
  assert (Hd : sforall itoa_char (String (digit_char (z mod 10)) acc) = true).
  { cbn [sforall]. by rewrite digit_char_itoa. }
  case_if; [simpl; split; [done|lia]|]. destruct (IH (z / 10)%Z _ Hd) as [H1 H2]. split; [done|]. simpl in H2. lia.
Qed.

(** A printed number consists of digits and a sign. *)
Lemma Itoa_chars z : sforall itoa_char (Itoa z) = true /\ (String.length (Itoa z) <= 21)%nat.
Proof.
  unfold Itoa. case_if; [destruct (itoa_aux_chars 20 (- z) "") as [H1 H2]|destruct (itoa_aux_chars 20 z "") as [H1 H2]];
    try done; cbn [String.length] in *; split; try lia; [|done]. cbn [sforall]. by rewrite H1.
Qed.

Lemma Itoa_lacks a z : itoa_char a = false -> lacks a (Itoa z) = true.
Proof.
  intros Ha. destruct (Itoa_chars z) as [H _]. eapply sforall_impl; [|exact H].
  intros b Hb. apply negb_true_iff, Ascii.eqb_neq. congruence.
Qed.

Lemma Split_nonempty s a : Split s a <> [].
Proof. destruct s as [|b s]; simpl; [done|]. case_if; [done|]. by destruct (Split s a). Qed.

Lemma Split_lacks s a : lacks a s = true -> Split s a = [s].
Proof.
  unfold lacks. induction s as [|b s IH]; simpl; [done|]. intros [Hb Hs]%andb_true_iff.
  apply negb_true_iff in Hb as ->. by rewrite IH.
Qed.

Lemma Split_app_sep s a t : lacks a s = true -> Split (s +:+ String a t) a = s :: Split t a.
Proof.
  unfold lacks. induction s as [|b s IH]; simpl; [by rewrite Ascii.eqb_refl|].
  intros [Hb Hs]%andb_true_iff. apply negb_true_iff in Hb as ->. by rewrite IH.
Qed.

Lemma Split_lacks_all s a : Forall (fun w => lacks a w = true) (Split s a).
Proof.
  induction s as [|b s IH]; simpl; [by repeat constructor|]. case_if; [by constructor|].
  destruct (Split s a) as [|w ws]; [repeat constructor|inversion IH as [|?? Hw Hws]; subst; constructor; [|done]];
    unfold lacks in *; simpl; by rewrite Hif.
Qed.

(** Joining what lacks the separator and splitting again. *)
Lemma Split_Join l a : l <> [] -> Forall (fun w => lacks a w = true) l -> Split (Join l (chr a)) a = l.
Proof.
  intros Hl H. induction H as [|x l Hx H IH]; [done|]. destruct l as [|y l].
  - by apply Split_lacks.
  - transitivity (Split (x +:+ String a (Join (y :: l) (chr a))) a); [done|].
    rewrite Split_app_sep by done. f_equal. by apply IH.
Qed.

Lemma Split_app s a t : Split (s +:+ String a t) a = Split s a ++ Split t a.
Proof.
  induction s as [|b s IH]; simpl; [by rewrite Ascii.eqb_refl|]. case_if; [by rewrite IH|].
  rewrite IH. destruct (Split s a) eqn:E; [by apply Split_nonempty in E|done].
Qed.

(** ** Splitting at a longer separator *)

(** [strings.Split] for a separator of several bytes. *)
Fixpoint SplitSep_aux (s sep : string) (skip : nat) : list string :=
  match s with
  | EmptyString => [""]
  | String a rest =>
      match skip with
      | S k => SplitSep_aux rest sep k
      | O => if HasPrefix s sep then "" :: SplitSep_aux rest sep (String.length sep - 1)
             else match SplitSep_aux rest sep 0 with
                  | x :: l => String a x :: l
                  | [] => [chr a]
                  end
      end
  end.
Definition SplitSep (s sep : string) : list string := SplitSep_aux s sep 0.

Lemma SplitSep_lacks w a : lacks a w = true -> SplitSep w (String a (chr a)) = [w].
Proof.
  unfold lacks, SplitSep. induction w as [|b w IH]; [done|]. cbn [SplitSep_aux sforall HasPrefix].
  intros [Hb Hw]%andb_true_iff. apply negb_true_iff in Hb as ->. cbn. by rewrite IH.
Qed.

Lemma SplitSep_app w a t :
  lacks a w = true -> SplitSep (w +:+ String a (String a t)) (String a (chr a)) = w :: SplitSep t (String a (chr a)).
Proof.
  unfold lacks, SplitSep. induction w as [|b w IH]; cbn [SplitSep_aux sforall].
  - intros _. cbn [String.append SplitSep_aux HasPrefix chr]. rewrite !Ascii.eqb_refl. by destruct t.
  - intros [Hb Hw]%andb_true_iff. apply negb_true_iff in Hb. cbn [String.append SplitSep_aux HasPrefix]. rewrite Hb. cbn.
    by rewrite IH.
Qed.

Lemma SplitSep_Join l a :
  l <> [] -> Forall (fun w => lacks a w = true) l -> SplitSep (Join l (String a (chr a))) (String a (chr a)) = l.
Proof.
  intros Hl H. induction H as [|x l Hx H IH]; [done|]. destruct l as [|y l]; [by apply SplitSep_lacks|].
  transitivity (SplitSep (x +:+ String a (String a (Join (y :: l) (String a (chr a))))) (String a (chr a))); [done|].
  rewrite SplitSep_app by done. f_equal. by apply IH.
Qed.

(** ** Strings with visible ends *)

Definition starts (s : string) : bool := match s with String a _ => visible a | EmptyString => false end.
Definition ends (s : string) : bool := starts (srev s).

Lemma starts_app s t : starts s = true -> starts (s +:+ t) = true.
Proof. by destruct s. Qed.

Lemma ends_app s t : ends t = true -> ends (s +:+ t) = true.
Proof. unfold ends. intros H. rewrite srev_app_app. by apply starts_app. Qed.

Lemma ends_visible s : sforall visible s = true -> isEmpty s = false -> ends s = true.
Proof.
  unfold ends. rewrite <- sforall_srev, <- isEmpty_srev. destruct (srev s); [done|]. simpl. by intros [-> _]%andb_true_iff.
Qed.

Lemma starts_visible s : sforall visible s = true -> isEmpty s = false -> starts s = true.
Proof. destruct s; [done|]. simpl. by intros [-> _]%andb_true_iff. Qed.

Lemma ws_len_starts s : starts s = true -> ws_len s = 0%nat /\ ws_len_rev s = 0%nat.
Proof.
  destruct s as [|a s]; [done|]. simpl. intros Ha. assert (Hlt : (code a < 128)%N).
  { unfold visible in Ha. apply andb_true_iff in Ha as [_ H%N.leb_le]. lia. }
  split.
  - not_ws Ha. by destruct s as [|b [|c s]]; rewrite ?H2, ?H3.
  - not_ws Ha. destruct s as [|b [|c s]]; [done| |].
    + destruct (ws_ascii a (code b) Hlt) as (-> & _). done.
    + destruct (ws_ascii a (code b) Hlt) as (-> & _ & _). destruct (ws_ascii a (code c) Hlt) as (_ & _ & H).
      by destruct (H (code b)) as [-> _].
Qed.

(** Nothing to trim between visible ends. *)
Lemma TrimSpace_edges s : starts s = true -> ends s = true -> TrimSpace s = s.
Proof.
  intros Hs He. unfold TrimSpace, TrimRightSpace, TrimLeftSpace.
  rewrite (trim_front_none _ s) by (by apply ws_len_starts).
  rewrite trim_front_none by (by apply ws_len_starts). apply srev_involutive.
Qed.

(** ** The first separator *)

Lemma lacks_app a s t : lacks a (s +:+ t) = lacks a s && lacks a t.
Proof. apply sforall_app. Qed.

Lemma visible_lacks a s : visible a = false -> sforall visible s = true -> lacks a s = true.
Proof.
  intros Ha. apply sforall_impl. intros b Hb. apply negb_true_iff, Ascii.eqb_neq. congruence.
Qed.

Lemma Index_first s a u t : lacks a s = true -> Index (s +:+ String a (u +:+ t)) (String a u) = Some (String.length s).
Proof.
  unfold lacks. induction s as [|b s IH]; simpl.
  - intros _. rewrite Ascii.eqb_refl. by rewrite HasPrefix_app.
  - intros [Hb Hs]%andb_true_iff. apply negb_true_iff in Hb as ->. simpl. by rewrite IH.
Qed.

Lemma Cut_first s a t : lacks a s = true -> Cut (s +:+ String a t) (chr a) = (s, t, true).
Proof.
  intros Hs. unfold Cut. rewrite (Index_first s a "" t Hs : Index (s +:+ String a t) (chr a) = _).
  by rewrite stake_app, sdrop_app_plus.
Qed.

Lemma SplitN2_first s a t : lacks a s = true -> SplitN2 (s +:+ String a t) (chr a) = [s; t].
Proof. intros Hs. unfold SplitN2. by rewrite Cut_first. Qed.
