(* ===== verification/GoSort.v ===== *)
(** * Sorting (sort.SliceStable, sort.Strings)

    A stable insertion sort, which computes the result of Go's stable sorts for
    every comparison that is a strict weak order, and the proof that the orders
    used by the program are such. *)

From S2P Require Import Prelude F64 GoStrings.
From Stdlib Require Import SpecFloat.

Local Open Scope Z_scope.

(** [lt] is a strict weak order on the elements with [P]. *)
Class WeakOrder {A} (P : A -> Prop) (lt : A -> A -> bool) := {
  wo_asym x y : P x -> P y -> lt x y = true -> lt y x = false;
  wo_cotrans x y z : P x -> P y -> P z -> lt x z = true -> lt x y = true \/ lt y z = true
}.

Section Sort.
Context {A : Type} (lt : A -> A -> bool).

(** An element goes before those that are not smaller, so equal ones keep their order. *)
Fixpoint sort_insert (x : A) (l : list A) : list A :=
  match l with
  | [] => [x]
  | y :: r => if lt y x then y :: sort_insert x r else x :: l
  end.

Definition SliceStable (l : list A) : list A := foldr sort_insert [] l.

(** Not larger. *)
Definition not_after (x y : A) : Prop := lt y x = false.

Lemma sort_insert_perm x l : sort_insert x l ≡ₚ x :: l.
Proof.
  induction l as [|y r IH]; cbn [sort_insert]; [done|]. case_if; [|done].
  rewrite IH. apply Permutation_swap.
Qed.

Lemma SliceStable_perm l : SliceStable l ≡ₚ l.
Proof. induction l as [|x l IH]; [done|]. cbn. by rewrite sort_insert_perm, IH. Qed.

Context {P : A -> Prop} `{!WeakOrder P lt}.

Lemma not_after_trans x y z : P x -> P y -> P z -> not_after x y -> not_after y z -> not_after x z.
Proof.
  unfold not_after. intros Px Py Pz Hxy Hyz. destruct (lt z x) eqn:E; [|done].
  destruct (wo_cotrans z y x Pz Py Px E); congruence.
Qed.

Lemma sort_insert_sorted x l :
  P x -> Forall P l -> StronglySorted not_after l -> StronglySorted not_after (sort_insert x l).
Proof.
  intros Px Hl Hs. induction Hs as [|y r Hs IH Hy]; cbn [sort_insert]; [repeat constructor|].
  apply Forall_cons in Hl as [Py Hr]. destruct (lt y x) eqn:Hyx.
  - constructor; [by apply IH|]. rewrite sort_insert_perm. constructor; [|done]. by apply wo_asym.
  - constructor; [by constructor|]. constructor; [done|].
    rewrite Forall_forall in Hy, Hr |- *. intros z Hz. apply (not_after_trans x y z); auto.
Qed.

Lemma SliceStable_sorted l : Forall P l -> StronglySorted not_after (SliceStable l).
Proof.
  intros Hl. induction Hl as [|x l Px Hl IH]; cbn; [constructor|]. apply sort_insert_sorted; [done| |done].
  by rewrite (SliceStable_perm l).
Qed.

(** If elements that compare equal are equal, the result does not depend on the
    order in which the elements come. *)
Lemma SliceStable_unique l1 l2 :
  Forall P l1 -> l1 ≡ₚ l2 -> (forall x y, x ∈ l1 -> y ∈ l1 -> lt x y = false -> lt y x = false -> x = y) ->
  SliceStable l1 = SliceStable l2.
Proof.
  intros HP Hp Hanti. apply (StronglySorted_unique_strong not_after).
  - intros x y Hx Hy Hxy Hyx. rewrite SliceStable_perm in Hx. rewrite SliceStable_perm, <- Hp in Hy. by apply Hanti.
  - by apply SliceStable_sorted.
  - apply SliceStable_sorted. by rewrite <- Hp.
  - by rewrite !SliceStable_perm.
Qed.

End Sort.

(** ** Strings *)

Lemma ltb_leb s t : String.ltb s t = negb (String.leb t s).
Proof. unfold String.ltb, String.leb. rewrite (String.compare_antisym s t). by destruct (String.compare t s). Qed.

#[export] Instance string_order : WeakOrder (fun _ => True) String.ltb.
Proof.
  split.
  - intros s t _ _. rewrite !ltb_leb, negb_true_iff, negb_false_iff. intros H.
    destruct (String.leb_total s t); congruence.
  - intros s t u _ _ _. rewrite !ltb_leb, !negb_true_iff. intros H.
    destruct (String.leb t s) eqn:E1, (String.leb u t) eqn:E2; auto. exfalso.
    assert (Hus : (u ≤ s)%string) by (transitivity t; unfold String.le; [rewrite E2|rewrite E1]; done).
    unfold String.le in Hus. rewrite H in Hus. done.
Qed.

(** ** Numbers *)

(** A number on the scale of [2^E], with the infinities outside. *)
Definition scaled (E : Z) (x : float64) : option Z :=
  match parts x with Some (m, e) => if E <=? e then Some (m * 2 ^ (e - E)) else None | None => None end.

Definition exponent (x : float64) : Z := match parts x with Some (_, e) => e | None => 0 end.

Lemma scaled_finite E x : is_finite x = true -> E <= exponent x -> is_Some (scaled E x).
Proof.
  unfold scaled, exponent. destruct x; try done; cbn [parts]; intros _ H; rewrite (proj2 (Z.leb_le _ _)) by done; eauto.
Qed.

Lemma compare_scale m1 m2 k : 0 <= k -> Z.compare (m1 * 2 ^ k) (m2 * 2 ^ k) = Z.compare m1 m2.
Proof.
  intros Hk. assert (0 < 2 ^ k) by (by apply Z.pow_pos_nonneg).
  destruct (Z.compare_spec (m1 * 2 ^ k) (m2 * 2 ^ k)), (Z.compare_spec m1 m2); try done; nia.
Qed.

Lemma fcompare_scaled E x y a b :
  scaled E x = Some a -> scaled E y = Some b -> fcompare x y = Some (Z.compare a b).
Proof.
  assert (Hpp : forall m1 e1 m2 e2, E <= e1 -> E <= e2 ->
    Z.compare (m1 * 2 ^ (e1 - Z.min e1 e2)) (m2 * 2 ^ (e2 - Z.min e1 e2)) = Z.compare (m1 * 2 ^ (e1 - E)) (m2 * 2 ^ (e2 - E))).
  { intros m1 e1 m2 e2 H1 H2. rewrite <- (compare_scale _ _ (Z.min e1 e2 - E)) by lia.
    rewrite <- !Z.mul_assoc, <- !Z.pow_add_r by lia. f_equal; do 2 f_equal; lia. }
  unfold scaled. intros Hx Hy.
  destruct x, y; cbn [parts] in *; try done; repeat case_match; simplify_eq; bool_to_prop; cbn [fcompare parts]; f_equal; apply Hpp; lia.
Qed.

#[export] Instance float_order : WeakOrder (fun x => is_nan x = false) fltb.
Proof.
  split.
  - intros x y _ _. unfold fltb. intros H.
    destruct (is_finite x) eqn:Fx, (is_finite y) eqn:Fy; [|by destruct x, y as [| [] | |]|by destruct x as [|[]| |], y|by destruct x as [|[]| |], y as [|[]| |]].
    destruct (scaled_finite (Z.min (exponent x) (exponent y)) x) as [a Ha]; [done|lia|].
    destruct (scaled_finite (Z.min (exponent x) (exponent y)) y) as [b Hb]; [done|lia|].
    erewrite fcompare_scaled in H |- * by eassumption. destruct (Z.compare_spec a b); try done.
    destruct (Z.compare_spec b a); try done; lia.
  - intros x y z Nx Ny Nz. unfold fltb. intros H.
    destruct (is_finite x) eqn:Fx, (is_finite y) eqn:Fy, (is_finite z) eqn:Fz;
      try (destruct x as [|[]| |], y as [|[]| |], z as [|[]| |]; cbn in *; try done; by auto).
    set (E := Z.min (exponent x) (Z.min (exponent y) (exponent z))).
    destruct (scaled_finite E x) as [a Ha]; [done|lia|]. destruct (scaled_finite E y) as [b Hb]; [done|lia|].
    destruct (scaled_finite E z) as [c Hc]; [done|lia|].
    rewrite (fcompare_scaled E x y a b), (fcompare_scaled E y z b c) by done. rewrite (fcompare_scaled E x z a c) in H by done.
    destruct (Z.compare_spec a c); try done. destruct (Z.compare_spec a b); auto; destruct (Z.compare_spec b c); auto; lia.
Qed.

Lemma feqb_spec x y : is_nan x = false -> is_nan y = false -> feqb x y = negb (fltb x y) && negb (fltb y x).
Proof.
  intros Nx Ny. destruct (is_finite x) eqn:Fx, (is_finite y) eqn:Fy;
    [|by destruct x, y as [|[]| |]|by destruct x as [|[]| |], y|by destruct x as [|[]| |], y as [|[]| |]].
  set (E := Z.min (exponent x) (exponent y)).
  destruct (scaled_finite E x) as [a Ha]; [done|lia|]. destruct (scaled_finite E y) as [b Hb]; [done|lia|].
  unfold feqb, fltb. rewrite (fcompare_scaled E x y a b), (fcompare_scaled E y x b a) by done.
  rewrite (Z.compare_antisym a b). by destruct (a ?= b).
Qed.

Lemma fleb_spec x y : is_nan x = false -> is_nan y = false -> fleb x y = negb (fltb y x).
Proof.
  intros Nx Ny. destruct (is_finite x) eqn:Fx, (is_finite y) eqn:Fy;
    [|by destruct x, y as [|[]| |]|by destruct x as [|[]| |], y|by destruct x as [|[]| |], y as [|[]| |]].
  set (E := Z.min (exponent x) (exponent y)).
  destruct (scaled_finite E x) as [a Ha]; [done|lia|]. destruct (scaled_finite E y) as [b Hb]; [done|lia|].
  unfold fleb, fltb. rewrite (fcompare_scaled E x y a b), (fcompare_scaled E y x b a) by done.
  rewrite (Z.compare_antisym a b). by destruct (a ?= b).
Qed.

(** ** Orders from orders *)

Lemma wo_ext {A} (P : A -> Prop) (lt lt' : A -> A -> bool) :
  (forall x y, P x -> P y -> lt' x y = lt x y) -> WeakOrder P lt -> WeakOrder P lt'.
Proof.
  intros He [Ha Hc]. split; intros *.
  - intros Hx Hy. rewrite !He by done. auto.
  - intros Hx Hy Hz. rewrite !He by done. auto.
Qed.

Lemma wo_sub {A} (P Q : A -> Prop) (lt : A -> A -> bool) : (forall x, Q x -> P x) -> WeakOrder P lt -> WeakOrder Q lt.
Proof. intros He [Ha Hc]. split; eauto. Qed.

Lemma wo_preimage {A B} (f : B -> A) (P : A -> Prop) lt : WeakOrder P lt -> WeakOrder (fun x => P (f x)) (fun x y => lt (f x) (f y)).
Proof. intros [Ha Hc]. split; eauto. Qed.

Lemma wo_flip {A} (P : A -> Prop) lt : WeakOrder P lt -> WeakOrder P (fun x y => lt y x).
Proof. intros [Ha Hc]. split; [eauto|]. intros x y z Hx Hy Hz H. destruct (Hc z y x Hz Hy Hx H); auto. Qed.

(** First by [lt1], then by [lt2]. *)
Definition lex {A} (lt1 lt2 : A -> A -> bool) (x y : A) : bool := lt1 x y || (negb (lt1 y x) && lt2 x y).

Lemma wo_lex {A} (P : A -> Prop) lt1 lt2 : WeakOrder P lt1 -> WeakOrder P lt2 -> WeakOrder P (lex lt1 lt2).
Proof.
  intros [Ha1 Hc1] [Ha2 Hc2]. unfold lex. split.
  - intros x y Hx Hy. pose proof (Ha1 x y Hx Hy). pose proof (Ha1 y x Hy Hx). pose proof (Ha2 x y Hx Hy).
    destruct (lt1 x y), (lt1 y x), (lt2 x y), (lt2 y x); naive_solver.
  - intros x y z Hx Hy Hz.
    pose proof (Hc1 x y z Hx Hy Hz). pose proof (Hc1 y x z Hy Hx Hz). pose proof (Hc1 x z y Hx Hz Hy).
    pose proof (Hc1 z y x Hz Hy Hx). pose proof (Hc1 y z x Hy Hz Hx). pose proof (Hc1 z x y Hz Hx Hy).
    pose proof (Ha1 x y Hx Hy). pose proof (Ha1 y z Hy Hz). pose proof (Ha1 x z Hx Hz). pose proof (Hc2 x y z Hx Hy Hz).
    destruct (lt1 x y), (lt1 y x), (lt1 y z), (lt1 z y), (lt1 x z), (lt1 z x); naive_solver.
Qed.

(** ** [dedupeSorted] (internal/analyzer/analyzer.go) *)

Fixpoint dedupe_trimmed (l seen : list string) : list string :=
  match l with
  | [] => []
  | v :: rest =>
      let v := TrimSpace v in
      if isEmpty v || existsb (String.eqb v) seen then dedupe_trimmed rest seen else v :: dedupe_trimmed rest (v :: seen)
  end.

Definition dedupeSorted (l : list string) : list string := SliceStable String.ltb (dedupe_trimmed l []).

Lemma dedupe_trimmed_spec l seen :
  NoDup (dedupe_trimmed l seen)
  /\ forall s, s ∈ dedupe_trimmed l seen <-> s <> EmptyString /\ s ∉ seen /\ exists v, v ∈ l /\ TrimSpace v = s.
Proof.
  revert seen. induction l as [|v l IH]; intros seen; cbn [dedupe_trimmed].
  { split; [constructor|]. set_solver. }
  assert (Hseen : existsb (String.eqb (TrimSpace v)) seen = true <-> TrimSpace v ∈ seen).
  { rewrite existsb_exists. split; [intros (x & Hx & ->%String.eqb_eq); by apply list_elem_of_In|].
    intros H. exists (TrimSpace v). split; [by apply list_elem_of_In|apply String.eqb_refl]. }
  assert (Hempty : isEmpty (TrimSpace v) = true <-> TrimSpace v = EmptyString) by (by destruct (TrimSpace v)).
  destruct (isEmpty (TrimSpace v) || existsb (String.eqb (TrimSpace v)) seen) eqn:E.
  - rewrite orb_true_iff, Hempty, Hseen in E. destruct (IH seen) as [Hn Hs]. split; [done|].
    intros s. rewrite Hs. setoid_rewrite elem_of_cons. destruct E; naive_solver.
  - apply orb_false_iff in E as [E1 E2]. destruct (IH (TrimSpace v :: seen)) as [Hn Hs].
    apply not_true_iff_false in E1, E2. rewrite Hempty in E1. rewrite Hseen in E2. split.
    + constructor; [|done]. rewrite Hs. set_solver.
    + intros s. rewrite elem_of_cons, Hs, not_elem_of_cons. setoid_rewrite elem_of_cons.
      destruct (decide (s = TrimSpace v)) as [->|]; naive_solver.
Qed.

(** Sorted, without duplicates and blanks, and with the same trimmed texts. *)
Lemma dedupeSorted_spec l :
  StronglySorted (not_after String.ltb) (dedupeSorted l) /\ NoDup (dedupeSorted l)
  /\ forall s, s ∈ dedupeSorted l <-> s <> EmptyString /\ exists v, v ∈ l /\ TrimSpace v = s.
Proof.
  destruct (dedupe_trimmed_spec l []) as [Hn Hs]. unfold dedupeSorted. split_and!.
  - apply (SliceStable_sorted String.ltb (P := fun _ => True)). by apply Forall_true.
  - by rewrite SliceStable_perm.
  - intros s. rewrite SliceStable_perm, Hs. set_solver.
Qed.
