(* ===== verification/GoTime.v ===== *)
(** * Go's [time.ParseDuration], [time.Duration.String] and UTF-8 decoding

    A [time.Duration] is a signed 64-bit number of nanoseconds. [ParseDuration]
    follows the library: unsigned accumulation with overflow checks, and the
    fraction of a unit computed in binary64. *)

From S2P Require Import Prelude F64 GoStrings.

Local Open Scope string_scope.
Local Open Scope list_scope.
Local Open Scope Z_scope.

Definition nanosecond : Z := 1.
Definition microsecond : Z := 1000.
Definition millisecond : Z := 1000000.
Definition second : Z := 1000000000.
Definition minute : Z := 60 * second.
Definition hour : Z := 60 * minute.

Definition two63 : Z := 2 ^ 63.

(** The units; the micro sign U+00B5 and the Greek mu U+03BC are both accepted. *)
Definition unit_of (u : string) : option Z :=
  if String.eqb u "ns" then Some nanosecond
  else if String.eqb u "us" then Some microsecond
  else if String.eqb u "µs" then Some microsecond
  else if String.eqb u "μs" then Some microsecond
  else if String.eqb u "ms" then Some millisecond
  else if String.eqb u "s" then Some second
  else if String.eqb u "m" then Some minute
  else if String.eqb u "h" then Some hour
  else None.

Definition digit_of (a : ascii) : Z := Z.of_N (code a) - 48.

(** The leading digits: value and rest; [None] on overflow. *)
Fixpoint leadingInt (s : string) (x : Z) : option (Z * string) :=
  match s with
  | String a s' =>
      if is_digit a then
        if two63 / 10 <? x then None
        else let x := x * 10 + digit_of a in
             if two63 <? x then None else leadingInt s' x
      else Some (x, s)
  | EmptyString => Some (x, s)
  end.

(** The digits behind the point: value, scale and rest; digits that no longer
    fit are dropped. *)
Fixpoint leadingFraction (s : string) (x : Z) (scale : float64) (overflow : bool) : Z * float64 * string :=
  match s with
  | String a s' =>
      if is_digit a then
        if overflow then leadingFraction s' x scale true
        else if (two63 - 1) / 10 <? x then leadingFraction s' x scale true
        else let y := x * 10 + digit_of a in
             if two63 <? y then leadingFraction s' x scale true
             else leadingFraction s' y (fmul scale (f_of_Z 10)) false
      else (x, scale, s)
  | EmptyString => (x, scale, s)
  end.

(** The unit: everything up to the next digit or point. *)
Fixpoint unit_span (s : string) : string * string :=
  match s with
  | String a s' =>
      if Ascii.eqb a "." || is_digit a then ("", s)
      else let '(u, r) := unit_span s' in (String a u, r)
  | EmptyString => ("", "")
  end.

(** The loop; every round consumes at least a digit or point and a unit. *)
Fixpoint duration_loop (fuel : nat) (s : string) (d : Z) : option Z :=
  match s with
  | EmptyString => Some d
  | String a _ =>
      match fuel with
      | O => None
      | S fuel' =>
          if negb (Ascii.eqb a "." || is_digit a) then None
          else match leadingInt s 0 with
          | None => None
          | Some (v, s1) =>
              let pre := negb (String.length s =? String.length s1)%nat in
              let '(f, scale, s2, post) :=
                match s1 with
                | String "." s1' =>
                    let '(f, scale, s2) := leadingFraction s1' 0 (f_of_Z 1) false in
                    (f, scale, s2, negb (String.length s1' =? String.length s2)%nat)
                | _ => (0, f_of_Z 1, s1, false)
                end in
              if negb pre && negb post then None
              else
                let '(u, s3) := unit_span s2 in
                if isEmpty u then None
                else match unit_of u with
                | None => None
                | Some unit =>
                    if two63 / unit <? v then None
                    else
                      let v := v * unit in
                      let v := if 0 <? f then v + ftrunc (fmul (f_of_Z f) (fdiv (f_of_Z unit) scale)) else v in
                      if two63 <? v then None
                      else if two63 <? d + v then None
                      else duration_loop fuel' s3 (d + v)
                end
          end
      end
  end.

Definition ParseDuration (s : string) : option Z :=
  let '(neg, s) :=
    match s with
    | String a s' => if Ascii.eqb a "-" then (true, s') else if Ascii.eqb a "+" then (false, s') else (false, s)
    | EmptyString => (false, s)
    end in
  if String.eqb s "0" then Some 0
  else if isEmpty s then None
  else match duration_loop (String.length s) s 0 with
       | None => None
       | Some d => if neg then Some (- d) else if two63 - 1 <? d then None else Some d
       end.

(** ** Printing *)

(** Decimal digits of the fraction [v / 10^prec] without trailing zeros, with the
    point in front, and the whole part; the work of [fmtFrac]. *)
Fixpoint fmtFrac (prec : nat) (v : Z) (print : bool) (acc : string) : string * Z :=
  match prec with
  | O => (if print then String "." acc else acc, v)
  | S n =>
      let digit := Z.rem v 10 in
      let print := print || negb (digit =? 0) in
      fmtFrac n (Z.quot v 10) print (if print then String (digit_char digit) acc else acc)
  end.

(** [time.Duration.String] for durations above the smallest 64-bit number. *)
Definition Duration_String (d : Z) : string :=
  let u := Z.abs d in
  let sign := if d <? 0 then "-" else "" in
  if u =? 0 then "0s"
  else if u <? second then
    if u <? microsecond then sign +:+ Itoa u +:+ "ns"
    else if u <? millisecond then let '(frac, v) := fmtFrac 3 u false "" in sign +:+ Itoa v +:+ frac +:+ "µs"
    else let '(frac, v) := fmtFrac 6 u false "" in sign +:+ Itoa v +:+ frac +:+ "ms"
  else
    let '(frac, v) := fmtFrac 9 u false "" in
    let secs := Itoa (v mod 60) +:+ frac +:+ "s" in
    let v := v / 60 in
    if v =? 0 then sign +:+ secs
    else
      let mins := Itoa (v mod 60) +:+ "m" +:+ secs in
      let v := v / 60 in
      if v =? 0 then sign +:+ mins else sign +:+ Itoa v +:+ "h" +:+ mins.

Example duration_string_hours : Duration_String (90 * minute) = "1h30m0s".
Proof. vm_compute. reflexivity. Qed.
Example duration_string_fraction : Duration_String (- (1500 * millisecond)) = "-1.5s".
Proof. vm_compute. reflexivity. Qed.
Example duration_string_small : Duration_String (2 * millisecond + 50 * microsecond) = "2.05ms".
Proof. vm_compute. reflexivity. Qed.

(** ** Runes *)

Definition cont (a : ascii) : bool := ((128 <=? code a) && (code a <=? 191))%N.
Definition byte_in (lo hi : N) (a : ascii) : bool := ((lo <=? code a) && (code a <=? hi))%N.

(** The rune at the front of a string and its length in bytes; an invalid byte
    is U+FFFD of length one. *)
Definition decode_rune (s : string) : Z * nat :=
  let z (a : ascii) := Z.of_N (code a) in
  match s with
  | EmptyString => (65533, 0%nat)
  | String a s1 =>
      if (code a <? 128)%N then (z a, 1%nat)
      else match s1 with
      | String b s2 =>
          if byte_in 194 223 a && cont b then ((z a - 192) * 64 + (z b - 128), 2%nat)
          else match s2 with
          | String c s3 =>
              let ok2 := if Ascii.eqb a (ascii_of_N 224) then byte_in 160 191 b
                         else if Ascii.eqb a (ascii_of_N 237) then byte_in 128 159 b else cont b in
              if byte_in 224 239 a && ok2 && cont c
              then ((z a - 224) * 4096 + (z b - 128) * 64 + (z c - 128), 3%nat)
              else match s3 with
              | String d _ =>
                  let ok2 := if Ascii.eqb a (ascii_of_N 240) then byte_in 144 191 b
                             else if Ascii.eqb a (ascii_of_N 244) then byte_in 128 143 b else cont b in
                  if byte_in 240 244 a && ok2 && cont c && cont d
                  then ((z a - 240) * 262144 + (z b - 128) * 4096 + (z c - 128) * 64 + (z d - 128), 4%nat)
                  else (65533, 1%nat)
              | EmptyString => (65533, 1%nat)
              end
          | EmptyString => (65533, 1%nat)
          end
      | EmptyString => (65533, 1%nat)
      end
  end.

(** [[]rune(s)]. *)
Fixpoint runes_aux (s : string) (skip : nat) : list Z :=
  match s with
  | EmptyString => []
  | String _ s' =>
      match skip with
      | S k => runes_aux s' k
      | O => let '(r, n) := decode_rune s in r :: runes_aux s' (n - 1)
      end
  end.
Definition runes (s : string) : list Z := runes_aux s 0.

(** [unicode.IsControl]. *)
Definition IsControl (r : Z) : bool := ((0 <=? r) && (r <=? 31)) || ((127 <=? r) && (r <=? 159)).

Example duration_90m : ParseDuration "1h30m" = Some (90 * minute).
Proof. vm_compute. reflexivity. Qed.
Example duration_fraction : ParseDuration "-1.5s" = Some (- (1500 * millisecond)).
Proof. vm_compute. reflexivity. Qed.
Example duration_no_unit : ParseDuration "30" = None.
Proof. vm_compute. reflexivity. Qed.
Example duration_overflow : ParseDuration "2562048h" = None.
Proof. vm_compute. reflexivity. Qed.
Example runes_umlaut : List.length (runes "Entwürfe") = 8%nat.
Proof. vm_compute. reflexivity. Qed.
