(* ===== verification/Regex.v ===== *)
(** * Go's [regexp]

    The regular expressions the program uses, with the leftmost-first matching
    of Go's [regexp] package. A text is a list of cells: a rune and the bytes it
    was read from, an invalid byte counting as U+FFFD. The matcher tries the
    alternatives in order and passes the rest of the work as a continuation;
    [matches] is the declarative meaning, and the matcher is proved sound and
    complete for it. A group adds the text it matched to the captures. *)

From S2P Require Import Prelude GoStrings GoTime.

Local Open Scope string_scope.
Local Open Scope list_scope.
Local Open Scope Z_scope.

(** ** Texts *)

Notation cell := (Z * string)%type.

Fixpoint cells_aux (s : string) (skip : nat) : list cell :=
  match s with
  | EmptyString => []
  | String _ s' =>
      match skip with
      | S k => cells_aux s' k
      | O => let '(r, n) := decode_rune s in (r, stake n s) :: cells_aux s' (n - 1)
      end
  end.
Definition cells (s : string) : list cell := cells_aux s 0.

Fixpoint text_of (l : list cell) : string :=
  match l with
  | [] => ""
  | (_, b) :: rest => b +:+ text_of rest
  end.

(** ** Expressions *)

Inductive regex :=
| REmpty
| RSet (p : Z -> bool)
| RSeq (a b : regex)
| RAlt (a b : regex)
| RStar (a : regex)
| RGroup (a : regex)
| RBegin
| REnd
| RWordB.

(** Where the matcher stands: the rune before, the cells still to come, and the
    captures so far. *)
Record pos := mkPos { p_prev : option Z; p_rest : list cell; p_caps : list string }.

(** A word character of [\b]. *)
Definition word_rune (c : Z) : bool :=
  ((48 <=? c) && (c <=? 57)) || ((65 <=? c) && (c <=? 90)) || ((97 <=? c) && (c <=? 122)) || (c =? 95).

Definition word_at (c : option Z) : bool := match c with Some c => word_rune c | None => false end.
Definition next_rune (st : pos) : option Z := fst <$> head (p_rest st).
Definition at_word_boundary (st : pos) : bool := xorb (word_at (p_prev st)) (word_at (next_rune st)).

(** The cells between two positions. *)
Definition consumed (st st' : pos) : list cell :=
  take (List.length (p_rest st) - List.length (p_rest st')) (p_rest st).

Definition shorter (st' st : pos) : bool := (List.length (p_rest st') <? List.length (p_rest st))%nat.

Definition capture (st st' : pos) : pos :=
  mkPos (p_prev st') (p_rest st') (p_caps st' ++ [text_of (consumed st st')]).

Definition is_none {A} (o : option A) : bool := match o with None => true | Some _ => false end.

(** Greedy repetition; a round that consumes nothing is not repeated. *)
Fixpoint star_loop {A} (step : pos -> (pos -> option A) -> option A) (k : pos -> option A) (n : nat) (st : pos) : option A :=
  match n with
  | O => k st
  | S n' =>
      match step st (fun st' => if shorter st' st then star_loop step k n' st' else None) with
      | Some x => Some x
      | None => k st
      end
  end.

Fixpoint run {A} (r : regex) (st : pos) (k : pos -> option A) {struct r} : option A :=
  match r with
  | REmpty => k st
  | RSet p =>
      match p_rest st with
      | (c, _) :: rest => if p c then k (mkPos (Some c) rest (p_caps st)) else None
      | [] => None
      end
  | RSeq a b => run a st (fun st' => run b st' k)
  | RAlt a b => match run a st k with Some x => Some x | None => run b st k end
  | RStar a =>
      star_loop (run a) k (List.length (p_rest st)) st
  | RGroup a => run a st (fun st' => k (capture st st'))
  | RBegin => if is_none (p_prev st) then k st else None
  | REnd => if is_none (next_rune st) then k st else None
  | RWordB => if at_word_boundary st then k st else None
  end.

Definition match_at (r : regex) (prev : option Z) (s : list cell) : option pos :=
  run r (mkPos prev s []) Some.

(** The leftmost match: the cells from its start on, and the position at its end. *)
Fixpoint search (r : regex) (prev : option Z) (s : list cell) : option (list cell * pos) :=
  match match_at r prev s with
  | Some st => Some (s, st)
  | None => match s with
            | [] => None
            | (c, _) :: s' => search r (Some c) s'
            end
  end.

Definition matched (m : list cell * pos) : string :=
  text_of (take (List.length (fst m) - List.length (p_rest (snd m))) (fst m)).

(** [MatchString]. *)
Definition MatchString (r : regex) (s : string) : bool := negb (is_none (search r None (cells s))).

(** [FindStringSubmatch]: the captures of the leftmost match. *)
Definition FindStringSubmatch (r : regex) (s : string) : option (list string) :=
  (fun m => p_caps (snd m)) <$> search r None (cells s).

(** [FindAllString] with no limit. An empty match is not reported right behind
    another match. [prevEnd] is the length of the rest at the end of the match
    before. Every round shortens the text, so its length plus one is fuel enough. *)
Fixpoint find_all (fuel : nat) (r : regex) (prev : option Z) (s : list cell) (prevEnd : option nat) : list string :=
  match fuel with
  | O => []
  | S f =>
      match search r prev s with
      | None => []
      | Some (start, st) =>
          let here := Some (List.length (p_rest st)) in
          if (List.length (p_rest st) =? List.length s)%nat then
            (if bool_decide (prevEnd = here) then [] else [matched (start, st)])
            ++ match s with
               | [] => []
               | (c, _) :: s' => find_all f r (Some c) s' here
               end
          else matched (start, st) :: find_all f r (p_prev st) (p_rest st) here
      end
  end.
Definition FindAllString (r : regex) (s : string) : list string :=
  find_all (S (List.length (cells s))) r None (cells s) None.

(** ** Notation for expressions *)

Definition ascii_range (lo hi : Z) (c : Z) : bool := (lo <=? c) && (c <=? hi).
Definition rune_is (a : Z) (c : Z) : bool := c =? a.
Definition rune_in (s : string) (c : Z) : bool := existsb (Z.eqb c) (runes s).

(** [\d] and [\s]. *)
Definition digit_rune : Z -> bool := ascii_range 48 57.
Definition space_rune (c : Z) : bool := existsb (Z.eqb c) [9; 10; 12; 13; 32].
(** [.] without the [s] flag. *)
Definition dot_rune (c : Z) : bool := negb (c =? 10).

(** The runes that [(?i)] treats like an ASCII letter or the umlaut of the
    patterns: upper and lower case, the Kelvin sign and the long s. *)
Definition fold_rune (c : Z) : Z :=
  if ascii_range 65 90 c then c + 32
  else if c =? 8490 then 107 else if c =? 383 then 115
  else if c =? 196 then 228 else c.

Definition lit_with (f : Z -> Z -> bool) (s : string) : regex :=
  foldr (fun c r => RSeq (RSet (f c)) r) REmpty (runes s).
Definition rlit (s : string) : regex := lit_with rune_is s.
(** A literal under [(?i)]; written in lower case. *)
Definition ilit (s : string) : regex := lit_with (fun a c => fold_rune c =? a) s.

Definition ropt (r : regex) : regex := RAlt r REmpty.
Definition rplus (r : regex) : regex := RSeq r (RStar r).
Fixpoint upto (n : nat) (r : regex) : regex :=
  match n with
  | O => REmpty
  | S n' => ropt (RSeq r (upto n' r))
  end.
(** [r{1,n}]. *)
Definition between1 (n : nat) (r : regex) : regex := RSeq r (upto (n - 1) r).
Definition seq_of (l : list regex) : regex := foldr RSeq REmpty l.
Fixpoint alt_of (l : list regex) : regex :=
  match l with
  | [] => RSet (fun _ => false)
  | [r] => r
  | r :: rest => RAlt r (alt_of rest)
  end.

(** ** Meaning *)

Inductive matches : regex -> pos -> pos -> Prop :=
| m_empty st : matches REmpty st st
| m_set p c b rest st :
    p_rest st = (c, b) :: rest -> p c = true -> matches (RSet p) st (mkPos (Some c) rest (p_caps st))
| m_seq a b st st1 st2 : matches a st st1 -> matches b st1 st2 -> matches (RSeq a b) st st2
| m_alt_l a b st st' : matches a st st' -> matches (RAlt a b) st st'
| m_alt_r a b st st' : matches b st st' -> matches (RAlt a b) st st'
| m_star_stop a st : matches (RStar a) st st
| m_star_step a st st1 st2 :
    matches a st st1 -> shorter st1 st = true -> matches (RStar a) st1 st2 -> matches (RStar a) st st2
| m_group a st st' : matches a st st' -> matches (RGroup a) st (capture st st')
| m_begin st : p_prev st = None -> matches RBegin st st
| m_end st : next_rune st = None -> matches REnd st st
| m_wordb st : at_word_boundary st = true -> matches RWordB st st.

#[export] Hint Constructors matches : regex.

Lemma is_none_spec {A} (o : option A) : is_none o = true <-> o = None.
Proof. by destruct o. Qed.

(** Whatever the matcher reports is a match. *)
Lemma run_sound {A} r st (k : pos -> option A) x :
  run r st k = Some x -> exists st', matches r st st' /\ k st' = Some x.
Proof.
  revert st k x. induction r as [|p|a IHa b IHb|a IHa b IHb|a IHa|a IHa| | |]; intros st k x; cbn [run].
  - eauto with regex.
  - destruct (p_rest st) as [|[c b] rest] eqn:E; [done|]. case_if; [|done]. eauto with regex.
  - intros (st1 & H1 & (st2 & H2 & H3)%IHb)%IHa. eauto with regex.
  - destruct (run a st k) as [y|] eqn:E.
    + intros [= ->]. apply IHa in E as (st' & ? & ?). eauto with regex.
    + intros (st' & ? & ?)%IHb. eauto with regex.
  - generalize (List.length (p_rest st)) as n. intros n. revert st. induction n as [|n IHn]; intros st; [eauto with regex|].
    cbn [star_loop]. destruct (run a st _) as [y|] eqn:E; [|eauto with regex].
    intros [= ->]. apply IHa in E as (st1 & H1 & H2). destruct (shorter st1 st) eqn:Es; [|done].
    apply IHn in H2 as (st2 & ? & ?). eauto with regex.
  - intros (st' & ? & ?)%IHa. eauto with regex.
  - case_if; [|done]. apply is_none_spec in Hif. eauto with regex.
  - case_if; [|done]. apply is_none_spec in Hif. eauto with regex.
  - case_if; [|done]. eauto with regex.
Qed.

(** A match cannot lengthen the text. *)
Lemma matches_length r st st' : matches r st st' -> (List.length (p_rest st') <= List.length (p_rest st))%nat.
Proof.
  induction 1; simpl; try lia. rewrite H. simpl. lia.
Qed.

Lemma star_complete {A} a (k : pos -> option A) :
  (forall st st' k, matches a st st' -> k st' <> None -> run (A:=A) a st k <> None) ->
  forall st st', matches (RStar a) st st' -> k st' <> None ->
  forall n, (List.length (p_rest st) <= n)%nat -> star_loop (run a) k n st <> None.
Proof.
  intros IHa st st' Hm Hk. remember (RStar a) as r eqn:Er. revert Er Hk.
  induction Hm as [| | | | |a' st|a' st st1 st2 H1 _ Hs H2 IH| | | |]; intros Er Hk n Hn; try done; injection Er as ->.
  - destruct n; cbn [star_loop]; [done|]. by destruct (run a st _).
  - unfold shorter in Hs. destruct n as [|n]; [bool_to_prop; lia|]. cbn [star_loop].
    destruct (run a st _) eqn:E; [done|]. exfalso. revert E. eapply IHa; [done|]. cbn beta.
    unfold shorter. rewrite Hs. apply IH; [done|done|]. bool_to_prop. lia.
Qed.

(** Whenever some match lets the continuation succeed, the matcher succeeds. *)
Lemma run_complete {A} r st st' (k : pos -> option A) :
  matches r st st' -> k st' <> None -> run r st k <> None.
Proof.
  revert st st' k. induction r as [|p|a IHa b IHb|a IHa b IHb|a IHa|a IHa| | |]; intros st st' k Hm Hk; cbn [run].
  - by inversion Hm; subst.
  - inversion Hm as [|? c b rest ? E Hp| | | | | | | | |]; subst. by rewrite E, Hp.
  - inversion Hm; subst. eapply IHa; [done|]. by eapply IHb.
  - destruct (run a st k) eqn:E; [done|]. inversion Hm; subst; [|by eapply IHb]. exfalso. revert E. by eapply IHa.
  - by eapply star_complete.
  - inversion Hm; subst. by eapply IHa.
  - inversion Hm as [| | | | | | | |? E| |]; subst. by rewrite E.
  - inversion Hm as [| | | | | | | | |? E|]; subst. by rewrite E.
  - inversion Hm as [| | | | | | | | | |? E]; subst. by rewrite E.
Qed.

(** ** Searching *)

Lemma match_at_complete r prev s st' : matches r (mkPos prev s []) st' -> match_at r prev s <> None.
Proof. intros Hm. by eapply (run_complete r _ _ Some). Qed.

(** The position in front of [suf] when [pre] has been read. *)
Definition at_pos (prev : option Z) (pre suf : list cell) : pos :=
  mkPos (match last pre with Some (c, _) => Some c | None => prev end) suf [].

Lemma at_pos_cons prev c b (pre suf : list cell) : at_pos prev ((c, b) :: pre) suf = at_pos (Some c) pre suf.
Proof. unfold at_pos. rewrite last_cons. by destruct (last pre) as [[? ?]|]. Qed.

(** The search returns a match, and none starts further left. *)
Lemma search_spec r prev s :
  match search r prev s with
  | Some (start, st) =>
      exists pre, s = pre ++ start /\ matches r (at_pos prev pre start) st
        /\ forall pre' suf', s = pre' ++ suf' -> (List.length pre' < List.length pre)%nat ->
             forall st', ~ matches r (at_pos prev pre' suf') st'
  | None => forall pre suf st', s = pre ++ suf -> ~ matches r (at_pos prev pre suf) st'
  end.
Proof.
  revert prev. induction s as [|[c b] s IH]; intros prev; cbn [search];
    (destruct (match_at r prev _) as [st|] eqn:E;
     [unfold match_at in E; apply run_sound in E as (st' & Hm & [= ->]); exists []; split_and!; [done|exact Hm|intros; simpl in *; lia]|]).
  - intros [|] suf st'; [|done]. intros Heq Hm. simpl in Heq. subst suf. exact (match_at_complete r prev _ st' Hm E).
  - specialize (IH (Some c)). destruct (search r (Some c) s) as [[start st]|].
    + destruct IH as (pre & -> & Hm & Hleft). exists ((c, b) :: pre). rewrite at_pos_cons. split_and!; [done|done|].
      intros [|[c' b'] pre'] suf' Heq Hlt st' Hm'.
      * simpl in Heq. subst suf'. exact (match_at_complete r prev _ st' Hm' E).
      * injection Heq as <- <- Heq. rewrite at_pos_cons in Hm'. eapply Hleft; [done| |done]. simpl in Hlt. lia.
    + intros [|[c' b'] pre'] suf' st' Heq Hm'.
      * simpl in Heq. subst suf'. exact (match_at_complete r prev _ st' Hm' E).
      * injection Heq as <- <- Heq. rewrite at_pos_cons in Hm'. by eapply IH.
Qed.

Lemma MatchString_spec r s :
  MatchString r s = true <-> exists pre suf st', cells s = pre ++ suf /\ matches r (at_pos None pre suf) st'.
Proof.
  unfold MatchString. pose proof (search_spec r None (cells s)) as H. destruct (search r None (cells s)) as [[start st]|]; simpl.
  - destruct H as (pre & -> & Hm & _). split; [eauto|done].
  - split; [done|]. intros (pre & suf & st' & Heq & Hm). by destruct (H pre suf st' Heq).
Qed.

(** ** Cells of a text *)

Definition ascii_byte (a : ascii) : bool := (code a <? 128)%N.
(** Empty, or starts with a byte below 128. *)
Definition ascii_head (s : string) : bool := match s with EmptyString => true | String a _ => ascii_byte a end.

Lemma cells_ascii a s : ascii_byte a = true -> cells (String a s) = (Z.of_N (code a), chr a) :: cells s.
Proof. unfold ascii_byte, cells. intros H. cbn [cells_aux decode_rune]. by rewrite H. Qed.

Lemma not_cont a : ascii_byte a = true -> cont a = false /\ forall lo hi, (128 <= lo)%N -> byte_in lo hi a = false.
Proof.
  unfold ascii_byte, cont, byte_in. rewrite N.ltb_lt. intros H. split.
  - apply andb_false_iff. left. apply N.leb_gt. lia.
  - intros lo hi Hlo. apply andb_false_iff. left. apply N.leb_gt. lia.
Qed.

(** A byte below 128 ends the rune before it. *)
Lemma decode_rune_app s t : s <> "" -> ascii_head t = true -> decode_rune (s +:+ t) = decode_rune s.
Proof.
  intros Hs Ht. destruct t as [|x t]; [by rewrite sapp_nil_r|].
  destruct (not_cont x Ht) as [Hc Hb].
  assert (Ho : forall a : ascii, (if Ascii.eqb a (ascii_of_N 224) then byte_in 160 191 x
                      else if Ascii.eqb a (ascii_of_N 237) then byte_in 128 159 x else false) = false)
    by (intros a; repeat case_if; auto; apply Hb; lia).
  assert (Hp : forall a : ascii, (if Ascii.eqb a (ascii_of_N 240) then byte_in 144 191 x
                      else if Ascii.eqb a (ascii_of_N 244) then byte_in 128 143 x else false) = false)
    by (intros a; repeat case_if; auto; apply Hb; lia).
  destruct s as [|a [|b [|c [|d s]]]]; [done|..|done]; cbn [String.append decode_rune];
    rewrite ?Hc, ?Ho, ?Hp, ?andb_false_r, ?andb_false_l; [..|done];
    [destruct t as [|y [|z t]]|destruct t as [|y t]]; rewrite ?Ho, ?Hp, ?andb_false_r, ?andb_false_l; done.
Qed.

Lemma decode_rune_len s : s <> "" -> (1 <= snd (decode_rune s) <= String.length s)%nat.
Proof.
  destruct s as [|a [|b [|c [|d s]]]]; [done|..]; intros _; cbn [decode_rune];
    repeat match goal with |- context [if ?b then _ else _] =>
      lazymatch b with | context [if _ then _ else _] => fail | _ => destruct b end end; simpl; lia.
Qed.

Lemma stake_app_le n s t : (n <= String.length s)%nat -> stake n (s +:+ t) = stake n s.
Proof. revert n. induction s as [|a s IH]; intros [|n] Hn; simpl in *; [by destruct t|lia|done|]. by rewrite IH by lia. Qed.

(** Cutting a text into cells goes piece by piece where the second piece starts
    with an ASCII byte. *)
Lemma cells_aux_app s t k : ascii_head t = true -> (k <= String.length s)%nat ->
  cells_aux (s +:+ t) k = cells_aux s k ++ cells t.
Proof.
  intros Ht. revert k. induction s as [|a s IH]; intros k Hk; simpl in Hk.
  - by replace k with 0%nat by lia.
  - destruct k as [|k]; [|apply IH; lia].
    pose proof (decode_rune_app (String a s) t ltac:(done) Ht) as Hd.
    pose proof (decode_rune_len (String a s) ltac:(done)) as Hl.
    cbn [String.append cells_aux] in *. rewrite Hd. destruct (decode_rune (String a s)) as [r n]. simpl in Hl.
    change (String a (s +:+ t)) with (String a s +:+ t). rewrite stake_app_le by (simpl; lia). rewrite IH by lia. done.
Qed.

Lemma cells_app s t : ascii_head t = true -> cells (s +:+ t) = cells s ++ cells t.
Proof. intros Ht. apply cells_aux_app; [done|lia]. Qed.

Definition ascii_string (s : string) : bool := sforall ascii_byte s.

Lemma cells_ascii_app s t : ascii_string s = true -> cells (s +:+ t) = cells s ++ cells t.
Proof.
  unfold ascii_string. induction s as [|a s IH]; cbn [sforall String.append]; [done|].
  intros [Ha Hs]%andb_true_iff. rewrite !cells_ascii by done. rewrite IH by done. done.
Qed.

Lemma sdrop_add m n s : sdrop m (sdrop n s) = sdrop (n + m) s.
Proof. revert s. induction n as [|n IH]; intros [|a s]; simpl; try done; by destruct m. Qed.

(** The bytes of the cells are the text. *)
Lemma text_of_cells_aux s k : (k <= String.length s)%nat -> text_of (cells_aux s k) = sdrop k s.
Proof.
  revert k. induction s as [|a s IH]; intros k Hk; simpl in Hk; [by destruct k|].
  destruct k as [|k]; [|apply IH; lia].
  pose proof (decode_rune_len (String a s) ltac:(done)) as Hl. cbn [cells_aux]. destruct (decode_rune (String a s)) as [r n].
  cbn [snd String.length] in Hl. destruct n as [|n]; [lia|]. cbn [text_of stake String.append].
  rewrite IH by lia. rewrite Nat.sub_0_r || replace (S n - 1)%nat with n by lia. by rewrite stake_sdrop.
Qed.

Lemma text_of_cells s : text_of (cells s) = s.
Proof. by apply text_of_cells_aux; lia. Qed.

(** ** Literals *)

Lemma runes_ascii a s : ascii_byte a = true -> runes (String a s) = Z.of_N (code a) :: runes s.
Proof. unfold ascii_byte, runes. intros H. cbn [runes_aux decode_rune]. by rewrite H. Qed.

Lemma lower_ascii a : ascii_byte (lower_byte a) = ascii_byte a.
Proof. by destruct a as [[] [] [] [] [] [] [] []]. Qed.

Lemma fold_lower a : ascii_byte a = true -> fold_rune (Z.of_N (code a)) = Z.of_N (code (lower_byte a)).
Proof. by destruct a as [[] [] [] [] [] [] [] []]. Qed.

(** A case-insensitive literal matches every spelling of it. *)
Lemma ilit_matches u st rest :
  ascii_string u = true -> p_rest st = cells u ++ rest ->
  exists st', matches (ilit (ToLower u)) st st' /\ p_rest st' = rest /\ p_caps st' = p_caps st.
Proof.
  unfold ascii_string, ToLower. revert st. induction u as [|a u IH]; intros st Hu Hr; cbn [sforall smap] in *.
  - exists st. split_and!; [constructor|done|done].
  - apply andb_true_iff in Hu as [Ha Hu]. rewrite cells_ascii in Hr by done.
    destruct (IH (mkPos (Some (Z.of_N (code a))) (cells u ++ rest) (p_caps st)) Hu eq_refl) as (st' & Hm & Hr' & Hc).
    exists st'. split_and!; [|done|done]. unfold ilit, lit_with in *.
    rewrite runes_ascii by (by rewrite lower_ascii). cbn [foldr]. econstructor; [|exact Hm].
    eapply m_set; [exact Hr|]. apply Z.eqb_eq. by apply fold_lower.
Qed.

Lemma alt_of_matches l r st st' : r ∈ l -> matches r st st' -> matches (alt_of l) st st'.
Proof.
  induction l as [|x l IH]; [by intros ?%not_elem_of_nil|]. intros [->|Hr]%elem_of_cons Hm.
  - destruct l; [done|]. by apply m_alt_l.
  - destruct l as [|y l]; [by apply not_elem_of_nil in Hr|]. apply m_alt_r. by apply IH.
Qed.

Lemma ToLower_split u a w b : ToLower u = a +:+ w +:+ b ->
  exists a' w' b', u = a' +:+ w' +:+ b' /\ ToLower w' = w.
Proof.
  intros H. exists (stake (String.length a) u), (stake (String.length w) (sdrop (String.length a) u)),
    (sdrop (String.length w) (sdrop (String.length a) u)). rewrite !stake_sdrop. split; [done|].
  assert (Hs : forall n s, ToLower (stake n s) = stake n (ToLower s)).
  { intros n. unfold ToLower. induction n as [|n IH]; intros [|c s]; simpl; try done. by rewrite IH. }
  assert (Hd : forall n s, ToLower (sdrop n s) = sdrop n (ToLower s)).
  { intros n. unfold ToLower. induction n as [|n IH]; intros [|c s]; simpl; try done. }
  rewrite Hs, Hd, H, sdrop_app. apply stake_app.
Qed.

Lemma ascii_ToLower u : ascii_string (ToLower u) = ascii_string u.
Proof. unfold ascii_string, ToLower. induction u as [|a u IH]; simpl; [done|]. by rewrite IH, lower_ascii. Qed.

(** An alternation of literals under [(?i)] finds every occurrence of one of them,
    in whatever spelling. *)
Lemma MatchString_words words w u :
  w ∈ words -> w <> "" -> ascii_string w = true -> Contains (ToLower u) w = true ->
  MatchString (RGroup (alt_of (ilit <$> words))) u = true.
Proof.
  intros Hw Hne Ha Hc. unfold Contains in Hc. destruct (Index (ToLower u) w) as [i|] eqn:E; [|done].
  apply Index_Some in E as (a & b & E & _). apply ToLower_split in E as (a' & w' & b' & -> & Hlow).
  rewrite <- Hlow, ascii_ToLower in Ha. apply MatchString_spec.
  exists (cells a'), (cells w' ++ cells b').
  destruct (ilit_matches w' (at_pos None (cells a') (cells w' ++ cells b')) (cells b') Ha eq_refl) as (st' & Hm & _).
  eexists. split.
  - destruct w' as [|c w']; [by simpl in Hlow; subst w|].
    rewrite cells_app by (unfold ascii_string in Ha; simpl in *; by apply andb_true_iff in Ha as [? _]).
    by rewrite cells_ascii_app.
  - apply m_group, (alt_of_matches _ (ilit (ToLower w'))); [|exact Hm]. rewrite Hlow. apply list_elem_of_fmap. eauto.
Qed.

(** ** Greedy runs of a set *)

Fixpoint span_cells (p : Z -> bool) (s : list cell) : list cell * list cell :=
  match s with
  | (c, b) :: s' => if p c then let '(x, y) := span_cells p s' in ((c, b) :: x, y) else ([], s)
  | [] => ([], [])
  end.

Lemma span_cells_app p s : fst (span_cells p s) ++ snd (span_cells p s) = s.
Proof. induction s as [|[c b] s IH]; simpl; [done|]. case_if; [|done]. destruct (span_cells p s). simpl in *. by rewrite IH. Qed.

(** The star of a set takes the whole run when the continuation always succeeds. *)
Lemma star_set_greedy {A} p (k : pos -> option A) n st :
  (forall st', k st' <> None) -> (List.length (p_rest st) <= n)%nat ->
  exists prev, star_loop (run (RSet p)) k n st = k (mkPos prev (snd (span_cells p (p_rest st))) (p_caps st)).
Proof.
  intros Hk. revert st. induction n as [|n IH]; intros [prev rest caps] Hn; cbn [star_loop run p_rest p_caps] in *.
  - destruct rest; [by exists prev|simpl in Hn; lia].
  - destruct rest as [|[c b] rest]; [by exists prev|]. cbn [span_cells]. destruct (p c) eqn:E; [|by exists prev].
    destruct (IH (mkPos (Some c) rest caps)) as [prev' Hp]; [simpl in *; lia|]. cbn [p_rest p_caps] in Hp. exists prev'.
    destruct (shorter _ _) eqn:Es; [|exfalso; apply Nat.ltb_ge in Es; simpl in Es; lia].
    rewrite Hp.
    destruct (span_cells p rest) as [x y]. cbn [snd]. destruct (k _) eqn:E'; [done|]. by apply Hk in E'.
Qed.
