(* ===== verification/Model.v ===== *)
(** * Data model (internal/model/types.go)

    Mailboxes, messages, check results and reports. Times are nanoseconds in
    [Z]; the zero time of Go is [zero_time]. *)

From S2P Require Import Prelude F64 GoStrings.

Local Open Scope string_scope.
Local Open Scope list_scope.
Local Open Scope Z_scope.

Definition zero_time : Z := 0.

Record Mailbox := mkMailbox {
  mb_ID : Z;
  mb_Token : string;
  mb_Address : string;
  mb_PublicKey : string;
  mb_CreatedIP : string;
  mb_CreatedAt : Z;
  mb_ExpiresAt : Z;
  mb_LastSeenAt : Z;
  mb_CheckDomainAge : bool;
  mb_CheckDomainBlocklist : bool;
  mb_CheckBrokenLinks : bool
}.

Record Message := mkMessage {
  m_ID : Z;
  m_MailboxID : Z;
  m_SMTPFrom : string;
  m_RCPTTo : string;
  m_RemoteIP : string;
  m_HELO : string;
  m_ReceivedAt : Z;
  m_RawSource : string;
  m_HeaderBlock : string;
  m_Subject : string;
  m_SizeBytes : Z;
  m_PayloadEnc : string
}.

Definition Encrypted (m : Message) : bool := negb (isEmpty (m_PayloadEnc m)).

Record DocLink := mkDocLink { dl_Title : string; dl_URL : string }.

Record CheckResult := mkCheck {
  c_ID : string;
  c_Name : string;
  c_Status : string;
  c_ScoreDelta : float64;
  c_Summary : string;
  c_Suggestion : string;
  c_TechnicalDetails : gmap string string;
  c_Explanation : string;
  c_Recommendation : string;
  c_DocLinks : list DocLink;
  c_Severity : string;
  c_Category : string;
  c_Importance : string;
  c_NameEN : string;
  c_SummaryEN : string;
  c_ExplanationEN : string;
  c_RecommendationEN : string
}.

Record AnalysisReport := mkReport {
  r_ID : Z;
  r_MessageID : Z;
  r_CreatedAt : Z;
  r_Score : float64;
  r_ScoreLabel : string;
  r_MailType : string;
  r_Checks : list CheckResult;
  r_Warnings : list string;
  r_Suggestions : list string;
  r_RawHeaders : list (string * list string);
  r_Links : list string;
  r_SpamSignals : list string
}.

Record MessageWithReport := mkMessageWithReport {
  mwr_Message : Message;
  mwr_Report : option AnalysisReport
}.
