(* ===== verification/Score.v ===== *)
(** * Scoring (internal/analyzer/analyzer.go)

    The weight of a check by importance and status, the total score with its
    clamp and the gate on the essential checks, and the label. Scores are
    binary64 numbers. *)

From S2P Require Import Prelude F64 GoStrings Model.
From Stdlib Require Import SpecFloat.

Local Open Scope string_scope.
Local Open Scope list_scope.
Local Open Scope Z_scope.

Definition one_of (id : string) (l : list string) : bool := existsb (String.eqb id) l.

Definition checkCategory (id : string) : string :=
  if one_of id ["spf"; "dkim"; "dmarc"; "spf_alignment"; "dkim_alignment"; "dmarc_alignment";
                "from_alignment"; "return_path"; "reply_to"; "dmarc_policy"; "spf_strictness";
                "dkim_keylength"; "display_name"; "x_google_dkim"] then "Authentifizierung"
  else if one_of id ["ptr"; "helo"; "mx_records"; "address_records"; "tls_transport"; "received_chain"; "rbl";
                "ptr_pattern"; "envelope_mx"; "mta_sts"; "tls_rpt"; "bimi"; "dnssec"; "dane_tlsa"; "domain_age";
                "from_domain_rcv"] then "DNS und Infrastruktur"
  else if one_of id ["spamassassin"; "rspamd"; "domain_blocklist"; "link_blocklist"] then "Spamfilter"
  else if one_of id ["mime_ct"; "mime_boundary"; "plain_text"; "multipart_alt"; "attachments"; "image_text_ratio";
                "image_alt"; "charset"; "links"; "shortener"; "tracking_links"; "html"; "hidden_html"; "html_validity";
                "harmful_html"; "subject"; "subject_exclaim"; "subject_caps"; "unicode"; "list_unsub"; "preheader";
                "one_click_unsub"; "template_urls"; "too_many_links"; "link_domain_mismatch"; "broken_links"]
       then "Format und Inhalt"
  else "Header und Rohdaten".

Definition checkImportance (id : string) : string :=
  if one_of id ["spf"; "dkim"; "dmarc"; "ptr"; "rbl"; "domain_blocklist"; "link_blocklist"] then "Kritisch"
  else if one_of id ["spf_strictness"; "dkim_keylength"; "dmarc_policy";
                "spf_alignment"; "dkim_alignment"; "dmarc_alignment"; "from_alignment";
                "helo"; "mx_records"; "tls_transport"; "spamassassin"; "rspamd"; "display_name";
                "list_unsub"; "mime_parse"; "mime_ct"; "mime_boundary"; "message_id"; "received_chain";
                "one_click_unsub"; "harmful_html"] then "Wichtig"
  else if one_of id ["mta_sts"; "tls_rpt"; "bimi"; "dnssec"; "dane_tlsa"; "arc"; "preheader"; "x_google_dkim"]
       then "Optional"
  else if one_of id ["link_domain_mismatch"] then "Kritisch"
  else if one_of id ["from_domain_rcv"; "template_urls"; "too_many_links"; "broken_links"; "no_reply_reply_to"]
       then "Empfohlen"
  else "Empfohlen".

Definition essentialPerfectCap : float64 := lit 95 10.

Definition scoreFor (importance status : string) : float64 :=
  if String.eqb status "fail" then
    if String.eqb importance "Kritisch" then lit (-26) 10
    else if String.eqb importance "Wichtig" then lit (-13) 10
    else if String.eqb importance "Optional" then fzero
    else lit (-5) 10
  else if String.eqb status "warn" then
    if String.eqb importance "Kritisch" then lit (-13) 10
    else if String.eqb importance "Wichtig" then lit (-6) 10
    else if String.eqb importance "Optional" then fzero
    else lit (-25) 100
  else fzero.

Definition checkSeverity (status : string) : string :=
  if String.eqb status "fail" then "high"
  else if String.eqb status "warn" then "medium"
  else if String.eqb status "pass" then "low"
  else if String.eqb status "na" then "none"
  else "info".

Definition ten : float64 := f_of_Z 10.

Definition clampScore (s : float64) : float64 :=
  if fltb s fzero then fzero
  else if fltb ten s then ten
  else fdiv (f_of_Z (ftrunc (fadd (fmul s ten) (lit 5 10)))) ten.

Definition score_label (score : float64) : string :=
  if fleb (f_of_Z 9) score then "Excellent"
  else if fleb (lit 75 10) score then "Good"
  else if fleb (lit 55 10) score then "Needs Work"
  else "High Risk".

(** [assignLabel]: sets the label of a report from its score. *)
Definition assignLabel (r : AnalysisReport) : AnalysisReport :=
  mkReport (r_ID r) (r_MessageID r) (r_CreatedAt r) (r_Score r) (score_label (r_Score r)) (r_MailType r)
    (r_Checks r) (r_Warnings r) (r_Suggestions r) (r_RawHeaders r) (r_Links r) (r_SpamSignals r).

Definition is_essential (id : string) : bool := one_of id ["spf"; "dkim"; "dmarc"; "ptr"].

Fixpoint essentialsAllPass (checks : list CheckResult) : bool :=
  match checks with
  | [] => true
  | c :: rest => if is_essential (c_ID c) && negb (String.eqb (c_Status c) "pass") then false
                 else essentialsAllPass rest
  end.

Definition sum_deltas (checks : list CheckResult) (start : float64) : float64 :=
  foldl (fun score c => fadd score (c_ScoreDelta c)) start checks.

Definition ComputeScore (checks : list CheckResult) : float64 * string :=
  let score := clampScore (sum_deltas checks ten) in
  let score := if fltb essentialPerfectCap score && negb (essentialsAllPass checks)
               then essentialPerfectCap else score in
  (score, score_label score).

(** ** Theorems *)

(** The scores a report can show: tenths of a point from 0 to 10. *)
Definition tenth (k : Z) : float64 := lit k 10.

Lemma forall_range (P : Z -> bool) n :
  forallb P (Z.of_nat <$> seq 0 (S n)) = true -> forall k, 0 <= k <= Z.of_nat n -> P k = true.
Proof.
  intros H k Hk. rewrite forallb_forall in H. apply H, list_elem_of_In, list_elem_of_fmap.
  exists (Z.to_nat k). split; [lia|]. apply elem_of_seq. lia.
Qed.

Lemma clampScore_tenth s : is_nan s = false -> exists k, 0 <= k <= 100 /\ clampScore s = tenth k.
Proof.
  intros Hn. unfold clampScore. case_if.
  { exists 0. split; [lia|]. vm_compute. reflexivity. }
  case_if.
  { exists 100. split; [lia|]. vm_compute. reflexivity. }
  eexists. split; [|reflexivity].
  assert (Hw : within s (2 * 10)).
  { apply within_of_compare; [done|done|lia|]. exact Hif0. }
  assert (Hm : within (fmul s ten) (20 * 10)).
  { destruct s as [b| | |[] m e]; try done. simpl in Hw.
    change ten with (S754_finite false (Z.to_pos (10 * 2 ^ 49)) (- 49)).
    apply (fmul_within m e (Z.to_pos (10 * 2 ^ 49)) 49 20 10); [done|lia| |lia]. by rewrite Z2Pos.id. }
  assert (Hh : within (lit 5 10) 1).
  { change (lit 5 10) with (S754_finite false (Z.to_pos (2 ^ 52)) (-53)). simpl.
    apply (vle_intro _ _ _ 53); [lia|lia|]. vm_compute. discriminate. }
  pose proof (fadd_within _ _ _ _ Hm Hh ltac:(lia) ltac:(lia) ltac:(lia)) as Ha.
  apply ftrunc_within in Ha; [|lia]. change ((20 * 10 + 1) / 2) with 100 in Ha. lia.
Qed.

Lemma sum_not_nan checks start :
  is_nan start = false -> Forall (fun c => is_finite (c_ScoreDelta c) = true) checks ->
  is_nan (sum_deltas checks start) = false.
Proof.
  unfold sum_deltas. revert start. induction checks as [|c checks IH]; intros start Hs Hf; simpl; [done|].
  inversion Hf; subst. apply IH; [|done]. by apply fadd_not_nan.
Qed.

Lemma cap_compare k : 0 <= k <= 100 -> fltb essentialPerfectCap (tenth k) = (95 <? k).
Proof.
  intros Hk. apply Bool.eqb_prop. revert k Hk. apply (forall_range _ 100). vm_compute. reflexivity.
Qed.

Lemma essentialsAllPass_spec checks :
  essentialsAllPass checks = true <-> Forall (fun c => is_essential (c_ID c) = true -> c_Status c = "pass") checks.
Proof.
  induction checks as [|c checks IH]; simpl; [done|]. rewrite Forall_cons.
  destruct (is_essential (c_ID c)); simpl; [|naive_solver].
  destruct (String.eqb_spec (c_Status c) "pass"); simpl; naive_solver.
Qed.

Lemma compute_score_range checks :
  Forall (fun c => is_finite (c_ScoreDelta c) = true) checks ->
  exists k, 0 <= k <= 100 /\ fst (ComputeScore checks) = tenth k /\ (95 < k -> essentialsAllPass checks = true).
Proof.
  intros Hf. destruct (clampScore_tenth (sum_deltas checks ten)) as (k & Hk & Hc).
  { by apply sum_not_nan. }
  unfold ComputeScore. rewrite Hc, cap_compare by done. simpl.
  destruct (95 <? k) eqn:Hcap; simpl; bool_to_prop.
  - destruct (essentialsAllPass checks); simpl; [eauto|].
    exists 95. split_and!; [lia|lia|reflexivity|lia].
  - exists k. split_and!; [lia|lia|done|lia].
Qed.

Lemma tenth_inj j k : 0 <= j <= 100 -> 0 <= k <= 100 -> tenth j = tenth k -> j = k.
Proof.
  intros Hj Hk He.
  assert (Hall : forall i, 0 <= i <= Z.of_nat 100 -> (ftrunc (fadd (fmul (tenth i) ten) (lit 5 10)) =? i) = true).
  { apply (forall_range (fun i => ftrunc (fadd (fmul (tenth i) ten) (lit 5 10)) =? i) 100). vm_compute. reflexivity. }
  pose proof (Hall j ltac:(lia)) as H1. pose proof (Hall k ltac:(lia)) as H2. rewrite He in H1. bool_to_prop. congruence.
Qed.

(** The score of any list of checks with finite deltas, however large and
    in whatever order they are added in floating point, is one of 0.0, 0.1, ..., 10.0, and
    it exceeds 9.5 only if every SPF, DKIM, DMARC and PTR check passed. *)
Theorem ComputeScore_range checks :
  Forall (fun c => is_finite (c_ScoreDelta c) = true) checks ->
  exists k, 0 <= k <= 100 /\ fst (ComputeScore checks) = tenth k
    /\ (95 < k -> Forall (fun c => is_essential (c_ID c) = true -> c_Status c = "pass") checks).
Proof.
  intros Hf. destruct (compute_score_range checks Hf) as (k & Hk & Hc & He).
  exists k. rewrite <- essentialsAllPass_spec. auto.
Qed.

(** A failed SPF check and a missing bonus: 10 - 2.6 - 0.6. *)
Definition sample_check (id status : string) : CheckResult :=
  mkCheck id "" status (scoreFor (checkImportance id) status) "" "" ∅ "" "" [] "" "" "" "" "" "" "".

Lemma ComputeScore_range_witness :
  exists k, 0 <= k <= 100 /\ fst (ComputeScore [sample_check "spf" "fail"; sample_check "helo" "warn"]) = tenth k.
Proof.
  destruct (ComputeScore_range [sample_check "spf" "fail"; sample_check "helo" "warn"]) as (k & Hk & Hc & _).
  - repeat constructor.
  - eauto.
Defined.

(** The central weighting only ever deducts: a status other than fail and warn
    costs nothing, a warning costs nothing more than a failure of the same importance, and the
    importance levels are ordered (critical, important, recommended, optional). *)
Theorem scoreFor_deducts importance status :
  fleb (scoreFor importance status) fzero = true
  /\ (status <> "fail" -> status <> "warn" -> scoreFor importance status = fzero)
  /\ fleb (scoreFor importance "fail") (scoreFor importance "warn") = true
  /\ (forall other, importance = "Kritisch" -> fleb (scoreFor importance status) (scoreFor other status) = true)
  /\ (forall other, importance = "Optional" -> fleb (scoreFor other status) (scoreFor importance status) = true).
Proof.
  split_and!; intros; subst; unfold scoreFor; repeat case_if; bool_to_prop;
    solve [done | congruence | vm_compute; reflexivity].
Qed.
