(* ===== verification/Ipt.v ===== *)
(** * Inbox placement tests (internal/ipt)

    Seed accounts, the choice of one account per provider, and the poller
    that looks for the test message over IMAP. IMAP itself is a parameter:
    [lookup] says, for one connection, whether login succeeds and in which folders
    a search finds the message. *)

From S2P Require Import Prelude GoStrings.

Local Open Scope string_scope.
Local Open Scope list_scope.
Local Open Scope Z_scope.

Record Account := mkAccount { acc_User : string; acc_Pass : string }.
Record Provider := mkProvider { p_Name : string; p_IMAP : string; p_Accounts : list Account }.
Record SeedConfig := mkSeedConfig { Providers : list Provider }.
Record SeedInfo := mkSeedInfo { si_Provider : string; si_Address : string }.

Record ProviderResult := mkProviderResult {
  pr_Provider : string;
  pr_Address : string;
  pr_Status : string;
  pr_Folder : string;
  pr_CheckedAt : Z
}.

Record PlacementTest := mkPlacementTest {
  pt_ID : Z;
  pt_MailboxID : Z;
  pt_PlacementToken : string;
  pt_Status : string;
  pt_CreatedAt : Z;
  pt_ExpiresAt : Z;
  pt_Seeds : list SeedInfo;
  pt_Results : list ProviderResult
}.

(** ** Seeds *)

Inductive seed_error :=
| NoProviders
| NoName (i : nat)
| BadIMAP (name : string)
| NoAccounts (name : string)
| BadAccount (name : string) (j : nat).

Fixpoint validate_accounts (name : string) (j : nat) (accs : list Account) : outcome seed_error unit :=
  match accs with
  | [] => Ok ()
  | a :: rest => if isEmpty (acc_User a) || isEmpty (acc_Pass a) then Err (BadAccount name j)
                 else validate_accounts name (S j) rest
  end.

Fixpoint validate_providers (i : nat) (ps : list Provider) : outcome seed_error unit :=
  match ps with
  | [] => Ok ()
  | p :: rest =>
      if isEmpty (TrimSpace (p_Name p)) then Err (NoName i)
      else if negb (Contains (p_IMAP p) ":") then Err (BadIMAP (p_Name p))
      else match p_Accounts p with
           | [] => Err (NoAccounts (p_Name p))
           | accs => let! _ := validate_accounts (p_Name p) 0 accs in validate_providers (S i) rest
           end
  end.

Definition Validate (sc : SeedConfig) : outcome seed_error unit :=
  match Providers sc with
  | [] => Err NoProviders
  | ps => validate_providers 0 ps
  end.

Definition ProviderNames (sc : SeedConfig) : list string := p_Name <$> Providers sc.

Definition Filter (sc : SeedConfig) (selected : list string) : list Provider :=
  match selected with
  | [] => Providers sc
  | _ =>
      let want := ToLower <$> selected in
      List.filter (fun p => existsb (String.eqb (ToLower (p_Name p))) want) (Providers sc)
  end.

(** [Pick]: [rand n] is [rand.IntN(n)] at the n-th provider; [None] is its
    panic on a provider without accounts. *)
Fixpoint pick_from (rand : nat -> nat -> nat) (i : nat) (ps : list Provider)
  : option (list SeedInfo * list Account) :=
  match ps with
  | [] => Some ([], [])
  | p :: rest =>
      match p_Accounts p with
      | [] => None
      | a0 :: _ =>
          let acc := default a0 (p_Accounts p !! (rand i (List.length (p_Accounts p)))) in
          match pick_from rand (S i) rest with
          | None => None
          | Some (infos, accounts) =>
              Some (mkSeedInfo (p_Name p) (acc_User acc) :: infos, acc :: accounts)
          end
      end
  end.
Definition Pick (rand : nat -> nat -> nat) (ps : list Provider) := pick_from rand 0 ps.

(** ** Poller *)

Definition folderStatus (folder : string) : string :=
  if String.eqb folder "INBOX" then "inbox" else "spam".

(** One IMAP connection: [None] when dialling or login fails, else in which
    folders the search succeeds. *)
Definition lookup := option (string -> bool).

Fixpoint first_folder (found : string -> bool) (folders : list string) : string :=
  match folders with
  | [] => ""
  | f :: rest => if found f then f else first_folder found rest
  end.

Definition tryFind (spamFolders : list string) (conn : lookup) : string :=
  match conn with
  | None => ""
  | Some found => if found "INBOX" then "INBOX" else first_folder found spamFolders
  end.

(** What the poller waits for: the next tick, with what the connection it then
    opens shows, or the end of the test's context. *)
Inductive poll_event := Tick (now : Z) (conn : lookup) | Done (now : Z).

Definition found_result (info : SeedInfo) (folder : string) (now : Z) : ProviderResult :=
  mkProviderResult (si_Provider info) (si_Address info) (folderStatus folder) folder now.

(** [None]: still waiting at the end of the schedule. *)
Fixpoint poll_loop (spamFolders : list string) (info : SeedInfo) (sched : list poll_event)
  : option ProviderResult :=
  match sched with
  | [] => None
  | Done now :: _ => Some (mkProviderResult (si_Provider info) (si_Address info) "timeout" "" now)
  | Tick now conn :: rest =>
      let folder := tryFind spamFolders conn in
      if isEmpty folder then poll_loop spamFolders info rest
      else Some (found_result info folder now)
  end.

Definition pollOne (spamFolders : list string) (info : SeedInfo) (now : Z) (first : lookup)
    (sched : list poll_event) : option ProviderResult :=
  let folder := tryFind spamFolders first in
  if isEmpty folder then poll_loop spamFolders info sched else Some (found_result info folder now).

(** ** Theorems *)

Lemma validate_providers_accounts i ps p :
  validate_providers i ps = Ok () -> p ∈ ps -> p_Accounts p <> [].
Proof.
  revert i. induction ps as [|q ps IH]; intros i; simpl; [intros _ H; by apply not_elem_of_nil in H|].
  repeat case_if; try done. destruct (p_Accounts q) eqn:Ha; [done|].
  rewrite obind_ok. intros (? & _ & H). intros [->|Hp]%elem_of_cons; [congruence|eauto].
Qed.

Lemma pick_from_ok rand i ps :
  (forall p, p ∈ ps -> p_Accounts p <> []) ->
  exists infos accounts, pick_from rand i ps = Some (infos, accounts)
    /\ List.length infos = List.length ps /\ List.length accounts = List.length ps
    /\ (forall k p, ps !! k = Some p -> exists a, accounts !! k = Some a /\ a ∈ p_Accounts p
          /\ infos !! k = Some (mkSeedInfo (p_Name p) (acc_User a))).
Proof.
  revert i. induction ps as [|p ps IH]; intros i Hp; simpl; [by exists [], []|].
  destruct (p_Accounts p) as [|a0 accs] eqn:Ha; [by destruct (Hp p); [set_solver|]|].
  destruct (IH (S i)) as (infos & accounts & -> & Hl1 & Hl2 & Hk); [set_solver|].
  do 2 eexists. split; [done|]. simpl. split_and!; [lia|lia|].
  intros [|k] q; simpl; [|apply Hk]. intros [= <-]. eexists. split; [done|]. split; [|done].
  rewrite Ha. destruct ((a0 :: accs) !! _) eqn:E; simpl; [by eapply list_elem_of_lookup_2|set_solver].
Qed.

(** A seed configuration that passed validation never makes the selection of
    seed accounts panic, for any subset of providers and any random numbers: it yields
    two parallel lists with one account of each selected provider, the
    client's list naming just that account's address. *)
Theorem Pick_of_validated sc selected rand :
  Validate sc = Ok () ->
  exists infos accounts, Pick rand (Filter sc selected) = Some (infos, accounts)
    /\ List.length infos = List.length (Filter sc selected)
    /\ List.length accounts = List.length (Filter sc selected)
    /\ (forall k p, Filter sc selected !! k = Some p -> exists a, accounts !! k = Some a /\ a ∈ p_Accounts p
          /\ infos !! k = Some (mkSeedInfo (p_Name p) (acc_User a))).
Proof.
  intros Hv. apply pick_from_ok. intros p Hp.
  assert (Hin : p ∈ Providers sc).
  { unfold Filter in Hp. destruct selected; [done|].
    apply list_elem_of_In, List.filter_In in Hp as [? _]. by apply list_elem_of_In. }
  unfold Validate in Hv. destruct (Providers sc); [done|]. by eapply validate_providers_accounts.
Qed.

Definition sample_seeds : SeedConfig :=
  mkSeedConfig [mkProvider "Gmail" "imap.gmail.com:993" [mkAccount "a@gmail.com" "x"; mkAccount "b@gmail.com" "y"];
                mkProvider "GMX" "imap.gmx.net:993" [mkAccount "c@gmx.net" "z"]].

Lemma Pick_of_validated_witness :
  exists infos accounts, Pick (fun _ n => n - 1)%nat (Filter sample_seeds ["gmail"]) = Some (infos, accounts)
    /\ List.length infos = 1%nat.
Proof.
  destruct (Pick_of_validated sample_seeds ["gmail"] (fun _ n => n - 1)%nat) as (i & a & H & Hl & _);
    [vm_compute; reflexivity|].
  exists i, a. split; [exact H|]. rewrite Hl. vm_compute. reflexivity.
Defined.

(** The lookups of a schedule in order, and whether it reaches its end. *)
Fixpoint lookups (sched : list poll_event) : list lookup :=
  match sched with
  | Tick _ c :: rest => c :: lookups rest
  | _ => []
  end.

Lemma poll_loop_spec folders info sched r :
  poll_loop folders info sched = Some r ->
  (pr_Status r = "timeout" /\ Forall (fun c => tryFind folders c = "") (lookups sched))
  \/ (exists pre c, pre ++ [c] `prefix_of` lookups sched /\ Forall (fun c => tryFind folders c = "") pre
      /\ tryFind folders c = pr_Folder r /\ pr_Folder r <> "" /\ pr_Status r = folderStatus (pr_Folder r)).
Proof.
  induction sched as [|[now c|now] sched IH]; simpl; [done| |].
  - case_if.
    + apply isEmpty_true in Hif. intros [[? ?]|(pre & c' & [t Ht] & ? & ?)]%IH; [left; auto|right].
      exists (c :: pre), c'. split; [exists t; simpl; by rewrite Ht|]. split; [by constructor|done].
    + apply isEmpty_false in Hif. intros [= <-]. right. exists [], c.
      split; [by exists (lookups sched)|]. done.
  - intros [= <-]. left. done.
Qed.

(** A placement result reports "timeout" only if no lookup made before
    the deadline found the message; otherwise it names the folder in which the first
    successful lookup found it, and the status is "inbox" exactly when that
    folder is INBOX. *)
Theorem pollOne_result folders info now first sched r :
  pollOne folders info now first sched = Some r ->
  let all := first :: lookups sched in
  (pr_Status r = "timeout" /\ Forall (fun c => tryFind folders c = "") all)
  \/ (exists pre c, pre ++ [c] `prefix_of` all /\ Forall (fun c => tryFind folders c = "") pre
      /\ tryFind folders c = pr_Folder r /\ pr_Folder r <> ""
      /\ (pr_Status r = "inbox" <-> pr_Folder r = "INBOX") /\ pr_Status r <> "timeout").
Proof.
  assert (Hs : forall f, folderStatus f <> "timeout" /\ (folderStatus f = "inbox" <-> f = "INBOX")).
  { intros f. unfold folderStatus. case_if; bool_to_prop; naive_solver. }
  unfold pollOne. cbv zeta. case_if.
  - apply isEmpty_true in Hif.
    intros [[? ?]|(pre & c' & [t Ht] & ? & ? & ? & Hst)]%poll_loop_spec; [left; auto|right].
    exists (first :: pre), c'. rewrite Hst. split_and!; try done; try apply Hs.
    + exists t. simpl. by rewrite Ht.
    + by constructor.
  - apply isEmpty_false in Hif. intros [= <-]. right. exists [], first. simpl.
    split_and!; try done; try apply Hs. by exists (lookups sched).
Qed.

Lemma pollOne_result_witness :
  pr_Status (mkProviderResult "Gmail" "a@gmail.com" "spam" "[Gmail]/Spam" 30) <> "timeout".
Proof.
  destruct (pollOne_result ["Junk"; "[Gmail]/Spam"] (mkSeedInfo "Gmail" "a@gmail.com") 0 None
    [Tick 15 (Some (fun _ => false)); Tick 30 (Some (fun f => String.eqb f "[Gmail]/Spam")); Done 60]
    (mkProviderResult "Gmail" "a@gmail.com" "spam" "[Gmail]/Spam" 30)) as [[H _]|(_ & _ & _ & _ & _ & _ & _ & H)];
    [vm_compute; reflexivity|discriminate H|exact H].
Defined.
