(* ===== verification/GoNet.v ===== *)
(** * Go's [net.IP], [net.ParseIP], CIDR masks and DNS errors

    An IP address is the Go byte slice: 4 or 16 bytes, [nil] is the empty
    list. [ParseIP] follows [netip.ParseAddr] (strict dotted quads without
    leading zeros, RFC 4291 text forms, no zones) and returns 16 bytes as
    [net.ParseIP] does. *)

From S2P Require Import Prelude GoStrings.

Local Open Scope string_scope.
Local Open Scope list_scope.
Local Open Scope Z_scope.

Abbreviation IP := (list Z).
Definition nilIP : IP := [].

Definition v4InV6Prefix : list Z := [0; 0; 0; 0; 0; 0; 0; 0; 0; 0; 255; 255].

Fixpoint zlist_eqb (a b : list Z) : bool :=
  match a, b with
  | [], [] => true
  | x :: a', y :: b' => (x =? y) && zlist_eqb a' b'
  | _, _ => false
  end.

Definition isNil (ip : IP) : bool := match ip with [] => true | _ => false end.

(** ** Parsing *)

(** One decimal field of a dotted quad: 1 to 3 digits, no leading zero, at
    most 255. *)
Definition parse_octet (w : string) : option Z :=
  match w with
  | EmptyString => None
  | String a w' =>
      if Ascii.eqb a "0" && negb (isEmpty w') then None else
      match digits_val w 0 with
      | Some v => if (v <=? 255) && (String.length w <=? 3)%nat then Some v else None
      | None => None
      end
  end.

Definition parseIPv4 (s : string) : option (list Z) :=
  match Split s "." with
  | [a; b; c; d] =>
      match parse_octet a, parse_octet b, parse_octet c, parse_octet d with
      | Some x, Some y, Some z, Some w => Some [x; y; z; w]
      | _, _, _, _ => None
      end
  | _ => None
  end.

Definition hex_val (a : ascii) : option Z :=
  let c := Z.of_N (code a) in
  if is_digit a then Some (c - 48)
  else if (97 <=? c) && (c <=? 102) then Some (c - 87)
  else if (65 <=? c) && (c <=? 70) then Some (c - 55)
  else None.

(** The leading hexadecimal digits of [s]: value, number of digits, rest. *)
Fixpoint hex_run (s : string) (acc : Z) (n : nat) : Z * nat * string :=
  match s with
  | String a s' =>
      match hex_val a with
      | Some d => hex_run s' (acc * 16 + d) (S n)
      | None => (acc, n, s)
      end
  | EmptyString => (acc, n, s)
  end.

(** The field loop of [netip.parseIPv6]. [ip] holds the bytes read so far,
    [ell] the position of "::". The loop body runs at most 8 times; [fuel] 9
    covers it. *)
Fixpoint ipv6_loop (fuel : nat) (s : string) (ip : list Z) (ell : option nat)
  : option (list Z * option nat) :=
  match fuel with
  | O => None
  | S fuel' =>
      if (16 <=? List.length ip)%nat then
        (if isEmpty s then Some (ip, ell) else None)
      else
      let '(acc, n, rest) := hex_run s 0 0 in
      if (n =? 0)%nat || (4 <? n)%nat then None else
      match rest with
      | EmptyString => Some (ip ++ [acc / 256; acc mod 256], ell)
      | String c rest' =>
          if Ascii.eqb c "." then
            if (match ell with None => negb (List.length ip =? 12)%nat | Some _ => false end) then None
            else if (16 <? List.length ip + 4)%nat then None
            else match parseIPv4 s with
                 | Some q => Some (ip ++ q, ell)
                 | None => None
                 end
          else if negb (Ascii.eqb c ":") then None
          else
            let ip' := ip ++ [acc / 256; acc mod 256] in
            match rest' with
            | EmptyString => None
            | String d rest'' =>
                if Ascii.eqb d ":" then
                  match ell with
                  | Some _ => None
                  | None =>
                      if isEmpty rest'' then Some (ip', Some (List.length ip'))
                      else ipv6_loop fuel' rest'' ip' (Some (List.length ip'))
                  end
                else ipv6_loop fuel' rest' ip' ell
            end
      end
  end.

Definition ipv6_expand (ip : list Z) (ell : option nat) : option (list Z) :=
  let n := List.length ip in
  if (n <? 16)%nat then
    match ell with
    | None => None
    | Some e => Some (take e ip ++ replicate (16 - n) 0 ++ drop e ip)
    end
  else match ell with
       | None => Some ip
       | Some _ => None
       end.

Definition parseIPv6 (s : string) : option (list Z) :=
  let '(s', ell) := if HasPrefix s "::" then (sdrop 2 s, Some 0%nat) else (s, None) in
  if isEmpty s' then (match ell with Some _ => Some (replicate 16 0) | None => None end) else
  match ipv6_loop 9 s' [] ell with
  | Some (ip, ell') => ipv6_expand ip ell'
  | None => None
  end.

(** [net.ParseIP]; [nilIP] on error. The first of '.', ':' and '%' decides. *)
Fixpoint ip_kind (s : string) : ascii :=
  match s with
  | EmptyString => "%"
  | String a s' =>
      if Ascii.eqb a "." || Ascii.eqb a ":" || Ascii.eqb a "%" then a else ip_kind s'
  end.

Definition ParseIP (s : string) : IP :=
  let k := ip_kind s in
  if Ascii.eqb k "." then
    match parseIPv4 s with Some q => v4InV6Prefix ++ q | None => nilIP end
  else if Ascii.eqb k ":" then
    match parseIPv6 s with Some b => b | None => nilIP end
  else nilIP.

(** ** Methods *)

Definition To4 (ip : IP) : IP :=
  if (List.length ip =? 4)%nat then ip
  else if (List.length ip =? 16)%nat && zlist_eqb (take 12 ip) v4InV6Prefix then drop 12 ip
  else nilIP.

Definition IP_Equal (a b : IP) : bool :=
  let la := List.length a in let lb := List.length b in
  if (la =? lb)%nat then zlist_eqb a b
  else if (la =? 4)%nat && (lb =? 16)%nat then
    zlist_eqb (take 12 b) v4InV6Prefix && zlist_eqb a (drop 12 b)
  else if (la =? 16)%nat && (lb =? 4)%nat then
    zlist_eqb (take 12 a) v4InV6Prefix && zlist_eqb (drop 12 a) b
  else false.

(** Byte [i] of a mask with [ones] leading one bits. *)
Definition mask_byte (ones : Z) (i : nat) : Z :=
  let k := Z.min 8 (Z.max 0 (ones - 8 * Z.of_nat i)) in 255 - (2 ^ (8 - k) - 1).

(** [net.CIDRMask]; [[]] is [nil]. *)
Definition CIDRMask (ones bits : Z) : list Z :=
  if negb ((bits =? 32) || (bits =? 128)) then []
  else if (ones <? 0) || (bits <? ones) then []
  else mask_byte ones <$> seq 0 (Z.to_nat (bits / 8)).

Definition and_bytes (a m : list Z) : list Z := zip_with Z.land a m.

Definition IP_Mask (ip mask : list Z) : IP :=
  let mask := if (List.length mask =? 16)%nat && (List.length ip =? 4)%nat
                 && zlist_eqb (take 12 mask) (replicate 12 255)
              then drop 12 mask else mask in
  let ip := if (List.length mask =? 4)%nat && (List.length ip =? 16)%nat
               && zlist_eqb (take 12 ip) v4InV6Prefix
            then drop 12 ip else ip in
  if (List.length ip =? List.length mask)%nat then and_bytes ip mask else nilIP.

(** ** [IP.String] *)

Definition hex_digit (d : Z) : ascii :=
  ascii_of_N (Z.to_N (if d <? 10 then d + 48 else d + 87)).
Fixpoint hex_field_aux (fuel : nat) (z : Z) (acc : string) : string :=
  match fuel with
  | O => acc
  | S f => let acc' := String (hex_digit (z mod 16)) acc in
           if z / 16 =? 0 then acc' else hex_field_aux f (z / 16) acc'
  end.
Definition hex_field (z : Z) : string := hex_field_aux 4 z EmptyString.

Fixpoint fields16 (ip : list Z) : list Z :=
  match ip with
  | a :: b :: r => (a * 256 + b) :: fields16 r
  | _ => []
  end.

Fixpoint zero_run (f : list Z) : nat :=
  match f with
  | 0 :: r => S (zero_run r)
  | _ => 0%nat
  end.

(** The first longest run of at least two zero fields: position and length. *)
Fixpoint best_run (f : list Z) (i : nat) (best : nat * nat) : nat * nat :=
  match f with
  | [] => best
  | _ :: r =>
      let l := zero_run f in
      best_run r (S i) (if (2 <=? l)%nat && (snd best <? l)%nat then (i, l) else best)
  end.

Definition dotted (q : list Z) : string := Join (Itoa <$> q) ".".

Definition IP_String (ip : IP) : string :=
  if isNil ip then "<nil>" else
  let p4 := To4 ip in
  if negb (isNil p4) then dotted p4 else
  let f := fields16 ip in
  let '(z, l) := best_run f 0 (0%nat, 0%nat) in
  if (l =? 0)%nat then Join (hex_field <$> f) ":"
  else Join (hex_field <$> take z f) ":" +:+ "::" +:+ Join (hex_field <$> drop (z + l) f) ":".

(** ** DNS errors

    What the program looks at in a resolver error: whether it is (or wraps) a
    [*net.DNSError], and its [IsNotFound] flag. *)
Inductive dns_error :=
| DNSError (IsNotFound : bool)
| WrappedDNSError (IsNotFound : bool)
| OtherError.

Definition dns_answer (A : Type) := outcome dns_error (list A).

Record MX := mkMX { mx_Host : string; mx_Pref : Z }.

(** [net.SplitHostPort]; [None] is an error. *)
Definition SplitHostPort (hostport : string) : option (string * string) :=
  match LastIndex hostport ":" with
  | None => None
  | Some i =>
      let finish (host : string) (j k : nat) :=
        if Contains (sdrop j hostport) "[" then None
        else if Contains (sdrop k hostport) "]" then None
        else Some (host, sdrop (S i) hostport) in
      if HasPrefix hostport "[" then
        match Index hostport "]" with
        | None => None
        | Some e =>
            if (S e =? String.length hostport)%nat then None
            else if (S e =? i)%nat then finish (stake (e - 1) (sdrop 1 hostport)) 1%nat (S e)
            else None
        end
      else
        let host := stake i hostport in
        if Contains host ":" then None else finish host 0%nat 0%nat
  end.

(** [net.JoinHostPort]. *)
Definition JoinHostPort (host port : string) : string :=
  if Contains host ":" || Contains host "%" then "[" +:+ host +:+ "]:" +:+ port
  else host +:+ ":" +:+ port.
