(* ===== verification/DnsFallback.v ===== *)
(** * DNS fallback resolvers (internal/dnsfallback/dnsfallback.go)

    TXT lookups ask the local resolver first and then the external resolvers
    of DNS_FALLBACK_RESOLVERS in order. The package state (the mutex-guarded
    variables [resolvers] and [timeout]) is the record [fallback]. A resolver
    is its address together with the answers it gives, a parameter of the
    model; [expired i] says whether the context has ended when the loop
    reaches the i-th external resolver. *)

From S2P Require Import Prelude GoStrings GoTime GoNet.

Local Open Scope string_scope.
Local Open Scope list_scope.
Local Open Scope Z_scope.

Definition DefaultResolvers : string := "1.1.1.1,8.8.8.8,9.9.9.9".
Definition Off : string := "none".
Definition DefaultTimeout : Z := 2 * second.
Definition MinTimeout : Z := second / 2.
Definition MaxTimeout : Z := 10 * second.
Definition MaxResolvers : nat := 5.

(** Why a resolver list is refused. *)
Inductive resolver_error :=
| NotAnIP (s : string)
| BadPort (s port : string)
| TooManyResolvers (n : nat).

Definition normalizeAddr (s : string) : outcome resolver_error string :=
  let '(host, port) :=
    match SplitHostPort s with
    | Some (h, p) => (h, p)
    | None => (Trim s "[]", "53")
    end in
  if isNil (ParseIP host) then Err (NotAnIP s)
  else match Atoi port with
       | Some n => if (n <? 1) || (65535 <? n) then Err (BadPort s port)
                   else Ok (JoinHostPort host port)
       | None => Err (BadPort s port)
       end.

Fixpoint parse_parts (parts : list string) : outcome resolver_error (list string) :=
  match parts with
  | [] => Ok []
  | part :: rest =>
      let part := TrimSpace part in
      if isEmpty part then parse_parts rest
      else let! addr := normalizeAddr part in
           let! out := parse_parts rest in
           Ok (addr :: out)
  end.

Definition ParseResolvers (value : string) : outcome resolver_error (list string) :=
  let value := TrimSpace value in
  if isEmpty value || EqualFold value Off then Ok []
  else let! out := parse_parts (Split value ",") in
       if (MaxResolvers <? List.length out)%nat then Err (TooManyResolvers (List.length out))
       else Ok out.

(** ** Package state *)

Record resolver := mkResolver {
  r_addr : string;
  r_query : string -> dns_answer string
}.

Record fallback := mkFallback {
  fb_resolvers : list resolver;
  fb_timeout : Z
}.

Definition initial_fallback : fallback := mkFallback [] DefaultTimeout.

(** [Configure]; [net addr] is the resolver that dials [addr]. *)
Definition Configure (net : string -> string -> dns_answer string)
    (addrs : list string) (perResolverTimeout : Z) (st : fallback) : fallback :=
  {| fb_resolvers := (fun a => mkResolver a (net a)) <$> addrs;
     fb_timeout := if 0 <? perResolverTimeout then perResolverTimeout else fb_timeout st |}.

Definition Resolvers (st : fallback) : list string := r_addr <$> fb_resolvers st.

Definition Hosts (st : fallback) : list string :=
  (fun a => match SplitHostPort a with Some (h, _) => h | None => a end) <$> Resolvers st.

(** ** Lookup *)

Definition answered {A} (a : dns_answer A) : bool :=
  match a with Ok (_ :: _) => true | _ => false end.

(** The loop over the external resolvers: the first non-empty answer. *)
Fixpoint ask (l : list resolver) (expired : nat -> bool) (i : nat) (name : string)
  : option (list string * string) :=
  match l with
  | [] => None
  | r :: l' =>
      if expired i then None
      else match r_query r name with
           | Ok (x :: xs) => Some (x :: xs, r_addr r)
           | _ => ask l' expired (S i) name
           end
  end.

(** [LookupTXTSource]: records or error, with the address that answered (empty
    for the local resolver). *)
Definition LookupTXTSource (localLookup : string -> dns_answer string) (st : fallback)
    (expired : nat -> bool) (name : string) : dns_answer string * string :=
  let local := localLookup name in
  if answered local then (local, "")
  else match ask (fb_resolvers st) expired 0 name with
       | Some (recs, addr) => (Ok recs, addr)
       | None => (local, "")
       end.

Definition LookupTXT (localLookup : string -> dns_answer string) (st : fallback)
    (expired : nat -> bool) (name : string) : dns_answer string :=
  fst (LookupTXTSource localLookup st expired name).

(** ** Theorems *)

(** The external resolver that decides: position [j], answering first. *)
Definition first_answer (l : list resolver) (expired : nat -> bool) (i : nat) (name : string)
    (recs : list string) (addr : string) : Prop :=
  exists j r, l !! j = Some r /\ r_addr r = addr /\ r_query r name = Ok recs /\ recs <> []
    /\ (forall k, (k <= j)%nat -> expired (i + k)%nat = false)
    /\ (forall k r', (k < j)%nat -> l !! k = Some r' -> answered (r_query r' name) = false).

Lemma ask_some l expired i name recs addr :
  ask l expired i name = Some (recs, addr) -> first_answer l expired i name recs addr.
Proof.
  revert i. induction l as [|r l IH]; intros i; simpl; [done|].
  case_if; [done|].
  assert (Hrec : answered (r_query r name) = false -> ask l expired (S i) name = Some (recs, addr) ->
    first_answer (r :: l) expired i name recs addr).
  { intros Hr (j & r' & ? & ? & ? & ? & He & Hf)%IH. exists (S j), r'. split_and!; try done.
    - intros [|k] Hk; [by rewrite Nat.add_0_r|]. rewrite <- Nat.add_succ_comm. apply He. lia.
    - intros [|k] r'' Hk; simpl; [by intros [= <-]|]. apply Hf. lia. }
  destruct (r_query r name) as [[|x xs]|e] eqn:Hq; [by apply Hrec| |by apply Hrec].
  intros [= <- <-]. exists 0%nat, r. split_and!; try done.
  - intros k Hk. replace k with 0%nat by lia. by rewrite Nat.add_0_r.
  - intros; lia.
Qed.

Lemma ask_none l expired i name :
  ask l expired i name = None ->
  exists j, (j <= List.length l)%nat
    /\ (forall k r, (k < j)%nat -> l !! k = Some r -> answered (r_query r name) = false)
    /\ (j = List.length l \/ expired (i + j)%nat = true).
Proof.
  revert i. induction l as [|r l IH]; intros i; simpl.
  { intros _. exists 0%nat. split_and!; [done|intros; lia|by left]. }
  case_if.
  { intros _. exists 0%nat. split_and!; [lia|intros; lia|right; by rewrite Nat.add_0_r]. }
  intros H. assert (Hq : answered (r_query r name) = false /\ ask l expired (S i) name = None).
  { destruct (r_query r name) as [[|]|]; done. }
  destruct Hq as [Hq (j & Hj & Hf & He)%IH]. exists (S j). split_and!.
  - lia.
  - intros [|k] r' Hk; simpl; [by intros [= <-]|]. apply Hf. lia.
  - destruct He as [->|He]; [by left|right]. by rewrite <- Nat.add_succ_comm.
Qed.

(** A TXT lookup returns the local answer whenever the local resolver has
    records, and then names no external source; otherwise it returns the
    records of the first external resolver, in configured order, that has any
    and is reached before the deadline; and when none does, it reports the
    local result itself, so an external resolver can add records but never
    replaces a local answer or turns it into an error. *)
Theorem LookupTXTSource_spec localLookup st expired name :
  let local := localLookup name in
  match LookupTXTSource localLookup st expired name with
  | (ans, src) =>
      (answered local = true /\ ans = local /\ src = "")
      \/ (answered local = false /\ exists recs, ans = Ok recs
          /\ first_answer (fb_resolvers st) expired 0 name recs src)
      \/ (answered local = false /\ ans = local /\ src = ""
          /\ exists j, (j <= List.length (fb_resolvers st))%nat
             /\ (forall k r, (k < j)%nat -> fb_resolvers st !! k = Some r -> answered (r_query r name) = false)
             /\ (j = List.length (fb_resolvers st) \/ expired j = true))
  end.
Proof.
  simpl. unfold LookupTXTSource. destruct (answered (localLookup name)) eqn:Hl; [auto|].
  destruct (ask _ _ _ _) as [[recs addr]|] eqn:Ha.
  - apply ask_some in Ha. right; left. eauto.
  - apply ask_none in Ha. right; right. auto.
Qed.

(** What a configured resolver address looks like. *)
Definition good_addr (a : string) : Prop :=
  exists host port n, a = JoinHostPort host port /\ ParseIP host <> [] /\ Atoi port = Some n /\ 1 <= n <= 65535.

Lemma normalizeAddr_good s a : normalizeAddr s = Ok a -> good_addr a.
Proof.
  unfold normalizeAddr.
  assert (exists host port, match SplitHostPort s with Some (h, p) => (h, p)
                            | None => (Trim s "[]", "53") end = (host, port)) as (host & port & ->)
    by (destruct (SplitHostPort s) as [[]|]; eauto).
  destruct (ParseIP host) eqn:Hip; simpl; [done|].
  destruct (Atoi port) as [n|] eqn:Hn; [|done]. case_if; [done|]. intros [= <-].
  apply orb_false_iff in Hif as [? ?]. bool_to_prop.
  exists host, port, n. rewrite Hip. split_and!; (done || lia).
Qed.

Lemma parse_parts_good parts out : parse_parts parts = Ok out -> Forall good_addr out.
Proof.
  revert out. induction parts as [|p parts IH]; intros out; simpl; [by intros [= <-]|].
  case_if; [apply IH|].
  rewrite obind_ok. intros (a & Ha & H). apply obind_ok in H as (o & Ho & [= <-]).
  constructor; [by eapply normalizeAddr_good|eauto].
Qed.

Lemma ParseResolvers_ok value l :
  ParseResolvers value = Ok l -> (List.length l <= MaxResolvers)%nat /\ Forall good_addr l.
Proof.
  unfold ParseResolvers. case_if; [intros [= <-]; split; [unfold MaxResolvers; simpl; lia|done]|].
  rewrite obind_ok. intros (out & Hout & H). case_if_in H; [done|]. injection H as <-. bool_to_prop.
  split; [lia|]. by eapply parse_parts_good.
Qed.

(** An accepted DNS_FALLBACK_RESOLVERS value gives at most five addresses,
    each an IP literal joined with a port between 1 and 65535; host names are
    never accepted. *)
Theorem ParseResolvers_sound value l :
  ParseResolvers value = Ok l -> (List.length l <= MaxResolvers)%nat /\ Forall good_addr l.
Proof. apply ParseResolvers_ok. Qed.

Lemma ParseResolvers_sound_witness :
  (List.length ["1.1.1.1:53"; "[2620:fe::fe]:5353"] <= MaxResolvers)%nat
  /\ Forall good_addr ["1.1.1.1:53"; "[2620:fe::fe]:5353"].
Proof. apply (ParseResolvers_sound " 1.1.1.1, [2620:fe::fe]:5353,"). vm_compute. reflexivity. Defined.

Example default_resolvers_accepted :
  ParseResolvers DefaultResolvers = Ok ["1.1.1.1:53"; "8.8.8.8:53"; "9.9.9.9:53"].
Proof. vm_compute. reflexivity. Qed.
