(* ===== verification/Spf.v ===== *)
(** * SPF evaluation (cmd/sender-report/auth.go)

    [checkSPFDomain] and [matchSPFMechanism] are the two mutually recursive
    functions of the evaluator. The counter [lookups] (shared by pointer in
    the code) and the map [seen] are threaded explicitly. The recursion is
    given fuel; [None] means that it ran out, and [checkSPFDomain_total] shows
    that twelve levels are always enough. DNS is a parameter: the record
    [dns_env] of the lookups the code makes. *)

From S2P Require Import Prelude GoStrings GoNet.

Local Open Scope string_scope.
Local Open Scope list_scope.
Local Open Scope Z_scope.

(** The resolver calls of the process: [txt] is [dnsfallback.LookupTXT], the
    others are methods of [net.DefaultResolver]. *)
Record dns_env := mkDnsEnv {
  env_txt : string -> dns_answer string;
  env_ipaddr : string -> dns_answer IP;
  env_host : string -> dns_answer string;
  env_mx : string -> dns_answer MX;
  env_addr : string -> dns_answer string
}.

(** ** Three-valued DNS status (internal/analyzer/dns.go) *)

Inductive dnsStatus := dnsOK | dnsAbsent | dnsUnavailable.

#[export] Instance dnsStatus_eq_dec : EqDecision dnsStatus.
Proof. solve_decision. Defined.

(** [classifyDNSError] on a non-nil error. *)
Definition classifyDNSError (err : dns_error) : dnsStatus :=
  match err with
  | DNSError true | WrappedDNSError true => dnsAbsent
  | _ => dnsUnavailable
  end.

Definition DNSLookupFailed (err : dns_error) : bool :=
  match classifyDNSError err with dnsUnavailable => true | _ => false end.

(** ** Small helpers *)

Definition emptyFallback (v fallback : string) : string :=
  if isEmpty (TrimSpace v) then fallback else v.

Definition extractDomain (v : string) : string :=
  let v := TrimSpace (Trim v "<>") in
  if isEmpty v then "" else
  match LastIndex v "@" with
  | None => ""
  | Some at_ => if (String.length v <=? at_ + 1)%nat then ""
                else ToLower (TrimSpace (sdrop (at_ + 1) v))
  end.

(** -1 on anything that is not a number. *)
Definition parseCIDRBits (v : string) : Z :=
  match Atoi (TrimSpace v) with Some i => i | None => -1 end.

Definition is_qualifier (a : ascii) : bool := ContainsRune "+-~?" a.

Definition nameOrToken (token : string) : string :=
  let token := TrimSpace token in
  match token with
  | EmptyString => ""
  | String a rest =>
      let token := if is_qualifier a then rest else token in
      match Index token ":" with
      | Some i => ToLower (TrimSpace (stake i token))
      | None => ToLower token
      end
  end.

Definition normalizeCIDR (cidr bits : Z) : Z := if cidr <? 0 then bits else cidr.

Definition qualifierToResult (q : ascii) : string :=
  if Ascii.eqb q "+" then "pass"
  else if Ascii.eqb q "-" then "fail"
  else if Ascii.eqb q "~" then "softfail"
  else if Ascii.eqb q "?" then "neutral"
  else "neutral".

Definition ipMatchesWithOptionalCIDR (remoteIP candidate : IP) (cidr : Z) : bool :=
  if isNil remoteIP || isNil candidate then false
  else if cidr <? 0 then IP_Equal remoteIP candidate
  else
    let v4 := negb (isNil (To4 candidate)) && negb (isNil (To4 remoteIP)) in
    let bits := if v4 then 32 else 128 in
    let base := if v4 then To4 candidate else candidate in
    let check := if v4 then To4 remoteIP else remoteIP in
    if bits <? cidr then false
    else
      let mask := CIDRMask cidr bits in
      if isNil mask then false
      else IP_Equal (IP_Mask base mask) (IP_Mask check mask).

Definition ptrNameUnderDomain (host domain : string) : bool :=
  let host := TrimSuffix (ToLower (TrimSpace host)) "." in
  let domain := TrimSuffix (ToLower (TrimSpace domain)) "." in
  if isEmpty host || isEmpty domain then false
  else String.eqb host domain || HasSuffix host ("." +:+ domain).

(** Name, value and CIDR length (-1 when there is none) of a mechanism. *)
Definition parseSPFMechanism (mech : string) : string * string * Z :=
  let raw := TrimSpace mech in
  let '(name, value) :=
    match Index raw ":" with
    | Some i => (ToLower (TrimSpace (stake i raw)), TrimSpace (sdrop (i + 1) raw))
    | None => (ToLower raw, "")
    end in
  let '(name, cidr) :=
    match Index name "/" with
    | Some j => (TrimSpace (stake j name), parseCIDRBits (sdrop (j + 1) name))
    | None => (name, -1)
    end in
  match Index value "/" with
  | Some k => (name, stake k value, parseCIDRBits (TrimSpace (sdrop (k + 1) value)))
  | None => (name, value, cidr)
  end.

(** ** DNS-backed mechanisms *)

Section WithDNS.
Context (env : dns_env).

(** First result: matched. Second: "temperror" when the lookup failed. *)
Definition hostResolvesToIP (host : string) (remoteIP : IP) (cidr : Z) : bool * string :=
  match env_ipaddr env host with
  | Err e => if DNSLookupFailed e then (false, "temperror") else (false, "")
  | Ok addrs => (existsb (fun a => ipMatchesWithOptionalCIDR remoteIP a cidr) addrs, "")
  end.

(** [sort.SliceStable] by preference. *)
Fixpoint insert_mx (m : MX) (l : list MX) : list MX :=
  match l with
  | [] => [m]
  | x :: l' => if mx_Pref m <=? mx_Pref x then m :: l else x :: insert_mx m l'
  end.
Definition sort_mx (l : list MX) : list MX := foldr insert_mx [] l.

Fixpoint mx_loop (mxs : list MX) (remoteIP : IP) (cidr : Z) (deferred : string) : bool * string :=
  match mxs with
  | [] => (false, deferred)
  | mx :: rest =>
      let host := TrimSuffix (mx_Host mx) "." in
      let '(matched, errRes) := hostResolvesToIP host remoteIP cidr in
      if matched then (true, "")
      else mx_loop rest remoteIP cidr (if isEmpty errRes then deferred else errRes)
  end.

Definition mxResolvesToIP (domain : string) (remoteIP : IP) (cidr : Z) : bool * string :=
  match env_mx env domain with
  | Err e => if DNSLookupFailed e then (false, "temperror") else (false, "")
  | Ok mxs => mx_loop (sort_mx mxs) remoteIP cidr ""
  end.

Fixpoint ptr_loop (ptrs : list string) (target : string) (remoteIP : IP) : bool * string :=
  match ptrs with
  | [] => (false, "")
  | host :: rest =>
      let host := TrimSuffix (ToLower host) "." in
      if negb (ptrNameUnderDomain host target) then ptr_loop rest target remoteIP
      else
        let '(matched, errRes) := hostResolvesToIP host remoteIP (-1) in
        if matched then (true, "")
        else if isEmpty errRes then ptr_loop rest target remoteIP
        else (false, errRes)
  end.

(** The record of a domain and the status "", "none", "temperror" or
    "permerror". *)
Definition is_spf1 (rec : string) : bool := HasPrefix (ToLower rec) "v=spf1".

Definition lookupSPFRecord (domain : string) : string * string :=
  match env_txt env domain with
  | Err (DNSError true) => ("", "none")
  | Err _ => ("", "temperror")
  | Ok txts =>
      let matches := List.filter is_spf1 (TrimSpace <$> txts) in
      if (1 <? List.length matches)%nat then ("", "permerror")
      else match last matches with
           | Some record => if isEmpty record then ("", "none") else (record, "")
           | None => ("", "none")
           end
  end.

(** ** The evaluator *)

Definition spfLookupBudget : Z := 10.

(** What one call returns with the threaded state: [(value, seen, lookups)]. *)
Definition spf_ret (A : Type) := option (A * gset string * Z).

(** The recursive call passed to the mechanisms: domain, depth, state. *)
Definition spf_rec := string -> Z -> gset string -> Z -> spf_ret (string * string).

Definition costs_lookup (name : string) : bool :=
  existsb (String.eqb name) ["include"; "a"; "mx"; "ptr"; "exists"].

Definition matchSPFMechanism (rec : spf_rec) (remoteIP : IP) (currentDomain mechanism : string)
    (depth : Z) (seen : gset string) (lookups : Z) : spf_ret (bool * string) :=
  let '(name, value, cidr) := parseSPFMechanism mechanism in
  let lookups := if costs_lookup name then lookups + 1 else lookups in
  let target := if isEmpty value then currentDomain else value in
  if costs_lookup name && (spfLookupBudget <? lookups) then Some (false, "permerror", seen, lookups)
  else if String.eqb name "all" then Some (true, "", seen, lookups)
  else if String.eqb name "include" then
    if isEmpty value then Some (false, "permerror", seen, lookups)
    else match rec value (depth + 1) seen lookups with
         | None => None
         | Some (res, _, seen', lookups') =>
             if String.eqb res "pass" then Some (true, "", seen', lookups')
             else if String.eqb res "temperror" || String.eqb res "permerror"
             then Some (false, res, seen', lookups')
             else Some (false, "", seen', lookups')
         end
  else if String.eqb name "ip4" then
    Some (ipMatchesWithOptionalCIDR remoteIP (ParseIP value) (normalizeCIDR cidr 32), "", seen, lookups)
  else if String.eqb name "ip6" then
    Some (ipMatchesWithOptionalCIDR remoteIP (ParseIP value) (normalizeCIDR cidr 128), "", seen, lookups)
  else if String.eqb name "a" then
    Some (hostResolvesToIP target remoteIP cidr, seen, lookups)
  else if String.eqb name "mx" then
    Some (mxResolvesToIP target remoteIP cidr, seen, lookups)
  else if String.eqb name "exists" then
    match env_host env target with
    | Err e => Some (if DNSLookupFailed e then (false, "temperror") else (false, ""), seen, lookups)
    | Ok ips => Some (negb (List.length ips =? 0)%nat, "", seen, lookups)
    end
  else if String.eqb name "ptr" then
    let target := ToLower (TrimSpace value) in
    let target := if isEmpty target then ToLower (TrimSpace currentDomain) else target in
    if isEmpty target then Some (false, "", seen, lookups)
    else match env_addr env (IP_String remoteIP) with
         | Err e => Some (if DNSLookupFailed e then (false, "temperror") else (false, ""), seen, lookups)
         | Ok ptrs => Some (ptr_loop ptrs target remoteIP, seen, lookups)
         end
  else Some (false, "", seen, lookups).

(** The loop over the record's terms: either a final result, or the value of
    the last redirect= seen when no mechanism decided. *)
Fixpoint spf_tokens (rec : spf_rec) (remoteIP : IP) (domain : string) (depth : Z)
    (toks : list string) (redirect : string) (seen : gset string) (lookups : Z)
  : spf_ret ((string * string) + string) :=
  match toks with
  | [] => Some (inr redirect, seen, lookups)
  | tok :: rest =>
      let tok := TrimSpace tok in
      match tok with
      | EmptyString => spf_tokens rec remoteIP domain depth rest redirect seen lookups
      | String a tail =>
          if HasPrefix (ToLower tok) "redirect=" then
            let redirect := TrimSpace (snd (fst (Cut tok "="))) in
            spf_tokens rec remoteIP domain depth rest redirect seen lookups
          else if HasPrefix (ToLower tok) "exp=" then
            spf_tokens rec remoteIP domain depth rest redirect seen lookups
          else if Contains tok "=" then
            spf_tokens rec remoteIP domain depth rest redirect seen lookups
          else
            let '(qualifier, tok) := if is_qualifier a then (a, tail) else ("+"%char, tok) in
            match matchSPFMechanism rec remoteIP domain tok depth seen lookups with
            | None => None
            | Some (matched, errRes, seen, lookups) =>
                if negb (isEmpty errRes) then Some (inl (errRes, nameOrToken tok), seen, lookups)
                else if matched then
                  Some (inl (qualifierToResult qualifier, nameOrToken tok), seen, lookups)
                else spf_tokens rec remoteIP domain depth rest redirect seen lookups
            end
      end
  end.

(** [checkSPFDomain] after its depth guard. [leave] is the deferred
    [delete(seen, domain)]. *)
Definition spf_body (rec : spf_rec) (remoteIP : IP) (domain : string) (depth : Z)
    (seen : gset string) (lookups : Z) : spf_ret (string * string) :=
  let domain := ToLower (TrimSpace domain) in
  if isEmpty domain then Some ("none", "empty-domain", seen, lookups)
  else if bool_decide (domain ∈ seen) then Some ("permerror", "loop-detected", seen, lookups)
  else
    let inner := {[domain]} ∪ seen in
    let '(record, recErr) := lookupSPFRecord domain in
    let leave (r : string * string) (s : gset string) (l : Z) := Some (r, s ∖ {[domain]}, l) in
    if String.eqb recErr "none" then leave ("none", "no-record") inner lookups
    else if String.eqb recErr "temperror" then leave ("temperror", "dns-temporary-error") inner lookups
    else if String.eqb recErr "permerror" then leave ("permerror", "multiple-records") inner lookups
    else
      match Fields record with
      | [] => leave ("none", "empty-record") inner lookups
      | _ :: toks =>
          match spf_tokens rec remoteIP domain depth toks "" inner lookups with
          | None => None
          | Some (inl r, s, l) => leave r s l
          | Some (inr redirect, s, l) =>
              if isEmpty redirect then leave ("neutral", "default-neutral") s l
              else
                let l := l + 1 in
                if spfLookupBudget <? l then leave ("permerror", "lookup-limit") s l
                else match rec redirect (depth + 1) s l with
                     | None => None
                     | Some (res, mech, s, l) =>
                         let mech := if isEmpty mech then "redirect" else mech in
                         leave (res, "redirect->" +:+ mech) s l
                     end
          end
      end.

Fixpoint checkSPFDomain (fuel : nat) (remoteIP : IP) (domain : string) (depth : Z)
    (seen : gset string) (lookups : Z) : spf_ret (string * string) :=
  match fuel with
  | O => None
  | S fuel' =>
      if 10 <? depth then Some ("permerror", "depth-limit", seen, lookups)
      else spf_body (checkSPFDomain fuel' remoteIP) remoteIP domain depth seen lookups
  end.

(** Twelve levels: depths 0 to 10 are evaluated and depth 11 is refused. *)
Definition spf_fuel : nat := 12.

(** [evaluateSPF]: result, domain, detail. *)
Definition evaluateSPF (remoteIP : IP) (helo envelopeFrom : string)
  : option (string * string * string) :=
  let domain := extractDomain envelopeFrom in
  let domain := if isEmpty domain then ToLower (TrimSpace helo) else domain in
  if isEmpty domain || isNil remoteIP then
    Some ("none", domain, "missing sender domain or remote ip")
  else
    match checkSPFDomain spf_fuel remoteIP domain 0 ∅ 0 with
    | None => None
    | Some (res, matchedBy, _, _) =>
        Some (res, domain, "domain=" +:+ domain +:+ " mechanism=" +:+ emptyFallback matchedBy "none")
    end.

(** ** Properties of the evaluator *)

(** What every call guarantees when it starts within the budget: the set of
    domains in progress is restored, the counter only grows and stays at most
    one past the budget, and passing the budget means permerror. *)
Definition spf_call_ok (seen seen' : gset string) (l l' : Z) (res : string) : Prop :=
  seen' = seen /\ l <= l' <= spfLookupBudget + 1 /\ (spfLookupBudget < l' -> res = "permerror").

(** A recursive call that keeps these guarantees at [depth], provided the
    counter has paid for the nesting. *)
Definition spf_rec_ok (rec : spf_rec) (depth : Z) : Prop :=
  forall d s l r m s' l', depth <= l <= spfLookupBudget ->
    rec d depth s l = Some (r, m, s', l') -> spf_call_ok s s' l l' r.

Ltac mech_done := intros [= <- <- <- <-]; split_and!; (done || lia).

Lemma matchSPFMechanism_ok rec ip cur mech depth seen l b e seen' l' :
  spf_rec_ok rec (depth + 1) -> depth <= l <= spfLookupBudget ->
  matchSPFMechanism rec ip cur mech depth seen l = Some (b, e, seen', l') ->
  seen' = seen /\ l <= l' <= spfLookupBudget + 1 /\ (spfLookupBudget < l' -> e = "permerror").
Proof.
  intros Hrec Hl. unfold matchSPFMechanism.
  destruct (parseSPFMechanism mech) as [[name value] cidr].
  set (l1 := if costs_lookup name then l + 1 else l).
  destruct (costs_lookup name && (spfLookupBudget <? l1)) eqn:Hover.
  { intros [= <- <- <- <-]. apply andb_true_iff in Hover as [Hc Hb].
    subst l1. rewrite Hc in *. split_and!; [done|lia|lia|done]. }
  assert (Hl1 : l <= l1 <= spfLookupBudget /\ (name = "include" -> l1 = l + 1)).
  { subst l1. destruct (costs_lookup name) eqn:Hc; simpl in Hover; [lia|].
    split; [lia|]. intros ->. done. }
  clearbody l1.
  destruct (String.eqb name "all"); [by mech_done|].
  destruct (String.eqb name "include") eqn:Hinc.
  { case_if; [by mech_done|]. bool_to_prop. pose proof (proj2 Hl1 Hinc).
    destruct (rec value (depth + 1) seen l1) as [[[[r m] s2] l2]|] eqn:Hr; [|done].
    apply Hrec in Hr as (-> & Hl2 & Hp); [|lia].
    destruct (spfLookupBudget <? l2) eqn:Hb; bool_to_prop.
    - rewrite (Hp ltac:(lia)). simpl. by mech_done.
    - repeat case_if; by mech_done. }
  destruct (String.eqb name "ip4"); [by mech_done|].
  destruct (String.eqb name "ip6"); [by mech_done|].
  destruct (String.eqb name "a"); [destruct (hostResolvesToIP _ _ _); by mech_done|].
  destruct (String.eqb name "mx"); [destruct (mxResolvesToIP _ _ _); by mech_done|].
  destruct (String.eqb name "exists"); [destruct (env_host _ _); [|case_if]; by mech_done|].
  destruct (String.eqb name "ptr"); [|by mech_done].
  case_if; [by mech_done|].
  destruct (env_addr _ _); [destruct (ptr_loop _ _ _)|case_if]; by mech_done.
Qed.

Lemma spf_tokens_ok rec ip dom depth toks red seen l x seen' l' :
  spf_rec_ok rec (depth + 1) -> depth <= l <= spfLookupBudget ->
  spf_tokens rec ip dom depth toks red seen l = Some (x, seen', l') ->
  seen' = seen /\ l <= l' <= spfLookupBudget + 1 /\
  (spfLookupBudget < l' -> exists m, x = inl ("permerror", m)).
Proof.
  intros Hrec. revert red l.
  induction toks as [|tok toks IH]; intros red l Hl; simpl.
  { intros [= <- <- <-]. split_and!; (done || lia). }
  destruct (TrimSpace tok) as [|a tail] eqn:Ht; [by apply IH|].
  case_if; [by apply IH|]. case_if; [by apply IH|]. case_if; [by apply IH|].
  destruct (if is_qualifier a then _ else _) as [q t].
  destruct (matchSPFMechanism _ _ _ _ _ _ _) as [[[[b e] s1] l1]|] eqn:Hm; [|done].
  apply matchSPFMechanism_ok in Hm as (-> & Hl1 & Hp); [|done|done].
  destruct (isEmpty e) eqn:He; simpl.
  - destruct e; [|done].
    assert (l1 <= spfLookupBudget) by (destruct (Z.le_gt_cases l1 spfLookupBudget); [done|]; by specialize (Hp ltac:(lia))).
    destruct b; [intros [= <- <- <-]; split_and!; (done || lia)|].
    intros (-> & ? & ?)%IH; [|lia]. split_and!; (done || lia).
  - intros [= <- <- <-]. split_and!; [done|lia|lia|].
    intros Hb. rewrite (Hp Hb). eauto.
Qed.

Lemma spf_body_ok rec ip dom depth seen l r m seen' l' :
  spf_rec_ok rec (depth + 1) -> depth <= l <= spfLookupBudget ->
  spf_body rec ip dom depth seen l = Some (r, m, seen', l') -> spf_call_ok seen seen' l l' r.
Proof.
  intros Hrec Hl. unfold spf_body, spf_call_ok.
  set (d := ToLower (TrimSpace dom)). clearbody d.
  case_if; [intros [= <- <- <- <-]; split_and!; (done || lia)|].
  case_bool_decide as Hin; [intros [= <- <- <- <-]; split_and!; (done || lia)|].
  assert (Hrest : ({[d]} ∪ seen) ∖ {[d]} = seen) by set_solver.
  destruct (lookupSPFRecord d) as [record recErr].
  do 3 (case_if; [intros [= <- <- <- <-]; split_and!; (done || lia)|]).
  destruct (Fields record) as [|v toks]; [intros [= <- <- <- <-]; split_and!; (done || lia)|].
  destruct (spf_tokens _ _ _ _ _ _ _ _) as [[[x s1] l1]|] eqn:Ht; [|done].
  apply spf_tokens_ok in Ht as (-> & Hl1 & Hp); [|done|done].
  destruct x as [[r1 m1]|red].
  { intros [= <- <- <- <-]. split_and!; [done|lia|lia|].
    intros Hb. destruct (Hp Hb) as [m' Hm]. congruence. }
  assert (l1 <= spfLookupBudget)
    by (destruct (Z.le_gt_cases l1 spfLookupBudget); [done|]; by destruct (Hp ltac:(lia))).
  case_if; [intros [= <- <- <- <-]; split_and!; (done || lia)|].
  case_if; bool_to_prop; [intros [= <- <- <- <-]; split_and!; (done || lia)|].
  destruct (rec red _ _ _) as [[[[r2 m2] s2] l2]|] eqn:Hr; [|done].
  apply Hrec in Hr as (-> & ? & ?); [|lia].
  intros [= <- <- <- <-]. split_and!; (done || lia).
Qed.

Lemma checkSPFDomain_ok fuel ip depth : spf_rec_ok (checkSPFDomain fuel ip) depth.
Proof.
  revert depth. induction fuel as [|fuel IH]; intros depth d s l r m s' l' Hl; [done|].
  simpl. case_if; bool_to_prop; [unfold spfLookupBudget in Hl; lia|].
  by apply spf_body_ok.
Qed.

(** The depth guard is never the reason for a result: depth is paid for by
    lookups, so the budget is exhausted first. *)
Fixpoint check_unguarded (fuel : nat) (ip : IP) : spf_rec :=
  match fuel with
  | O => fun _ _ _ _ => None
  | S fuel' => spf_body (check_unguarded fuel' ip) ip
  end.

(** Two recursive calls that agree wherever nesting is paid for. *)
Definition rec_agree (r1 r2 : spf_rec) (depth : Z) : Prop :=
  forall d s l, depth <= l <= spfLookupBudget -> r1 d depth s l = r2 d depth s l.

Lemma matchSPFMechanism_agree r1 r2 ip cur mech depth seen l :
  rec_agree r1 r2 (depth + 1) -> depth <= l <= spfLookupBudget ->
  matchSPFMechanism r1 ip cur mech depth seen l = matchSPFMechanism r2 ip cur mech depth seen l.
Proof.
  intros Hag Hl. unfold matchSPFMechanism.
  destruct (parseSPFMechanism mech) as [[name value] cidr].
  destruct (String.eqb name "include") eqn:Hinc; [|done].
  apply String.eqb_eq in Hinc. subst name. simpl.
  case_if; [done|]. case_if; [done|]. bool_to_prop. by rewrite Hag by lia.
Qed.

Lemma spf_tokens_agree r1 r2 ip dom depth toks red seen l :
  rec_agree r1 r2 (depth + 1) -> spf_rec_ok r2 (depth + 1) -> depth <= l <= spfLookupBudget ->
  spf_tokens r1 ip dom depth toks red seen l = spf_tokens r2 ip dom depth toks red seen l.
Proof.
  intros Hag Hok. revert red l.
  induction toks as [|tok toks IH]; intros red l Hl; simpl; [done|].
  destruct (TrimSpace tok) as [|a tail]; [by apply IH|].
  case_if; [by apply IH|]. case_if; [by apply IH|]. case_if; [by apply IH|].
  destruct (if is_qualifier a then _ else _) as [q t].
  rewrite (matchSPFMechanism_agree r1 r2) by done.
  destruct (matchSPFMechanism r2 _ _ _ _ _ _) as [[[[b e] s1] l1]|] eqn:Hm; [|done].
  apply matchSPFMechanism_ok in Hm as (-> & Hl1 & Hp); [|done|done].
  destruct e as [|c e]; simpl; [|done]. destruct b; [done|].
  apply IH. destruct (Z.le_gt_cases l1 spfLookupBudget); [lia|]. by specialize (Hp ltac:(lia)).
Qed.

Lemma spf_body_agree r1 r2 ip dom depth seen l :
  rec_agree r1 r2 (depth + 1) -> spf_rec_ok r2 (depth + 1) -> depth <= l <= spfLookupBudget ->
  spf_body r1 ip dom depth seen l = spf_body r2 ip dom depth seen l.
Proof.
  intros Hag Hok Hl. unfold spf_body.
  set (d := ToLower (TrimSpace dom)). clearbody d.
  case_if; [done|]. case_bool_decide; [done|].
  destruct (lookupSPFRecord d) as [record recErr].
  do 3 (case_if; [done|]).
  destruct (Fields record) as [|v toks]; [done|].
  rewrite (spf_tokens_agree r1 r2) by done.
  destruct (spf_tokens r2 _ _ _ _ _ _ _) as [[[[x|red] s1] l1]|] eqn:Ht; [done| |done].
  apply spf_tokens_ok in Ht as (-> & Hl1 & Hp); [|done|done].
  case_if; [done|]. case_if; [done|]. bool_to_prop. by rewrite Hag by lia.
Qed.

Lemma checkSPFDomain_unguarded fuel ip depth :
  rec_agree (checkSPFDomain fuel ip) (check_unguarded fuel ip) depth
  /\ spf_rec_ok (check_unguarded fuel ip) depth.
Proof.
  revert depth. induction fuel as [|fuel IH]; intros depth; [done|].
  destruct (IH (depth + 1)) as [Hag Hok]. split.
  - intros d s l Hl. simpl. case_if; bool_to_prop; [unfold spfLookupBudget in Hl; lia|].
    by apply spf_body_agree.
  - intros d s l r m s' l' Hl Hs. by eapply spf_body_ok.
Qed.

(** Enough fuel always gives a result. *)
Lemma spf_tokens_some rec ip dom depth toks red seen l :
  (forall d s l, is_Some (rec d (depth + 1) s l)) ->
  is_Some (spf_tokens rec ip dom depth toks red seen l).
Proof.
  intros Hrec. revert red seen l.
  induction toks as [|tok toks IH]; intros red seen l; simpl; [eauto|].
  destruct (TrimSpace tok) as [|a tail]; [by apply IH|].
  do 3 (case_if; [by apply IH|]).
  destruct (if is_qualifier a then _ else _) as [q t].
  assert (is_Some (matchSPFMechanism rec ip dom t depth seen l)) as [[[[b e] s1] l1] ->].
  { unfold matchSPFMechanism. destruct (parseSPFMechanism t) as [[name value] cidr].
    repeat (match goal with
            | |- context [match rec ?d ?z ?s ?l with _ => _ end] =>
                destruct (Hrec d s l) as [[[[? ?] ?] ?] ->]
            | |- context [match env_host _ _ with _ => _ end] => destruct (env_host _ _)
            | |- context [match env_addr _ _ with _ => _ end] => destruct (env_addr _ _)
            | |- _ => case_if
            end; eauto). }
  repeat case_if; eauto.
Qed.

Lemma checkSPFDomain_total fuel ip dom depth seen l :
  12 <= Z.of_nat fuel + depth -> (0 < fuel)%nat ->
  is_Some (checkSPFDomain fuel ip dom depth seen l).
Proof.
  revert dom depth seen l. induction fuel as [|fuel IH]; intros dom depth seen l Hd Hf; [lia|].
  simpl. case_if; bool_to_prop; [eauto|].
  assert (Hrec : forall d s l, is_Some (checkSPFDomain fuel ip d (depth + 1) s l))
    by (intros; apply IH; lia).
  unfold spf_body. set (d := ToLower (TrimSpace dom)). clearbody d.
  case_if; [eauto|]. case_bool_decide; [eauto|].
  destruct (lookupSPFRecord d) as [record recErr].
  do 3 (case_if; [eauto|]). destruct (Fields record) as [|v toks]; [eauto|].
  destruct (spf_tokens_some (checkSPFDomain fuel ip) ip d depth toks "" ({[d]} ∪ seen) l Hrec)
    as [[[[x|red] s1] l1] ->]; [eauto|].
  case_if; [eauto|]. case_if; [eauto|].
  destruct (Hrec red s1 (l1 + 1)) as [[[[r m] s2] l2] ->]. eauto.
Qed.

End WithDNS.

(** ** Results *)

Definition spf_results : list string :=
  ["none"; "pass"; "fail"; "softfail"; "neutral"; "temperror"; "permerror"].

Definition errres_ok (e : string) : Prop := e = "" \/ e = "temperror" \/ e = "permerror".

Lemma hostResolvesToIP_err env h ip c : errres_ok (snd (hostResolvesToIP env h ip c)).
Proof. unfold hostResolvesToIP, errres_ok. destruct (env_ipaddr env h); [|case_if]; simpl; auto. Qed.

Lemma mx_loop_err env mxs ip c d : errres_ok d -> errres_ok (snd (mx_loop env mxs ip c d)).
Proof.
  revert d. induction mxs as [|m mxs IH]; intros d Hd; simpl; [done|].
  pose proof (hostResolvesToIP_err env (TrimSuffix (mx_Host m) ".") ip c) as He.
  destruct (hostResolvesToIP _ _ _ _) as [b e]. simpl in He.
  destruct b; [by left|]. apply IH. by case_if.
Qed.

Lemma ptr_loop_err env ptrs t ip : errres_ok (snd (ptr_loop env ptrs t ip)).
Proof.
  induction ptrs as [|p ptrs IH]; simpl; [by left|].
  case_if; [done|].
  pose proof (hostResolvesToIP_err env (TrimSuffix (ToLower p) ".") ip (-1)) as He.
  destruct (hostResolvesToIP _ _ _ _) as [b e]. simpl in He.
  destruct b; [by left|]. by case_if.
Qed.

Lemma matchSPFMechanism_err env rec ip cur mech depth seen l b e seen' l' :
  matchSPFMechanism env rec ip cur mech depth seen l = Some (b, e, seen', l') -> errres_ok e.
Proof.
  unfold matchSPFMechanism. destruct (parseSPFMechanism mech) as [[name value] cidr].
  pose proof (hostResolvesToIP_err env (if isEmpty value then cur else value) ip cidr) as Ha.
  assert (Hm : errres_ok (snd (mxResolvesToIP env (if isEmpty value then cur else value) ip cidr))).
  { unfold mxResolvesToIP. destruct (env_mx _ _); [apply mx_loop_err; by left|].
    unfold errres_ok. case_if; simpl; auto. }
  destruct (hostResolvesToIP _ _ _ _), (mxResolvesToIP _ _ _ _). simpl in Ha, Hm.
  unfold errres_ok in *. case_if; [intros [= <- <- <- <-]; auto|].
  case_if; [intros [= <- <- <- <-]; auto|].
  case_if.
  { case_if; [intros [= <- <- <- <-]; auto|].
    destruct (rec value _ _ _) as [[[[r m] s2] l2]|]; [|done].
    case_if; [intros [= <- <- <- <-]; auto|].
    case_if; intros [= <- <- <- <-]; auto.
    match goal with H : _ || _ = true |- _ => apply orb_true_iff in H as [?|?] end; bool_to_prop; auto. }
  do 4 (case_if; [intros [= <- <- <- <-]; auto|]).
  case_if; [destruct (env_host _ _); [|case_if]; intros [= <- <- <- <-]; auto|].
  case_if; [|intros [= <- <- <- <-]; auto].
  case_if; [intros [= <- <- <- <-]; auto|].
  destruct (env_addr _ _) as [ptrs|]; [|case_if; intros [= <- <- <- <-]; auto].
  match goal with |- context [ptr_loop env ptrs ?t ip] => pose proof (ptr_loop_err env ptrs t ip) end.
  destruct (ptr_loop _ _ _ _). intros [= <- <- <- <-]. done.
Qed.

Lemma qualifierToResult_range q : qualifierToResult q ∈ spf_results.
Proof. unfold qualifierToResult, spf_results. repeat case_if; set_solver. Qed.

Lemma spf_tokens_result env rec ip dom depth toks red seen l r m seen' l' :
  spf_tokens env rec ip dom depth toks red seen l = Some (inl (r, m), seen', l') ->
  r ∈ spf_results.
Proof.
  revert red seen l. induction toks as [|tok toks IH]; intros red seen l; simpl; [done|].
  destruct (TrimSpace tok) as [|a tail]; [by apply IH|].
  do 3 (case_if; [by apply IH|]).
  destruct (if is_qualifier a then _ else _) as [q t].
  destruct (matchSPFMechanism _ _ _ _ _ _ _ _) as [[[[b e] s1] l1]|] eqn:Hm; [|done].
  apply matchSPFMechanism_err in Hm.
  case_if; [intros [= <- <- <- <-]|].
  { destruct Hm as [->|[->| ->]]; [done| |]; unfold spf_results; set_solver. }
  destruct b; [intros [= <- <- <- <-]; apply qualifierToResult_range|by apply IH].
Qed.

Lemma checkSPFDomain_result env fuel ip dom depth seen l r m seen' l' :
  checkSPFDomain env fuel ip dom depth seen l = Some (r, m, seen', l') -> r ∈ spf_results.
Proof.
  assert (Hin : forall x, existsb (String.eqb x) spf_results = true -> x ∈ spf_results).
  { intros x (y & Hy & ->%String.eqb_eq)%existsb_exists. by apply list_elem_of_In. }
  revert dom depth seen l r m seen' l'. induction fuel as [|fuel IH]; [done|].
  intros dom depth seen l r m seen' l'. simpl.
  case_if; [intros [= <- <- <- <-]; by apply Hin|].
  unfold spf_body. set (d := ToLower (TrimSpace dom)). clearbody d.
  case_if; [intros [= <- <- <- <-]; by apply Hin|].
  case_bool_decide; [intros [= <- <- <- <-]; by apply Hin|].
  destruct (lookupSPFRecord env d) as [record recErr].
  do 3 (case_if; [intros [= <- <- <- <-]; by apply Hin|]).
  destruct (Fields record) as [|v toks]; [intros [= <- <- <- <-]; by apply Hin|].
  destruct (spf_tokens _ _ _ _ _ _ _ _ _) as [[[[[r1 m1]|red] s1] l1]|] eqn:Ht; [| |done].
  { intros [= <- <- <- <-]. by eapply spf_tokens_result. }
  case_if; [intros [= <- <- <- <-]; by apply Hin|].
  case_if; [intros [= <- <- <- <-]; by apply Hin|].
  destruct (checkSPFDomain env fuel _ _ _ _ _) as [[[[r2 m2] s2] l2]|] eqn:Hr; [|done].
  apply IH in Hr. by intros [= <- <- <- <-].
Qed.

(** ** Network prefixes *)

(** The address as a 32-bit number. *)
Definition be32 (q : list Z) : Z :=
  match q with
  | [a; b; c; d] => a * 16777216 + b * 65536 + c * 256 + d
  | _ => 0
  end.

Definition is_byte (z : Z) : Prop := 0 <= z < 256.

Lemma mask_byte_land ones i x :
  is_byte x -> Z.land x (mask_byte ones i)
  = let s := 8 - Z.min 8 (Z.max 0 (ones - 8 * Z.of_nat i)) in x / 2 ^ s * 2 ^ s.
Proof.
  unfold is_byte. intros Hx. unfold mask_byte. simpl.
  set (k := Z.min 8 (Z.max 0 (ones - 8 * Z.of_nat i))).
  assert (Hk : 0 <= k <= 8) by lia. clearbody k.
  assert (Hall : forallb (fun k => forallb (fun x =>
      Z.land x (255 - (2 ^ (8 - k) - 1)) =? x / 2 ^ (8 - k) * 2 ^ (8 - k))
      (Z.of_nat <$> seq 0 256)) (Z.of_nat <$> seq 0 9) = true) by (vm_compute; reflexivity).
  rewrite forallb_forall in Hall.
  specialize (Hall k). rewrite forallb_forall in Hall.
  apply Z.eqb_eq, Hall; apply list_elem_of_In, list_elem_of_fmap.
  - exists (Z.to_nat k). split; [lia|]. apply elem_of_seq. lia.
  - exists (Z.to_nat x). split; [lia|]. apply elem_of_seq. lia.
Qed.

Lemma zlist_eqb_eq a b : zlist_eqb a b = true <-> a = b.
Proof.
  revert b. induction a as [|x a IH]; intros [|y b]; simpl; try (split; congruence).
  rewrite andb_true_iff, IH, Z.eqb_eq. split; [intros [-> ->]; done|intros [= -> ->]; done].
Qed.

Lemma pow2_8 s : 0 <= s <= 8 -> 2 ^ (8 - s) * 2 ^ s = 256.
Proof. intros. rewrite <- Z.pow_add_r by lia. by replace (8 - s + s) with 8 by lia. Qed.

(** Dividing by the size of a block looks at the bytes [H] above the boundary
    byte [y] and at the high bits of [y], not at the bytes [L] below. *)
Lemma prefix_div x H y L s M :
  x = H * 256 * M + y * M + L -> 0 <= s <= 8 -> 0 <= L < M ->
  x / (2 ^ s * M) = H * 2 ^ (8 - s) + y / 2 ^ s.
Proof.
  intros -> Hs HL. assert (0 < 2 ^ s) by lia. pose proof (pow2_8 s Hs) as Hp.
  rewrite (Z.mul_comm (2 ^ s)), <- Z.div_div by lia.
  replace (H * 256 * M + y * M + L) with (L + (H * 256 + y) * M) by lia.
  rewrite Z.div_add, (Z.div_small L M) by lia.
  replace (0 + (H * 256 + y)) with (y + (H * 2 ^ (8 - s)) * 2 ^ s) by (rewrite <- Hp; ring).
  rewrite Z.div_add by lia. lia.
Qed.

Lemma prefix_eq x x' H H' y y' L L' s M :
  x = H * 256 * M + y * M + L -> x' = H' * 256 * M + y' * M + L' ->
  is_byte y -> is_byte y' -> 0 <= s <= 8 -> 0 <= L < M -> 0 <= L' < M ->
  x / (2 ^ s * M) = x' / (2 ^ s * M) <-> H = H' /\ y / 2 ^ s * 2 ^ s = y' / 2 ^ s * 2 ^ s.
Proof.
  intros Ex Ex' Hy Hy' Hs HL HL'. unfold is_byte in *.
  rewrite (prefix_div _ _ _ _ _ _ Ex), (prefix_div _ _ _ _ _ _ Ex') by done.
  assert (0 < 2 ^ s) by lia. pose proof (pow2_8 s Hs) as Hp.
  assert (Hb : forall z, 0 <= z < 256 -> 0 <= z / 2 ^ s < 2 ^ (8 - s)).
  { intros z Hz. split; [apply Z.div_pos; lia|]. apply Z.div_lt_upper_bound; lia. }
  pose proof (Hb y Hy). pose proof (Hb y' Hy'). split; [|intros [-> ?]; nia].
  intros Heq. assert (H = H') by nia. subst. split; [done|]. nia.
Qed.

(** At a byte boundary all or nothing of the byte is kept. *)
Lemma keep_all x : x / 2 ^ 0 * 2 ^ 0 = x.
Proof. change (2 ^ 0) with 1. rewrite Z.div_1_r. lia. Qed.

Lemma keep_none x : is_byte x -> x / 2 ^ 8 * 2 ^ 8 = 0.
Proof. unfold is_byte. intros. change (2 ^ 8) with 256. by rewrite Z.div_small by lia. Qed.

(** The part of byte [i] that a prefix of [n] bits keeps. *)
Lemma mask_part n i x :
  is_byte x -> let s := 8 - Z.min 8 (Z.max 0 (n - 8 * i)) in
  x / 2 ^ s * 2 ^ s = if n <=? 8 * i then 0
                      else if 8 * i + 8 <=? n then x
                      else x / 2 ^ (8 * i + 8 - n) * 2 ^ (8 * i + 8 - n).
Proof.
  intros Hx. cbv zeta. repeat case_if; bool_to_prop.
  - replace (8 - Z.min 8 (Z.max 0 (n - 8 * i))) with 8 by lia. by apply keep_none.
  - replace (8 - Z.min 8 (Z.max 0 (n - 8 * i))) with 0 by lia. apply keep_all.
  - by replace (8 - Z.min 8 (Z.max 0 (n - 8 * i))) with (8 * i + 8 - n) by lia.
Qed.

Lemma list4_eq (p q r s p' q' r' s' : Z) :
  [p; q; r; s] = [p'; q'; r'; s'] <-> p = p' /\ q = q' /\ r = r' /\ s = s'.
Proof. split; [by intros [= -> -> -> ->]|by intros (-> & -> & -> & ->)]. Qed.

Ltac mask_cases :=
  repeat case_if; bool_to_prop; try lia;
  repeat match goal with
  | |- context [?x / 2 ^ (8 * ?i + 8 - ?n) * _] =>
      first [replace (8 * i + 8 - n) with 0 by lia; rewrite !keep_all
            |replace (8 * i + 8 - n) with 8 by lia; rewrite !keep_none by (unfold is_byte; lia)]
  end; intuition lia.

(** Masking compares the addresses as 32-bit numbers divided by the size of
    the network. *)
Lemma masked_bytes_prefix a b c d a' b' c' d' n :
  is_byte a -> is_byte b -> is_byte c -> is_byte d ->
  is_byte a' -> is_byte b' -> is_byte c' -> is_byte d' -> 0 <= n <= 32 ->
  and_bytes [a; b; c; d] (CIDRMask n 32) = and_bytes [a'; b'; c'; d'] (CIDRMask n 32)
  <-> be32 [a; b; c; d] / 2 ^ (32 - n) = be32 [a'; b'; c'; d'] / 2 ^ (32 - n).
Proof.
  intros Ha Hb Hc Hd Ha' Hb' Hc' Hd' Hn. unfold CIDRMask. simpl.
  replace ((n <? 0) || (32 <? n)) with false by (symmetry; apply orb_false_iff; lia).
  simpl. rewrite !mask_byte_land by done. cbv zeta. rewrite !mask_part, list4_eq by done.
  assert (Hpow : forall i, 8 * i <= n <= 8 * i + 8 -> 0 <= i <= 3 ->
      2 ^ (32 - n) = 2 ^ (8 * i + 8 - n) * 2 ^ (24 - 8 * i))
    by (intros; rewrite <- Z.pow_add_r by lia; f_equal; lia).
  assert (Hcase : n <= 8 \/ 8 < n <= 16 \/ 16 < n <= 24 \/ 24 < n) by lia.
  unfold be32, is_byte in *. simpl (Z.of_nat _).
  destruct Hcase as [H|[H|[H|H]]].
  - rewrite (Hpow 0), (prefix_eq _ _ 0 0 a a' (b * 65536 + c * 256 + d) (b' * 65536 + c' * 256 + d'))
      by (unfold is_byte; lia).
    mask_cases.
  - rewrite (Hpow 1), (prefix_eq _ _ a a' b b' (c * 256 + d) (c' * 256 + d')) by (unfold is_byte; lia).
    mask_cases.
  - rewrite (Hpow 2), (prefix_eq _ _ (a * 256 + b) (a' * 256 + b') c c' d d') by (unfold is_byte; lia).
    mask_cases.
  - rewrite (Hpow 3), (prefix_eq _ _ (a * 65536 + b * 256 + c) (a' * 65536 + b' * 256 + c') d d' 0 0) by (unfold is_byte; lia).
    mask_cases.
Qed.

Lemma To4_length ip : To4 ip <> [] -> List.length (To4 ip) = 4%nat.
Proof.
  unfold To4. case_if; bool_to_prop; [done|]. case_if; [|done].
  bool_to_prop. intros _. rewrite length_drop. lia.
Qed.

Lemma CIDRMask_length n : 0 <= n <= 32 -> List.length (CIDRMask n 32) = 4%nat.
Proof. intros. unfold CIDRMask. simpl. case_if; [apply orb_true_iff in Hif; lia|done]. Qed.

Lemma IP_Mask_4 ip m : List.length ip = 4%nat -> List.length m = 4%nat -> IP_Mask ip m = and_bytes ip m.
Proof. intros Hi Hm. unfold IP_Mask. rewrite Hm. simpl. rewrite Hi, Hm. simpl. by rewrite Hi. Qed.

Lemma IP_Equal_same_length a b : List.length a = List.length b -> IP_Equal a b = true <-> a = b.
Proof. intros H. unfold IP_Equal. rewrite H, Nat.eqb_refl. apply zlist_eqb_eq. Qed.

(** A failed lookup of the mechanism [name]. *)
Definition lookup_unavailable (env : dns_env) (ip : IP) (name target : string) : bool :=
  match name with
  | "a" => match env_ipaddr env target with Err e => DNSLookupFailed e | Ok _ => false end
  | "mx" => match env_mx env target with Err e => DNSLookupFailed e | Ok _ => false end
  | "exists" => match env_host env target with Err e => DNSLookupFailed e | Ok _ => false end
  | _ => false
  end.

Lemma matchSPFMechanism_unavailable env rec ip cur tok depth seen l name value cidr :
  parseSPFMechanism tok = (name, value, cidr) -> l < spfLookupBudget ->
  lookup_unavailable env ip name (if isEmpty value then cur else value) = true ->
  matchSPFMechanism env rec ip cur tok depth seen l = Some (false, "temperror", seen, l + 1).
Proof.
  intros Hp Hl. unfold matchSPFMechanism, hostResolvesToIP, mxResolvesToIP. rewrite Hp.
  unfold lookup_unavailable. intros Hu.
  assert (Hn : name = "a" \/ name = "mx" \/ name = "exists").
  { repeat (destruct name as [|[[] [] [] [] [] [] [] []] name]; try discriminate); auto. }
  replace (spfLookupBudget <? l + 1) with false by (symmetry; apply Z.ltb_ge; lia).
  destruct Hn as [->|[->| ->]]; simpl;
    replace (spfLookupBudget <? l + 1) with false by (symmetry; apply Z.ltb_ge; lia); simpl;
    (case_match; [done|]); by rewrite Hu.
Qed.

(** ** The theorems of the SPF evaluator *)


(** The depth limit of checkSPFDomain never decides: nesting is paid for by
    lookups, so an evaluation without the limit gives the same result. *)
Theorem spf_depth_guard_redundant env ip dom :
  checkSPFDomain env spf_fuel ip dom 0 ∅ 0 = check_unguarded env spf_fuel ip dom 0 ∅ 0.
Proof. apply (checkSPFDomain_unguarded env spf_fuel ip 0). unfold spfLookupBudget. lia. Qed.

(** EvaluateSPF always returns, and its result is one of the seven SPF
    result names that the Authentication-Results header may carry. *)
Theorem evaluateSPF_result env ip helo from :
  exists r dom detail, evaluateSPF env ip helo from = Some (r, dom, detail) /\ r ∈ spf_results.
Proof.
  unfold evaluateSPF. case_if.
  { do 3 eexists. split; [done|]. unfold spf_results. set_solver. }
  match goal with |- context [checkSPFDomain env spf_fuel ip ?d 0 ∅ 0] =>
    destruct (checkSPFDomain_total env spf_fuel ip d 0 ∅ 0) as [[[[r m] s] l] Hc];
      [done|unfold spf_fuel; lia|] end.
  rewrite Hc. do 3 eexists. split; [done|]. by eapply checkSPFDomain_result.
Qed.


(** With both addresses IPv4, a mechanism with prefix length n matches
    exactly when the two addresses, read as 32-bit numbers, agree above the
    low 32-n bits. *)
Theorem ip4_cidr_match remote cand a b c d a' b' c' d' n :
  To4 remote = [a; b; c; d] -> To4 cand = [a'; b'; c'; d'] ->
  Forall is_byte [a; b; c; d] -> Forall is_byte [a'; b'; c'; d'] -> 0 <= n <= 32 ->
  ipMatchesWithOptionalCIDR remote cand n = true
  <-> be32 [a; b; c; d] / 2 ^ (32 - n) = be32 [a'; b'; c'; d'] / 2 ^ (32 - n).
Proof.
  intros Hr Hc Hb Hb' Hn. rewrite !Forall_cons in Hb, Hb'.
  rewrite <- masked_bytes_prefix by naive_solver.
  unfold ipMatchesWithOptionalCIDR. rewrite Hr, Hc.
  assert (isNil remote = false /\ isNil cand = false) as [-> ->] by (by destruct remote, cand).
  cbn [isNil orb andb negb]. replace (n <? 0) with false by (symmetry; apply Z.ltb_ge; lia).
  replace (32 <? n) with false by (symmetry; apply Z.ltb_ge; lia).
  pose proof (CIDRMask_length n Hn) as Hlen.
  destruct (CIDRMask n 32) as [|m0 [|m1 [|m2 [|m3 [|]]]]]; try discriminate.
  cbn [isNil]. rewrite !IP_Mask_4 by done. rewrite IP_Equal_same_length by done. split; congruence.
Qed.

Lemma ip4_cidr_match_witness :
  ipMatchesWithOptionalCIDR (ParseIP "192.0.2.77") (ParseIP "192.0.2.64") 26 = true.
Proof.
  apply (ip4_cidr_match _ _ 192 0 2 77 192 0 2 64 26); try (by vm_compute);
    unfold is_byte; repeat constructor; lia.
Defined.

(** The environment of the outage witness: the record ends in "-all" and the
    address lookup of its first mechanism times out. *)
Definition outage_env : dns_env :=
  mkDnsEnv (fun _ => Ok ["v=spf1 a:mail.example.org -all"]) (fun _ => Err (DNSError false))
    (fun _ => Err OtherError) (fun _ => Err OtherError) (fun _ => Err OtherError).


(** A PTR name supports a ptr mechanism only if it is the target domain or
    ends in a dot and the target domain, so "evil-example.org" never counts as a name under
    "example.org". *)
Theorem ptrNameUnderDomain_spec host domain :
  let h := TrimSuffix (ToLower (TrimSpace host)) "." in
  let d := TrimSuffix (ToLower (TrimSpace domain)) "." in
  ptrNameUnderDomain host domain = true
  <-> h <> "" /\ d <> "" /\ (h = d \/ exists label, h = label +:+ "." +:+ d).
Proof.
  intros h d. unfold ptrNameUnderDomain. fold h d.
  destruct (isEmpty h) eqn:Hh; [apply isEmpty_true in Hh; naive_solver|].
  destruct (isEmpty d) eqn:Hd; [apply isEmpty_true in Hd; naive_solver|].
  apply isEmpty_false in Hh, Hd. simpl.
  rewrite orb_true_iff, String.eqb_eq, HasSuffix_spec. naive_solver.
Qed.
