(* ===== verification/AuthHeaders.v ===== *)
(** * Receiver authentication headers (cmd/sender-report/auth.go)

    The evaluation of SPF, DKIM and DMARC for a received message, the headers
    the receiver prepends with the results, and their removal before a
    message is verified again. The DKIM verifier and the DMARC lookup
    (go-msgauth), the RFC 5322 parser and the clock are parameters: the record
    [auth_lib]. *)

From S2P Require Import Prelude GoStrings GoNet Spf.

Local Open Scope string_scope.
Local Open Scope list_scope.
Local Open Scope Z_scope.

(** A delivered message (internal/smtp/server.go). *)
Record ReceivedMail := mkReceivedMail {
  rm_RemoteIP : string;
  rm_HELO : string;
  rm_MailFrom : string;
  rm_RcptTo : string;
  rm_Data : string;
  rm_TLS : bool
}.

(** ** The libraries the evaluation calls *)

(** An error of the DKIM verifier: its text, and what [IsTempFail] and
    [IsPermFail] say of it. *)
Record dkim_error := mkDkimError { de_text : string; de_temp : bool; de_perm : bool }.

Record Verification := mkVerification { v_Domain : string; v_Err : option dkim_error }.

Inductive dmarc_error :=
| ErrNoPolicy
| DmarcTempFail (text : string)
| DmarcOther (text : string).

Inductive AlignmentMode := AlignmentStrict | AlignmentRelaxed.

Record DmarcRecord := mkDmarcRecord {
  dr_Policy : string;
  dr_SPFAlignment : AlignmentMode;
  dr_DKIMAlignment : AlignmentMode
}.

Record auth_lib := mkAuthLib {
  (** dkim.VerifyWithOptions: the verifications ([None] is a nil pointer) and the error. *)
  al_dkim : string -> list (option Verification) * option dkim_error;
  (** dmarc.LookupWithOptions. *)
  al_dmarc : string -> outcome dmarc_error DmarcRecord;
  (** The text of an alignment mode. *)
  al_alignment : AlignmentMode -> string;
  (** The From field of mail.ReadMessage; [None] when the message cannot be read. *)
  al_From : string -> option string;
  (** The address of mail.ParseAddress; [None] on an error. *)
  al_ParseAddress : string -> option string;
  (** The current time in RFC 1123 form. *)
  al_now : string
}.

Definition is_strict (m : AlignmentMode) : bool :=
  match m with AlignmentStrict => true | AlignmentRelaxed => false end.

(** ** Values in headers *)

Definition safeAuthValue (v : string) : string :=
  let v := TrimSpace v in
  if isEmpty v then "unknown"
  else ReplaceAll (ReplaceAll (ReplaceAll v ";" "") (chr CR) "") (chr LF) "".

(** ** Alignment and DMARC *)

Definition domainAligned (authDomain fromDomain : string) (strict : bool) : bool :=
  let authDomain := ToLower (TrimSpace authDomain) in
  let fromDomain := ToLower (TrimSpace fromDomain) in
  if isEmpty authDomain || isEmpty fromDomain then false
  else if strict then String.eqb authDomain fromDomain
  else String.eqb authDomain fromDomain || HasSuffix authDomain ("." +:+ fromDomain)
       || HasSuffix fromDomain ("." +:+ authDomain).

Record authResults := mkAuthResults {
  SPFResult : string; SPFDomain : string; SPFDetail : string;
  DKIMResult : string; DKIMDomain : string; DKIMDetail : string;
  DMARCResult : string; FromDomain : string; DMARCDetail : string
}.

Section WithLibraries.
Context (env : dns_env) (lib : auth_lib).

Definition fromDomain (raw : string) : string :=
  match al_From lib raw with
  | None => ""
  | Some f =>
      let from := TrimSpace f in
      if isEmpty from then ""
      else match al_ParseAddress lib from with
           | None => extractDomain from
           | Some addr => extractDomain addr
           end
  end.

(** The detail of one verification. *)
Definition dkim_chunk (v : Verification) : string :=
  emptyFallback (v_Domain v) "unknown" +:+ "=" +:+
  match v_Err v with None => "pass" | Some e => de_text e end.

(** The first loop: either the first passing signature with the chunks read
    so far, or all chunks. *)
Fixpoint dkim_first_pass (verifs : list (option Verification)) (chunks : list string)
  : (string * list string) + list string :=
  match verifs with
  | [] => inr chunks
  | None :: rest => dkim_first_pass rest chunks
  | Some v :: rest =>
      let chunks := chunks ++ [dkim_chunk v] in
      match v_Err v with
      | None => inl (v_Domain v, chunks)
      | Some _ => dkim_first_pass rest chunks
      end
  end.

(** The later loops: the domain of the first failing signature that satisfies [p]. *)
Fixpoint dkim_first_err (p : dkim_error -> bool) (verifs : list (option Verification)) : option string :=
  match verifs with
  | [] => None
  | Some v :: rest =>
      match v_Err v with
      | Some e => if p e then Some (v_Domain v) else dkim_first_err p rest
      | None => dkim_first_err p rest
      end
  | None :: rest => dkim_first_err p rest
  end.

Fixpoint dkim_first_any (verifs : list (option Verification)) : option string :=
  match verifs with
  | [] => None
  | Some v :: _ => Some (v_Domain v)
  | None :: rest => dkim_first_any rest
  end.

Definition norm (d : string) : string := ToLower (TrimSpace d).

Definition evaluateDKIM (raw : string) : string * string * string :=
  let '(verifs, err) := al_dkim lib raw in
  match verifs with
  | [] =>
      match err with
      | Some e => (if de_temp e then "temperror" else if de_perm e then "permerror" else "fail", "", de_text e)
      | None => ("none", "", "no signature")
      end
  | _ =>
      match dkim_first_pass verifs [] with
      | inl (d, chunks) => ("pass", norm d, Join chunks ", ")
      | inr chunks =>
          let detail := Join chunks ", " in
          match dkim_first_err de_temp verifs with
          | Some d => ("temperror", norm d, detail)
          | None =>
              match dkim_first_err de_perm verifs with
              | Some d => ("permerror", norm d, detail)
              | None =>
                  match dkim_first_any verifs with
                  | Some d => ("fail", norm d, detail)
                  | None => ("fail", "", detail)
                  end
              end
          end
      end
  end.

Definition evaluateDMARC (fromDomain spfResult spfDomain dkimResult dkimDomain : string)
  : string * string :=
  if isEmpty (TrimSpace fromDomain) then ("none", "missing from domain")
  else
    match al_dmarc lib fromDomain with
    | Err ErrNoPolicy => ("none", "no policy")
    | Err (DmarcTempFail t) => ("temperror", t)
    | Err (DmarcOther t) => ("permerror", t)
    | Ok rec =>
        let spfAligned := if String.eqb spfResult "pass"
          then domainAligned spfDomain fromDomain (is_strict (dr_SPFAlignment rec)) else false in
        let dkimAligned := if String.eqb dkimResult "pass"
          then domainAligned dkimDomain fromDomain (is_strict (dr_DKIMAlignment rec)) else false in
        let detail := "policy=" +:+ dr_Policy rec +:+ " spf_aligned=" +:+ FormatBool spfAligned
          +:+ " dkim_aligned=" +:+ FormatBool dkimAligned
          +:+ " adkim=" +:+ al_alignment lib (dr_DKIMAlignment rec)
          +:+ " aspf=" +:+ al_alignment lib (dr_SPFAlignment rec) in
        if spfAligned || dkimAligned then ("pass", detail) else ("fail", detail)
    end.

(** [None] only if the SPF evaluation ran out of fuel, which it never does. *)
Definition evaluateAuthResults (rm : ReceivedMail) (raw : string) : option authResults :=
  let ip := ParseIP (TrimSpace (rm_RemoteIP rm)) in
  match evaluateSPF env ip (rm_HELO rm) (rm_MailFrom rm) with
  | None => None
  | Some (spfRes, spfDomain, spfDetail) =>
      let '(dkimRes, dkimDomain, dkimDetail) := evaluateDKIM raw in
      let from := fromDomain raw in
      let '(dmarcRes, dmarcDetail) := evaluateDMARC from spfRes spfDomain dkimRes dkimDomain in
      Some (mkAuthResults spfRes spfDomain spfDetail dkimRes dkimDomain dkimDetail dmarcRes from dmarcDetail)
  end.

(** ** The headers *)

Definition buildAuthenticationResultsHeader (authServID : string) (res : authResults) : string :=
  let authServID := if isEmpty (TrimSpace authServID) then "sender-report.local" else authServID in
  "Authentication-Results: " +:+ authServID
  +:+ "; spf=" +:+ safeAuthValue (SPFResult res)
  +:+ " smtp.mailfrom=" +:+ safeAuthValue (emptyFallback (SPFDomain res) "unknown")
  +:+ "; dkim=" +:+ safeAuthValue (DKIMResult res)
  +:+ " header.d=" +:+ safeAuthValue (emptyFallback (DKIMDomain res) "unknown")
  +:+ "; dmarc=" +:+ safeAuthValue (DMARCResult res)
  +:+ " header.from=" +:+ safeAuthValue (emptyFallback (FromDomain res) "unknown").

Definition crlf_tab : string := crlf +:+ chr TAB.

Definition buildReceivedHeader (receiver : string) (rm : ReceivedMail) : string :=
  let receiver := if isEmpty (TrimSpace receiver) then "sender-report.local" else receiver in
  let proto := if rm_TLS rm then "ESMTPS" else "ESMTP" in
  let helo := safeAuthValue (emptyFallback (rm_HELO rm) "unknown") in
  let ip := safeAuthValue (emptyFallback (rm_RemoteIP rm) "unknown") in
  let r := TrimSpace (rm_RcptTo rm) in
  let for_ := if isEmpty r then "" else crlf_tab +:+ "for <" +:+ safeAuthValue r +:+ ">" in
  "Received: from " +:+ helo +:+ " ([" +:+ ip +:+ "])" +:+ crlf_tab
  +:+ "by " +:+ safeAuthValue receiver +:+ " with " +:+ proto +:+ ";" +:+ for_ +:+ crlf_tab +:+ al_now lib.

Definition buildReceivedSPFHeader (receiver : string) (rm : ReceivedMail) (spfResult : string) : string :=
  "Received-SPF: " +:+ safeAuthValue spfResult
  +:+ " client-ip=" +:+ safeAuthValue (rm_RemoteIP rm)
  +:+ "; envelope-from=" +:+ safeAuthValue (emptyFallback (rm_MailFrom rm) "<>")
  +:+ "; helo=" +:+ safeAuthValue (emptyFallback (rm_HELO rm) "unknown")
  +:+ "; receiver=" +:+ safeAuthValue (emptyFallback receiver "sender-report.local").

Definition prependHeaders (raw : string) (extra : list string) : string :=
  let norm := ReplaceAll raw crlf lf in
  let '(headerPart, bodyPart) :=
    match SplitN2 norm lflf with
    | [h; b] => (h, b)
    | h :: _ => (h, "")
    | [] => ("", "")
    end in
  let all := List.filter (fun h => negb (isEmpty h))
               ((fun h => TrimSpace (ReplaceAll h crlf lf)) <$> extra) in
  let all := if isEmpty (TrimSpace headerPart) then all else all ++ [headerPart] in
  let joined := Join all lf in
  let joined := if isEmpty bodyPart then joined +:+ lflf else joined +:+ lflf +:+ bodyPart in
  ReplaceAll joined lf crlf.

Definition receiver_headers (SMTPDomain : string) (rm : ReceivedMail) (res : authResults) : list string :=
  [ buildReceivedHeader SMTPDomain rm;
    buildAuthenticationResultsHeader SMTPDomain res;
    buildReceivedSPFHeader SMTPDomain rm (SPFResult res);
    "X-Sender-Report-SPF-Detail: " +:+ safeAuthValue (emptyFallback (SPFDetail res) "none");
    "X-Sender-Report-DKIM-Detail: " +:+ safeAuthValue (emptyFallback (DKIMDetail res) "none");
    "X-Sender-Report-DMARC-Detail: " +:+ safeAuthValue (emptyFallback (DMARCDetail res) "none") ].

Definition enrichWithReceiverAuthHeaders (SMTPDomain : string) (rm : ReceivedMail) (raw : string)
  : option string :=
  match evaluateAuthResults rm raw with
  | None => None
  | Some res => Some (prependHeaders raw (receiver_headers SMTPDomain rm res))
  end.

(** ** Removing them again *)

(** Unfolding: a line that starts with a blank continues the block before it.
    [blocks] is reversed. *)
Definition is_continuation (line : string) : bool := HasPrefix line " " || HasPrefix line (chr TAB).

Fixpoint header_blocks (lines : list string) (blocks : list string) : list string :=
  match lines with
  | [] => rev blocks
  | line :: rest =>
      match blocks with
      | b :: bs => if is_continuation line then header_blocks rest ((b +:+ lf +:+ line) :: bs)
                   else header_blocks rest (line :: blocks)
      | [] => header_blocks rest [line]
      end
  end.

(** What one block does: drop it?, is it the receiver's own Received line?, TLS. *)
Definition strip_block (host : string) (droppedReceived tls : bool) (b : string) : bool * bool * bool :=
  let '(name, value, _) := Cut b ":" in
  let lname := ToLower (TrimSpace name) in
  let flat := Join (Fields value) " " in
  if HasPrefix lname "x-sender-report-" then (true, droppedReceived, tls)
  else if String.eqb lname "authentication-results" then
    (HasPrefix flat (host +:+ ";"), droppedReceived, tls)
  else if String.eqb lname "received-spf" then
    (Contains flat ("receiver=" +:+ host), droppedReceived, tls)
  else if String.eqb lname "received" && negb droppedReceived then
    if Contains flat (" by " +:+ host +:+ " with ")
    then (true, true, Contains (ToLower flat) " with esmtps")
    else (false, droppedReceived, tls)
  else (false, droppedReceived, tls).

Fixpoint strip_blocks (host : string) (blocks : list string) (droppedReceived tls : bool)
  : list string * bool :=
  match blocks with
  | [] => ([], tls)
  | b :: rest =>
      let '(drop, dr, t) := strip_block host droppedReceived tls b in
      let '(kept, t') := strip_blocks host rest dr t in
      (if drop then kept else b :: kept, t')
  end.

Definition stripReceiverHeaders (raw host : string) : string * bool :=
  let norm := ReplaceAll raw crlf lf in
  let '(head, body, hasBody) := Cut norm lflf in
  let blocks := header_blocks (Split head LF) [] in
  let '(kept, tls) := strip_blocks host blocks false false in
  let out := Join kept lf in
  let out := if hasBody : bool then out +:+ lflf +:+ body else out in
  (ReplaceAll out lf crlf, tls).

Definition reverifyReceiverAuth (SMTPDomain : string) (rm : ReceivedMail) (raw : string) : option string :=
  let host := emptyFallback (TrimSpace SMTPDomain) "sender-report.local" in
  let '(clean, tls) := stripReceiverHeaders raw host in
  let rm := mkReceivedMail (rm_RemoteIP rm) (rm_HELO rm) (rm_MailFrom rm) (rm_RcptTo rm)
              clean (rm_TLS rm || tls) in
  enrichWithReceiverAuthHeaders SMTPDomain rm clean.

End WithLibraries.

(** ** Totality *)

Lemma evaluateSPF_some env ip helo from : is_Some (evaluateSPF env ip helo from).
Proof.
  unfold evaluateSPF. case_if; [eauto|].
  match goal with |- context [checkSPFDomain env spf_fuel ip ?d 0 ∅ 0] =>
    destruct (checkSPFDomain_total env spf_fuel ip d 0 ∅ 0) as [[[[r m] s] l] ->];
      [done|unfold spf_fuel; lia|] end. eauto.
Qed.

Lemma evaluateAuthResults_some env lib rm raw : is_Some (evaluateAuthResults env lib rm raw).
Proof.
  unfold evaluateAuthResults.
  destruct (evaluateSPF_some env (ParseIP (TrimSpace (rm_RemoteIP rm))) (rm_HELO rm) (rm_MailFrom rm)) as [[[r d] t] ->].
  destruct (evaluateDKIM lib raw) as [[? ?] ?]. destruct (evaluateDMARC _ _ _ _ _ _). eauto.
Qed.

Lemma enrich_some env lib domain rm raw : is_Some (enrichWithReceiverAuthHeaders env lib domain rm raw).
Proof.
  unfold enrichWithReceiverAuthHeaders. destruct (evaluateAuthResults_some env lib rm raw) as [res ->]. eauto.
Qed.

(** ** No header injection *)

Lemma safeAuthValue_lacks v c :
  c = ";"%char \/ c = CR \/ c = LF -> lacks c (safeAuthValue v) = true.
Proof.
  intros Hc. unfold safeAuthValue. case_if; [by destruct Hc as [->|[->| ->]]|].
  set (w := TrimSpace v). clearbody w.
  assert (H : forall s old, lacks c s = true -> lacks c (ReplaceAll s old "") = true)
    by (intros; by apply sforall_ReplaceAll).
  destruct Hc as [->|[->| ->]].
  - apply H, H. by apply lacks_ReplaceAll.
  - apply H. by apply lacks_ReplaceAll.
  - by apply lacks_ReplaceAll.
Qed.

(** Every line break is followed by a tab: the text is one folded header. *)
Fixpoint folded (s : string) : bool :=
  match s with
  | EmptyString => true
  | String a s' => (if Ascii.eqb a LF then HasPrefix s' (chr TAB) else true) && folded s'
  end.

Lemma folded_app s t : lacks LF s = true -> folded (s +:+ t) = folded t.
Proof.
  unfold lacks. induction s as [|a s IH]; [done|]. cbn [sforall String.append folded].
  rewrite andb_true_iff, negb_true_iff. intros [-> Hs]. simpl. by apply IH.
Qed.

Lemma folded_crlf_tab t : folded (crlf_tab +:+ t) = folded t.
Proof. simpl. by rewrite HasPrefix_nil. Qed.

Lemma folded_lacks s : lacks LF s = true -> folded s = true.
Proof. intros H. rewrite <- (sapp_nil_r s). by rewrite folded_app. Qed.

Lemma folded_app_safe v t : folded (safeAuthValue v +:+ t) = folded t.
Proof. apply folded_app, safeAuthValue_lacks. auto. Qed.

Lemma folded_safe v : folded (safeAuthValue v) = true.
Proof. apply folded_lacks, safeAuthValue_lacks. auto. Qed.

(** Split a header after its first literal piece. *)
Ltac fold_header :=
  repeat (first [rewrite folded_app_safe | rewrite folded_safe | rewrite folded_crlf_tab
                | rewrite folded_app by done]); try done.

(** C18: no value taken from the session, the message or a verification result
    can start a new header line or a new result in the headers the receiver
    writes: each of the six is one folded header, whatever the peer sent. *)
Theorem receiver_headers_no_injection lib domain rm res :
  lacks LF domain = true -> lacks LF (al_now lib) = true ->
  Forall (fun h => folded h = true) (receiver_headers lib domain rm res).
Proof.
  intros Hd Hn. unfold receiver_headers, buildReceivedHeader, buildAuthenticationResultsHeader,
    buildReceivedSPFHeader. repeat (apply Forall_cons; split); try apply Forall_nil; fold_header.
  - destruct (rm_TLS rm); fold_header; case_if; rewrite ?sapp_assoc; fold_header;
      by apply folded_lacks.
  - case_if; fold_header; rewrite folded_app by done; fold_header.
Qed.

Definition sample_lib : auth_lib :=
  mkAuthLib (fun _ => ([Some (mkVerification "Example.org" None)], None))
    (fun _ => Ok (mkDmarcRecord "reject" AlignmentRelaxed AlignmentStrict))
    (fun m => match m with AlignmentStrict => "s" | AlignmentRelaxed => "r" end)
    (fun _ => Some "Sender <a@example.org>") (fun _ => Some "a@example.org")
    "Mon, 02 Jan 2006 15:04:05 +0000".

Definition sample_mail : ReceivedMail :=
  mkReceivedMail "192.0.2.1" "mx; spf=pass" "a@example.org" "test@inbox.example" "" false.

Lemma receiver_headers_no_injection_witness :
  Forall (fun h => folded h = true)
    (receiver_headers sample_lib "inbox.example" sample_mail
      (mkAuthResults "pass" "example.org" ("x" +:+ crlf +:+ "Evil: yes") "none" "" "" "none" "" "")).
Proof. by apply receiver_headers_no_injection. Defined.

(** ** DKIM *)

Lemma dkim_first_pass_inl verifs chunks d cs :
  dkim_first_pass verifs chunks = inl (d, cs) ->
  exists v, Some v ∈ verifs /\ v_Err v = None /\ v_Domain v = d.
Proof.
  revert chunks. induction verifs as [|[v|] verifs IH]; intros chunks; simpl; [done| |].
  - destruct (v_Err v) eqn:He.
    + intros (v' & ? & ?)%IH. exists v'. set_solver.
    + intros [= <- _]. exists v. set_solver.
  - intros (v' & ? & ?)%IH. exists v'. set_solver.
Qed.

Lemma dkim_first_pass_inr verifs chunks cs :
  dkim_first_pass verifs chunks = inr cs -> forall v, Some v ∈ verifs -> v_Err v <> None.
Proof.
  revert chunks. induction verifs as [|[v|] verifs IH]; intros chunks; simpl.
  - intros _ v Hv. by apply not_elem_of_nil in Hv.
  - destruct (v_Err v) eqn:He; [|done]. intros H w [[= ->]|?]%elem_of_cons; [congruence|eauto].
  - intros H w [?|?]%elem_of_cons; [done|eauto].
Qed.

(** DKIM is reported as passed exactly when one of the signatures verified,
    and the domain reported with it is the one of a signature that verified. *)
Theorem evaluateDKIM_pass lib raw :
  let '(res, dom, _) := evaluateDKIM lib raw in
  let verifs := fst (al_dkim lib raw) in
  (res = "pass" <-> exists v, Some v ∈ verifs /\ v_Err v = None)
  /\ (res = "pass" -> exists v, Some v ∈ verifs /\ v_Err v = None /\ dom = ToLower (TrimSpace (v_Domain v))).
Proof.
  unfold evaluateDKIM. destruct (al_dkim lib raw) as [verifs err]. simpl.
  assert (Hnone : forall cs r d, dkim_first_pass verifs [] = inr cs -> r <> "pass" ->
    (r = "pass" <-> exists v, Some v ∈ verifs /\ v_Err v = None)
    /\ (r = "pass" -> exists v, Some v ∈ verifs /\ v_Err v = None /\ d = ToLower (TrimSpace (v_Domain v)))).
  { intros cs r d Hcs Hr. split; [|done]. split; [done|]. intros (v & Hv & He).
    by destruct (dkim_first_pass_inr _ _ _ Hcs v Hv). }
  destruct verifs as [|x verifs].
  - destruct err as [e|]; [repeat case_if|]; by eapply (Hnone []).
  - destruct (dkim_first_pass (x :: verifs) []) as [[d cs]|cs] eqn:Hp.
    + apply dkim_first_pass_inl in Hp as (v & ? & ? & <-). split; [split; eauto|]. eauto.
    + destruct (dkim_first_err de_temp _); [by eapply Hnone|].
      destruct (dkim_first_err de_perm _); [by eapply Hnone|].
      destruct (dkim_first_any _); by eapply Hnone.
Qed.

(** ** DMARC *)

(** Relaxed alignment as the code decides it: equal, or one a subdomain of the
    other, compared without case and surrounding blanks. *)
Definition aligned_spec (strict : bool) (a f : string) : Prop :=
  a <> "" /\ f <> "" /\
  (a = f \/ strict = false /\ ((exists l, a = l +:+ "." +:+ f) \/ (exists l, f = l +:+ "." +:+ a))).

Lemma domainAligned_spec a f strict :
  domainAligned a f strict = true <-> aligned_spec strict (ToLower (TrimSpace a)) (ToLower (TrimSpace f)).
Proof.
  unfold domainAligned, aligned_spec. set (x := ToLower (TrimSpace a)). set (y := ToLower (TrimSpace f)).
  destruct (isEmpty x) eqn:Hx; [apply isEmpty_true in Hx; naive_solver|].
  destruct (isEmpty y) eqn:Hy; [apply isEmpty_true in Hy; naive_solver|].
  apply isEmpty_false in Hx, Hy. simpl. destruct strict.
  - rewrite String.eqb_eq. naive_solver.
  - rewrite !orb_true_iff, String.eqb_eq, !HasSuffix_spec. naive_solver.
Qed.


