(* ===== verification/RateLimit.v ===== *)
(** * Sliding-window rate limiter (internal/ratelimit/limiter.go)

    Times and durations are nanoseconds in [Z]. The mutex makes each method
    one atomic step, so a concurrent use of the limiter is a sequence of
    [Allow] calls whose clock readings do not decrease. *)

From S2P Require Import Prelude GoStrings.

Local Open Scope string_scope.
Local Open Scope list_scope.
Local Open Scope Z_scope.

Record Limiter := mkLimiter {
  window : Z;
  maxHits : Z;
  hits : gmap string (list Z)
}.

Definition New (window maxHits : Z) : Limiter := mkLimiter window maxHits ∅.

Definition entries (l : Limiter) (key : string) : list Z := default [] (hits l !! key).

(** The entries after the cutoff [now - window]. *)
Definition kept (now w : Z) (es : list Z) : list Z := List.filter (fun t => now - w <? t) es.

Definition Allow (now : Z) (key : string) (l : Limiter) : bool * Limiter :=
  let k := kept now (window l) (entries l key) in
  if maxHits l <=? Z.of_nat (List.length k)
  then (false, mkLimiter (window l) (maxHits l) (<[key := k]> (hits l)))
  else (true, mkLimiter (window l) (maxHits l) (<[key := k ++ [now]]> (hits l))).

Definition RetryAfter (now : Z) (key : string) (l : Limiter) : Z :=
  if maxHits l <=? 0 then window l
  else
    let k := kept now (window l) (entries l key) in
    if Z.of_nat (List.length k) <? maxHits l then 0
    else default 0 (k !! (List.length k - Z.to_nat (maxHits l))%nat) + window l - now.

(** ** Filtering *)

Lemma filter_filter_le (c1 c2 : Z) l :
  c1 <= c2 -> List.filter (fun t => c2 <? t) (List.filter (fun t => c1 <? t) l)
              = List.filter (fun t => c2 <? t) l.
Proof.
  intros Hc. induction l as [|x l IH]; simpl; [done|].
  destruct (c1 <? x) eqn:E1; simpl; [by destruct (c2 <? x); rewrite IH|].
  rewrite IH. bool_to_prop. by replace (c2 <? x) with false by (symmetry; apply Z.ltb_ge; lia).
Qed.

Lemma filter_length_impl {A} (p q : A -> bool) l :
  (forall x, x ∈ l -> p x = true -> q x = true) ->
  (List.length (List.filter p l) <= List.length (List.filter q l))%nat.
Proof.
  induction l as [|x l IH]; intros H; simpl; [done|].
  assert (IH' := IH ltac:(intros; apply H; set_solver)).
  destruct (p x) eqn:Hp; [rewrite (H x) by (done || set_solver); simpl; lia|].
  destruct (q x); simpl; lia.
Qed.

(** ** At most [maxHits] in any window *)

(** A run of [Allow] calls for any keys: the final limiter and the admitted
    calls of [key], oldest first. *)
Fixpoint admitted (calls : list (Z * string)) (key : string) (l : Limiter) : Limiter * list Z :=
  match calls with
  | [] => (l, [])
  | (now, k) :: rest =>
      let '(ok, l') := Allow now k l in
      let '(l'', adm) := admitted rest key l' in
      (l'', if ok && String.eqb k key then now :: adm else adm)
  end.

(** Clock readings do not go back before [from]. *)
Fixpoint clock_ok (from : Z) (calls : list (Z * string)) : Prop :=
  match calls with
  | [] => True
  | (now, _) :: rest => from <= now /\ clock_ok now rest
  end.

(** Every admitted call saw fewer than [m] admitted calls in the window before it. *)
Definition spaced (w m : Z) (adm : list Z) : Prop :=
  forall p u q, adm = p ++ u :: q -> Z.of_nat (List.length (List.filter (fun t => u - w <? t) (p ++ [u]))) <= m.

(** The limiter stores the admitted calls [adm] that are still in the window. *)
Definition limiter_inv (l : Limiter) (key : string) (adm : list Z) (last : Z) : Prop :=
  exists c, c <= last - window l
    /\ entries l key = List.filter (fun t => c <? t) adm.

Lemma spaced_snoc w m adm now :
  spaced w m adm -> Z.of_nat (List.length (List.filter (fun t => now - w <? t) (adm ++ [now]))) <= m ->
  spaced w m (adm ++ [now]).
Proof.
  intros Hs Hn p u q. destruct q as [|x q] using rev_ind.
  - intros [-> [= ->]]%app_inj_tail. done.
  - rewrite app_comm_cons, app_assoc. intros [Heq _]%app_inj_tail. by eapply Hs.
Qed.

Lemma Allow_entries now k key l :
  entries (snd (Allow now k l)) key =
  if String.eqb k key
  then kept now (window l) (entries l key) ++ (if fst (Allow now k l) then [now] else [])
  else entries l key.
Proof.
  unfold Allow, entries at 1. case_if; simpl; case_if; bool_to_prop; subst;
    rewrite ?lookup_insert_eq, ?lookup_insert_ne by done; simpl; rewrite ?app_nil_r; done.
Qed.

Lemma Allow_fields now k l : window (snd (Allow now k l)) = window l /\ maxHits (snd (Allow now k l)) = maxHits l.
Proof. unfold Allow. by case_if. Qed.

Lemma Allow_inv now k key l adm last :
  0 < window l -> last <= now -> limiter_inv l key adm last -> spaced (window l) (maxHits l) adm ->
  let adm' := if fst (Allow now k l) && String.eqb k key then adm ++ [now] else adm in
  limiter_inv (snd (Allow now k l)) key adm' now /\ spaced (window l) (maxHits l) adm'.
Proof.
  intros Hw Hlast (c & Hc & He) Hs adm'. unfold limiter_inv. rewrite (proj1 (Allow_fields now k l)).
  destruct (String.eqb k key) eqn:Hk; [|subst adm'; rewrite andb_false_r; split; [|done]].
  2: { exists c. split; [lia|]. by rewrite Allow_entries, Hk. }
  assert (Hkept : kept now (window l) (entries l key) = List.filter (fun t => now - window l <? t) adm).
  { unfold kept. rewrite He, filter_filter_le by lia. done. }
  assert (Hsnoc : List.filter (fun t => now - window l <? t) (adm ++ [now])
                  = List.filter (fun t => now - window l <? t) adm ++ [now]).
  { rewrite List.filter_app. simpl. by replace (now - window l <? now) with true by (symmetry; apply Z.ltb_lt; lia). }
  apply String.eqb_eq in Hk as ->. subst adm'. rewrite andb_true_r. split.
  - exists (now - window l). split; [lia|]. rewrite Allow_entries, String.eqb_refl, Hkept.
    destruct (fst (Allow now key l)); rewrite ?app_nil_r, ?Hsnoc; done.
  - destruct (fst (Allow now key l)) eqn:Hf; [|done].
    apply spaced_snoc; [done|]. rewrite Hsnoc, <- Hkept, length_app.
    unfold Allow in Hf. case_if_in Hf; [done|]. bool_to_prop. simpl. lia.
Qed.

Lemma admitted_spaced calls key l adm last :
  0 < window l -> clock_ok last calls -> limiter_inv l key adm last -> spaced (window l) (maxHits l) adm ->
  spaced (window l) (maxHits l) (adm ++ snd (admitted calls key l)).
Proof.
  revert l adm last. induction calls as [|[now k] calls IH]; intros l adm last Hw Hcl Hinv Hs; simpl.
  { by rewrite app_nil_r. }
  destruct Hcl as [Hle Hcl].
  destruct (Allow_inv now k key l adm last Hw Hle Hinv Hs) as [Hinv' Hs'].
  pose proof (Allow_fields now k l) as [Hw' Hm'].
  destruct (Allow now k l) as [ok l']. simpl in *. rewrite <- Hw', <- Hm' in Hs' |- *.
  specialize (IH l' _ now ltac:(lia) Hcl Hinv' Hs').
  destruct (admitted calls key l') as [l'' a]. simpl in *.
  destruct (ok && String.eqb k key); [|done]. by rewrite <- app_assoc in IH.
Qed.

Lemma spaced_interval w m adm a :
  0 <= m -> spaced w m adm ->
  Z.of_nat (List.length (List.filter (fun t => (a <? t) && (t <=? a + w)) adm)) <= m.
Proof.
  intros Hm. induction adm as [|u adm IH] using rev_ind; intros Hs; [done|].
  destruct ((a <? u) && (u <=? a + w)) eqn:Hu.
  - etrans; [|apply (Hs adm u []); done]. apply inj_le, filter_length_impl.
    intros x _ Hx. bool_to_prop. apply Z.ltb_lt. lia.
  - rewrite List.filter_app. simpl. rewrite Hu, app_nil_r. apply IH.
    intros p v q ->. apply (Hs p v (q ++ [u])). by rewrite <- app_assoc.
Qed.

Lemma window_bound w m calls key from a :
  0 < w -> 0 <= m -> clock_ok from calls ->
  Z.of_nat (List.length (List.filter (fun t => (a <? t) && (t <=? a + w))
    (snd (admitted calls key (New w m))))) <= m.
Proof.
  intros Hw Hm Hcl. apply spaced_interval; [done|].
  apply (admitted_spaced calls key (New w m) [] from); [done|done| |].
  - exists (from - w). done.
  - intros p u q H. by destruct p.
Qed.



(** ** Exact retry times *)

Fixpoint sortedZ (l : list Z) : Prop :=
  match l with
  | x :: (y :: _) as r => x <= y /\ sortedZ r
  | _ => True
  end.

Lemma sortedZ_cons x l : sortedZ (x :: l) -> sortedZ l /\ Forall (fun y => x <= y) l.
Proof.
  revert x. induction l as [|y l IH]; intros x; [done|]. intros [Hxy Hl].
  split; [done|]. destruct (IH y Hl) as [_ Hf]. constructor; [done|].
  eapply Forall_impl; [exact Hf|]. simpl. lia.
Qed.

Lemma filter_all (p : Z -> bool) l : Forall (fun x => p x = true) l -> List.filter p l = l.
Proof. induction 1 as [|x l Hx _ IH]; simpl; [done|]. by rewrite Hx, IH. Qed.

(** In a sorted list, at least [m] elements exceed [c] iff the [m]-th from the
    end does. *)
Lemma sorted_filter_length c l (m : nat) :
  sortedZ l -> (1 <= m <= List.length l)%nat ->
  (m <= List.length (List.filter (fun t => (c <? t)%Z) l))%nat
  <-> exists h, l !! (List.length l - m)%nat = Some h /\ c < h.
Proof.
  induction l as [|x l IH]; intros Hs Hm; simpl in *; [lia|].
  apply sortedZ_cons in Hs as [Hs Hx].
  assert (Hall : c < x -> List.filter (fun t => c <? t) l = l).
  { intros. apply filter_all. eapply Forall_impl; [exact Hx|]. simpl. intros. apply Z.ltb_lt. lia. }
  pose proof (List.filter_length_le (fun t => c <? t) l) as Hle.
  destruct (decide (m = S (List.length l))) as [->|].
  - rewrite Nat.sub_diag. destruct (c <? x) eqn:E; bool_to_prop; simpl.
    + rewrite Hall by lia. naive_solver.
    + split; [lia|]. intros (h & [= <-] & ?). lia.
  - replace (S (List.length l) - m)%nat with (S (List.length l - m))%nat by lia. simpl.
    destruct (c <? x) eqn:E; bool_to_prop; simpl; [|apply IH; [done|lia]].
    rewrite <- IH by (done || lia). rewrite Hall by lia. lia.
Qed.

Lemma sortedZ_filter c l : sortedZ l -> sortedZ (List.filter (fun t => c <? t) l).
Proof.
  induction l as [|x l IH]; intros Hs; [done|]. apply sortedZ_cons in Hs as [Hs Hx].
  simpl. destruct (c <? x) eqn:E; [|by apply IH]. bool_to_prop.
  rewrite filter_all by (eapply Forall_impl; [exact Hx|]; simpl; intros; apply Z.ltb_lt; lia).
  destruct l; [done|]. split; [by inversion Hx|done].
Qed.

Lemma retry_after_exact l key now :
  0 < maxHits l -> 0 < window l -> sortedZ (entries l key) -> Forall (fun t => t <= now) (entries l key) ->
  let d := RetryAfter now key l in
  0 <= d <= window l
  /\ (forall t, now <= t < now + d -> fst (Allow t key l) = false)
  /\ fst (Allow (now + d) key l) = true.
Proof.
  intros Hm Hw Hs Hf d. set (es := entries l key) in *. set (m := Z.to_nat (maxHits l)).
  set (k := kept now (window l) es).
  assert (Hk : forall t, now <= t -> kept t (window l) es = List.filter (fun x => t - window l <? x) k).
  { intros t Ht. unfold k, kept. by rewrite filter_filter_le by lia. }
  assert (Hallow : forall t, now <= t -> fst (Allow t key l) = false <->
    (m <= List.length (List.filter (fun x => (t - window l <? x)%Z) k))%nat).
  { intros t Ht. unfold Allow. fold es. rewrite Hk by done. case_if; bool_to_prop; subst m; simpl; split; (done || lia). }
  unfold d, RetryAfter. fold es. fold k.
  replace (maxHits l <=? 0) with false by (symmetry; apply Z.leb_gt; lia).
  destruct (Z.of_nat (List.length k) <? maxHits l) eqn:Hlen; bool_to_prop.
  - split_and!; [lia|lia|lia|]. rewrite Z.add_0_r. apply not_false_iff_true. rewrite Hallow by lia.
    pose proof (List.filter_length_le (fun x => now - window l <? x) k). lia.
  - assert (Hsk : sortedZ k) by by apply sortedZ_filter.
    assert (Hb : (1 <= m <= List.length k)%nat) by lia.
    destruct (lookup_lt_is_Some_2 k (List.length k - m)%nat) as [h Hh]; [lia|].
    fold m. rewrite Hh. simpl.
    assert (Hin : h ∈ k) by by eapply list_elem_of_lookup_2.
    apply list_elem_of_In, List.filter_In in Hin as [Hin Hc%Z.ltb_lt].
    rewrite Forall_forall in Hf. apply list_elem_of_In, Hf in Hin.
    split_and!; [lia|lia| |].
    + intros t Ht. rewrite Hallow, sorted_filter_length by (done || lia). exists h. split; [done|lia].
    + apply not_false_iff_true. rewrite Hallow, sorted_filter_length by (done || lia).
      intros (h' & ? & ?). simplify_eq. lia.
Qed.

(** A key that is let through at [t] is let through at any later time too. *)
Lemma Allow_later l key t t' : t <= t' -> fst (Allow t key l) = true -> fst (Allow t' key l) = true.
Proof.
  intros Ht. unfold Allow, kept.
  assert (Hle : (List.length (List.filter (fun x => (t' - window l <? x)%Z) (entries l key))
                 <= List.length (List.filter (fun x => (t - window l <? x)%Z) (entries l key)))%nat).
  { apply filter_length_impl. intros x _ Hx%Z.ltb_lt. apply Z.ltb_lt. lia. }
  case_if; simpl; [done|]. intros _. case_if; simpl; [|done]. bool_to_prop. lia.
Qed.

(** RetryAfter is exact. For a key whose stored hits are in order, a call
    at any time before [now + RetryAfter] is refused, the call at that time is let
    through, and the wait never exceeds the window. *)
Theorem RetryAfter_exact l key now :
  0 < maxHits l -> 0 < window l -> sortedZ (entries l key) -> Forall (fun t => t <= now) (entries l key) ->
  let d := RetryAfter now key l in
  0 <= d <= window l
  /\ (forall t, now <= t < now + d -> fst (Allow t key l) = false)
  /\ fst (Allow (now + d) key l) = true.
Proof. apply retry_after_exact. Qed.

Lemma RetryAfter_exact_witness :
  RetryAfter 12 "k" (mkLimiter 10 2 {["k" := [1; 5; 9]]}) = 3
  /\ fst (Allow (12 + RetryAfter 12 "k" (mkLimiter 10 2 {["k" := [1; 5; 9]]})) "k"
           (mkLimiter 10 2 {["k" := [1; 5; 9]]})) = true.
Proof.
  split; [vm_compute; reflexivity|].
  apply (RetryAfter_exact (mkLimiter 10 2 {["k" := [1; 5; 9]]}) "k" 12); [done|done|done|].
  repeat constructor; done.
Defined.
