(* ===== verification/Smtp.v ===== *)
(** * SMTP receiver (internal/smtp/server.go)

    One connection is a state machine: [smtp_step] reads the next line (and,
    for DATA, the message behind it) and gives the replies and deliveries of
    one iteration of the loop in [handleConn]. The input is what the peer
    sends: the complete lines of the plain connection and, if a TLS handshake
    would succeed, the lines sent inside TLS. A trailing piece without line
    feed is the end of input, as for [bufio.Reader.ReadString].

    The recipient check and the mail handler are parameters of the server; a
    handler error is only logged and has no effect on the session. *)

From S2P Require Import Prelude GoStrings GoNet RateLimit AuthHeaders.

Local Open Scope string_scope.
Local Open Scope list_scope.
Local Open Scope Z_scope.

(** ** Input *)

(** The complete lines of a byte stream, each with its line feed. *)
Fixpoint read_lines_aux (s : string) (cur : string) : list string :=
  match s with
  | EmptyString => []
  | String a s' =>
      if Ascii.eqb a LF then srev (String a cur) :: read_lines_aux s' EmptyString
      else read_lines_aux s' (String a cur)
  end.
Definition read_lines (s : string) : list string := read_lines_aux s EmptyString.

(** The rest of the current stream, and what TLS would carry ([None]: the
    handshake fails). *)
Record input := mkInput { in_lines : list string; in_tls : option (list string) }.

(** ** Server and session *)

Record Server := mkServer {
  Domain : string;
  MaxMessageBytes : Z;
  TLSConfig : bool;                          (** a TLS configuration is set *)
  AllowRecipient : option (string -> bool);  (** [None] is a nil validator *)
  HandleMail : bool                          (** a handler is set *)
}.

Record session := mkSession {
  helo : string;
  mailFrom : string;
  rcptTo : list string;
  isTLS : bool
}.

Definition initial_session : session := mkSession "" "" [] false.

Inductive event :=
| Reply (line : string)
| Deliver (m : ReceivedMail)
| OnRateLimited (remoteIP : string).

(** ** Operations *)

Definition extractSMTPPath (s : string) : string :=
  let s := TrimSpace s in
  let s := if HasPrefix s "<" then
             match Index s ">" with
             | Some (S e) => stake e (sdrop 1 s)
             | _ => TrimPrefix s "<"
             end
           else s in
  let s := match Index s " " with
           | Some (S i) => stake (S i) s
           | _ => s
           end in
  ToLower (TrimSpace s).

Definition slen (s : string) : Z := Z.of_nat (String.length s).

(** The message and the lines behind it; [None] when it is too large or the
    input ends. *)
Fixpoint readData (lines : list string) (maxBytes : Z) (out : string) : option string * list string :=
  match lines with
  | [] => (None, [])
  | line :: rest =>
      if String.eqb line ("." +:+ crlf) || String.eqb line ("." +:+ lf) then (Some out, rest)
      else
        let line := if HasPrefix line ".." then sdrop 1 line else line in
        if maxBytes <? slen out + slen line then (None, rest)
        else readData rest maxBytes (out +:+ line)
  end.

Definition rcpt_allowed (srv : Server) (rcpt : string) : bool :=
  match AllowRecipient srv with
  | None => true
  | Some ok => ok rcpt
  end.

(** One iteration of the command loop: the events and, unless the connection
    ends, the next session state and input. *)
Definition smtp_step (srv : Server) (remoteIP : string) (st : session) (inp : input)
  : list event * option (session * input) :=
  match in_lines inp with
  | [] => ([], None)
  | raw :: rest =>
      let inp' := mkInput rest (in_tls inp) in
      let line := TrimSpace raw in
      let upper := ToUpper line in
      let continue (evs : list event) (st : session) := (evs, Some (st, inp')) in
      if HasPrefix upper "EHLO " || HasPrefix upper "HELO " then
        continue
          ([Reply ("250-" +:+ Domain srv)]
           ++ (if TLSConfig srv && negb (isTLS st) then [Reply "250-STARTTLS"] else [])
           ++ [Reply ("250 SIZE " +:+ Itoa (MaxMessageBytes srv))])
          (mkSession (TrimSpace (sdrop 5 line)) (mailFrom st) (rcptTo st) (isTLS st))
      else if String.eqb upper "STARTTLS" then
        if negb (TLSConfig srv) then continue [Reply "502 5.5.1 STARTTLS nicht verfügbar"] st
        else if isTLS st then continue [Reply "503 5.5.1 TLS bereits aktiv"] st
        else
          let evs := [Reply "220 2.0.0 bereit für TLS"] in
          match in_tls inp with
          | None => (evs, None)
          | Some tls => (evs, Some (mkSession "" "" [] true, mkInput tls None))
          end
      else if HasPrefix upper "MAIL FROM:" then
        continue [Reply "250 2.1.0 OK"]
          (mkSession (helo st) (extractSMTPPath (sdrop 10 line)) [] (isTLS st))
      else if HasPrefix upper "RCPT TO:" then
        let rcpt := extractSMTPPath (sdrop 8 line) in
        if isEmpty rcpt then continue [Reply "501 5.1.3 ungültiger Empfänger"] st
        else if negb (rcpt_allowed srv rcpt) then continue [Reply "550 5.1.1 Empfänger abgelehnt"] st
        else continue [Reply "250 2.1.5 OK"]
               (mkSession (helo st) (mailFrom st) (rcptTo st ++ [ToLower rcpt]) (isTLS st))
      else if String.eqb upper "DATA" then
        if isEmpty (mailFrom st) || (List.length (rcptTo st) =? 0)%nat
        then continue [Reply "503 5.5.1 ungültige Reihenfolge"] st
        else
          let go := Reply "354 Daten senden, Ende mit <CR><LF>.<CR><LF>" in
          match readData rest (MaxMessageBytes srv) "" with
          | (None, rest') =>
              ([go; Reply "552 5.3.4 Nachricht zu groß oder fehlerhaft"], Some (st, mkInput rest' (in_tls inp)))
          | (Some data, rest') =>
              let deliver r := Deliver (mkReceivedMail remoteIP (helo st) (mailFrom st) r data (isTLS st)) in
              ([go] ++ (if HandleMail srv then deliver <$> rcptTo st else [])
               ++ [Reply "250 2.0.0 eingereiht"], Some (st, mkInput rest' (in_tls inp)))
          end
      else if String.eqb upper "RSET" then
        continue [Reply "250 2.0.0 zurückgesetzt"] (mkSession (helo st) "" [] (isTLS st))
      else if String.eqb upper "NOOP" then continue [Reply "250 2.0.0 OK"] st
      else if String.eqb upper "QUIT" then ([Reply "221 2.0.0 auf Wiedersehen"], None)
      else continue [Reply "500 5.5.2 Befehl nicht erkannt"] st
  end.

(** The loop. [None]: out of fuel. *)
Fixpoint smtp_loop (fuel : nat) (srv : Server) (remoteIP : string) (st : session) (inp : input)
  : option (list event) :=
  match fuel with
  | O => None
  | S fuel' =>
      let '(evs, next) := smtp_step srv remoteIP st inp in
      match next with
      | None => Some evs
      | Some (st', inp') => app evs <$> smtp_loop fuel' srv remoteIP st' inp'
      end
  end.

(** Every iteration consumes a line; a TLS handshake is bought with one. *)
Definition input_size (inp : input) : nat :=
  List.length (in_lines inp) + match in_tls inp with Some t => List.length t | None => 0 end.
Definition smtp_fuel (inp : input) : nat := S (input_size inp).

(** What the two limiters say of a new connection. The burst limiter is only
    asked when the hourly limiter lets the connection through. *)
Definition ask_limiter (now : Z) (key : string) (l : option Limiter) : bool * option Limiter :=
  match l with
  | None => (true, None)
  | Some l => let '(ok, l') := Allow now key l in (ok, Some l')
  end.

Definition handleConn (srv : Server) (now : Z) (rate burst : option Limiter) (remoteAddr : string) (inp : input)
  : option (list event) * option Limiter * option Limiter :=
  let host := match SplitHostPort remoteAddr with Some (h, _) => h | None => "" end in
  let remoteIP := if isEmpty host then remoteAddr else host in
  let '(ok1, rate') := ask_limiter now ("smtp:hour:" +:+ remoteIP) rate in
  let '(ok2, burst') := if ok1 then ask_limiter now ("smtp:burst:" +:+ remoteIP) burst else (false, burst) in
  if negb (ok1 && ok2) then (Some [OnRateLimited remoteIP; Reply "451 4.7.1 rate limit exceeded"], rate', burst')
  else
    (cons (Reply ("220 " +:+ Domain srv +:+ " Sender-Report SMTP"))
       <$> smtp_loop (smtp_fuel inp) srv remoteIP initial_session inp, rate', burst').

(** ** Termination *)

Lemma readData_rest lines m out d rest :
  readData lines m out = (d, rest) -> (List.length rest <= List.length lines)%nat.
Proof.
  revert out. induction lines as [|line lines IH]; intros out; simpl; [by intros [= <- <-]|].
  case_if; [intros [= <- <-]; lia|]. case_if; [intros [= <- <-]; lia|].
  intros H%IH. lia.
Qed.

Lemma smtp_step_size srv ip st inp evs st' inp' :
  smtp_step srv ip st inp = (evs, Some (st', inp')) -> (input_size inp' < input_size inp)%nat.
Proof.
  unfold smtp_step, input_size. destruct (in_lines inp) as [|raw rest] eqn:Hl; [done|]. cbv zeta.
  destruct (in_tls inp) as [tls|] eqn:Htls;
    destruct (readData rest (MaxMessageBytes srv) "") as [[d|] rest'] eqn:Hd;
    apply readData_rest in Hd; repeat case_if; intros; simplify_eq/=; rewrite ?Htls; lia.
Qed.

Lemma smtp_loop_total fuel srv ip st inp :
  (input_size inp < fuel)%nat -> is_Some (smtp_loop fuel srv ip st inp).
Proof.
  revert st inp. induction fuel as [|fuel IH]; intros st inp Hf; [lia|]. simpl.
  destruct (smtp_step srv ip st inp) as [evs [[st' inp']|]] eqn:Hs; [|eauto].
  apply smtp_step_size in Hs. destruct (IH st' inp') as [es ->]; [lia|]. simpl. eauto.
Qed.

Lemma handleConn_total srv now rate burst addr inp :
  exists evs r b, handleConn srv now rate burst addr inp = (Some evs, r, b).
Proof.
  unfold handleConn. destruct (ask_limiter _ _ rate) as [ok1 r].
  destruct (if ok1 then _ else _) as [ok2 b]. case_if; [eauto|].
  match goal with |- context [smtp_loop _ srv ?ip _ _] =>
    destruct (smtp_loop_total (smtp_fuel inp) srv ip initial_session inp) as [evs ->] end;
    [unfold smtp_fuel; lia|]. simpl. eauto.
Qed.

(** C23: a connection always ends: on every input the command loop stops after
    at most one iteration per received line, and the session produces its replies. *)
Theorem handleConn_terminates srv now rate burst addr inp :
  exists evs r b, handleConn srv now rate burst addr inp = (Some evs, r, b).
Proof. apply handleConn_total. Qed.

(** ** What is delivered *)

Definition delivered (evs : list event) : list ReceivedMail :=
  omap (fun e => match e with Deliver m => Some m | _ => None end) evs.

(** What every delivered message satisfies. *)
Definition mail_ok (srv : Server) (ip : string) (hadTLS : bool) (m : ReceivedMail) : Prop :=
  rm_RemoteIP m = ip
  /\ rm_MailFrom m <> ""
  /\ (exists r, rm_RcptTo m = ToLower r /\ r <> "" /\ rcpt_allowed srv r = true)
  /\ slen (rm_Data m) <= Z.max 0 (MaxMessageBytes srv)
  /\ (rm_TLS m = true -> hadTLS = true).

(** What the session state satisfies between commands. *)
Definition session_ok (srv : Server) (hadTLS : bool) (inp : input) (st : session) : Prop :=
  Forall (fun r' => exists r, r' = ToLower r /\ r <> "" /\ rcpt_allowed srv r = true) (rcptTo st)
  /\ (isTLS st = true -> hadTLS = true)
  /\ (TLSConfig srv = true -> in_tls inp <> None -> hadTLS = true).

Lemma slen_app s t : slen (s +:+ t) = slen s + slen t.
Proof. unfold slen. rewrite slength_app. lia. Qed.

Lemma readData_size lines m out d rest :
  slen out <= Z.max 0 m -> readData lines m out = (Some d, rest) -> slen d <= Z.max 0 m.
Proof.
  revert out. induction lines as [|line lines IH]; intros out Ho; simpl; [done|].
  case_if; [intros [= <- <-]; done|]. case_if; [done|]. bool_to_prop.
  apply IH. rewrite slen_app. lia.
Qed.

Lemma Forall_delivered_app P a b :
  Forall P (delivered (a ++ b)) <-> Forall P (delivered a) /\ Forall P (delivered b).
Proof. unfold delivered. rewrite omap_app. apply Forall_app. Qed.

Lemma smtp_step_ok srv had ip st inp evs next :
  session_ok srv had inp st -> smtp_step srv ip st inp = (evs, next) ->
  Forall (mail_ok srv ip had) (delivered evs)
  /\ (forall st' inp', next = Some (st', inp') -> session_ok srv had inp' st').
Proof.
  intros Hok. pose proof Hok as (Hr & Ht & Hn).
  assert (Hst : forall rest, session_ok srv had (mkInput rest (in_tls inp)) st) by done.
  unfold smtp_step. destruct (in_lines inp) as [|raw rest]; [by intros [= <- <-]|]. cbv zeta.
  case_if; [intros [= <- <-]; split; [by case_if|by intros ? ? [= <- <-]]|].
  case_if.
  { repeat case_if; try (intros [= <- <-]; split; [done|intros ? ? [= <- <-]; apply Hst]).
    destruct (in_tls inp); intros [= <- <-]; split; try done.
    intros ? ? [= <- <-]. split_and!; [done| |done]. bool_to_prop. intros _. by apply Hn. }
  case_if; [intros [= <- <-]; split; [done|intros ? ? [= <- <-]; by split_and!]|].
  case_if.
  { repeat case_if; intros [= <- <-]; (split; [done|]); intros ? ? [= <- <-]; split_and!; try done.
    simpl. apply Forall_app. split; [done|]. apply Forall_singleton.
    eexists. split; [done|]. apply isEmpty_false in Hif3. by bool_to_prop. }
  case_if.
  { case_if; [intros [= <- <-]; split; [done|by intros ? ? [= <- <-]]|].
    apply orb_false_iff in Hif4 as [Hm%isEmpty_false _].
    destruct (readData _ _ _) as [[d|] rest'] eqn:Hd; intros [= <- <-]; (split; [|by intros ? ? [= <- <-]]); [|done].
    apply readData_size in Hd; [|unfold slen; simpl; lia].
    apply (Forall_delivered_app _ [_]). split; [done|]. apply Forall_delivered_app. split; [|done].
    destruct (HandleMail srv); [|done].
    induction Hr as [|r' rs Hr' _ IH]; simpl; [done|]. constructor; [|done]. by split_and!. }
  repeat case_if; intros [= <- <-]; (split; [done|]); intros ? ? [=]; subst; by split_and!.
Qed.

Lemma smtp_loop_ok fuel srv had ip st inp evs :
  session_ok srv had inp st -> smtp_loop fuel srv ip st inp = Some evs ->
  Forall (mail_ok srv ip had) (delivered evs).
Proof.
  revert st inp evs. induction fuel as [|fuel IH]; intros st inp evs Hok; simpl; [done|].
  destruct (smtp_step srv ip st inp) as [es next] eqn:Hs.
  destruct (smtp_step_ok _ _ _ _ _ _ _ Hok Hs) as [Hd Hnext].
  destruct next as [[st' inp']|]; [|by intros [= <-]].
  destruct (smtp_loop fuel srv ip st' inp') as [es'|] eqn:Hl; [|done]. intros [= <-].
  apply Forall_delivered_app. split; [done|]. eapply IH; [|done]. by apply Hnext.
Qed.

Lemma deliveries_accepted srv now rate burst addr inp evs r b m :
  handleConn srv now rate burst addr inp = (Some evs, r, b) -> Deliver m ∈ evs ->
  rm_MailFrom m <> ""
  /\ (exists rcpt, rm_RcptTo m = ToLower rcpt /\ rcpt <> "" /\ rcpt_allowed srv rcpt = true)
  /\ slen (rm_Data m) <= Z.max 0 (MaxMessageBytes srv)
  /\ (rm_TLS m = true -> TLSConfig srv = true /\ in_tls inp <> None).
Proof.
  intros Hc Hm. set (had := TLSConfig srv && bool_decide (in_tls inp <> None)).
  assert (Hall : exists ip, Forall (mail_ok srv ip had) (delivered evs)).
  { revert Hc. unfold handleConn. destruct (ask_limiter _ _ rate) as [ok1 r'].
    destruct (if ok1 then _ else _) as [ok2 b']. case_if; [intros [= <- _ _]; by exists ""|].
    match goal with |- context [smtp_loop _ srv ?ip _ _] => exists ip end. revert Hc.
    destruct (smtp_loop _ _ _ _ _) as [es|] eqn:Hl; [|done]. intros [= <- _ _].
    eapply smtp_loop_ok in Hl; [exact Hl|]. split_and!; [done|done|].
    intros Htls Hin. unfold had. rewrite Htls. simpl. by apply bool_decide_eq_true. }
  destruct Hall as [ip Hall]. rewrite Forall_forall in Hall.
  destruct (Hall m) as (_ & ? & ? & ? & Ht).
  { unfold delivered. apply list_elem_of_omap. by exists (Deliver m). }
  split_and!; try done. intros [? ?%bool_decide_eq_true]%Ht%andb_true_iff. done.
Qed.

(** Every message handed to the mail handler carries the peer's address, a
    non-empty envelope sender, a recipient the server accepted in this session and at most
    MaxMessageBytes of data; and it is marked as received over TLS only if
    the server offers TLS and the peer completed a handshake. *)
Theorem smtp_deliveries_accepted srv now rate burst addr inp evs r b m :
  handleConn srv now rate burst addr inp = (Some evs, r, b) -> Deliver m ∈ evs ->
  rm_MailFrom m <> ""
  /\ (exists rcpt, rm_RcptTo m = ToLower rcpt /\ rcpt <> "" /\ rcpt_allowed srv rcpt = true)
  /\ slen (rm_Data m) <= Z.max 0 (MaxMessageBytes srv)
  /\ (rm_TLS m = true -> TLSConfig srv = true /\ in_tls inp <> None).
Proof. apply deliveries_accepted. Qed.

Definition sample_server : Server :=
  mkServer "inbox.example" 64 true (Some (fun r => HasSuffix r "@inbox.example")) true.

(** A session that switches to TLS and delivers one message. *)
Definition sample_session : input :=
  mkInput (read_lines ("EHLO mx" +:+ crlf +:+ "STARTTLS" +:+ crlf))
    (Some (read_lines ("EHLO mx" +:+ crlf +:+ "MAIL FROM:<A@x.org>" +:+ crlf
      +:+ "RCPT TO:<T@inbox.example>" +:+ crlf +:+ "RCPT TO:<t@other.example>" +:+ crlf
      +:+ "DATA" +:+ crlf +:+ "..dot" +:+ crlf +:+ "." +:+ crlf +:+ "QUIT" +:+ crlf))).

Definition sample_delivery : ReceivedMail :=
  mkReceivedMail "192.0.2.7" "mx" "a@x.org" "t@inbox.example" (".dot" +:+ crlf) true.

Lemma smtp_deliveries_accepted_witness :
  rm_MailFrom sample_delivery <> ""
  /\ (exists rcpt, rm_RcptTo sample_delivery = ToLower rcpt /\ rcpt <> "" /\ rcpt_allowed sample_server rcpt = true)
  /\ slen (rm_Data sample_delivery) <= Z.max 0 (MaxMessageBytes sample_server)
  /\ (rm_TLS sample_delivery = true -> TLSConfig sample_server = true /\ in_tls sample_session <> None).
Proof.
  eapply (smtp_deliveries_accepted sample_server 0 None None "192.0.2.7:25" sample_session);
    [vm_compute; reflexivity|].
  apply list_elem_of_In. vm_compute. tauto.
Defined.

(** ** STARTTLS *)

(** C27: STARTTLS starts over. Once the handshake succeeds, the rest of the
    session depends only on what was sent inside TLS: neither the HELO, sender and
    recipients given in plain text nor plain text sent behind the STARTTLS line (even if the
    server had already buffered it) has any effect. *)
Theorem starttls_discards_plaintext srv ip st plain tls fuel raw :
  TLSConfig srv = true -> isTLS st = false -> ToUpper (TrimSpace raw) = "STARTTLS" ->
  smtp_loop (S fuel) srv ip st (mkInput (raw :: plain) (Some tls))
  = cons (Reply "220 2.0.0 bereit für TLS") <$>
      smtp_loop fuel srv ip (mkSession "" "" [] true) (mkInput tls None).
Proof.
  intros Hc Ht Hu. cbn [smtp_loop]. unfold smtp_step. cbn [in_lines in_tls]. rewrite Hu, Hc, Ht. simpl.
  destruct (smtp_loop fuel _ _ _ _); done.
Qed.

Lemma starttls_discards_plaintext_witness :
  smtp_loop 3 sample_server "192.0.2.7" (mkSession "evil" "a@x" ["t@inbox.example"] false)
    (mkInput ["starttls" +:+ crlf; "DATA" +:+ crlf; "x" +:+ crlf] (Some ["QUIT" +:+ crlf]))
  = Some [Reply "220 2.0.0 bereit für TLS"; Reply "221 2.0.0 auf Wiedersehen"].
Proof.
  rewrite (starttls_discards_plaintext sample_server "192.0.2.7" _ _ _ 2); [|reflexivity..].
  vm_compute. reflexivity.
Defined.

(** ** Dot stuffing *)

(** What a client sends for one line of the message (RFC 5321, 4.5.2). *)
Definition stuff (line : string) : string := if HasPrefix line "." then "." +:+ line else line.

Definition sconcat (l : list string) : string := foldr String.append "" l.

Lemma unstuff line : (if HasPrefix (stuff line) ".." then sdrop 1 (stuff line) else stuff line) = line.
Proof.
  unfold stuff. destruct (HasPrefix line ".") eqn:E.
  - apply HasPrefix_spec in E as [t ->]. simpl. by rewrite HasPrefix_nil.
  - destruct line as [|a line]; [done|]. destruct (Ascii.eqb a ".") eqn:Ea.
    + simpl in E. by rewrite Ea, HasPrefix_nil in E.
    + simpl. by rewrite Ea.
Qed.

Lemma stuff_not_end line t : stuff line = "." +:+ t -> HasPrefix t "." = true.
Proof.
  unfold stuff. destruct (HasPrefix line ".") eqn:E.
  - intros H. simpl in H. injection H as <-. done.
  - intros ->. simpl in E. by rewrite HasPrefix_nil in E.
Qed.

Lemma readData_stuffed ls out rest m :
  slen out + slen (sconcat ls) <= m ->
  readData ((stuff <$> ls) ++ ("." +:+ crlf) :: rest) m out = (Some (out +:+ sconcat ls), rest).
Proof.
  revert out. induction ls as [|line ls IH]; intros out Hm.
  { simpl. by rewrite sapp_nil_r. }
  cbn [sconcat foldr] in Hm. fold (sconcat ls) in Hm. rewrite slen_app in Hm.
  assert (Hnn : 0 <= slen (sconcat ls)) by (unfold slen; lia).
  rewrite fmap_cons. cbn [app readData].
  replace (String.eqb (stuff line) ("." +:+ crlf)) with false
    by (symmetry; apply String.eqb_neq; by intros ?%stuff_not_end).
  replace (String.eqb (stuff line) ("." +:+ lf)) with false
    by (symmetry; apply String.eqb_neq; by intros ?%stuff_not_end).
  cbn [orb]. rewrite unstuff.
  replace (m <? slen out + slen line) with false by (symmetry; apply Z.ltb_ge; lia).
  rewrite IH by (rewrite slen_app; lia). by rewrite sapp_assoc.
Qed.

(** C28: the message that reaches the handler is byte for byte the message the
    client meant: reading back dot-stuffed lines and their terminator yields the original
    lines, provided they fit the size limit, and leaves the input at the next
    command. *)
Theorem data_dot_stuffing_roundtrip ls rest m :
  slen (sconcat ls) <= m ->
  readData ((stuff <$> ls) ++ ("." +:+ crlf) :: rest) m "" = (Some (sconcat ls), rest).
Proof. intros. by rewrite readData_stuffed. Qed.

Lemma data_dot_stuffing_roundtrip_witness :
  readData [".." +:+ crlf; "a" +:+ crlf; "...x" +:+ crlf; "." +:+ crlf; "QUIT" +:+ crlf] 20 ""
  = (Some ("." +:+ crlf +:+ "a" +:+ crlf +:+ "..x" +:+ crlf), ["QUIT" +:+ crlf]).
Proof.
  apply (data_dot_stuffing_roundtrip ["." +:+ crlf; "a" +:+ crlf; "..x" +:+ crlf] ["QUIT" +:+ crlf] 20).
  vm_compute. discriminate.
Defined.

(** When a message is refused as too large, the rest of it is read as
    commands: here the body line "QUIT" ends the session. *)
Example oversize_body_is_commands :
  smtp_loop 10 (mkServer "h" 4 false None true) "ip" (mkSession "" "a@x" ["t@y"] false)
    (mkInput (read_lines ("DATA" +:+ crlf +:+ "too long" +:+ crlf +:+ "QUIT" +:+ crlf +:+ "." +:+ crlf)) None)
  = Some [Reply "354 Daten senden, Ende mit <CR><LF>.<CR><LF>";
          Reply "552 5.3.4 Nachricht zu groß oder fehlerhaft";
          Reply "221 2.0.0 auf Wiedersehen"].
Proof. vm_compute. reflexivity. Qed.

(** The null sender of bounce messages is accepted by MAIL FROM and then
    refused by DATA. *)
Example null_sender_refused :
  smtp_loop 10 sample_server "ip" initial_session
    (mkInput (read_lines ("MAIL FROM:<>" +:+ crlf +:+ "RCPT TO:<t@inbox.example>" +:+ crlf +:+ "DATA" +:+ crlf)) None)
  = Some [Reply "250 2.1.0 OK"; Reply "250 2.1.5 OK"; Reply "503 5.5.1 ungültige Reihenfolge"].
Proof. vm_compute. reflexivity. Qed.
