(* ===== verification/Store.v ===== *)
(** * Persistence (internal/store/store.go, internal/db/db.go, internal/cleanup/cleanup.go)

    The SQLite database as the program uses it: four tables in rowid order,
    their AUTOINCREMENT sequences, the counters, and the last inserted rowid
    of the single connection. UNIQUE and FOREIGN KEY violations are errors,
    ON DELETE CASCADE removes the dependent rows. The JSON columns hold the
    typed values they encode. The operations take the current time as argument. *)

From S2P Require Import Prelude F64 GoStrings Model Ipt.

Local Open Scope string_scope.
Local Open Scope list_scope.
Local Open Scope Z_scope.

(** A row of the reports table: every column of the schema, none for the mail type. *)
Record report_row := mkReportRow {
  rr_id : Z;
  rr_message_id : Z;
  rr_created_at : Z;
  rr_score : float64;
  rr_score_label : string;
  rr_checks : list CheckResult;
  rr_warnings : list string;
  rr_suggestions : list string;
  rr_headers : list (string * list string);
  rr_links : list string;
  rr_spam_signals : list string
}.

Record DB := mkDB {
  mailboxes : list Mailbox;
  messages : list Message;
  reports : list report_row;
  placement : list PlacementTest;
  counters : gmap string float64;
  seq_mailboxes : Z;
  seq_messages : Z;
  seq_reports : Z;
  seq_placement : Z;
  last_rowid : Z
}.

Definition empty_db : DB := mkDB [] [] [] [] ∅ 0 0 0 0 0.

Inductive store_error :=
| ErrNotFound
| ErrUnique (column : string)
| ErrForeignKey.

Abbreviation result := (outcome store_error).

(** ** Setters *)

Definition set_mailboxes (l : list Mailbox) (d : DB) : DB :=
  mkDB l (messages d) (reports d) (placement d) (counters d) (seq_mailboxes d) (seq_messages d)
    (seq_reports d) (seq_placement d) (last_rowid d).
Definition set_messages (l : list Message) (d : DB) : DB :=
  mkDB (mailboxes d) l (reports d) (placement d) (counters d) (seq_mailboxes d) (seq_messages d)
    (seq_reports d) (seq_placement d) (last_rowid d).
Definition set_reports (l : list report_row) (d : DB) : DB :=
  mkDB (mailboxes d) (messages d) l (placement d) (counters d) (seq_mailboxes d) (seq_messages d)
    (seq_reports d) (seq_placement d) (last_rowid d).
Definition set_placement (l : list PlacementTest) (d : DB) : DB :=
  mkDB (mailboxes d) (messages d) (reports d) l (counters d) (seq_mailboxes d) (seq_messages d)
    (seq_reports d) (seq_placement d) (last_rowid d).

(** ** Counters *)

Definition counterValue (key : string) (d : DB) : float64 := default fzero (counters d !! key).

(** INSERT ... ON CONFLICT DO UPDATE. A new counter row is an insert, which
    moves the last rowid of the connection to the number of counters. *)
Definition incrCounter (key : string) (delta : float64) (d : DB) : DB :=
  match counters d !! key with
  | Some v =>
      mkDB (mailboxes d) (messages d) (reports d) (placement d) (<[key := fadd v delta]> (counters d))
        (seq_mailboxes d) (seq_messages d) (seq_reports d) (seq_placement d) (last_rowid d)
  | None =>
      mkDB (mailboxes d) (messages d) (reports d) (placement d) (<[key := delta]> (counters d))
        (seq_mailboxes d) (seq_messages d) (seq_reports d) (seq_placement d)
        (Z.of_nat (size (counters d)) + 1)
  end.

(** The one-time seeding of the counters by the migration (INSERT OR IGNORE). *)
Definition seed_counter (key : string) (v : float64) (d : DB) : DB :=
  match counters d !! key with
  | Some _ => d
  | None => incrCounter key v d
  end.

Definition migrate (d : DB) : DB :=
  seed_counter "score_sum" (foldl (fun s r => fadd s (rr_score r)) fzero (reports d))
    (seed_counter "reports_generated" (f_of_Z (Z.of_nat (List.length (reports d))))
      (seed_counter "messages_received" (f_of_Z (Z.of_nat (List.length (messages d))))
        (seed_counter "mailboxes_created" (f_of_Z (Z.of_nat (List.length (mailboxes d)))) d))).

(** ** Mailboxes *)

Definition CreateMailbox (now : Z) (token address publicKey ip : string) (ttl : Z) (d : DB)
  : result (Mailbox * DB) :=
  if existsb (fun m => String.eqb (mb_Token m) token) (mailboxes d) then Err (ErrUnique "token")
  else if existsb (fun m => String.eqb (mb_Address m) address) (mailboxes d) then Err (ErrUnique "address")
  else
    let id := seq_mailboxes d + 1 in
    let mb := mkMailbox id token address publicKey ip now (now + ttl) now false false false in
    let d := mkDB (mailboxes d ++ [mb]) (messages d) (reports d) (placement d) (counters d)
               id (seq_messages d) (seq_reports d) (seq_placement d) id in
    Ok (mb, incrCounter "mailboxes_created" (f_of_Z 1) d).

Definition CountActiveMailboxesByIP (now : Z) (ip : string) (d : DB) : nat :=
  List.length (List.filter (fun m => String.eqb (mb_CreatedIP m) ip && (now <? mb_ExpiresAt m)) (mailboxes d)).

Definition CountActiveMailboxes (now : Z) (d : DB) : nat :=
  List.length (List.filter (fun m => now <? mb_ExpiresAt m) (mailboxes d)).

(** [QueryRow]: the first row that satisfies the condition. *)
Definition query_row {A} (p : A -> bool) (rows : list A) : result A :=
  match List.find p rows with Some x => Ok x | None => Err ErrNotFound end.

Definition GetMailboxByToken (token : string) (d : DB) : result Mailbox :=
  query_row (fun m => String.eqb (mb_Token m) token) (mailboxes d).
Definition GetMailboxByAddress (address : string) (d : DB) : result Mailbox :=
  query_row (fun m => String.eqb (ToLower (mb_Address m)) (ToLower address)) (mailboxes d).
Definition GetMailboxByID (id : Z) (d : DB) : result Mailbox :=
  query_row (fun m => mb_ID m =? id) (mailboxes d).

(** UPDATE ... WHERE: the rows that satisfy [p] change. *)
Definition update_where {A} (p : A -> bool) (f : A -> A) (rows : list A) : list A :=
  (fun x => if p x then f x else x) <$> rows.

Definition UpdateMailboxChecks (token : string) (domainAge domainBlocklist brokenLinks : bool) (d : DB)
  : result DB :=
  if negb (existsb (fun m => String.eqb (mb_Token m) token) (mailboxes d)) then Err ErrNotFound
  else Ok (set_mailboxes (update_where (fun m => String.eqb (mb_Token m) token)
    (fun m => mkMailbox (mb_ID m) (mb_Token m) (mb_Address m) (mb_PublicKey m) (mb_CreatedIP m)
      (mb_CreatedAt m) (mb_ExpiresAt m) (mb_LastSeenAt m) domainAge domainBlocklist brokenLinks) (mailboxes d)) d).

Definition TouchMailbox (now id : Z) (d : DB) : DB :=
  set_mailboxes (update_where (fun m => mb_ID m =? id)
    (fun m => mkMailbox (mb_ID m) (mb_Token m) (mb_Address m) (mb_PublicKey m) (mb_CreatedIP m)
      (mb_CreatedAt m) (mb_ExpiresAt m) now (mb_CheckDomainAge m) (mb_CheckDomainBlocklist m)
      (mb_CheckBrokenLinks m)) (mailboxes d)) d.

(** ** Messages *)

Definition SaveMessage (now : Z) (m : Message) (d : DB) : result (Message * DB) :=
  let received := if m_ReceivedAt m =? zero_time then now else m_ReceivedAt m in
  if negb (existsb (fun b => mb_ID b =? m_MailboxID m) (mailboxes d)) then Err ErrForeignKey
  else
    let id := seq_messages d + 1 in
    let m := mkMessage id (m_MailboxID m) (m_SMTPFrom m) (m_RCPTTo m) (m_RemoteIP m) (m_HELO m) received
               (m_RawSource m) (m_HeaderBlock m) (m_Subject m) (m_SizeBytes m) (m_PayloadEnc m) in
    let d := mkDB (mailboxes d) (messages d ++ [m]) (reports d) (placement d) (counters d)
               (seq_mailboxes d) id (seq_reports d) (seq_placement d) id in
    Ok (m, incrCounter "messages_received" (f_of_Z 1) d).

Definition GetMessage (id : Z) (d : DB) : result Message :=
  query_row (fun m => m_ID m =? id) (messages d).

Definition set_payload (payload : string) (m : Message) : Message :=
  mkMessage (m_ID m) (m_MailboxID m) (m_SMTPFrom m) (m_RCPTTo m) (m_RemoteIP m) (m_HELO m) (m_ReceivedAt m)
    (m_RawSource m) (m_HeaderBlock m) (m_Subject m) (m_SizeBytes m) payload.

Definition UpdateMessagePayloadEnc (messageID : Z) (payloadEnc : string) (d : DB) : result DB :=
  if negb (existsb (fun m => m_ID m =? messageID) (messages d)) then Err ErrNotFound
  else Ok (set_messages (update_where (fun m => m_ID m =? messageID) (set_payload payloadEnc) (messages d)) d).

(** ORDER BY received_at DESC. *)
Fixpoint insert_desc (m : Message) (l : list Message) : list Message :=
  match l with
  | [] => [m]
  | x :: r => if m_ReceivedAt x <=? m_ReceivedAt m then m :: l else x :: insert_desc m r
  end.
Definition order_desc (l : list Message) : list Message := foldr insert_desc [] l.

Definition limit_of (limit : Z) : nat := Z.to_nat (if limit <=? 0 then 20 else limit).

Definition ListMessagesByMailbox (mailboxID limit : Z) (d : DB) : list Message :=
  take (limit_of limit) (order_desc (List.filter (fun m => m_MailboxID m =? mailboxID) (messages d))).

(** ** Reports *)

Definition row_of (id created : Z) (r : AnalysisReport) : report_row :=
  mkReportRow id (r_MessageID r) created (r_Score r) (r_ScoreLabel r) (r_Checks r) (r_Warnings r)
    (r_Suggestions r) (r_RawHeaders r) (r_Links r) (r_SpamSignals r).

(** [scanReport]: the mail type has no column and comes back empty. *)
Definition scanReport (r : report_row) : AnalysisReport :=
  mkReport (rr_id r) (rr_message_id r) (rr_created_at r) (rr_score r) (rr_score_label r) ""
    (rr_checks r) (rr_warnings r) (rr_suggestions r) (rr_headers r) (rr_links r) (rr_spam_signals r).

Definition find_report (p : report_row -> bool) (d : DB) : result AnalysisReport :=
  let! r := query_row p (reports d) in Ok (scanReport r).

Definition GetReport (reportID : Z) (d : DB) : result AnalysisReport :=
  find_report (fun r => rr_id r =? reportID) d.
Definition GetReportByMessageID (messageID : Z) (d : DB) : result AnalysisReport :=
  find_report (fun r => rr_message_id r =? messageID) d.

Definition with_id_time (id created : Z) (r : AnalysisReport) : AnalysisReport :=
  mkReport id (r_MessageID r) created (r_Score r) (r_ScoreLabel r) (r_MailType r) (r_Checks r)
    (r_Warnings r) (r_Suggestions r) (r_RawHeaders r) (r_Links r) (r_SpamSignals r).

(** The upsert of [SaveReport]. *)
Definition upsert_report (created : Z) (r : AnalysisReport) (d : DB) : result DB :=
  if existsb (fun x => rr_message_id x =? r_MessageID r) (reports d)
  then Ok (set_reports (update_where (fun x => rr_message_id x =? r_MessageID r)
             (fun x => row_of (rr_id x) created r) (reports d)) d)
  else if negb (existsb (fun m => m_ID m =? r_MessageID r) (messages d)) then Err ErrForeignKey
  else
    let id := seq_reports d + 1 in
    Ok (mkDB (mailboxes d) (messages d) (reports d ++ [row_of id created r]) (placement d) (counters d)
          (seq_mailboxes d) (seq_messages d) id (seq_placement d) id).

(** The identifier returned is the result's LastInsertId, taken when the
    upsert ran; only when it is not positive is the stored row asked. *)
Definition SaveReport (now : Z) (r : AnalysisReport) (d : DB) : result (AnalysisReport * DB) :=
  let created := if r_CreatedAt r =? zero_time then now else r_CreatedAt r in
  let isNewReport := negb (existsb (fun x => rr_message_id x =? r_MessageID r) (reports d)) in
  let! d1 := upsert_report created r d in
  let lastInsertId := last_rowid d1 in
  let d2 := if isNewReport
            then incrCounter "score_sum" (r_Score r) (incrCounter "reports_generated" (f_of_Z 1) d1)
            else d1 in
  let id := if 0 <? lastInsertId then lastInsertId
            else match GetReportByMessageID (r_MessageID r) d2 with
                 | Ok x => r_ID x
                 | Err _ => r_ID r
                 end in
  Ok (with_id_time id created r, d2).

Definition UpdateReportScoreChecks (messageID : Z) (score : float64) (label : string)
    (checks : list CheckResult) (d : DB) : result DB :=
  if negb (existsb (fun r => rr_message_id r =? messageID) (reports d)) then Err ErrNotFound
  else Ok (set_reports (update_where (fun r => rr_message_id r =? messageID)
    (fun r => mkReportRow (rr_id r) (rr_message_id r) (rr_created_at r) score label checks (rr_warnings r)
       (rr_suggestions r) (rr_headers r) (rr_links r) (rr_spam_signals r)) (reports d)) d).

(** The LEFT JOIN. *)
Definition ListMessagesWithReports (mailboxID limit : Z) (d : DB) : list MessageWithReport :=
  (fun m => mkMessageWithReport m
     (scanReport <$> List.find (fun r => rr_message_id r =? m_ID m) (reports d)))
  <$> take (limit_of limit) (order_desc (List.filter (fun m => m_MailboxID m =? mailboxID) (messages d))).

(** ** Deletion and retention *)

(** ON DELETE CASCADE: what remains when the rows of the parent tables change. *)
Definition cascade_reports (d : DB) : DB :=
  set_reports (List.filter (fun r => existsb (fun m => m_ID m =? rr_message_id r) (messages d)) (reports d)) d.

Definition delete_messages (p : Message -> bool) (d : DB) : DB :=
  cascade_reports (set_messages (List.filter (fun m => negb (p m)) (messages d)) d).

Definition delete_mailboxes (p : Mailbox -> bool) (d : DB) : DB :=
  let d := set_mailboxes (List.filter (fun m => negb (p m)) (mailboxes d)) d in
  let alive (id : Z) := existsb (fun b => mb_ID b =? id) (mailboxes d) in
  let d := set_placement (List.filter (fun t => alive (pt_MailboxID t)) (placement d)) d in
  delete_messages (fun m => negb (alive (m_MailboxID m))) d.

Definition DeleteMailboxByToken (token : string) (d : DB) : result DB :=
  if negb (existsb (fun m => String.eqb (mb_Token m) token) (mailboxes d)) then Err ErrNotFound
  else Ok (delete_mailboxes (fun m => String.eqb (mb_Token m) token) d).

(** Numbers of deleted mailboxes and messages (without cascades), as logged. *)
Definition Cleanup (now retention : Z) (d : DB) : nat * nat * DB :=
  let cutoff := now - retention in
  let old_msg (m : Message) := m_ReceivedAt m <? cutoff in
  let old_box (b : Mailbox) := mb_ExpiresAt b <? cutoff in
  let deletedMessages := List.length (List.filter old_msg (messages d)) in
  let d := delete_messages old_msg d in
  let deletedMailboxes := List.length (List.filter old_box (mailboxes d)) in
  (deletedMailboxes, deletedMessages, delete_mailboxes old_box d).

(** [cleanup.Start]: one [Cleanup] per tick. *)
Definition run_cleanup (retention : Z) (ticks : list Z) (d : DB) : DB :=
  foldl (fun d now => snd (Cleanup now retention d)) d ticks.

(** ** Statistics *)

Record GlobalStats := mkGlobalStats {
  TotalMailboxes : Z;
  ActiveMailboxes : nat;
  TotalMessages : Z;
  TotalReports : Z;
  AvgScore : float64
}.

Definition GetGlobalStats (now : Z) (d : DB) : GlobalStats :=
  let total := ftrunc (counterValue "reports_generated" d) in
  mkGlobalStats (ftrunc (counterValue "mailboxes_created" d)) (CountActiveMailboxes now d)
    (ftrunc (counterValue "messages_received" d)) total
    (if 0 <? total then fdiv (counterValue "score_sum" d) (f_of_Z total) else fzero).

(** ** Inbox placement tests *)

Definition CreatePlacementTest (now mailboxID : Z) (token : string) (seeds : list SeedInfo) (expiresAt : Z) (d : DB)
  : result DB :=
  if existsb (fun t => String.eqb (pt_PlacementToken t) token) (placement d) then Err (ErrUnique "placement_token")
  else if negb (existsb (fun b => mb_ID b =? mailboxID) (mailboxes d)) then Err ErrForeignKey
  else
    let id := seq_placement d + 1 in
    let t := mkPlacementTest id mailboxID token "waiting" now expiresAt seeds [] in
    Ok (mkDB (mailboxes d) (messages d) (reports d) (placement d ++ [t]) (counters d)
          (seq_mailboxes d) (seq_messages d) (seq_reports d) id id).

Definition GetPlacementTest (token : string) (d : DB) : result PlacementTest :=
  query_row (fun t => String.eqb (pt_PlacementToken t) token) (placement d).

(** No error when the token is unknown. *)
Definition UpdatePlacementTestResult (token : string) (results : list ProviderResult) (status : string) (d : DB) : DB :=
  set_placement (update_where (fun t => String.eqb (pt_PlacementToken t) token)
    (fun t => mkPlacementTest (pt_ID t) (pt_MailboxID t) (pt_PlacementToken t) status (pt_CreatedAt t)
                (pt_ExpiresAt t) (pt_Seeds t) results) (placement d)) d.

Fixpoint insert_test (t : PlacementTest) (l : list PlacementTest) : list PlacementTest :=
  match l with
  | [] => [t]
  | x :: r => if pt_CreatedAt x <=? pt_CreatedAt t then t :: l else x :: insert_test t r
  end.

Definition GetMailboxPlacementTests (mailboxID : Z) (d : DB) : list PlacementTest :=
  foldr insert_test [] (List.filter (fun t => pt_MailboxID t =? mailboxID) (placement d)).

(** ** Well-formed databases *)

(** A table with an AUTOINCREMENT key: unique keys that never exceed the sequence. *)
Definition table {A} (key : A -> Z) (rows : list A) (seq : Z) : Prop :=
  NoDup (key <$> rows) /\ Forall (fun r => 0 < key r <= seq) rows /\ 0 <= seq.

Definition unique {A B} (col : A -> B) (rows : list A) : Prop := NoDup (col <$> rows).

(** Every row of [rows] references an existing row of [parents]. *)
Definition references {A B} (fk : A -> Z) (rows : list A) (key : B -> Z) (parents : list B) : Prop :=
  forall r, r ∈ rows -> exists p, p ∈ parents /\ key p = fk r.

Record db_ok (d : DB) : Prop := {
  ok_mailboxes : table mb_ID (mailboxes d) (seq_mailboxes d);
  ok_tokens : unique mb_Token (mailboxes d);
  ok_addresses : unique mb_Address (mailboxes d);
  ok_messages : table m_ID (messages d) (seq_messages d);
  ok_message_fk : references m_MailboxID (messages d) mb_ID (mailboxes d);
  ok_reports : table rr_id (reports d) (seq_reports d);
  ok_report_unique : unique rr_message_id (reports d);
  ok_report_fk : references rr_message_id (reports d) m_ID (messages d);
  ok_placement : table pt_ID (placement d) (seq_placement d);
  ok_placement_token : unique pt_PlacementToken (placement d);
  ok_placement_fk : references pt_MailboxID (placement d) mb_ID (mailboxes d)
}.

Section Tables.
Context {A : Type}.
Implicit Types (rows : list A) (p : A -> bool) (f : A -> A).

Lemma elem_of_filterb p rows x : x ∈ List.filter p rows <-> x ∈ rows /\ p x = true.
Proof. rewrite !list_elem_of_In. apply List.filter_In. Qed.

Lemma existsb_elem p rows : existsb p rows = true <-> exists x, x ∈ rows /\ p x = true.
Proof. rewrite existsb_exists. split; intros (x & H & ?); exists x; by rewrite list_elem_of_In in *. Qed.

Lemma existsb_none p rows : existsb p rows = false -> forall x, x ∈ rows -> p x = false.
Proof. intros H x Hx. destruct (p x) eqn:E; [|done]. assert (existsb p rows = true) by (apply existsb_elem; eauto). congruence. Qed.

Lemma NoDup_fmap_filter {B} (g : A -> B) p rows : NoDup (g <$> rows) -> NoDup (g <$> List.filter p rows).
Proof.
  induction rows as [|x rows IH]; simpl; [done|]. rewrite NoDup_cons. intros [Hx Hn].
  destruct (p x); simpl; [|auto]. rewrite NoDup_cons. split; [|auto].
  intros Hin. apply Hx. apply list_elem_of_fmap in Hin as (y & -> & Hy%elem_of_filterb).
  apply list_elem_of_fmap. naive_solver.
Qed.

Lemma NoDup_fmap_snoc {B} (g : A -> B) rows x :
  NoDup (g <$> rows) -> (forall y, y ∈ rows -> g y <> g x) -> NoDup (g <$> rows ++ [x]).
Proof.
  intros Hn Hx. rewrite fmap_app. simpl. apply NoDup_app. split_and!; [done| |apply NoDup_singleton].
  intros z Hz ->%list_elem_of_singleton. apply list_elem_of_fmap in Hz as (y & Hy & Hin).
  by destruct (Hx y Hin).
Qed.

Lemma table_snoc key rows seq x : table key rows seq -> key x = seq + 1 -> table key (rows ++ [x]) (seq + 1).
Proof.
  intros (Hn & Hf & Hs) Hx. rewrite Forall_forall in Hf. split_and!; [| |lia].
  - apply NoDup_fmap_snoc; [done|]. intros y Hy%Hf. lia.
  - apply Forall_app. split; [|repeat constructor; lia].
    rewrite Forall_forall. intros y Hy%Hf. lia.
Qed.

Lemma table_filter key rows seq p : table key rows seq -> table key (List.filter p rows) seq.
Proof.
  intros (Hn & Hf & Hs). split_and!; [by apply NoDup_fmap_filter| |done].
  rewrite Forall_forall in *. intros y [Hy _]%elem_of_filterb. auto.
Qed.

Lemma fmap_update_where {B} (g : A -> B) p f rows :
  (forall x, g (f x) = g x) -> g <$> update_where p f rows = g <$> rows.
Proof.
  intros Hg. unfold update_where. rewrite <- list_fmap_compose. apply list_fmap_ext.
  intros i x _. simpl. by destruct (p x); rewrite ?Hg.
Qed.

Lemma elem_of_update_where p f rows y :
  y ∈ update_where p f rows <-> exists x, x ∈ rows /\ y = if p x then f x else x.
Proof. unfold update_where. rewrite list_elem_of_fmap. naive_solver. Qed.

Lemma table_update key rows seq p f :
  (forall x, key (f x) = key x) -> table key rows seq -> table key (update_where p f rows) seq.
Proof.
  intros Hk (Hn & Hf & Hs). split_and!; [by rewrite fmap_update_where| |done].
  rewrite Forall_forall in *. intros y (x & Hx & ->)%elem_of_update_where. apply Hf in Hx.
  by destruct (p x); rewrite ?Hk.
Qed.

Lemma unique_update {B} (col : A -> B) rows p f :
  (forall x, col (f x) = col x) -> unique col rows -> unique col (update_where p f rows).
Proof. intros Hc. unfold unique. by rewrite fmap_update_where. Qed.

End Tables.

Section References.
Context {A B : Type} (fk : A -> Z) (key : B -> Z).
Implicit Types (rows : list A) (parents : list B).

Lemma references_snoc rows parents x :
  references fk rows key parents -> (exists p, p ∈ parents /\ key p = fk x) ->
  references fk (rows ++ [x]) key parents.
Proof. intros H Hx r [Hr|Hr]%elem_of_app; [auto|]. apply list_elem_of_singleton in Hr as ->. done. Qed.

Lemma references_parent_snoc rows parents p :
  references fk rows key parents -> references fk rows key (parents ++ [p]).
Proof. intros H r Hr. destruct (H r Hr) as (q & ? & ?). exists q. set_solver. Qed.

Lemma references_update rows parents p f :
  (forall x, fk (f x) = fk x) -> references fk rows key parents ->
  references fk (update_where p f rows) key parents.
Proof.
  intros Hf H r (x & Hx & ->)%elem_of_update_where. destruct (H x Hx) as (q & ? & ?).
  exists q. split; [done|]. by destruct (p x); rewrite ?Hf.
Qed.

Lemma references_parent_update rows parents p f :
  (forall x, key (f x) = key x) -> references fk rows key parents ->
  references fk rows key (update_where p f parents).
Proof.
  intros Hf H r Hr. destruct (H r Hr) as (q & Hq & Hk). exists (if p q then f q else q). split.
  - apply elem_of_update_where. eauto.
  - by destruct (p q); rewrite ?Hf.
Qed.

(** The cascade keeps exactly the rows whose parent is still there. *)
Lemma references_cascade rows parents :
  references fk (List.filter (fun r => existsb (fun p => key p =? fk r) parents) rows) key parents.
Proof.
  intros r [_ (p & Hp & He%Z.eqb_eq)%existsb_elem]%elem_of_filterb. eauto.
Qed.

Lemma references_filter rows parents p : references fk rows key parents -> references fk (List.filter p rows) key parents.
Proof. intros H r [Hr _]%elem_of_filterb. auto. Qed.

End References.

(** ** Every operation keeps the database well-formed *)

Create HintDb store.
#[export] Hint Resolve table_snoc table_filter table_update unique_update references_snoc references_parent_snoc
  references_update references_parent_update references_filter NoDup_fmap_filter : store.

Lemma incrCounter_tables key v d :
  mailboxes (incrCounter key v d) = mailboxes d /\ messages (incrCounter key v d) = messages d
  /\ reports (incrCounter key v d) = reports d /\ placement (incrCounter key v d) = placement d.
Proof. unfold incrCounter. by case_match. Qed.

Lemma incrCounter_ok key v d : db_ok d -> db_ok (incrCounter key v d).
Proof. intros []. unfold incrCounter. case_match; constructor; done. Qed.

Lemma existsb_key_none {A} (col : A -> string) (k : string) rows :
  existsb (fun x => String.eqb (col x) k) rows = false -> forall y, y ∈ rows -> col y <> k.
Proof. intros H y Hy. apply (existsb_none _ _ H) in Hy. by apply String.eqb_neq in Hy. Qed.

Lemma existsb_id {A} (key : A -> Z) (k : Z) rows :
  negb (existsb (fun x => key x =? k) rows) = false -> exists p, p ∈ rows /\ key p = k.
Proof. intros (p & Hp & He%Z.eqb_eq)%negb_false_iff%existsb_elem. eauto. Qed.

Lemma CreateMailbox_ok now token address pk ip ttl d mb d' :
  db_ok d -> CreateMailbox now token address pk ip ttl d = Ok (mb, d') -> db_ok d'.
Proof.
  intros []. unfold CreateMailbox. case_if; [done|]. case_if; [done|]. intros [= <- <-].
  apply incrCounter_ok. constructor; simpl; auto with store.
  - apply NoDup_fmap_snoc; [done|]. by apply existsb_key_none.
  - apply NoDup_fmap_snoc; [done|]. by apply existsb_key_none.
Qed.

Lemma SaveMessage_ok now m d m' d' : db_ok d -> SaveMessage now m d = Ok (m', d') -> db_ok d'.
Proof.
  intros []. unfold SaveMessage. case_if; [done|]. intros [= <- <-].
  apply incrCounter_ok. constructor; simpl; auto with store.
  apply references_snoc; [done|]. by apply existsb_id.
Qed.

Lemma upsert_report_ok created r d d' : db_ok d -> upsert_report created r d = Ok d' -> db_ok d'.
Proof.
  intros []. unfold upsert_report. case_if; [|case_if; [done|]]; intros [= <-].
  - (* update: only rows of this message change, and they keep their keys *)
    assert (He : forall {B} (g : report_row -> B), (forall x, rr_message_id x = r_MessageID r -> g (row_of (rr_id x) created r) = g x) ->
      g <$> update_where (fun x => rr_message_id x =? r_MessageID r) (fun x => row_of (rr_id x) created r) (reports d) = g <$> reports d).
    { intros B g Hg. unfold update_where. rewrite <- list_fmap_compose. apply list_fmap_ext.
      intros i x _. simpl. case_if; bool_to_prop; [by rewrite Hg|done]. }
    constructor; simpl; auto.
    + destruct ok_reports0 as (Hn & Hf & Hs). split_and!; [by rewrite He| |done].
      rewrite Forall_forall in *. intros y (x & Hx & ->)%elem_of_update_where. apply Hf in Hx. by case_if.
    + unfold unique. by rewrite He.
    + intros y (x & Hx & ->)%elem_of_update_where. destruct (ok_report_fk0 x Hx) as (m & ? & ?).
      exists m. split; [done|]. case_if; bool_to_prop; simpl; congruence.
  - constructor; simpl; auto with store.
    + apply NoDup_fmap_snoc; [done|]. simpl. intros y Hy.
      apply (existsb_none _ _ Hif) in Hy. by apply Z.eqb_neq in Hy.
    + apply references_snoc; [done|]. by apply existsb_id.
Qed.

Lemma SaveReport_ok now r d r' d' : db_ok d -> SaveReport now r d = Ok (r', d') -> db_ok d'.
Proof.
  intros Hd. unfold SaveReport. cbv zeta. rewrite obind_ok. intros (d1 & H1 & [= _ <-]).
  apply upsert_report_ok in H1; [|done]. case_if; auto using incrCounter_ok.
Qed.

Lemma delete_messages_ok p d :
  db_ok d -> db_ok (delete_messages p d).
Proof.
  intros []. constructor; simpl; auto with store.
  - by apply NoDup_fmap_filter.
  - apply references_cascade.
Qed.

(** The invariant without the references into the mailbox table, which a
    deletion breaks until the cascade has run. *)
Lemma delete_mailboxes_ok p d : db_ok d -> db_ok (delete_mailboxes p d).
Proof.
  intros []. unfold delete_mailboxes, delete_messages. constructor; simpl; auto with store.
  - by apply NoDup_fmap_filter.
  - by apply NoDup_fmap_filter.
  - intros m [_ H]%elem_of_filterb. rewrite negb_involutive in H.
    apply existsb_elem in H as (b & ? & ?%Z.eqb_eq). eauto.
  - by apply NoDup_fmap_filter.
  - apply references_cascade.
  - by apply NoDup_fmap_filter.
  - apply references_cascade.
Qed.

Lemma Cleanup_ok now retention d : db_ok d -> db_ok (snd (Cleanup now retention d)).
Proof. intros Hd. simpl. by apply delete_mailboxes_ok, delete_messages_ok. Qed.

Lemma CreatePlacementTest_ok now id token seeds exp d d' :
  db_ok d -> CreatePlacementTest now id token seeds exp d = Ok d' -> db_ok d'.
Proof.
  intros []. unfold CreatePlacementTest. case_if; [done|]. case_if; [done|]. intros [= <-].
  constructor; simpl; auto with store.
  - apply NoDup_fmap_snoc; [done|]. by apply existsb_key_none.
  - apply references_snoc; [done|]. by apply existsb_id.
Qed.

Lemma update_mailboxes_ok p f d :
  db_ok d -> (forall m, mb_ID (f m) = mb_ID m /\ mb_Token (f m) = mb_Token m /\ mb_Address (f m) = mb_Address m) ->
  db_ok (set_mailboxes (update_where p f (mailboxes d)) d).
Proof.
  intros [] Hf. constructor; simpl; auto.
  - apply table_update; [intros; apply Hf|done].
  - apply unique_update; [intros; apply Hf|done].
  - apply unique_update; [intros; apply Hf|done].
  - apply references_parent_update; [intros; apply Hf|done].
  - apply references_parent_update; [intros; apply Hf|done].
Qed.

Lemma seed_counter_ok key v d : db_ok d -> db_ok (seed_counter key v d).
Proof. intros. unfold seed_counter. case_match; [done|]. by apply incrCounter_ok. Qed.

Lemma migrate_ok d : db_ok d -> db_ok (migrate d).
Proof. intros. unfold migrate. by repeat apply seed_counter_ok. Qed.

Lemma empty_ok : db_ok empty_db.
Proof.
  constructor; simpl; try apply NoDup_nil_2; try (by split_and!; [apply NoDup_nil_2|constructor|]);
    intros r Hr; by apply not_elem_of_nil in Hr.
Qed.

(** ** The store as a state machine *)

(** One step: a successful operation that writes, or a restart. *)
Inductive store_step : DB -> DB -> Prop :=
| step_migrate d : store_step d (migrate d)
| step_create now token address pk ip ttl d mb d' :
    CreateMailbox now token address pk ip ttl d = Ok (mb, d') -> store_step d d'
| step_checks token a b c d d' : UpdateMailboxChecks token a b c d = Ok d' -> store_step d d'
| step_touch now id d : store_step d (TouchMailbox now id d)
| step_message now m d m' d' : SaveMessage now m d = Ok (m', d') -> store_step d d'
| step_payload id p d d' : UpdateMessagePayloadEnc id p d = Ok d' -> store_step d d'
| step_report now r d r' d' : SaveReport now r d = Ok (r', d') -> store_step d d'
| step_score id s l cs d d' : UpdateReportScoreChecks id s l cs d = Ok d' -> store_step d d'
| step_delete token d d' : DeleteMailboxByToken token d = Ok d' -> store_step d d'
| step_cleanup now ret d : store_step d (snd (Cleanup now ret d))
| step_test now id token seeds exp d d' :
    CreatePlacementTest now id token seeds exp d = Ok d' -> store_step d d'
| step_test_result token rs st d : store_step d (UpdatePlacementTestResult token rs st d).

Lemma store_step_ok d d' : store_step d d' -> db_ok d -> db_ok d'.
Proof.
  intros Hs Hd. destruct Hs; eauto using migrate_ok, CreateMailbox_ok, SaveMessage_ok, SaveReport_ok,
    CreatePlacementTest_ok, Cleanup_ok.
  - unfold UpdateMailboxChecks in H. case_if_in H; [done|]. injection H as <-. by apply update_mailboxes_ok.
  - by apply update_mailboxes_ok.
  - unfold UpdateMessagePayloadEnc in H. case_if_in H; [done|]. injection H as <-.
    destruct Hd. constructor; simpl; auto with store.
  - unfold UpdateReportScoreChecks in H. case_if_in H; [done|]. injection H as <-.
    destruct Hd. constructor; simpl; auto with store.
  - unfold DeleteMailboxByToken in H. case_if_in H; [done|]. injection H as <-. by apply delete_mailboxes_ok.
  - destruct Hd. constructor; simpl; auto with store.
Qed.


Definition sample_db : DB :=
  match CreateMailbox 100 "tok" "tok@inbox.example" "" "192.0.2.1" 50 (migrate empty_db) with
  | Ok (mb, d) =>
      match SaveMessage 120 (mkMessage 0 (mb_ID mb) "a@x" "tok@inbox.example" "192.0.2.9" "mx" 0 "raw" "h" "s" 3 "") d with
      | Ok (_, d') => d'
      | Err _ => d
      end
  | Err _ => empty_db
  end.


(** ** Retention *)

(** Mail is refused once a mailbox has expired, so every stored message
    arrived before its mailbox stopped receiving. *)
Definition received_in_time (d : DB) : Prop :=
  forall m b, m ∈ messages d -> b ∈ mailboxes d -> mb_ID b = m_MailboxID m -> m_ReceivedAt m <= mb_ExpiresAt b.

Lemma Cleanup_mailboxes now ret d b :
  b ∈ mailboxes (snd (Cleanup now ret d)) <-> b ∈ mailboxes d /\ now - ret <= mb_ExpiresAt b.
Proof. simpl. rewrite elem_of_filterb, negb_true_iff, Z.ltb_ge. done. Qed.

Lemma Cleanup_messages now ret d m :
  m ∈ messages (snd (Cleanup now ret d)) <->
  m ∈ messages d /\ now - ret <= m_ReceivedAt m
  /\ exists b, b ∈ mailboxes d /\ now - ret <= mb_ExpiresAt b /\ mb_ID b = m_MailboxID m.
Proof.
  simpl. rewrite !elem_of_filterb, !negb_true_iff, negb_false_iff, existsb_elem, Z.ltb_ge.
  setoid_rewrite elem_of_filterb. setoid_rewrite negb_true_iff. setoid_rewrite Z.ltb_ge.
  setoid_rewrite Z.eqb_eq. naive_solver.
Qed.

Lemma Cleanup_reports now ret d r :
  r ∈ reports (snd (Cleanup now ret d)) <->
  r ∈ reports d /\ exists m, m ∈ messages (snd (Cleanup now ret d)) /\ m_ID m = rr_message_id r.
Proof.
  split.
  - intros Hr. simpl in Hr. rewrite !elem_of_filterb in Hr. destruct Hr as [[Hr _] H].
    apply existsb_elem in H as (m & Hm & ?%Z.eqb_eq). eauto.
  - intros (Hr & m & Hm & Hk). simpl. rewrite !elem_of_filterb. split_and!; [done| |].
    + apply existsb_elem. exists m. split; [|by apply Z.eqb_eq].
      simpl in Hm. rewrite elem_of_filterb in Hm. apply Hm.
    + apply existsb_elem. exists m. split; [done|by apply Z.eqb_eq].
Qed.


Lemma sample_db_ok : db_ok sample_db.
Proof.
  unfold sample_db. destruct (CreateMailbox _ _ _ _ _ _ _) as [[mb d]|] eqn:E; [|apply empty_ok].
  apply CreateMailbox_ok in E; [|apply migrate_ok, empty_ok].
  destruct (SaveMessage _ _ _) as [[m d']|] eqn:E2; [by eapply SaveMessage_ok|done].
Qed.


(** ** Deletion *)

Lemma NoDup_fmap_inj {A B} (g : A -> B) (rows : list A) x y :
  NoDup (g <$> rows) -> x ∈ rows -> y ∈ rows -> g x = g y -> x = y.
Proof.
  induction rows as [|z rows IH]; simpl; [by intros _ Hx%not_elem_of_nil|].
  rewrite NoDup_cons, !elem_of_cons. intros [Hz Hn] [->|Hx] [->|Hy] Hg; [done|..|by apply IH].
  - destruct Hz. apply list_elem_of_fmap. eauto.
  - destruct Hz. apply list_elem_of_fmap. eauto.
Qed.

Lemma alive_other (token : string) (rows : list Mailbox) (id : Z) :
  existsb (fun b => mb_ID b =? id) (List.filter (fun m => negb (String.eqb (mb_Token m) token)) rows) = true
  <-> exists b, b ∈ rows /\ mb_ID b = id /\ mb_Token b <> token.
Proof.
  rewrite existsb_elem. setoid_rewrite elem_of_filterb. setoid_rewrite negb_true_iff.
  setoid_rewrite String.eqb_neq. setoid_rewrite Z.eqb_eq. naive_solver.
Qed.

(** The token and the key single out one mailbox. *)
Lemma mailbox_by_key d mb b :
  db_ok d -> mb ∈ mailboxes d -> b ∈ mailboxes d ->
  (mb_Token b = mb_Token mb -> b = mb) /\ (mb_ID b = mb_ID mb -> b = mb).
Proof.
  intros Hd Hmb Hb. split; intros H.
  - exact (NoDup_fmap_inj _ _ _ _ (ok_tokens d Hd) Hb Hmb H).
  - exact (NoDup_fmap_inj _ _ _ _ (proj1 (ok_mailboxes d Hd)) Hb Hmb H).
Qed.

(** A reference survives the deletion of [mb] iff it points elsewhere. *)
Lemma alive_iff {A} (fk : A -> Z) (rows : list A) d mb x :
  db_ok d -> mb ∈ mailboxes d -> references fk rows mb_ID (mailboxes d) -> x ∈ rows ->
  existsb (fun b => mb_ID b =? fk x) (List.filter (fun m => negb (String.eqb (mb_Token m) (mb_Token mb))) (mailboxes d)) = true
  <-> fk x <> mb_ID mb.
Proof.
  intros Hd Hmb Href Hx. rewrite alive_other. split.
  - intros (b & Hb & Hk & Hne) Heq. apply Hne. destruct (mailbox_by_key d mb b Hd Hmb Hb) as [_ Hid].
    rewrite Hid; [done|congruence].
  - intros Hne. destruct (Href x Hx) as (b & Hb & Hk). exists b. split_and!; [done|done|]. intros Ht.
    destruct (mailbox_by_key d mb b Hd Hmb Hb) as [Htok _]. rewrite (Htok Ht) in Hk. congruence.
Qed.

Lemma delete_exact token mb d d' :
  db_ok d -> mb ∈ mailboxes d -> mb_Token mb = token -> DeleteMailboxByToken token d = Ok d' ->
  (forall b, b ∈ mailboxes d' <-> b ∈ mailboxes d /\ b <> mb)
  /\ (forall m, m ∈ messages d' <-> m ∈ messages d /\ m_MailboxID m <> mb_ID mb)
  /\ (forall r, r ∈ reports d' <-> r ∈ reports d
        /\ forall m, m ∈ messages d -> m_ID m = rr_message_id r -> m_MailboxID m <> mb_ID mb)
  /\ (forall t, t ∈ placement d' <-> t ∈ placement d /\ pt_MailboxID t <> mb_ID mb).
Proof.
  intros Hd Hmb <- H. unfold DeleteMailboxByToken in H. case_if_in H; [done|]. injection H as <-.
  assert (Hmsg : forall m, m ∈ messages (delete_mailboxes (fun m => String.eqb (mb_Token m) (mb_Token mb)) d)
                 <-> m ∈ messages d /\ m_MailboxID m <> mb_ID mb).
  { intros m. simpl. rewrite elem_of_filterb, negb_involutive. split; intros [Hm Ha]; (split; [done|]);
      by apply (alive_iff m_MailboxID _ d mb m Hd Hmb (ok_message_fk d Hd) Hm). }
  split_and!; [|exact Hmsg| |].
  - intros b. simpl. rewrite elem_of_filterb, negb_true_iff, String.eqb_neq. split; intros [Hb Hne].
    + split; [done|]. by intros ->.
    + split; [done|]. intros Ht. apply Hne. exact (proj1 (mailbox_by_key d mb b Hd Hmb Hb) Ht).
  - intros r. split.
    + intros Hr. simpl in Hr. apply elem_of_filterb in Hr as [Hr (m & Hm & Hk%Z.eqb_eq)%existsb_elem].
      split; [done|]. intros m' Hm' Hk'. apply Hmsg in Hm as [Hm Hne].
      by rewrite (NoDup_fmap_inj _ _ _ _ (proj1 (ok_messages d Hd)) Hm' Hm ltac:(congruence)).
    + intros [Hr Hall]. destruct (ok_report_fk d Hd r Hr) as (m & Hm & Hk). simpl. apply elem_of_filterb.
      split; [done|]. apply existsb_elem. exists m. split; [|by apply Z.eqb_eq].
      apply Hmsg. split; [done|]. by apply Hall.
  - intros t. simpl. rewrite elem_of_filterb. split; intros [Ht Ha]; (split; [done|]);
      by apply (alive_iff pt_MailboxID _ d mb t Hd Hmb (ok_placement_fk d Hd) Ht).
Qed.

(** C26: deleting a mailbox erases all of it and nothing else: of a well-formed database
    exactly the mailbox with that token disappears, together with exactly its messages, their reports
    and its placement tests; every row of every other mailbox stays as it is. *)
Theorem delete_mailbox_erases token mb d d' :
  db_ok d -> mb ∈ mailboxes d -> mb_Token mb = token -> DeleteMailboxByToken token d = Ok d' ->
  (forall b, b ∈ mailboxes d' <-> b ∈ mailboxes d /\ b <> mb)
  /\ (forall m, m ∈ messages d' <-> m ∈ messages d /\ m_MailboxID m <> mb_ID mb)
  /\ (forall r, r ∈ reports d' <-> r ∈ reports d
        /\ forall m, m ∈ messages d -> m_ID m = rr_message_id r -> m_MailboxID m <> mb_ID mb)
  /\ (forall t, t ∈ placement d' <-> t ∈ placement d /\ pt_MailboxID t <> mb_ID mb).
Proof. apply delete_exact. Qed.

Lemma delete_mailbox_erases_witness :
  exists d', DeleteMailboxByToken "tok" sample_db = Ok d' /\ forall m, m ∈ messages d' -> m_MailboxID m <> 1.
Proof.
  destruct (DeleteMailboxByToken "tok" sample_db) as [d'|] eqn:E; [|vm_compute in E; discriminate E].
  exists d'. split; [reflexivity|].
  destruct (delete_mailbox_erases "tok"
    (mkMailbox 1 "tok" "tok@inbox.example" "" "192.0.2.1" 100 150 100 false false false) sample_db d'
    sample_db_ok) as (_ & H & _); [vm_compute; left|reflexivity|exact E|].
  intros m Hm. by apply H in Hm as [_ ?].
Defined.

(** ** Reports round trip *)

Lemma find_update_same {A} (p : A -> bool) (f : A -> A) rows :
  (forall x, p x = true -> p (f x) = true) -> List.find p (update_where p f rows) = f <$> List.find p rows.
Proof.
  intros Hp. unfold update_where. induction rows as [|x rows IH]; [done|]. rewrite fmap_cons. cbn [List.find].
  destruct (p x) eqn:E; [by rewrite Hp|by rewrite E].
Qed.

Lemma find_update_other {A} (p q : A -> bool) (f : A -> A) rows :
  (forall x, q x = true -> p x = false /\ p (f x) = false) -> List.find p (update_where q f rows) = List.find p rows.
Proof.
  intros Hq. unfold update_where. induction rows as [|x rows IH]; [done|]. rewrite fmap_cons. cbn [List.find].
  destruct (q x) eqn:E; [|by rewrite IH]. destruct (Hq x E) as [-> ->]. done.
Qed.

Lemma find_snoc {A} (p : A -> bool) rows x :
  List.find p (rows ++ [x]) = match List.find p rows with Some y => Some y | None => if p x then Some x else None end.
Proof. induction rows as [|y rows IH]; simpl; [done|]. by destruct (p y). Qed.

Lemma find_none_existsb {A} (p : A -> bool) rows : existsb p rows = false -> List.find p rows = None.
Proof. induction rows as [|y rows IH]; simpl; [done|]. by destruct (p y). Qed.

Lemma find_some_existsb {A} (p : A -> bool) rows : existsb p rows = true -> exists x, List.find p rows = Some x /\ p x = true.
Proof. induction rows as [|y rows IH]; simpl; [done|]. destruct (p y) eqn:E; [eauto|done]. Qed.

(** What the stored row of the message is after the upsert. *)
Lemma upsert_report_find created r d d' k :
  upsert_report created r d = Ok d' ->
  List.find (fun x => rr_message_id x =? k) (reports d') =
  if k =? r_MessageID r
  then Some (row_of (match List.find (fun x => rr_message_id x =? k) (reports d) with
                     | Some x => rr_id x | None => seq_reports d + 1 end) created r)
  else List.find (fun x => rr_message_id x =? k) (reports d).
Proof.
  unfold upsert_report. destruct (k =? r_MessageID r) eqn:Hk; bool_to_prop.
  - subst k. case_if; [|case_if; [done|]]; intros [= <-]; simpl.
    + rewrite find_update_same by (intros; simpl; apply Z.eqb_refl).
      by destruct (find_some_existsb _ _ Hif) as (x & -> & _).
    + rewrite find_snoc, find_none_existsb by done. simpl. by rewrite Z.eqb_refl.
  - case_if; [|case_if; [done|]]; intros [= <-]; simpl.
    + apply find_update_other. intros x Hx. bool_to_prop. simpl. split; apply Z.eqb_neq; congruence.
    + rewrite find_snoc. simpl. destruct (List.find _ _); [done|].
      by replace (r_MessageID r =? k) with false by (symmetry; apply Z.eqb_neq; congruence).
Qed.

(** Every report of the table after a save: the saved one and all others as they were. *)
Lemma SaveReport_find now r d r' d' k :
  SaveReport now r d = Ok (r', d') ->
  let created := if r_CreatedAt r =? zero_time then now else r_CreatedAt r in
  exists d1, upsert_report created r d = Ok d1 /\ reports d' = reports d1 /\ GetReportByMessageID k d' = GetReportByMessageID k d1.
Proof.
  unfold SaveReport. cbv zeta. rewrite obind_ok. intros (d1 & H1 & [= _ <-]). exists d1. split; [done|].
  set (d2 := if negb _ then _ else _).
  assert (Hr : reports d2 = reports d1).
  { unfold d2. case_if; [|done]. by rewrite !(proj1 (proj2 (proj2 (incrCounter_tables _ _ _)))). }
  unfold GetReportByMessageID, find_report. by rewrite Hr.
Qed.

Lemma SaveReport_read now r d r' d' :
  SaveReport now r d = Ok (r', d') -> exists id created, GetReportByMessageID (r_MessageID r) d' = Ok (scanReport (row_of id created r)).
Proof.
  intros H. apply (SaveReport_find _ _ _ _ _ (r_MessageID r)) in H as (d1 & H1 & _ & ->).
  unfold GetReportByMessageID, find_report, query_row. rewrite (upsert_report_find _ _ _ _ _ H1), Z.eqb_refl. by do 2 eexists.
Qed.

(** A saved report is read back as it was saved, by message, with the time
    of saving filled in if it was missing, and except for the mail type, which has no column;
    a report that replaces an older one keeps the older one's identifier in the
    table, and the reports of all other messages are untouched. *)
Theorem SaveReport_roundtrip now r d r' d' :
  SaveReport now r d = Ok (r', d') ->
  let created := if r_CreatedAt r =? zero_time then now else r_CreatedAt r in
  (exists id, GetReportByMessageID (r_MessageID r) d' = Ok (scanReport (row_of id created r))
     /\ (forall old, GetReportByMessageID (r_MessageID r) d = Ok old -> id = r_ID old))
  /\ (forall k, k <> r_MessageID r -> GetReportByMessageID k d' = GetReportByMessageID k d).
Proof.
  intros H. cbv zeta. apply (SaveReport_find _ _ _ _ _ 0) in H as (d1 & H1 & Hr & _).
  unfold GetReportByMessageID, find_report, query_row. rewrite Hr. split.
  - eexists. split.
    + rewrite (upsert_report_find _ _ _ _ _ H1), Z.eqb_refl. reflexivity.
    + intros old. destruct (List.find _ (reports d)); [by intros [= <-]|done].
  - intros k Hk. rewrite (upsert_report_find _ _ _ _ k H1).
    by replace (k =? r_MessageID r) with false by (symmetry; apply Z.eqb_neq; congruence).
Qed.

Definition sample_report (label : string) : AnalysisReport :=
  mkReport 0 1 0 (f_of_Z 9) label "bulk" [] ["w"] [] [("From", ["a@x"])] ["http://x"] [].

Lemma SaveReport_roundtrip_witness :
  exists r' d', SaveReport 130 (sample_report "Good") sample_db = Ok (r', d')
    /\ GetReportByMessageID 1 d' = Ok (mkReport 1 1 130 (f_of_Z 9) "Good" "" [] ["w"] [] [("From", ["a@x"])] ["http://x"] []).
Proof.
  destruct (SaveReport 130 (sample_report "Good") sample_db) as [[r' d']|] eqn:E; [|vm_compute in E; discriminate E].
  exists r', d'. split; [done|].
  destruct (SaveReport_roundtrip 130 (sample_report "Good") sample_db r' d' E) as [(id & H & _) _].
  vm_compute in E. injection E as <- <-. vm_compute. reflexivity.
Defined.

(** A report that replaces another is returned with the rowid of whatever row
    was inserted last, here that of another message. *)
Example resaved_report_has_stale_id :
  match SaveReport 130 (sample_report "Good") sample_db with
  | Ok (_, d1) =>
      match SaveMessage 140 (mkMessage 0 1 "b@y" "tok@inbox.example" "" "" 0 "" "" "" 0 "") d1 with
      | Ok (_, d2) =>
          match SaveReport 150 (sample_report "Excellent") d2 with
          | Ok (r, d3) =>
              (r_ID r, r_ID <$> match GetReportByMessageID 1 d3 with Ok x => Some x | Err _ => None end)
          | Err _ => (0, None)
          end
      | Err _ => (0, None)
      end
  | Err _ => (0, None)
  end = (2, Some 1).
Proof. vm_compute. reflexivity. Qed.

(** ** Statistics survive deletion *)

(** The lifetime totals never shrink when data goes: neither a cleanup nor
    the deletion of a mailbox changes the totals and the average that GetGlobalStats
    reports. *)
Theorem stats_survive_deletion now t ret token d d2 :
  DeleteMailboxByToken token d = Ok d2 ->
  forall d', d' = snd (Cleanup t ret d) \/ d' = d2 ->
  TotalMailboxes (GetGlobalStats now d') = TotalMailboxes (GetGlobalStats now d)
  /\ TotalMessages (GetGlobalStats now d') = TotalMessages (GetGlobalStats now d)
  /\ TotalReports (GetGlobalStats now d') = TotalReports (GetGlobalStats now d)
  /\ AvgScore (GetGlobalStats now d') = AvgScore (GetGlobalStats now d).
Proof.
  intros Hd d' Hd'. assert (Hc : counters d' = counters d).
  { unfold DeleteMailboxByToken in Hd. case_if_in Hd; [done|]. injection Hd as <-. by destruct Hd' as [->| ->]. }
  unfold GetGlobalStats, counterValue. simpl. by rewrite Hc.
Qed.

Lemma stats_survive_deletion_witness :
  TotalMessages (GetGlobalStats 0 (snd (Cleanup 1000 10 sample_db))) = 1.
Proof.
  destruct (DeleteMailboxByToken "tok" sample_db) as [d2|] eqn:E; [|vm_compute in E; discriminate E].
  destruct (stats_survive_deletion 0 1000 10 "tok" sample_db d2 E _ (or_introl eq_refl)) as (_ & -> & _).
  vm_compute. reflexivity.
Defined.
