(* ===== verification/SealedBox.v ===== *)
(** * Sealed payloads (internal/sealedbox/sealedbox.go)

    Encryption of a message to the public key of its mailbox. The primitives
    (X25519, HKDF-SHA256, AES-GCM, SHA-256) are the interface [Crypto]; what the
    construction relies on is the class [CryptoLaws]. Byte slices are strings.
    Random numbers are arguments. *)

From S2P Require Import Prelude GoStrings.

Local Open Scope string_scope.
Local Open Scope list_scope.

(** ** The primitives *)

Class Crypto := {
  X25519 : string -> string -> option string;   (** scalar, point; [None] is an error *)
  Basepoint : string;
  hkdf : string -> string -> string -> string;  (** secret, salt, info: 32 bytes *)
  gcm_seal : string -> string -> string -> string -> string;         (** key, nonce, plaintext, data *)
  gcm_open : string -> string -> string -> string -> option string;  (** key, nonce, ciphertext, data *)
  sha256 : string -> string
}.

(** Public keys of two secrets agree on a shared secret, a ciphertext opens
    with the key it was sealed with, and the outputs have their documented sizes. *)
Class CryptoLaws (C : Crypto) := {
  dh_agree a b pa pb : X25519 a Basepoint = Some pa -> X25519 b Basepoint = Some pb -> X25519 a pb = X25519 b pa;
  dh_size a p s : X25519 a p = Some s -> String.length s = 32%nat;
  gcm_open_seal k n pt ad : gcm_open k n (gcm_seal k n pt ad) ad = Some pt;
  gcm_size k n pt ad : String.length (gcm_seal k n pt ad) = (String.length pt + 16)%nat;
  sha256_size s : String.length (sha256 s) = 32%nat
}.

Definition magic : string := "MPE1".
Definition hkdfInfo : string := "senderreport-content-v1".
Definition identDomain : string := "senderreport-id-v1".
Definition keySize : nat := 32.
Definition nonceSize : nat := 12.
Definition tagSize : nat := 16.
Definition identLen : nat := 10.

Inductive seal_error := ErrBadKeySize | ErrBadBlob | ErrOpenFailed | ErrCurve | ErrRandom.

Record KeyPair := mkKeyPair { kp_Secret : string; kp_Public : string }.

(** ** base32 without padding *)

Definition base32_char (d : N) : ascii :=
  if (d <? 26)%N then ascii_of_N (65 + d) else ascii_of_N (24 + d).

(** The characters of a group of up to five bytes, from its 40-bit value. *)
Definition base32_group (v : N) (n : nat) : list ascii :=
  (fun i : nat => base32_char (N.shiftr v (35 - 5 * N.of_nat i) mod 32)) <$> seq 0 ((8 * n + 4) / 5).

Definition group_value (bytes : list N) : N :=
  foldl (fun acc b => acc * 256 + b)%N 0%N (take 5 (bytes ++ replicate 5 0%N)).

Fixpoint base32_aux (fuel : nat) (bytes : list N) : list ascii :=
  match fuel with
  | O => []
  | S f => match bytes with
           | [] => []
           | _ => base32_group (group_value bytes) (Nat.min 5 (List.length bytes)) ++ base32_aux f (drop 5 bytes)
           end
  end.

Definition string_of (l : list ascii) : string := foldr String "" l.
Fixpoint bytes_of (s : string) : list N :=
  match s with EmptyString => [] | String a s' => code a :: bytes_of s' end.

Definition base32 (s : string) : string := string_of (base32_aux (S (String.length s)) (bytes_of s)).

(** [toLower] of this package: ASCII letters only. *)
Definition toLower (s : string) : string := smap lower_byte s.

Section SealedBox.
Context {C : Crypto}.

(** [random]: the 32 bytes of the random source, if it delivers them. *)
Definition GenerateKeyPair (random : option string) : outcome seal_error KeyPair :=
  match random with
  | None => Err ErrRandom
  | Some secret =>
      match X25519 secret Basepoint with
      | None => Err ErrCurve
      | Some pub => Ok (mkKeyPair secret pub)
      end
  end.

Definition PublicFromSecret (secret : string) : outcome seal_error string :=
  if negb (String.length secret =? keySize)%nat then Err ErrBadKeySize
  else match X25519 secret Basepoint with Some p => Ok p | None => Err ErrCurve end.

Definition Identifier (public : string) : string :=
  toLower (base32 (stake identLen (sha256 (identDomain +:+ public)))).

Definition deriveKey (shared ephPublic recipientPublic : string) : string :=
  hkdf shared (ephPublic +:+ recipientPublic) hkdfInfo.

Definition sealWithEphemeral (nonce plaintext recipientPublic ephSecret : string) : outcome seal_error string :=
  if negb (String.length recipientPublic =? keySize)%nat || negb (String.length ephSecret =? keySize)%nat
  then Err ErrBadKeySize
  else match X25519 ephSecret Basepoint with
       | None => Err ErrCurve
       | Some ephPublic =>
           match X25519 ephSecret recipientPublic with
           | None => Err ErrCurve
           | Some shared =>
               let key := deriveKey shared ephPublic recipientPublic in
               let ct := gcm_seal key nonce plaintext ephPublic in
               Ok (magic +:+ ephPublic +:+ nonce +:+ ct)
           end
       end.

(** [ephSecret] and [nonce] are what the random source delivers. *)
Definition Seal (ephSecret nonce plaintext recipientPublic : string) : outcome seal_error string :=
  if negb (String.length recipientPublic =? keySize)%nat then Err ErrBadKeySize
  else sealWithEphemeral nonce plaintext recipientPublic ephSecret.

Definition Open (blob recipientSecret : string) : outcome seal_error string :=
  if negb (String.length recipientSecret =? keySize)%nat then Err ErrBadKeySize
  else if (String.length blob <? String.length magic + keySize + nonceSize + tagSize)%nat then Err ErrBadBlob
  else if negb (String.eqb (stake (String.length magic) blob) magic) then Err ErrBadBlob
  else
    let off := String.length magic in
    let ephPublic := stake keySize (sdrop off blob) in
    let nonce := stake nonceSize (sdrop (off + keySize) blob) in
    let ct := sdrop (off + keySize + nonceSize) blob in
    match X25519 recipientSecret Basepoint with
    | None => Err ErrCurve
    | Some recipientPublic =>
        match X25519 recipientSecret ephPublic with
        | None => Err ErrCurve
        | Some shared =>
            match gcm_open (deriveKey shared ephPublic recipientPublic) nonce ct ephPublic with
            | None => Err ErrOpenFailed
            | Some pt => Ok pt
            end
        end
    end.

End SealedBox.

(** ** Theorems *)

Section Laws.
Context {C : Crypto} {L : CryptoLaws C}.

Lemma stake_app_exact n s t : String.length s = n -> stake n (s +:+ t) = s.
Proof. intros <-. apply stake_app. Qed.

Lemma sdrop_app_exact n s t : String.length s = n -> sdrop n (s +:+ t) = t.
Proof. intros <-. apply sdrop_app. Qed.

(** The fields of a blob. *)
Lemma blob_fields eph nonce ct :
  String.length eph = keySize -> String.length nonce = nonceSize ->
  let blob := magic +:+ eph +:+ nonce +:+ ct in
  stake 4 blob = magic /\ stake keySize (sdrop 4 blob) = eph
  /\ stake nonceSize (sdrop (4 + keySize) blob) = nonce /\ sdrop (4 + keySize + nonceSize) blob = ct
  /\ String.length blob = (48 + String.length ct)%nat.
Proof.
  intros He Hn blob. subst blob. split_and!; [done| | | |].
  - rewrite (sdrop_app_exact 4 magic) by done. by apply stake_app_exact.
  - rewrite (sdrop_app_plus magic). rewrite (sdrop_app_exact keySize eph) by done. by apply stake_app_exact.
  - rewrite <- Nat.add_assoc, (sdrop_app_plus magic), <- He, (sdrop_app_plus eph).
    by apply sdrop_app_exact.
  - rewrite !slength_app, He, Hn. unfold keySize, nonceSize. simpl. lia.
Qed.

Lemma open_seal_roundtrip secret public eph nonce plaintext blob :
  X25519 secret Basepoint = Some public -> String.length secret = keySize -> String.length nonce = nonceSize ->
  Seal eph nonce plaintext public = Ok blob ->
  Open blob secret = Ok plaintext /\ String.length blob = (String.length plaintext + 64)%nat.
Proof.
  intros Hpub Hs Hn. unfold Seal, sealWithEphemeral. case_if; [done|].
  case_if; [done|]. destruct (X25519 eph Basepoint) as [ephPub|] eqn:He; [|done].
  destruct (X25519 eph public) as [shared|] eqn:Hsh; [|done]. intros Hblob.
  set (ct := gcm_seal _ _ _ _) in Hblob.
  assert (blob = magic +:+ ephPub +:+ nonce +:+ ct) as -> by congruence. clear Hblob.
  pose proof (dh_size _ _ _ He) as Hel.
  destruct (blob_fields ephPub nonce ct Hel Hn) as (F1 & F2 & F3 & F4 & F5).
  assert (Hct : String.length ct = (String.length plaintext + 16)%nat) by apply gcm_size.
  set (blob := magic +:+ ephPub +:+ nonce +:+ ct) in *. clearbody blob.
  split; [|lia]. unfold Open. rewrite Hs, F5. change (negb (keySize =? keySize)%nat) with false. cbv iota.
  replace (48 + String.length ct <? _)%nat with false
    by (symmetry; apply Nat.ltb_ge; unfold keySize, nonceSize, tagSize; simpl; lia).
  change (String.length magic) with 4%nat. rewrite F1, F2, F3, F4, String.eqb_refl. simpl.
  rewrite Hpub, <- (dh_agree eph secret ephPub public He Hpub), Hsh.
  subst ct. by rewrite gcm_open_seal.
Qed.

(** C17: only-recipient round trip: whatever was sealed to a public key opens,
    with the secret key it belongs to, to exactly the plaintext, for every random
    ephemeral key and nonce; the blob is 64 bytes longer than the plaintext. *)
Theorem Open_Seal secret public eph nonce plaintext blob :
  X25519 secret Basepoint = Some public -> String.length secret = keySize -> String.length nonce = nonceSize ->
  Seal eph nonce plaintext public = Ok blob ->
  Open blob secret = Ok plaintext /\ String.length blob = (String.length plaintext + 64)%nat.
Proof. apply open_seal_roundtrip. Qed.

(** A generated key pair opens what is sealed to it, and its public key is the one derived from its secret. *)
Lemma generated_pair random kp eph nonce plaintext blob :
  GenerateKeyPair (Some random) = Ok kp -> String.length random = keySize -> String.length nonce = nonceSize ->
  PublicFromSecret (kp_Secret kp) = Ok (kp_Public kp) /\ String.length (kp_Public kp) = keySize
  /\ (Seal eph nonce plaintext (kp_Public kp) = Ok blob -> Open blob (kp_Secret kp) = Ok plaintext).
Proof.
  cbn. destruct (X25519 random Basepoint) as [pub|] eqn:Hp; [|done]. intros E Hs Hn. injection E as <-. cbn.
  unfold PublicFromSecret. rewrite Hs, Hp. cbn. split_and!; [done|by eapply dh_size|].
  intros H. by eapply open_seal_roundtrip in H as [? _].
Qed.

(** A character of a mailbox identifier. *)
Definition ident_char (a : ascii) : bool := is_lower a || ((50 <=? code a) && (code a <=? 55))%N.

Lemma base32_char_ident d : (d < 32)%N -> ident_char (lower_byte (base32_char d)) = true.
Proof.
  intros Hd. assert (Hall : forallb (fun n => ident_char (lower_byte (base32_char (N.of_nat n)))) (seq 0 32) = true)
    by (vm_compute; reflexivity).
  rewrite forallb_forall in Hall. rewrite <- (N2Nat.id d). apply Hall, list_elem_of_In, elem_of_seq. lia.
Qed.

Lemma base32_aux_ident fuel bytes : Forall (fun a => ident_char (lower_byte a) = true) (base32_aux fuel bytes).
Proof.
  revert bytes. induction fuel as [|f IH]; intros bytes; simpl; [done|].
  destruct bytes as [|b bytes]; [done|]. apply Forall_app. split; [|apply IH].
  unfold base32_group. apply Forall_fmap, Forall_true. intros i. simpl.
  apply base32_char_ident. apply N.mod_lt. done.
Qed.

Lemma sforall_string_of p l : Forall (fun a => p (lower_byte a) = true) l -> sforall p (toLower (string_of l)) = true.
Proof. unfold toLower. induction 1 as [|a l Ha _ IH]; simpl; [done|]. by rewrite Ha. Qed.

Lemma slength_string_of l : String.length (toLower (string_of l)) = List.length l.
Proof. unfold toLower. induction l as [|a l IH]; simpl; [done|]. by rewrite IH. Qed.

Lemma bytes_of_length s : List.length (bytes_of s) = String.length s.
Proof. induction s as [|a s IH]; simpl; [done|]. by rewrite IH. Qed.

(** The identifier of a public key is always 16 characters out of a-z and
    2-7, so it can be used as the local part of an address and in a URL as it is. *)
Theorem Identifier_shape public :
  String.length (Identifier public) = 16%nat /\ sforall ident_char (Identifier public) = true.
Proof.
  unfold Identifier, base32. set (h := stake identLen _).
  assert (Hl : String.length h = 10%nat).
  { subst h. rewrite slength_stake, sha256_size. done. }
  split; [|apply sforall_string_of, base32_aux_ident].
  rewrite slength_string_of, Hl. rewrite <- (bytes_of_length h) in Hl.
  destruct (bytes_of h) as [|b0 [|b1 [|b2 [|b3 [|b4 [|b5 [|b6 [|b7 [|b8 [|b9 [|]]]]]]]]]]]; try discriminate Hl.
  reflexivity.
Qed.

End Laws.

(** ** An instance of the interface

    A toy key agreement and cipher that satisfy the laws. *)
Definition zeros (n : nat) : string := string_of (replicate n "0"%char).

Definition toy_crypto : Crypto := {|
  X25519 := fun _ _ => Some (zeros 32);
  Basepoint := zeros 32;
  hkdf := fun s salt info => s;
  gcm_seal := fun k n pt ad => zeros 16 +:+ pt;
  gcm_open := fun k n ct ad => Some (sdrop 16 ct);
  sha256 := fun _ => zeros 32
|}.

#[export] Instance toy_laws : CryptoLaws toy_crypto.
Proof.
  split; try done.
  - by intros a p s [= <-].
  - intros k n pt ad. unfold gcm_seal, toy_crypto. rewrite slength_app. simpl. lia.
Qed.

Lemma Open_Seal_witness :
  @Open toy_crypto (magic +:+ zeros 32 +:+ zeros 12 +:+ zeros 16 +:+ "hello") (zeros 32) = Ok "hello"
  /\ String.length (magic +:+ zeros 32 +:+ zeros 12 +:+ zeros 16 +:+ "hello") = 69%nat.
Proof.
  apply (@Open_Seal toy_crypto toy_laws (zeros 32) (zeros 32) (zeros 32) (zeros 12) "hello"); reflexivity.
Defined.

Lemma Identifier_shape_witness : String.length (@Identifier toy_crypto "key") = 16%nat.
Proof. apply (@Identifier_shape toy_crypto toy_laws "key"). Defined.
