(* ===== verification/Ingest.v ===== *)
(** * Inbound processing (cmd/sender-report/main.go)

    What happens to a message the SMTP server accepted: the mailbox is looked
    up, the receiver's headers are added, the analyser runs on the clear text,
    and the message and its report are stored, encrypted to the mailbox's key
    when it has one. The analyser, the JSON encoder, the MIME word decoder, the
    time format and the random source are parameters ([ingest_env]); so are the
    clock readings [clock 0], [clock 1], ... in the order in which the code takes them. *)

From S2P Require Import Prelude F64 GoStrings GoNet Model Spf AuthHeaders Ipt Store SealedBox.

Local Open Scope string_scope.
Local Open Scope list_scope.
Local Open Scope Z_scope.

(** ** Recipients *)

Definition matchesConfiguredDomain (SMTPDomain rcpt : string) : bool :=
  let domain := ToLower (TrimSpace SMTPDomain) in
  if isEmpty domain then true
  else HasSuffix (ToLower (TrimSpace rcpt)) ("@" +:+ domain).

Definition smtpGreetingDomain (SMTPDomain : string) : string :=
  let domain := TrimSpace SMTPDomain in
  if isEmpty domain then "sender-report.local" else domain.

Definition isAllowedRecipient (now : Z) (SMTPDomain rcpt : string) (d : DB) : bool :=
  let rcpt := ToLower (TrimSpace rcpt) in
  if negb (matchesConfiguredDomain SMTPDomain rcpt) then false
  else match GetMailboxByAddress rcpt d with
       | Err _ => false
       | Ok mb => now <? mb_ExpiresAt mb
       end.

(** ** Header access *)

Definition headerBlock (raw : string) : string :=
  match SplitN2 (ReplaceAll raw crlf lf) lflf with
  | [] => ""
  | h :: _ => TrimSpace h
  end.

Fixpoint fold_value (lines : list string) (value : string) : string :=
  match lines with
  | [] => value
  | next :: rest =>
      let next := TrimRight next (chr CR) in
      if negb (HasPrefix next " ") && negb (HasPrefix next (chr TAB)) then value
      else fold_value rest (value +:+ " " +:+ TrimSpace next)
  end.

(** [decode] is [mime.WordDecoder.DecodeHeader]. *)
Fixpoint headerField_in (decode : string -> option string) (lines : list string) (prefix : string) : string :=
  match lines with
  | [] => ""
  | l :: rest =>
      let line := TrimRight l (chr CR) in
      if HasPrefix (ToLower (TrimSpace line)) prefix then
        let value := fold_value rest (TrimSpace (sdrop (String.length prefix) line)) in
        match decode value with
        | Some decoded => TrimSpace decoded
        | None => TrimSpace value
        end
      else headerField_in decode rest prefix
  end.

Definition headerField (decode : string -> option string) (block key : string) : string :=
  headerField_in decode (Split block LF) (ToLower key +:+ ":").

(** ** Encoding of keys and blobs *)

(** [hex.DecodeString]. *)
Fixpoint hex_decode (s : string) : option string :=
  match s with
  | EmptyString => Some ""
  | String _ EmptyString => None
  | String a (String b s') =>
      match hex_val a, hex_val b, hex_decode s' with
      | Some x, Some y, Some t => Some (String (ascii_of_N (Z.to_N (16 * x + y))) t)
      | _, _, _ => None
      end
  end.

Definition b64url_char (d : N) : ascii :=
  if (d <? 26)%N then ascii_of_N (65 + d)
  else if (d <? 52)%N then ascii_of_N (71 + d)
  else if (d <? 62)%N then ascii_of_N (d - 4)
  else if (d =? 62)%N then "-"%char else "_"%char.

(** [base64.RawURLEncoding.EncodeToString]. *)
Fixpoint b64url (s : string) : string :=
  match s with
  | EmptyString => ""
  | String a EmptyString =>
      let v := (code a * 16)%N in
      String (b64url_char (v / 64)) (String (b64url_char (v mod 64)) "")
  | String a (String b EmptyString) =>
      let v := ((code a * 256 + code b) * 4)%N in
      String (b64url_char (v / 4096)) (String (b64url_char (v / 64 mod 64)) (String (b64url_char (v mod 64)) ""))
  | String a (String b (String c s')) =>
      let v := ((code a * 256 + code b) * 256 + code c)%N in
      String (b64url_char (v / 262144)) (String (b64url_char (v / 4096 mod 64))
        (String (b64url_char (v / 64 mod 64)) (String (b64url_char (v mod 64)) (b64url s'))))
  end.

(** ** The sealed payload *)

Record encryptedPayload := mkPayload {
  ep_RawSource : string;
  ep_HeaderBlock : string;
  ep_Subject : string;
  ep_SMTPFrom : string;
  ep_RemoteIP : string;
  ep_HELO : string;
  ep_ReceivedAt : string;
  ep_Report : AnalysisReport
}.

Record analyze_input := mkAnalyzeInput {
  ai_Message : Message;
  ai_SMTPDomain : string;
  ai_EnableDomainAge : bool;
  ai_EnableDomainBlocklist : bool;
  ai_EnableBrokenLinks : bool
}.

Record ingest_env := mkIngestEnv {
  ie_dns : dns_env;
  ie_auth : auth_lib;
  ie_decode : string -> option string;                (** mime.WordDecoder *)
  ie_analyze : analyze_input -> AnalysisReport;
  ie_marshal : encryptedPayload -> option string;     (** json.Marshal *)
  ie_rfc3339 : Z -> string;
  ie_random : option (string * string)                (** ephemeral secret and nonce *)
}.

(** A report without what belongs into the payload. *)
Definition stripReportForStorage (r : AnalysisReport) : AnalysisReport :=
  mkReport (r_ID r) (r_MessageID r) (r_CreatedAt r) (r_Score r) (r_ScoreLabel r) ""
    ((fun c => mkCheck (c_ID c) (c_Name c) (c_Status c) fzero "" "" ∅ "" "" [] "" "" "" "" "" "" "") <$> r_Checks r)
    [] [] [] [] [].

Record metrics := mkMetrics { mailsReceived : Z; reportsGenerated : Z; analyzerErrors : Z }.

Section Inbound.
Context {C : Crypto} (env : ingest_env) (SMTPDomain : string).

Definition buildEncryptedPayload (raw headers subject : string) (msg : Message) (report : AnalysisReport)
    (pubKey : string) : option string :=
  let p := mkPayload raw headers subject (m_SMTPFrom msg) (m_RemoteIP msg) (m_HELO msg)
             (ie_rfc3339 env (m_ReceivedAt msg)) report in
  match ie_marshal env p with
  | None => None
  | Some plainJSON =>
      match ie_random env with
      | None => None
      | Some (eph, nonce) =>
          match Seal eph nonce plainJSON pubKey with
          | Ok blob => Some (b64url blob)
          | Err _ => None
          end
      end
  end.

(** The message and report that are stored: encrypted when the mailbox has a
    valid key and sealing succeeds, else in clear text. *)
Definition protect (mb : Mailbox) (raw headers subject : string) (tmpMsg : Message) (report : AnalysisReport)
  : Message * AnalysisReport :=
  if isEmpty (mb_PublicKey mb) then (tmpMsg, report)
  else match hex_decode (mb_PublicKey mb) with
       | None => (tmpMsg, report)
       | Some pub =>
           if negb (String.length pub =? 32)%nat then (tmpMsg, report)
           else match buildEncryptedPayload raw headers subject tmpMsg report pub with
                | None => (tmpMsg, report)
                | Some payload =>
                    (mkMessage (m_ID tmpMsg) (m_MailboxID tmpMsg) "[encrypted]" (m_RCPTTo tmpMsg) "[encrypted]"
                       "[encrypted]" zero_time "[encrypted]" "[encrypted]" "[encrypted]" (m_SizeBytes tmpMsg) payload,
                     stripReportForStorage report)
                end
       end.

(** The message before encryption. *)
Definition received_message (now : Z) (mb : Mailbox) (rcpt raw : string) (rm : ReceivedMail) : Message :=
  let headers := headerBlock raw in
  mkMessage 0 (mb_ID mb) (rm_MailFrom rm) rcpt (rm_RemoteIP rm) (rm_HELO rm) now raw headers
    (headerField (ie_decode env) headers "Subject") (Z.of_nat (String.length (rm_Data rm))) "".

(** [rm.Data] with the receiver's headers; [enrich_some] shows that the evaluation
    behind it always ends. *)
Definition enriched (rm : ReceivedMail) : string :=
  default (rm_Data rm) (enrichWithReceiverAuthHeaders (ie_dns env) (ie_auth env) SMTPDomain rm (rm_Data rm)).

Definition with_message_id (id : Z) (r : AnalysisReport) : AnalysisReport :=
  mkReport (r_ID r) id (r_CreatedAt r) (r_Score r) (r_ScoreLabel r) (r_MailType r) (r_Checks r) (r_Warnings r)
    (r_Suggestions r) (r_RawHeaders r) (r_Links r) (r_SpamSignals r).

(** The error is the one of SaveMessage; every other early return is silent. *)
Definition processInbound (clock : nat -> Z) (rm : ReceivedMail) (d : DB) (mt : metrics)
  : outcome store_error unit * DB * metrics :=
  let rcpt := ToLower (TrimSpace (rm_RcptTo rm)) in
  if negb (matchesConfiguredDomain SMTPDomain rcpt) then (Ok (), d, mt)
  else match GetMailboxByAddress rcpt d with
  | Err ErrNotFound => (Ok (), d, mt)
  | Err e => (Err e, d, mt)
  | Ok mb =>
      if mb_ExpiresAt mb <? clock 0%nat then (Ok (), d, mt)
      else
        let raw := enriched rm in
        let tmpMsg := received_message (clock 1%nat) mb rcpt raw rm in
        let report := ie_analyze env (mkAnalyzeInput tmpMsg SMTPDomain (mb_CheckDomainAge mb)
                        (mb_CheckDomainBlocklist mb) (mb_CheckBrokenLinks mb)) in
        let '(storeMsg, report) := protect mb raw (m_HeaderBlock tmpMsg) (m_Subject tmpMsg) tmpMsg report in
        match SaveMessage (clock 2%nat) storeMsg d with
        | Err e => (Err e, d, mt)
        | Ok (msg, d1) =>
            let report := with_message_id (m_ID msg) report in
            let '(d2, mt') :=
              match SaveReport (clock 3%nat) report d1 with
              | Err _ => (d1, mkMetrics (mailsReceived mt + 1) (reportsGenerated mt) (analyzerErrors mt + 1))
              | Ok (_, d2) => (d2, mkMetrics (mailsReceived mt + 1) (reportsGenerated mt + 1) (analyzerErrors mt))
              end in
            (Ok (), TouchMailbox (clock 4%nat) (mb_ID mb) d2, mt')
        end
  end.

End Inbound.

(** ** Who may receive *)

(** A usable mailbox for the address. *)
Definition active_mailbox (now : Z) (SMTPDomain rcpt : string) (d : DB) (mb : Mailbox) : Prop :=
  matchesConfiguredDomain SMTPDomain rcpt = true /\ mb ∈ mailboxes d
  /\ ToLower (mb_Address mb) = rcpt /\ now < mb_ExpiresAt mb.

Lemma GetMailboxByAddress_ok rcpt d mb :
  GetMailboxByAddress rcpt d = Ok mb -> mb ∈ mailboxes d /\ ToLower (mb_Address mb) = ToLower rcpt.
Proof.
  unfold GetMailboxByAddress, query_row. destruct (List.find _ _) as [x|] eqn:E; [|done]. intros [= <-].
  apply List.find_some in E as [Hin He]. apply String.eqb_eq in He. split; [by apply list_elem_of_In|done].
Qed.

Lemma GetMailboxByAddress_error rcpt d e : GetMailboxByAddress rcpt d = Err e -> e = ErrNotFound.
Proof. unfold GetMailboxByAddress, query_row. destruct (List.find _ _); [done|by intros [= <-]]. Qed.

(** RCPT TO is accepted only for the address of an existing mailbox in the
    configured domain whose receiving window is still open. *)
Theorem isAllowedRecipient_sound now SMTPDomain rcpt d :
  isAllowedRecipient now SMTPDomain rcpt d = true ->
  exists mb, active_mailbox now SMTPDomain (ToLower (TrimSpace rcpt)) d mb.
Proof.
  unfold isAllowedRecipient. case_if; [done|]. destruct (GetMailboxByAddress _ _) as [mb|] eqn:Hg; [|done].
  intros Hlt%Z.ltb_lt. apply GetMailboxByAddress_ok in Hg as [? Ha]. exists mb.
  split_and!; [by bool_to_prop|done| |done]. by rewrite Ha, ToLower_idem.
Qed.

Lemma isAllowedRecipient_sound_witness :
  exists mb, active_mailbox 120 "inbox.example" (ToLower (TrimSpace " Tok@INBOX.example ")) sample_db mb.
Proof. apply isAllowedRecipient_sound. vm_compute. reflexivity. Defined.

(** ** Nothing in clear text *)

(** Every field of a stored message and report that could hold content of the
    mail or data of the peer. *)
Definition no_cleartext (m : Message) (r : AnalysisReport) : Prop :=
  m_SMTPFrom m = "[encrypted]" /\ m_RemoteIP m = "[encrypted]" /\ m_HELO m = "[encrypted]"
  /\ m_RawSource m = "[encrypted]" /\ m_HeaderBlock m = "[encrypted]" /\ m_Subject m = "[encrypted]"
  /\ r_Warnings r = [] /\ r_Suggestions r = [] /\ r_RawHeaders r = [] /\ r_Links r = [] /\ r_SpamSignals r = []
  /\ Forall (fun c => c_Summary c = "" /\ c_Suggestion c = "" /\ c_TechnicalDetails c = ∅ /\ c_Explanation c = ""
                      /\ c_Recommendation c = "" /\ c_SummaryEN c = "" /\ c_ExplanationEN c = ""
                      /\ c_RecommendationEN c = "") (r_Checks r).

Lemma protect_encrypts {C : Crypto} env mb raw h s m r pub payload :
  mb_PublicKey mb <> "" -> hex_decode (mb_PublicKey mb) = Some pub -> String.length pub = 32%nat ->
  buildEncryptedPayload env raw h s m r pub = Some payload ->
  no_cleartext (fst (protect env mb raw h s m r)) (snd (protect env mb raw h s m r))
  /\ m_PayloadEnc (fst (protect env mb raw h s m r)) = payload
  /\ m_MailboxID (fst (protect env mb raw h s m r)) = m_MailboxID m.
Proof.
  intros Hk Hd Hl Hp. apply isEmpty_false in Hk. unfold protect. rewrite Hk, Hd, Hl, Hp. simpl.
  split; [|done]. unfold no_cleartext. simpl. split_and!; try done.
  apply Forall_fmap, Forall_true. done.
Qed.

Lemma SaveMessage_spec now m d :
  (exists b, b ∈ mailboxes d /\ mb_ID b = m_MailboxID m) ->
  exists m' d', SaveMessage now m d = Ok (m', d') /\ m_ID m' = seq_messages d + 1
    /\ messages d' = messages d ++ [m'] /\ reports d' = reports d /\ mailboxes d' = mailboxes d /\ placement d' = placement d
    /\ m' = mkMessage (seq_messages d + 1) (m_MailboxID m) (m_SMTPFrom m) (m_RCPTTo m) (m_RemoteIP m) (m_HELO m)
              (if m_ReceivedAt m =? zero_time then now else m_ReceivedAt m)
              (m_RawSource m) (m_HeaderBlock m) (m_Subject m) (m_SizeBytes m) (m_PayloadEnc m).
Proof.
  intros (b & Hb & Hk). unfold SaveMessage.
  replace (existsb (fun b => mb_ID b =? m_MailboxID m) (mailboxes d)) with true
    by (symmetry; apply existsb_elem; exists b; split; [done|by apply Z.eqb_eq]).
  simpl. do 2 eexists. split; [reflexivity|]. split; [done|].
  match goal with |- context [incrCounter ?k ?v ?d] =>
    destruct (incrCounter_tables k v d) as (-> & -> & -> & ->) end. done.
Qed.

Lemma SaveReport_new now r d :
  (exists m, m ∈ messages d /\ m_ID m = r_MessageID r) ->
  (forall x, x ∈ reports d -> rr_message_id x <> r_MessageID r) ->
  exists r' d' id t, SaveReport now r d = Ok (r', d') /\ reports d' = reports d ++ [row_of id t r]
    /\ messages d' = messages d /\ mailboxes d' = mailboxes d /\ placement d' = placement d.
Proof.
  intros (m & Hm & Hk) Hno. unfold SaveReport, upsert_report.
  replace (existsb (fun x => rr_message_id x =? r_MessageID r) (reports d)) with false.
  2: { symmetry. apply not_true_iff_false. intros (x & Hx & He%Z.eqb_eq)%existsb_elem. by apply (Hno x). }
  replace (existsb (fun m => m_ID m =? r_MessageID r) (messages d)) with true
    by (symmetry; apply existsb_elem; exists m; split; [done|by apply Z.eqb_eq]).
  cbn [negb obind]. do 4 eexists. split; [reflexivity|].
  rewrite !(proj2 (proj2 (proj2 (incrCounter_tables _ _ _)))), !(proj1 (proj2 (proj2 (incrCounter_tables _ _ _)))),
    !(proj1 (proj2 (incrCounter_tables _ _ _))), !(proj1 (incrCounter_tables _ _ _)). done.
Qed.

(** The report of a new message is new. *)
Lemma report_ids_bounded d x : db_ok d -> x ∈ reports d -> rr_message_id x <= seq_messages d.
Proof.
  intros Hd Hx. destruct (ok_report_fk d Hd x Hx) as (m & Hm & <-).
  destruct (ok_messages d Hd) as (_ & Hf & _). rewrite Forall_forall in Hf. by apply Hf.
Qed.

(** What does not change about the mailboxes while mail arrives. *)
Definition mailbox_ids (d : DB) : list (Z * string * Z) := (fun b => (mb_ID b, mb_Address b, mb_ExpiresAt b)) <$> mailboxes d.

Lemma TouchMailbox_ids now id d : mailbox_ids (TouchMailbox now id d) = mailbox_ids d.
Proof.
  unfold mailbox_ids, TouchMailbox, update_where. cbn [mailboxes set_mailboxes]. rewrite <- list_fmap_compose.
  apply list_fmap_ext. intros i b _. cbn. by case_if.
Qed.

(** The same rows of mailboxes but for the time of the last contact. *)
Lemma touched_ids now id d d' : mailboxes d' = mailboxes (TouchMailbox now id d) -> mailbox_ids d' = mailbox_ids d.
Proof. intros H. unfold mailbox_ids. rewrite H. apply (TouchMailbox_ids now id d). Qed.

(** What is stored for an accepted message. *)
Lemma processInbound_stores {C : Crypto} env domain clock rm d mt mb :
  db_ok d ->
  let rcpt := ToLower (TrimSpace (rm_RcptTo rm)) in
  matchesConfiguredDomain domain rcpt = true -> GetMailboxByAddress rcpt d = Ok mb -> clock 0%nat <= mb_ExpiresAt mb ->
  let raw := enriched env domain rm in
  let tmp := received_message env (clock 1%nat) mb rcpt raw rm in
  let rep := ie_analyze env (mkAnalyzeInput tmp domain (mb_CheckDomainAge mb) (mb_CheckDomainBlocklist mb)
               (mb_CheckBrokenLinks mb)) in
  let st := protect env mb raw (m_HeaderBlock tmp) (m_Subject tmp) tmp rep in
  m_MailboxID (fst st) = mb_ID mb ->
  exists m' id t d',
    processInbound env domain clock rm d mt
      = (Ok (), d', mkMetrics (mailsReceived mt + 1) (reportsGenerated mt + 1) (analyzerErrors mt))
    /\ messages d' = messages d ++ [m']
    /\ reports d' = reports d ++ [row_of id t (with_message_id (m_ID m') (snd st))]
    /\ m' = mkMessage (seq_messages d + 1) (mb_ID mb) (m_SMTPFrom (fst st)) (m_RCPTTo (fst st)) (m_RemoteIP (fst st))
              (m_HELO (fst st)) (if m_ReceivedAt (fst st) =? zero_time then clock 2%nat else m_ReceivedAt (fst st))
              (m_RawSource (fst st)) (m_HeaderBlock (fst st)) (m_Subject (fst st)) (m_SizeBytes (fst st))
              (m_PayloadEnc (fst st))
    /\ mailboxes d' = mailboxes (TouchMailbox (clock 4%nat) (mb_ID mb) d) /\ placement d' = placement d.
Proof.
  intros Hd rcpt Hdom Hmb Hexp raw tmp rep st Hid. unfold processInbound. fold rcpt. rewrite Hdom, Hmb.
  replace (mb_ExpiresAt mb <? clock 0%nat) with false by (symmetry; apply Z.ltb_ge; lia).
  cbn [negb]. cbv zeta. fold raw. fold tmp. fold rep. fold st.
  destruct (SaveMessage_spec (clock 2%nat) (fst st) d) as (m' & d1 & Hs & Hm' & Hms & Hrs & Hbs & Hps & Hval).
  { apply GetMailboxByAddress_ok in Hmb as [? _]. eauto. }
  destruct st as [sm sr]. simpl in *. rewrite Hs.
  destruct (SaveReport_new (clock 3%nat) (with_message_id (m_ID m') sr) d1) as (r' & d2 & id & t & Hr & Hrs2 & Hms2 & Hbs2 & Hps2).
  { exists m'. rewrite Hms. split; [set_solver|done]. }
  { intros x Hx. rewrite Hrs in Hx. apply (report_ids_bounded d x Hd) in Hx. simpl. lia. }
  rewrite Hr. exists m', id, t. eexists. split; [reflexivity|]. simpl.
  rewrite Hms2, Hms, Hrs2, Hrs. split_and!; [done|done|by rewrite Hval, Hid|by rewrite Hbs2, Hbs|by rewrite Hps2, Hps].
Qed.


(** A mailbox with a key, and the toy primitives. *)
Definition keyed_db : DB :=
  match CreateMailbox 100 "tok" "tok@inbox.example" (Join (replicate 32 "30") "") "192.0.2.1" 50 empty_db with
  | Ok (_, d) => d
  | Err _ => empty_db
  end.

Definition sample_env : ingest_env :=
  mkIngestEnv outage_env sample_lib (fun s => Some s)
    (fun i => mkReport 0 0 0 (f_of_Z 9) "Good" "bulk"
       [mkCheck "spf" "SPF" "fail" fzero (m_RawSource (ai_Message i)) "" ∅ "" "" [] "" "" "" "" "" "" ""]
       [m_SMTPFrom (ai_Message i)] [] [] [] [])
    (fun p => Some (ep_RawSource p)) (fun _ => "2024-01-01T00:00:00Z") (Some (zeros 32, zeros 12)).

Definition inbound_mail : ReceivedMail :=
  mkReceivedMail "192.0.2.9" "mx.example.org" "a@example.org" "Tok@inbox.example"
    ("Subject: hi" +:+ crlf +:+ crlf +:+ "secret") false.

Lemma keyed_db_ok : db_ok keyed_db.
Proof.
  unfold keyed_db. destruct (CreateMailbox _ _ _ _ _ _ _) as [[mb d]|] eqn:E; [|apply empty_ok].
  eapply CreateMailbox_ok; [apply empty_ok|done].
Qed.


Lemma protect_mailbox {C : Crypto} env mb raw h s m r : m_MailboxID (fst (protect env mb raw h s m r)) = m_MailboxID m.
Proof. unfold protect. repeat (case_match || case_if); done. Qed.

Lemma TouchMailbox_ok now id d : db_ok d -> db_ok (TouchMailbox now id d).
Proof. intros. by apply update_mailboxes_ok. Qed.

Lemma protect_size {C : Crypto} env mb raw h s m r : m_SizeBytes (fst (protect env mb raw h s m r)) = m_SizeBytes m.
Proof. unfold protect. case_if; [done|]. destruct (hex_decode _); [|done]. case_if; [done|]. by destruct (buildEncryptedPayload _ _ _ _ _ _ _). Qed.

(** A message is dropped silently, or stored with its report in an active mailbox. *)
Lemma processInbound_cases {C : Crypto} env domain clock rm d mt :
  db_ok d ->
  processInbound env domain clock rm d mt = (Ok (), d, mt)
  \/ exists d' mb m,
       processInbound env domain clock rm d mt
         = (Ok (), d', mkMetrics (mailsReceived mt + 1) (reportsGenerated mt + 1) (analyzerErrors mt))
       /\ db_ok d'
       /\ matchesConfiguredDomain domain (ToLower (TrimSpace (rm_RcptTo rm))) = true
       /\ mb ∈ mailboxes d /\ ToLower (mb_Address mb) = ToLower (TrimSpace (rm_RcptTo rm))
       /\ clock 0%nat <= mb_ExpiresAt mb /\ messages d' = messages d ++ [m] /\ m_MailboxID m = mb_ID mb
       /\ m_SizeBytes m = Z.of_nat (String.length (rm_Data rm)) /\ m_ID m = seq_messages d + 1
       /\ mailboxes d' = mailboxes (TouchMailbox (clock 4%nat) (mb_ID mb) d) /\ placement d' = placement d
       /\ exists row, reports d' = reports d ++ [row] /\ rr_message_id row = m_ID m.
Proof.
  intros Hd. destruct (processInbound env domain clock rm d mt) as [[o d'] mt'] eqn:Hrun.
  pose proof Hrun as Hrun'. unfold processInbound in Hrun.
  set (rcpt := ToLower (TrimSpace (rm_RcptTo rm))) in *.
  destruct (matchesConfiguredDomain domain rcpt) eqn:Hdom; simpl in Hrun; [|by simplify_eq; auto].
  destruct (GetMailboxByAddress rcpt d) as [mb|e] eqn:Hg.
  2: { apply GetMailboxByAddress_error in Hg as ->. simplify_eq. auto. }
  case_if_in Hrun; [by simplify_eq; auto|]. bool_to_prop.
  destruct (processInbound_stores env domain clock rm d mt mb Hd Hdom Hg Hif) as (m' & id & t & d2 & Hr & Hms & Hrs & Hval & Hbs & Hps);
    [by rewrite protect_mailbox|].
  right. exists d2, mb, m'. assert (d' = d2) as -> by congruence. split; [congruence|].
  apply GetMailboxByAddress_ok in Hg as [? Ha]. split_and!; try done;
    [|by rewrite Ha; unfold rcpt; rewrite ToLower_idem|by rewrite Hval|rewrite Hval; cbn [m_SizeBytes]; by rewrite protect_size|by rewrite Hval|by eexists].
  destruct (protect _ _ _ _ _ _ _) as [sm sr].
  destruct (SaveMessage _ sm d) as [[m1 d1]|] eqn:Hs; [|congruence].
  apply SaveMessage_ok in Hs; [|done].
  destruct (SaveReport _ _ d1) as [[r2 d3]|] eqn:Hr2; simplify_eq; apply TouchMailbox_ok; [|done].
  by apply SaveReport_ok in Hr2.
Qed.

(** Processing a message either leaves the database exactly as it was, or
    the recipient is the address of a stored mailbox of the configured domain that had not
    expired, and exactly one message was added to it; the database stays
    well-formed in every case. *)
Theorem processInbound_effect {C : Crypto} env domain clock rm d mt :
  db_ok d ->
  let '(_, d', _) := processInbound env domain clock rm d mt in
  db_ok d' /\
  (d' = d \/ exists mb m,
     matchesConfiguredDomain domain (ToLower (TrimSpace (rm_RcptTo rm))) = true
     /\ mb ∈ mailboxes d /\ ToLower (mb_Address mb) = ToLower (TrimSpace (rm_RcptTo rm))
     /\ clock 0%nat <= mb_ExpiresAt mb /\ messages d' = messages d ++ [m] /\ m_MailboxID m = mb_ID mb).
Proof.
  intros Hd. destruct (processInbound_cases env domain clock rm d mt Hd) as [->|(d' & mb & m & -> & Hd' & H)]; [auto|].
  split; [done|]. right. exists mb, m. tauto.
Qed.

Lemma processInbound_effect_witness :
  let '(_, d', _) := @processInbound toy_crypto sample_env "inbox.example" (fun _ => 120) inbound_mail keyed_db
                       (mkMetrics 0 0 0) in db_ok d'.
Proof.
  pose proof (@processInbound_effect toy_crypto sample_env "inbox.example" (fun _ => 120) inbound_mail keyed_db
    (mkMetrics 0 0 0) keyed_db_ok) as H.
  destruct (processInbound _ _ _ _ _ _) as [[? d'] ?]. apply H.
Defined.

(** ** Observations *)

(** The arrival time of an encrypted message is stored in clear text after
    all: the zero time the code writes is replaced on insertion. *)
Example encrypted_message_keeps_its_time :
  let '(_, d', _) := @processInbound toy_crypto sample_env "inbox.example" (fun n => 120 + Z.of_nat n) inbound_mail
                       keyed_db (mkMetrics 0 0 0) in
  m_ReceivedAt <$> messages d' = [122].
Proof. vm_compute. reflexivity. Qed.

(** A folded continuation line can be taken for the field itself. *)
Example continuation_taken_for_subject :
  headerField Some ("X-Note: a" +:+ lf +:+ " subject: b" +:+ lf +:+ "Subject: real") "Subject" = ": b".
Proof. vm_compute. reflexivity. Qed.

(** A message accepted just before its mailbox expired but stored after it
    leaves with the mailbox, inside its own retention window. *)
Example late_message_removed_early :
  match CreateMailbox 0 "t" "t@x" "" "ip" 50 empty_db with
  | Ok (mb, d) =>
      match SaveMessage 60 (mkMessage 0 (mb_ID mb) "" "" "" "" 60 "" "" "" 0 "") d with
      | Ok (_, d) => messages (snd (Cleanup 155 100 d))
      | Err _ => []
      end
  | Err _ => []
  end = [].
Proof. vm_compute. reflexivity. Qed.
