(* ===== verification/Config.v ===== *)
(** * Configuration (internal/config/config.go)

    [Load] reads every setting from the environment and refuses a
    configuration whose values are out of bounds. The environment is a
    function from names to values (the empty string for an unset variable);
    [strconv.ParseFloat] is a parameter. An error carries the setting it is
    about, not the text of its message. *)

From S2P Require Import Prelude F64 GoStrings GoTime GoNet DnsFallback.

Local Open Scope string_scope.
Local Open Scope list_scope.
Local Open Scope Z_scope.

Record Config := mkConfig {
  AppName : string; HTTPListenAddr : string; EnableTLS : bool; TLSCertFile : string; TLSKeyFile : string;
  ForceHTTPS : bool; SMTPListenAddr : string; PublicBaseURL : string; SMTPDomain : string; DBPath : string;
  DataDir : string; MailboxTTL : Z; RetentionTTL : Z; CleanupInterval : Z; MaxMessageBytes : Z;
  MaxActivePerIP : Z; MaxActiveGlobal : Z; WebRateLimitPerMin : Z; WebBurstPer10Sec : Z;
  SMTPRateLimitPerHour : Z; SMTPBurstPerMin : Z; PayloadRateLimitPerMin : Z; EnableRBLChecks : bool;
  RBLProviders : list string; DNSFallbackResolvers : list string; DNSFallbackTimeout : Z;
  EnableDomainAge : bool; EnableDomainBlocklist : bool; DomainBlocklistProviders : list string;
  EnableBrokenLinks : bool; EnableSpamAssassin : bool; SpamAssassinHostPort : string;
  SpamAssassinWarnRatio : float64; EnableRspamd : bool; RspamdURL : string; RspamdPassword : string;
  AlertWebhookURL : string; TrustedProxyCIDRs : list string; PrivacyOperatorName : string;
  PrivacyOperatorAddress : string; PrivacyOperatorEmail : string; PrivacyHideTemplateNote : bool;
  EnableInboxPlacement : bool; SeedAccountsFile : string; IPTCheckInterval : Z; IPTAlertEmail : string;
  IPTAlertSMTPAddr : string; IPTAlertSMTPFrom : string; IPTAlertSMTPUser : string; IPTAlertSMTPPass : string;
  IPTAlertIncludeRaw : bool; IPTRateLimitPerHour : Z; IPTTokenLength : Z; IPTTestDuration : Z;
  IPTPollInterval : Z; IPTEventsInterval : Z; IPTSearchMargin : Z; IPTSpamFolders : list string;
  UIDefaultTheme : string; CookieSecure : string; LangCookieName : string; LangCookieDays : Z;
  MailboxCookieName : string; ForceHTTPSExemptPaths : list string
}.

Inductive config_error :=
| NotAnInteger (key v : string)
| NotADuration (key v : string)
| NotANumber (key v : string)
| TLSFilesMissing
| BadExemptPath (p : string)
| BelowMinimum (key : string) (v : Z)
| OutOfRange (key : string)
| NotWholeMinutes
| PollNotShorter
| TooManyFolders (n : nat)
| BadFolder (f : string)
| NotPositive (key : string)
| BadResolver (e : resolver_error)
| BadTheme (v : string)
| BadCookieMode (v : string)
| BadCookieName (key v : string)
| SameCookieNames.

(** [cfg] with the fields the two loaders set. *)
Definition with_loaded (cfg : Config) (resolvers : list string) (timeout : Z) (ratio : float64) : Config := {|
  AppName := AppName cfg;
  HTTPListenAddr := HTTPListenAddr cfg;
  EnableTLS := EnableTLS cfg;
  TLSCertFile := TLSCertFile cfg;
  TLSKeyFile := TLSKeyFile cfg;
  ForceHTTPS := ForceHTTPS cfg;
  SMTPListenAddr := SMTPListenAddr cfg;
  PublicBaseURL := PublicBaseURL cfg;
  SMTPDomain := SMTPDomain cfg;
  DBPath := DBPath cfg;
  DataDir := DataDir cfg;
  MailboxTTL := MailboxTTL cfg;
  RetentionTTL := RetentionTTL cfg;
  CleanupInterval := CleanupInterval cfg;
  MaxMessageBytes := MaxMessageBytes cfg;
  MaxActivePerIP := MaxActivePerIP cfg;
  MaxActiveGlobal := MaxActiveGlobal cfg;
  WebRateLimitPerMin := WebRateLimitPerMin cfg;
  WebBurstPer10Sec := WebBurstPer10Sec cfg;
  SMTPRateLimitPerHour := SMTPRateLimitPerHour cfg;
  SMTPBurstPerMin := SMTPBurstPerMin cfg;
  PayloadRateLimitPerMin := PayloadRateLimitPerMin cfg;
  EnableRBLChecks := EnableRBLChecks cfg;
  RBLProviders := RBLProviders cfg;
  DNSFallbackResolvers := resolvers;
  DNSFallbackTimeout := timeout;
  EnableDomainAge := EnableDomainAge cfg;
  EnableDomainBlocklist := EnableDomainBlocklist cfg;
  DomainBlocklistProviders := DomainBlocklistProviders cfg;
  EnableBrokenLinks := EnableBrokenLinks cfg;
  EnableSpamAssassin := EnableSpamAssassin cfg;
  SpamAssassinHostPort := SpamAssassinHostPort cfg;
  SpamAssassinWarnRatio := ratio;
  EnableRspamd := EnableRspamd cfg;
  RspamdURL := RspamdURL cfg;
  RspamdPassword := RspamdPassword cfg;
  AlertWebhookURL := AlertWebhookURL cfg;
  TrustedProxyCIDRs := TrustedProxyCIDRs cfg;
  PrivacyOperatorName := PrivacyOperatorName cfg;
  PrivacyOperatorAddress := PrivacyOperatorAddress cfg;
  PrivacyOperatorEmail := PrivacyOperatorEmail cfg;
  PrivacyHideTemplateNote := PrivacyHideTemplateNote cfg;
  EnableInboxPlacement := EnableInboxPlacement cfg;
  SeedAccountsFile := SeedAccountsFile cfg;
  IPTCheckInterval := IPTCheckInterval cfg;
  IPTAlertEmail := IPTAlertEmail cfg;
  IPTAlertSMTPAddr := IPTAlertSMTPAddr cfg;
  IPTAlertSMTPFrom := IPTAlertSMTPFrom cfg;
  IPTAlertSMTPUser := IPTAlertSMTPUser cfg;
  IPTAlertSMTPPass := IPTAlertSMTPPass cfg;
  IPTAlertIncludeRaw := IPTAlertIncludeRaw cfg;
  IPTRateLimitPerHour := IPTRateLimitPerHour cfg;
  IPTTokenLength := IPTTokenLength cfg;
  IPTTestDuration := IPTTestDuration cfg;
  IPTPollInterval := IPTPollInterval cfg;
  IPTEventsInterval := IPTEventsInterval cfg;
  IPTSearchMargin := IPTSearchMargin cfg;
  IPTSpamFolders := IPTSpamFolders cfg;
  UIDefaultTheme := UIDefaultTheme cfg;
  CookieSecure := CookieSecure cfg;
  LangCookieName := LangCookieName cfg;
  LangCookieDays := LangCookieDays cfg;
  MailboxCookieName := MailboxCookieName cfg;
  ForceHTTPSExemptPaths := ForceHTTPSExemptPaths cfg
|}.

(** ** Constants *)

Definition UIThemes : list string := ["auto"; "light"; "dark"; "werkbank"].
Definition CookieSecureModes : list string := ["auto"; "always"; "never"].
Definition MaxCookieDays : Z := 400.
Definition DefaultPayloadRateLimitPerMin : Z := 30.
Definition MaxPayloadRateLimitPerMin : Z := 600.
Definition DefaultIPTRateLimitPerHour : Z := 3.
Definition MaxIPTRateLimitPerHour : Z := 60.
Definition DefaultIPTTokenLength : Z := 32.
Definition MinIPTTokenLength : Z := 16.
Definition MaxIPTTokenLength : Z := 64.
Definition DefaultIPTTestDuration : Z := 10 * minute.
Definition MinIPTTestDuration : Z := minute.
Definition MaxIPTTestDuration : Z := hour.
Definition DefaultIPTPollInterval : Z := 30 * second.
Definition MinIPTPollInterval : Z := 5 * second.
Definition MaxIPTPollInterval : Z := 5 * minute.
Definition DefaultIPTEventsInterval : Z := 5 * second.
Definition MinIPTEventsInterval : Z := second.
Definition MaxIPTEventsInterval : Z := minute.
Definition DefaultIPTSearchMargin : Z := 2 * minute.
Definition MaxIPTSearchMargin : Z := hour.
Definition DefaultIPTSpamFolders : string := "Spam,Junk,[Gmail]/Spam,Bulk Mail,Bulk,Junk E-Mail".
Definition NoSpamFolders : string := "none".
Definition MaxIPTSpamFolders : nat := 20.
Definition MaxIPTSpamFolderChars : nat := 100.
Definition DefaultForceHTTPSExemptPaths : string := "/healthz,/readyz".
Definition NoExemptPaths : string := "none".
Definition DefaultSpamAssassinWarnRatio : float64 := lit 9 10.
Definition MinSpamAssassinWarnRatio : float64 := lit 1 10.
Definition MaxSpamAssassinWarnRatio : float64 := f_of_Z 1.

(** [FormatDuration]: a duration the way the settings take it. *)
Definition FormatDuration (d : Z) : string :=
  let s := Duration_String d in
  let s := if HasSuffix s "m0s" then TrimSuffix s "0s" else s in
  if HasSuffix s "h0m" then TrimSuffix s "0m" else s.

(** ** Lists and patterns *)

Definition splitCSV (s : string) : list string :=
  if isEmpty (TrimSpace s) then []
  else List.filter (fun p => negb (isEmpty p)) (TrimSpace <$> Split s ",").

Definition splitFolderList (s : string) : list string :=
  if EqualFold (TrimSpace s) NoSpamFolders then [] else splitCSV s.

Definition splitPathList (s : string) : list string :=
  if EqualFold (TrimSpace s) NoExemptPaths then [] else splitCSV s.

Definition hasDotSegment (p : string) : bool :=
  existsb (fun seg => String.eqb seg "." || String.eqb seg "..") (Split p "/").

(** exemptPathPattern: one or more segments, each a slash and path characters,
    and an optional trailing slash. *)
Definition path_char (a : ascii) : bool :=
  is_upper a || is_lower a || is_digit a || selem a "._~!$&'()*+,;=:@-".

Fixpoint exempt_segments (segs : list string) : bool :=
  match segs with
  | [] => false
  | [s] => negb (isEmpty s) && sforall path_char s
  | [s; ""] => negb (isEmpty s) && sforall path_char s
  | s :: rest => negb (isEmpty s) && sforall path_char s && exempt_segments rest
  end.

Definition exemptPathPattern (p : string) : bool :=
  match Split p "/" with
  | "" :: segs => exempt_segments segs
  | _ => false
  end.

Definition cookieNamePattern (s : string) : bool :=
  (1 <=? String.length s)%nat && (String.length s <=? 64)%nat
  && sforall (fun a => is_upper a || is_lower a || is_digit a || selem a "_.-") s.

(** ** Checks *)

Fixpoint checkHTTPSExemptPaths (paths : list string) : outcome config_error unit :=
  match paths with
  | [] => Ok ()
  | p :: rest =>
      if String.eqb p "/" then Err (BadExemptPath p)
      else if negb (exemptPathPattern p) || hasDotSegment p then Err (BadExemptPath p)
      else checkHTTPSExemptPaths rest
  end.

Definition require (b : bool) (e : config_error) : outcome config_error unit := if b then Ok () else Err e.

Definition checkRequestLimits (cfg : Config) : outcome config_error unit :=
  let! _ := require (negb ((PayloadRateLimitPerMin cfg <? 1) || (MaxPayloadRateLimitPerMin <? PayloadRateLimitPerMin cfg)))
              (OutOfRange "PAYLOAD_RATE_LIMIT_PER_MIN") in
  require (negb ((IPTRateLimitPerHour cfg <? 1) || (MaxIPTRateLimitPerHour <? IPTRateLimitPerHour cfg)))
    (OutOfRange "IPT_RATE_LIMIT_PER_HOUR").

(** The rows of the table in [checkIPTTiming]: key, value, least, most. *)
Fixpoint check_ranges (rows : list (string * Z * Z * Z)) : outcome config_error unit :=
  match rows with
  | [] => Ok ()
  | (key, v, least, most) :: rest =>
      if (v <? least) || (most <? v) then Err (OutOfRange key) else check_ranges rest
  end.

Definition checkIPTTiming (cfg : Config) : outcome config_error unit :=
  let! _ := check_ranges
    [("IPT_TEST_DURATION", IPTTestDuration cfg, MinIPTTestDuration, MaxIPTTestDuration);
     ("IPT_POLL_INTERVAL", IPTPollInterval cfg, MinIPTPollInterval, MaxIPTPollInterval);
     ("IPT_EVENTS_INTERVAL", IPTEventsInterval cfg, MinIPTEventsInterval, MaxIPTEventsInterval);
     ("IPT_SEARCH_MARGIN", IPTSearchMargin cfg, 0, MaxIPTSearchMargin)] in
  let! _ := require (Z.rem (IPTTestDuration cfg) minute =? 0) NotWholeMinutes in
  require (negb (IPTTestDuration cfg <=? IPTPollInterval cfg)) PollNotShorter.

Fixpoint check_folders (folders : list string) : outcome config_error unit :=
  match folders with
  | [] => Ok ()
  | f :: rest =>
      if (MaxIPTSpamFolderChars <? List.length (runes f))%nat || existsb IsControl (runes f)
      then Err (BadFolder f) else check_folders rest
  end.

Definition checkIPTSpamFolders (folders : list string) : outcome config_error unit :=
  if (MaxIPTSpamFolders <? List.length folders)%nat then Err (TooManyFolders (List.length folders))
  else check_folders folders.

Definition checkCookieSettings (cfg : Config) : outcome config_error unit :=
  let! _ := require (existsb (String.eqb (CookieSecure cfg)) CookieSecureModes) (BadCookieMode (CookieSecure cfg)) in
  let! _ := require (cookieNamePattern (LangCookieName cfg)) (BadCookieName "LANG_COOKIE_NAME" (LangCookieName cfg)) in
  let! _ := require (cookieNamePattern (MailboxCookieName cfg)) (BadCookieName "MAILBOX_COOKIE_NAME" (MailboxCookieName cfg)) in
  let! _ := require (negb (String.eqb (LangCookieName cfg) (MailboxCookieName cfg))) SameCookieNames in
  require (negb ((LangCookieDays cfg <? 1) || (MaxCookieDays <? LangCookieDays cfg))) (OutOfRange "LANG_COOKIE_DAYS").

Fixpoint check_at_least_one (rows : list (string * Z)) : outcome config_error unit :=
  match rows with
  | [] => Ok ()
  | (key, v) :: rest => if v <=? 0 then Err (BelowMinimum key v) else check_at_least_one rest
  end.

Fixpoint check_positive (rows : list (string * Z)) : outcome config_error unit :=
  match rows with
  | [] => Ok ()
  | (key, v) :: rest => if v <=? 0 then Err (NotPositive key) else check_positive rest
  end.

(** ** Reading the environment *)

Section Env.
Context (Getenv : string -> string) (ParseFloat : string -> option float64).

Definition getEnv (key fallback : string) : string :=
  let v := TrimSpace (Getenv key) in if isEmpty v then fallback else v.

(** The shape all typed readers share: the default for an unset or unreadable value. *)
Definition get_or {A} (parse : string -> option A) (key : string) (fallback : A) : A :=
  let v := TrimSpace (Getenv key) in
  if isEmpty v then fallback else default fallback (parse v).

Definition getEnvInt (key : string) (fallback : Z) : Z := get_or Atoi key fallback.
Definition getEnvInt64 (key : string) (fallback : Z) : Z := get_or Atoi key fallback.
Definition getEnvBool (key : string) (fallback : bool) : bool := get_or ParseBool key fallback.
Definition getEnvDuration (key : string) (fallback : Z) : Z := get_or ParseDuration key fallback.

Definition getEnvIntChecked (key : string) (fallback : Z) : outcome config_error Z :=
  let v := TrimSpace (Getenv key) in
  if isEmpty v then Ok fallback
  else match Atoi v with Some n => Ok n | None => Err (NotAnInteger key v) end.

Definition getEnvDurationChecked (key : string) (fallback : Z) : outcome config_error Z :=
  let v := TrimSpace (Getenv key) in
  if isEmpty v then Ok fallback
  else match ParseDuration v with Some n => Ok n | None => Err (NotADuration key v) end.

Definition loadSpamAssassinWarnRatio : outcome config_error float64 :=
  let v := TrimSpace (Getenv "SPAMASSASSIN_WARN_RATIO") in
  let! ratio := if isEmpty v then Ok DefaultSpamAssassinWarnRatio
                else match ParseFloat (ReplaceAll v "," ".") with
                     | Some f => Ok f
                     | None => Err (NotANumber "SPAMASSASSIN_WARN_RATIO" v)
                     end in
  if fltb ratio MinSpamAssassinWarnRatio || fltb MaxSpamAssassinWarnRatio ratio
  then Err (OutOfRange "SPAMASSASSIN_WARN_RATIO") else Ok ratio.

Definition loadDNSFallback : outcome config_error (list string * Z) :=
  let! resolvers := match ParseResolvers (getEnv "DNS_FALLBACK_RESOLVERS" DefaultResolvers) with
                    | Ok l => Ok l
                    | Err e => Err (BadResolver e)
                    end in
  let! timeout := getEnvDurationChecked "DNS_FALLBACK_TIMEOUT" DefaultTimeout in
  if (timeout <? MinTimeout) || (MaxTimeout <? timeout) then Err (OutOfRange "DNS_FALLBACK_TIMEOUT")
  else Ok (resolvers, timeout).

(** The configuration before the two loaders above have set their fields. *)
Definition read_config (langCookieDays payloadRateLimit iptRateLimit iptTokenLength
    testDuration pollInterval eventsInterval searchMargin : Z) : Config := {|
  AppName := getEnv "APP_NAME" "sender.report";
  HTTPListenAddr := getEnv "HTTP_LISTEN_ADDR" ":8080";
  EnableTLS := getEnvBool "ENABLE_TLS" false;
  TLSCertFile := getEnv "TLS_CERT_FILE" "";
  TLSKeyFile := getEnv "TLS_KEY_FILE" "";
  ForceHTTPS := getEnvBool "FORCE_HTTPS" false;
  SMTPListenAddr := getEnv "SMTP_LISTEN_ADDR" ":2525";
  PublicBaseURL := TrimRight (getEnv "PUBLIC_BASE_URL" "") "/";
  SMTPDomain := ToLower (getEnv "SMTP_DOMAIN" "");
  DBPath := getEnv "DB_PATH" "/data/sender-report.db";
  DataDir := getEnv "DATA_DIR" "/data";
  MailboxTTL := getEnvDuration "MAILBOX_TTL" (24 * hour);
  RetentionTTL := getEnvDuration "DATA_RETENTION_TTL" (7 * 24 * hour);
  CleanupInterval := getEnvDuration "CLEANUP_INTERVAL" (30 * minute);
  MaxMessageBytes := getEnvInt64 "MAX_MESSAGE_BYTES" (2 * 1024 * 1024);
  MaxActivePerIP := getEnvInt "MAX_ACTIVE_MAILBOXES_PER_IP" 20;
  MaxActiveGlobal := getEnvInt "MAX_ACTIVE_MAILBOXES_GLOBAL" 2000;
  WebRateLimitPerMin := getEnvInt "WEB_RATE_LIMIT_PER_MIN" 60;
  WebBurstPer10Sec := getEnvInt "WEB_BURST_PER_10_SEC" 20;
  SMTPRateLimitPerHour := getEnvInt "SMTP_RATE_LIMIT_PER_HOUR" 200;
  SMTPBurstPerMin := getEnvInt "SMTP_BURST_PER_MIN" 40;
  PayloadRateLimitPerMin := payloadRateLimit;
  EnableRBLChecks := getEnvBool "ENABLE_RBL_CHECKS" false;
  RBLProviders := splitCSV (getEnv "RBL_PROVIDERS" "zen.spamhaus.org,bl.spamcop.net,b.barracudacentral.org,psbl.surriel.com,dnsbl.dronebl.org,bl.blocklist.de");
  DNSFallbackResolvers := [];
  DNSFallbackTimeout := 0;
  EnableDomainAge := getEnvBool "ENABLE_DOMAIN_AGE" false;
  EnableDomainBlocklist := getEnvBool "ENABLE_DOMAIN_BLOCKLIST" false;
  DomainBlocklistProviders := splitCSV (getEnv "DOMAIN_BLOCKLIST_PROVIDERS" "dbl.spamhaus.org,multi.uribl.com");
  EnableBrokenLinks := getEnvBool "ENABLE_BROKEN_LINKS" false;
  EnableSpamAssassin := getEnvBool "ENABLE_SPAMASSASSIN" false;
  SpamAssassinHostPort := getEnv "SPAMASSASSIN_HOSTPORT" "spamd:783";
  SpamAssassinWarnRatio := fzero;
  EnableRspamd := getEnvBool "ENABLE_RSPAMD" false;
  RspamdURL := getEnv "RSPAMD_URL" "http://rspamd:11334/checkv2";
  RspamdPassword := getEnv "RSPAMD_PASSWORD" "";
  AlertWebhookURL := getEnv "ALERT_WEBHOOK_URL" "";
  TrustedProxyCIDRs := splitCSV (getEnv "TRUSTED_PROXY_CIDRS" "");
  PrivacyOperatorName := getEnv "PRIVACY_OPERATOR_NAME" "";
  PrivacyOperatorAddress := getEnv "PRIVACY_OPERATOR_ADDRESS" "";
  PrivacyOperatorEmail := getEnv "PRIVACY_OPERATOR_EMAIL" "";
  PrivacyHideTemplateNote := getEnvBool "PRIVACY_HIDE_TEMPLATE_NOTE" false;
  EnableInboxPlacement := getEnvBool "ENABLE_INBOX_PLACEMENT" false;
  SeedAccountsFile := getEnv "SEED_ACCOUNTS_FILE" "";
  IPTCheckInterval := getEnvDuration "IPT_CHECK_INTERVAL" (6 * hour);
  IPTAlertEmail := getEnv "IPT_ALERT_EMAIL" "";
  IPTAlertSMTPAddr := getEnv "IPT_ALERT_SMTP_ADDR" "";
  IPTAlertSMTPFrom := getEnv "IPT_ALERT_SMTP_FROM" "";
  IPTAlertSMTPUser := getEnv "IPT_ALERT_SMTP_USER" "";
  IPTAlertSMTPPass := getEnv "IPT_ALERT_SMTP_PASS" "";
  IPTAlertIncludeRaw := getEnvBool "IPT_ALERT_INCLUDE_RAW_ERRORS" true;
  IPTRateLimitPerHour := iptRateLimit;
  IPTTokenLength := iptTokenLength;
  IPTTestDuration := testDuration;
  IPTPollInterval := pollInterval;
  IPTEventsInterval := eventsInterval;
  IPTSearchMargin := searchMargin;
  IPTSpamFolders := splitFolderList (getEnv "IPT_SPAM_FOLDERS" DefaultIPTSpamFolders);
  UIDefaultTheme := ToLower (getEnv "UI_DEFAULT_THEME" "auto");
  CookieSecure := ToLower (getEnv "COOKIE_SECURE" "auto");
  LangCookieName := getEnv "LANG_COOKIE_NAME" "sr_lang";
  LangCookieDays := langCookieDays;
  MailboxCookieName := getEnv "MAILBOX_COOKIE_NAME" "sr_mailbox";
  ForceHTTPSExemptPaths := splitPathList (getEnv "FORCE_HTTPS_EXEMPT_PATHS" DefaultForceHTTPSExemptPaths)
|}.

Definition Load : outcome config_error Config :=
  let! langCookieDays := getEnvIntChecked "LANG_COOKIE_DAYS" 365 in
  let! payloadRateLimit := getEnvIntChecked "PAYLOAD_RATE_LIMIT_PER_MIN" DefaultPayloadRateLimitPerMin in
  let! iptRateLimit := getEnvIntChecked "IPT_RATE_LIMIT_PER_HOUR" DefaultIPTRateLimitPerHour in
  let! iptTokenLength := getEnvIntChecked "IPT_TOKEN_LENGTH" DefaultIPTTokenLength in
  let! testDuration := getEnvDurationChecked "IPT_TEST_DURATION" DefaultIPTTestDuration in
  let! pollInterval := getEnvDurationChecked "IPT_POLL_INTERVAL" DefaultIPTPollInterval in
  let! eventsInterval := getEnvDurationChecked "IPT_EVENTS_INTERVAL" DefaultIPTEventsInterval in
  let! searchMargin := getEnvDurationChecked "IPT_SEARCH_MARGIN" DefaultIPTSearchMargin in
  let cfg := read_config langCookieDays payloadRateLimit iptRateLimit iptTokenLength
               testDuration pollInterval eventsInterval searchMargin in
  let! _ := require (negb (EnableTLS cfg && (isEmpty (TLSCertFile cfg) || isEmpty (TLSKeyFile cfg)))) TLSFilesMissing in
  let! _ := checkHTTPSExemptPaths (ForceHTTPSExemptPaths cfg) in
  let! _ := require (negb (MaxMessageBytes cfg <? 512 * 1024)) (BelowMinimum "MAX_MESSAGE_BYTES" (MaxMessageBytes cfg)) in
  let! _ := check_at_least_one
    [("MAX_ACTIVE_MAILBOXES_PER_IP", MaxActivePerIP cfg); ("MAX_ACTIVE_MAILBOXES_GLOBAL", MaxActiveGlobal cfg);
     ("WEB_RATE_LIMIT_PER_MIN", WebRateLimitPerMin cfg); ("WEB_BURST_PER_10_SEC", WebBurstPer10Sec cfg);
     ("SMTP_RATE_LIMIT_PER_HOUR", SMTPRateLimitPerHour cfg); ("SMTP_BURST_PER_MIN", SMTPBurstPerMin cfg)] in
  let! _ := checkRequestLimits cfg in
  let! _ := require (negb ((IPTTokenLength cfg <? MinIPTTokenLength) || (MaxIPTTokenLength <? IPTTokenLength cfg)))
              (OutOfRange "IPT_TOKEN_LENGTH") in
  let! _ := checkIPTTiming cfg in
  let! _ := checkIPTSpamFolders (IPTSpamFolders cfg) in
  let! _ := check_positive [("MAILBOX_TTL", MailboxTTL cfg); ("DATA_RETENTION_TTL", RetentionTTL cfg);
                            ("CLEANUP_INTERVAL", CleanupInterval cfg)] in
  let! ratio := loadSpamAssassinWarnRatio in
  let! dns := loadDNSFallback in
  let cfg := with_loaded cfg (fst dns) (snd dns) ratio in
  let! _ := require (existsb (String.eqb (UIDefaultTheme cfg)) UIThemes) (BadTheme (UIDefaultTheme cfg)) in
  let! _ := checkCookieSettings cfg in
  Ok cfg.

End Env.

(** ** Accepted configurations *)

(** What the rest of the program may rely on. *)
Record sane (cfg : Config) : Prop := {
  sane_tls : EnableTLS cfg = true -> TLSCertFile cfg <> "" /\ TLSKeyFile cfg <> "";
  sane_paths : Forall (fun p => exemptPathPattern p = true /\ hasDotSegment p = false /\ p <> "/") (ForceHTTPSExemptPaths cfg);
  sane_bytes : 512 * 1024 <= MaxMessageBytes cfg;
  sane_limits : 0 < MaxActivePerIP cfg /\ 0 < MaxActiveGlobal cfg /\ 0 < WebRateLimitPerMin cfg
    /\ 0 < WebBurstPer10Sec cfg /\ 0 < SMTPRateLimitPerHour cfg /\ 0 < SMTPBurstPerMin cfg;
  sane_payload : 1 <= PayloadRateLimitPerMin cfg <= 600;
  sane_ipt_rate : 1 <= IPTRateLimitPerHour cfg <= 60;
  sane_token : 16 <= IPTTokenLength cfg <= 64;
  sane_test : minute <= IPTTestDuration cfg <= hour /\ Z.rem (IPTTestDuration cfg) minute = 0;
  sane_poll : 5 * second <= IPTPollInterval cfg <= 5 * minute /\ IPTPollInterval cfg < IPTTestDuration cfg;
  sane_events : second <= IPTEventsInterval cfg <= minute;
  sane_margin : 0 <= IPTSearchMargin cfg <= hour;
  sane_folders : (List.length (IPTSpamFolders cfg) <= 20)%nat
    /\ Forall (fun f => (List.length (runes f) <= 100)%nat /\ existsb IsControl (runes f) = false) (IPTSpamFolders cfg);
  sane_ttl : 0 < MailboxTTL cfg /\ 0 < RetentionTTL cfg /\ 0 < CleanupInterval cfg;
  sane_dns : (List.length (DNSFallbackResolvers cfg) <= MaxResolvers)%nat /\ Forall good_addr (DNSFallbackResolvers cfg)
    /\ MinTimeout <= DNSFallbackTimeout cfg <= MaxTimeout;
  sane_theme : UIDefaultTheme cfg ∈ UIThemes;
  sane_cookies : CookieSecure cfg ∈ CookieSecureModes /\ cookieNamePattern (LangCookieName cfg) = true
    /\ cookieNamePattern (MailboxCookieName cfg) = true /\ LangCookieName cfg <> MailboxCookieName cfg
    /\ 1 <= LangCookieDays cfg <= 400
}.

Lemma require_ok b e u : require b e = Ok u -> b = true.
Proof. by destruct b. Qed.

Lemma range_ok (v lo hi : Z) : negb ((v <? lo) || (hi <? v)) = true -> lo <= v <= hi.
Proof. rewrite negb_true_iff, orb_false_iff, !Z.ltb_ge. lia. Qed.

Lemma range_ok' (v lo hi : Z) : (v <? lo) || (hi <? v) = false -> lo <= v <= hi.
Proof. rewrite orb_false_iff, !Z.ltb_ge. lia. Qed.

Lemma checkHTTPSExemptPaths_ok paths u :
  checkHTTPSExemptPaths paths = Ok u ->
  Forall (fun p => exemptPathPattern p = true /\ hasDotSegment p = false /\ p <> "/") paths.
Proof.
  induction paths as [|p paths IH]; simpl; [done|]. case_if; [done|]. case_if; [done|].
  intros H. constructor; [|auto]. apply orb_false_iff in Hif0 as [? ?]. by bool_to_prop.
Qed.

Lemma check_folders_ok folders u :
  check_folders folders = Ok u ->
  Forall (fun f => (List.length (runes f) <= 100)%nat /\ existsb IsControl (runes f) = false) folders.
Proof.
  induction folders as [|f folders IH]; simpl; [done|]. case_if; [done|]. intros H.
  apply orb_false_iff in Hif as [Hl ?]. apply Nat.ltb_ge in Hl. constructor; auto.
Qed.

Lemma existsb_eqb_in s l : existsb (String.eqb s) l = true -> s ∈ l.
Proof. intros (x & Hx & ->%String.eqb_eq)%existsb_exists. by apply list_elem_of_In. Qed.

(** Peel one [let!] off a successful computation. *)
Ltac step H x Hx := apply obind_ok in H as (x & Hx & H).

Lemma checkIPTTiming_ok cfg u :
  checkIPTTiming cfg = Ok u ->
  (minute <= IPTTestDuration cfg <= hour /\ Z.rem (IPTTestDuration cfg) minute = 0)
  /\ (5 * second <= IPTPollInterval cfg <= 5 * minute /\ IPTPollInterval cfg < IPTTestDuration cfg)
  /\ second <= IPTEventsInterval cfg <= minute /\ 0 <= IPTSearchMargin cfg <= hour.
Proof.
  unfold checkIPTTiming. intros H. step H u1 H1. step H u2 H2.
  apply require_ok in H, H2. apply Z.eqb_eq in H2. bool_to_prop.
  cbn [check_ranges] in H1. do 4 (case_if_in H1; [done|]).
  repeat match goal with H : (_ <? _) || _ = false |- _ => apply range_ok' in H end.
  unfold MinIPTTestDuration, MaxIPTTestDuration, MinIPTPollInterval, MaxIPTPollInterval,
    MinIPTEventsInterval, MaxIPTEventsInterval, MaxIPTSearchMargin in *. lia.
Qed.

(** The fields the loaders set do not disturb the others. *)
Lemma Load_sane Getenv ParseFloat cfg : Load Getenv ParseFloat = Ok cfg -> sane cfg.
Proof.
  unfold Load. intros H.
  step H days H1. step H pay H2. step H rate H3. step H tok H4. step H td H5. step H pi H6. step H ei H7. step H sm H8.
  set (c := read_config _ _ _ _ _ _ _ _ _) in H. clearbody c.
  step H u1 Htls. step H u2 Hpaths. step H u3 Hbytes. step H u4 Hone. step H u5 Hreq. step H u6 Htok.
  step H u7 Htime. step H u8 Hfold. step H u9 Hpos. step H ratio Hratio. step H dns Hdns. step H u10 Htheme.
  step H u11 Hcook. injection H as <-.
  apply require_ok in Htls, Hbytes, Htok, Htheme. apply checkHTTPSExemptPaths_ok in Hpaths.
  apply checkIPTTiming_ok in Htime as (Ht1 & Ht2 & Ht3 & Ht4). apply range_ok in Htok. bool_to_prop.
  unfold checkRequestLimits in Hreq. step Hreq u12 Hp. apply require_ok in Hreq, Hp. apply range_ok in Hreq, Hp.
  unfold checkIPTSpamFolders in Hfold. case_if_in Hfold; [done|]. apply check_folders_ok in Hfold. bool_to_prop.
  unfold checkCookieSettings in Hcook. step Hcook u13 Hc1. step Hcook u14 Hc2. step Hcook u15 Hc3. step Hcook u16 Hc4.
  apply require_ok in Hcook, Hc1, Hc2, Hc3, Hc4. apply range_ok in Hcook. apply existsb_eqb_in in Hc1, Htheme. bool_to_prop.
  cbn [check_at_least_one] in Hone. do 6 (case_if_in Hone; [done|]).
  cbn [check_positive] in Hpos. do 3 (case_if_in Hpos; [done|]). bool_to_prop.
  unfold loadDNSFallback in Hdns. step Hdns rs Hrs. step Hdns timeout Hto. case_if_in Hdns; [done|].
  injection Hdns as <-. apply range_ok' in Hif9.
  destruct (ParseResolvers _) eqn:Hres; [injection Hrs as ->|done]. apply ParseResolvers_ok in Hres as [? ?].
  constructor; simpl; try done; try lia.
  intros He. rewrite He in Htls. simpl in Htls. apply orb_false_iff in Htls as [?%isEmpty_false ?%isEmpty_false]. done.
Qed.

(** C33: whatever the environment holds, a configuration that Load accepts is within
    all its bounds: message size, per-IP and global limits, token length,
    placement-test timing (with at least two lookups per test), folder names,
    positive lifetimes, at most five IP resolvers, known theme and cookie mode,
    two different valid cookie names, and exempt paths that are absolute and
    never cover the whole site. *)
Theorem Load_sound Getenv ParseFloat cfg : Load Getenv ParseFloat = Ok cfg -> sane cfg.
Proof. apply Load_sane. Qed.

Definition empty_env : string -> string := fun _ => "".
Definition no_float : string -> option float64 := fun _ => None.

Lemma Load_sound_witness : exists cfg, Load empty_env no_float = Ok cfg /\ sane cfg.
Proof.
  destruct (Load empty_env no_float) as [cfg|] eqn:E; [|vm_compute in E; discriminate E].
  exists cfg. split; [reflexivity|]. apply (Load_sound empty_env no_float cfg E).
Defined.

(** The trust of the HTTPS redirect in its exempt paths: no entry is a prefix
    that reaches other paths through dots. *)
Lemma exempt_absolute p : exemptPathPattern p = true -> HasPrefix p "/" = true.
Proof.
  unfold exemptPathPattern. destruct p as [|a p]; [done|]. simpl.
  destruct (Ascii.eqb a "/"); [by rewrite HasPrefix_nil|]. by destruct (Split p "/").
Qed.

(** ParseFloat accepts "NaN", which no comparison refuses. *)
Example nan_ratio_accepted :
  loadSpamAssassinWarnRatio (fun k => if String.eqb k "SPAMASSASSIN_WARN_RATIO" then "NaN" else "")
    (fun s => if String.eqb s "NaN" then Some SpecFloat.S754_nan else None) = Ok SpecFloat.S754_nan.
Proof. vm_compute. reflexivity. Qed.

(** A misspelt number is silently replaced by the default where the reader does
    not check, and refused where it does. *)
Example unchecked_integer_falls_back :
  getEnvInt (fun _ => "10 000") "WEB_RATE_LIMIT_PER_MIN" 60 = 60.
Proof. vm_compute. reflexivity. Qed.
