(* ===== verification/EnvMigrate.v ===== *)
(** * Migration of the settings file (internal/envmigrate/migrate.go)

    At every start the settings file is compared with the list of known
    variables, and the missing ones are appended with a default value. The file
    is a byte string; reading it can fail, and so can opening it for writing or
    writing all of it. The date of the run is an argument. *)

From S2P Require Import Prelude F64 GoStrings GoTime DnsFallback Config.

Local Open Scope string_scope.
Local Open Scope list_scope.
Local Open Scope Z_scope.

Record VarDef := mkVarDef { vd_Key : string; vd_Default : string; vd_Comment : string; vd_Group : string }.

Definition All : list VarDef := [
  mkVarDef "APP_NAME" "Sender-Report" "Application display name" "App";
  mkVarDef "HTTP_LISTEN_ADDR" ":8080" "Internal HTTP listen address inside the container" "Listen addresses (do NOT change when using Docker)";
  mkVarDef "SMTP_LISTEN_ADDR" ":2525" "Internal SMTP listen address inside the container" "";
  mkVarDef "PUBLIC_BASE_URL" "" "Override auto-detected public base URL, e.g. https://sender-report.example.com" "Public URLs";
  mkVarDef "SMTP_DOMAIN" "" "SMTP domain for generated addresses; defaults to request host" "";
  mkVarDef "ENABLE_TLS" "false" "Enable built-in TLS for the web server" "TLS";
  mkVarDef "TLS_CERT_FILE" "" "Path to TLS certificate (required when ENABLE_TLS=true)" "";
  mkVarDef "TLS_KEY_FILE" "" "Path to TLS private key (required when ENABLE_TLS=true)" "";
  mkVarDef "FORCE_HTTPS" "false" "Redirect plain HTTP to HTTPS" "";
  mkVarDef "FORCE_HTTPS_EXEMPT_PATHS" DefaultForceHTTPSExemptPaths ("Paths that answer over plain HTTP although FORCE_HTTPS is set; an entry ending in / covers the paths below it, " +:+ NoExemptPaths +:+ " redirects every path") "";
  mkVarDef "SENDER_REPORT_IMAGE" "ghcr.io/brightcolor/sender-report:latest" "Container image used by docker-compose" "Docker / Compose";
  mkVarDef "HTTP_PORT" "9090" "Host port mapped to the web UI (container always uses :8080)" "";
  mkVarDef "SMTP_PORT" "25" "Host port for inbound SMTP (use 25 in production)" "";
  mkVarDef "HEALTHCHECK_URL" "http://127.0.0.1:9090/healthz" "Health-check URL used by the compose healthcheck" "";
  mkVarDef "DATA_DIR" "/data" "Base directory for persistent data" "Storage";
  mkVarDef "DB_PATH" "/data/sender-report.db" "Path to the SQLite database file" "";
  mkVarDef "MAILBOX_TTL" "24h" "How long a mailbox accepts incoming mail" "Lifetime & cleanup";
  mkVarDef "DATA_RETENTION_TTL" "168h" "How long emails and reports stay retrievable (7 days)" "";
  mkVarDef "CLEANUP_INTERVAL" "30m" "How often the cleanup job runs" "";
  mkVarDef "MAX_MESSAGE_BYTES" "2097152" "Maximum email size in bytes (2 MiB)" "Limits";
  mkVarDef "MAX_ACTIVE_MAILBOXES_PER_IP" "20" "Max active mailboxes per IP address" "";
  mkVarDef "MAX_ACTIVE_MAILBOXES_GLOBAL" "2000" "Max active mailboxes globally" "";
  mkVarDef "WEB_RATE_LIMIT_PER_MIN" "60" "Web requests allowed per minute per IP" "";
  mkVarDef "WEB_BURST_PER_10_SEC" "20" "Web request burst per 10 s per IP" "";
  mkVarDef "SMTP_RATE_LIMIT_PER_HOUR" "200" "SMTP connections allowed per hour per IP" "";
  mkVarDef "SMTP_BURST_PER_MIN" "40" "SMTP burst per minute per IP" "";
  mkVarDef "PAYLOAD_RATE_LIMIT_PER_MIN" (Itoa DefaultPayloadRateLimitPerMin) ("Encrypted reports one IP may fetch per minute; rechecks and simulator runs count separately against the same number (1 to " +:+ Itoa MaxPayloadRateLimitPerMin +:+ ")") "";
  mkVarDef "TRUSTED_PROXY_CIDRS" "" "Comma-separated CIDRs whose X-Forwarded-For header is trusted" "";
  mkVarDef "ENABLE_RBL_CHECKS" "false" "Enable DNSBL/RBL IP reputation checks" "Optional checks";
  mkVarDef "RBL_PROVIDERS" "zen.spamhaus.org,bl.spamcop.net,b.barracudacentral.org,psbl.surriel.com,dnsbl.dronebl.org,bl.blocklist.de" "Comma-separated list of RBL zones" "";
  mkVarDef "DNS_FALLBACK_RESOLVERS" "1.1.1.1,8.8.8.8,9.9.9.9" "External resolvers asked for a TXT record (DKIM key, SPF, DMARC) the local resolver cannot find; 'none' turns it off. They see the queried domain names" "";
  mkVarDef "DNS_FALLBACK_TIMEOUT" "2s" "How long each external resolver gets to answer (500ms to 10s)" "";
  mkVarDef "ENABLE_DOMAIN_AGE" "false" "Opt-in: domain registration age via RDAP (third-party rdap.org)" "";
  mkVarDef "ENABLE_DOMAIN_BLOCKLIST" "false" "Opt-in: sender/link domains against domain/URI blocklists (third-party)" "";
  mkVarDef "DOMAIN_BLOCKLIST_PROVIDERS" "dbl.spamhaus.org,multi.uribl.com" "Comma-separated domain/URI blocklist zones" "";
  mkVarDef "ENABLE_RSPAMD" "true" "Enable Rspamd integration (default: true — requires rspamd service)" "";
  mkVarDef "RSPAMD_URL" "http://rspamd:11334/checkv2" "Rspamd checkv2 endpoint" "";
  mkVarDef "RSPAMD_PASSWORD" "" "Rspamd controller password (leave empty when using secure_ip)" "";
  mkVarDef "ENABLE_SPAMASSASSIN" "false" "Enable SpamAssassin integration (optional, disabled by default)" "";
  mkVarDef "SPAMASSASSIN_WARN_RATIO" "0.9" "Share of the spam limit from which the SpamAssassin finding warns (0.9 = from 4.5 of 5.0; 0.1 to 1.0)" "";
  mkVarDef "SPAMASSASSIN_HOSTPORT" "spamd:783" "SpamAssassin spamd address (only used when ENABLE_SPAMASSASSIN=true)" "";
  mkVarDef "ALERT_WEBHOOK_URL" "" "Webhook URL for error/warning notifications (JSON POST)" "Alerting";
  mkVarDef "PRIVACY_OPERATOR_NAME" "" "Legal name of the operator shown in the Datenschutzerklärung" "Privacy page";
  mkVarDef "PRIVACY_OPERATOR_ADDRESS" "" "Postal address of the operator" "";
  mkVarDef "PRIVACY_OPERATOR_EMAIL" "" "Contact email of the operator" "";
  mkVarDef "PRIVACY_HIDE_TEMPLATE_NOTE" "false" "Set to true to hide the 'this is a template' notice once operator details are filled in" "";
  mkVarDef "UI_DEFAULT_THEME" "auto" "Display option for visitors who have not picked one: auto (follows the system), light, dark or werkbank" "Web interface";
  mkVarDef "COOKIE_SECURE" "auto" "Secure attribute of cookies: auto (HTTPS requests and an https:// PUBLIC_BASE_URL), always or never" "Cookies";
  mkVarDef "LANG_COOKIE_NAME" "sr_lang" "Cookie with the language picked in the switcher" "";
  mkVarDef "LANG_COOKIE_DAYS" "365" "Days the browser keeps the language choice (1 to 400)" "";
  mkVarDef "MAILBOX_COOKIE_NAME" "sr_mailbox" "Cookie with the mailbox created without JavaScript" "";
  mkVarDef "ENV_FILE" "/config/.env" "Path inside the container to the mounted .env file; enables automatic migration on startup" "Env migration";
  mkVarDef "IPT_RATE_LIMIT_PER_HOUR" (Itoa DefaultIPTRateLimitPerHour) ("Placement tests one IP may start per hour (1 to " +:+ Itoa MaxIPTRateLimitPerHour +:+ ")") "Inbox placement testing";
  mkVarDef "IPT_TOKEN_LENGTH" (Itoa DefaultIPTTokenLength) ("Hexadecimal characters in the subject token of a new placement test (" +:+ Itoa MinIPTTokenLength +:+ " to " +:+ Itoa MaxIPTTokenLength +:+ "); a test with a shorter token answers to it until it expires") "";
  mkVarDef "IPT_TEST_DURATION" (FormatDuration DefaultIPTTestDuration) ("How long a placement test waits for its message, in whole minutes (" +:+ FormatDuration MinIPTTestDuration +:+ " to " +:+ FormatDuration MaxIPTTestDuration +:+ ")") "";
  mkVarDef "IPT_POLL_INTERVAL" (FormatDuration DefaultIPTPollInterval) ("Pause between two IMAP lookups in one seed account (" +:+ FormatDuration MinIPTPollInterval +:+ " to " +:+ FormatDuration MaxIPTPollInterval +:+ "), shorter than IPT_TEST_DURATION") "";
  mkVarDef "IPT_EVENTS_INTERVAL" (FormatDuration DefaultIPTEventsInterval) ("How often the open placement dialog receives the state of its test (" +:+ FormatDuration MinIPTEventsInterval +:+ " to " +:+ FormatDuration MaxIPTEventsInterval +:+ ")") "";
  mkVarDef "IPT_SEARCH_MARGIN" (FormatDuration DefaultIPTSearchMargin) ("How far before the start of a test the IMAP search reaches back (0s to " +:+ FormatDuration MaxIPTSearchMargin +:+ ")") "";
  mkVarDef "IPT_SPAM_FOLDERS" DefaultIPTSpamFolders ("Folders a placement test searches after INBOX, in this order (at most " +:+ Itoa (Z.of_nat MaxIPTSpamFolders) +:+ "); " +:+ NoSpamFolders +:+ " searches INBOX alone") ""
].

(** internal/version/version.go. *)
Definition Version : string := "v1.45.3".

(** ** Files *)

(** What the file system has to say about a path. *)
Inductive env_file :=
| NoFile
| Unreadable
| Content (text : string).

(** How writing goes: refused, cut off after some bytes, or complete. The file
    is truncated before the first byte is written. *)
Inductive write_outcome :=
| WriteRefused
| WriteCut (bytes : nat)
| WriteDone.

Inductive migrate_error :=
| ReadError
| OpenError
| WriteError.

(** The longest line [bufio.Scanner] accepts, its end not counted. *)
Definition maxLine : nat := Z.to_nat 65535.

Definition scan_lines (text : string) : option (list string) := scan_limit maxLine text.

(** [fmt.Fprintln] of every line. *)
Definition print_lines (lines : list string) : string :=
  foldr (fun l rest => l +:+ lf +:+ rest) "" lines.

(** ** parseEnvFile *)

(** The key a line defines. *)
Definition line_key (line : string) : option string :=
  let trimmed := TrimSpace line in
  if isEmpty trimmed || HasPrefix trimmed "#" then None
  else
    let '(key, _, _) := Cut (TrimPrefix trimmed "export ") "=" in
    let key := TrimSpace key in
    if isEmpty key then None else Some key.

Definition keys_of (lines : list string) : list string := omap line_key lines.

Definition parseEnvFile (f : env_file) : outcome bool (list string * list string) :=
  match f with
  | NoFile => Err true
  | Unreadable => Err false
  | Content text =>
      match scan_lines text with
      | None => Err false
      | Some lines => Ok (keys_of lines, lines)
      end
  end.

(** ** MigrateFile *)

Definition defined (keys : list string) (v : VarDef) : bool := existsb (String.eqb (vd_Key v)) keys.

(** The lines appended for one variable, given the group printed last. *)
Definition var_lines (currentGroup : string) (v : VarDef) : string * list string :=
  let newGroup := negb (isEmpty (vd_Group v)) && negb (String.eqb (vd_Group v) currentGroup) in
  let currentGroup := if newGroup then vd_Group v else currentGroup in
  (currentGroup,
   (if newGroup then [""; "# ── " +:+ currentGroup +:+ " ──"] else [])
   ++ (if isEmpty (vd_Comment v) then [] else ["# " +:+ vd_Comment v])
   ++ [vd_Key v +:+ "=" +:+ vd_Default v]).

Fixpoint new_lines (currentGroup : string) (existing : list string) (vars : list VarDef) : list string :=
  match vars with
  | [] => []
  | v :: rest =>
      if defined existing v then new_lines currentGroup existing rest
      else let '(currentGroup, lines) := var_lines currentGroup v in
           lines ++ new_lines currentGroup existing rest
  end.

Definition added_keys (existing : list string) (vars : list VarDef) : list string :=
  vd_Key <$> List.filter (fun v => negb (defined existing v)) vars.

Definition pad (width : nat) (z : Z) : string :=
  let s := Itoa z in String.concat "" (repeat "0" (width - String.length s)) +:+ s.

(** [Format("2006-01-02")] of a date. *)
Definition format_date (today : Z * Z * Z) : string :=
  let '(y, m, d) := today in pad 4 y +:+ "-" +:+ pad 2 m +:+ "-" +:+ pad 2 d.

Definition rule_line : string :=
  "# ══════════════════════════════════════════════════════════════════════════════".

Definition header_lines (today : Z * Z * Z) : list string :=
  [""; rule_line;
   "# Auto-added by Sender-Report " +:+ Version +:+ " on " +:+ format_date today;
   "# New variables were found that are not yet in this file.";
   "# Review the values below and restart the container when done.";
   rule_line].

Definition write_file (w : write_outcome) (before : env_file) (text : string) : outcome migrate_error unit * env_file :=
  match w with
  | WriteRefused => (Err OpenError, before)
  | WriteCut n => if (String.length text <=? n)%nat then (Ok (), Content text)
                  else (Err WriteError, Content (stake n text))
  | WriteDone => (Ok (), Content text)
  end.

(** The keys that were added, and the file afterwards. *)
Definition MigrateFile (path : string) (today : Z * Z * Z) (w : write_outcome) (f : env_file)
    : outcome migrate_error (list string) * env_file :=
  if isEmpty (TrimSpace path) then (Ok [], f)
  else match parseEnvFile f with
  | Err true => (Ok [], f)
  | Err false => (Err ReadError, f)
  | Ok (existing, raw) =>
      match added_keys existing All with
      | [] => (Ok [], f)
      | added =>
          let all := raw ++ header_lines today ++ new_lines "" existing All ++ [""] in
          let '(r, f') := write_file w f (print_lines all) in
          (let! _ := r in Ok added, f')
      end
  end.

(** ** Lines *)

Definition no_lf (s : string) : bool := lacks LF s.
Definition short (s : string) : bool := (String.length s <=? maxLine)%nat.

Lemma Split_print lines : Forall (fun l => no_lf l = true) lines -> Split (print_lines lines) LF = lines ++ [""].
Proof.
  induction 1 as [|l lines Hl _ IH]; [done|]. change (Split (l +:+ String LF (print_lines lines)) LF = l :: (lines ++ [""])).
  by rewrite Split_app_sep, IH.
Qed.

(** Printing lines and cutting the text again gives the lines. *)
Lemma raw_lines_print lines : Forall (fun l => no_lf l = true) lines -> raw_lines (print_lines lines) = lines.
Proof.
  intros H. unfold raw_lines. rewrite Split_print by done. rewrite last_snoc. apply removelast_last.
Qed.

Lemma scan_print lines :
  Forall (fun l => no_lf l = true) lines -> Forall (fun l => short l = true) lines ->
  scan_lines (print_lines lines) = Some (dropCR <$> lines).
Proof.
  intros H1 H2. unfold scan_lines, scan_limit. rewrite raw_lines_print by done.
  destruct (existsb _ lines) eqn:E; [|done]. apply existsb_exists in E as (l & Hl%list_elem_of_In & Hlt).
  rewrite Forall_forall in H2. specialize (H2 l Hl). unfold short in H2. bool_to_prop. lia.
Qed.

Lemma TrimSpace_dropCR s : TrimSpace (dropCR s) = TrimSpace s.
Proof. destruct (dropCR_cases s) as [->|(t & -> & ->)]; [done|]. by rewrite TrimSpace_snoc_blank. Qed.

Lemma line_key_dropCR s : line_key (dropCR s) = line_key s.
Proof. unfold line_key. by rewrite TrimSpace_dropCR. Qed.

Lemma raw_lines_sub text l : l ∈ raw_lines text -> l ∈ Split text LF.
Proof.
  unfold raw_lines. destruct (last (Split text LF)) as [[|]|] eqn:E; [|done..].
  apply last_Some in E as [l' ->]. rewrite removelast_last. set_solver.
Qed.

(** What the scanner delivers can be printed and scanned again. *)
Lemma scanned_lines text lines : scan_lines text = Some lines ->
  Forall (fun l => no_lf l = true) lines /\ Forall (fun l => short l = true) lines.
Proof.
  unfold scan_lines, scan_limit. case_if; [done|]. intros [= <-].
  assert (Hraw : forall l, l ∈ raw_lines text -> no_lf l = true /\ short l = true).
  { intros l Hl. split.
    - pose proof (Split_lacks_all text LF) as HF. rewrite Forall_forall in HF. by apply HF, raw_lines_sub.
    - destruct (short l) eqn:E; [done|]. assert (existsb (fun l => (maxLine <? String.length l)%nat) (raw_lines text) = true).
      { apply existsb_exists. exists l. split; [by apply list_elem_of_In|]. unfold short in E. bool_to_prop. by apply Nat.ltb_lt. }
      congruence. }
  split; apply Forall_forall; intros l (r & -> & Hr)%list_elem_of_fmap; destruct (Hraw r Hr) as [H1 H2];
    destruct (dropCR_cases r) as [->|(t & -> & ->)]; try done.
  - unfold no_lf, lacks in *. rewrite sforall_app in H1. by apply andb_true_iff in H1 as [? _].
  - unfold short in *. rewrite slength_app in H2. bool_to_prop. apply Nat.leb_le. lia.
Qed.

(** ** The appended lines *)

(** Neither line break nor carriage return, and short enough. *)
Definition plain_line (l : string) : bool :=
  sforall (fun a => negb (Ascii.eqb a LF) && negb (Ascii.eqb a CR)) l && short l.

Lemma plain_line_spec l : plain_line l = true -> no_lf l = true /\ short l = true /\ dropCR l = l.
Proof.
  unfold plain_line, no_lf, lacks. rewrite sforall_and. intros H. bool_to_prop. split_and!; [done..|].
  destruct (dropCR_cases l) as [?|(t & -> & _)]; [done|]. rewrite sforall_app in *. simpl in *. bool_to_prop. done.
Qed.

Lemma comment_key l : HasPrefix l "#" = true -> line_key l = None.
Proof.
  intros [t ->]%HasPrefix_spec. unfold line_key. simpl.
  destruct (TrimSpace_head "#" t ltac:(done)) as [u ->]. simpl. by rewrite HasPrefix_nil.
Qed.

(** A variable whose lines are what they are meant to be. *)
Definition good_var (v : VarDef) : bool :=
  bool_decide (line_key (vd_Key v +:+ "=" +:+ vd_Default v) = Some (vd_Key v))
  && plain_line (vd_Key v +:+ "=" +:+ vd_Default v)
  && plain_line ("# " +:+ vd_Comment v)
  && plain_line ("# ── " +:+ vd_Group v +:+ " ──").

Lemma All_good : Forall (fun v => good_var v = true) All.
Proof. apply Forall_forall. intros v Hv. apply list_elem_of_In in Hv. revert v Hv. apply forallb_forall. vm_compute. reflexivity. Qed.

Lemma All_keys : NoDup (vd_Key <$> All).
Proof. refine (bool_decide_eq_true_1 (NoDup (vd_Key <$> All)) _). vm_compute. reflexivity. Qed.

Lemma good_var_key v : good_var v = true -> line_key (vd_Key v +:+ "=" +:+ vd_Default v) = Some (vd_Key v).
Proof. unfold good_var. intros H. bool_to_prop. by eapply bool_decide_eq_true_1. Qed.

Definition group_after (g : string) (v : VarDef) : string := fst (var_lines g v).

(** The lines of one variable: comments, then the assignment. *)
Lemma var_lines_shape g v : good_var v = true ->
  exists comments, snd (var_lines g v) = comments ++ [vd_Key v +:+ "=" +:+ vd_Default v]
    /\ Forall (fun l => line_key l = None /\ plain_line l = true) comments.
Proof.
  intros H. unfold good_var in H. bool_to_prop. unfold var_lines. cbn [snd]. rewrite app_assoc. eexists.
  split; [reflexivity|]. apply Forall_app. split.
  - case_if; [|constructor]. repeat constructor; [by apply comment_key|done].
  - case_if; [constructor|]. repeat constructor; [by apply comment_key|done].
Qed.

Lemma keys_of_app l1 l2 : keys_of (l1 ++ l2) = keys_of l1 ++ keys_of l2.
Proof. apply omap_app. Qed.

Lemma keys_of_none l : Forall (fun x => line_key x = None) l -> keys_of l = [].
Proof. induction 1 as [|x l Hx _ IH]; [done|]. unfold keys_of in *. simpl. by rewrite Hx. Qed.

Lemma keys_of_single l k : line_key l = Some k -> keys_of [l] = [k].
Proof. intros H. unfold keys_of. simpl. by rewrite H. Qed.

Lemma new_lines_cons g ex v vars :
  new_lines g ex (v :: vars)
  = if defined ex v then new_lines g ex vars else snd (var_lines g v) ++ new_lines (group_after g v) ex vars.
Proof. done. Qed.

Lemma new_lines_plain g ex vars : Forall (fun v => good_var v = true) vars ->
  Forall (fun l => plain_line l = true) (new_lines g ex vars).
Proof.
  intros H. revert g. induction H as [|v vars Hv _ IH]; intros g; [constructor|]. rewrite new_lines_cons.
  case_if; [apply IH|]. destruct (var_lines_shape g v Hv) as (cs & -> & Hcs).
  unfold good_var in Hv. bool_to_prop. repeat (apply Forall_app; split); [..|apply IH]; [|by constructor].
  eapply Forall_impl; [exact Hcs|]. by intros ? [].
Qed.

Lemma keys_of_new g ex vars : Forall (fun v => good_var v = true) vars ->
  keys_of (new_lines g ex vars) = added_keys ex vars.
Proof.
  intros H. revert g. induction H as [|v vars Hv _ IH]; intros g; [done|]. rewrite new_lines_cons.
  unfold added_keys in *. cbn [List.filter]. case_if; [apply IH|]. cbn [negb]. rewrite fmap_cons.
  destruct (var_lines_shape g v Hv) as (cs & -> & Hcs). rewrite !keys_of_app, IH, keys_of_none.
  - by rewrite (keys_of_single _ _ (good_var_key v Hv)).
  - eapply Forall_impl; [exact Hcs|]. by intros ? [].
Qed.

(** ** The header *)

Lemma Itoa_plain z :
  sforall (fun a => negb (Ascii.eqb a LF) && negb (Ascii.eqb a CR)) (Itoa z) = true /\ (String.length (Itoa z) <= 21)%nat.
Proof.
  destruct (Itoa_chars z) as [H1 H2]. split; [|done]. eapply sforall_impl; [|exact H1].
  intros [[] [] [] [] [] [] [] []]; done.
Qed.

Lemma pad_plain w z : (w <= 4)%nat ->
  sforall (fun a => negb (Ascii.eqb a LF) && negb (Ascii.eqb a CR)) (pad w z) = true /\ (String.length (pad w z) <= 25)%nat.
Proof.
  intros Hw. destruct (Itoa_plain z) as [H1 H2]. unfold pad. rewrite sforall_app, slength_app, H1.
  assert (Hz : forall n, (n <= 4)%nat -> sforall (fun a => negb (Ascii.eqb a LF) && negb (Ascii.eqb a CR)) (String.concat "" (repeat "0" n)) = true
                       /\ (String.length (String.concat "" (repeat "0" n)) <= 4)%nat).
  { intros n Hn. do 5 (destruct n as [|n]; [split; [done|simpl; lia]|]). lia. }
  destruct (Hz (w - String.length (Itoa z))%nat ltac:(lia)) as [-> Hl]. split; [done|lia].
Qed.

Lemma header_plain today : Forall (fun l => line_key l = None /\ plain_line l = true) (header_lines today).
Proof.
  destruct today as [[y m] d]. unfold header_lines.
  repeat (apply Forall_cons; split); [..|apply Forall_nil; done]; (split; [try by apply comment_key|]); try done.
  unfold plain_line, short, format_date.
  destruct (pad_plain 4 y ltac:(lia)) as [Py Ly], (pad_plain 2 m ltac:(lia)) as [Pm Lm], (pad_plain 2 d ltac:(lia)) as [Pd Ld].
  rewrite !sforall_app, Py, Pm, Pd. rewrite !slength_app. apply andb_true_iff. split; [done|].
  apply Nat.leb_le. change maxLine with (Z.to_nat 65535). cbn [String.length Version]. lia.
Qed.

(** ** Correctness *)

(** The lines that set a key. *)
Definition assignments (k : string) (lines : list string) : list string :=
  List.filter (fun l => bool_decide (line_key l = Some k)) lines.

Lemma assignments_app k l1 l2 : assignments k (l1 ++ l2) = assignments k l1 ++ assignments k l2.
Proof. apply List.filter_app. Qed.

Lemma assignments_nil k lines : k ∉ keys_of lines -> assignments k lines = [].
Proof.
  intros Hk. unfold assignments. induction lines as [|l lines IH]; [done|]. cbn [List.filter]. case_bool_decide as E.
  - destruct Hk. unfold keys_of. simpl. rewrite E. left.
  - apply IH. intros H. apply Hk. unfold keys_of in *. simpl. destruct (line_key l); [by right|done].
Qed.

Lemma assignments_dropCR k lines :
  TrimSpace <$> assignments k (dropCR <$> lines) = TrimSpace <$> assignments k lines.
Proof.
  unfold assignments. induction lines as [|l lines IH]; [done|]. rewrite fmap_cons. cbn [List.filter].
  rewrite line_key_dropCR. case_if; [|done]. rewrite !fmap_cons, TrimSpace_dropCR. by f_equal.
Qed.

Lemma defined_spec ex v : defined ex v = true <-> vd_Key v ∈ ex.
Proof.
  unfold defined. rewrite existsb_exists. setoid_rewrite String.eqb_eq. split.
  - intros (k & Hk & ->). by apply list_elem_of_In.
  - intros H. exists (vd_Key v). split; [by apply list_elem_of_In|done].
Qed.

Lemma added_keys_spec ex vars k : k ∈ added_keys ex vars <-> (exists v, v ∈ vars /\ vd_Key v = k) /\ k ∉ ex.
Proof.
  unfold added_keys. rewrite list_elem_of_fmap. setoid_rewrite list_elem_of_In. setoid_rewrite filter_In.
  setoid_rewrite <- list_elem_of_In. setoid_rewrite negb_true_iff. setoid_rewrite <- not_true_iff_false.
  setoid_rewrite defined_spec. naive_solver.
Qed.

Lemma assignments_new g ex vars v :
  Forall (fun v => good_var v = true) vars -> NoDup (vd_Key <$> vars) -> v ∈ vars -> vd_Key v ∉ ex ->
  assignments (vd_Key v) (new_lines g ex vars) = [vd_Key v +:+ "=" +:+ vd_Default v].
Proof.
  intros H. revert g. induction H as [|w vars Hw Hvars IH]; intros g Hnd Hv Hex; [by apply not_elem_of_nil in Hv|].
  rewrite fmap_cons in Hnd. apply NoDup_cons in Hnd as [Hnew Hnd]. rewrite new_lines_cons.
  apply elem_of_cons in Hv as [->|Hv].
  - assert (defined ex w = false) as -> by (apply not_true_iff_false; by rewrite defined_spec).
    destruct (var_lines_shape g w Hw) as (cs & -> & Hcs). rewrite !assignments_app, (assignments_nil _ cs).
    + rewrite (assignments_nil _ (new_lines _ _ _)).
      * unfold assignments. cbn [List.filter]. by rewrite (good_var_key w Hw), bool_decide_true.
      * rewrite keys_of_new by done. intros (u & Heq & Hu)%list_elem_of_fmap. apply Hnew, list_elem_of_fmap.
        exists u. split; [done|]. apply list_elem_of_In in Hu. apply filter_In in Hu as [Hu _]. by apply list_elem_of_In.
    + rewrite keys_of_none; [by apply not_elem_of_nil|]. eapply Forall_impl; [exact Hcs|]. by intros ? [].
  - case_if; [by apply IH|]. destruct (var_lines_shape g w Hw) as (cs & -> & Hcs).
    rewrite assignments_app, IH by done. rewrite assignments_nil; [done|].
    rewrite keys_of_app, keys_of_none, (keys_of_single _ _ (good_var_key w Hw)) by (eapply Forall_impl; [exact Hcs|]; by intros ? []).
    intros Heq%list_elem_of_singleton. apply Hnew. rewrite <- Heq. apply list_elem_of_fmap. eauto.
Qed.

Lemma plain_lines_spec ls : Forall (fun l => plain_line l = true) ls ->
  Forall (fun l => no_lf l = true) ls /\ Forall (fun l => short l = true) ls /\ dropCR <$> ls = ls.
Proof.
  induction 1 as [|l ls Hl _ (H1 & H2 & H3)]; [done|]. apply plain_line_spec in Hl as (? & ? & ?).
  split_and!; [by constructor..|]. rewrite fmap_cons. congruence.
Qed.

Definition appended (today : Z * Z * Z) (existing : list string) : list string :=
  header_lines today ++ new_lines "" existing All ++ [""].

Lemma appended_plain today ex : Forall (fun l => plain_line l = true) (appended today ex).
Proof.
  unfold appended. repeat (apply Forall_app; split); [|apply new_lines_plain, All_good|by repeat constructor].
  eapply Forall_impl; [apply header_plain|]. by intros ? [].
Qed.

Lemma keys_of_appended today ex : keys_of (appended today ex) = added_keys ex All.
Proof.
  unfold appended. rewrite !keys_of_app, keys_of_new, keys_of_none, app_nil_l; [by rewrite app_nil_r| |apply All_good].
  eapply Forall_impl; [apply header_plain|]. by intros ? [].
Qed.

Lemma assignments_appended today ex v : v ∈ All -> vd_Key v ∉ ex ->
  assignments (vd_Key v) (appended today ex) = [vd_Key v +:+ "=" +:+ vd_Default v].
Proof.
  intros Hv Hn. unfold appended.
  rewrite (assignments_app _ (header_lines today)), (assignments_app _ (new_lines _ _ _)).
  assert (assignments (vd_Key v) (header_lines today) = []) as ->.
  { apply assignments_nil. rewrite keys_of_none; [by apply not_elem_of_nil|].
    eapply Forall_impl; [apply header_plain|]. by intros ? []. }
  rewrite assignments_new; [done|apply All_good|apply All_keys|done|done].
Qed.

(** The file after a successful run, and the lines it has. *)
Lemma MigrateFile_writes path today text lines :
  TrimSpace path <> "" -> scan_lines text = Some lines ->
  exists text' lines',
    MigrateFile path today WriteDone (Content text) = (Ok (added_keys (keys_of lines) All), Content text')
    /\ scan_lines text' = Some lines'
    /\ (added_keys (keys_of lines) All = [] /\ text' = text /\ lines' = lines
        \/ lines' = (dropCR <$> lines) ++ appended today (keys_of lines)).
Proof.
  intros Hp%isEmpty_false Hs. unfold MigrateFile. rewrite Hp. cbn [parseEnvFile]. rewrite Hs. cbn [obind].
  destruct (added_keys (keys_of lines) All) as [|a0 rest] eqn:E; [exists text, lines; split_and!; [done..|by left]|].
  destruct (scanned_lines text lines Hs) as [Hlf Hsh].
  destruct (plain_lines_spec _ (appended_plain today (keys_of lines))) as (Alf & Ash & Acr).
  do 2 eexists. split; [reflexivity|]. split; [|by right].
  change (scan_lines (print_lines (lines ++ appended today (keys_of lines)))
          = Some ((dropCR <$> lines) ++ appended today (keys_of lines))).
  rewrite scan_print by (apply Forall_app; split; done). by rewrite fmap_app, Acr.
Qed.

Lemma keys_of_dropCR lines : keys_of (dropCR <$> lines) = keys_of lines.
Proof.
  induction lines as [|l lines IH]; [done|]. rewrite fmap_cons.
  change (keys_of ([dropCR l] ++ (dropCR <$> lines)) = keys_of ([l] ++ lines)). rewrite !keys_of_app, IH. f_equal.
  unfold keys_of. simpl. by rewrite line_key_dropCR.
Qed.

Lemma added_none ex : (forall v, v ∈ All -> vd_Key v ∈ ex) -> added_keys ex All = [].
Proof.
  intros H. destruct (added_keys ex All) as [|k l] eqn:E; [done|].
  assert (Hk : k ∈ added_keys ex All) by (rewrite E; left). apply added_keys_spec in Hk as [(v & Hv & <-) Hn].
  by destruct Hn; apply H.
Qed.



(** ** The defaults written and the defaults in use *)

(** The value of a variable in a file that holds nothing but the defaults. *)
Definition default_of (k : string) : string :=
  match List.find (fun v => String.eqb (vd_Key v) k) All with Some v => vd_Default v | None => "" end.

(** The defaults a migration writes are the defaults the configuration
    uses anyway, with two exceptions (APP_NAME and ENABLE_RSPAMD): a file
    completed by the migration, those two left out, loads, and to the same
    configuration as no file at all. *)
Theorem migrated_defaults_agree ParseFloat :
  ParseFloat "0.9" = Some (lit 9 10) ->
  Load (fun k => if String.eqb k "APP_NAME" || String.eqb k "ENABLE_RSPAMD" then "" else default_of k) ParseFloat
  = Load (fun _ => "") ParseFloat
  /\ is_ok (Load (fun _ => "") ParseFloat) = true.
Proof.
  intros Hf. assert (Hr : loadSpamAssassinWarnRatio (fun k => if String.eqb k "APP_NAME" || String.eqb k "ENABLE_RSPAMD" then "" else default_of k) ParseFloat
                  = loadSpamAssassinWarnRatio (fun _ => "") ParseFloat).
  { unfold loadSpamAssassinWarnRatio.
    change (TrimSpace (if String.eqb "SPAMASSASSIN_WARN_RATIO" "APP_NAME" || String.eqb "SPAMASSASSIN_WARN_RATIO" "ENABLE_RSPAMD" then "" else default_of "SPAMASSASSIN_WARN_RATIO")) with "0.9".
    change (ReplaceAll "0.9" "," ".") with "0.9". cbn [isEmpty]. rewrite Hf. reflexivity. }
  unfold Load. rewrite Hr. split; vm_compute; reflexivity.
Qed.

Lemma migrated_defaults_agree_witness :
  let ParseFloat s := if String.eqb s "0.9" then Some (lit 9 10) else None in
  is_ok (Load (fun k => if String.eqb k "APP_NAME" || String.eqb k "ENABLE_RSPAMD" then "" else default_of k) ParseFloat) = true.
Proof.
  intros ParseFloat. destruct (migrated_defaults_agree ParseFloat ltac:(reflexivity)) as [-> H]. exact H.
Defined.

(** The two exceptions: a migration renames the application and turns Rspamd on. *)
Example migrated_app_name : getEnv (fun _ => "") "APP_NAME" "sender.report" = "sender.report"
  /\ getEnv default_of "APP_NAME" "sender.report" = "Sender-Report".
Proof. vm_compute. done. Qed.
Example migrated_rspamd : getEnvBool (fun _ => "") "ENABLE_RSPAMD" false = false
  /\ getEnvBool default_of "ENABLE_RSPAMD" false = true.
Proof. vm_compute. done. Qed.

(** A variable the configuration reads and the list does not know. *)
Example broken_links_unknown : defined ["ENABLE_BROKEN_LINKS"] (mkVarDef "ENABLE_BROKEN_LINKS" "" "" "") = true
  /\ existsb (fun v => String.eqb (vd_Key v) "ENABLE_BROKEN_LINKS") All = false.
Proof. vm_compute. done. Qed.

(** The heading of a group is missing when its first variable is already set. *)
Example group_heading_missing :
  new_lines "" ["DATA_DIR"] [mkVarDef "DATA_DIR" "/data" "" "Storage"; mkVarDef "DB_PATH" "/data/x.db" "" ""] = ["DB_PATH=/data/x.db"].
Proof. vm_compute. reflexivity. Qed.

(** A write that is cut off loses settings: the file was truncated first. *)
Example cut_off_write_loses_settings :
  snd (MigrateFile "/config/.env" (2025, 1, 7) (WriteCut 4) (Content ("SMTP_PORT=2525" +:+ lf))) = Content "SMTP".
Proof. vm_compute. reflexivity. Qed.
