(* ===== verification/Checks.v ===== *)
(** * DNS-based checks and rechecks (internal/analyzer/dns.go, analyzer.go)

    The lookups with their three-valued outcome, the checks built on them, the
    recheck of a single check after a DNS fix, and the part of
    [enrichCheckResult] that decides the score. Public-suffix list and IDNA
    conversion are parameters ([check_env]); the resolver is the [dns_env] of the
    SPF evaluator. The human-readable texts
    of a check stay empty here: names, explanations, recommendations and links are set by
    [enrich_texts] of Texts.v, the one-line summaries are not modelled. *)

From S2P Require Import Prelude F64 GoStrings GoTime Regex GoNet Model Score Spf.

Local Open Scope string_scope.
Local Open Scope list_scope.
Local Open Scope Z_scope.

Record check_env := mkCheckEnv {
  ce_dns : dns_env;
  ce_ToASCII : string -> option string;              (** idna.ToASCII of one label *)
  ce_EffectiveTLDPlusOne : string -> option string   (** publicsuffix *)
}.

(** ** Results *)

Definition verdict (id status : string) (delta : float64) : CheckResult :=
  mkCheck id "" status delta "" "" ∅ "" "" [] "" "" "" "" "" "" "".

Definition pass (id : string) (delta : float64) : CheckResult := verdict id "pass" delta.
Definition warn (id : string) (delta : float64) : CheckResult := verdict id "warn" delta.
Definition fail (id : string) (delta : float64) : CheckResult := verdict id "fail" delta.
Definition info (id : string) (delta : float64) : CheckResult := verdict id "info" delta.
Definition na (id : string) : CheckResult := verdict id "na" fzero.

(** Replaces the details, as the code does. *)
Definition withDetails (c : CheckResult) (details : gmap string string) : CheckResult :=
  mkCheck (c_ID c) (c_Name c) (c_Status c) (c_ScoreDelta c) (c_Summary c) (c_Suggestion c) details
    (c_Explanation c) (c_Recommendation c) (c_DocLinks c) (c_Severity c) (c_Category c) (c_Importance c)
    (c_NameEN c) (c_SummaryEN c) (c_ExplanationEN c) (c_RecommendationEN c).

Definition set_status (c : CheckResult) (status : string) : CheckResult :=
  mkCheck (c_ID c) (c_Name c) status (c_ScoreDelta c) (c_Summary c) (c_Suggestion c) (c_TechnicalDetails c)
    (c_Explanation c) (c_Recommendation c) (c_DocLinks c) (c_Severity c) (c_Category c) (c_Importance c)
    (c_NameEN c) (c_SummaryEN c) (c_ExplanationEN c) (c_RecommendationEN c).

Definition errorCheck (id msg : string) : CheckResult :=
  withDetails (verdict id "info" fzero) {["error" := msg]}.

Definition unresolvedDetailKey : string := "dns_lookup".

Definition unresolved (id : string) : CheckResult :=
  withDetails (info id fzero) {[unresolvedDetailKey := "nicht beantwortet (kein NXDOMAIN, sondern Fehler oder Zeitüberschreitung)"]}.

Definition has_detail (k : string) (c : CheckResult) : bool := bool_decide (is_Some (c_TechnicalDetails c !! k)).

Definition countUnresolved (checks : list CheckResult) : nat :=
  List.length (List.filter (has_detail unresolvedDetailKey) checks).

Fixpoint dedupe_aux (l : list string) (seen : list string) : list string :=
  match l with
  | [] => []
  | s :: rest => if isEmpty s || existsb (String.eqb s) seen then dedupe_aux rest seen
                 else s :: dedupe_aux rest (s :: seen)
  end.
Definition dedupeKeepOrder (l : list string) : list string := dedupe_aux l [].

(** ** Names *)

Definition isASCII (s : string) : bool := sforall (fun a => (code a <? 128)%N) s.

Definition normDomain (d : string) : string := TrimSuffix (ToLower (TrimSpace d)) ".".

Fixpoint firstNonEmpty (values : list string) : string :=
  match values with
  | [] => ""
  | v :: rest => if isEmpty (TrimSpace v) then firstNonEmpty rest else TrimSpace v
  end.

Fixpoint tag_in (tokens : list string) (key : string) : string :=
  match tokens with
  | [] => ""
  | t :: rest =>
      let t := TrimSpace t in
      if HasPrefix t (key +:+ "=") then TrimSpace (TrimPrefix t (key +:+ "=")) else tag_in rest key
  end.
Definition extractTagValue (v key : string) : string := tag_in (Split v ";") key.

(** [emptyFallback] of the analyzer: without trimming. *)
Definition orElse (v fallback : string) : string := if isEmpty v then fallback else v.

Definition joinOrNone (values : list string) : string :=
  match values with [] => "none" | _ => Join values lf end.

Section WithEnv.
Context (env : check_env).

Fixpoint ascii_labels (labels : list string) : option (list string) :=
  match labels with
  | [] => Some []
  | l :: rest =>
      match (if isASCII l then Some l else ce_ToASCII env l), ascii_labels rest with
      | Some l', Some rest' => Some (l' :: rest')
      | _, _ => None
      end
  end.

(** [None]: the name cannot be represented in DNS. *)
Definition asciiDomain (name : string) : option string :=
  let trimmed := TrimSuffix (TrimSpace name) "." in
  if isEmpty trimmed then None
  else if isASCII trimmed then Some trimmed
  else match ascii_labels (Split trimmed ".") with
       | Some labels => Some (Join labels ".")
       | None => None
       end.

Definition registrableDomain (domain : string) : string :=
  let d := normDomain domain in
  if isEmpty d then "" else default d (ce_EffectiveTLDPlusOne env d).

Definition relaxedAligned (authDomain fromDomain : string) : bool :=
  let a := registrableDomain authDomain in
  let f := registrableDomain fromDomain in
  negb (isEmpty a) && negb (isEmpty f) && String.eqb a f.

(** ** Lookups *)

(** The three states of an answer. *)
Definition three_valued {A} (ans : dns_answer A) : list A * dnsStatus :=
  match ans with
  | Err e => ([], classifyDNSError e)
  | Ok [] => ([], dnsAbsent)
  | Ok recs => (recs, dnsOK)
  end.

Definition lookup_with {A} (query : string -> dns_answer A) (name : string) : list A * dnsStatus :=
  match asciiDomain name with
  | None => ([], dnsAbsent)
  | Some ascii => three_valued (query ascii)
  end.

Definition lookupTXT (name : string) := lookup_with (env_txt (ce_dns env)) name.
Definition lookupMX (name : string) := lookup_with (env_mx (ce_dns env)) name.
Definition lookupIPAddr (name : string) := lookup_with (env_ipaddr (ce_dns env)) name.
Definition lookupHost (name : string) := lookup_with (env_host (ce_dns env)) name.
Definition lookupAddr (ip : string) := three_valued (env_addr (ce_dns env) ip).

Record dmarcLookupResult := mkDmarcLookup {
  dm_Records : list string;
  dm_Policy : string;
  dm_Domain : string;
  dm_ViaOrg : bool;
  dm_Status : dnsStatus
}.

Definition is_dmarc1 (r : string) : bool := HasPrefix (ToLower (TrimSpace r)) "v=dmarc1".
Definition is_spf1_record (r : string) : bool := HasPrefix (ToLower (TrimSpace r)) "v=spf1".

(** The records of one domain; the flag says whether there are any. *)
Definition dmarcRecordsAt (domain : string) : dmarcLookupResult * bool :=
  let '(recs, st) := lookupTXT ("_dmarc." +:+ domain) in
  match st with
  | dnsOK =>
      match TrimSpace <$> List.filter is_dmarc1 recs with
      | [] => (mkDmarcLookup [] "" domain false dnsAbsent, false)
      | records => (mkDmarcLookup records "" domain false dnsOK, true)
      end
  | _ => (mkDmarcLookup [] "" domain false st, false)
  end.

Definition with_policy (r : dmarcLookupResult) (policy : string) (viaOrg : bool) : dmarcLookupResult :=
  mkDmarcLookup (dm_Records r) policy (dm_Domain r) viaOrg (dm_Status r).

Definition first_record (r : dmarcLookupResult) : string := ToLower (default "" (head (dm_Records r))).

Definition lookupDMARCRecord (fromDomain : string) : dmarcLookupResult :=
  let fromDomain := normDomain fromDomain in
  if isEmpty fromDomain then mkDmarcLookup [] "" "" false dnsAbsent
  else
    let '(res, ok) := dmarcRecordsAt fromDomain in
    if ok : bool then with_policy res (extractTagValue (first_record res) "p") false
    else match dm_Status res with
    | dnsUnavailable => res
    | _ =>
        let org := registrableDomain fromDomain in
        if isEmpty org || String.eqb org fromDomain then mkDmarcLookup [] "" fromDomain false dnsAbsent
        else
          let '(res, ok) := dmarcRecordsAt org in
          if negb ok then res
          else
            let lower := first_record res in
            let sp := extractTagValue lower "sp" in
            with_policy res (if isEmpty sp then extractTagValue lower "p" else sp) true
    end.

Definition txtHasPrefix (name prefix : string) : bool * list string * dnsStatus :=
  let '(recs, st) := lookupTXT name in
  match st with
  | dnsOK => (existsb (fun r => HasPrefix (ToLower (TrimSpace r)) (ToLower prefix)) recs, recs, dnsOK)
  | _ => (false, [], st)
  end.

(** ** Checks *)

(** The shape of the MTA-STS, TLS-RPT and BIMI checks. *)
Definition txt_policy_check (id prefix version : string) (bonus : float64) (domain : string) : CheckResult :=
  let domain := normDomain domain in
  if isEmpty domain then info id fzero
  else
    let name := prefix +:+ domain in
    let '(ok, recs, st) := txtHasPrefix name version in
    let det : gmap string string := {["dns_name" := name; "txt" := joinOrNone recs]} in
    match st with
    | dnsUnavailable => withDetails (unresolved id) det
    | _ => if ok : bool then withDetails (pass id bonus) det else withDetails (info id fzero) det
    end.

Definition mtaStsCheck := txt_policy_check "mta_sts" "_mta-sts." "v=STSv1" (lit 15 100).
Definition tlsRptCheck := txt_policy_check "tls_rpt" "_smtp._tls." "v=TLSRPTv1" (lit 1 10).
Definition bimiCheck := txt_policy_check "bimi" "default._bimi." "v=BIMI1" (lit 1 10).

Definition mx_line (domain : string) (m : MX) : string :=
  domain +:+ " MX " +:+ Itoa (mx_Pref m) +:+ " " +:+ TrimSuffix (mx_Host m) ".".

Definition mxRecordCheck (domain : string) : CheckResult :=
  let domain := TrimSpace (TrimSuffix domain ".") in
  if isEmpty domain then info "mx_records" fzero
  else
    let '(mxs, st) := lookupMX domain in
    match st with
    | dnsUnavailable => unresolved "mx_records"
    | dnsAbsent => warn "mx_records" (lit (-3) 10)
    | dnsOK => withDetails (pass "mx_records" (lit 1 10))
                 {["domain" := domain; "mx_records" := Join (mx_line domain <$> mxs) lf]}
    end.

Definition addressRecordCheck (domain : string) : CheckResult :=
  let domain := TrimSpace (TrimSuffix domain ".") in
  if isEmpty domain then info "address_records" fzero
  else
    let '(ips, st) := lookupIPAddr domain in
    match st with
    | dnsUnavailable => unresolved "address_records"
    | dnsAbsent =>
        let '(mxs, mxSt) := lookupMX domain in
        match mxSt with
        | dnsOK => withDetails (info "address_records" fzero)
                     {["domain" := domain; "mx_hosts" := Join ((fun m => TrimSuffix (mx_Host m) ".") <$> mxs) lf]}
        | dnsUnavailable => unresolved "address_records"
        | dnsAbsent => withDetails (warn "address_records" (lit (-3) 10)) {["domain" := domain]}
        end
    | dnsOK => withDetails (pass "address_records" (lit 1 10))
                 {["domain" := domain; "a_aaaa_records" := Join (IP_String <$> ips) lf]}
    end.

Definition spfAlignmentCheck (fromDomain envelopeDomain spfResult : string) (aligned : bool) : CheckResult :=
  if isEmpty fromDomain || isEmpty envelopeDomain then warn "spf_alignment" (lit (-4) 10)
  else if String.eqb spfResult "pass" && aligned then pass "spf_alignment" (lit 2 10)
  else if String.eqb spfResult "pass" then warn "spf_alignment" (lit (-4) 10)
  else warn "spf_alignment" (lit (-5) 10).

Definition dkimAlignmentCheck (fromDomain dkimDomain dkimResult : string) (aligned : bool) : CheckResult :=
  if negb (String.eqb dkimResult "pass") then warn "dkim_alignment" (lit (-5) 10)
  else if aligned then pass "dkim_alignment" (lit 2 10)
  else warn "dkim_alignment" (lit (-4) 10).

Definition dmarcAlignmentCheck (fromDomain spfResult dkimResult : string) (alignedSPF alignedDKIM : bool) : CheckResult :=
  if isEmpty fromDomain then warn "dmarc_alignment" (lit (-5) 10)
  else if (String.eqb spfResult "pass" && alignedSPF) || (String.eqb dkimResult "pass" && alignedDKIM)
  then pass "dmarc_alignment" (lit 2 10)
  else fail "dmarc_alignment" (lit (-9) 10).

Definition tlsTransportCheck (received : list string) : CheckResult :=
  let fallback :=
    let raw := ToLower (Join received lf) in
    if Contains raw "tls" || Contains raw "esmtps" || Contains raw "cipher" then info "tls_transport" fzero
    else warn "tls_transport" (lit (-2) 10) in
  match received with
  | [] => fallback
  | first :: _ =>
      let first := ToLower first in
      if Contains first "esmtps" || Contains first "with tls" || Contains first "cipher" then pass "tls_transport" (lit 1 10)
      else if Contains first "esmtp" || Contains first " smtp" then warn "tls_transport" (lit (-2) 10)
      else fallback
  end.

Definition dmarc_pct (joined : string) : Z :=
  let v := extractTagValue joined "pct" in
  if isEmpty v then 100
  else match Atoi (TrimSpace v) with
       | Some n => if (0 <=? n) && (n <=? 100) then n else 100
       | None => 100
       end.

Definition dmarcPolicyCheck (records : list string) (policy : string) : CheckResult :=
  match records with
  | [] => info "dmarc_policy" fzero
  | _ =>
      let p := ToLower (TrimSpace policy) in
      let joined := ToLower (Join records " ") in
      let hasRUA := Contains joined "rua=" in
      let pct := dmarc_pct joined in
      let sp := extractTagValue joined "sp" in
      let det : gmap string string :=
        {["policy" := orElse p "none"; "rua_present" := FormatBool hasRUA; "dmarc_records" := Join records lf;
          "pct" := Itoa pct; "subdomain_policy" := orElse sp "wie p="]} in
      let partial := (pct <? 100) || String.eqb sp "none" in
      if String.eqb p "reject" then
        if partial then withDetails (warn "dmarc_policy" (lit (-2) 10)) det
        else withDetails (pass "dmarc_policy" (lit 3 10)) det
      else if String.eqb p "quarantine" then
        if partial then withDetails (warn "dmarc_policy" (lit (-2) 10)) det
        else withDetails (pass "dmarc_policy" (lit 1 10)) det
      else if String.eqb p "none" then withDetails (warn "dmarc_policy" (lit (-3) 10)) det
      else withDetails (warn "dmarc_policy" (lit (-2) 10)) det
  end.

Definition spfAllQualifier (rec : string) : string :=
  if Contains rec "-all" then "-all"
  else if Contains rec "~all" then "~all"
  else if Contains rec "?all" then "?all"
  else if Contains rec "+all" then "+all"
  else "".

Definition spfLookupRedirect (domain : string) : string :=
  if isEmpty domain then ""
  else match env_txt (ce_dns env) domain with
       | Err _ => ""
       | Ok recs => match List.find is_spf1_record recs with Some r => TrimSpace r | None => "" end
       end.

(** One term of the record: does it cost a lookup, and the redirect target. *)
Definition counts_as_lookup (t : string) : bool :=
  HasPrefix t "include:" || String.eqb t "a" || HasPrefix t "a:" || String.eqb t "mx" || HasPrefix t "mx:"
  || HasPrefix t "ptr" || HasPrefix t "exists:".

Fixpoint strictness_terms (toks : list string) (lookups : Z) (redirect : string) : Z * string :=
  match toks with
  | [] => (lookups, redirect)
  | tok :: rest =>
      let t := TrimLeft tok "+-~?" in
      let lookups := if counts_as_lookup t then lookups + 1 else lookups in
      if HasPrefix t "redirect=" then strictness_terms rest (lookups + 1) (TrimPrefix t "redirect=")
      else strictness_terms rest lookups redirect
  end.

Definition spfStrictnessCheck (records : list string) : CheckResult :=
  match records with
  | [] => info "spf_strictness" fzero
  | r0 :: _ =>
      let rec := ToLower (TrimSpace r0) in
      let '(lookups, redirectTarget) := strictness_terms (Fields rec) 0 "" in
      let all := spfAllQualifier rec in
      let targetRec := if isEmpty all && negb (isEmpty redirectTarget) then spfLookupRedirect redirectTarget else "" in
      let effective := if isEmpty targetRec then r0 else r0 +:+ " → redirect→ " +:+ targetRec in
      let all := if isEmpty targetRec then all else spfAllQualifier (ToLower targetRec) in
      let det : gmap string string :=
        {["spf_record" := r0; "spf_effective_record" := effective; "all_mechanism" := orElse all "none";
          "lookup_mechanisms_toplevel" := Itoa lookups]} in
      if String.eqb all "+all" then withDetails (fail "spf_strictness" (lit (-15) 10)) det
      else if 10 <? lookups then withDetails (warn "spf_strictness" (lit (-6) 10)) det
      else if String.eqb all "-all" then withDetails (pass "spf_strictness" fzero) det
      else if String.eqb all "~all" then withDetails (warn "spf_strictness" fzero) det
      else if String.eqb all "?all" then withDetails (warn "spf_strictness" (lit (-3) 10)) det
      else if negb (isEmpty redirectTarget) then withDetails (warn "spf_strictness" (lit (-2) 10)) det
      else withDetails (warn "spf_strictness" (lit (-3) 10)) det
  end.

(** Host names that look like a dial-up or customer address. *)
Definition dynamicPTRPattern : regex :=
  let word w := seq_of [RWordB; ilit w; RWordB] in
  let dash := RSet (rune_in ".-") in
  let octet := between1 3 (RSet digit_rune) in
  RGroup (alt_of
    [word "dynamic"; word "dyn"; ilit "dhcp"; ilit "dialup"; ilit "dial-up"; ilit "broadband"; word "dsl"; word "pppoe";
     word "cable"; word "pool"; word "client"; ilit "customer"; word "cpe"; word "res"; ilit "residential";
     seq_of [ilit "static"; ropt (ilit "-"); ilit "ip"];
     seq_of [RWordB; ilit "ip"; ropt dash; RSet digit_rune];
     seq_of [octet; dash; octet; dash; octet; dash; octet]]).

Definition ptrPatternCheck (ip : string) : CheckResult :=
  let ip := TrimSpace ip in
  if isEmpty ip || isNil (ParseIP ip) then info "ptr_pattern" fzero
  else
    let '(names, st) := lookupAddr ip in
    match st with
    | dnsUnavailable => unresolved "ptr_pattern"
    | dnsAbsent => info "ptr_pattern" fzero
    | dnsOK =>
        let host := TrimSuffix (ToLower (default "" (head names))) "." in
        let det : gmap string string := {["remote_ip" := ip; "ptr_hostname" := host]} in
        if MatchString dynamicPTRPattern host then withDetails (warn "ptr_pattern" (lit (-6) 10)) det
        else withDetails (pass "ptr_pattern" (lit 1 10)) det
    end.

Definition envelopeBounceMXCheck (bounceDomain : string) : CheckResult :=
  let bounceDomain := TrimSpace (TrimSuffix (ToLower bounceDomain) ".") in
  if isEmpty bounceDomain then info "envelope_mx" fzero
  else
    let det : gmap string string := {["bounce_domain" := bounceDomain]} in
    match snd (lookupMX bounceDomain) with
    | dnsUnavailable => withDetails (unresolved "envelope_mx") det
    | dnsAbsent =>
        match snd (lookupIPAddr bounceDomain) with
        | dnsUnavailable => withDetails (unresolved "envelope_mx") det
        | dnsOK => withDetails (info "envelope_mx" fzero) det
        | dnsAbsent => withDetails (warn "envelope_mx" (lit (-5) 10)) det
        end
    | dnsOK => withDetails (pass "envelope_mx" (lit 1 10)) det
    end.

Definition fromDomainReceiveCheck (fromDomain bounceDomain : string) : CheckResult :=
  if isEmpty fromDomain then info "from_domain_rcv" fzero
  else if String.eqb fromDomain bounceDomain then info "from_domain_rcv" fzero
  else match snd (lookupMX fromDomain) with
  | dnsOK => pass "from_domain_rcv" fzero
  | dnsUnavailable => unresolved "from_domain_rcv"
  | dnsAbsent =>
      match snd (lookupIPAddr fromDomain) with
      | dnsUnavailable => unresolved "from_domain_rcv"
      | dnsOK => info "from_domain_rcv" fzero
      | dnsAbsent => warn "from_domain_rcv" (lit (-4) 10)
      end
  end.

Definition ptrPlausibility (ip helo : string) : CheckResult :=
  let parsed := ParseIP (TrimSpace ip) in
  if isNil parsed then warn "ptr" (lit (-4) 10)
  else
    let '(ptr, ptrSt) := lookupAddr (IP_String parsed) in
    match ptrSt with
    | dnsUnavailable => unresolved "ptr"
    | dnsAbsent => fail "ptr" (f_of_Z (-1))
    | dnsOK =>
        let host := TrimSuffix (ToLower (default "" (head ptr))) "." in
        let '(fwd, fwdSt) := lookupHost host in
        match fwdSt with
        | dnsUnavailable => unresolved "ptr"
        | dnsAbsent => warn "ptr" (lit (-5) 10)
        | dnsOK =>
            if existsb (String.eqb (IP_String parsed)) fwd then
              let hostMatchesHELO := EqualFold host (TrimSuffix (ToLower (TrimSpace helo)) ".") in
              if negb (isEmpty helo) && negb hostMatchesHELO then warn "ptr" (lit (-4) 10)
              else pass "ptr" (lit 2 10)
            else warn "ptr" (lit (-4) 10)
        end
    end.

(** ** Rechecks *)

Record RecheckInput := mkRecheck {
  ri_FromDomain : string;
  ri_EnvelopeDomain : string;
  ri_ReturnDomain : string;
  ri_RemoteIP : string;
  ri_HELO : string;
  ri_DKIMSignature : string;
  ri_Links : list string;
  ri_PrevStatus : string;
  ri_PrevDelta : float64
}.

Definition pendingDelta (rin : RecheckInput) (id : string) : float64 :=
  if isEmpty (ri_PrevStatus rin) then scoreFor (checkImportance id) "warn" else ri_PrevDelta rin.

Definition recheckPendingDetailKey : string := "recheck_pending".

Definition recheckUnconfirmed (id : string) (rin : RecheckInput) : CheckResult :=
  let c := info id (pendingDelta rin id) in
  let c := if fltb (c_ScoreDelta c) fzero then set_status c "warn" else c in
  withDetails c {[recheckPendingDetailKey :=
    "Eintrag vorhanden, Ergebnis noch nicht durch eine echte Zustellung bestätigt"]}.

(** The last v=spf1 record of a TXT answer, trimmed; empty when there is none. *)
Definition last_spf1 (recs : list string) : string :=
  foldl (fun acc r => if is_spf1_record r then TrimSpace r else acc) "" recs.

Definition spfRecordRecheck (domain : string) (rin : RecheckInput) : CheckResult :=
  let domain := normDomain domain in
  if isEmpty domain then info "spf" fzero
  else
    let '(recs, st) := lookupTXT domain in
    match st with
    | dnsUnavailable => unresolved "spf"
    | _ => if isEmpty (last_spf1 recs) then warn "spf" fzero else recheckUnconfirmed "spf" rin
    end.

Definition spfStrictnessRecheck (domain : string) : CheckResult :=
  let domain := normDomain domain in
  if isEmpty domain then info "spf_strictness" fzero
  else
    let '(recs, st) := lookupTXT domain in
    match st with
    | dnsUnavailable => unresolved "spf_strictness"
    | _ => spfStrictnessCheck (TrimSpace <$> List.filter is_spf1_record recs)
    end.

Definition dmarcRecordRecheck (fromDomain : string) (rin : RecheckInput) : CheckResult :=
  let fromDomain := normDomain fromDomain in
  if isEmpty fromDomain then info "dmarc" fzero
  else
    let dm := lookupDMARCRecord fromDomain in
    match dm_Status dm with
    | dnsUnavailable => unresolved "dmarc"
    | _ => match dm_Records dm with
           | [] => fail "dmarc" fzero
           | _ => recheckUnconfirmed "dmarc" rin
           end
    end.

Definition dmarcPolicyRecheck (fromDomain : string) : CheckResult :=
  let fromDomain := normDomain fromDomain in
  if isEmpty fromDomain then info "dmarc_policy" fzero
  else
    let dm := lookupDMARCRecord fromDomain in
    match dm_Status dm with
    | dnsUnavailable => unresolved "dmarc_policy"
    | _ => dmarcPolicyCheck (dm_Records dm) (dm_Policy dm)
    end.

Definition Recheckable (id : string) : bool :=
  one_of id ["spf"; "spf_strictness"; "dmarc"; "dmarc_policy"; "mx_records"; "address_records"; "dkim_keylength";
             "envelope_mx"; "mta_sts"; "tls_rpt"; "bimi"; "dnssec"; "dane_tlsa";
             "ptr"; "ptr_pattern"; "domain_age"; "domain_blocklist"; "link_blocklist";
             "from_domain_rcv"; "broken_links"].

Definition detail (k : string) (c : CheckResult) : string := default "" (c_TechnicalDetails c !! k).

(** Checks whose own delta is kept. *)
Definition keeps_delta (id : string) : bool :=
  one_of id ["domain_age"; "rbl"; "spamassassin"; "rspamd"; "spf_strictness"].

(** The verdict part of [enrichCheckResult]: category, severity, importance
    and the score. The texts and the details it adds afterwards do not affect it. *)
Definition enrich_verdict (c : CheckResult) : CheckResult :=
  if String.eqb (c_Status c) "na" then
    mkCheck (c_ID c) (c_Name c) (c_Status c) fzero (c_Summary c) (c_Suggestion c) (c_TechnicalDetails c)
      (c_Explanation c) (c_Recommendation c) (c_DocLinks c) "none" (checkCategory (c_ID c)) (c_Importance c)
      (c_NameEN c) (c_SummaryEN c) (c_ExplanationEN c) (c_RecommendationEN c)
  else
    let importance := checkImportance (c_ID c) in
    let delta :=
      if negb (isEmpty (detail recheckPendingDetailKey c)) then c_ScoreDelta c
      else if keeps_delta (c_ID c) then c_ScoreDelta c
      else scoreFor importance (c_Status c) in
    mkCheck (c_ID c) (c_Name c) (c_Status c) delta (c_Summary c) (c_Suggestion c) (c_TechnicalDetails c)
      (c_Explanation c) (c_Recommendation c) (c_DocLinks c) (checkSeverity (c_Status c)) (checkCategory (c_ID c))
      importance (c_NameEN c) (c_SummaryEN c) (c_ExplanationEN c) (c_RecommendationEN c).

(** The rechecks that talk to other services than the resolver (RDAP, DNS over
    HTTPS, blocklists, HTTP) or parse a key: what they return, or the value they
    panic with. *)
Context (service_check : string -> RecheckInput -> outcome string CheckResult).

Definition is_service_check (id : string) : bool :=
  one_of id ["dkim_keylength"; "dnssec"; "dane_tlsa"; "domain_age"; "domain_blocklist"; "link_blocklist";
             "broken_links"].

(** The dispatch of [Recheck] on the ID, before the enrichment. *)
Definition recheck_raw (id : string) (rin : RecheckInput) : option (outcome string CheckResult) :=
  let primary := firstNonEmpty [ri_FromDomain rin; ri_EnvelopeDomain rin] in
  let envelope := firstNonEmpty [ri_EnvelopeDomain rin; ri_FromDomain rin] in
  let bounce := firstNonEmpty [ri_ReturnDomain rin; ri_EnvelopeDomain rin] in
  if String.eqb id "spf" then Some (Ok (spfRecordRecheck envelope rin))
  else if String.eqb id "spf_strictness" then Some (Ok (spfStrictnessRecheck envelope))
  else if String.eqb id "dmarc" then Some (Ok (dmarcRecordRecheck (ri_FromDomain rin) rin))
  else if String.eqb id "dmarc_policy" then Some (Ok (dmarcPolicyRecheck (ri_FromDomain rin)))
  else if String.eqb id "mx_records" then Some (Ok (mxRecordCheck primary))
  else if String.eqb id "address_records" then Some (Ok (addressRecordCheck primary))
  else if String.eqb id "envelope_mx" then Some (Ok (envelopeBounceMXCheck bounce))
  else if String.eqb id "mta_sts" then Some (Ok (mtaStsCheck primary))
  else if String.eqb id "tls_rpt" then Some (Ok (tlsRptCheck primary))
  else if String.eqb id "bimi" then Some (Ok (bimiCheck primary))
  else if String.eqb id "ptr" then Some (Ok (ptrPlausibility (ri_RemoteIP rin) (ri_HELO rin)))
  else if String.eqb id "ptr_pattern" then Some (Ok (ptrPatternCheck (ri_RemoteIP rin)))
  else if String.eqb id "from_domain_rcv" then Some (Ok (fromDomainReceiveCheck (ri_FromDomain rin) bounce))
  else if is_service_check id then Some (service_check id rin)
  else None.

(** [None]: ok = false. A panic of the check becomes an error check that is not enriched. *)
Definition Recheck (id : string) (rin : RecheckInput) : option CheckResult :=
  match recheck_raw id rin with
  | Some (Ok c) => Some (enrich_verdict c)
  | Some (Err msg) => Some (errorCheck id msg)
  | None => None
  end.

End WithEnv.

(** ** The DMARC record of a domain *)

Lemma lookupTXT_no_records env q : snd (lookupTXT env q) <> dnsOK -> fst (lookupTXT env q) = [].
Proof.
  unfold lookupTXT, lookup_with, three_valued. destruct (asciiDomain _ _); [|done].
  destruct (env_txt _ _) as [[]|]; done.
Qed.

Definition at_spec (env : check_env) (d : string) (res : dmarcLookupResult) (ok : bool) : Prop :=
  dm_Domain res = d /\ dm_ViaOrg res = false
  /\ dm_Records res = TrimSpace <$> List.filter is_dmarc1 (fst (lookupTXT env ("_dmarc." +:+ d)))
  /\ (if ok then dm_Status res = dnsOK /\ dm_Records res <> [] else dm_Status res <> dnsOK /\ dm_Records res = [])
  /\ (dm_Status res = dnsUnavailable <-> snd (lookupTXT env ("_dmarc." +:+ d)) = dnsUnavailable).

Lemma dmarcRecordsAt_spec env d res ok : dmarcRecordsAt env d = (res, ok) -> at_spec env d res ok.
Proof.
  unfold dmarcRecordsAt, at_spec. pose proof (lookupTXT_no_records env ("_dmarc." +:+ d)) as Hl.
  destruct (lookupTXT env _) as [recs st]. simpl in *. destruct st; [|rewrite Hl by done..].
  - destruct (TrimSpace <$> List.filter is_dmarc1 recs); intros [= <- <-]; done.
  - intros [= <- <-]. done.
  - intros [= <- <-]. done.
Qed.

(** The records come from the TXT answer. *)
Lemma records_raw recs :
  Forall (fun rec => exists raw, raw ∈ recs /\ is_dmarc1 raw = true /\ rec = TrimSpace raw)
         (TrimSpace <$> List.filter is_dmarc1 recs).
Proof.
  apply Forall_fmap, Forall_forall. intros raw Hin%list_elem_of_In%List.filter_In. destruct Hin as [Hin Hd].
  exists raw. rewrite list_elem_of_In. done.
Qed.

Lemma records_none recs : TrimSpace <$> List.filter is_dmarc1 recs = [] -> List.filter is_dmarc1 recs = [].
Proof. by destruct (List.filter _ _). Qed.

(** The DMARC lookup: an answer always carries at least one record and only
    records of the domain it names that start with v=DMARC1; the policy of the organisational
    domain is applied (with sp= before p=) only when the From domain definitely has no record; and
    an outage at the From domain is reported as such, never papered over by the parent's record. *)
Theorem lookupDMARCRecord_sound env from :
  let d := normDomain from in
  let r := lookupDMARCRecord env from in
  (dm_Status r = dnsOK <-> dm_Records r <> [])
  /\ Forall (fun rec => exists raw, raw ∈ fst (lookupTXT env ("_dmarc." +:+ dm_Domain r))
                                   /\ is_dmarc1 raw = true /\ rec = TrimSpace raw) (dm_Records r)
  /\ (dm_ViaOrg r = true ->
        dm_Domain r = registrableDomain env d /\ dm_Domain r <> d
        /\ snd (lookupTXT env ("_dmarc." +:+ d)) <> dnsUnavailable
        /\ List.filter is_dmarc1 (fst (lookupTXT env ("_dmarc." +:+ d))) = []
        /\ dm_Policy r = (let sp := extractTagValue (first_record r) "sp" in
                          if isEmpty sp then extractTagValue (first_record r) "p" else sp))
  /\ (d <> "" -> snd (lookupTXT env ("_dmarc." +:+ d)) = dnsUnavailable ->
        dm_Status r = dnsUnavailable /\ dm_ViaOrg r = false).
Proof.
  intros d r. subst r. unfold lookupDMARCRecord. fold d.
  destruct (isEmpty d) eqn:Hd.
  { apply isEmpty_true in Hd. split_and!; [done|constructor|done|done]. }
  destruct (dmarcRecordsAt env d) as [res ok] eqn:E.
  apply dmarcRecordsAt_spec in E as (Hdom & Hvia & Hrec & Hok & Hst). destruct ok.
  { destruct Hok as [Ho Hne]. simpl. rewrite Hdom. split_and!; [done|rewrite Hrec; apply records_raw|done|].
    intros _ Hu. apply Hst in Hu. congruence. }
  destruct Hok as [Ho Hnil]. pose proof Hrec as Hnone. rewrite Hnil in Hnone. symmetry in Hnone.
  apply records_none in Hnone. destruct (dm_Status res) eqn:Hs; [done| |].
  - assert (Hdef : snd (lookupTXT env ("_dmarc." +:+ d)) <> dnsUnavailable) by (intros Hu; by apply Hst in Hu).
    case_if; [split_and!; [done|constructor|done|done]|]. bool_to_prop.
    destruct (dmarcRecordsAt env (registrableDomain env d)) as [res2 ok2] eqn:E2.
    apply dmarcRecordsAt_spec in E2 as (Hdom2 & Hvia2 & Hrec2 & Hok2 & _).
    destruct ok2, Hok2 as [Ho2 Hn2]; simpl; rewrite Hdom2.
    + split_and!; [done|rewrite Hrec2; apply records_raw| |done]. intros _. by split_and!.
    + split_and!; [by rewrite Hn2|rewrite Hn2; constructor|congruence|done].
  - rewrite Hnil. split_and!; [by rewrite Hs|constructor|congruence|done].
Qed.

(** ** Verdicts of single checks *)

Lemma dmarc_pct_range joined : 0 <= dmarc_pct joined <= 100.
Proof. unfold dmarc_pct. case_if; [lia|]. destruct (Atoi _); [|lia]. case_if; bool_to_prop; lia. Qed.

(** The policy check passes exactly for a published policy that is enforced: p=reject
    or p=quarantine, applied to all mail (pct 100, the default) and not switched off for
    subdomains by sp=none. *)
Theorem dmarcPolicyCheck_pass records policy :
  let joined := ToLower (Join records " ") in
  let p := ToLower (TrimSpace policy) in
  c_Status (dmarcPolicyCheck records policy) = "pass"
  <-> records <> [] /\ (p = "reject" \/ p = "quarantine")
      /\ dmarc_pct joined = 100 /\ extractTagValue joined "sp" <> "none".
Proof.
  intros joined p. unfold dmarcPolicyCheck. destruct records as [|r records]; [split; [done|by intros [? _]]|].
  fold joined p. pose proof (dmarc_pct_range joined) as Hpct.
  assert (Hpart : (dmarc_pct joined <? 100) || String.eqb (extractTagValue joined "sp") "none" = false
                  <-> dmarc_pct joined = 100 /\ extractTagValue joined "sp" <> "none").
  { rewrite orb_false_iff, Z.ltb_ge, String.eqb_neq. split; intros [? ?]; (split; [lia|done]). }
  destruct (String.eqb_spec p "reject") as [->|H1]; [|destruct (String.eqb_spec p "quarantine") as [->|H2]].
  3: { case_if; split; (done || (intros (_ & [?|?] & _); congruence)). }
  all: destruct (_ || _); simpl.
  1, 3: split; [done|]; intros (_ & _ & Hx); by apply Hpart in Hx.
  all: split; [intros _|done]; destruct Hpart as [Hp _]; specialize (Hp eq_refl); auto.
Qed.

(** The reverse-DNS check passes exactly when the sending address is valid, its
    first PTR name resolves back to that address, and the client either gave no HELO name or gave
    that name. *)
Theorem ptrPlausibility_pass env ip helo :
  let addr := ParseIP (TrimSpace ip) in
  c_Status (ptrPlausibility env ip helo) = "pass"
  <-> isNil addr = false /\
      exists name names fwd,
        lookupAddr env (IP_String addr) = (name :: names, dnsOK)
        /\ lookupHost env (TrimSuffix (ToLower name) ".") = (fwd, dnsOK)
        /\ IP_String addr ∈ fwd
        /\ (helo = "" \/ EqualFold (TrimSuffix (ToLower name) ".") (TrimSuffix (ToLower (TrimSpace helo)) ".") = true).
Proof.
  intros addr. unfold ptrPlausibility. fold addr.
  destruct (isNil addr); [split; [done|by intros [? _]]|].
  unfold lookupAddr, three_valued. destruct (env_addr _ _) as [[|name names]|e].
  - split; [done|]. by intros (_ & ? & ? & ? & ? & _).
  - simpl. destruct (lookupHost env _) as [fwd st] eqn:Hf. destruct st;
      [|split; [done|]; intros (_ & ? & ? & ? & [= <- <-] & Hf' & _); congruence..].
    destruct (existsb _ fwd) eqn:He.
    + assert (Hin : IP_String addr ∈ fwd).
      { apply existsb_exists in He as (x & Hx & ->%String.eqb_eq). by apply list_elem_of_In. }
      destruct (isEmpty helo) eqn:Hh; simpl.
      * apply isEmpty_true in Hh. split; [|done]. intros _. split; [done|]. exists name, names, fwd. auto.
      * apply isEmpty_false in Hh. destruct (EqualFold _ _) eqn:Hq; simpl.
        -- split; [|done]. intros _. split; [done|]. exists name, names, fwd. auto.
        -- split; [done|]. intros (_ & ? & ? & ? & [= <- <-] & _ & _ & [?|Hq']); congruence.
    + split; [done|]. intros (_ & ? & ? & ? & [= <- <-] & Hf' & Hin & _). rewrite Hf in Hf'. injection Hf' as <-.
      apply not_true_iff_false in He. destruct He. apply existsb_exists. exists (IP_String addr).
      rewrite String.eqb_refl, <- list_elem_of_In. done.
  - split; [by destruct (classifyDNSError e)|]. intros (_ & ? & ? & ? & ? & _). by destruct (classifyDNSError e).
Qed.

(** ** Examples *)

Example dynamic_names :
  MatchString dynamicPTRPattern "p5b0a1c2d.dip0.t-ipconnect.de" = false
  /\ MatchString dynamicPTRPattern "host-203-0-113-7.example.net" = true
  /\ MatchString dynamicPTRPattern "dyn.example.net" = true
  /\ MatchString dynamicPTRPattern "dynamo.example.net" = false.
Proof. vm_compute. done. Qed.
