(* ===== verification/Dkim.v ===== *)
(** * DKIM findings (internal/analyzer/dkim_diag.go, analyzer.go)

    Why a DKIM signature did not pass: the diagnosis of the key record, the
    classification of the verifier's message, and the strength of the key. The
    parser of public keys is an argument. A problem of the key record is a value
    of [key_problem]; its wording in two languages is in Texts.v. *)

From S2P Require Import Prelude F64 GoStrings GoTime Model Score Spf DnsFallback Checks.

Local Open Scope string_scope.
Local Open Scope list_scope.
Local Open Scope Z_scope.

(** ** Base64 *)

Definition b64_val (a : ascii) : option Z :=
  let c := Z.of_N (code a) in
  if is_upper a then Some (c - 65)
  else if is_lower a then Some (c - 71)
  else if is_digit a then Some (c + 4)
  else if Ascii.eqb a "+" then Some 62
  else if Ascii.eqb a "/" then Some 63
  else None.

Definition byte_of (z : Z) : ascii := ascii_of_N (Z.to_N (z mod 256)).

(** Groups of four digits; only the last may be padded. *)
Fixpoint b64_groups (s : string) : option string :=
  match s with
  | EmptyString => Some ""
  | String a (String b (String c (String d rest))) =>
      match b64_val a, b64_val b with
      | Some x, Some y =>
          if Ascii.eqb c "=" then
            if Ascii.eqb d "=" && isEmpty rest then Some (chr (byte_of (x * 4 + y / 16))) else None
          else match b64_val c with
          | None => None
          | Some z =>
              if Ascii.eqb d "=" then
                if isEmpty rest then Some (String (byte_of (x * 4 + y / 16)) (chr (byte_of (y * 16 + z / 4)))) else None
              else match b64_val d, b64_groups rest with
              | Some w, Some more =>
                  Some (String (byte_of (x * 4 + y / 16)) (String (byte_of (y * 16 + z / 4)) (String (byte_of (z * 64 + w)) more)))
              | _, _ => None
              end
          end
      | _, _ => None
      end
  | _ => None
  end.

(** [base64.StdEncoding.DecodeString]: line breaks are skipped; [None] is an error. *)
Definition DecodeString (s : string) : option string :=
  b64_groups (sfilter (fun a => negb (Ascii.eqb a CR) && negb (Ascii.eqb a LF)) s).

Example decode_padded : DecodeString ("aGVs" +:+ crlf +:+ "bG8=") = Some "hello".
Proof. vm_compute. reflexivity. Qed.
Example decode_unpadded : DecodeString "aGVsbG8" = None.
Proof. vm_compute. reflexivity. Qed.

(** ** The key record *)

(** What [x509.ParsePKIXPublicKey] finds: an RSA key of some length, or another key. *)
Inductive public_key :=
| RsaKey (bits : Z)
| OtherKey.

Inductive key_problem :=
| SeveralRecords (n : nat)
| WrongVersion (v : string)
| NoKeyTag
| Revoked
| NotForEmail (s : string)
| NotBase64
| Unparsable
| KeyTypeMismatch (k : string)
| KeyTooShort (bits : Z).

Definition dkimServiceAllowsEmail (s : string) : bool :=
  existsb (fun part => let part := TrimSpace part in String.eqb part "*" || EqualFold part "email") (Split s ":").

Section WithEnv.
Context (env : check_env) (ParsePKIXPublicKey : string -> option public_key).

(** Either the description of a usable key or the problem. *)
Definition inspectDKIMKeyRecords (records : list string) : outcome key_problem string :=
  if (1 <? List.length records)%nat then Err (SeveralRecords (List.length records))
  else
    let rec := TrimSpace (Join records "") in
    let v := extractTagValue rec "v" in
    if negb (isEmpty v) && negb (EqualFold v "DKIM1") then Err (WrongVersion v)
    else if negb (Contains (";" +:+ ReplaceAll rec " " "") ";p=") then Err NoKeyTag
    else
      let pub := ReplaceAll (TrimSpace (extractTagValue rec "p")) " " "" in
      if isEmpty pub then Err Revoked
      else
        let s := TrimSpace (extractTagValue rec "s") in
        if negb (isEmpty s) && negb (dkimServiceAllowsEmail s) then Err (NotForEmail s)
        else
          let keyType := ToLower (orElse (TrimSpace (extractTagValue rec "k")) "rsa") in
          match DecodeString pub with
          | None | Some "" => Err NotBase64
          | Some der =>
              if String.eqb keyType "ed25519" then Ok "Ed25519"
              else match ParsePKIXPublicKey der with
              | None => Err Unparsable
              | Some OtherKey => Err (KeyTypeMismatch keyType)
              | Some (RsaKey bits) =>
                  if bits <? 1024 then Err (KeyTooShort bits)
                  else Ok ("RSA, " +:+ Itoa bits +:+ " Bit")
              end
          end.

Definition dkimKeyAbsent : string := "absent".
Definition dkimKeyUnavailable : string := "unavailable".
Definition dkimKeyUsable : string := "usable".
Definition dkimKeyUnusable : string := "unusable".

Record dkimKeyDiag := mkKeyDiag {
  kd_Selector : string;
  kd_Domain : string;
  kd_DNSName : string;
  kd_State : string;
  kd_KeyInfo : string;
  kd_Problem : option key_problem;
  kd_ExternalResolvers : list string
}.

Definition noDiag : dkimKeyDiag := mkKeyDiag "" "" "" "" "" None [].

Definition known (d : dkimKeyDiag) : bool := negb (isEmpty (kd_State d)) && negb (isEmpty (kd_DNSName d)).

(** [external] are the fallback resolvers ([dnsfallback.Hosts]). *)
Definition diagnoseDKIMKey (external : list string) (dkimSig : string) : dkimKeyDiag :=
  let selector := TrimSpace (extractTagValue dkimSig "s") in
  let domain := ToLower (TrimSpace (extractTagValue dkimSig "d")) in
  if isEmpty selector || isEmpty domain then noDiag
  else
    let name := selector +:+ "._domainkey." +:+ domain in
    let diag state info problem := mkKeyDiag selector domain name state info problem external in
    let '(records, st) := lookupTXT env name in
    match st with
    | dnsUnavailable => diag dkimKeyUnavailable "" None
    | dnsAbsent => diag dkimKeyAbsent "" None
    | dnsOK => match inspectDKIMKeyRecords records with
               | Err p => diag dkimKeyUnusable "" (Some p)
               | Ok i => diag dkimKeyUsable i None
               end
    end.

(** ** Classification *)

Record dkimFinding := mkFinding { df_status : string; df_delta : float64; df_specific : bool }.

Definition dkimMissingKeyFinding (diag : dkimKeyDiag) : dkimFinding :=
  let f := mkFinding "fail" (lit (-12) 10) true in
  if negb (known diag) then f
  else if String.eqb (kd_State diag) dkimKeyUnavailable then mkFinding "warn" (lit (-6) 10) true
  else if String.eqb (kd_State diag) dkimKeyUsable then mkFinding "warn" (lit (-6) 10) true
  else f.

Definition dkimDetailIsKeyProblem (d : string) : bool :=
  let d := ToLower d in
  existsb (Contains d) ["no key for signature"; "no valid key"; "key syntax"; "key revoked"].

(** Midnight of 1 January 2027 UTC in Unix nanoseconds. *)
Definition dkimSHA1HardFailFrom : Z := 1798761600 * second.

Definition classifyDKIMFailure (result detail : string) (now : Z) (diag : dkimKeyDiag) : dkimFinding :=
  let d := ToLower detail in
  if Contains d "hash algorithm too weak" || Contains d "sha1" then
    if now <? dkimSHA1HardFailFrom then mkFinding "warn" (lit (-6) 10) true else mkFinding "fail" (f_of_Z (-1)) true
  else if Contains d "body length" then mkFinding "warn" (lit (-5) 10) true
  else if Contains d "too short" then mkFinding "fail" (lit (-12) 10) true
  else if Contains d "expired" then mkFinding "fail" (f_of_Z (-1)) true
  else if Contains d "body hash did not verify" then mkFinding "fail" (lit (-14) 10) true
  else if dkimDetailIsKeyProblem d then dkimMissingKeyFinding diag
  else if Contains d "multiple txt" then mkFinding "fail" (lit (-12) 10) true
  else if Contains d "domain mismatch" || Contains d "from field not signed" then mkFinding "fail" (lit (-12) 10) true
  else mkFinding "fail" (lit (-14) 10) false.

(** ** Key length *)

Definition dkimKeyLengthCheck (dkimSig : string) : CheckResult :=
  if isEmpty (TrimSpace dkimSig) then info "dkim_keylength" fzero
  else
    let selector := extractTagValue dkimSig "s" in
    let domain := extractTagValue dkimSig "d" in
    if isEmpty selector || isEmpty domain then info "dkim_keylength" fzero
    else
      let dnsName := selector +:+ "._domainkey." +:+ domain in
      let det : gmap string string := {["selector" := selector; "domain" := domain; "dns_name" := dnsName]} in
      let '(txt, st) := lookupTXT env dnsName in
      match st with
      | dnsUnavailable => withDetails (unresolved "dkim_keylength") det
      | dnsAbsent => withDetails (warn "dkim_keylength" (lit (-3) 10)) det
      | dnsOK =>
          let joined := Join txt "" in
          let keyType := orElse (extractTagValue joined "k") "rsa" in
          let det := <["key_type" := keyType]> det in
          if String.eqb keyType "ed25519" then withDetails (pass "dkim_keylength" (lit 1 10)) det
          else match DecodeString (TrimSpace (extractTagValue joined "p")) with
          | None | Some "" => withDetails (warn "dkim_keylength" (lit (-3) 10)) det
          | Some der =>
              match ParsePKIXPublicKey der with
              | None => withDetails (warn "dkim_keylength" (lit (-2) 10)) det
              | Some OtherKey => withDetails (info "dkim_keylength" fzero) det
              | Some (RsaKey bits) =>
                  let det := <["key_bits" := Itoa bits]> det in
                  if bits <? 1024 then withDetails (fail "dkim_keylength" (f_of_Z (-1))) det
                  else if bits <? 2048 then withDetails (warn "dkim_keylength" (lit (-4) 10)) det
                  else withDetails (pass "dkim_keylength" (lit 1 10)) det
              end
          end
      end.

End WithEnv.

(** ** Theorems *)

(** A usable key record: a single record of version DKIM1 (or without a
    version), allowed for e-mail, whose key decodes and is Ed25519 or an RSA key
    of at least 1024 bits. *)
Definition usable_record (ParsePKIX : string -> option public_key) (records : list string) : Prop :=
  let rec := TrimSpace (Join records "") in
  let s := TrimSpace (extractTagValue rec "s") in
  (List.length records <= 1)%nat
  /\ (extractTagValue rec "v" = "" \/ EqualFold (extractTagValue rec "v") "DKIM1" = true)
  /\ (s = "" \/ dkimServiceAllowsEmail s = true)
  /\ exists der, der <> "" /\ DecodeString (ReplaceAll (TrimSpace (extractTagValue rec "p")) " " "") = Some der
     /\ (ToLower (orElse (TrimSpace (extractTagValue rec "k")) "rsa") = "ed25519"
         \/ exists bits, ParsePKIX der = Some (RsaKey bits) /\ 1024 <= bits).

Lemma inspect_usable ParsePKIX records i :
  inspectDKIMKeyRecords ParsePKIX records = Ok i -> usable_record ParsePKIX records.
Proof.
  unfold inspectDKIMKeyRecords, usable_record. cbv zeta.
  set (rec := TrimSpace (Join records "")). set (p := ReplaceAll (TrimSpace (extractTagValue rec "p")) " " "").
  set (s := TrimSpace (extractTagValue rec "s")). set (k := ToLower (orElse (TrimSpace (extractTagValue rec "k")) "rsa")).
  case_if; [done|]. case_if; [done|]. case_if; [done|]. case_if; [done|]. case_if; [done|]. bool_to_prop.
  intros H. split_and!; [lia| | |].
  - destruct (extractTagValue rec "v"); [by left|]. right. by destruct (EqualFold _ _).
  - destruct s; [by left|]. right. by destruct (dkimServiceAllowsEmail _).
  - destruct (DecodeString p) as [[|a der]|] eqn:E; [done| |done]. exists (String a der). split; [done|]. split; [done|].
    case_if_in H; [left; by apply String.eqb_eq|]. right. destruct (ParsePKIX _) as [[bits|]|]; [|done..].
    case_if_in H; [done|]. exists bits. split; [done|]. bool_to_prop. lia.
Qed.

(** The verifier complained about the key and about nothing that is classified first. *)
Definition only_key_problem (detail : string) : bool :=
  let d := ToLower detail in
  dkimDetailIsKeyProblem d
  && forallb (fun m => negb (Contains d m))
       ["hash algorithm too weak"; "sha1"; "body length"; "too short"; "expired"; "body hash did not verify"].

Lemma classify_key_problem result detail now diag :
  only_key_problem detail = true -> classifyDKIMFailure result detail now diag = dkimMissingKeyFinding diag.
Proof.
  unfold only_key_problem, classifyDKIMFailure. cbn [forallb]. intros H. bool_to_prop.
  repeat match goal with H : Contains _ _ = false |- _ => rewrite H; clear H end.
  by match goal with H : dkimDetailIsKeyProblem _ = true |- _ => rewrite H end.
Qed.

Lemma key_name_nonempty a b c : isEmpty (a +:+ "._domainkey." +:+ b +:+ c) = false.
Proof. by destruct a. Qed.

(** A missing DKIM key is held against the sender only on evidence: the
    finding is a failure exactly when the DNS says that there is no record or
    the record it has is not usable; when the DNS does not answer, or meanwhile
    has a usable key, it is a warning. A key called usable is a single valid
    record with an Ed25519 key or an RSA key of at least 1024 bits. *)
Theorem dkim_key_blamed_on_evidence env ParsePKIX external sig result detail now :
  TrimSpace (extractTagValue sig "s") <> "" -> ToLower (TrimSpace (extractTagValue sig "d")) <> "" ->
  only_key_problem detail = true ->
  let name := TrimSpace (extractTagValue sig "s") +:+ "._domainkey." +:+ ToLower (TrimSpace (extractTagValue sig "d")) in
  let diag := diagnoseDKIMKey env ParsePKIX external sig in
  let f := classifyDKIMFailure result detail now diag in
  (df_status f = "fail" <-> snd (lookupTXT env name) = dnsAbsent
      \/ snd (lookupTXT env name) = dnsOK /\ is_ok (inspectDKIMKeyRecords ParsePKIX (fst (lookupTXT env name))) = false)
  /\ (df_status f = "fail" \/ df_status f = "warn")
  /\ (kd_State diag = dkimKeyUsable -> usable_record ParsePKIX (fst (lookupTXT env name))).
Proof.
  intros Hs Hd Hk name diag f. subst f. rewrite classify_key_problem by done. subst diag.
  unfold diagnoseDKIMKey. rewrite (proj2 (isEmpty_false _) Hs), (proj2 (isEmpty_false _) Hd). cbn [orb]. cbv zeta. fold name.
  assert (Hn : isEmpty name = false) by (unfold name; by destruct (TrimSpace (extractTagValue sig "s"))).
  destruct (lookupTXT env name) as [records st]. cbn [fst snd].
  pose proof (inspect_usable ParsePKIX records) as Hu.
  destruct st; [destruct (inspectDKIMKeyRecords ParsePKIX records)|..];
    unfold dkimMissingKeyFinding, known; cbn [kd_State kd_DNSName]; rewrite Hn; cbn; (split; [|split]); try naive_solver.
Qed.

(** A resolver with one TXT record, and a key of 2048 bits behind it. *)
Definition sample_key_env : check_env :=
  mkCheckEnv (mkDnsEnv (fun _ => Ok ["v=DKIM1; k=rsa; p=aGVsbG8="]) (fun _ => Ok []) (fun _ => Ok []) (fun _ => Ok []) (fun _ => Ok []))
    Some Some.

Lemma dkim_key_blamed_on_evidence_witness :
  df_status (classifyDKIMFailure "permerror" "example.org=dkim: no key for signature" 0
    (diagnoseDKIMKey sample_key_env (fun _ => Some (RsaKey 2048)) [] "v=1; s=mail; d=Example.org")) = "warn"
  /\ usable_record (fun _ => Some (RsaKey 2048)) ["v=DKIM1; k=rsa; p=aGVsbG8="].
Proof.
  destruct (dkim_key_blamed_on_evidence sample_key_env (fun _ => Some (RsaKey 2048)) [] "v=1; s=mail; d=Example.org"
    "permerror" "example.org=dkim: no key for signature" 0) as (_ & _ & Hu);
    [vm_compute; discriminate|vm_compute; discriminate|vm_compute; reflexivity|].
  split; [vm_compute; reflexivity|]. apply Hu. vm_compute. reflexivity.
Defined.
