(* ===== verification/MailHeaders.v ===== *)
(** * Headers of a message (internal/analyzer/analyzer.go)

    Access to header fields as package net/mail gives it, the results read from
    Authentication-Results, signs of forwarding, and the detection of the mail
    type. [mail.ParseAddress] is an argument. *)

From S2P Require Import Prelude GoStrings GoTime Regex GoNet Model Score Spf Checks.

Local Open Scope string_scope.
Local Open Scope list_scope.
Local Open Scope Z_scope.

(** ** Header fields *)

(** [mail.Header]: the values of a field in order, by canonical name. *)
Definition mail_header : Type := gmap string (list string).

(** A byte allowed in a field name. *)
Definition token_byte (a : ascii) : bool :=
  is_upper a || is_lower a || is_digit a || selem a "!#$%&'*+-.^_`|~".

Fixpoint canonical_aux (upper : bool) (s : string) : string :=
  match s with
  | EmptyString => ""
  | String a s' => String (if upper then upper_byte a else lower_byte a) (canonical_aux (Ascii.eqb a "-") s')
  end.

(** [textproto.CanonicalMIMEHeaderKey]. *)
Definition CanonicalMIMEHeaderKey (s : string) : string :=
  if sforall token_byte s then canonical_aux true s else s.

Definition Get (h : mail_header) (key : string) : string :=
  default "" (head (default [] (h !! CanonicalMIMEHeaderKey key))).

Definition headerValues (h : mail_header) (key : string) : list string :=
  default [] (h !! CanonicalMIMEHeaderKey key).

(** A field that is there and not empty. *)
Definition has (h : mail_header) (key : string) : bool := negb (isEmpty (Get h key)).

(** ** Addresses *)

Definition domainPart (v : string) : string :=
  let v := TrimSpace (Trim v "<>") in
  if isEmpty v then ""
  else match LastIndex v "@" with
       | None => ""
       | Some at_ => if (String.length v <=? at_ + 1)%nat then "" else ToLower (sdrop (at_ + 1) v)
       end.

(** The parsed address: its display name and the bare address. *)
Record mail_address := mkAddress { ad_Name : string; ad_Address : string }.

Definition headerFromDomain (ParseAddress : string -> option mail_address) (raw : string) : string * string :=
  if isEmpty raw then ("", "")
  else match ParseAddress raw with
       | None => (domainPart raw, "")
       | Some a => (domainPart (ad_Address a), ad_Address a)
       end.

Definition isIPLiteralHELO (helo : string) : bool :=
  let h := TrimSpace helo in
  if negb (isNil (ParseIP h)) then true
  else if negb (HasPrefix h "[") || negb (HasSuffix h "]") then false
  else
    let inner := TrimSuffix (TrimPrefix h "[") "]" in
    let inner := TrimPrefix inner "IPv6:" in
    let inner := TrimPrefix inner "ipv6:" in
    negb (isNil (ParseIP inner)).

(** ** Authentication-Results *)

Definition auth_sep (c : Z) : bool := (c =? 59) || space_rune c.
Definition letter_rune (c : Z) : bool := ascii_range 97 122 c || ascii_range 65 90 c.

(** The expression of [parseAuthResult]. *)
Definition auth_pattern (key : string) : regex :=
  seq_of [RAlt RBegin (RSet auth_sep); rlit key; rlit "="; RGroup (rplus (RSet letter_rune))].

Definition parseAuthResult (s key : string) : string :=
  match FindStringSubmatch (auth_pattern key) s with
  | Some (v :: _) => ToLower v
  | _ => ""
  end.

Definition isForwardedMail (headers : mail_header) (authResults : string) : bool :=
  let arcResult := parseAuthResult authResults "arc" in
  if String.eqb arcResult "pass" || String.eqb arcResult "fail" then true
  else if has headers "ARC-Seal" || has headers "ARC-Message-Signature" then true
  else if has headers "Resent-From" || has headers "Resent-To" || has headers "Resent-Sender" then true
  else has headers "X-Forwarded-To".

(** ** DKIM signatures *)

Definition domainFromDKIM (sig : string) : string := extractTagValue (ToLower sig) "d".

Definition dkimSigningDomains (headers : mail_header) : list string :=
  dedupeKeepOrder (domainFromDKIM <$> default [] (headers !! "Dkim-Signature")).

(** ** Mail types *)

Definition isConsumerWebmail (fromHeader : string) : bool :=
  match LastIndex fromHeader "@" with
  | None => false
  | Some at_ =>
      let domain := TrimRight (sdrop (at_ + 1) fromHeader) ("> " +:+ chr TAB +:+ crlf) in
      let domain := match rev (Split domain ".") with
                    | tld :: sld :: _ => sld +:+ "." +:+ tld
                    | _ => domain
                    end in
      one_of domain
        ["gmail.com"; "googlemail.com";
         "outlook.com"; "hotmail.com"; "hotmail.de"; "hotmail.fr"; "live.com"; "live.de"; "live.fr"; "msn.com";
         "yahoo.com"; "yahoo.de"; "yahoo.fr"; "yahoo.co.uk"; "yahoo.es"; "yahoo.it"; "ymail.com";
         "icloud.com"; "me.com"; "mac.com";
         "gmx.de"; "gmx.net"; "gmx.com"; "gmx.at"; "gmx.ch"; "web.de"; "t-online.de"; "freenet.de"; "arcor.de";
         "protonmail.com"; "proton.me"; "tutanota.com"; "tutanota.de"; "tuta.io"; "skiff.com";
         "fastmail.com"; "fastmail.fm"; "pm.me"; "aol.com"; "aol.de"; "aim.com"; "zoho.com"; "mail.com";
         "yandex.com"; "yandex.ru"]
  end.

Definition bulk_fields : list string :=
  ["List-Unsubscribe"; "List-ID"; "List-Id"; "List-Archive"; "List-Post"; "Feedback-ID"; "X-Feedback-ID"].

Definition mua_words : list string :=
  ["outlook"; "thunderbird"; "apple mail"; "airmail"; "evolution"; "lotus notes"; "the bat"; "mutt"; "emclient";
   "yahoo mail"; "gmail"].

Definition detectMailType (headers : mail_header) : string :=
  let prec := ToLower (TrimSpace (Get headers "Precedence")) in
  if one_of prec ["bulk"; "list"; "junk"] then "bulk"
  else if existsb (fun h => negb (isEmpty (TrimSpace (Get headers h)))) bulk_fields then "bulk"
  else
    let autoSub := ToLower (TrimSpace (Get headers "Auto-Submitted")) in
    if negb (isEmpty autoSub) && negb (String.eqb autoSub "no") then "transactional"
    else
      let mua := ToLower (TrimSpace (Get headers "X-Mailer")) +:+ " " +:+ ToLower (TrimSpace (Get headers "User-Agent")) in
      if existsb (Contains mua) mua_words then "personal"
      else
        let fromAddr := ToLower (TrimSpace (Get headers "From")) in
        if isConsumerWebmail fromAddr then "personal" else "personal".

(** The type is never unknown, and asking for webmail providers makes no difference. *)
Lemma mail_type_never_unknown headers : detectMailType headers ∈ ["bulk"; "transactional"; "personal"].
Proof. unfold detectMailType. cbn zeta. repeat case_if; set_solver. Qed.

(** Only two labels are compared, so the entry yahoo.co.uk never matches. *)
Example webmail_subdomain_missed :
  isConsumerWebmail "a@yahoo.co.uk" = false /\ isConsumerWebmail "a@mail.yahoo.de" = true.
Proof. vm_compute. auto. Qed.

Definition MailTypeLabel (t : string) : string :=
  if String.eqb t "bulk" then "Newsletter/Bulk"
  else if String.eqb t "transactional" then "Transactional"
  else if String.eqb t "personal" then "Persönlich"
  else "Unbekannt".

Definition MailTypeIcon (t : string) : string :=
  if String.eqb t "bulk" then "📬"
  else if String.eqb t "transactional" then "⚙️"
  else if String.eqb t "personal" then "🧑"
  else "❓".

(** ** What parseAuthResult finds *)

(** The tokens of a text: what stands between semicolons and blanks. *)
Fixpoint auth_tokens (s : list cell) : list (list cell) :=
  match s with
  | [] => [[]]
  | (c, b) :: s' =>
      if auth_sep c then [] :: auth_tokens s'
      else match auth_tokens s' with
           | t :: ts => ((c, b) :: t) :: ts
           | [] => [[(c, b)]]
           end
  end.

(** The cells behind a literal. *)
Fixpoint after (lit : list Z) (s : list cell) : option (list cell) :=
  match lit, s with
  | [], _ => Some s
  | a :: lit', (c, _) :: s' => if c =? a then after lit' s' else None
  | _ :: _, [] => None
  end.

(** The value of a token of the form key=letters. *)
Definition token_value (key : string) (t : list cell) : option string :=
  match after (runes key ++ [61]) t with
  | Some s => let v := fst (span_cells letter_rune s) in
              match v with [] => None | _ => Some (text_of v) end
  | None => None
  end.

Fixpoint first_value (key : string) (ts : list (list cell)) : option string :=
  match ts with
  | [] => None
  | t :: rest => match token_value key t with Some v => Some v | None => first_value key rest end
  end.

Lemma run_lit {A} (lit : list Z) st (k : pos -> option A) :
  exists prev, run (foldr (fun c r => RSeq (RSet (rune_is c)) r) REmpty lit) st k
    = match after lit (p_rest st) with Some s => k (mkPos prev s (p_caps st)) | None => None end.
Proof.
  revert st. induction lit as [|a lit IH]; intros [prev rest caps]; cbn [foldr run after p_rest p_caps].
  - by exists prev.
  - destruct rest as [|[c b] rest]; [by exists None|]. unfold rune_is at 1. destruct (c =? a); [|by exists None].
    destruct (IH (mkPos (Some c) rest caps)) as [prev' H]. exists prev'. exact H.
Qed.

Lemma after_app l1 l2 s : after (l1 ++ l2) s = match after l1 s with Some s' => after l2 s' | None => None end.
Proof. revert s. induction l1 as [|a l1 IH]; intros [|[c b] s]; simpl; try done. by destruct (c =? a). Qed.

(** The part of the expression behind the separator captures the value of the
    token that starts there. *)
Lemma run_auth_value key st :
  p_caps st = [] ->
  p_caps <$> run (seq_of [rlit key; rlit "="; RGroup (rplus (RSet letter_rune))]) st Some
  = (fun v => [v]) <$> token_value key (p_rest st).
Proof.
  intros Hc. unfold seq_of, token_value. cbn [foldr run]. unfold rlit, lit_with.
  match goal with |- context [run (foldr _ _ (runes key)) st ?k] => destruct (run_lit (runes key) st k) as [prev ->] end.
  rewrite after_app. destruct (after (runes key) (p_rest st)) as [s1|]; [|done]. rewrite Hc.
  match goal with |- context [run (foldr _ _ (runes "=")) ?st ?k] => destruct (run_lit (runes "=") st k) as [prev1 ->] end.
  change (runes "=") with [61]. cbn [p_rest p_caps]. destruct (after [61] s1) as [s2|]; [|done].
  destruct s2 as [|[c b] s2]; [done|]. cbn [rplus run p_rest p_caps span_cells]. destruct (letter_rune c) eqn:El; [|done].
  match goal with |- context [star_loop _ ?k _ _] => set (kk := k) end.
  destruct (star_set_greedy letter_rune kk (List.length s2) (mkPos (Some c) s2 [])) as [prev2 Hp]; [done|simpl; lia|].
  cbn [p_rest p_caps] in Hp. cbn [run] in Hp. rewrite Hp. subst kk. cbv beta.
  destruct (span_cells letter_rune s2) as [x y] eqn:Es. pose proof (span_cells_app letter_rune s2) as Hs. rewrite Es in Hs.
  cbn [fst snd] in *. subst s2. cbn [run fmap option_fmap option_map capture p_caps p_rest]. unfold consumed. cbn [p_rest].
  f_equal. cbn [List.length]. rewrite length_app. replace (S (List.length x + List.length y) - List.length y)%nat with (S (List.length x)) by lia.
  cbn [take app]. by rewrite take_app_length.
Qed.

(** A key that contains no separator. *)
Definition plain_key (key : string) : bool := forallb (fun c => negb (auth_sep c)) (runes key).

(** The text is its first token, followed by nothing or by a separator. *)
Lemma auth_tokens_first s : exists t rest,
  s = t ++ rest /\ Forall (fun x => auth_sep (fst x) = false) t
  /\ match rest with [] => auth_tokens s = [t] | (c, _) :: rest' => auth_sep c = true /\ auth_tokens s = t :: auth_tokens rest' end.
Proof.
  induction s as [|[c b] s (t & rest & -> & Ht & Hr)]; [by exists [], []|]. cbn [auth_tokens]. case_if.
  - exists [], ((c, b) :: t ++ rest). split_and!; [done|constructor|done|done].
  - exists ((c, b) :: t), rest. split_and!; [done|by constructor|].
    destruct rest as [|[c' b'] rest]; [by rewrite Hr|]. destruct Hr as [? ->]. done.
Qed.

Lemma after_sep lit t rest :
  forallb (fun c => negb (auth_sep c)) lit = true ->
  match rest with [] => True | (c, _) :: _ => auth_sep c = true end ->
  after lit (t ++ rest) = (fun u => u ++ rest) <$> after lit t.
Proof.
  intros Hl Hr. revert t. induction lit as [|a lit IH]; intros t; [by destruct t|]. cbn [forallb] in Hl.
  apply andb_true_iff in Hl as [Ha Hl]. destruct t as [|[c b] t]; simpl.
  - destruct rest as [|[c b] rest]; [done|]. simpl. destruct (Z.eqb_spec c a) as [->|]; [|done]. by rewrite Hr in Ha.
  - destruct (c =? a); [by apply IH|done].
Qed.

Lemma sep_not_letter c : auth_sep c = true -> letter_rune c = false.
Proof.
  unfold auth_sep, space_rune, letter_rune, ascii_range. cbn [existsb]. rewrite !orb_true_iff, !Z.eqb_eq. intros H.
  destruct H as [->|[->|[->|[->|[->|[->|?]]]]]]; done.
Qed.

Lemma span_letters_sep u rest :
  match rest with [] => True | (c, _) :: _ => auth_sep c = true end ->
  fst (span_cells letter_rune (u ++ rest)) = fst (span_cells letter_rune u).
Proof.
  intros Hr. induction u as [|[c b] u IH]; simpl.
  - destruct rest as [|[c b] rest]; [done|]. simpl. by rewrite (sep_not_letter c).
  - case_if; [|done]. destruct (span_cells letter_rune (u ++ rest)), (span_cells letter_rune u). simpl in *. by rewrite IH.
Qed.

Lemma plain_key_eq key : plain_key key = true -> forallb (fun c => negb (auth_sep c)) (runes key ++ [61]) = true.
Proof. unfold plain_key. intros H. rewrite forallb_app, H. done. Qed.

Lemma token_value_sep key t rest :
  plain_key key = true -> match rest with [] => True | (c, _) :: _ => auth_sep c = true end ->
  token_value key (t ++ rest) = token_value key t.
Proof.
  intros Hk Hr. unfold token_value. rewrite after_sep by (done || by apply plain_key_eq).
  destruct (after (runes key ++ [61]) t); simpl; [|done]. by rewrite span_letters_sep.
Qed.

Lemma match_at_auth key prev s :
  p_caps <$> match_at (auth_pattern key) prev s
  = (fun v => [v]) <$> match (if is_none prev then token_value key s else None) with
                       | Some v => Some v
                       | None => match s with
                                 | (c, _) :: s' => if auth_sep c then token_value key s' else None
                                 | [] => None
                                 end
                       end.
Proof.
  change (auth_pattern key) with (RSeq (RAlt RBegin (RSet auth_sep)) (seq_of [rlit key; rlit "="; RGroup (rplus (RSet letter_rune))])).
  unfold match_at. pose proof (run_auth_value key) as Hb. generalize dependent (seq_of [rlit key; rlit "="; RGroup (rplus (RSet letter_rune))]).
  intros body Hb. cbn [run].
  cbn [p_prev p_rest p_caps].
  assert (Hset : p_caps <$> match s with
      | [] => None
      | (c, _) :: rest => if auth_sep c then run body (mkPos (Some c) rest []) Some else None
      end = (fun v => [v]) <$> match s with (c, _) :: s' => if auth_sep c then token_value key s' else None | [] => None end).
  { destruct s as [|[c b] s]; [done|]. case_if; [|done]. by rewrite Hb. }
  destruct (is_none prev); [|done]. specialize (Hb (mkPos prev s []) eq_refl). cbn [p_rest] in Hb.
  destruct (run body (mkPos prev s []) Some), (token_value key s); try done.
Qed.

Lemma first_value_tokens key l : plain_key key = true ->
  first_value key (auth_tokens l)
  = match token_value key l with Some v => Some v | None => first_value key (tl (auth_tokens l)) end.
Proof.
  intros Hk. destruct (auth_tokens_first l) as (t & rest & Hl & _ & Hr).
  assert (Ht : token_value key l = token_value key t).
  { rewrite Hl. apply token_value_sep; [done|]. destruct rest as [|[c b] ?]; [done|]. by destruct Hr. }
  rewrite Ht. destruct rest as [|[c b] rest]; [by rewrite Hr|]. destruct Hr as [_ ->]. done.
Qed.

Lemma tl_tokens_cons c b l :
  tl (auth_tokens ((c, b) :: l)) = if auth_sep c then auth_tokens l else tl (auth_tokens l).
Proof. cbn [auth_tokens]. destruct (auth_sep c); [done|]. by destruct (auth_tokens l). Qed.

Lemma search_auth key prev s : plain_key key = true ->
  (fun m => p_caps (snd m)) <$> search (auth_pattern key) prev s
  = (fun v => [v]) <$> (if is_none prev then first_value key (auth_tokens s) else first_value key (tl (auth_tokens s))).
Proof.
  intros Hk. revert prev. induction s as [|[c b] s IH]; intros prev; cbn [search];
    match goal with |- context [match_at _ prev ?s] => pose proof (match_at_auth key prev s) as Hm end.
  - rewrite first_value_tokens by done. destruct (is_none prev), (match_at _ _ _), (token_value key []); done.
  - specialize (IH (Some c)). cbn [is_none] in IH. rewrite (first_value_tokens key (_ :: _)), tl_tokens_cons by done.
    destruct (is_none prev); [destruct (token_value key ((c, b) :: s)); [destruct (match_at _ _ _); simpl in *; congruence|]|];
      (destruct (auth_sep c); [rewrite first_value_tokens by done; destruct (token_value key s)|]);
      destruct (match_at _ _ _); simpl in *; congruence.
Qed.

(** [parseAuthResult] is the value of the first token of the form key=letters. *)
Lemma parseAuthResult_tokens key s : plain_key key = true ->
  parseAuthResult s key = ToLower (default "" (first_value key (auth_tokens (cells s)))).
Proof.
  intros Hk. unfold parseAuthResult, FindStringSubmatch. rewrite search_auth by done. cbn [is_none].
  by destruct (first_value key _).
Qed.
