(* ===== verification/AuthReadback.v ===== *)
(** * The receiver's verdict on its way into the report

    The receiver writes its SPF, DKIM and DMARC results into an
    Authentication-Results header in front of the message
    (cmd/sender-report/auth.go); the analyzer reads them back with
    [parseAuthResult] (internal/analyzer/analyzer.go). *)

From S2P Require Import Prelude GoStrings GoTime Regex GoNet Model Score Spf AuthHeaders Smtp Checks MailHeaders.

Local Open Scope string_scope.
Local Open Scope list_scope.
Local Open Scope Z_scope.

Definition sep_byte (a : ascii) : bool := auth_sep (Z.of_N (code a)).

(** A text without separators. *)
Definition quiet (s : string) : bool := sforall (fun a => negb (sep_byte a)) s.

(** ** Tokens of byte strings *)

Lemma byte_in_Z lo hi a : byte_in lo hi a = true -> Z.of_N lo <= Z.of_N (code a) <= Z.of_N hi.
Proof. unfold byte_in. rewrite andb_true_iff, !N.leb_le. lia. Qed.
Lemma cont_Z a : cont a = true -> 128 <= Z.of_N (code a) <= 191.
Proof. unfold cont. rewrite andb_true_iff, !N.leb_le. lia. Qed.

Lemma neq_Z a n : (n < 256)%N -> Ascii.eqb a (ascii_of_N n) = false -> Z.of_N (code a) <> Z.of_N n.
Proof.
  intros Hn Hne%Ascii.eqb_neq E. apply Hne. rewrite <- (ascii_N_embedding a). f_equal. unfold code in E. lia.
Qed.

Ltac bytes_to_Z :=
  repeat match goal with
  | H : (if ?b then _ else _) = true |- _ => destruct b eqn:?
  | H : Ascii.eqb ?a (ascii_of_N ?n) = false |- _ => apply neq_Z in H; [|done]
  | H : byte_in _ _ _ = true |- _ => apply byte_in_Z in H
  | H : cont _ = true |- _ => apply cont_Z in H
  | H : Ascii.eqb ?a (ascii_of_N ?n) = true |- _ => apply Ascii.eqb_eq in H; subst a
  end.

(** A rune read from bytes above 127 is above 127. *)
Lemma decode_rune_high a s : ascii_byte a = false -> 128 <= fst (decode_rune (String a s)).
Proof.
  unfold ascii_byte. intros Ha. destruct s as [|b [|c [|d s]]]; cbn [decode_rune]; rewrite Ha; cbn [fst];
    repeat (case_if; [bool_to_prop; bytes_to_Z; cbn [fst code N_of_ascii] in *; try lia|]); cbn [fst]; try lia.
Qed.

Lemma auth_sep_low c : auth_sep c = true -> c < 128.
Proof.
  unfold auth_sep, space_rune. cbn [existsb]. rewrite !orb_true_iff, !Z.eqb_eq. intros H.
  destruct H as [->|[->|[->|[->|[->|[->|?]]]]]]; done.
Qed.

Lemma cells_quiet_aux s k : quiet s = true -> Forall (fun x : cell => auth_sep (fst x) = false) (cells_aux s k).
Proof.
  unfold quiet. revert k. induction s as [|a s IH]; intros k Hq; cbn [cells_aux]; [constructor|].
  cbn [sforall] in Hq. apply andb_true_iff in Hq as [Ha Hs]. destruct k; [|by apply IH].
  pose proof (decode_rune_high a s) as Hh. destruct (decode_rune (String a s)) as [r n] eqn:E.
  constructor; [|by apply IH]. cbn [fst]. destruct (auth_sep r) eqn:Er; [|done]. exfalso.
  destruct (ascii_byte a) eqn:Hb.
  - unfold ascii_byte in Hb. cbn [decode_rune] in E. rewrite Hb in E. injection E as <- <-.
    apply negb_true_iff in Ha. unfold sep_byte in Ha. congruence.
  - apply auth_sep_low in Er. specialize (Hh eq_refl). simpl in Hh. lia.
Qed.

Lemma auth_tokens_app t c b rest :
  Forall (fun x : cell => auth_sep (fst x) = false) t -> auth_sep c = true ->
  auth_tokens (t ++ (c, b) :: rest) = t :: auth_tokens rest.
Proof.
  intros Ht Hc. induction Ht as [|[c' b'] t Hx _ IH]; cbn [app auth_tokens]; [by rewrite Hc|].
  cbn [fst] in Hx. rewrite Hx, IH. done.
Qed.

Definition read (key s : string) : option string := first_value key (auth_tokens (cells s)).

(** Reading skips a token that is not an assignment to the key. *)
Lemma read_step key t a rest :
  quiet t = true -> sep_byte a = true -> ascii_byte a = true ->
  read key (t +:+ String a rest)
  = match token_value key (cells t) with Some v => Some v | None => read key rest end.
Proof.
  intros Ht Ha Hb. unfold read. rewrite cells_app, cells_ascii by done.
  rewrite auth_tokens_app by (done || by apply cells_quiet_aux). done.
Qed.

Lemma after_needs lit s : (exists a, a ∈ lit /\ Forall (fun x : cell => fst x <> a) s) -> after lit s = None.
Proof.
  intros (a & Ha & Hs). revert s Hs. induction lit as [|b lit IH]; intros s Hs; [by apply not_elem_of_nil in Ha|].
  destruct s as [|[c x] s]; [done|]. cbn [after]. inversion Hs as [|? ? Hc Hs']; subst.
  apply elem_of_cons in Ha as [->|Ha]; [|by destruct (c =? b); [apply IH|]].
  by destruct (Z.eqb_spec c b).
Qed.

Definition no_eq (s : string) : bool := sforall (fun a => ascii_byte a && negb (Ascii.eqb a "=")) s.

(** A text without an equals sign assigns nothing. *)
Lemma token_value_no_eq key s : no_eq s = true -> token_value key (cells s) = None.
Proof.
  intros Hs. unfold no_eq in Hs. unfold token_value. rewrite after_needs; [done|]. exists 61. split; [set_solver|].
  induction s as [|a s IH]; [constructor|]. cbn [sforall] in Hs. apply andb_true_iff in Hs as [[Ha Hne]%andb_true_iff Hs].
  rewrite cells_ascii by done. constructor; [|by apply IH]. cbn [fst]. intros E.
  assert (code a = 61%N) by lia. apply negb_true_iff, Ascii.eqb_neq in Hne. apply Hne.
  rewrite <- (ascii_N_embedding a). unfold code in *. rewrite H. done.
Qed.

Definition letters (s : string) : bool := sforall (fun a => is_lower a) s.

Lemma letters_cells s : letters s = true ->
  cells s = (fun a => (Z.of_N (code a), chr a)) <$> list_ascii_of_string s
  /\ Forall (fun x : cell => letter_rune (fst x) = true) (cells s).
Proof.
  unfold letters. induction s as [|a s IH]; intros Hs; [done|]. cbn [sforall] in Hs. apply andb_true_iff in Hs as [Ha Hs].
  destruct (IH Hs) as [H1 H2]. unfold is_lower in Ha. apply andb_true_iff in Ha as [Hlo%N.leb_le Hhi%N.leb_le].
  rewrite cells_ascii by (apply N.ltb_lt; lia). split; [by rewrite H1|]. constructor; [|done].
  cbn [fst]. unfold letter_rune, ascii_range. apply orb_true_iff. left. apply andb_true_iff. rewrite !Z.leb_le. lia.
Qed.

Lemma span_all p s : Forall (fun x : cell => p (fst x) = true) s -> span_cells p s = (s, []).
Proof. induction 1 as [|[c b] s Hc _ IH]; [done|]. cbn [span_cells fst] in *. by rewrite Hc, IH. Qed.

(** The token key=letters assigns the letters. *)
Lemma token_value_assign key v :
  ascii_string key = true -> letters v = true -> v <> "" -> token_value key (cells (key +:+ "=" +:+ v)) = Some v.
Proof.
  intros Hk Hv Hne. unfold token_value. rewrite cells_ascii_app by done. cbn [String.append]. rewrite cells_ascii by done.
  assert (Ha : after (runes key ++ [61]) (cells key ++ (Z.of_N (code "="), chr "=") :: cells v) = Some (cells v)).
  { rewrite after_app. assert (forall r, after (runes key) (cells key ++ r) = Some r) as ->; [|done].
    intros r. unfold ascii_string in Hk. induction key as [|a key IH]; [done|]. cbn [sforall] in Hk.
    apply andb_true_iff in Hk as [Ha Hk]. rewrite runes_ascii, cells_ascii by done. cbn [app after].
    rewrite Z.eqb_refl. by apply IH. }
  rewrite Ha. destruct (letters_cells v Hv) as [_ Hl]. rewrite span_all by done. cbn [fst].
  destruct v as [|a v]; [done|]. destruct (cells (String a v)) as [|x l] eqn:E.
  - pose proof (text_of_cells (String a v)) as Ht. rewrite E in Ht. done.
  - by rewrite <- E, text_of_cells.
Qed.

(** ** The header text *)

(** The literal and the text differ within the text. *)
Fixpoint mismatch (lit : list Z) (s : list cell) : bool :=
  match lit, s with
  | a :: lit', (c, _) :: s' => negb (c =? a) || mismatch lit' s'
  | _, _ => false
  end.

Lemma token_other key prefix v :
  ascii_string prefix = true -> mismatch (runes key ++ [61]) (cells prefix) = true ->
  token_value key (cells (prefix +:+ v)) = None.
Proof.
  intros Ha Hm. unfold token_value. rewrite cells_ascii_app by done.
  assert (after (runes key ++ [61]) (cells prefix ++ cells v) = None) as ->; [|done].
  revert Hm. generalize (runes key ++ [61]) (cells prefix). intros lit l. revert lit.
  induction l as [|[c b] l IH]; intros [|a lit] Hm; cbn [mismatch after app] in *; try done.
  destruct (c =? a); [by apply IH|done].
Qed.

Definition auth_text (id r1 d1 r2 d2 r3 tail : string) : string :=
  id +:+ String ";" ("" +:+ String " " (("spf" +:+ "=" +:+ r1) +:+ String " " (("smtp.mailfrom=" +:+ d1)
  +:+ String ";" ("" +:+ String " " (("dkim" +:+ "=" +:+ r2) +:+ String " " (("header.d=" +:+ d2)
  +:+ String ";" ("" +:+ String " " (("dmarc" +:+ "=" +:+ r3) +:+ String " " tail)))))))).

Lemma quiet_app s t : quiet (s +:+ t) = quiet s && quiet t.
Proof. apply sforall_app. Qed.

Lemma letters_quiet s : letters s = true -> quiet s = true.
Proof.
  apply sforall_impl. intros a Ha. unfold is_lower in Ha. apply andb_true_iff in Ha as [Hlo%N.leb_le Hhi%N.leb_le].
  apply negb_true_iff. unfold sep_byte. destruct (auth_sep _) eqn:E; [|done]. apply sep_not_letter in E.
  unfold letter_rune, ascii_range in E. apply orb_false_iff in E as [E _]. apply andb_false_iff in E as [E|E];
    apply Z.leb_gt in E; lia.
Qed.

Lemma read_auth_text id r1 d1 r2 d2 r3 tail :
  quiet id = true -> no_eq id = true -> quiet d1 = true -> quiet d2 = true ->
  letters r1 = true -> letters r2 = true -> letters r3 = true -> r1 <> "" -> r2 <> "" -> r3 <> "" ->
  let s := auth_text id r1 d1 r2 d2 r3 tail in
  read "spf" s = Some r1 /\ read "dkim" s = Some r2 /\ read "dmarc" s = Some r3.
Proof.
  intros Hid He H1 H2 L1 L2 L3 N1 N2 N3 s. subst s. unfold auth_text.
  assert (Q : forall k v, letters v = true -> quiet k = true -> quiet (k +:+ "=" +:+ v) = true).
  { intros k v Hv Hk. rewrite !quiet_app, Hk, (letters_quiet v) by done. done. }
  assert (T : forall k1 k2 v, ascii_string k2 = true -> mismatch (runes k1 ++ [61]) (cells k2) = true ->
              token_value k1 (cells (k2 +:+ "=" +:+ v)) = None) by (intros; by apply token_other).
  split_and!; rewrite read_step, token_value_no_eq by done; (rewrite read_step by done);
    change (token_value ?k (cells "")) with (@None string); cbv iota; (rewrite read_step by (done || by apply Q)).
  - by rewrite token_value_assign.
  - rewrite T by done. rewrite read_step, token_other by (done || by rewrite quiet_app, H1). rewrite read_step by done.
    change (token_value ?k (cells "")) with (@None string). cbv iota. rewrite read_step by (done || by apply Q).
    by rewrite token_value_assign.
  - rewrite T by done. rewrite read_step, token_other by (done || by rewrite quiet_app, H1). rewrite read_step by done.
    change (token_value ?k (cells "")) with (@None string). cbv iota. rewrite read_step, T by (done || by apply Q).
    rewrite read_step, token_other by (done || by rewrite quiet_app, H2). rewrite read_step by done.
    change (token_value ?k (cells "")) with (@None string). cbv iota. rewrite read_step by (done || by apply Q).
    by rewrite token_value_assign.
Qed.

(** ** Reading back *)

Lemma quiet_ToLower s : quiet (ToLower s) = quiet s.
Proof.
  unfold quiet, ToLower. induction s as [|a s IH]; [done|]. cbn [smap sforall]. rewrite IH. f_equal. f_equal.
  by destruct a as [[] [] [] [] [] [] [] []].
Qed.

Lemma no_eq_ToLower s : no_eq (ToLower s) = no_eq s.
Proof.
  unfold no_eq, ToLower. induction s as [|a s IH]; [done|]. cbn [smap sforall]. rewrite IH. f_equal.
  by destruct a as [[] [] [] [] [] [] [] []].
Qed.

Lemma letters_ToLower s : letters s = true -> ToLower s = s.
Proof.
  unfold letters, ToLower. induction s as [|a s IH]; [done|]. cbn [smap sforall]. intros [Ha Hs]%andb_true_iff.
  rewrite IH by done. f_equal. unfold lower_byte. case_if; [|done].
  unfold is_lower, is_upper in *. bool_to_prop. rewrite !N.leb_le in *. lia.
Qed.

Definition blank_free (s : string) : bool := sforall (fun a => negb (ascii_space a)) s.

Lemma quiet_blank_free s : blank_free s = true -> lacks ";" s = true -> quiet s = true.
Proof.
  unfold blank_free, lacks. intros H1 H2. assert (H : sforall (fun a => negb (ascii_space a) && negb (Ascii.eqb a ";")) s = true)
    by (by rewrite sforall_and, H1, H2).
  revert H. apply sforall_impl. intros a. by destruct a as [[] [] [] [] [] [] [] []].
Qed.

Lemma quiet_safe d : blank_free d = true -> quiet (ToLower (safeAuthValue (emptyFallback d "unknown"))) = true.
Proof.
  intros Hd. rewrite quiet_ToLower. apply quiet_blank_free; [|apply safeAuthValue_lacks; auto].
  assert (He : blank_free (emptyFallback d "unknown") = true) by (unfold emptyFallback; by case_if).
  unfold safeAuthValue. case_if; [done|]. unfold blank_free in *.
  repeat (apply sforall_ReplaceAll; [|done]). by apply sforall_TrimSpace.
Qed.

(** The results a header can carry. *)
Definition result_words : list string := ["none"; "neutral"; "pass"; "fail"; "softfail"; "temperror"; "permerror"].

Lemma result_word r : r ∈ result_words ->
  letters r = true /\ r <> "" /\ ToLower (safeAuthValue r) = r.
Proof.
  unfold result_words. intros H. repeat (apply elem_of_cons in H as [->|H]; [done|]). by apply not_elem_of_nil in H.
Qed.

Ltac in_words := unfold result_words; repeat first [left | right].

Lemma evaluateAuthResults_words env lib rm raw res :
  evaluateAuthResults env lib rm raw = Some res ->
  SPFResult res ∈ result_words /\ DKIMResult res ∈ result_words /\ DMARCResult res ∈ result_words.
Proof.
  unfold evaluateAuthResults. destruct (evaluateSPF_result env (ParseIP (TrimSpace (rm_RemoteIP rm))) (rm_HELO rm) (rm_MailFrom rm))
    as (r & dom & det & -> & Hr).
  destruct (evaluateDKIM lib raw) as [[dr dd] ddet] eqn:Ek. destruct (evaluateDMARC _ _ _ _ _ _) as [mr mdet] eqn:Em.
  intros [= <-]. cbn [SPFResult DKIMResult DMARCResult]. split_and!.
  - unfold spf_results in Hr. unfold result_words. set_solver.
  - unfold evaluateDKIM in Ek. repeat case_match; injection Ek as <- <- <-; unfold result_words; set_solver.
  - unfold evaluateDMARC in Em. repeat case_match; injection Em as <- <-; unfold result_words; set_solver.
Qed.

(** A host name that can stand in front of the results. *)
Definition host_id (id : string) : bool := quiet id && no_eq id.

Lemma ToLower_Join v more : exists tail, ToLower (Join (v :: more) " ; ") = ToLower v +:+ tail.
Proof.
  destruct more as [|m more].
  - exists "". by rewrite sapp_nil_r.
  - exists (ToLower (" ; " +:+ Join (m :: more) " ; ")). rewrite <- ToLower_app. done.
Qed.

(** C12: the analyzer reads back what the receiver found. Whatever other
    Authentication-Results the message carries, the SPF, DKIM and DMARC results
    taken from the headers are those of the receiver's own evaluation, provided
    the sender domain and the signing domain contain no blank. *)
Theorem receiver_results_read_back env lib id rm raw res more :
  evaluateAuthResults env lib rm raw = Some res ->
  host_id id = true -> blank_free (SPFDomain res) = true -> blank_free (DKIMDomain res) = true ->
  let value := sdrop (String.length "Authentication-Results: ") (buildAuthenticationResultsHeader id res) in
  let s := ToLower (Join (value :: more) " ; ") in
  parseAuthResult s "spf" = SPFResult res
  /\ parseAuthResult s "dkim" = DKIMResult res
  /\ parseAuthResult s "dmarc" = DMARCResult res.
Proof.
  intros He Hid Hs Hd value s. destruct (evaluateAuthResults_words env lib rm raw res He) as (W1 & W2 & W3).
  apply result_word in W1 as (L1 & N1 & E1), W2 as (L2 & N2 & E2), W3 as (L3 & N3 & E3).
  set (id' := ToLower (if isEmpty (TrimSpace id) then "sender-report.local" else id)).
  assert (Hid' : quiet id' = true /\ no_eq id' = true).
  { unfold id'. rewrite quiet_ToLower, no_eq_ToLower. apply andb_true_iff in Hid. by case_if. }
  destruct (ToLower_Join value more) as [tail Ht]. fold s in Ht.
  assert (Hv : exists tail', s = auth_text id' (SPFResult res) (ToLower (safeAuthValue (emptyFallback (SPFDomain res) "unknown")))
     (DKIMResult res) (ToLower (safeAuthValue (emptyFallback (DKIMDomain res) "unknown"))) (DMARCResult res) tail').
  { eexists. rewrite Ht. unfold value, buildAuthenticationResultsHeader.
    change (sdrop (String.length "Authentication-Results: ") ("Authentication-Results: " +:+ ?x)) with x.
    rewrite !ToLower_app, E1, E2, E3. unfold auth_text. rewrite !sapp_assoc. reflexivity. }
  destruct Hv as [tail' ->].
  destruct (read_auth_text id' (SPFResult res) _ (DKIMResult res) _ (DMARCResult res) tail'
    (proj1 Hid') (proj2 Hid') (quiet_safe _ Hs) (quiet_safe _ Hd) L1 L2 L3 N1 N2 N3) as (R1 & R2 & R3).
  rewrite !parseAuthResult_tokens by done. unfold read in *. rewrite R1, R2, R3. cbn [default].
  by rewrite !letters_ToLower.
Qed.

Definition header_value (id : string) (res : authResults) : string :=
  sdrop (String.length "Authentication-Results: ") (buildAuthenticationResultsHeader id res).

Lemma receiver_results_read_back_witness :
  exists res, evaluateAuthResults outage_env sample_lib sample_mail "" = Some res
    /\ parseAuthResult (ToLower (Join [header_value "inbox.example" res; "mx.evil; dkim=fail; dmarc=fail"] " ; ")) "dkim"
       = DKIMResult res.
Proof.
  destruct (evaluateAuthResults outage_env sample_lib sample_mail "") as [res|] eqn:E; [|vm_compute in E; discriminate E].
  exists res. split; [reflexivity|].
  refine (proj1 (proj2 (receiver_results_read_back outage_env sample_lib "inbox.example" sample_mail "" res _ E _ _ _)));
    [reflexivity|vm_compute in E; injection E as <-; reflexivity..].
Defined.

(** A greeting with a blank forges the result: the name of the client stands in
    front of the DKIM result, and the blanks in it are kept. *)
Definition forging_mail : ReceivedMail :=
  mkReceivedMail "192.0.2.7" "evil.example dkim=pass dmarc=pass" "x" "tok@inbox.example" "" false.

Definition no_signature_lib : auth_lib :=
  mkAuthLib (fun _ => ([], None)) (fun _ => Err ErrNoPolicy) (fun _ => "relaxed") (fun _ => None) (fun _ => None) "now".

Example forged_dkim_result :
  exists res, evaluateAuthResults outage_env no_signature_lib forging_mail "" = Some res
    /\ DKIMResult res = "none" /\ DMARCResult res = "none"
    /\ parseAuthResult (ToLower (header_value "inbox.example" res)) "dkim" = "pass"
    /\ parseAuthResult (ToLower (header_value "inbox.example" res)) "dmarc" = "pass".
Proof. eexists. split; [vm_compute; reflexivity|]. vm_compute. done. Qed.
