(* ===== verification/Body.v ===== *)
(** * The body of a message (internal/analyzer/analyzer.go)

    The walk through the MIME parts, what it collects, and the checks on the
    structure of the body. The parsers of media types, multipart bodies and HTML
    are parameters ([body_lib]); the one-line summaries of checks are left out. *)

From S2P Require Import Prelude F64 GoStrings GoTime Regex GoNet Model Score Spf Checks Dkim MailHeaders.

Local Open Scope string_scope.
Local Open Scope list_scope.
Local Open Scope Z_scope.

(** ** Libraries *)

(** A node of a parsed HTML document; [Other] is a document, doctype or comment. *)
Inductive node :=
| Element (tag : string) (attrs : list (string * string)) (children : list node)
| Text (data : string)
| Other (children : list node).

(** A part of a multipart body: its header, the bytes its reader delivers and
    whether the reader then fails, and its file name. *)
Record mime_part := mkPart {
  mp_Header : mail_header;
  mp_Data : string;
  mp_Fails : bool;
  mp_FileName : string
}.

Record media_type := mkMediaType {
  mt_Type : string;
  mt_Params : gmap string string;
  mt_Err : bool
}.

Record body_lib := mkBodyLib {
  bl_ParseMediaType : string -> media_type;                 (** mime.ParseMediaType *)
  bl_Parts : string -> string -> list mime_part;            (** multipart.NewReader(body, boundary), NextPart up to its error *)
  bl_ParseHTML : string -> option node                      (** html.Parse *)
}.

Definition param (m : media_type) (k : string) : string := default "" (mt_Params m !! k).

(** ** Reading and decoding *)

Definition size (s : string) : Z := Z.of_nat (String.length s).

(** The loop of [readLimited]: stops silently at the limit; [None] when a line is
    too long for the scanner. The flag says whether all lines were read. *)
Fixpoint read_lines (limit : Z) (lines : list string) (b : string) : option (string * bool) :=
  match lines with
  | [] => Some (b, true)
  | l :: rest =>
      if limit - 1 <? size l then None
      else
        let line := dropCR l in
        if limit <? size b + size line + 1 then Some (b, false)
        else read_lines limit rest (b +:+ line +:+ lf)
  end.

(** [readLimited]; [None] is an error. *)
Definition readLimited (data : string) (fails : bool) (limit : Z) : option string :=
  match read_lines limit (raw_lines data) "" with
  | None => None
  | Some (b, complete) => if complete && fails then None else Some b
  end.

Definition removeCRLF (s : string) : string := ReplaceAll (ReplaceAll s (chr CR) "") (chr LF) "".

Definition decodeBody (headers : mail_header) (body : string) : string :=
  let enc := ToLower (TrimSpace (Get headers "Content-Transfer-Encoding")) in
  if String.eqb enc "base64" then default body (DecodeString (removeCRLF body)) else body.

(** ** HTML *)

Definition has_attr (attrs : list (string * string)) (k : string) : bool := existsb (fun a => String.eqb (fst a) k) attrs.

(** For every image in document order: does it have an alt attribute. *)
Fixpoint images (n : node) : list bool :=
  match n with
  | Element tag attrs children =>
      (if String.eqb tag "img" then [has_attr attrs "alt"] else []) ++ List.concat (List.map images children)
  | Text _ => []
  | Other children => List.concat (List.map images children)
  end.

(** The text nodes in document order. *)
Fixpoint texts (n : node) : list string :=
  match n with
  | Element _ _ children => List.concat (List.map texts children)
  | Text data => [data]
  | Other children => List.concat (List.map texts children)
  end.

Section WithLib.
Context (lib : body_lib).

Definition countImgsWithoutAlt (htmlStr : string) : Z * Z :=
  match bl_ParseHTML lib htmlStr with
  | None => (0, 0)
  | Some doc => (Z.of_nat (List.length (images doc)), Z.of_nat (List.length (List.filter negb (images doc))))
  end.

Definition stripHTML (html : string) : string :=
  if isEmpty (TrimSpace html) then ""
  else match bl_ParseHTML lib html with
       | None => html
       | Some doc => TrimSpace (String.concat "" ((fun t => t +:+ " ") <$> texts doc))
       end.

(** ** Parts *)

Record parsedBody := mkParsedBody {
  pb_Text : string;
  pb_HTML : string;
  pb_AllText : string;
  pb_PartCount : Z;
  pb_HasTextPart : bool;
  pb_HasHTMLPart : bool;
  pb_Attachments : Z;
  pb_Images : Z;
  pb_Charset : string
}.

Definition maxMIMEDepth : nat := 10.

Definition partLimit : Z := 2 * 1024 * 1024.

Definition part_type (part : mime_part) : media_type := bl_ParseMediaType lib (Get (mp_Header part) "Content-Type").

(** The bytes of a part; an error counts as no bytes. *)
Definition part_bytes (part : mime_part) : string := default "" (readLimited (mp_Data part) (mp_Fails part) partLimit).

Definition count_images (html : string) : Z := Z.of_nat (Count (ToLower html) "<img").

Definition with_charset (cs params_charset : string) : string := if isEmpty cs then ToLower params_charset else cs.

(** The branches of the loop for a part that is no container. *)
Definition add_part (pb : parsedBody) (part : mime_part) : parsedBody :=
  let t := part_type part in
  if String.eqb (mt_Type t) "text/plain" then
    mkParsedBody (pb_Text pb +:+ decodeBody (mp_Header part) (part_bytes part)) (pb_HTML pb) (pb_AllText pb)
      (pb_PartCount pb + 1) true (pb_HasHTMLPart pb) (pb_Attachments pb) (pb_Images pb)
      (with_charset (pb_Charset pb) (param t "charset"))
  else if String.eqb (mt_Type t) "text/html" then
    let h := decodeBody (mp_Header part) (part_bytes part) in
    mkParsedBody (pb_Text pb) (pb_HTML pb +:+ h) (pb_AllText pb)
      (pb_PartCount pb + 1) (pb_HasTextPart pb) true (pb_Attachments pb) (pb_Images pb + count_images h)
      (with_charset (pb_Charset pb) (param t "charset"))
  else
    mkParsedBody (pb_Text pb) (pb_HTML pb) (pb_AllText pb) (pb_PartCount pb + 1) (pb_HasTextPart pb) (pb_HasHTMLPart pb)
      (if negb (isEmpty (param t "name")) || negb (isEmpty (mp_FileName part)) then pb_Attachments pb + 1 else pb_Attachments pb)
      (pb_Images pb) (pb_Charset pb).

Definition is_container (part : mime_part) : bool := HasPrefix (mt_Type (part_type part)) "multipart/".

(** [levels] is how many levels may still be entered: [maxMIMEDepth + 1 - depth]. *)
Fixpoint walkMIMEParts (levels : nat) (pb : parsedBody) (body boundary : string) : parsedBody :=
  if isEmpty boundary then pb
  else match levels with
  | O => pb
  | S levels =>
      foldl (fun pb part =>
        if is_container part then walkMIMEParts levels pb (part_bytes part) (param (part_type part) "boundary")
        else add_part pb part) pb (bl_Parts lib body boundary)
  end.

(** ** The checks on the body *)

Definition ratio_too_high (imgs textLen : Z) : bool :=
  (0 <? imgs) && (0 <? textLen)
  && fltb (lit 6 10) (fdiv (f_of_Z imgs) (fadd (fdiv (f_of_Z textLen) (f_of_Z 100)) (f_of_Z imgs))).

Definition image_text_check (imgs textLen : Z) : CheckResult :=
  if (0 <? imgs) && (textLen <? 80) then fail "image_text_ratio" (lit (-7) 10)
  else if (3 <=? imgs) && (textLen <? 250) then warn "image_text_ratio" (lit (-4) 10)
  else if ratio_too_high imgs textLen then warn "image_text_ratio" (lit (-3) 10)
  else info "image_text_ratio" fzero.

Definition image_alt_check (html : string) : CheckResult :=
  let '(total, noAlt) := countImgsWithoutAlt html in
  if total =? 0 then info "image_alt" fzero
  else if noAlt =? 0 then pass "image_alt" fzero
  else if noAlt =? total then warn "image_alt" (lit (-4) 10)
  else warn "image_alt" (lit (-2) 10).

Definition plain_text_checks (pb : parsedBody) : list CheckResult :=
  if isEmpty (pb_Text pb) && negb (isEmpty (pb_HTML pb)) then [warn "plain_text" (lit (-5) 10)]
  else if negb (isEmpty (pb_Text pb)) then [pass "plain_text" (lit 1 10)]
  else [].

Definition alternative_checks (pb : parsedBody) : list CheckResult :=
  if pb_HasTextPart pb && pb_HasHTMLPart pb then [pass "multipart_alt" (lit 2 10)]
  else if pb_HasHTMLPart pb || pb_HasTextPart pb then [info "multipart_alt" fzero]
  else [].

Definition set_AllText (pb : parsedBody) (all : string) : parsedBody :=
  mkParsedBody (pb_Text pb) (pb_HTML pb) all (pb_PartCount pb) (pb_HasTextPart pb) (pb_HasHTMLPart pb)
    (pb_Attachments pb) (pb_Images pb) (pb_Charset pb).

(** The checks once the parts are collected. *)
Definition body_checks (pb : parsedBody) : list CheckResult * parsedBody :=
  let textLen := Z.of_nat (List.length (runes (stripHTML (pb_HTML pb)))) in
  let out :=
    plain_text_checks pb ++ alternative_checks pb
    ++ (if 0 <? pb_Attachments pb then [info "attachments" fzero] else [])
    ++ [image_text_check (pb_Images pb) textLen]
    ++ (if pb_HasHTMLPart pb then [image_alt_check (pb_HTML pb)] else []) in
  let all := TrimSpace (pb_Text pb +:+ lf +:+ stripHTML (pb_HTML pb)) in
  let charset :=
    if negb (isEmpty (pb_Charset pb)) && negb (String.eqb (pb_Charset pb) "utf-8") && negb (String.eqb (pb_Charset pb) "us-ascii")
    then warn "charset" (lit (-3) 10) else pass "charset" (lit 1 10) in
  (out ++ [charset], if isEmpty all then pb else set_AllText pb all).

Definition inspectBody (headers : mail_header) (body : string) : list CheckResult * parsedBody :=
  let pb := mkParsedBody "" "" body 0 false false 0 0 "" in
  let t := bl_ParseMediaType lib (Get headers "Content-Type") in
  if mt_Err t then ([warn "mime_ct" (lit (-4) 10)], pb)
  else
    let charset := ToLower (param t "charset") in
    let pb := mkParsedBody "" "" body 0 false false 0 0 charset in
    if HasPrefix (mt_Type t) "multipart/" then
      let boundary := param t "boundary" in
      if isEmpty boundary then ([fail "mime_boundary" (f_of_Z (-1))], pb)
      else body_checks (walkMIMEParts (S maxMIMEDepth) pb body boundary)
    else if String.eqb (mt_Type t) "text/plain" then
      body_checks (mkParsedBody (decodeBody headers body) "" body 1 true false 0 0 charset)
    else if String.eqb (mt_Type t) "text/html" then
      let h := decodeBody headers body in
      body_checks (mkParsedBody "" h body 1 false true 0 (count_images h) charset)
    else body_checks (mkParsedBody "" "" body 1 false false 0 0 charset).

(** ** What the walk collects *)

(** The parts that are no containers, in the order of the message. *)
Fixpoint leaves (levels : nat) (body boundary : string) : list mime_part :=
  if isEmpty boundary then []
  else match levels with
  | O => []
  | S levels =>
      List.concat (List.map (fun part =>
        if is_container part then leaves levels (part_bytes part) (param (part_type part) "boundary")
        else [part]) (bl_Parts lib body boundary))
  end.

Lemma walk_leaves levels pb body boundary :
  walkMIMEParts levels pb body boundary = foldl add_part pb (leaves levels body boundary).
Proof.
  revert pb body boundary. induction levels as [|levels IH]; intros pb body boundary; cbn [walkMIMEParts leaves];
    case_if; try done.
  generalize (bl_Parts lib body boundary) as parts. intros parts. revert pb.
  induction parts as [|part parts IHp]; intros pb; cbn [foldl List.map List.concat]; [done|].
  rewrite foldl_app, IHp. f_equal. destruct (is_container part); [apply IH|done].
Qed.

Definition is_plain (part : mime_part) : bool := String.eqb (mt_Type (part_type part)) "text/plain".
Definition is_html (part : mime_part) : bool := String.eqb (mt_Type (part_type part)) "text/html".
Definition is_attachment (part : mime_part) : bool :=
  negb (is_plain part) && negb (is_html part)
  && (negb (isEmpty (param (part_type part) "name")) || negb (isEmpty (mp_FileName part))).
Definition decoded (part : mime_part) : string := decodeBody (mp_Header part) (part_bytes part).

Definition count_if (p : mime_part -> bool) (l : list mime_part) : Z := Z.of_nat (List.length (List.filter p l)).
Definition join_if (p : mime_part -> bool) (l : list mime_part) : string := String.concat "" (decoded <$> List.filter p l).

Lemma concat_cons a l : String.concat "" (a :: l) = a +:+ String.concat "" l.
Proof. destruct l; simpl; [by rewrite sapp_nil_r|done]. Qed.

Lemma add_part_fields pb part :
  let pb' := add_part pb part in
  pb_Text pb' = pb_Text pb +:+ (if is_plain part then decoded part else "")
  /\ pb_HTML pb' = pb_HTML pb +:+ (if is_html part then decoded part else "")
  /\ pb_PartCount pb' = pb_PartCount pb + 1
  /\ pb_HasTextPart pb' = pb_HasTextPart pb || is_plain part
  /\ pb_HasHTMLPart pb' = pb_HasHTMLPart pb || is_html part
  /\ pb_Attachments pb' = pb_Attachments pb + (if is_attachment part then 1 else 0)
  /\ pb_Images pb' = pb_Images pb + (if is_html part then count_images (decoded part) else 0).
Proof.
  unfold add_part, is_attachment, is_plain, is_html, decoded. cbv zeta.
  destruct (String.eqb (mt_Type (part_type part)) "text/plain") eqn:E1.
  { apply String.eqb_eq in E1. rewrite E1. simpl. rewrite !sapp_nil_r, orb_true_r, orb_false_r. split_and!; try done; lia. }
  destruct (String.eqb (mt_Type (part_type part)) "text/html"); simpl; rewrite ?sapp_nil_r, ?orb_true_r, ?orb_false_r;
    split_and!; try done; try lia. case_if; lia.
Qed.

Lemma fold_parts pb parts :
  let pb' := foldl add_part pb parts in
  pb_Text pb' = pb_Text pb +:+ join_if is_plain parts
  /\ pb_HTML pb' = pb_HTML pb +:+ join_if is_html parts
  /\ pb_PartCount pb' = pb_PartCount pb + Z.of_nat (List.length parts)
  /\ pb_HasTextPart pb' = pb_HasTextPart pb || existsb is_plain parts
  /\ pb_HasHTMLPart pb' = pb_HasHTMLPart pb || existsb is_html parts
  /\ pb_Attachments pb' = pb_Attachments pb + count_if is_attachment parts
  /\ pb_Images pb' = pb_Images pb + foldr Z.add 0 ((fun p => count_images (decoded p)) <$> List.filter is_html parts).
Proof.
  revert pb. induction parts as [|part parts IH]; intros pb.
  { cbn. rewrite !sapp_nil_r, !orb_false_r. split_and!; try done; unfold count_if; simpl; lia. }
  cbn [foldl]. destruct (IH (add_part pb part)) as (T & H & P & HT & HH & A & I).
  destruct (add_part_fields pb part) as (T' & H' & P' & HT' & HH' & A' & I'). cbv zeta in *.
  rewrite T, H, P, HT, HH, A, I, T', H', P', HT', HH', A', I'. unfold join_if, count_if. cbn [existsb List.filter List.length].
  rewrite !sapp_assoc, !orb_assoc. split_and!; try done; try lia;
    try (destruct (is_plain part); [rewrite fmap_cons, concat_cons; done|done]);
    try (destruct (is_html part); [rewrite fmap_cons, concat_cons; done|done]).
  - destruct (is_attachment part); cbn [List.length]; lia.
  - destruct (is_html part); [rewrite fmap_cons; cbn [foldr]|]; lia.
Qed.
End WithLib.

(** ** Parts at every depth *)

(** A part that is no container, inside [d] nested containers. *)
Inductive nested (lib : body_lib) : nat -> string -> string -> mime_part -> Prop :=
| nested_here body boundary part :
    boundary <> "" -> part ∈ bl_Parts lib body boundary -> is_container lib part = false ->
    nested lib 0 body boundary part
| nested_in d body boundary c part :
    boundary <> "" -> c ∈ bl_Parts lib body boundary -> is_container lib c = true ->
    nested lib d (part_bytes c) (param (part_type lib c) "boundary") part ->
    nested lib (S d) body boundary part.

Lemma leaves_nested lib levels body boundary part :
  part ∈ leaves lib levels body boundary <-> exists d, (d < levels)%nat /\ nested lib d body boundary part.
Proof.
  revert body boundary. induction levels as [|levels IH]; intros body boundary; cbn [leaves].
  { case_if; (split; [by intros ?%not_elem_of_nil|intros (d & ? & _); lia]). }
  case_if.
  { apply isEmpty_true in Hif as ->. split; [by intros ?%not_elem_of_nil|]. intros (d & _ & H). by inversion H. }
  apply isEmpty_false in Hif. rewrite list_elem_of_In, in_concat. setoid_rewrite in_map_iff. split.
  - intros (l & (c & <- & Hc%list_elem_of_In) & Hp%list_elem_of_In). destruct (is_container lib c) eqn:E.
    + apply IH in Hp as (d & Hd & Hn). exists (S d). split; [lia|]. by eapply nested_in.
    + apply list_elem_of_singleton in Hp as ->. exists 0%nat. split; [lia|]. by apply nested_here.
  - intros (d & Hd & Hn). inversion Hn as [? ? ? _ Hp Hc|d' ? ? c ? _ Hin Hc Hn']; subst.
    + exists [part]. split; [exists part; rewrite Hc; split; [done|by apply list_elem_of_In]|by left].
    + exists (leaves lib levels (part_bytes c) (param (part_type lib c) "boundary")). split.
      * exists c. rewrite Hc. split; [done|by apply list_elem_of_In].
      * apply list_elem_of_In, IH. exists d'. split; [lia|done].
Qed.

(** The walk through a multipart body finds every part within ten nested
    containers and collects them in the order of the message: the text and the
    HTML are those of the plain and HTML parts, every part that is no container
    is counted once, and attachments and images are counted on every level. *)
Theorem mime_walk_collects lib body boundary charset :
  let pb := walkMIMEParts lib (S maxMIMEDepth) (mkParsedBody "" "" body 0 false false 0 0 charset) body boundary in
  let parts := leaves lib (S maxMIMEDepth) body boundary in
  (forall part, part ∈ parts <-> exists d, (d <= maxMIMEDepth)%nat /\ nested lib d body boundary part)
  /\ pb_Text pb = join_if (is_plain lib) parts
  /\ pb_HTML pb = join_if (is_html lib) parts
  /\ pb_PartCount pb = Z.of_nat (List.length parts)
  /\ pb_HasTextPart pb = existsb (is_plain lib) parts
  /\ pb_HasHTMLPart pb = existsb (is_html lib) parts
  /\ pb_Attachments pb = count_if (is_attachment lib) parts
  /\ pb_Images pb = foldr Z.add 0 ((fun p => count_images (decoded p)) <$> List.filter (is_html lib) parts).
Proof.
  intros pb parts. subst pb. rewrite walk_leaves. fold parts.
  destruct (fold_parts lib (mkParsedBody "" "" body 0 false false 0 0 charset) parts) as (T & H & P & HT & HH & A & I).
  split_and!; [|done..]. intros part. unfold parts. rewrite leaves_nested. split; intros (d & Hd & Hn); exists d; split; try done; lia.
Qed.

(** What [readLimited] returns fits its limit. *)
Lemma readLimited_bound data fails limit s : 0 <= limit -> readLimited data fails limit = Some s -> size s <= limit.
Proof.
  intros Hl. unfold readLimited.
  assert (H : forall lines b r c, size b <= limit -> read_lines limit lines b = Some (r, c) -> size r <= limit).
  { induction lines as [|l lines IH]; intros b r c Hb; cbn [read_lines]; [by intros [= <- _]|].
    case_if; [done|]. case_if; [by intros [= <- _]|]. apply IH. unfold size in *. bool_to_prop. rewrite !slength_app. simpl. lia. }
  destruct (read_lines limit (raw_lines data) "") as [[b c]|] eqn:E; [|done]. case_if; [done|]. intros [= <-].
  eapply H; [|exact E]. unfold size. simpl. lia.
Qed.

(** A body cut off at the limit is not reported as an error. *)
Example readLimited_truncates : readLimited ("aaaa" +:+ lf +:+ "bbbb" +:+ lf) false 6 = Some ("aaaa" +:+ lf).
Proof. vm_compute. reflexivity. Qed.
