(* ===== verification/Content.v ===== *)
(** * Content checks (internal/analyzer/analyzer.go)

    Links, HTML, subject, header fields, Unicode tricks and newsletter rules.
    Third-party parsers and the tables of package unicode are parameters
    ([content_lib]); an HTTP request for a link is a function. The one-line
    summaries of checks are left out, their technical details are kept. *)

From S2P Require Import Prelude F64 GoStrings GoTime Regex GoNet Model Score Spf Checks Dkim MailHeaders Body.

Local Open Scope string_scope.
Local Open Scope list_scope.
Local Open Scope Z_scope.

(** A parsed URL: host with port, host without, and the names of its query. *)
Record url_parts := mkURL { u_Host : string; u_Hostname : string; u_Query : list string }.

Record content_lib := mkContentLib {
  cl_body : body_lib;
  cl_ParseURL : string -> option url_parts;           (** url.Parse *)
  cl_PublicSuffix : string -> string * bool;          (** publicsuffix.PublicSuffix *)
  cl_EffectiveTLDPlusOne : string -> option string;   (** publicsuffix.EffectiveTLDPlusOne *)
  cl_ParseAddress : string -> option mail_address;    (** mail.ParseAddress *)
  cl_ParseDate : string -> option Z;                  (** mail.ParseDate *)
  cl_IsLetter : Z -> bool;                            (** unicode.IsLetter *)
  cl_IsUpper : Z -> bool;                             (** unicode.IsUpper *)
  cl_Quote : string -> string                         (** the %q verb *)
}.

(** ** Links *)

(** http or https, and then everything up to a blank, a quote, an angle or a
    closing parenthesis. *)
Definition link_pattern : regex :=
  seq_of [rlit "http"; ropt (rlit "s"); rlit "://";
          rplus (RSet (fun c => negb (space_rune c || (c =? 34) || rune_in "'>)" c)))].
Definition extractLinks (s : string) : list string := FindAllString link_pattern s.

Definition shorteners : list string := ["bit.ly"; "tinyurl.com"; "t.co"; "goo.gl"; "is.gd"; "ow.ly"].

Definition is_tracking_key (q : string) : bool :=
  let lq := ToLower q in HasPrefix lq "utm_" || Contains lq "track" || Contains lq "mc_eid".

(** The placeholders of mail templates. *)
Definition templatePlaceholderRE : regex :=
  let not_in s := RSet (fun c => negb (rune_in s c)) in
  let not_brace := RSet (fun c => negb ((c =? 125) || space_rune c)) in
  RGroup (alt_of
    [seq_of [rlit "{"; between1 50 not_brace; rlit "}"];
     seq_of [rlit "*|"; between1 30 (not_in "|"); rlit "|*"];
     seq_of [rlit "%7B"; between1 40 (not_in "%"); rlit "%7D"];
     seq_of [rlit "${"; between1 30 not_brace; rlit "}"]]).

(** Meta refresh, case-insensitive. *)
Definition metaRefreshRE : regex :=
  let blanks := RStar (RSet space_rune) in
  seq_of [ilit "<meta"; rplus (RSet (fun c => negb (c =? 62))); ilit "http-equiv"; blanks; ilit "="; blanks;
          ropt (RSet (fun c => (c =? 34) || (c =? 39))); ilit "refresh"].

(** Links that act when opened. *)
Definition action_words : list string :=
  ["unsub"; "un-sub"; "abmeld"; "abbestell"; "optout"; "opt-out"; "austrag"; "confirm"; "bestaetig"; "bestätig";
   "doubleopt"; "double-opt"; "verify"; "activate"; "aktivier"].

(** The word double-?opt is written out as its two spellings. *)
Definition actionLinkPattern : regex := RGroup (alt_of (ilit <$> action_words)).
Definition isActionLink (u : string) : bool := MatchString actionLinkPattern u.

(** Wording of an unsubscribe line. *)
Definition bulkContentPattern : regex :=
  RGroup (alt_of [ilit "abmelden"; ilit "abbestellen"; ilit "austragen"; ilit "unsubscribe"; ilit "newsletter abbestellen";
    ilit "aus dem verteiler"; ilit "vom newsletter"; seq_of [ilit "opt"; ropt (RSet dot_rune); ilit "out"]; ilit "abmeldelink"]).

Definition looksLikeBulkContent (headers : mail_header) (body : parsedBody) : bool :=
  if negb (MatchString bulkContentPattern (pb_AllText body)) then false
  else if negb (pb_HasHTMLPart body) then false
  else if (Count (ToLower (pb_HTML body)) "<a " <? 5)%nat then false
  else if negb (isEmpty (TrimSpace (Get headers "In-Reply-To"))) || negb (isEmpty (TrimSpace (Get headers "References"))) then false
  else true.

(** Up to five different placeholders, in the order of their first appearance. *)
Fixpoint collect_placeholders (ms found : list string) : list string :=
  match ms with
  | [] => found
  | m :: rest =>
      if negb (existsb (String.eqb m) found) && (List.length found <? 5)%nat
      then collect_placeholders rest (found ++ [m])
      else collect_placeholders rest found
  end.

Definition templateURLCheck (links : list string) (mailType : string) : CheckResult :=
  if String.eqb mailType "personal" || String.eqb mailType "transactional" then na "template_urls"
  else match links with
  | [] => info "template_urls" fzero
  | _ => match collect_placeholders (List.concat (List.map (FindAllString templatePlaceholderRE) links)) [] with
         | [] => pass "template_urls" fzero
         | _ => fail "template_urls" (lit (-6) 10)
         end
  end.

Section WithLib.
Context (lib : content_lib).

Definition evaluateURLs (links : list string) : list CheckResult * list string :=
  match links with
  | [] => ([info "links" fzero], [])
  | _ =>
      let urls := omap (cl_ParseURL lib) links in
      let shortCount := List.length (List.filter (fun u => one_of (ToLower (TrimPrefix (u_Hostname u) "www.")) shorteners) urls) in
      let tracking := List.length (List.filter (fun u => existsb is_tracking_key (u_Query u)) urls) in
      let n := List.length links in
      ([info "links" fzero]
       ++ (if (0 <? shortCount)%nat then [warn "shortener" (lit (-6) 10)] else [])
       ++ (if (0 <? tracking)%nat then [info "tracking_links" fzero] else [])
       ++ (if (30 <? n)%nat then [warn "too_many_links" (lit (-3) 10)]
           else if (5 <=? n)%nat then [info "too_many_links" fzero] else []),
       if (0 <? shortCount)%nat then ["URL-Shortener erkannt"] else [])
  end.

(** ** Visible text and target of a link *)

Definition getOrgDomain (host : string) : string :=
  let host := ToLower (TrimSpace host) in
  let host := default "" (head (Split host ":")) in
  default host (cl_EffectiveTLDPlusOne lib host).

Definition fileishTLDs : list string := ["zip"; "mov"].

Definition looksLikeDomain (s : string) : bool :=
  let s := ToLower (TrimSpace s) in
  if isEmpty s || Contains s " " || HasSuffix s "." || negb (Contains s ".") then false
  else
    let '(suffix, icann) := cl_PublicSuffix lib s in
    if negb icann || isEmpty suffix || one_of suffix fileishTLDs then false
    else (String.length suffix + 1 <? String.length s)%nat.

Definition first_attr (attrs : list (string * string)) (k : string) : string :=
  match List.find (fun a => String.eqb (fst a) k) attrs with Some a => snd a | None => "" end.

(** The links of a document in order: target and visible text. *)
Fixpoint anchors (n : node) : list (string * string) :=
  match n with
  | Element tag attrs children =>
      (if String.eqb tag "a" then [(first_attr attrs "href", String.concat "" (texts n))] else [])
      ++ List.concat (List.map anchors children)
  | Text _ => []
  | Other children => List.concat (List.map anchors children)
  end.

(** A link whose text names another domain than its target: the domain of the
    text and the example shown. *)
Definition mismatch_of (a : string * string) : option (string * string) :=
  let '(href, text) := a in
  if isEmpty href || negb (HasPrefix href "http://" || HasPrefix href "https://") then None
  else match cl_ParseURL lib href with
  | None => None
  | Some hrefURL =>
      if isEmpty (u_Host hrefURL) then None
      else
        let linkText := TrimSpace text in
        let bare := TrimPrefix (TrimPrefix linkText "https://") "http://" in
        let bare := TrimSuffix bare "/" in
        if negb (looksLikeDomain bare) then None
        else match cl_ParseURL lib ("https://" +:+ bare) with
        | None => None
        | Some textURL =>
            if isEmpty (u_Host textURL) then None
            else
              let hrefOrg := getOrgDomain (u_Host hrefURL) in
              let textOrg := getOrgDomain (u_Host textURL) in
              if negb (isEmpty hrefOrg) && negb (isEmpty textOrg) && negb (String.eqb hrefOrg textOrg)
              then Some (textOrg, cl_Quote lib linkText +:+ " → " +:+ u_Host hrefURL) else None
        end
  end.

Definition linkDomainMismatchCheck (htmlBody fromDomain : string) : CheckResult :=
  if isEmpty (TrimSpace htmlBody) then info "link_domain_mismatch" fzero
  else match bl_ParseHTML (cl_body lib) htmlBody with
  | None => info "link_domain_mismatch" fzero
  | Some doc =>
      let senderOrg := getOrgDomain (normDomain fromDomain) in
      let found := omap mismatch_of (anchors doc) in
      let own m := negb (isEmpty senderOrg) && String.eqb (fst m) senderOrg in
      let foreign := snd <$> List.filter (fun m => negb (own m)) found in
      let tracking := snd <$> List.filter own found in
      match foreign, tracking with
      | _ :: _, _ => withDetails (fail "link_domain_mismatch" fzero) {["betroffene_links" := Join (take 3 foreign) lf]}
      | [], _ :: _ => withDetails (info "link_domain_mismatch" fzero) {["betroffene_links" := Join (take 3 tracking) lf]}
      | [], [] => pass "link_domain_mismatch" fzero
      end
  end.

(** ** Broken links *)

(** One HTTP request: the status code, or a transport error. *)
Context (probe : string -> string -> option Z).

Record link_result := mkLinkResult { lr_url : string; lr_ok : bool; lr_status : Z; lr_unreachable : bool }.

(** The links to open and those left alone, each once, in order. *)
Fixpoint split_links (links seen : list string) : list string * list string :=
  match links with
  | [] => ([], [])
  | l :: rest =>
      if negb (existsb (String.eqb l) seen) && (HasPrefix l "http://" || HasPrefix l "https://") then
        let '(unique, skipped) := split_links rest (l :: seen) in
        if isActionLink l then (unique, l :: skipped) else (l :: unique, skipped)
      else split_links rest seen
  end.

Definition probed_links (links : list string) : list string := take 50 (fst (split_links links [])).

(** HEAD, and GET where HEAD is not allowed. *)
Definition probe_result (u : string) : link_result :=
  let answer := match probe "HEAD" u with Some 405 => probe "GET" u | a => a end in
  match answer with
  | None => mkLinkResult u false 0 true
  | Some status =>
      mkLinkResult u (status <? 400) status ((status =? 401) || (status =? 403) || (status =? 429))
  end.

Definition statusNote (status : Z) : string :=
  if status =? 0 then "keine Antwort oder Zeitüberschreitung"
  else if (status =? 401) || (status =? 403) then
    "HTTP " +:+ Itoa status +:+ " – vom Schutzdienst der Zielseite abgewiesen, nicht defekt"
  else if status =? 429 then "HTTP 429 – Zugriffsgrenze der Zielseite erreicht"
  else "HTTP " +:+ Itoa status.

Definition is_broken (r : link_result) : bool := negb (lr_unreachable r) && negb (lr_ok r).

(** The verdict on the results, in the order in which they arrived. *)
Definition broken_links_verdict (results : list link_result) (skipped : list string) : CheckResult :=
  let broken := List.filter is_broken results in
  let unreachable := List.filter lr_unreachable results in
  let total := Z.of_nat (List.length results) in
  let det : gmap string string :=
    {["geprueft" := Itoa total;
      "defekt" := joinOrNone ((fun r => lr_url r +:+ " (HTTP " +:+ Itoa (lr_status r) +:+ ")") <$> take 5 broken);
      "nicht_pruefbar" := joinOrNone ((fun r => lr_url r +:+ " (" +:+ statusNote (lr_status r) +:+ ")") <$> take 5 unreachable);
      "nicht_abgerufen" := joinOrNone skipped;
      "nicht_abgerufen_grund" := "Abmelde- und Bestätigungslinks werden bewusst nicht geöffnet, weil ein Aufruf sie auslösen würde."]} in
  match broken, unreachable with
  | [], [] => withDetails (pass "broken_links" fzero) det
  | [], _ :: _ => withDetails (info "broken_links" fzero) det
  | _ :: _, _ =>
      withDetails (warn "broken_links" (fdiv (fmul (lit (-4) 10) (f_of_Z (Z.of_nat (List.length broken)))) (f_of_Z (total + 1)))) det
  end.

(** [arrive] is the order in which the concurrent probes finish. *)
Definition brokenLinksCheck (arrive : list link_result -> list link_result) (links : list string) : CheckResult :=
  match links with
  | [] => info "broken_links" fzero
  | _ => broken_links_verdict (arrive (probe_result <$> probed_links links)) (snd (split_links links []))
  end.

(** ** HTML *)

Definition htmlHeuristics (htmlBody : string) : list CheckResult :=
  if isEmpty (TrimSpace htmlBody) then [info "html" fzero]
  else
    let lower := ToLower htmlBody in
    let hiddenCount := (Count lower "display:none" + Count lower "font-size:0" + Count lower "visibility:hidden")%nat in
    [ (if (3 <? hiddenCount)%nat then warn "hidden_html" (lit (-4) 10) else pass "hidden_html" (lit 1 10));
      (match bl_ParseHTML (cl_body lib) htmlBody with
       | None => warn "html_validity" (lit (-4) 10)
       | Some _ => pass "html_validity" (lit 1 10)
       end);
      (if Contains lower "<script" then fail "harmful_html" (lit (-7) 10)
       else if MatchString metaRefreshRE htmlBody then warn "harmful_html" (lit (-4) 10)
       else pass "harmful_html" (lit 1 10)) ].

(** ** Subject *)

Definition subjectHeuristics (subject : string) : list CheckResult * list string :=
  let subject := TrimSpace subject in
  if isEmpty subject then ([warn "subject" (lit (-7) 10)], [])
  else
    let exclaim := (3 <=? Count subject "!")%nat in
    let letters := List.filter (cl_IsLetter lib) (runes subject) in
    let n := Z.of_nat (List.length letters) in
    let upper := Z.of_nat (List.length (List.filter (cl_IsUpper lib) letters)) in
    let caps := (8 <? n) && fltb (lit 7 10) (fdiv (f_of_Z upper) (f_of_Z n)) in
    ([pass "subject" (lit 1 10)]
     ++ (if exclaim then [warn "subject_exclaim" (lit (-4) 10)] else [])
     ++ (if caps then [warn "subject_caps" (lit (-5) 10)] else []),
     (if exclaim then ["Betreff mit vielen Ausrufezeichen"] else []) ++ (if caps then ["All-caps Betreff"] else [])).

(** ** Header fields *)

Definition date_checks (headers : mail_header) (now : Z) : list CheckResult * list string :=
  let dateRaw := Get headers "Date" in
  if isEmpty dateRaw then ([warn "date" (lit (-6) 10)], [])
  else match cl_ParseDate lib dateRaw with
  | None => ([warn "date" (lit (-5) 10)], [])
  | Some t =>
      let delta := now - t in
      if (delta <? - (2 * hour)) || (14 * 24 * hour <? delta)
      then ([warn "date_skew" (lit (-4) 10)], ["Date-Header zeitlich auffällig"])
      else ([pass "date" (lit 1 10)], [])
  end.

Definition valid_message_id (msgID : string) : bool :=
  HasPrefix msgID "<" && HasSuffix msgID ">"
  && match Index msgID "@" with
     | None => false
     | Some i => (1 <? i)%nat && (i <? String.length msgID - 1)%nat
     end.

Definition message_id_checks (headers : mail_header) : list CheckResult * list string :=
  let msgID := TrimSpace (firstNonEmpty [Get headers "Message-Id"; Get headers "Message-ID"]) in
  if isEmpty msgID then ([fail "message_id" (lit (-8) 10)], [])
  else if valid_message_id msgID then ([pass "message_id" (lit 1 10); pass "message_id_format" fzero], [])
  else ([pass "message_id" (lit 1 10); warn "message_id_format" (lit (-3) 10)], ["Ungültiges Message-ID Format"]).

Definition reply_prefixes : list string :=
  ["re:"; "fwd:"; "fw:"; "aw:"; "wg:"; "sv:"; "vs:"; "ynt:"; "odp:"; "res:"; "tr:"; "ref:"; "enc:"].

Definition fake_reply_checks (headers : mail_header) : list CheckResult * list string :=
  let subject := TrimSpace (Get headers "Subject") in
  if negb (isEmpty subject) && existsb (HasPrefix (ToLower subject)) reply_prefixes
     && negb (has headers "In-Reply-To" || has headers "References")
  then ([warn "fake_reply" (lit (-4) 10)], ["Fake-Antwort-Präfix im Betreff"]) else ([], []).

Definition no_reply_checks (headers : mail_header) : list CheckResult :=
  let fromAddr := ToLower (Get headers "From") in
  if existsb (Contains fromAddr) ["noreply"; "no-reply"; "donotreply"; "do-not-reply"]
     && isEmpty (TrimSpace (Get headers "Reply-To"))
  then [warn "no_reply_reply_to" (lit (-2) 10)] else [].

Definition headerHeuristics (headers : mail_header) (now : Z) : list CheckResult * list string :=
  let '(c1, w1) := date_checks headers now in
  let '(c2, w2) := message_id_checks headers in
  let '(c3, w3) := fake_reply_checks headers in
  (c1 ++ c2 ++ c3 ++ no_reply_checks headers, w1 ++ w2 ++ w3).

(** ** Unicode *)

(** U+200B, U+200C and U+2060 in UTF-8. *)
Definition utf8_3 (a b c : N) : string := String (ascii_of_N a) (String (ascii_of_N b) (chr (ascii_of_N c))).
Definition zwsp : string := utf8_3 226 128 139.
Definition zwnj : string := utf8_3 226 128 140.
Definition wj : string := utf8_3 226 129 160.

Definition unicodeObfuscationCheck (text : string) : CheckResult * string :=
  if isEmpty text then (info "unicode" fzero, "")
  else
    let zwCount := (Count text zwsp + Count text zwnj + Count text wj)%nat in
    let rs := runes text in
    let nonASCII := Z.of_nat (List.length (List.filter (fun r => 127 <? r) rs)) in
    if (2 <? zwCount)%nat then (warn "unicode" (lit (-6) 10), "Zero-width obfuscation erkannt")
    else if (0 <? nonASCII) && fltb (lit 6 10) (fdiv (f_of_Z nonASCII) (f_of_Z (Z.of_nat (List.length rs))))
    then (info "unicode" fzero, "")
    else (pass "unicode" (lit 1 10), "").

(** ** Newsletters *)

Definition one_click_post (headers : mail_header) : bool :=
  Contains (ToLower (Get headers "List-Unsubscribe-Post")) "list-unsubscribe=one-click".

Definition preheader_checks (body : parsedBody) : list CheckResult :=
  let htmlLower := ToLower (pb_HTML body) in
  if Contains htmlLower "preheader" || Contains htmlLower "display:none" then [info "preheader" fzero]
  else if pb_HasHTMLPart body then [warn "preheader" (lit (-2) 10)]
  else [].

Definition bulk_checks (headers : mail_header) : list CheckResult :=
  let listUnsub := Get headers "List-Unsubscribe" in
  if isEmpty listUnsub then [warn "list_unsub" (lit (-7) 10); na "one_click_unsub"]
  else
    let hasPost := one_click_post headers in
    let hasHTTPS := Contains (ToLower listUnsub) "https://" in
    [ pass "list_unsub" (lit 2 10);
      (if hasPost && negb hasHTTPS then warn "one_click_unsub" (lit (-3) 10)
       else if hasPost then pass "one_click_unsub" (lit 1 10)
       else warn "one_click_unsub" (lit (-3) 10)) ].

Definition unknown_type_checks (headers : mail_header) (body : parsedBody) : list CheckResult :=
  let newsletterHint := Contains (ToLower (pb_AllText body)) "unsubscribe"
    || Contains (ToLower (Get headers "Precedence")) "bulk" || negb (isEmpty (TrimSpace (Get headers "List-Id"))) in
  if negb newsletterHint then []
  else if isEmpty (Get headers "List-Unsubscribe") then [warn "list_unsub" (lit (-7) 10); na "one_click_unsub"]
  else [ pass "list_unsub" (lit 2 10);
         (if one_click_post headers then pass "one_click_unsub" (lit 1 10) else warn "one_click_unsub" (lit (-3) 10)) ].

Definition newsletterHeuristics (headers : mail_header) (body : parsedBody) (mailType : string) : list CheckResult :=
  if String.eqb mailType "personal" || String.eqb mailType "transactional"
  then [na "list_unsub"; na "one_click_unsub"]
  else (if String.eqb mailType "bulk" then bulk_checks headers else unknown_type_checks headers body)
       ++ preheader_checks body.

(** ** Display name *)

(** An e-mail address inside a display name; the group is its domain. *)
Definition embeddedEmailPattern : regex :=
  let alnum c := ascii_range 65 90 c || ascii_range 97 122 c || ascii_range 48 57 c in
  seq_of [rplus (RSet (fun c => alnum c || rune_in "._%+-" c)); rlit "@";
          RGroup (seq_of [rplus (RSet (fun c => alnum c || rune_in ".-" c)); rlit ".";
                          RSet letter_rune; rplus (RSet letter_rune)])].

Definition impersonationBrands : list string :=
  ["paypal"; "amazon"; "microsoft"; "office365"; "apple"; "icloud"; "google"; "gmail";
   "netflix"; "paypal"; "dhl"; "fedex"; "ups"; "deutsche post"; "telekom"; "vodafone";
   "sparkasse"; "volksbank"; "postbank"; "commerzbank"; "deutsche bank"; "ing-diba"; "ing diba";
   "dkb"; "n26"; "klarna"; "shopify"; "facebook"; "instagram"; "whatsapp"; "linkedin"].

Definition displayNameCheck (fromHeader fromDomain : string) : CheckResult :=
  let fromHeader := TrimSpace fromHeader in
  if isEmpty fromHeader then info "display_name" fzero
  else
    let display := match cl_ParseAddress lib fromHeader with Some a => ad_Name a | None => "" end in
    if isEmpty display then info "display_name" fzero
    else
      let dlow := ToLower display in
      let rdom := ToLower (TrimSpace fromDomain) in
      let det : gmap string string := {["display_name" := display; "from_domain" := orElse rdom "none"]} in
      let embedded :=
        match FindStringSubmatch embeddedEmailPattern display with
        | Some (m :: _) =>
            let embDom := ToLower m in
            if negb (isEmpty rdom) && negb (String.eqb embDom rdom) && negb (HasSuffix embDom ("." +:+ rdom))
               && negb (HasSuffix rdom ("." +:+ embDom)) then Some embDom else None
        | _ => None
        end in
      match embedded with
      | Some embDom => withDetails (warn "display_name" (lit (-7) 10)) (<["embedded_domain" := embDom]> det)
      | None =>
          match List.find (fun brand => Contains dlow brand && (isEmpty rdom || negb (Contains rdom (ReplaceAll brand " " ""))))
                  impersonationBrands with
          | Some brand => withDetails (warn "display_name" (lit (-6) 10)) (<["impersonated_brand" := brand]> det)
          | None => withDetails (pass "display_name" fzero) det
          end
      end.

End WithLib.

(** ** Theorems *)

Lemma split_links_unique links seen :
  NoDup (fst (split_links links seen))
  /\ Forall (fun u => u ∈ links /\ u ∉ seen /\ isActionLink u = false /\ (HasPrefix u "http://" || HasPrefix u "https://") = true)
       (fst (split_links links seen)).
Proof.
  revert seen. induction links as [|l links IH]; intros seen; cbn [split_links]; [split; constructor|]. case_if.
  - destruct (IH (l :: seen)) as [Hn Hf]. destruct (split_links links (l :: seen)) as [unique skipped]. cbn [fst] in *.
    apply andb_true_iff in Hif as [Hs Hp]. apply negb_true_iff in Hs.
    assert (Hl : l ∉ seen).
    { intros Hin. apply not_true_iff_false in Hs. apply Hs, existsb_exists. exists l. split; [by apply list_elem_of_In|apply String.eqb_refl]. }
    assert (Hf' : Forall (fun u => u ∈ l :: links /\ u ∉ seen /\ isActionLink u = false /\ (HasPrefix u "http://" || HasPrefix u "https://") = true) unique).
    { eapply Forall_impl; [exact Hf|]. intros u (? & ? & ? & ?). set_solver. }
    destruct (isActionLink l) eqn:Ea; cbn [fst]; [done|]. split.
    + constructor; [|done]. intros Hin. rewrite Forall_forall in Hf. destruct (Hf l Hin) as (_ & Hns & _). set_solver.
    + constructor; [|done]. split_and!; [left|done|done|done].
  - destruct (IH seen) as [Hn Hf]. split; [done|]. eapply Forall_impl; [exact Hf|]. intros u (? & ? & ? & ?). set_solver.
Qed.

Lemma action_word_found w u : w ∈ action_words -> ascii_string w = true -> Contains (ToLower u) w = true -> isActionLink u = true.
Proof.
  intros Hw Ha Hc. apply (MatchString_words action_words w); try done. intros ->.
  unfold action_words in Hw. repeat (apply elem_of_cons in Hw as [Hw|Hw]; [done|]). by apply not_elem_of_nil in Hw.
Qed.


(** What the verdict depends on. *)
Lemma broken_verdict_cases results skipped :
  let c := broken_links_verdict results skipped in
  (c_Status c = "warn" <-> exists r, r ∈ results /\ is_broken r = true)
  /\ (c_Status c = "pass" <-> Forall (fun r => is_broken r = false /\ lr_unreachable r = false) results)
  /\ c_ScoreDelta c
     = if (List.length (List.filter is_broken results) =? 0)%nat then fzero
       else fdiv (fmul (lit (-4) 10) (f_of_Z (Z.of_nat (List.length (List.filter is_broken results))))) (f_of_Z (Z.of_nat (List.length results) + 1)).
Proof.
  unfold broken_links_verdict. cbv zeta.
  assert (Hnil : forall p : link_result -> bool, List.filter p results = [] <-> Forall (fun r => p r = false) results).
  { intros p. induction results as [|r rs IH]; [by split|]. cbn [List.filter]. rewrite Forall_cons, <- IH. by destruct (p r); naive_solver. }
  assert (Hex : List.filter is_broken results <> [] <-> exists r, r ∈ results /\ is_broken r = true).
  { rewrite Hnil. split.
    - intros H. destruct (decide (Exists (fun r => is_broken r = true) results)) as [(r & ? & ?)%Exists_exists|Hn]; [eauto|].
      destruct H. apply not_Exists_Forall in Hn; [|apply _]. eapply Forall_impl; [exact Hn|]. intros r Hr. by apply not_true_is_false.
    - intros (r & Hr & Hb) H. rewrite Forall_forall in H. specialize (H r Hr). congruence. }
  rewrite <- Hex, Forall_and, <- !Hnil.
  destruct (List.filter is_broken results) as [|b bs] eqn:Eb, (List.filter lr_unreachable results) as [|u us]; cbn; naive_solver.
Qed.

(** The verdict on the links of a message does not depend on the order in
    which the concurrent probes finish, and only an answer that proves a link
    broken counts: the check warns exactly when some probed link answered with a
    status of 400 or more other than 401, 403 and 429; links that could not be
    reached or refused the probe do not count against the sender. *)
Theorem broken_links_order_independent probe arrive links :
  (forall l, arrive l ≡ₚ l) -> links <> [] ->
  let c := brokenLinksCheck probe arrive links in
  let answer u := match probe "HEAD" u with Some 405 => probe "GET" u | a => a end in
  (c_Status c = "warn" <-> exists u s, u ∈ probed_links links /\ answer u = Some s
                              /\ 400 <= s /\ s <> 401 /\ s <> 403 /\ s <> 429)
  /\ c_Status c = c_Status (brokenLinksCheck probe (fun l => l) links)
  /\ c_ScoreDelta c = c_ScoreDelta (brokenLinksCheck probe (fun l => l) links).
Proof.
  intros Harr Hne c answer. subst c. unfold brokenLinksCheck. destruct links as [|l0 links0]; [done|]. set (links := l0 :: links0) in *.
  set (rs := probe_result probe <$> probed_links links). set (sk := snd (split_links links [])).
  pose proof (Harr rs) as Hp.
  destruct (broken_verdict_cases (arrive rs) sk) as (W & P & D), (broken_verdict_cases rs sk) as (W' & P' & D'). cbv zeta in *.
  assert (Hst : forall r, c_Status (broken_links_verdict r sk) = "warn" \/ c_Status (broken_links_verdict r sk) = "pass"
                          \/ c_Status (broken_links_verdict r sk) = "info").
  { intros r. unfold broken_links_verdict. cbv zeta. repeat case_match; cbn; auto. }
  assert (HW : c_Status (broken_links_verdict (arrive rs) sk) = "warn" <-> c_Status (broken_links_verdict rs sk) = "warn").
  { rewrite W, W'. setoid_rewrite Hp. done. }
  assert (HP : c_Status (broken_links_verdict (arrive rs) sk) = "pass" <-> c_Status (broken_links_verdict rs sk) = "pass").
  { rewrite P, P'. by rewrite Hp. }
  split_and!.
  - rewrite HW, W'. unfold rs. setoid_rewrite list_elem_of_fmap. unfold probe_result, is_broken. fold answer.
    split.
    + intros (r & (u & -> & Hu) & Hb). change (match probe "HEAD" u with Some 405 => probe "GET" u | a => a end) with (answer u) in Hb.
      destruct (answer u) as [s|] eqn:Ea; [|done]. cbn [lr_unreachable lr_ok] in Hb. exists u, s. bool_to_prop.
      split_and!; [done|done|lia|lia|lia|lia].
    + intros (u & s & Hu & Ea & Hs & H1 & H3 & H9). eexists. split; [exists u; split; [reflexivity|done]|].
      change (match probe "HEAD" u with Some 405 => probe "GET" u | a => a end) with (answer u). rewrite Ea. cbn [lr_unreachable lr_ok].
      rewrite (proj2 (Z.eqb_neq s 401)), (proj2 (Z.eqb_neq s 403)), (proj2 (Z.eqb_neq s 429)), (proj2 (Z.ltb_ge s 400)) by done. done.
  - destruct (Hst (arrive rs)) as [E|[E|E]], (Hst rs) as [E'|[E'|E']]; rewrite E, E' in *; naive_solver.
  - rewrite D, D'. by rewrite (Permutation_length (lfilter_Permutation is_broken _ _ Hp)), (Permutation_length Hp).
Qed.

Lemma broken_links_order_independent_witness :
  let probe (m u : string) : option Z := if String.eqb u "https://a.example/x" then Some 404 else Some 200 in
  c_Status (brokenLinksCheck probe (fun l => rev l) ["https://a.example/x"; "https://b.example/"]) = "warn".
Proof.
  cbv zeta.
  refine (proj2 (proj1 (broken_links_order_independent (fun m u => if String.eqb u "https://a.example/x" then Some 404 else Some 200)
    (fun l => rev l) ["https://a.example/x"; "https://b.example/"] _ _)) _).
  - intros l. symmetry. apply Permutation_rev.
  - discriminate.
  - exists "https://a.example/x", 404. split_and!; [|reflexivity|lia|lia|lia|lia].
    replace (probed_links ["https://a.example/x"; "https://b.example/"]) with ["https://a.example/x"; "https://b.example/"] by (vm_compute; reflexivity).
    left.
Defined.

(** The enrichment replaces the delta that grows with the share of broken links. *)
Example broken_links_own_delta_unused d :
  c_ScoreDelta (enrich_verdict (warn "broken_links" d)) = scoreFor (checkImportance "broken_links") "warn".
Proof. reflexivity. Qed.
