(* ===== verification/Blocklists.v ===== *)
(** * Blocklist checks (internal/analyzer/analyzer.go)

    The lookup of the sender address in the configured DNS blocklists
    ([rblHeuristics]), and of the From domain and the linked domains in domain
    blocklists. The resolver is the [dns_env] of the SPF evaluator; the texts of
    an error are a parameter. The details of the checks are modelled in full,
    with the descriptions of the known providers. *)

From S2P Require Import Prelude F64 GoStrings GoTime Regex GoNet Model Score Spf Checks MailHeaders Body Content.

Local Open Scope string_scope.
Local Open Scope list_scope.
Local Open Scope Z_scope.

(** ** [url.QueryEscape] *)

Definition hex_upper (n : N) : ascii := ascii_of_N (if (n <? 10)%N then 48 + n else 55 + n)%N.

Fixpoint QueryEscape (s : string) : string :=
  match s with
  | EmptyString => EmptyString
  | String a rest =>
      let c := code a in
      let unreserved := ((48 <=? c) && (c <=? 57) || (65 <=? c) && (c <=? 90) || (97 <=? c) && (c <=? 122)
                         || (c =? 45) || (c =? 46) || (c =? 95) || (c =? 126))%N in
      if unreserved then String a (QueryEscape rest)
      else if (c =? 32)%N then String "+" (QueryEscape rest)
      else String "%" (String (hex_upper (c / 16)) (String (hex_upper (c mod 16)) (QueryEscape rest)))
  end.

Example escaped_address : QueryEscape "2001:db8::1 x" = "2001%3Adb8%3A%3A1+x".
Proof. reflexivity. Qed.

(** ** Providers *)

Record rblProvider := mkRblProvider { rp_Name : string; rp_Description : string; rp_DelistURL : string; rp_Delisting : string }.

(** An answer in 127.255.255.0/24 or 127.0.0.1 says that the query was refused. *)
Definition rblQueryRefusal (ips : list string) : bool :=
  existsb (fun ip => HasPrefix ip "127.255.255." || String.eqb ip "127.0.0.1") ips.

Definition spamhaus_meaning (ip : string) : string :=
  if String.eqb ip "127.0.0.2" then ip +:+ " → SBL: bekannte Spam-Quelle"
  else if String.eqb ip "127.0.0.3" then ip +:+ " → SBL CSS: Snowshoe-Spam"
  else if one_of ip ["127.0.0.4"; "127.0.0.5"; "127.0.0.6"; "127.0.0.7"]
       then ip +:+ " → XBL: Exploit/Botnet/kompromittierter Host"
  else if String.eqb ip "127.0.0.9" then ip +:+ " → DROP/EDROP: vollständig blockierter Adressbereich"
  else if String.eqb ip "127.0.0.10" then ip +:+ " → PBL: dynamische/Consumer-IP (ISP-Policy)"
  else if String.eqb ip "127.0.0.11" then ip +:+ " → PBL: dynamische IP (Nutzer-gemeldet)"
  else ip +:+ " → Spamhaus-Listing (unbekannter Subtyp)".

Definition dronebl_meaning (ip : string) : string :=
  if String.eqb ip "127.0.0.3" then ip +:+ " → IRC-Drone"
  else if String.eqb ip "127.0.0.5" then ip +:+ " → Bottrap"
  else if String.eqb ip "127.0.0.6" then ip +:+ " → IRC-Spam-Bot"
  else if String.eqb ip "127.0.0.7" then ip +:+ " → HTTP-Proxy (Open Proxy)"
  else if String.eqb ip "127.0.0.8" then ip +:+ " → SOCKS-Proxy (Open Proxy)"
  else if String.eqb ip "127.0.0.9" then ip +:+ " → Proxy-Chain"
  else if String.eqb ip "127.0.0.13" then ip +:+ " → Brute-Force-Angreifer"
  else if String.eqb ip "127.0.0.14" then ip +:+ " → Open Resolver (missbraucht für DDoS)"
  else if String.eqb ip "127.0.0.17" then ip +:+ " → Automatischer E-Mail-Angriff"
  else if String.eqb ip "127.0.0.255" then ip +:+ " → Manuell gelistet"
  else ip +:+ " → DroneBL-Listing".

Definition address_meaning (p ip : string) : string :=
  if String.eqb ip "127.255.255.254" then ip +:+ " (Query verweigert — Open Resolver; kein echtes Listing)"
  else if String.eqb ip "127.255.255.255" then ip +:+ " (Query-Timeout; kein echtes Listing)"
  else if Contains p "spamhaus" || HasSuffix p ".spamhaus.org" then spamhaus_meaning ip
  else if Contains p "barracuda" then ip +:+ " → Barracuda BRBL: Spam-Reputationstreffer"
  else if Contains p "spamcop" then ip +:+ " → SpamCop: von Nutzern gemeldete Spam-IP"
  else if Contains p "dronebl" then dronebl_meaning ip
  else ip.

Definition rblResponseMeaning (provider : string) (ips : list string) : string :=
  Join (address_meaning (ToLower provider) <$> ips) ", ".

Definition rblProviderMeta (provider remoteIP : string) : rblProvider :=
  let p := ToLower (TrimSpace provider) in
  if one_of p ["zen.spamhaus.org"; "sbl.spamhaus.org"; "xbl.spamhaus.org"; "pbl.spamhaus.org"; "sbl-xbl.spamhaus.org"; "dbl.spamhaus.org"] then
    mkRblProvider "Spamhaus"
      "Spamhaus betreibt die weltweit meistgenutzten DNSBLs. ZEN kombiniert SBL (bekannte Spam-Quellen), XBL (Exploits/Botnets) und PBL (Policy-Liste für dynamische IPs). Ein Spamhaus-Listing führt bei Gmail, Outlook, Yahoo und den meisten Enterprise-Gateways direkt zur Ablehnung. Antwort-Codes: 127.0.0.2=SBL, 127.0.0.3=SBL-CSS, 127.0.0.4=XBL, 127.0.0.10/11=PBL. Code 127.255.255.254 bedeutet Query-Verweigerung (kein echtes Listing)."
      "https://check.spamhaus.org/"
      "Spamhaus Reputation Checker öffnen, IP/Domain prüfen und die angezeigte Liste beachten. Bei SBL muss in der Regel der ISP/Provider das Abuse-Problem bestätigt beheben und die Entfernung anstoßen; bei XBL/CSS erst Malware, Proxy oder kompromittierte Accounts entfernen; bei PBL nur delisten, wenn die IP wirklich ein legitimer Mailserver ist."
  else if one_of p ["bl.spamcop.net"] then
    mkRblProvider "SpamCop Blocking List"
      "SpamCop listet IPs, von denen Nutzer aktiv Spam gemeldet haben. Das Listing ist zeitbasiert und läuft automatisch aus, wenn keine neuen Meldungen eingehen. Wird von vielen ISPs und selbst betriebenen Mailservern genutzt. Eher ein Warnsignal als ein hartes Blockierungswerkzeug."
      "https://www.spamcop.net/bl.shtml"
      "SpamCop ist zeitbasiert. Es gibt normalerweise kein manuelles Express-Delisting; nach Ende neuer Spam-Reports läuft das Listing automatisch aus. Prüfe SpamCop-Reports, kompromittierte Accounts, offene Relays, infizierte Hosts und fehlgeleitete Bounces."
  else if one_of p ["b.barracudacentral.org"; "bb.barracudacentral.org"] then
    mkRblProvider "Barracuda Reputation Block List"
      "Barracuda BRBL listet IPs mit schlechter Versandreputation basierend auf Spam-Beschwerden und Spam-Trap-Treffern. Wird von Barracuda-Gateways in Unternehmen weit verbreitet eingesetzt. Ein Listing kann direkte Ablehnungen bei Unternehmensempfängern verursachen. Delisting ist kostenlos über das Webformular möglich."
      "https://www.barracudacentral.org/rbl/removal-request"
      "Barracuda Removal Request mit IP, Kontaktadresse, Telefonnummer und nachvollziehbarer Ursache einreichen. Vorher Spamquelle stoppen, Queue prüfen und erklären, was konkret behoben wurde; Mehrfachanfragen ohne neue Informationen vermeiden."
  else if one_of p ["psbl.surriel.com"] then
    mkRblProvider "Passive Spam Block List"
      "PSBL ist eine passive Liste — sie listet IPs, die Spam-Traps getroffen haben, ohne aktive Nutzer-Reports. Wird von kleineren Mailservern und einigen ISPs genutzt. Delisting ist self-service. Ein Listing deutet oft auf alte oder gekaufte Empfängerlisten hin."
      "https://www.psbl.org/remove"
      "PSBL-Remove-Seite mit der IP nutzen. PSBL listet typischerweise Spamtrap-Treffer; vor Delisting Listenherkunft, Empfängerlisten, kompromittierte Accounts und ungewollte Direktzustellung prüfen. Removal ist self-service, DNS-Propagation kann dauern."
  else if one_of p ["dnsbl.dronebl.org"] then
    mkRblProvider "DroneBL"
      "DroneBL listet IPs die als offene Proxies, Botnets, IRC-Dronen oder Angreifer bekannt sind. Wird vor allem in IRC-Netzwerken und von selbst betriebenen Mailservern genutzt. Ein Listing deutet auf kompromittierte Infrastruktur oder Malware-Aktivität hin. Antwort-Codes zeigen den genauen Typ (Proxy, Bot, Brute-Force etc.)."
      "https://www.dronebl.org/lookup"
      "DroneBL-Lookup ausführen und den dort angezeigten Instruktionen folgen. Häufige Ursachen sind offene Proxies, Botnet-/Malware-Verkehr oder kompromittierte Hosts; diese Ursache muss vor dem Delisting beseitigt sein."
  else if one_of p ["bl.blocklist.de"] then
    mkRblProvider "blocklist.de"
      "blocklist.de ist eine deutschsprachige DNSBL die IPs listet, die durch Brute-Force-Angriffe (SSH, FTP, SMTP, HTTP) oder Spam auffällig geworden sind. Daten kommen aus Fail2Ban-Reports von teilnehmenden Servern. Listings laufen automatisch aus, können aber vorzeitig über das Delist-Formular entfernt werden."
      ("https://www.blocklist.de/en/delist.html?ip=" +:+ QueryEscape remoteIP)
      "blocklist.de delistet Angreifer-IP-Adressen nach Behebung vorzeitig über die Delist-Seite; sonst läuft das Listing typischerweise automatisch aus. Vorher Logins, SSH/FTP/Web-/Mail-Bruteforce, kompromittierte Dienste und Fail2Ban-Meldungen prüfen."
  else if one_of p ["cbl.abuseat.org"] then
    mkRblProvider "Composite Blocking List"
      "CBL listet IPs die durch Spam, offene Proxies oder Botnet-Aktivität auffällig geworden sind. Wird von Spamhaus XBL als Datenquelle genutzt — ein CBL-Listing führt daher oft auch zu einem XBL-Listing. Automatisches Delisting nach Behebung der Ursache."
      ("https://www.abuseat.org/lookup.cgi?ip=" +:+ QueryEscape remoteIP)
      "CBL-Lookup mit der IP öffnen, Ursache lesen und erst nach Beseitigung von Malware, Proxy, Botnet-Verkehr oder kompromittierten SMTP-Zugangsdaten delisten."
  else
    mkRblProvider "DNSBL"
      "Diese DNSBL-Liste listet IPs basierend auf eigenem Regelwerk. Prüfe die Dokumentation des Providers für Details zu Listungskriterien und Delisting-Prozess."
      ("https://" +:+ provider)
      "Provider-Dokumentation der DNSBL öffnen, Listinggrund prüfen, Ursache technisch beheben und erst danach eine Entfernung beantragen. Falls keine Delisting-Seite existiert, Abuse-Kontakt des Providers oder automatische Expiry-Regeln beachten.".

Definition rblPreDelistingChecklist (remoteIP : string) : string :=
  Join
    ["1. Versand für die IP " +:+ orElse remoteIP "<sender-ip>" +:+ " kurz stoppen oder stark drosseln.";
     "2. Mailqueue, Auth-Logs, Bounce-Logs und Webform-/Newsletter-Logs auf Spamwellen prüfen.";
     "3. Kompromittierte Accounts, offene Relays, offene Proxies, Malware und fehlgeleitete Bounces beheben.";
     "4. SPF, DKIM, DMARC, PTR/rDNS und HELO konsistent machen.";
     "5. Erst danach Delisting beim jeweiligen Provider beantragen und die konkrete Behebung dokumentieren."] lf.

Definition rblImpactText (listed : Z) : string :=
  if listed =? 0 then "Keine Listing-Treffer in den konfigurierten RBLs. Das garantiert keine gute Inbox-Platzierung, reduziert aber ein wichtiges Infrastruktur-Risiko."
  else if listed =? 1 then "Ein einzelnes Listing ist ein Warnsignal. Je nach Liste kann es bei kleineren Providern direkt zu Ablehnungen führen und bei großen Providern die IP-Reputation indirekt belasten."
  else "Mehrere Listings sind ein starkes Reputationsproblem. Vor weiterem Versand sollte die Ursache behoben werden, sonst drohen Ablehnungen, Spamfolder-Platzierung und schnelle Wiederlistings.".

(** ** Sender address *)

Record rbl_state := mkRbl {
  rs_listed : Z;
  rs_answered : Z;
  rs_listedProviders : list string;
  rs_cleanProviders : list string;
  rs_queryNames : list string;
  rs_listingResponses : list string;
  rs_txtEvidence : list string;
  rs_lookupErrors : list string;
  rs_delistingSteps : list string;
  rs_delistingURLs : list string
}.

Definition rbl_init : rbl_state := mkRbl 0 0 [] [] [] [] [] [] [] [].

Section WithDNS.
Context (env : check_env) (err_text : dns_error -> string).

(** One round of the loop over the providers. *)
Definition rbl_step (remoteIP queryIP : string) (s : rbl_state) (p : string) : rbl_state :=
  let provider := TrimSpace p in
  if isEmpty provider then s
  else
    let meta := rblProviderMeta provider remoteIP in
    let clean := rs_cleanProviders s ++ [provider +:+ " (" +:+ rp_Name meta +:+ ")|" +:+ rp_Description meta] in
    let name := queryIP +:+ "." +:+ provider in
    let names := rs_queryNames s ++ [name] in
    let unlisted answered errors :=
      mkRbl (rs_listed s) answered (rs_listedProviders s) clean names (rs_listingResponses s) (rs_txtEvidence s)
        errors (rs_delistingSteps s) (rs_delistingURLs s) in
    match env_host (ce_dns env) name with
    | Err (DNSError true) => unlisted (rs_answered s + 1) (rs_lookupErrors s)
    | Err e => unlisted (rs_answered s) (rs_lookupErrors s ++ [provider +:+ ": " +:+ err_text e])
    | Ok [] => unlisted (rs_answered s + 1) (rs_lookupErrors s)
    | Ok ips =>
        if rblQueryRefusal ips then
          unlisted (rs_answered s)
            (rs_lookupErrors s ++ [provider +:+ ": Query verweigert (" +:+ Join ips ", "
                                    +:+ ") — Open Resolver oder Rate Limit; kein echtes Listing"])
        else
          mkRbl (rs_listed s + 1) (rs_answered s + 1)
            (rs_listedProviders s ++ [provider +:+ " (" +:+ rp_Name meta +:+ ")"]) clean names
            (rs_listingResponses s ++ [provider +:+ " → " +:+ rblResponseMeaning provider ips])
            (rs_txtEvidence s ++ match env_txt (ce_dns env) name with
                                 | Ok (t :: ts) => [provider +:+ " TXT: " +:+ Join (t :: ts) " | "]
                                 | _ => []
                                 end)
            (rs_lookupErrors s)
            (rs_delistingSteps s ++ [provider +:+ ": " +:+ rp_Delisting meta])
            (rs_delistingURLs s ++ [provider +:+ ": " +:+ rp_DelistURL meta])
    end.

Definition rbl_details (remoteIP queryIP : string) (s : rbl_state) : gmap string string :=
  let joined l sep := orElse (Join l sep) "none" in
  {["remote_ip" := remoteIP; "rbl_query_prefix" := queryIP;
    "checked_providers" := Join (rs_cleanProviders s) lf; "query_names" := Join (rs_queryNames s) lf;
    "listed_providers" := joined (rs_listedProviders s) lf; "listing_responses" := joined (rs_listingResponses s) lf;
    "txt_evidence" := joined (rs_txtEvidence s) lf; "lookup_errors" := joined (rs_lookupErrors s) lf;
    "pre_delisting_checks" := rblPreDelistingChecklist remoteIP;
    "provider_delisting" := joined (rs_delistingSteps s) (lf +:+ lf);
    "provider_delist_urls" := joined (rs_delistingURLs s) lf;
    "deliverability_impact" := rblImpactText (rs_listed s)]}.

(** The octets in reverse order, as the lists want them. *)
Definition rbl_query_ip (ip : IP) : string :=
  let octets := Split (IP_String ip) "." in
  let octet i := default "" (octets !! i) in
  octet 3%nat +:+ "." +:+ octet 2%nat +:+ "." +:+ octet 1%nat +:+ "." +:+ octet 0%nat.

Definition rbl_verdict (s : rbl_state) : CheckResult :=
  if 0 <? rs_listed s then
    if 2 <=? rs_listed s then fail "rbl" (if 3 <=? rs_listed s then f_of_Z (-3) else lit (-22) 10)
    else warn "rbl" (lit (-13) 10)
  else if rs_answered s =? 0 then info "rbl" fzero
  else pass "rbl" (lit 1 10).

Definition rblHeuristics (remoteIP : string) (providers : list string) : list CheckResult :=
  match providers with
  | [] => [info "rbl" fzero]
  | _ =>
      let ip := ParseIP remoteIP in
      if isNil ip || isNil (To4 ip) then [info "rbl" fzero]
      else
        let queryIP := rbl_query_ip ip in
        let s := fold_left (rbl_step remoteIP queryIP) providers rbl_init in
        [withDetails (rbl_verdict s) (rbl_details remoteIP queryIP s)]
  end.

(** ** Domains *)

(** Is the name listed, and did the provider answer? *)
Definition dnsblListed (name provider : string) : bool * dnsStatus :=
  let '(ips, st) := lookupHost env (name +:+ "." +:+ provider) in
  match st with
  | dnsAbsent => (false, dnsOK)
  | dnsUnavailable => (false, dnsUnavailable)
  | dnsOK => if rblQueryRefusal ips then (false, dnsUnavailable)
             else (existsb (fun ip => HasPrefix ip "127.0.") ips, dnsOK)
  end.

Definition usable_providers (providers : list string) : list string :=
  List.filter (fun p => negb (isEmpty p)) (TrimSpace <$> providers).

Definition answers (st : dnsStatus) : bool := match st with dnsOK => true | _ => false end.

(** The providers that answered about a name, with what they said. *)
Definition asked (name : string) (providers : list string) : list (string * bool) :=
  omap (fun p => let '(hit, st) := dnsblListed name p in if answers st then Some (p, hit) else None)
    (usable_providers providers).

Definition hits (l : list (string * bool)) : list string := fst <$> List.filter snd l.

Definition domainBlocklistCheck (domain : string) (providers : list string) : CheckResult :=
  let reg := registrableDomain env domain in
  match providers with
  | [] => info "domain_blocklist" fzero
  | _ =>
      if isEmpty reg then info "domain_blocklist" fzero
      else
        let checked := usable_providers providers in
        let answered := asked reg providers in
        let listed := hits answered in
        let det : gmap string string :=
          {["domain" := reg; "checked_providers" := Join checked lf; "listed_on" := joinOrNone listed;
            "beantwortet" := Itoa (Z.of_nat (List.length answered)) +:+ " von " +:+ Itoa (Z.of_nat (List.length checked))]} in
        match listed, answered with
        | _ :: _, _ => withDetails (fail "domain_blocklist" (lit (-15) 10)) det
        | [], [] => withDetails (info "domain_blocklist" fzero) det
        | [], _ :: _ => withDetails (pass "domain_blocklist" (lit 2 10)) det
        end
  end.

(** ** Links *)

Context (ParseURL : string -> option url_parts).

(** The keys of the map of domains. *)
Definition link_domains (links : list string) : list string :=
  remove_dups (List.filter (fun d => negb (isEmpty d))
    (omap (fun l => (fun u => registrableDomain env (u_Hostname u)) <$> ParseURL l) links)).

(** [order] is the order in which the map of domains is iterated. *)
Definition linkBlocklistCheck (order : list string -> list string) (links providers : list string) : CheckResult :=
  match providers with
  | [] => info "link_blocklist" fzero
  | _ =>
      let doms := link_domains links in
      match doms with
      | [] => info "link_blocklist" fzero
      | _ =>
          let answered := d ← take 20 (order doms); (fun a => (d +:+ " (" +:+ fst a +:+ ")", snd a)) <$> asked d providers in
          let listed := hits answered in
          let det : gmap string string :=
            {["link_domains_checked" := Itoa (Z.of_nat (List.length doms)); "listed" := joinOrNone listed;
              "beantwortete_abfragen" := Itoa (Z.of_nat (List.length answered))]} in
          match listed, answered with
          | _ :: _, _ => withDetails (fail "link_blocklist" (lit (-12) 10)) det
          | [], [] => withDetails (info "link_blocklist" fzero) det
          | [], _ :: _ => withDetails (pass "link_blocklist" (lit 1 10)) det
          end
      end
  end.

End WithDNS.

(** ** Specification

    What one list said, and the verdict that follows from all of them: a
    refused or failed query says nothing, neither for nor against the sender. *)

Inductive bl_answer := Listed | NotListed | NoAnswer.

#[export] Instance bl_answer_eq_dec : EqDecision bl_answer.
Proof. solve_decision. Defined.

Definition answer_of (a : dns_answer string) : bl_answer :=
  match a with
  | Err (DNSError true) | Ok [] => NotListed
  | Err _ => NoAnswer
  | Ok ips => if rblQueryRefusal ips then NoAnswer else Listed
  end.

Definition count_of (a : bl_answer) (l : list bl_answer) : nat := List.length (filter (a =.) l).

Definition rbl_spec (l : list bl_answer) : string * float64 :=
  match count_of Listed l with
  | O => if (count_of NotListed l =? 0)%nat then ("info", fzero) else ("pass", lit 1 10)
  | 1%nat => ("warn", lit (-13) 10)
  | 2%nat => ("fail", lit (-22) 10)
  | _ => ("fail", f_of_Z (-3))
  end.

(** ** Theorems *)

Lemma count_of_cons a b l : count_of a (b :: l) = ((if decide (a = b) then 1 else 0) + count_of a l)%nat.
Proof. unfold count_of. rewrite filter_cons. by destruct (decide (a = b)). Qed.

Lemma usable_providers_cons p ps :
  usable_providers (p :: ps) = if isEmpty (TrimSpace p) then usable_providers ps else TrimSpace p :: usable_providers ps.
Proof. unfold usable_providers. cbn. by destruct (isEmpty (TrimSpace p)). Qed.

Lemma rbl_step_counts env err_text remoteIP queryIP s p :
  isEmpty (TrimSpace p) = false ->
  let a := answer_of (env_host (ce_dns env) (queryIP +:+ "." +:+ TrimSpace p)) in
  let s' := rbl_step env err_text remoteIP queryIP s p in
  rs_listed s' = rs_listed s + (if decide (a = Listed) then 1 else 0)
  /\ rs_answered s' = rs_answered s + (if decide (a = NoAnswer) then 0 else 1).
Proof.
  intros Hp. unfold rbl_step, answer_of. rewrite Hp. cbv zeta.
  destruct (env_host (ce_dns env) _) as [ips|e].
  - destruct ips as [|ip ips]; [|destruct (rblQueryRefusal (ip :: ips))]; repeat (case_decide; try done); cbn; lia.
  - destruct e as [[]|[]|]; repeat (case_decide; try done); cbn; lia.
Qed.

Lemma rbl_fold_counts env err_text remoteIP queryIP providers s :
  let answers := (fun p => answer_of (env_host (ce_dns env) (queryIP +:+ "." +:+ p))) <$> usable_providers providers in
  let s' := fold_left (rbl_step env err_text remoteIP queryIP) providers s in
  rs_listed s' = rs_listed s + Z.of_nat (count_of Listed answers)
  /\ rs_answered s' = rs_answered s + Z.of_nat (count_of Listed answers + count_of NotListed answers).
Proof.
  revert s. induction providers as [|p ps IH]; intros s; cbn zeta; [cbn; lia|].
  cbn [fold_left]. rewrite usable_providers_cons. destruct (isEmpty (TrimSpace p)) eqn:Ep.
  - replace (rbl_step env err_text remoteIP queryIP s p) with s by (unfold rbl_step; by rewrite Ep). apply IH.
  - destruct (rbl_step_counts env err_text remoteIP queryIP s p Ep) as [Hl Ha].
    destruct (IH (rbl_step env err_text remoteIP queryIP s p)) as [Hl' Ha']. cbn zeta in *.
    rewrite fmap_cons, !count_of_cons, Hl', Ha', Hl, Ha.
    destruct (answer_of _); repeat (case_decide; try done); lia.
Qed.

Lemma rbl_query_reversed ip : isNil ip = false -> isNil (To4 ip) = false ->
  rbl_query_ip ip = dotted (rev (To4 ip)).
Proof.
  intros Hn H4. unfold rbl_query_ip, IP_String. rewrite Hn, H4. cbn [negb].
  assert (Hlen : List.length (To4 ip) = 4%nat).
  { revert H4. unfold To4. repeat case_match; try done; bool_to_prop; intros _; rewrite ?length_drop; lia. }
  destruct (To4 ip) as [|a [|b [|c [|d [|]]]]]; try done. unfold dotted. cbn [fmap list_fmap].
  assert (Hs : Split (Join [Itoa a; Itoa b; Itoa c; Itoa d] ".") "." = [Itoa a; Itoa b; Itoa c; Itoa d]).
  { apply (Split_Join _ "."); [done|]. repeat constructor; by apply Itoa_lacks. }
  cbn [fmap list_fmap]. by rewrite Hs.
Qed.

(** C11: the verdict on the sender address follows the answers of the lists and
    nothing else. Every configured list is asked for the octets of the address in
    reverse order; a list that refuses the query or does not answer counts neither
    for nor against the sender, so that no list answering gives a neutral result;
    one listing is a warning, two or more a failure, and the weights given here are
    those the report keeps. *)
Theorem rbl_follows_answers env err_text remoteIP providers :
  providers <> [] -> isNil (ParseIP remoteIP) = false -> isNil (To4 (ParseIP remoteIP)) = false ->
  let names := (fun p => dotted (rev (To4 (ParseIP remoteIP))) +:+ "." +:+ p) <$> usable_providers providers in
  exists c, rblHeuristics env err_text remoteIP providers = [c]
    /\ (c_Status c, c_ScoreDelta c) = rbl_spec ((fun n => answer_of (env_host (ce_dns env) n)) <$> names)
    /\ c_ScoreDelta (enrich_verdict c) = c_ScoreDelta c.
Proof.
  intros Hps Hn H4. cbv zeta. unfold rblHeuristics. destruct providers as [|p0 ps0]; [done|].
  set (providers := p0 :: ps0). rewrite Hn, H4. cbn [orb]. rewrite rbl_query_reversed by done.
  set (q := dotted (rev (To4 (ParseIP remoteIP)))).
  set (s := fold_left (rbl_step env err_text remoteIP q) providers rbl_init).
  destruct (rbl_fold_counts env err_text remoteIP q providers rbl_init) as [Hl Ha]. cbn zeta in Hl, Ha. fold s in Hl, Ha.
  rewrite <- list_fmap_compose. unfold compose.
  set (l := (fun p => answer_of (env_host (ce_dns env) (q +:+ "." +:+ p))) <$> usable_providers providers) in *.
  cbn [rbl_init rs_listed rs_answered] in Hl, Ha.
  eexists. split; [reflexivity|]. unfold rbl_verdict, rbl_spec. rewrite Hl, Ha.
  destruct (count_of Listed l) as [|[|[|n]]]; cbn [Z.of_nat Z.add Nat.add].
  - destruct (count_of NotListed l) as [|m]; cbn; [by split|by split].
  - by split.
  - by split.
  - rewrite (proj2 (Z.ltb_lt _ _)), (proj2 (Z.leb_le 2 _)), (proj2 (Z.leb_le 3 _)) by lia. by split.
Qed.

(** A resolver under which one list lists the address and another refuses. *)
Definition sample_rbl_env : check_env :=
  let host (n : string) : dns_answer string :=
    if String.eqb n "7.2.0.192.zen.spamhaus.org" then Ok ["127.255.255.254"]
    else if String.eqb n "7.2.0.192.bl.spamcop.net" then Ok ["127.0.0.2"]
    else Err (DNSError true) in
  mkCheckEnv (mkDnsEnv (fun _ => Err OtherError) (fun _ => Err OtherError) host (fun _ => Err OtherError) (fun _ => Err OtherError))
    (fun _ => None) (fun _ => None).

Lemma rbl_follows_answers_witness :
  exists c, rblHeuristics sample_rbl_env (fun _ => "") "192.0.2.7" ["zen.spamhaus.org"; " bl.spamcop.net"] = [c]
    /\ c_Status c = "warn".
Proof.
  destruct (rbl_follows_answers sample_rbl_env (fun _ => "") "192.0.2.7" ["zen.spamhaus.org"; " bl.spamcop.net"]
    ltac:(discriminate) ltac:(reflexivity) ltac:(reflexivity)) as (c & Hc & Hv & _).
  exists c. split; [exact Hc|]. assert (Hs : fst (c_Status c, c_ScoreDelta c) = "warn") by (rewrite Hv; vm_compute; reflexivity). exact Hs.
Defined.

Lemma hits_nonempty l : hits l <> [] <-> exists p, (p, true) ∈ l.
Proof.
  unfold hits. split.
  - destruct (List.filter snd l) as [|[p b] rest] eqn:E; [done|]. intros _. exists p.
    assert (Hin : In (p, b) (List.filter snd l)) by (rewrite E; left; done).
    apply filter_In in Hin as [Hin Hb]. cbn in Hb. subst b. by apply list_elem_of_In.
  - intros [p Hp]. assert (Hin : In (p, true) (List.filter snd l)) by (apply filter_In; split; [by apply list_elem_of_In|done]).
    by destruct (List.filter snd l).
Qed.

Lemma asked_spec env name providers p hit :
  (p, hit) ∈ asked env name providers <-> p ∈ usable_providers providers /\ dnsblListed env name p = (hit, dnsOK).
Proof.
  unfold asked. rewrite list_elem_of_omap. split.
  - intros (p' & Hp' & H). destruct (dnsblListed env name p') as [h st] eqn:E. destruct st; simplify_eq/=. by split.
  - intros [Hp H]. exists p. split; [done|]. by rewrite H.
Qed.

Lemma hits_Permutation l1 l2 : l1 ≡ₚ l2 -> hits l1 ≡ₚ hits l2.
Proof. intros H. unfold hits. by apply fmap_Permutation, lfilter_Permutation. Qed.

(** The answers of all lists about all linked domains, in the order of [doms]. *)
Definition link_answers (env : check_env) (providers doms : list string) : list (string * bool) :=
  d ← doms; (fun a => (d +:+ " (" +:+ fst a +:+ ")", snd a)) <$> asked env d providers.

Lemma link_answers_hit env providers doms :
  hits (link_answers env providers doms) <> []
  <-> exists d p, d ∈ doms /\ p ∈ usable_providers providers /\ dnsblListed env d p = (true, dnsOK).
Proof.
  rewrite hits_nonempty. unfold link_answers. split.
  - intros (n & (d & Hn & Hd)%list_elem_of_bind). apply list_elem_of_fmap in Hn as ([p b] & [= -> <-] & Hp).
    apply asked_spec in Hp as [Hp Hh]. eauto.
  - intros (d & p & Hd & Hp & Hh). eexists. apply list_elem_of_bind. exists d. split; [|done].
    apply list_elem_of_fmap. exists (p, true). split; [reflexivity|]. by apply asked_spec.
Qed.

Lemma link_answers_some env providers doms :
  link_answers env providers doms <> []
  <-> exists d p, d ∈ doms /\ p ∈ usable_providers providers /\ snd (dnsblListed env d p) = dnsOK.
Proof.
  unfold link_answers. split.
  - intros H. destruct (doms ≫= _) as [|x rest] eqn:E in H; [done|].
    assert (Hx : x ∈ doms ≫= (fun d => (fun a => (d +:+ " (" +:+ fst a +:+ ")", snd a)) <$> asked env d providers)) by (rewrite E; left).
    apply list_elem_of_bind in Hx as (d & Hx & Hd). apply list_elem_of_fmap in Hx as ([p b] & -> & Hp).
    apply asked_spec in Hp as [Hp Hh]. exists d, p. by rewrite Hh.
  - intros (d & p & Hd & Hp & Hs) Hnil. destruct (dnsblListed env d p) as [h st] eqn:Eh. cbn in Hs. subst st.
    assert (Hx : (d +:+ " (" +:+ p +:+ ")", h) ∈ doms ≫= (fun d => (fun a => (d +:+ " (" +:+ fst a +:+ ")", snd a)) <$> asked env d providers)).
    { apply list_elem_of_bind. exists d. split; [|done]. apply list_elem_of_fmap. exists (p, h). split; [done|]. by apply asked_spec. }
    rewrite Hnil in Hx. by apply not_elem_of_nil in Hx.
Qed.

(** A linked domain counts as listed only when a list answered so, and links
    are called clean only when some list answered. The check fails exactly when a
    list answered for one of the domains with an address that is a listing and not
    a refusal; it passes exactly when none did and at least one query was
    answered. With at most 20 different domains the verdict does not depend on the
    order in which the map of domains is iterated. *)
Theorem link_blocklist_sound env ParseURL order links providers :
  (forall l, order l ≡ₚ l) -> providers <> [] ->
  link_domains env ParseURL links <> [] -> (List.length (link_domains env ParseURL links) <= 20)%nat ->
  let st := c_Status (linkBlocklistCheck env ParseURL order links providers) in
  let listed := exists d p, d ∈ link_domains env ParseURL links /\ p ∈ usable_providers providers
                  /\ dnsblListed env d p = (true, dnsOK) in
  let answered := exists d p, d ∈ link_domains env ParseURL links /\ p ∈ usable_providers providers
                  /\ snd (dnsblListed env d p) = dnsOK in
  (st = "fail" <-> listed) /\ (st = "pass" <-> ~ listed /\ answered) /\ (st = "info" <-> ~ answered).
Proof.
  intros Hord Hp Hd Hlen. cbv zeta. unfold linkBlocklistCheck. destruct providers as [|p0 ps0]; [done|]. set (providers := p0 :: ps0).
  destruct (link_domains env ParseURL links) as [|d0 ds0] eqn:Ed; [done|]. set (doms := d0 :: ds0) in *.
  rewrite take_ge by (rewrite (Permutation_length (Hord doms)); done).
  fold (link_answers env providers (order doms)).
  pose proof (link_answers_hit env providers (order doms)) as Hh. pose proof (link_answers_some env providers (order doms)) as Ha.
  assert (Hperm : forall d, d ∈ order doms <-> d ∈ doms) by (intros d; by rewrite (Hord doms)).
  setoid_rewrite Hperm in Hh. setoid_rewrite Hperm in Ha. rewrite <- Hh, <- Ha.
  destruct (link_answers env providers (order doms)) as [|x rest] eqn:El; [cbn; naive_solver|].
  destruct (hits (x :: rest)) as [|h hs]; cbn; naive_solver.
Qed.

(** A resolver under which exactly [bad.example] is listed. *)
Definition bad_domain_env : check_env :=
  let host (n : string) : dns_answer string :=
    if String.eqb n "bad.example.dbl.example" then Ok ["127.0.1.2"] else Err (DNSError true) in
  mkCheckEnv (mkDnsEnv (fun _ => Err OtherError) (fun _ => Err OtherError) host (fun _ => Err OtherError) (fun _ => Err OtherError))
    (fun _ => None) (fun _ => None).

(** URLs without scheme and path. *)
Definition host_only (l : string) : option url_parts := Some (mkURL l l []).

Lemma link_blocklist_sound_witness :
  c_Status (linkBlocklistCheck bad_domain_env host_only (fun l => rev l) ["good.example"; "bad.example"] ["dbl.example"]) = "fail".
Proof.
  refine (proj2 (proj1 (link_blocklist_sound bad_domain_env host_only (fun l => rev l) ["good.example"; "bad.example"] ["dbl.example"] _ _ _ _)) _).
  - intros l. symmetry. apply Permutation_rev.
  - discriminate.
  - vm_compute. discriminate.
  - vm_compute. lia.
  - exists "bad.example", "dbl.example". split_and!; [|left|vm_compute; reflexivity].
    replace (link_domains bad_domain_env host_only ["good.example"; "bad.example"]) with ["good.example"; "bad.example"] by (vm_compute; reflexivity).
    right. left.
Defined.

(** The From domain: a failure rests on a listing, a pass on an answer. *)
Lemma domain_blocklist_sound env domain providers :
  providers <> [] -> registrableDomain env domain <> "" ->
  let reg := registrableDomain env domain in
  let st := c_Status (domainBlocklistCheck env domain providers) in
  (st = "fail" <-> exists p, p ∈ usable_providers providers /\ dnsblListed env reg p = (true, dnsOK))
  /\ (st = "pass" -> exists p, p ∈ usable_providers providers /\ snd (dnsblListed env reg p) = dnsOK).
Proof.
  intros Hp Hr. cbv zeta. unfold domainBlocklistCheck. destruct providers as [|p0 ps0]; [done|]. set (providers := p0 :: ps0).
  destruct (registrableDomain env domain) as [|a r] eqn:Er; [done|]. cbn [isEmpty]. set (reg := String a r).
  pose proof (hits_nonempty (asked env reg providers)) as Hh. setoid_rewrite asked_spec in Hh. rewrite <- Hh.
  destruct (asked env reg providers) as [|[p h] rest] eqn:El.
  - cbn. naive_solver.
  - assert (Hin : (p, h) ∈ asked env reg providers) by (rewrite El; left). apply asked_spec in Hin as [Hin Hs].
    destruct (hits ((p, h) :: rest)) as [|x xs]; cbn; split; try naive_solver. intros _. exists p. by rewrite Hs.
Qed.

(** With more than 20 domains the rest is not asked about, but counted as
    checked, and the map order decides whether a listing is seen. *)
Definition many_domains : list string :=
  "bad.example" :: ((fun c => chr (ascii_of_N (97 + N.of_nat c)) +:+ ".example") <$> seq 0 20).

Example link_domains_beyond_the_cap :
  let check order := linkBlocklistCheck bad_domain_env host_only order many_domains ["dbl.example"] in
  c_Status (check (fun l => l)) = "fail" /\ c_Status (check (fun l => rev l)) = "pass"
  /\ c_TechnicalDetails (check (fun l => rev l)) !! "link_domains_checked" = Some "21"
  /\ c_TechnicalDetails (check (fun l => rev l)) !! "beantwortete_abfragen" = Some "20".
Proof. vm_compute. auto. Qed.

(** A resolver that answers unknown names with an address of its own makes
    every list report the sender, while the domain lists ask for 127.0. *)
Example rewritten_nxdomain_is_a_listing :
  let env := mkCheckEnv (mkDnsEnv (fun _ => Err OtherError) (fun _ => Err OtherError) (fun _ => Ok ["198.51.100.1"])
                           (fun _ => Err OtherError) (fun _ => Err OtherError)) (fun _ => None) (fun _ => None) in
  c_Status <$> rblHeuristics env (fun _ => "") "192.0.2.7" ["zen.spamhaus.org"; "bl.spamcop.net"] = ["fail"]
  /\ dnsblListed env "a.example" "dbl.example" = (false, dnsOK).
Proof. vm_compute. auto. Qed.
