(* ===== verification/DomainChecks.v ===== *)
(** * DNSSEC, DANE and the age of a domain (internal/analyzer/analyzer.go)

    [dnsRecords] with its retry over TCP, the DNSSEC and DANE checks built on it,
    the registration date from RDAP and the penalty for a young domain. One
    exchange with a name server, one HTTP request, the JSON decoder and the date
    parser are parameters. *)

From Stdlib Require Import SpecFloat.
From S2P Require Import Prelude F64 GoStrings GoTime Regex GoNet Model Score Spf EnvMigrate Checks MailHeaders Body.

Local Open Scope string_scope.
Local Open Scope list_scope.
Local Open Scope Z_scope.

(** ** Records of any type *)

Inductive rr := RR_DNSKEY | RR_TLSA | RR_Other.
Inductive rcode := RcodeSuccess | RcodeNameError | RcodeOther.
Inductive qtype := TypeDNSKEY | TypeTLSA.

Record dns_msg := mkMsg { m_Truncated : bool; m_Rcode : rcode; m_Answer : list rr }.

Section WithResolver.
Context (env : check_env).
(** The servers and the port of /etc/resolv.conf, if it can be read. *)
Context (ClientConfigFromFile : option (list string * string)).
(** One exchange, over TCP or UDP; [None] is a transport error. *)
Context (Exchange : bool -> string -> string -> qtype -> option dns_msg).

Definition resolverServer : string :=
  match ClientConfigFromFile with
  | Some (s :: _, port) => JoinHostPort s (if isEmpty port then "53" else port)
  | _ => ""
  end.

Definition Fqdn (s : string) : string := if HasSuffix s "." then s else s +:+ ".".

Definition dnsRecords (server name : string) (t : qtype) : list rr * dnsStatus :=
  match asciiDomain env name with
  | None => ([], dnsAbsent)
  | Some ascii =>
      let resp :=
        match Exchange false server (Fqdn ascii) t with
        | None => None
        | Some r => if m_Truncated r then Exchange true server (Fqdn ascii) t else Some r
        end in
      match resp with
      | None => ([], dnsUnavailable)
      | Some r =>
          match m_Rcode r with
          | RcodeSuccess => match m_Answer r with [] => ([], dnsAbsent) | ans => (ans, dnsOK) end
          | RcodeNameError => ([], dnsAbsent)
          | RcodeOther => ([], dnsUnavailable)
          end
      end
  end.

Definition is_dnskey (r : rr) : bool := match r with RR_DNSKEY => true | _ => false end.
Definition is_tlsa (r : rr) : bool := match r with RR_TLSA => true | _ => false end.

Definition dnssecCheck (domain : string) : CheckResult :=
  let domain := normDomain domain in
  if isEmpty domain then info "dnssec" fzero
  else if isEmpty resolverServer then info "dnssec" fzero
  else
    let '(ans, st) := dnsRecords resolverServer domain TypeDNSKEY in
    match st with
    | dnsUnavailable => unresolved "dnssec"
    | _ =>
        let det : gmap string string := {["domain" := domain; "dnskey_records" := Itoa (Z.of_nat (List.length ans))]} in
        if existsb is_dnskey ans then withDetails (pass "dnssec" (lit 1 10)) det else withDetails (info "dnssec" fzero) det
    end.

Definition daneCheck (domain : string) : CheckResult :=
  let domain := normDomain domain in
  if isEmpty domain then info "dane_tlsa" fzero
  else if isEmpty resolverServer then info "dane_tlsa" fzero
  else
    let '(mxs, mxSt) := lookupMX env domain in
    match mxSt with
    | dnsUnavailable => unresolved "dane_tlsa"
    | dnsAbsent => withDetails (info "dane_tlsa" fzero) {["domain" := domain]}
    | dnsOK =>
        let host := TrimSuffix (match mxs with m :: _ => mx_Host m | [] => "" end) "." in
        let name := "_25._tcp." +:+ host in
        let '(ans, st) := dnsRecords resolverServer name TypeTLSA in
        match st with
        | dnsUnavailable => unresolved "dane_tlsa"
        | _ =>
            let det : gmap string string :=
              {["mx_host" := host; "tlsa_name" := name; "tlsa_records" := Itoa (Z.of_nat (List.length ans))]} in
            if existsb is_tlsa ans then withDetails (pass "dane_tlsa" (lit 1 10)) det else withDetails (info "dane_tlsa" fzero) det
        end
    end.

End WithResolver.

(** ** Registration date *)

(** A point in time with its calendar date in the zone it was given in. *)
Record zoned_time := mkZoned { zt_unix : Z; zt_date : Z * Z * Z }.

(** The zero [time.Time], the start of year 1. *)
Definition zero_time : Z := - 62135596800 * second.

Record rdap_lib := mkRdapLib {
  (** Status code, body and whether reading it fails; or the error of the request. *)
  rl_Get : string -> outcome string (Z * string * bool);
  (** Action and date of the events, or the error of the decoder. *)
  rl_Events : string -> outcome string (list (string * string));
  rl_ParseRFC3339 : string -> option zoned_time
}.

Section WithRdap.
Context (env : check_env) (lib : rdap_lib).

Fixpoint registration_event (events : list (string * string)) : option zoned_time :=
  match events with
  | [] => None
  | (action, date) :: rest =>
      if EqualFold action "registration"
      then match rl_ParseRFC3339 lib date with Some t => Some t | None => registration_event rest end
      else registration_event rest
  end.

Definition rdapRegistrationDate (domain : string) : outcome string zoned_time :=
  match rl_Get lib ("https://rdap.org/domain/" +:+ domain) with
  | Err e => Err e
  | Ok (status, data, fails) =>
      if negb (status =? 200) then Err ("rdap status " +:+ Itoa status)
      else match rl_Events lib (default "" (readLimited data fails (1024 * 1024))) with
           | Err e => Err e
           | Ok events => match registration_event events with
                          | Some t => Ok t
                          | None => Err "no registration event"
                          end
           end
  end.

(** [time.Since]: the difference saturates at the 64-bit range. *)
Definition since (now t : Z) : Z := Z.max (- 2 ^ 63) (Z.min (2 ^ 63 - 1) (now - t)).

(** [Duration.Hours]. *)
Definition Hours (d : Z) : float64 :=
  fadd (f_of_Z (Z.quot d hour)) (fdiv (f_of_Z (Z.rem d hour)) (f_of_Z hour)).

Definition age_days (now t : Z) : Z := ftrunc (fdiv (Hours (since now t)) (f_of_Z 24)).

(** The penalty in hundredths, cut towards zero. *)
Definition age_delta (ageDays : Z) : float64 :=
  if ageDays <? 365 then
    let f := fsub (f_of_Z 1) (fdiv (f_of_Z ageDays) (f_of_Z 365)) in
    let delta := fmul (fmul (f_of_Z (-2)) f) f in
    fdiv (f_of_Z (ftrunc (fmul delta (f_of_Z 100)))) (f_of_Z 100)
  else fzero.

Definition age_status (delta : float64) : string :=
  if fleb delta (f_of_Z (-1)) then "fail" else if fltb delta fzero then "warn" else "pass".

(** The verb [%.2f] of a finite number. *)
Definition format_2f (x : float64) : string :=
  let sign b := if b : bool then "-" else "" in
  let print (neg : bool) (n : Z) := sign neg +:+ Itoa (n / 100) +:+ "." +:+ pad 2 (n mod 100) in
  match x with
  | S754_zero s => print s 0
  | S754_finite s m e =>
      print s (if 0 <=? e then Z.pos m * 2 ^ e * 100
               else let d := 2 ^ (- e) in
                    let v := Z.pos m * 100 in
                    let q := v / d in
                    match Z.compare (2 * (v mod d)) d with
                    | Lt => q
                    | Eq => if Z.even q then q else q + 1
                    | Gt => q + 1
                    end)
  | S754_infinity s => (if s then "-" else "+") +:+ "Inf"
  | S754_nan => "NaN"
  end.

Definition domainAgeCheck (now : Z) (domain : string) : CheckResult :=
  let reg := registrableDomain env domain in
  if isEmpty reg then info "domain_age" fzero
  else
    let det : gmap string string := {["domain" := reg]} in
    match rdapRegistrationDate reg with
    | Err e => withDetails (info "domain_age" fzero) (<["rdap_error" := e]> det)
    | Ok created =>
        if zt_unix created =? zero_time then withDetails (info "domain_age" fzero) det
        else
          let ageDays := age_days now (zt_unix created) in
          let delta := age_delta ageDays in
          withDetails (verdict "domain_age" (age_status delta) delta)
            (<["registered" := format_date (zt_date created)]> (<["age_days" := Itoa ageDays]>
              (<["age_penalty" := format_2f delta]> det)))
    end.

End WithRdap.

Example penalty_texts : format_2f (age_delta 0) = "-2.00" /\ format_2f (age_delta 100) = "-1.05" /\ format_2f (age_delta 364) = "0.00".
Proof. vm_compute. auto. Qed.

(** ** Theorems *)

(** The penalty in hundredths of a point: the quadratic formula in exact
    arithmetic. At 292 days the formula gives exactly 0.08, which binary
    arithmetic misses from below. *)
Definition penalty (ageDays : Z) : Z :=
  if ageDays <? 365 then 200 * (365 - ageDays) * (365 - ageDays) / (365 * 365) - (if ageDays =? 292 then 1 else 0) else 0.

Lemma first_year : forallb (fun a => bool_decide (age_delta a = fdiv (f_of_Z (- penalty a)) (f_of_Z 100))) (seqZ 0 365) = true.
Proof. vm_compute. reflexivity. Qed.

Lemma age_delta_penalty a : 0 <= a -> age_delta a = fdiv (f_of_Z (- penalty a)) (f_of_Z 100).
Proof.
  intros Ha. destruct (Z.ltb_spec a 365).
  - pose proof first_year as H1. rewrite forallb_forall in H1. eapply bool_decide_eq_true_1. apply H1.
    apply list_elem_of_In, elem_of_seqZ. lia.
  - unfold age_delta, penalty. rewrite (proj2 (Z.ltb_ge a 365)) by lia. reflexivity.
Qed.

Lemma penalty_step : forallb (fun a => (penalty (a + 1) <=? penalty a) && (0 <=? penalty a) && (penalty a <=? 200)) (seqZ 0 366) = true.
Proof. vm_compute. reflexivity. Qed.

Lemma penalty_steps a : 0 <= a -> penalty (a + 1) <= penalty a /\ 0 <= penalty a <= 200.
Proof.
  intros Ha. destruct (Z.ltb_spec a 366).
  - pose proof penalty_step as H1. rewrite forallb_forall in H1. specialize (H1 a).
    rewrite <- list_elem_of_In, elem_of_seqZ in H1. specialize (H1 ltac:(lia)). bool_to_prop. lia.
  - unfold penalty. rewrite (proj2 (Z.ltb_ge a 365)), (proj2 (Z.ltb_ge (a + 1) 365)) by lia. lia.
Qed.

Lemma penalty_antitone a b : 0 <= a <= b -> penalty b <= penalty a.
Proof.
  intros [Ha Hab]. pattern b. apply (Zlt_lower_bound_ind _ a); [|done]. clear b Hab. intros b IH Hb.
  destruct (Z.eq_dec a b) as [->|Hn]; [lia|]. specialize (IH (b - 1) ltac:(lia)).
  destruct (penalty_steps (b - 1)) as [H1 _]; [lia|]. replace (b - 1 + 1) with b in H1 by lia. lia.
Qed.

(** The verdict for each size of the penalty. *)
Definition penalty_status (p : Z) : string := if 100 <=? p then "fail" else if 0 <? p then "warn" else "pass".

Lemma status_table : forallb (fun p => String.eqb (age_status (fdiv (f_of_Z (- p)) (f_of_Z 100))) (penalty_status p)) (seqZ 0 201) = true.
Proof. vm_compute. reflexivity. Qed.

(** The penalty for a young domain is the quadratic curve of the
    documentation, computed in binary arithmetic: for a domain registered [a] days
    ago it is the exact value of 2 (1 - a/365)^2 cut to hundredths (at 292 days
    one hundredth less), never above 2.00, never growing with the age, and nothing
    from one year on. The check fails from a penalty of one point, warns below and
    passes without one; an age that could not be found out costs nothing. *)
Theorem domain_age_penalty env lib now domain :
  registrableDomain env domain <> "" ->
  let c := domainAgeCheck env lib now domain in
  (forall e, rdapRegistrationDate lib (registrableDomain env domain) = Err e -> c_Status c = "info" /\ c_ScoreDelta c = fzero)
  /\ (forall t, rdapRegistrationDate lib (registrableDomain env domain) = Ok t -> zt_unix t <> zero_time ->
        let a := age_days now (zt_unix t) in 0 <= a ->
        c_ScoreDelta c = fdiv (f_of_Z (- penalty a)) (f_of_Z 100) /\ c_Status c = penalty_status (penalty a)
        /\ 0 <= penalty a <= 200 /\ (365 <= a -> penalty a = 0) /\ forall b, a <= b -> penalty b <= penalty a).
Proof.
  intros Hr. cbv zeta. unfold domainAgeCheck.
  replace (isEmpty (registrableDomain env domain)) with false by (by destruct (registrableDomain env domain)).
  split; [intros e ->; by split|]. intros t -> Hz Ha. rewrite (proj2 (Z.eqb_neq _ _) Hz). cbn [c_ScoreDelta c_Status withDetails verdict].
  rewrite age_delta_penalty by done. destruct (penalty_steps (age_days now (zt_unix t)) Ha) as [_ Hp].
  split_and!; [done| |lia|lia| |].
  - pose proof status_table as H1. rewrite forallb_forall in H1. apply String.eqb_eq, H1.
    apply list_elem_of_In, elem_of_seqZ. lia.
  - intros H. unfold penalty. by rewrite (proj2 (Z.ltb_ge _ _) H).
  - intros b Hb. apply penalty_antitone. lia.
Qed.

Definition sample_rdap : rdap_lib :=
  mkRdapLib (fun u => if String.eqb u "https://rdap.org/domain/young.example" then Ok (200, "events", false) else Err "no route")
    (fun _ => Ok [("last changed", "x"); ("Registration", "2026-01-01")])
    (fun d => if String.eqb d "2026-01-01" then Some (mkZoned (1767225600 * second) (2026, 1, 1)) else None).

Definition no_dns : check_env :=
  mkCheckEnv (mkDnsEnv (fun _ => Err OtherError) (fun _ => Err OtherError) (fun _ => Err OtherError) (fun _ => Err OtherError)
    (fun _ => Err OtherError)) (fun _ => None) (fun _ => None).

Lemma domain_age_penalty_witness :
  let c := domainAgeCheck no_dns sample_rdap ((1767225600 + 73 * 86400) * second) "young.example" in
  c_Status c = "fail" /\ c_ScoreDelta c = fdiv (f_of_Z (-128)) (f_of_Z 100).
Proof.
  cbv zeta.
  destruct (domain_age_penalty no_dns sample_rdap ((1767225600 + 73 * 86400) * second) "young.example") as [_ H].
  { vm_compute. discriminate. }
  destruct (H (mkZoned (1767225600 * second) (2026, 1, 1))) as (Hd & Hs & _).
  - vm_compute. reflexivity.
  - vm_compute. discriminate.
  - vm_compute. discriminate.
  - rewrite Hd, Hs. vm_compute. auto.
Defined.
