(* ===== verification/SpamFilters.v ===== *)
(** * Spam filters (internal/analyzer/analyzer.go, dns.go)

    The checks that ask SpamAssassin and Rspamd, from the answer on: parsing of
    the SpamAssassin report and score, the symbols of Rspamd, the verdicts and the
    details of the report. The connection to the services and the JSON decoder are
    parameters. *)

From S2P Require Import Prelude F64 GoStrings GoSort GoTime Regex GoNet Model Score Spf Checks MailHeaders Body EnvMigrate DomainChecks.
From Stdlib Require Import SpecFloat.

Local Open Scope string_scope.
Local Open Scope list_scope.
Local Open Scope Z_scope.

(** ** Numbers *)

(** [strconv.ParseFloat] of an optional sign, digits and an optional fraction:
    the correctly rounded quotient of the digits and a power of ten. [None] is
    the range error. *)
Definition quotient (neg : bool) (n d : Z) : float64 :=
  match n, d with
  | Z.pos p, Z.pos q =>
      let '(m, e, l) := SFdiv_core_binary 53 1024 (Z.pos p) 0 (Z.pos q) 0 in binary_round_aux 53 1024 neg m e l
  | _, _ => S754_zero neg
  end.

Definition ParseDecimal (s : string) : option float64 :=
  let neg := HasPrefix s "-" in
  let '(whole, frac, _) := Cut (TrimPrefix s "-") "." in
  let x := quotient neg (default 0 (digits_val (whole +:+ frac) 0)) (10 ^ Z.of_nat (String.length frac)) in
  if is_finite x then Some x else None.

Example parsed_decimals :
  ParseDecimal "4.9" = Some (lit 49 10) /\ ParseDecimal "-0.4" = Some (lit (-4) 10) /\ ParseDecimal "5" = Some (f_of_Z 5).
Proof. vm_compute. auto. Qed.

Definition fabs (x : float64) : float64 := SFabs x.

(** The verb [%+.2f]. *)
Definition format_plus_2f (x : float64) : string :=
  let s := format_2f x in if HasPrefix s "-" || HasPrefix s "+" then s else "+" +:+ s.

(** ** Symbols *)

Record rspamdSymbol := mkSymbol { sy_Name : string; sy_Score : float64; sy_Description : string }.

(** By weight, then by name. *)
Definition heavier (a b : rspamdSymbol) : bool :=
  let x := fabs (sy_Score a) in
  let y := fabs (sy_Score b) in
  if negb (feqb x y) then fltb y x else String.ltb (sy_Name a) (sy_Name b).

Definition higher (a b : rspamdSymbol) : bool :=
  if feqb (sy_Score a) (sy_Score b) then String.ltb (sy_Name a) (sy_Name b) else fltb (sy_Score b) (sy_Score a).

(** ** SpamAssassin *)

Definition decimal_pattern : regex :=
  seq_of [ropt (rlit "-"); rplus (RSet digit_rune); ropt (seq_of [rlit "."; rplus (RSet digit_rune)])].

Definition spaces : regex := RStar (RSet space_rune).

Definition spamAssassinScorePattern : regex :=
  seq_of [RGroup decimal_pattern; spaces; rlit "/"; spaces; RGroup decimal_pattern].

Definition parseSpamAssassinScore (line : string) : option (float64 * float64) :=
  match FindStringSubmatch spamAssassinScorePattern line with
  | Some [m1; m2] =>
      match ParseDecimal m1, ParseDecimal m2 with Some s, Some l => Some (s, l) | _, _ => None end
  | _ => None
  end.

Definition spamAssassinRuleLine : regex :=
  seq_of [RBegin; spaces; ropt (rlit "*"); spaces; RGroup decimal_pattern; rplus (RSet space_rune);
          RGroup (RSeq (RSet (ascii_range 65 90))
                    (rplus (RSet (fun c => ascii_range 65 90 c || digit_rune c || (c =? 95)))));
          rplus (RSet space_rune); RGroup (RStar (RSet dot_rune)); REnd].

(** The value [ParseFloat] returns beside an error is not finite. *)
Definition or_inf (neg : bool) (x : option float64) : float64 := default (S754_infinity neg) x.

Definition add_to_last (rules : list rspamdSymbol) (text : string) : list rspamdSymbol :=
  match rev rules with
  | [] => []
  | r :: before => rev before ++ [mkSymbol (sy_Name r) (sy_Score r) (TrimSpace (sy_Description r +:+ " " +:+ text))]
  end.

Fixpoint report_rules (lines : list string) (inTable : bool) (rules : list rspamdSymbol) : list rspamdSymbol :=
  match lines with
  | [] => rules
  | line :: rest =>
      let trimmed := TrimSpace line in
      if negb inTable then report_rules rest (HasPrefix trimmed "pts" && Contains trimmed "rule name") rules
      else if isEmpty trimmed || HasPrefix trimmed "---" then report_rules rest true rules
      else match FindStringSubmatch spamAssassinRuleLine line with
      | Some [points; name; text] =>
          report_rules rest true
            (rules ++ [mkSymbol name (or_inf (HasPrefix points "-") (ParseDecimal points)) (TrimSpace text)])
      | _ =>
          if HasPrefix line " " || HasPrefix line (chr TAB) then report_rules rest true (add_to_last rules trimmed)
          else report_rules rest true rules
      end
  end.

Definition parseSpamAssassinReport (resp : string) : list rspamdSymbol :=
  SliceStable heavier (report_rules (Split (ReplaceAll resp crlf lf) LF) false []).

Definition defaultSpamAssassinWarnRatio : float64 := lit 9 10.
Definition spamAssassinRuleLimit : nat := 30.

(** What became of the conversation with spamd. *)
Inductive spamd_answer :=
| SpamdError (msg : string)               (** connecting or sending failed *)
| SpamdReply (data : string) (fails : option string).  (** the bytes read, and the error that ended reading *)

Definition find_spam_line (lines : list string) : string :=
  match List.find (fun l => HasPrefix (ToLower (TrimSpace l)) "spam:") lines with
  | Some l => TrimSpace l
  | None => ""
  end.

Definition rule_details (rules : list rspamdSymbol) (det : gmap string string) : gmap string string :=
  fold_left (fun d r => <["sym:" +:+ sy_Name r := format_plus_2f (sy_Score r) +:+ "|" +:+ sy_Description r +:+ "|"]> d) rules det.

(** The verdict on an answer that could be read. *)
Definition spamassassin_verdict (resp spamLine : string) (warnRatio : float64) : CheckResult :=
  if Contains (ToLower resp) "spam: true" then fail "spamassassin" (lit (-16) 10)
  else if negb (isEmpty spamLine) then
    let warnRatio := if fleb warnRatio fzero then defaultSpamAssassinWarnRatio else warnRatio in
    match parseSpamAssassinScore spamLine with
    | Some (score, limit) =>
        if fltb fzero limit && fleb (fmul limit warnRatio) score then warn "spamassassin" (lit (-4) 10)
        else pass "spamassassin" fzero
    | None => pass "spamassassin" fzero
    end
  else info "spamassassin" fzero.

Definition spamAssassinHeuristic (spamd : string -> string -> spamd_answer) (hostport raw : string) (warnRatio : float64) : CheckResult :=
  let details : gmap string string := {["spamd_hostport" := hostport]} in
  let req := "REPORT SPAMC/1.5" +:+ crlf +:+ "Content-length: " +:+ Itoa (Z.of_nat (String.length raw)) +:+ crlf +:+ crlf +:+ raw in
  match spamd hostport req with
  | SpamdError msg => withDetails (info "spamassassin" fzero) (<["error" := msg]> details)
  | SpamdReply data fails =>
      match readLimited data (match fails with Some _ => true | None => false end) (64 * 1024) with
      | None => withDetails (info "spamassassin" fzero) (<["error" := default "" fails]> details)
      | Some resp =>
          let spamLine := find_spam_line (Split resp LF) in
          let rules := parseSpamAssassinReport resp in
          withDetails (spamassassin_verdict resp spamLine warnRatio)
            (<["rule_count" := Itoa (Z.of_nat (List.length rules))]>
              (rule_details (take spamAssassinRuleLimit rules) (<["spam_line" := orElse spamLine "none"]> details)))
      end
  end.

(** What a symbol of Rspamd means. *)
Definition rspamdSymbolExplain (name : string) : string :=
  if one_of name ["DMARC_POLICY_ALLOW"; "DMARC_POLICY_ALLOW_WITH_FAILURES"]
  then "DMARC-Prüfung bestanden. SPF oder DKIM ist aligned mit der sichtbaren From-Domain. → Positiv: Kein Handlungsbedarf."
  else if one_of name ["DMARC_POLICY_REJECT"]
  then "DMARC-Policy ist 'reject' und die Mail scheitert am DMARC-Check. → Kritisch: Empfänger-Server wird die Mail ablehnen. SPF und DKIM prüfen, sicherstellen dass mindestens einer aligned besteht."
  else if one_of name ["DMARC_POLICY_QUARANTINE"]
  then "DMARC-Policy ist 'quarantine' und die Mail schlägt den Check fehl. → Hoch: Mail landet wahrscheinlich im Spam-Ordner. SPF/DKIM-Alignment korrigieren, DMARC-Policy erst auf 'none' mit Reporting testen."
  else if one_of name ["DMARC_POLICY_SOFTFAIL"]
  then "DMARC ergibt Soft Fail: Authentifizierung ist nicht vollständig aligned. → Mittel: Bei strengen Providern negative Auswirkung. Alignment von SPF (Envelope-From) oder DKIM (d=-Tag) zur sichtbaren From-Domain prüfen."
  else if one_of name ["DMARC_NA"]
  then "Kein DMARC-Record für die From-Domain. DMARC ist nicht konfiguriert. → Hoch: Die Domain kann von Dritten für Phishing/Spoofing missbraucht werden. Mindestens _dmarc.<domain> TXT mit p=none einrichten und Reporting aktivieren."
  else if one_of name ["R_DKIM_ALLOW"; "DKIM_ALLOW"]
  then "DKIM-Signatur vorhanden und gültig. Privater Schlüssel stimmt mit dem DNS-Record überein. → Positiv: Kein Handlungsbedarf; prüfen ob d=-Domain auch zur From-Domain passt (Alignment)."
  else if one_of name ["R_DKIM_REJECT"; "DKIM_REJECT"]
  then "DKIM-Signatur ungültig oder manipuliert. Verifizierung fehlgeschlagen. → Kritisch: Mail verliert Vertrauensbonus, DMARC kann scheitern. Mögliche Ursachen: Mail nach dem Signieren verändert, falscher Selector, abgelaufener DNS-Key. Selector und DNS-Record prüfen."
  else if one_of name ["R_DKIM_TEMPFAIL"; "DKIM_TEMPFAIL"]
  then "DKIM-Prüfung temporär fehlgeschlagen (DNS-Timeout bei der Schlüsselabfrage). → Gering: Kein dauerhaftes Problem, aber kein Vertrauensbonus für diese Zustellung. DNS-Erreichbarkeit des Signing-Selectors prüfen."
  else if one_of name ["R_DKIM_NA"; "DKIM_NA"]
  then "Keine DKIM-Signatur in der Mail. DKIM ist am Absender-MTA nicht konfiguriert. → Hoch: Ohne DKIM kann DMARC nur über SPF bestehen; viele Provider werten fehlende DKIM-Signatur negativ. DKIM-Signing im ausgehenden MTA (Postfix: OpenDKIM/Rspamd, Exim: built-in) aktivieren."
  else if one_of name ["R_SPF_ALLOW"; "SPF_ALLOW"]
  then "SPF-Prüfung bestanden. Die sendende IP ist im SPF-Record der Envelope-From-Domain autorisiert. → Positiv: Kein Handlungsbedarf; sicherstellen dass SPF-Domain auch zur From-Domain passt (Alignment für DMARC)."
  else if one_of name ["R_SPF_FAIL"; "SPF_FAIL"]
  then "SPF Hard Fail. Die sendende IP ist explizit nicht autorisiert (-all im SPF-Record). → Kritisch: Empfänger sollten diese Mail ablehnen. Entweder die IP zum SPF-Record hinzufügen oder den MTA so konfigurieren, dass er über eine autorisierte IP sendet."
  else if one_of name ["R_SPF_SOFTFAIL"; "SPF_SOFTFAIL"]
  then "SPF Soft Fail (~all). Die sendende IP ist nicht autorisiert, aber keine harte Ablehnung. → Mittel: Wird oft als Warnung behandelt, erhöht Spam-Score. Sendende IP in den SPF-Record aufnehmen (include:, ip4:, ip6:)."
  else if one_of name ["R_SPF_NEUTRAL"; "SPF_NEUTRAL"]
  then "SPF Neutral (? Qualifier). Der Record trifft keine Aussage über diese IP. → Gering: Kein positiver oder negativer Einfluss auf DMARC. SPF-Record so anpassen, dass autorisierte IPs explizit erlaubt sind."
  else if one_of name ["R_SPF_NA"; "SPF_NA"]
  then "Kein SPF-Record für die Envelope-From-Domain. SPF ist nicht konfiguriert. → Hoch: Ohne SPF verliert die Domain Vertrauenspunkte und DMARC kann SPF nicht nutzen. TXT-Record v=spf1 auf der Envelope-From-Domain setzen."
  else if one_of name ["R_SPF_DNSFAIL"; "SPF_DNSFAIL"]
  then "SPF-Prüfung wegen DNS-Fehler nicht abgeschlossen. → Gering bis mittel: Temporäres Problem; bei Wiederholung DNS-Erreichbarkeit und SPF-Record-Syntax prüfen (zu viele DNS-Lookups, >10, können SPF brechen)."
  else if one_of name ["ARC_ALLOW"]
  then "ARC-Chain (Authenticated Received Chain) ist gültig. → Positiv: Weitergeleitete Mail mit intaktem Auth-Nachweis; hilft Empfängern korrekte Bewertung trotz Weiterleitung. Kein Handlungsbedarf."
  else if one_of name ["ARC_INVALID"]
  then "ARC-Chain vorhanden, aber ungültig. → Mittel: Mögliche Manipulation nach Weiterleitung oder fehlerhafter ARC-Seal. Weiterleitenden Mailserver prüfen."
  else if one_of name ["ARC_NA"]
  then "Keine ARC-Header. Mail wurde nicht weitergeleitet oder ARC nicht genutzt. → Neutral für direkt versendete Mails. Bei Weiterleitungs-Problemen: ARC im weiterleitenden Mailserver aktivieren."
  else if one_of name ["RCVD_IN_DNSWL_NONE"]
  then "IP steht auf keiner DNSWL-Whitelist. Kein Vertrauensbonus. → Neutral: Normal für neue oder kleine Sender. Mit der Zeit durch konsistentes sauberes Versenden Reputation aufbauen."
  else if one_of name ["RCVD_IN_DNSWL_LOW"]
  then "IP auf DNSWL als Low-Trust gelistet. Geringe positive Reputation. → Leicht positiv: Zeigt, dass die IP als legitimer Sender bekannt ist."
  else if one_of name ["RCVD_IN_DNSWL_MED"]
  then "IP auf DNSWL als Medium-Trust gelistet (z. B. bekannte Mailinglisten-Server). → Positiv: Gute Reputation; kein Handlungsbedarf."
  else if one_of name ["RCVD_IN_DNSWL_HI"]
  then "IP auf DNSWL als High-Trust gelistet (große Provider wie Gmail, Outlook, Fastmail). → Sehr positiv: Beste erreichbare Whitelist-Kategorie; kein Handlungsbedarf."
  else if one_of name ["RCVD_IN_MSPIKE_H2"]
  then "IP hat gute Reputation in der Mimecast/MSPIKE-Datenbank (Level H2). → Positiv: Kein Handlungsbedarf."
  else if one_of name ["RCVD_IN_MSPIKE_H3"; "RCVD_IN_MSPIKE_H4"; "RCVD_IN_MSPIKE_H5"]
  then "IP hat sehr gute Reputation in der Mimecast/MSPIKE-Datenbank. → Sehr positiv: Kein Handlungsbedarf."
  else if one_of name ["RCVD_IN_MSPIKE_L4"; "RCVD_IN_MSPIKE_L5"]
  then "IP hat schlechte Reputation in der Mimecast/MSPIKE-Datenbank. → Hoch: Spam-Risiko erhöht. Ursache für schlechte Reputation finden (Spam-Beschwerden, abrupte Volumenänderungen) und beheben; Delisting unter https://www.barracudacentral.org/ beantragen."
  else if one_of name ["RCVD_IN_SBL"; "RCVD_IN_SBL_CSS"]
  then "IP auf Spamhaus SBL (Spam Block List) gelistet – direkt mit Spam-Quellen assoziiert. → Kritisch: Führt bei den meisten großen Providern zur direkten Ablehnung. Ursache stoppen (offenes Relay, Malware, Spam-Kampagne), dann Delisting unter https://check.spamhaus.org/ beantragen."
  else if one_of name ["RCVD_IN_XBL"]
  then "IP auf Spamhaus XBL (Exploits Block List) gelistet – Botnet, Proxy oder kompromittierter Host. → Kritisch: System auf Malware/Botnet prüfen, Ports scannen, Passwörter ändern. Erst nach Bereinigung Delisting unter https://check.spamhaus.org/ beantragen."
  else if one_of name ["RCVD_IN_PBL"]
  then "IP auf Spamhaus PBL (Policy Block List) gelistet – typischerweise dynamische/Consumer-IP ohne Mailserver-Berechtigung. → Hoch: E-Mail sollte über einen dedizierten Mailserver mit statischer IP gesendet werden; Consumer-IPs sind für direkten Mailversand nicht geeignet."
  else if one_of name ["RCVD_IN_ZEN"]
  then "IP auf Spamhaus ZEN gelistet (kombinierte SBL/XBL/PBL-Datenbank). → Kritisch: Schwerwiegendes Spam-Signal; führt bei fast allen Providern zur Ablehnung. Zuerst prüfen welche Subliste zutrifft (SBL/XBL/PBL), dann gezielt beheben und Delisting beantragen."
  else if one_of name ["RCVD_IN_RP_CERTIFIED"]
  then "IP ist Return Path Certified – seriöse ESPs mit strengen Versandstandards. → Positiv: Kein Handlungsbedarf; Vorteil durch bessere Posteingang-Platzierung bei Unterstützern."
  else if one_of name ["MISSING_DATE"]
  then "Kein Date-Header. RFC 5322 schreibt ihn vor. → Hoch: Deutet auf fehlkonfigurierten MTA hin; erhöht Spam-Score deutlich. MTA so konfigurieren, dass er Date-Header automatisch setzt."
  else if one_of name ["MISSING_FROM"]
  then "Kein From-Header. RFC-Pflichtfeld. → Kritisch: Ohne From-Header wird die Mail von praktisch allen Filtern abgelehnt. Versandsoftware prüfen."
  else if one_of name ["MISSING_MID"; "MISSING_MESSAGE_ID"]
  then "Keine Message-ID. RFC-Pflichtfeld. → Hoch: Beeinträchtigt Threading in Mailclients und erhöht Spam-Score. MTA so konfigurieren, dass er eine eindeutige Message-ID erzeugt (Format: <uuid@domain>)."
  else if one_of name ["MISSING_MIME_VERSION"]
  then "Kein MIME-Version-Header. Bei HTML-Mails Pflicht. → Mittel: Deutet auf schlechte MIME-Konstruktion hin; Header 'MIME-Version: 1.0' zur Mail hinzufügen."
  else if one_of name ["MISSING_SUBJECT"]
  then "Kein Subject-Header. → Hoch: Erhöht Spam-Score deutlich; kein legitimer MTA lässt den Betreff weg. Betreff im Mailtemplate oder MTA-Konfiguration setzt den Subject-Header."
  else if one_of name ["MISSING_TO"]
  then "Kein To-Header. RFC-Pflicht. → Hoch: Das Fehlen weist auf Massenversand ohne korrekten Envelope hin; To-Header in der Mail setzen."
  else if one_of name ["INVALID_DATE"]
  then "Date-Header-Datum ist ungültig oder liegt stark in Vergangenheit/Zukunft. → Mittel: Serverzeit prüfen (NTP), MTA-Konfiguration für Date-Header kontrollieren."
  else if one_of name ["DATE_IN_FUTURE"]
  then "Datum liegt in der Zukunft. → Mittel: Falsch gestellte Serverzeit oder manipulierter Header. NTP-Synchronisation prüfen."
  else if one_of name ["DATE_IN_PAST"]
  then "Datum liegt weit in der Vergangenheit. → Mittel: Falsch gestellte Serverzeit oder lange Queue-Verzögerung. NTP und Mail-Queue-Status prüfen."
  else if one_of name ["MIME_HTML_ONLY"]
  then "Mail enthält nur HTML ohne text/plain-Alternative. → Mittel: Erhöht Spam-Score; Plaintext-Part empfohlen. Mailtemplate so anpassen, dass multipart/alternative mit text/plain und text/html gesendet wird."
  else if one_of name ["MIME_GOOD"]
  then "MIME-Struktur korrekt (multipart/alternative mit text/plain und text/html). → Positiv: Kein Handlungsbedarf."
  else if one_of name ["MIME_HTML_NO_TEXT"]
  then "HTML-Part vorhanden, aber kein lesbarer Textinhalt extrahierbar. → Mittel: Möglicherweise bild-lastiger Aufbau; mehr sichtbaren Text in den HTML-Part aufnehmen."
  else if one_of name ["MIME_BAD_UNICODE"]
  then "Ungültige Unicode-Zeichen im Inhalt. → Mittel: Kann auf Encoding-Fehler oder Obfuskation hinweisen. Charset-Deklaration und Encoding-Konvertierung im Mailtemplate prüfen."
  else if one_of name ["MIME_BASE64_TEXT"]
  then "Textteil ist base64-kodiert. Ungewöhnlich. → Gering bis mittel: Einige Filter bewerten base64-kodierten Plaintext negativ. Textteil als quoted-printable oder plain-text senden."
  else if one_of name ["MIME_CHARSET_UNICODE"]
  then "Unicode-Charset (UTF-8/UTF-16) verwendet. → Neutral: UTF-8 ist empfohlen; Charset korrekt im Content-Type angeben."
  else if one_of name ["HAS_ONLY_HTML_PART"]
  then "Nur HTML-Part, kein Plaintext. → Mittel: Häufiges Muster bei Marketing-Mails; Filter bewerten es negativ. Immer einen text/plain-Part mitschicken."
  else if one_of name ["HTTP_REDIRECTOR"]
  then "Link führt über einen HTTP-Redirector. → Mittel bis hoch: Verschleiert das eigentliche Ziel; Spam-Signal. Direkte HTTPS-URLs oder eigene Tracking-Domain verwenden."
  else if one_of name ["R_SUSPICIOUS_URL"]
  then "Verdächtige URL erkannt – Muster ähnelt bekannten Phishing- oder Spam-Domains. → Hoch: Alle Links im Mailtemplate auf verdächtige Domains oder Muster prüfen."
  else if one_of name ["URIBL_BLOCKED"]
  then "URL-Abfrage durch URIBL geblockt (Abfrage-Limit erreicht). → Neutral: Kein aussagekräftiger Befund; auf eigenen Rspamd-Servern eigene URIBL-API-Keys konfigurieren."
  else if one_of name ["URIBL_SBL"]
  then "URL-Domain auf Spamhaus SBL gelistet. → Kritisch: Direkte Spam-Assoziation der verlinkten Domain. Die betroffene Domain aus dem Mailtemplate entfernen oder eine saubere Domain verwenden."
  else if one_of name ["URIBL_ZEN_URIBL"]
  then "URL-Domain auf Spamhaus ZEN URIBL gelistet. → Kritisch: Stark mit Spam assoziierte Domain. Verlinkte Domain prüfen und ersetzen."
  else if one_of name ["SURBL_ABUSE"]
  then "URL-Domain auf SURBL Abuse-Liste. → Kritisch: Domain ist für Phishing oder Spam bekannt. Verlinkte Domain ersetzen; ggf. eigene Domain auf SURBL prüfen und Delisting beantragen."
  else if one_of name ["SURBL_MULTI"]
  then "URL-Domain auf SURBL gelistet. → Hoch: Kombinations-Check mehrerer SURBL-Listen; verlinkte Domain prüfen und ggf. ersetzen."
  else if one_of name ["FROM_HAS_DN"]
  then "From enthält einen Anzeigenamen (Display Name). → Neutral bis positiv: Normal für legitime Mails. Mismatch zwischen Anzeigename und Adresse ist aber ein Phishing-Signal; beides konsistent halten."
  else if one_of name ["FROM_NEQ_ENVFROM"]
  then "Header-From und Envelope-From (MAIL FROM) stimmen nicht überein. → Mittel: Kann legitim sein (ESP-Bounce-Domain), erhöht aber Spam-Score. Bounce-Domain als Subdomain der From-Domain konfigurieren um SPF-Alignment zu erhalten."
  else if one_of name ["TO_MATCH_ENVRCPT_ALL"]
  then "Alle To-Adressen stimmen mit dem Envelope-Rcpt überein. → Positiv: Saubere Konfiguration; kein Handlungsbedarf."
  else if one_of name ["TO_MATCH_ENVRCPT_SOME"]
  then "Nur ein Teil der To-Adressen stimmt mit dem Envelope überein. → Gering: Möglicherweise BCC-Versand oder fehlkonfiguriert. Nur wenn Score negativ: Envelope-Empfänger mit To-Header abstimmen."
  else if one_of name ["TO_DN_EQ_ADDR_FROM"]
  then "Anzeigename im To-Header stimmt mit der From-Adresse überein. → Gering: Ungewöhnlich, aber selten problematisch."
  else if one_of name ["REPLYTO_DN_EQ_FROM_DN"]
  then "Reply-To hat denselben Anzeigenamen wie From. → Neutral: Harmlos wenn intentional."
  else if one_of name ["FORGED_SENDER"]
  then "Absender-Domain ist wahrscheinlich gefälscht. → Kritisch: Starkes Phishing-Signal; führt oft zur direkten Ablehnung. SPF, DKIM und DMARC korrekt konfigurieren; die eigene Domain nicht in From-Adressen verwenden ohne korrekte Authentifizierung."
  else if one_of name ["FROM_EXCESS_BASE64"]
  then "From-Header ist unnötig base64-kodiert. → Mittel: Verschleierungs-Taktik oder Encoder-Fehler. From-Header als plain ASCII oder RFC 2047 encoded-word bei Sonderzeichen senden."
  else if one_of name ["BAYES_HAM"]
  then "Bayes-Klassifikator stuft die Mail als legitim (Ham) ein. Inhalt ähnelt bekannten Non-Spam-Mails. → Positiv: Kein Handlungsbedarf; gut trainierter Bayes-Filter ist ein starkes positives Signal."
  else if one_of name ["BAYES_SPAM"]
  then "Bayes-Klassifikator stuft die Mail als Spam ein. Inhalt ähnelt bekannten Spam-Mustern. → Hoch: Inhalt, Formulierungen und Struktur der Mail überprüfen. Spam-typische Phrasen ('Jetzt klicken!', 'Angebot nur heute', etc.) vermeiden."
  else if one_of name ["NEURAL_HAM"]
  then "KI-Modell (neuronales Netz) klassifiziert die Mail als legitim. → Positiv: Starkes positives Signal von Rspamd's ML-Klassifikator; kein Handlungsbedarf."
  else if one_of name ["NEURAL_SPAM"]
  then "KI-Modell (neuronales Netz) klassifiziert die Mail als Spam. → Hoch: Der ML-Klassifikator hat strukturelle oder inhaltliche Ähnlichkeit mit Spam erkannt. Inhalt, HTML-Struktur und Formulierungen überarbeiten."
  else if one_of name ["ONCE_RECEIVED"]
  then "Nur ein Received-Header. Mail direkt zugestellt ohne Zwischenhop. → Neutral bis positiv für einfache Infrastruktur; unüblich für komplexe Unternehmensinfrastruktur."
  else if one_of name ["TWO_RECEIVED"]
  then "Genau zwei Received-Header. Typisch bei direktem Versand über einen Relayhost. → Neutral: Kein Handlungsbedarf."
  else if one_of name ["MULTIPLE_RECEIVED"]
  then "Viele Received-Header. Lange Routing-Kette. → Neutral bei komplexer Infrastruktur; bei unerwartet vielen Hops Mail-Queue und Relay-Konfiguration prüfen, um Loops auszuschließen."
  else if one_of name ["HELO_LOCALHOST"]
  then "HELO/EHLO ist 'localhost' oder ähnlich. → Kritisch: Fehlkonfigurierter MTA; fast alle Filter werten das stark negativ. myhostname in Postfix oder primary_hostname in Exim auf den echten FQDN des Servers setzen."
  else if one_of name ["HELO_NUMERIC"]
  then "HELO/EHLO ist eine IP-Adresse statt eines Hostnamens. → Hoch: RFC-widrig; FQDN des Mailservers als HELO-Name konfigurieren."
  else if one_of name ["HELO_NORES_IP_1"; "HELO_NORES_IP_2"]
  then "HELO-Name löst nicht zur sendenden IP auf (kein Forward-confirmed rDNS). → Hoch: PTR-Record für die sendende IP beim Hosting-Provider setzen und sicherstellen, dass der A-Record des HELO-Namens auf dieselbe IP zeigt."
  else if one_of name ["RCPT_COUNT_ONE"]
  then "Genau ein Empfänger. → Positiv für transaktionale Mails: Kein Handlungsbedarf."
  else if one_of name ["MX_INVALID"]
  then "MX-Record der Absender-Domain ist ungültig oder nicht auflösbar. → Mittel: Bounces können nicht zugestellt werden; MX-Record und DNS-Auflösung prüfen."
  else if one_of name ["MX_MISSING"]
  then "Kein MX-Record für die Absender-Domain. Bounce-Delivery nicht möglich. → Mittel: MX-Record setzen damit Bounces und DMARC-Reports zugestellt werden können."
  else if one_of name ["MAILLIST"]
  then "Mail zeigt Merkmale einer Mailinglisten-Nachricht (List-* Header). → Neutral: ARC bei Weiterleitungen wichtig damit Auth-Ergebnisse erhalten bleiben."
  else if one_of name ["DMARC_DNSFAIL"]
  then "DMARC-Abfrage wegen DNS-Fehler nicht abgeschlossen. → Gering: Temporäres Problem; bei Wiederholung _dmarc-DNS-Record und Nameserver prüfen."
  else if HasPrefix name "DMARC_"
  then "DMARC-bezogenes Signal. Prüft das Alignment von SPF/DKIM mit der sichtbaren From-Domain. → DMARC-Record unter _dmarc.<domain> prüfen und sicherstellen, dass SPF oder DKIM aligned besteht."
  else if HasPrefix name "R_DKIM_" || HasPrefix name "DKIM_"
  then "DKIM-Signal. Betrifft die kryptografische Signatur der Mail. → DKIM-Selector, DNS-Key-Record und Signaturkonfiguration im MTA prüfen."
  else if HasPrefix name "R_SPF_" || HasPrefix name "SPF_"
  then "SPF-Signal. Prüft ob die sendende IP im DNS-Record der Absender-Domain autorisiert ist. → SPF-Record (v=spf1 ...) auf der Envelope-From-Domain prüfen und die sendende IP aufnehmen."
  else if HasPrefix name "RCVD_IN_"
  then "IP-Reputationscheck (DNSBL/Whitelist). Die sendende IP wird gegen eine externe Liste geprüft. → IP unter https://multirbl.valli.org/ prüfen; bei negativen Listings Ursache beheben und Delisting beantragen."
  else if HasPrefix name "URIBL_" || HasPrefix name "SURBL_"
  then "URL-Blacklist-Treffer. Eine verlinkte Domain ist auf einer Spam- oder Phishing-Liste gelistet. → Alle Links im Mailtemplate prüfen; betroffene Domain unter https://mxtoolbox.com/blacklists.aspx prüfen."
  else if HasPrefix name "BAYES_"
  then "Bayes-Klassifikator. Bewertet den Inhalt statistisch anhand erlernter Spam-/Ham-Muster. → Bei BAYES_SPAM: Formulierungen, Struktur und Inhalt der Mail überprüfen; Spam-typische Phrasen vermeiden."
  else if HasPrefix name "NEURAL_"
  then "Neuronales Netz. KI-basierte Klassifikation des Mail-Inhalts. → Bei NEURAL_SPAM: Inhalt und HTML-Struktur überarbeiten; signifikante Änderungen sind oft nötig."
  else if HasPrefix name "FUZZY_"
  then "Fuzzy-Hash-Treffer. Inhalt ähnelt einer bekannten Spam-Mail in der Datenbank. → Mail-Inhalt und Template deutlich überarbeiten; Wiederverwendung von Spam-Mustern vermeiden."
  else if HasPrefix name "MISSING_"
  then "Pflicht-Header fehlt. RFC 5322 schreibt diesen Header vor. → MTA oder Versandsoftware so konfigurieren, dass alle RFC-Pflicht-Header (Date, From, Message-ID, MIME-Version) gesetzt werden."
  else if HasPrefix name "HELO_"
  then "HELO/EHLO-Signal. Betrifft den Hostnamen, mit dem sich der sendende MTA vorstellt. → myhostname (Postfix) / primary_hostname (Exim) auf den echten FQDN des Servers setzen; PTR-Record muss übereinstimmen."
  else if HasPrefix name "MX_"
  then "MX-Record-Check. Prüft ob die Absender-Domain korrekte Empfangsserver konfiguriert hat. → MX-Record für die Domain setzen und sicherstellen, dass er korrekt auflöst."
  else if HasPrefix name "ARC_"
  then "ARC (Authenticated Received Chain). Bewahrt Auth-Ergebnisse über Weiterleitungen hinweg. → Relevant bei Mail-Weiterleitungen; weiterleitenden Mailserver mit ARC-Unterstützung konfigurieren."
  else if HasPrefix name "MIME_"
  then "MIME-Struktur-Signal. Betrifft den technischen Aufbau der Nachricht (Multipart, Encoding, Charset). → multipart/alternative mit text/plain und text/html verwenden; Charset-Angabe und Boundaries prüfen."
  else if HasPrefix name "FROM_" || HasPrefix name "TO_" || HasPrefix name "REPLYTO_"
  then "Absender/Empfänger-Signal. Prüft Konsistenz und Vertrauenswürdigkeit der Adress-Header. → From, Reply-To und Envelope-From konsistent und zur eigenen Domain passend konfigurieren."
  else "".

(** ** Rspamd *)

(** A decoded JSON value of any type. *)
Inductive any := AnyNumber (x : float64) | AnyString (s : string) | AnyOther.

Record rspamdCheckResult (payload : Type) := mkRspamdResult {
  rr_Score : float64;
  rr_RequiredScore : float64;
  rr_Action : string;
  rr_Symbols : list (string * payload)     (** the map, in the order it is iterated *)
}.
Arguments mkRspamdResult {payload}.
Arguments rr_Score {payload}.
Arguments rr_RequiredScore {payload}.
Arguments rr_Action {payload}.
Arguments rr_Symbols {payload}.

Record rspamd_lib := mkRspamdLib {
  rq_payload : Type;
  (** The POST request with its header fields: [None] if it cannot be built or
      sent, otherwise the status code and the body. *)
  rq_Post : string -> gmap string string -> string -> option (Z * string);
  rq_Unmarshal : string -> option (rspamdCheckResult rq_payload);
  (** The decoder for the struct with score and description. *)
  rq_Typed : rq_payload -> option (float64 * string);
  (** The decoder for any object: the fields score and description, and the
      description printed with the verb %v. *)
  rq_Generic : rq_payload -> option (any * option string);
  rq_ParseFloat : string -> float64
}.

Section Rspamd.
Context (lib : rspamd_lib).

Definition anyNumberToFloat (v : any) : float64 :=
  match v with AnyNumber x => x | AnyString s => rq_ParseFloat lib s | AnyOther => fzero end.

Definition parseRspamdSymbolPayload (p : rq_payload lib) : float64 * string :=
  match rq_Typed lib p with
  | Some (score, desc) => (score, TrimSpace desc)
  | None =>
      match rq_Generic lib p with
      | None => (fzero, "")
      | Some (score, desc) => (anyNumberToFloat score, match desc with Some d => TrimSpace d | None => "" end)
      end
  end.

Definition symbol_of (s : string * rq_payload lib) : rspamdSymbol :=
  let '(score, desc) := parseRspamdSymbolPayload (snd s) in mkSymbol (fst s) score desc.

Definition topRspamdSymbols (raw : list (string * rq_payload lib)) (n : nat) : list rspamdSymbol :=
  let symbols := SliceStable higher (List.filter (fun s => negb (fleb (sy_Score s) fzero)) (symbol_of <$> raw)) in
  if (0 <? n)%nat && (n <? List.length symbols)%nat then take n symbols else symbols.

Definition allRspamdSymbols (raw : list (string * rq_payload lib)) : list rspamdSymbol :=
  SliceStable heavier (symbol_of <$> raw).

Definition rspamdEnvelopeHeaders (m : Message) : gmap string string :=
  let set (k v : string) (h : gmap string string) := if isEmpty v then h else <[k := v]> h in
  let ip := TrimSpace (m_RemoteIP m) in
  set "Rcpt" (TrimSpace (m_RCPTTo m)) (set "From" (TrimSpace (m_SMTPFrom m)) (set "Helo" (TrimSpace (m_HELO m))
    (if isNil (ParseIP ip) then ∅ else {["IP" := ip]}))).

Definition request_headers (password : string) (m : Message) : gmap string string :=
  let h := rspamdEnvelopeHeaders m ∪ {["Content-Type" := "message/rfc822"]} in
  if isEmpty (TrimSpace password) then h else <["Password" := password]> h.

Definition suggestion_for (name : string) : option string :=
  if Contains name "SPF" then Some "Fix SPF for the envelope sender and align with visible From."
  else if Contains name "DKIM" then Some "Ensure DKIM signatures validate for this sending stream."
  else if Contains name "DMARC" then Some "Align DMARC with SPF or DKIM pass for the From domain."
  else if Contains name "URL" || Contains name "PHISH"
       then Some "Review links; remove suspicious redirects/shorteners and limit tracking parameters."
  else if Contains name "MIME" || Contains name "HTML"
       then Some "Simplify MIME/HTML structure and avoid hidden/deceptive markup."
  else if Contains name "RBL" || Contains name "DNSBL"
       then Some "Check sender IP reputation and remove DNSBL/RBL listings."
  else None.

Fixpoint suggestion_parts (symbols : list rspamdSymbol) (parts : list string) : list string :=
  match symbols with
  | [] => parts
  | s :: rest =>
      let parts := parts ++ option_list (suggestion_for (ToUpper (sy_Name s))) in
      if (4 <=? List.length parts)%nat then parts else suggestion_parts rest parts
  end.

Definition rspamdSuggestionFor (symbols : list rspamdSymbol) (action : string) : string :=
  let rejected := String.eqb action "reject" || String.eqb action "soft reject" in
  match suggestion_parts symbols (if rejected then ["Message was rejected by Rspamd; fix the highest positive symbols first."] else []) with
  | [] => "Inspect Rspamd symbol details and adjust auth, content, and link hygiene."
  | parts => Join (dedupeSorted parts) " "
  end.

Definition rspamd_verdict (action : string) (score required : float64) : CheckResult :=
  if String.eqb action "reject" then fail "rspamd" (lit (-22) 10)
  else if String.eqb action "soft reject" then fail "rspamd" (lit (-15) 10)
  else if one_of action ["add header"; "rewrite subject"; "greylist"] then warn "rspamd" (lit (-8) 10)
  else if String.eqb action "no action" then pass "rspamd" fzero
  else if fltb fzero required && fleb required score then warn "rspamd" (lit (-8) 10)
  else info "rspamd" fzero.

(** The details that name the symbols. *)
Definition symbol_details (symbols : list rspamdSymbol) (det : gmap string string) : gmap string string :=
  fold_left (fun d s => <["sym:" +:+ sy_Name s :=
      format_plus_2f (sy_Score s) +:+ "|" +:+ sy_Description s +:+ "|" +:+ rspamdSymbolExplain (sy_Name s)]> d) symbols det.

Definition rspamdHeuristic (endpointURL password : string) (msg : Message) : CheckResult :=
  match rq_Post lib endpointURL (request_headers password msg) (m_RawSource msg) with
  | None => info "rspamd" fzero
  | Some (status, data) =>
      if (status <? 200) || (300 <=? status) then info "rspamd" fzero
      else match rq_Unmarshal lib (stake (Z.to_nat (128 * 1024)) data) with
      | None => info "rspamd" fzero
      | Some parsed =>
          let action := ToLower (TrimSpace (rr_Action parsed)) in
          withDetails (rspamd_verdict action (rr_Score parsed) (rr_RequiredScore parsed))
            (symbol_details (take 15 (allRspamdSymbols (rr_Symbols parsed)))
              {["action" := orElse action "unknown"; "score" := format_2f (rr_Score parsed);
                "required_score" := format_2f (rr_RequiredScore parsed);
                "symbol_count" := Itoa (Z.of_nat (List.length (rr_Symbols parsed)))]})
      end
  end.

End Rspamd.

(** ** Theorems *)

Definition has_weight (s : rspamdSymbol) : Prop := is_nan (sy_Score s) = false.

Lemma fabs_nan x : is_nan (fabs x) = is_nan x.
Proof. by destruct x. Qed.

(** Symbols by a weight, the largest first, then by name. *)
Lemma weight_order (w : float64 -> float64) : (forall x, is_nan (w x) = is_nan x) ->
  WeakOrder has_weight (lex (fun a b => fltb (w (sy_Score b)) (w (sy_Score a))) (fun a b => String.ltb (sy_Name a) (sy_Name b))).
Proof.
  intros Hw. apply wo_lex.
  - eapply (wo_sub (fun s => is_nan (w (sy_Score s)) = false)); [intros s; by rewrite Hw|].
    apply (wo_preimage (fun s => w (sy_Score s)) (fun x => is_nan x = false) (fun x y => fltb y x)), wo_flip, float_order.
  - eapply (wo_sub (fun _ => True)); [done|]. apply (wo_preimage sy_Name (fun _ => True) String.ltb), string_order.
Qed.

Lemma weight_lex (w : float64 -> float64) a b : (forall x, is_nan (w x) = is_nan x) -> has_weight a -> has_weight b ->
  (if feqb (w (sy_Score a)) (w (sy_Score b)) then String.ltb (sy_Name a) (sy_Name b) else fltb (w (sy_Score b)) (w (sy_Score a)))
  = lex (fun a b => fltb (w (sy_Score b)) (w (sy_Score a))) (fun a b => String.ltb (sy_Name a) (sy_Name b)) a b.
Proof.
  intros Hw Ha Hb. unfold lex. rewrite feqb_spec by (by rewrite Hw).
  pose proof (wo_asym (P := fun x => is_nan x = false) (lt := fltb) (w (sy_Score a)) (w (sy_Score b))) as Has. cbv beta in Has. rewrite !Hw in Has. unfold has_weight in *.
  destruct (fltb (w (sy_Score a)) (w (sy_Score b))), (fltb (w (sy_Score b)) (w (sy_Score a))); naive_solver.
Qed.

#[export] Instance heavier_order : WeakOrder has_weight heavier.
Proof.
  eapply wo_ext; [|exact (weight_order fabs fabs_nan)]. intros a b Ha Hb. rewrite <- (weight_lex fabs) by (done || apply fabs_nan).
  unfold heavier. by destruct (feqb _ _).
Qed.

#[export] Instance higher_order : WeakOrder has_weight higher.
Proof.
  eapply wo_ext; [|exact (weight_order (fun x => x) (fun x => eq_refl))]. intros a b Ha Hb. by rewrite <- (weight_lex (fun x => x)).
Qed.

Lemma ltb_incomparable s t : String.ltb s t = false -> String.ltb t s = false -> s = t.
Proof. rewrite !ltb_leb, !negb_false_iff. intros. by apply String.leb_antisym. Qed.

Lemma heavier_names a b : heavier a b = false -> heavier b a = false -> has_weight a -> has_weight b -> sy_Name a = sy_Name b.
Proof.
  intros H1 H2 Ha Hb. unfold heavier in *. rewrite !feqb_spec in * by (by rewrite fabs_nan).
  destruct (fltb (fabs (sy_Score a)) (fabs (sy_Score b))), (fltb (fabs (sy_Score b)) (fabs (sy_Score a))); try done.
  by apply ltb_incomparable.
Qed.

Lemma higher_names a b : higher a b = false -> higher b a = false -> has_weight a -> has_weight b -> sy_Name a = sy_Name b.
Proof.
  intros H1 H2 Ha Hb. unfold higher in *. rewrite !feqb_spec in * by done.
  destruct (fltb (sy_Score a) (sy_Score b)), (fltb (sy_Score b) (sy_Score a)); try done.
  by apply ltb_incomparable.
Qed.

Lemma symbol_name lib s : sy_Name (symbol_of lib s) = fst s.
Proof. unfold symbol_of. by destruct (parseRspamdSymbolPayload lib (snd s)). Qed.

(** Equal names mean equal symbols, since they are the keys of a map. *)
Lemma symbols_by_name lib raw x y :
  NoDup (fst <$> raw) -> x ∈ symbol_of lib <$> raw -> y ∈ symbol_of lib <$> raw -> sy_Name x = sy_Name y -> x = y.
Proof.
  intros Hn (s & -> & Hs)%list_elem_of_fmap (t & -> & Ht)%list_elem_of_fmap. rewrite !symbol_name. intros He.
  f_equal. by apply (NoDup_fmap_elem fst raw).
Qed.

(** Which symbols of Rspamd a report shows does not depend on the order in
    which Go iterates over the map of symbols: every symbol appears, the heaviest
    first, and both lists are the same for any two orders of the map. *)
Theorem rspamd_symbols_deterministic lib raw raw' n :
  NoDup (fst <$> raw) -> raw ≡ₚ raw' -> Forall (fun s => has_weight (symbol_of lib s)) raw ->
  allRspamdSymbols lib raw = allRspamdSymbols lib raw' /\ topRspamdSymbols lib raw n = topRspamdSymbols lib raw' n
  /\ allRspamdSymbols lib raw ≡ₚ symbol_of lib <$> raw
  /\ StronglySorted (not_after heavier) (allRspamdSymbols lib raw).
Proof.
  intros Hn Hp Hw.
  assert (HF : Forall has_weight (symbol_of lib <$> raw)) by (by apply Forall_fmap).
  assert (Hpf : symbol_of lib <$> raw ≡ₚ symbol_of lib <$> raw') by (by apply fmap_Permutation).
  split_and!.
  - apply (SliceStable_unique heavier (P := has_weight)); [done|done|]. intros x y Hx Hy H1 H2. rewrite Forall_forall in HF.
    apply (symbols_by_name lib raw); [done..|]. apply heavier_names; auto.
  - unfold topRspamdSymbols. set (p := fun s => negb (fleb (sy_Score s) fzero)).
    assert (Hsub : forall x, x ∈ List.filter p (symbol_of lib <$> raw) -> x ∈ symbol_of lib <$> raw).
    { intros x. rewrite !list_elem_of_In, filter_In. by intros []. }
    rewrite (SliceStable_unique higher (P := has_weight) (List.filter p (symbol_of lib <$> raw)) (List.filter p (symbol_of lib <$> raw'))); [done| | |].
    + rewrite Forall_forall in *. auto.
    + by apply lfilter_Permutation.
    + intros x y Hx Hy H1 H2. rewrite Forall_forall in HF. apply (symbols_by_name lib raw); auto. apply higher_names; auto.
  - apply SliceStable_perm.
  - by apply (SliceStable_sorted heavier (P := has_weight)).
Qed.

(** A library whose payloads are scores. *)
Definition sample_rspamd (answer : option (Z * string)) (result : option (rspamdCheckResult float64)) : rspamd_lib :=
  mkRspamdLib float64 (fun _ _ _ => answer) (fun _ => result) (fun x => Some (x, "")) (fun _ => None) (fun _ => fzero).

Lemma rspamd_symbols_deterministic_witness :
  let lib := sample_rspamd None None in
  allRspamdSymbols lib [("B", lit (-3) 1); ("A", lit 3 1); ("C", lit 5 1)]
  = allRspamdSymbols lib [("C", lit 5 1); ("A", lit 3 1); ("B", lit (-3) 1)].
Proof.
  apply (rspamd_symbols_deterministic (sample_rspamd None None) [("B", lit (-3) 1); ("A", lit 3 1); ("C", lit 5 1)]
    [("C", lit 5 1); ("A", lit 3 1); ("B", lit (-3) 1)] 4).
  - apply (bool_decide_unpack _). vm_compute. exact I.
  - apply (Permutation_rev [("B", lit (-3) 1); ("A", lit 3 1); ("C", lit 5 1)]).
  - repeat constructor.
Defined.

(** A spam filter that does not answer costs nothing. *)
Lemma spam_filters_neutral spamd hostport raw ratio lib url password msg :
  (forall h r, exists e, spamd h r = SpamdError e) -> (forall u h b, rq_Post lib u h b = None) ->
  let sa := spamAssassinHeuristic spamd hostport raw ratio in
  let rs := rspamdHeuristic lib url password msg in
  (c_Status sa, c_ScoreDelta sa) = ("info", fzero) /\ (c_Status rs, c_ScoreDelta rs) = ("info", fzero).
Proof.
  intros Hs Hr. cbv zeta. unfold spamAssassinHeuristic, rspamdHeuristic. rewrite Hr.
  edestruct Hs as [e ->]. by split.
Qed.

Definition spamd_text (body : string) : string :=
  "SPAMD/1.1 0 EX_OK" +:+ crlf +:+ "Spam: False ; 1.2 / 5.0" +:+ crlf +:+ crlf +:+ "Content preview:  " +:+ body +:+ crlf
  +:+ " pts rule name              description" +:+ crlf
  +:+ "---- ---------------------- ----------" +:+ crlf
  +:+ " 0.0 HTML_MESSAGE           BODY: HTML included in message" +:+ crlf
  +:+ " 1.2 MISSING_DATE           Missing Date: header" +:+ crlf
  +:+ "                            in the message" +:+ crlf.

Example report_parsed :
  parseSpamAssassinReport (spamd_text "Hello")
  = [mkSymbol "MISSING_DATE" (lit 12 10) "Missing Date: header in the message";
     mkSymbol "HTML_MESSAGE" fzero "BODY: HTML included in message"].
Proof. vm_compute. reflexivity. Qed.

(** The report of spamd quotes the message, and the verdict is searched in the
    whole answer: a text that mentions the status line of a spam is one. *)
Example quoted_body_is_spam :
  let check body := spamAssassinHeuristic (fun _ _ => SpamdReply (spamd_text body) None) "spamd:783" "" (lit 9 10) in
  c_Status (check "Hello") = "pass" /\ c_Status (check "Our filter says spam: true") = "fail".
Proof. vm_compute. auto. Qed.
