(* ===== verification/Enrich.v ===== *)
(** * Enrichment of a check (internal/analyzer/analyzer.go, enrichCheckResult)

    What every finding of a report goes through: category, severity, importance
    and score ([enrich_verdict] of Checks.v), and the technical details that are
    added per check from the message under analysis. The names, explanations,
    recommendations and links it also sets are in Texts.v. *)

From S2P Require Import Prelude F64 GoStrings GoTime Regex GoNet Model Score Spf Checks Dkim MailHeaders Body.

Local Open Scope string_scope.
Local Open Scope list_scope.
Local Open Scope Z_scope.

Record checkContext := mkContext {
  cc_Now : Z;
  cc_Message : Message;
  cc_SMTPDomain : string;
  cc_Headers : mail_header;
  cc_FromDomain : string;
  cc_EnvelopeDomain : string;
  cc_ReturnPath : string;
  cc_ReturnDomain : string;
  cc_AuthHeaders : list string;
  cc_SPFResult : string;
  cc_SPFRecords : list string;
  cc_DKIMResult : string;
  cc_DKIMDomain : string;
  cc_DKIMDetail : string;
  cc_DKIMKey : dkimKeyDiag;
  cc_DMARCResult : string;
  cc_DMARCRecords : list string;
  cc_DMARCPolicy : string;
  cc_AlignedSPF : bool;
  cc_AlignedDKIM : bool;
  cc_ReceivedLines : list string;
  cc_ParsedBody : parsedBody;
  cc_Links : list string
}.

(** Assignments to the map of details, in their order. *)
Definition assign (details : gmap string string) (l : list (string * string)) : gmap string string :=
  fold_left (fun d kv => <[fst kv := snd kv]> d) l details.

Definition count_runes (s : string) : string := Itoa (Z.of_nat (List.length (runes s))).
Definition count_list {A} (l : list A) : string := Itoa (Z.of_nat (List.length l)).

Section WithContext.
Context (ctx : checkContext).

Definition get (k : string) : string := Get (cc_Headers ctx) k.
Definition header_or_none (k : string) : string := orElse (get k) "none".

Definition addBodyDetails : list (string * string) :=
  let body := cc_ParsedBody ctx in
  [("content_type", header_or_none "Content-Type");
   ("content_transfer_encoding", header_or_none "Content-Transfer-Encoding");
   ("part_count", Itoa (pb_PartCount body));
   ("has_text_part", FormatBool (pb_HasTextPart body));
   ("has_html_part", FormatBool (pb_HasHTMLPart body));
   ("text_chars", count_runes (pb_Text body));
   ("html_chars", count_runes (pb_HTML body));
   ("attachment_count", Itoa (pb_Attachments body));
   ("image_count", Itoa (pb_Images body));
   ("charset", orElse (pb_Charset body) "none")].

Definition addCheckSpecificDetails (id : string) : list (string * string) :=
  let body := cc_ParsedBody ctx in
  let msg := cc_Message ctx in
  let header_from_domain := ("header_from_domain", orElse (cc_FromDomain ctx) "none") in
  let envelope_from_domain := ("envelope_from_domain", orElse (cc_EnvelopeDomain ctx) "none") in
  let smtp_mail_from := ("smtp_mail_from", orElse (m_SMTPFrom msg) "none") in
  let spf_result := ("spf_result", orElse (cc_SPFResult ctx) "none") in
  let dkim_result := ("dkim_result", orElse (cc_DKIMResult ctx) "none") in
  let spf_aligned := ("spf_aligned", FormatBool (cc_AlignedSPF ctx)) in
  let dkim_aligned := ("dkim_aligned", FormatBool (cc_AlignedDKIM ctx)) in
  if String.eqb id "from_alignment" then
    [("header_from", header_or_none "From"); smtp_mail_from; header_from_domain; envelope_from_domain]
  else if String.eqb id "return_path" then
    [("return_path", orElse (cc_ReturnPath ctx) "none"); ("return_path_domain", orElse (cc_ReturnDomain ctx) "none"); smtp_mail_from]
  else if String.eqb id "reply_to" then [("header_from", header_or_none "From"); ("reply_to", header_or_none "Reply-To")]
  else if String.eqb id "spf_alignment" then [header_from_domain; envelope_from_domain; spf_result; spf_aligned]
  else if String.eqb id "dkim_alignment" then
    [header_from_domain; dkim_result; ("dkim_domain", orElse (cc_DKIMDomain ctx) "none"); dkim_aligned]
  else if String.eqb id "dmarc_alignment" then [header_from_domain; spf_result; dkim_result; spf_aligned; dkim_aligned]
  else if one_of id ["received_chain"; "tls_transport"] then
    [("remote_ip", orElse (m_RemoteIP msg) "unknown"); ("helo_ehlo", orElse (m_HELO msg) "unknown");
     ("received_count", count_list (cc_ReceivedLines ctx)); ("received_headers", joinOrNone (cc_ReceivedLines ctx))]
  else if String.eqb id "arc" then
    [("arc_seal", header_or_none "ARC-Seal"); ("arc_message_signature", header_or_none "ARC-Message-Signature")]
  else if one_of id ["mime_ct"; "mime_boundary"; "multipart_alt"; "plain_text"; "attachments"; "image_text_ratio"; "charset"]
  then addBodyDetails
  else if one_of id ["links"; "shortener"; "tracking_links"] then
    [("link_count", count_list (cc_Links ctx)); ("links", joinOrNone (cc_Links ctx))]
  else if one_of id ["html"; "hidden_html"; "html_validity"] then
    addBodyDetails ++ [("html_chars", count_runes (pb_HTML body))]
  else if one_of id ["subject"; "subject_exclaim"; "subject_caps"] then
    let subject := get "Subject" in
    [("subject", orElse subject "none"); ("subject_chars", count_runes subject);
     ("exclamation_count", Itoa (Z.of_nat (Count subject "!")))]
  else if one_of id ["date"; "date_skew"] then [("date_header", header_or_none "Date")]
  else if String.eqb id "message_id" then [("message_id", firstNonEmpty [get "Message-ID"; get "Message-Id"; "none"])]
  else if String.eqb id "list_unsub" then
    [("list_unsubscribe", header_or_none "List-Unsubscribe"); ("list_id", header_or_none "List-ID");
     ("precedence", header_or_none "Precedence")]
  else if String.eqb id "preheader" then addBodyDetails
  else if String.eqb id "unicode" then [("text_chars", count_runes (pb_AllText body))]
  else [].

(** The details [enrichCheckResult] sets itself. *)
Definition own_details (id : string) : list (string * string) :=
  let msg := cc_Message ctx in
  let remote_ip := ("remote_ip", orElse (m_RemoteIP msg) "unknown") in
  let helo := ("helo_ehlo", orElse (m_HELO msg) "unknown") in
  let header_from_domain := ("header_from_domain", orElse (cc_FromDomain ctx) "none") in
  let spf_result := ("spf_result", orElse (cc_SPFResult ctx) "none") in
  let dkim_result := ("dkim_result", orElse (cc_DKIMResult ctx) "none") in
  if String.eqb id "spf" then
    [remote_ip; helo; ("envelope_from_domain", orElse (cc_EnvelopeDomain ctx) "none"); header_from_domain; spf_result;
     ("spf_records", joinOrNone (cc_SPFRecords ctx))]
  else if String.eqb id "dkim" then
    [header_from_domain; dkim_result; ("dkim_domain", orElse (cc_DKIMDomain ctx) "none");
     ("dkim_signature", header_or_none "DKIM-Signature")]
  else if String.eqb id "dmarc" then
    [header_from_domain; spf_result; dkim_result; ("spf_aligned", FormatBool (cc_AlignedSPF ctx));
     ("dkim_aligned", FormatBool (cc_AlignedDKIM ctx)); ("dmarc_result", orElse (cc_DMARCResult ctx) "none");
     ("dmarc_records", joinOrNone (cc_DMARCRecords ctx)); ("policy", orElse (cc_DMARCPolicy ctx) "none")]
  else if String.eqb id "ptr" then
    [remote_ip; helo;
     ("expected", "IP " +:+ orElse (m_RemoteIP msg) "unknown" +:+ " -> PTR " +:+ orElse (m_HELO msg) "mail.example.tld"
                   +:+ " -> A/AAAA " +:+ orElse (m_RemoteIP msg) "sender-ip")]
  else if String.eqb id "helo" then [helo; remote_ip]
  else [].

Definition enrichCheckResult (c : CheckResult) : CheckResult :=
  let v := enrich_verdict c in
  if String.eqb (c_Status c) "na" then v
  else withDetails v (assign (assign (c_TechnicalDetails c) (addCheckSpecificDetails (c_ID c))) (own_details (c_ID c))).

(** ** Lemmas *)

Lemma enrich_id c : c_ID (enrichCheckResult c) = c_ID c.
Proof. unfold enrichCheckResult, enrich_verdict. by destruct (String.eqb (c_Status c) "na"). Qed.

Lemma enrich_status c : c_Status (enrichCheckResult c) = c_Status c.
Proof. unfold enrichCheckResult, enrich_verdict. by destruct (String.eqb (c_Status c) "na"). Qed.

Lemma enrich_delta c : c_ScoreDelta (enrichCheckResult c) = c_ScoreDelta (enrich_verdict c).
Proof. unfold enrichCheckResult, enrich_verdict. by destruct (String.eqb (c_Status c) "na"). Qed.

Lemma assign_other k l d : k ∉ fst <$> l -> assign d l !! k = d !! k.
Proof.
  unfold assign. revert d. induction l as [|[k' v] l IH]; intros d; [done|]. rewrite fmap_cons, not_elem_of_cons. intros [Hk Hl].
  cbn [fold_left]. rewrite IH by done. apply lookup_insert_ne. by apply not_eq_sym.
Qed.

(** The keys the enrichment can set. *)
Definition enrich_keys : list string :=
  ["content_type"; "content_transfer_encoding"; "part_count"; "has_text_part"; "has_html_part"; "text_chars"; "html_chars";
   "attachment_count"; "image_count"; "charset"; "header_from"; "smtp_mail_from"; "header_from_domain"; "envelope_from_domain";
   "return_path"; "return_path_domain"; "reply_to"; "spf_result"; "spf_aligned"; "dkim_result"; "dkim_domain"; "dkim_aligned";
   "remote_ip"; "helo_ehlo"; "received_count"; "received_headers"; "arc_seal"; "arc_message_signature"; "link_count"; "links";
   "subject"; "subject_chars"; "exclamation_count"; "date_header"; "message_id"; "list_unsubscribe"; "list_id"; "precedence";
   "spf_records"; "dkim_signature"; "dmarc_result"; "dmarc_records"; "policy"; "expected"].

Lemma keys_within (l : list (string * string)) :
  forallb (fun k => one_of k enrich_keys) (fst <$> l) = true -> forall k, one_of k enrich_keys = false -> k ∉ fst <$> l.
Proof.
  intros H k Hk Hin. rewrite forallb_forall in H. apply list_elem_of_In in Hin. specialize (H k Hin). congruence.
Qed.

Lemma specific_keys id k : one_of k enrich_keys = false -> k ∉ fst <$> addCheckSpecificDetails id.
Proof. apply keys_within. unfold addCheckSpecificDetails. repeat case_if; reflexivity. Qed.

Lemma own_keys id k : one_of k enrich_keys = false -> k ∉ fst <$> own_details id.
Proof. apply keys_within. unfold own_details. repeat case_if; reflexivity. Qed.

(** A detail under another key is kept: so are the markers for a lookup that was
    not answered, for a check the simulator skipped and for a pending recheck. *)
Lemma enrich_detail k c : one_of k enrich_keys = false ->
  c_TechnicalDetails (enrichCheckResult c) !! k = c_TechnicalDetails c !! k.
Proof.
  intros Hk. unfold enrichCheckResult. case_if; [unfold enrich_verdict; by case_if|]. cbn [c_TechnicalDetails withDetails].
  by rewrite !assign_other by (by apply own_keys || by apply specific_keys).
Qed.

Lemma enrich_has_detail k c : one_of k enrich_keys = false -> has_detail k (enrichCheckResult c) = has_detail k c.
Proof. intros Hk. unfold has_detail. by rewrite enrich_detail. Qed.

(** Enriching twice does not change the score. *)
Lemma enrich_delta_twice c : c_ScoreDelta (enrichCheckResult (enrichCheckResult c)) = c_ScoreDelta (enrichCheckResult c).
Proof.
  rewrite !enrich_delta. set (c' := enrichCheckResult c).
  assert (Hd : detail recheckPendingDetailKey c' = detail recheckPendingDetailKey c).
  { unfold detail, c'. by rewrite (enrich_detail recheckPendingDetailKey). }
  unfold enrich_verdict at 1. rewrite Hd. unfold c'. rewrite enrich_status, enrich_id, enrich_delta.
  unfold enrich_verdict. by repeat (case_if; cbn [c_ScoreDelta]).
Qed.

Lemma countUnresolved_enrich l : countUnresolved (enrichCheckResult <$> l) = countUnresolved l.
Proof.
  unfold countUnresolved. induction l as [|c l IH]; [done|]. rewrite fmap_cons. cbn [List.filter].
  rewrite (enrich_has_detail unresolvedDetailKey) by done. by destruct (has_detail unresolvedDetailKey c); cbn [List.length]; rewrite IH.
Qed.

End WithContext.
