(* ===== verification/Runner.v ===== *)
(** * The concurrent check runner (internal/analyzer/analyzer.go, runChecksConcurrently)

    The goroutines as actors that interleave freely: the launching loop, which
    takes a slot of the semaphore channel before each [go] statement and then
    waits on the wait group, and one goroutine per task, which writes its slot
    of the result slice, releases the semaphore and signals the wait group. A
    task that panics leaves the result of the deferred [recover]. The theorems
    hold for every schedule. *)

From S2P Require Import Prelude F64 GoStrings Model Checks.

Local Open Scope string_scope.
Local Open Scope list_scope.

(** A task: its name and what its function returns, or the value it panics with. *)
Record checkTask := mkTask {
  task_name : string;
  task_fn : outcome string (list CheckResult)
}.

(** What the goroutine of a task stores, the deferred [recover] included. *)
Definition task_result (t : checkTask) : list CheckResult :=
  match task_fn t with
  | Ok r => r
  | Err msg => [errorCheck (task_name t) msg]
  end.

Inductive phase := Running | Written | Released | Finished.

Inductive main_pc :=
| AtTask (i : nat)      (** at the head of the loop *)
| AtSem (i : nat)       (** past wg.Add, at the channel send *)
| AtWait                (** at wg.Wait *)
| Returned (out : list CheckResult).

Record run_state := mkRun {
  rs_pc : main_pc;
  rs_sem : nat;                         (** slots of the semaphore in use *)
  rs_wg : nat;                          (** wait-group counter *)
  rs_go : list phase;                   (** the goroutines launched so far *)
  rs_results : list (list CheckResult)
}.

Inductive actor := Main | Goroutine (i : nat).

#[global] Instance phase_eq_dec : EqDecision phase.
Proof. solve_decision. Defined.

Section Runner.
Context (tasks : list checkTask) (limit : Z).

(** The capacity of the semaphore. *)
Definition capacity : nat := if (limit <=? 0)%Z then 8 else Z.to_nat limit.

Definition run_init : run_state := mkRun (AtTask 0) 0 0 [] (replicate (List.length tasks) []).

(** One step of an actor; [None]: the actor is blocked or does not exist. *)
Definition move (a : actor) (s : run_state) : option run_state :=
  match a with
  | Main =>
      match rs_pc s with
      | AtTask i =>
          if (i <? List.length tasks)%nat
          then Some (mkRun (AtSem i) (rs_sem s) (S (rs_wg s)) (rs_go s) (rs_results s))
          else Some (mkRun AtWait (rs_sem s) (rs_wg s) (rs_go s) (rs_results s))
      | AtSem i =>
          if (rs_sem s <? capacity)%nat
          then Some (mkRun (AtTask (S i)) (S (rs_sem s)) (rs_wg s) (rs_go s ++ [Running]) (rs_results s))
          else None
      | AtWait =>
          if (rs_wg s =? 0)%nat
          then Some (mkRun (Returned (List.concat (rs_results s))) (rs_sem s) (rs_wg s) (rs_go s) (rs_results s))
          else None
      | Returned _ => None
      end
  | Goroutine i =>
      match rs_go s !! i, tasks !! i with
      | Some Running, Some t =>
          Some (mkRun (rs_pc s) (rs_sem s) (rs_wg s) (<[i := Written]> (rs_go s)) (<[i := task_result t]> (rs_results s)))
      | Some Written, Some _ =>
          Some (mkRun (rs_pc s) (Nat.pred (rs_sem s)) (rs_wg s) (<[i := Released]> (rs_go s)) (rs_results s))
      | Some Released, Some _ =>
          Some (mkRun (rs_pc s) (rs_sem s) (Nat.pred (rs_wg s)) (<[i := Finished]> (rs_go s)) (rs_results s))
      | _, _ => None
      end
  end.

Inductive run_step : run_state -> run_state -> Prop :=
| Step a s s' : move a s = Some s' -> run_step s s'.

(** A schedule is a list of actors; [None] when one of them cannot move. *)
Fixpoint run_schedule (sched : list actor) (s : run_state) : option run_state :=
  match sched with
  | [] => Some s
  | a :: rest => match move a s with Some s' => run_schedule rest s' | None => None end
  end.

(** What the sequential loop over the tasks returns. *)
Definition sequential : list CheckResult := List.concat (task_result <$> tasks).

(** ** Invariant *)

Definition weight (f : phase -> nat) (g : list phase) : nat := sum_list_with f g.

Definition holds_slot (p : phase) : nat := match p with Running | Written => 1 | _ => 0 end.
Definition unfinished (p : phase) : nat := match p with Finished => 0 | _ => 1 end.
Definition steps_left (p : phase) : nat :=
  match p with Running => 3 | Written => 2 | Released => 1 | Finished => 0 end.

Lemma weight_insert f g i p q :
  g !! i = Some p -> weight f (<[i := q]> g) + f p = weight f g + f q.
Proof.
  revert i. induction g as [|x g IH]; intros [|i] H; simplify_eq/=; [lia|]. specialize (IH _ H). lia.
Qed.

Lemma weight_snoc f g p : weight f (g ++ [p]) = weight f g + f p.
Proof. unfold weight. rewrite sum_list_with_app. simpl. lia. Qed.

Lemma weight_pos f g i p : g !! i = Some p -> f p <= weight f g.
Proof.
  revert i. induction g as [|x g IH]; intros [|i] H; simplify_eq/=; [lia|]. specialize (IH i H). lia.
Qed.

Definition launched (pc : main_pc) : nat :=
  match pc with AtTask i | AtSem i => i | _ => List.length tasks end.

Definition pending_add (pc : main_pc) : nat := match pc with AtSem _ => 1 | _ => 0 end.

(** The slot of task [i], given the phase of its goroutine if there is one. *)
Definition slot_ok (s : run_state) (i : nat) (t : checkTask) : Prop :=
  rs_results s !! i = Some (match rs_go s !! i with
                            | None | Some Running => []
                            | _ => task_result t
                            end).

Record run_inv (s : run_state) : Prop := {
  ri_launched : List.length (rs_go s) = launched (rs_pc s);
  ri_in_range : match rs_pc s with AtSem i => i < List.length tasks | AtTask i => i <= List.length tasks | _ => True end;
  ri_sem : rs_sem s = weight holds_slot (rs_go s);
  ri_limit : rs_sem s <= capacity;
  ri_wg : rs_wg s = weight unfinished (rs_go s) + pending_add (rs_pc s);
  ri_len : List.length (rs_results s) = List.length tasks;
  ri_slots : forall i t, tasks !! i = Some t -> slot_ok s i t;
  ri_out : match rs_pc s with Returned out => out = sequential | _ => True end
}.

Lemma capacity_pos : 0 < capacity.
Proof. unfold capacity. destruct (Z.leb_spec limit 0); lia. Qed.

Lemma run_init_inv : run_inv run_init.
Proof.
  constructor; simpl; try lia; try done.
  - by rewrite length_replicate.
  - intros i t Ht. unfold slot_ok. simpl. apply lookup_replicate_2, lookup_lt_is_Some. eauto.
Qed.

(** When every goroutine is past its write, the slots hold the sequential results. *)
Lemma slots_complete s :
  run_inv s -> List.length (rs_go s) = List.length tasks -> weight unfinished (rs_go s) = 0 ->
  rs_results s = task_result <$> tasks.
Proof.
  intros Hi Hl Hw. apply list_eq_same_length with (List.length tasks).
  - by rewrite length_fmap.
  - apply Hi.
  - intros i x y Hlt Hx Hy. rewrite list_lookup_fmap in Hy.
    destruct (tasks !! i) as [t|] eqn:Ht; simplify_eq/=. pose proof (ri_slots s Hi i t Ht) as Hs.
    unfold slot_ok in Hs. destruct (rs_go s !! i) as [p|] eqn:Hp.
    + pose proof (weight_pos unfinished _ _ _ Hp). destruct p; simpl in *; try lia. congruence.
    + apply lookup_ge_None in Hp. lia.
Qed.

Lemma slot_ok_insert s i j p q t pc sem wg :
  rs_go s !! i = Some p -> p <> Running -> q <> Running -> slot_ok s j t ->
  slot_ok (mkRun pc sem wg (<[i := q]> (rs_go s)) (rs_results s)) j t.
Proof.
  unfold slot_ok. simpl. intros Hi Hp Hq Hs. destruct (decide (i = j)) as [->|Hne].
  - rewrite Hi in Hs. rewrite list_lookup_insert_eq by (apply lookup_lt_is_Some; eauto).
    rewrite Hs. destruct p, q; congruence.
  - by rewrite list_lookup_insert_ne.
Qed.

Lemma slot_ok_write s i j t t' pc sem wg :
  run_inv s -> rs_go s !! i = Some Running -> tasks !! i = Some t -> tasks !! j = Some t' ->
  slot_ok (mkRun pc sem wg (<[i := Written]> (rs_go s)) (<[i := task_result t]> (rs_results s))) j t'.
Proof.
  intros Hinv Hi Ht Ht'. unfold slot_ok. simpl. destruct (decide (i = j)) as [->|Hne].
  - rewrite !list_lookup_insert_eq.
    + congruence.
    + apply lookup_lt_is_Some; eauto.
    + rewrite (ri_len s Hinv). apply lookup_lt_is_Some; eauto.
  - rewrite !list_lookup_insert_ne by done. exact (ri_slots s Hinv j t' Ht').
Qed.

Lemma slot_ok_launch s j t pc sem wg :
  slot_ok s j t -> slot_ok (mkRun pc sem wg (rs_go s ++ [Running]) (rs_results s)) j t.
Proof.
  unfold slot_ok. simpl. intros ->. f_equal. destruct (decide (j < List.length (rs_go s))).
  - by rewrite lookup_app_l.
  - rewrite (lookup_ge_None_2 (rs_go s)) by lia. rewrite lookup_app_r by lia.
    destruct (j - List.length (rs_go s)) as [|k]; [done|]. by destruct k.
Qed.

Lemma main_step_inv s s' : run_inv s -> move Main s = Some s' -> run_inv s'.
Proof.
  intros Hi Hm. pose proof Hi as []. destruct s as [pc sem wg g res]. simpl in *.
  destruct pc as [i|i| |out]; try done; case_if_in Hm; try done; simplify_eq/=; bool_to_prop.
  - by constructor; simpl; try lia.
  - constructor; simpl; try lia; done.
  - constructor; simpl; rewrite ?length_app, ?weight_snoc; simpl; try lia; try done.
    intros j t Ht. exact (slot_ok_launch _ j t _ _ _ (ri_slots0 j t Ht)).
  - constructor; simpl; try lia; try done. unfold sequential. f_equal.
    apply (slots_complete _ Hi); simpl; lia.
Qed.

Lemma goroutine_step_inv i s s' : run_inv s -> move (Goroutine i) s = Some s' -> run_inv s'.
Proof.
  intros Hi Hm. pose proof Hi as []. simpl in Hm.
  destruct (rs_go s !! i) as [p|] eqn:Hp; [|done]. destruct (tasks !! i) as [t|] eqn:Ht; [|by destruct p].
  pose proof (weight_insert holds_slot _ _ _ (match p with Running => Written | Written => Released | _ => Finished end) Hp).
  pose proof (weight_insert unfinished _ _ _ (match p with Running => Written | Written => Released | _ => Finished end) Hp).
  assert (Hr : forall out, rs_pc s = Returned out -> weight unfinished (rs_go s) = rs_wg s).
  { intros out Ho. rewrite Ho in *. simpl in *. lia. }
  destruct p; simplify_eq/=; constructor; simpl; rewrite ?length_insert; try lia; try done.
  - intros j t' Ht'. by apply slot_ok_write.
  - intros j t' Ht'. eapply slot_ok_insert; [done|done|done|by apply ri_slots0].
  - intros j t' Ht'. eapply slot_ok_insert; [done|done|done|by apply ri_slots0].
Qed.

Lemma run_step_inv s s' : run_inv s -> run_step s s' -> run_inv s'.
Proof.
  intros Hi Hs. destruct Hs as [a s1 s2 Hm]. destruct a as [|i].
  - exact (main_step_inv s1 s2 Hi Hm).
  - exact (goroutine_step_inv i s1 s2 Hi Hm).
Qed.

Lemma run_reachable_inv s : rtc run_step run_init s -> run_inv s.
Proof.
  generalize run_init_inv. generalize run_init. intros s0 Hi H.
  induction H as [|s1 s2 s3 Hs _ IH]; [done|]. by eapply IH, run_step_inv.
Qed.

(** ** Progress and termination *)

(** A goroutine that has not finished can always move: none of its steps blocks. *)
Lemma goroutine_moves s i p :
  run_inv s -> rs_go s !! i = Some p -> p <> Finished -> exists s', run_step s s'.
Proof.
  intros Hi Hp Hf. assert (is_Some (tasks !! i)) as [t Ht].
  { apply lookup_lt_is_Some. apply lookup_lt_Some in Hp. pose proof (ri_launched s Hi). pose proof (ri_in_range s Hi).
    unfold launched in *. destruct (rs_pc s); lia. }
  destruct p; [| | |done]; eexists; apply (Step (Goroutine i)); simpl; rewrite Hp, Ht; reflexivity.
Qed.

Lemma weight_witness f g : 0 < weight f g -> exists i p, g !! i = Some p /\ 0 < f p.
Proof.
  induction g as [|x g IH]; simpl; [lia|]. intros H. destruct (decide (0 < f x)).
  - by exists 0, x.
  - destruct IH as (i & p & ? & ?); [lia|]. by exists (S i), p.
Qed.

Lemma some_goroutine_moves f s :
  run_inv s -> f Finished = 0 -> 0 < weight f (rs_go s) -> exists s', run_step s s'.
Proof.
  intros Hi Hf Hw. destruct (weight_witness _ _ Hw) as (i & p & Hp & Hpos).
  apply (goroutine_moves s i p Hi Hp). intros ->. lia.
Qed.

Lemma run_progress s : run_inv s -> (exists out, rs_pc s = Returned out) \/ exists s', run_step s s'.
Proof.
  intros Hi. destruct (rs_pc s) as [i|i| |out] eqn:Hpc; [| | |eauto]; right.
  - destruct (i <? List.length tasks)%nat eqn:E; eexists; apply (Step Main); simpl; rewrite Hpc, E; done.
  - destruct (rs_sem s <? capacity)%nat eqn:E.
    + eexists. apply (Step Main). simpl. rewrite Hpc, E. done.
    + bool_to_prop. apply (some_goroutine_moves holds_slot s Hi eq_refl).
      rewrite <- (ri_sem s Hi). pose proof capacity_pos. lia.
  - destruct (rs_wg s =? 0)%nat eqn:E.
    + eexists. apply (Step Main). simpl. rewrite Hpc, E. done.
    + bool_to_prop. apply (some_goroutine_moves unfinished s Hi eq_refl).
      pose proof (ri_wg s Hi) as Hw. rewrite Hpc in Hw. simpl in Hw. lia.
Qed.

Definition measure (s : run_state) : nat :=
  weight steps_left (rs_go s) +
  match rs_pc s with
  | AtTask i => 6 * (List.length tasks - i) + 2
  | AtSem i => 6 * (List.length tasks - i) + 1
  | AtWait => 1
  | Returned _ => 0
  end.

Lemma run_step_measure s s' : run_inv s -> run_step s s' -> measure s' < measure s.
Proof.
  intros Hi Hs. destruct Hs as [a s1 s2 Hm]. pose proof (ri_in_range s1 Hi) as Hr. unfold measure. destruct a as [|i]; simpl in Hm.
  - destruct (rs_pc s1) as [i|i| |out] eqn:Hpc; try done; case_if_in Hm; simplify_eq/=;
      rewrite ?weight_snoc; simpl; bool_to_prop; lia.
  - destruct (rs_go s1 !! i) as [p|] eqn:Hp; [|done].
    pose proof (weight_insert steps_left _ _ _
      (match p with Running => Written | Written => Released | _ => Finished end) Hp).
    destruct (tasks !! i); destruct p; simplify_eq/=; lia.
Qed.

Lemma run_length k s0 s : run_inv s0 -> nsteps run_step k s0 s -> measure s + k <= measure s0.
Proof.
  intros Hi H. induction H as [s|k s1 s2 s3 Hs Hn IH]; [lia|].
  pose proof (run_step_measure _ _ Hi Hs). pose proof (run_step_inv _ _ Hi Hs) as Hi2.
  specialize (IH Hi2). lia.
Qed.

End Runner.

(** ** Properties *)

(** C22: whatever the schedule, when the runner returns, its result is that of the
    sequential loop over the tasks: every task contributes exactly its results (a
    panicking task one error check), in task order. *)
Theorem runChecksConcurrently_deterministic tasks limit s out :
  rtc (run_step tasks limit) (run_init tasks) s -> rs_pc s = Returned out -> out = sequential tasks.
Proof.
  intros Hr Hpc. pose proof (ri_out _ _ _ (run_reachable_inv tasks limit s Hr)) as Ho.
  by rewrite Hpc in Ho.
Qed.

(** C24: the runner always returns: no reachable state is stuck before the return, and
    no schedule takes more than six steps per task plus two. *)
Theorem runChecksConcurrently_returns tasks limit s k :
  nsteps (run_step tasks limit) k (run_init tasks) s ->
  (k <= 6 * List.length tasks + 2)%nat
  /\ ((exists out, rs_pc s = Returned out) \/ exists s', run_step tasks limit s s').
Proof.
  intros Hn. split.
  - pose proof (run_length _ _ _ _ _ (run_init_inv tasks limit) Hn) as Hl.
    unfold measure, run_init in Hl. simpl in Hl. lia.
  - apply run_progress, run_reachable_inv. by apply rtc_nsteps_2 in Hn.
Qed.

(** At no time do more goroutines run a check than the limit allows (eight
    when the limit is not positive). *)
Theorem runChecksConcurrently_bounded tasks limit s :
  rtc (run_step tasks limit) (run_init tasks) s ->
  (List.length (List.filter (fun p => bool_decide (p = Running)) (rs_go s)) <= capacity limit)%nat.
Proof.
  intros Hr. pose proof (run_reachable_inv _ _ _ Hr) as Hi.
  pose proof (ri_limit _ _ _ Hi) as Hl. rewrite (ri_sem _ _ _ Hi) in Hl.
  etrans; [|exact Hl]. clear. induction (rs_go s) as [|p g IH]; [done|].
  simpl. destruct p; simpl; lia.
Qed.

Lemma run_schedule_steps tasks limit sched s s' :
  run_schedule tasks limit sched s = Some s' -> nsteps (run_step tasks limit) (List.length sched) s s'.
Proof.
  revert s. induction sched as [|a sched IH]; intros s H; simplify_eq/=; [constructor|].
  destruct (move tasks limit a s) as [s1|] eqn:E; [|done].
  exact (nsteps_l _ _ _ _ _ (Step _ _ a _ _ E) (IH _ H)).
Qed.

(** Two tasks, of which the first panics, with the second finishing first. *)
Definition sample_tasks : list checkTask :=
  [mkTask "dnssec" (Err "index out of range"); mkTask "mx_records" (Ok [pass "mx_records" fzero])].
Definition sample_schedule : list actor :=
  [Main; Main; Main; Main; Main; Goroutine 1; Goroutine 1; Goroutine 0; Goroutine 1; Goroutine 0; Goroutine 0; Main].
Definition sample_end : run_state := Eval vm_compute in
  default (run_init sample_tasks) (run_schedule sample_tasks 4 sample_schedule (run_init sample_tasks)).

Lemma sample_steps : nsteps (run_step sample_tasks 4) 12 (run_init sample_tasks) sample_end.
Proof. apply (run_schedule_steps _ _ sample_schedule). vm_compute. reflexivity. Qed.

Lemma runChecksConcurrently_deterministic_witness :
  rs_pc sample_end = Returned (sequential sample_tasks).
Proof.
  assert (H : exists out, rs_pc sample_end = Returned out) by (eexists; vm_compute; reflexivity).
  destruct H as [out H]. rewrite H. f_equal.
  exact (runChecksConcurrently_deterministic sample_tasks 4 sample_end out (rtc_nsteps_2 _ _ _ sample_steps) H).
Defined.

Lemma runChecksConcurrently_returns_witness : (12 <= 6 * List.length sample_tasks + 2)%nat.
Proof. exact (proj1 (runChecksConcurrently_returns sample_tasks 4 sample_end 12 sample_steps)). Defined.

Lemma runChecksConcurrently_bounded_witness :
  (List.length (List.filter (fun p => bool_decide (p = Running)) (rs_go sample_end)) <= 4)%nat.
Proof. exact (runChecksConcurrently_bounded sample_tasks 4 sample_end (rtc_nsteps_2 _ _ _ sample_steps)). Defined.
