(* ===== verification/Analyze.v ===== *)
(** * The analysis of a message (internal/analyzer/analyzer.go, Analyze)

    How a report is put together: the authentication results read from the
    header, the checks on header and body, the network checks that run
    concurrently (or the placeholders of the simulator), their enrichment, and the
    score, advice and warnings drawn from them. Everything outside the program
    (resolvers, HTTP, parsers, spam filters) is a field of [world]. A panic in one
    of the concurrent checks is [w_crash]; one anywhere else ends in
    [recovered_report]. *)

From S2P Require Import Prelude F64 GoStrings GoSort GoTime Regex GoNet Model Score Spf Checks Dkim MailHeaders Body Content.
From S2P Require Import Blocklists DomainChecks SpamFilters Enrich Runner.

Local Open Scope string_scope.
Local Open Scope list_scope.
Local Open Scope Z_scope.

Record Options := mkOptions {
  o_EnableRBLChecks : bool;
  o_RBLProviders : list string;
  o_EnableSpamAssassin : bool;
  o_SpamAssassinHostPort : string;
  o_SpamAssassinWarnRatio : float64;
  o_EnableRspamd : bool;
  o_RspamdURL : string;
  o_RspamdPassword : string;
  o_EnableDomainAge : bool;
  o_EnableDomainBlocklist : bool;
  o_DomainBlocklistProviders : list string;
  o_EnableBrokenLinks : bool
}.

Record Input := mkInput {
  in_Message : Message;
  in_SMTPDomain : string;
  in_EnableDomainAge : bool;
  in_EnableDomainBlocklist : bool;
  in_EnableBrokenLinks : bool;
  in_SimulationMode : bool
}.

Record world := mkWorld {
  w_ReadMessage : string -> outcome string (mail_header * string * bool);
    (** mail.ReadMessage: header, body and whether reading the body fails *)
  w_checks : check_env;
  w_content : content_lib;
  w_ParsePKIX : string -> option public_key;
  w_external : list string;                                      (** dnsfallback.Hosts *)
  w_probe : string -> string -> option Z;                        (** probeLink *)
  w_arrive : list link_result -> list link_result;               (** order of the probes *)
  w_order : list string -> list string;                          (** order of a map *)
  w_err_text : dns_error -> string;
  w_resolv : option (list string * string);
  w_exchange : bool -> string -> string -> qtype -> option dns_msg;
  w_rdap : rdap_lib;
  w_spamd : string -> string -> spamd_answer;
  w_rspamd : rspamd_lib;
  w_crash : string -> option string;                             (** the panic of a network check *)
  w_recommendation : checkContext -> CheckResult -> string       (** the text of the advice *)
}.

Definition simulatorSkippedMarker : string := "simulator_uebersprungen".

Definition countSimulatorSkipped (checks : list CheckResult) : nat :=
  List.length (List.filter (has_detail simulatorSkippedMarker) checks).

Definition add_detail (k v : string) (c : CheckResult) : CheckResult := withDetails c (<[k := v]> (c_TechnicalDetails c)).

Definition auth_ids : list string := ["spf"; "dkim"; "dmarc"; "spf_alignment"; "dkim_alignment"; "dmarc_alignment"].

Definition markSimulatedAuthResults (checks : list CheckResult) : list CheckResult :=
  (fun c => if one_of (c_ID c) auth_ids
            then add_detail "herkunft" "aus der eingefügten Kopfzeile übernommen, nicht verifiziert" c else c) <$> checks.

Definition unresolvedWarning (count : nat) : string :=
  if (count =? 1)%nat
  then "Eine Prüfung konnte nicht durchgeführt werden, weil die DNS-Abfrage nicht beantwortet wurde. Das Ergebnis ist deshalb unvollständig — bitte später erneut prüfen."
  else Itoa (Z.of_nat count) +:+ " Prüfungen konnten nicht durchgeführt werden, weil DNS-Abfragen nicht beantwortet wurden. Das Ergebnis ist deshalb unvollständig — bitte später erneut prüfen.".

Definition simulatorWarning (count : nat) : string :=
  "Dies ist ein Teilergebnis: " +:+ Itoa (Z.of_nat count) +:+ " Prüfungen laufen im Simulator nicht, weil sie eine echte Zustellung voraussetzen. Der Wert lässt sich deshalb nicht mit dem einer versendeten Testmail vergleichen.".

Definition bulkContentWarning : string :=
  "Diese Nachricht sieht inhaltlich nach einem Newsletter aus, trägt aber keine der Kopfzeilen, an denen Mailprogramme das erkennen (List-Unsubscribe, List-Id). Sie wird deshalb wie eine Massensendung bewertet.".

(** The placeholders of the simulator. *)
Definition simGroupBIDs : list string :=
  ["mx_records"; "address_records"; "dkim_keylength"; "envelope_mx"; "mta_sts"; "tls_rpt"; "bimi"; "dnssec"; "dane_tlsa";
   "ptr"; "ptr_pattern"; "link_blocklist"; "rbl"; "from_domain_rcv"].
Definition simGroupCIDs : list string := ["domain_age"; "domain_blocklist"].

(** ** One parsed message *)

Section Parsed.
Context (w : world) (opts : Options) (inp : Input) (now : Z) (headers : mail_header) (bodyBytes : string).

Let msg := in_Message inp.
Let env := w_checks w.
Let lib := w_content w.

Definition fromDomain : string := fst (headerFromDomain (cl_ParseAddress lib) (Get headers "From")).
Definition envelopeDomain : string := domainPart (m_SMTPFrom msg).
Definition returnPathDomain : string := domainPart (Get headers "Return-Path").
Definition authHeaderValues : list string := headerValues headers "Authentication-Results".
Definition authResults : string := ToLower (Join authHeaderValues " ; ").
Definition spfResult : string := parseAuthResult authResults "spf".
Definition dkimResult : string := parseAuthResult authResults "dkim".
Definition dmarcResult : string := parseAuthResult authResults "dmarc".
Definition isForwarded : bool := isForwardedMail headers authResults.
Definition headerMailType : string := detectMailType headers.

(** SPF. *)
Definition spf_lookup : list string * dnsStatus :=
  if isEmpty envelopeDomain then ([], dnsOK)
  else let '(recs, st) := lookupTXT env envelopeDomain in (TrimSpace <$> List.filter is_spf1_record recs, st).
Definition spfRecords : list string := fst spf_lookup.

Definition spf_check : CheckResult :=
  if String.eqb spfResult "pass" then pass "spf" (lit 4 10)
  else if one_of spfResult ["fail"; "softfail"] then
    if isForwarded then warn "spf" (lit (-3) 10) else fail "spf" (lit (-14) 10)
  else match spfRecords, snd spf_lookup with
       | _ :: _, _ => info "spf" fzero
       | [], dnsUnavailable => unresolved "spf"
       | [], _ => warn "spf" (lit (-8) 10)
       end.

(** DKIM. *)
Definition hasDKIMSig : bool := has headers "DKIM-Signature".
Definition dkimDetail : string := TrimSpace (Get headers "X-Sender-Report-DKIM-Detail").
Definition keyDiag : dkimKeyDiag :=
  if hasDKIMSig && dkimDetailIsKeyProblem (ToLower dkimDetail)
  then diagnoseDKIMKey env (w_ParsePKIX w) (w_external w) (Get headers "DKIM-Signature") else noDiag.

Definition dkim_check : CheckResult :=
  if String.eqb dkimResult "pass" then pass "dkim" (lit 4 10)
  else if one_of dkimResult ["fail"; "temperror"; "permerror"] then
    let f := classifyDKIMFailure dkimResult dkimDetail now keyDiag in
    let c := if String.eqb (df_status f) "warn" then warn "dkim" (df_delta f) else fail "dkim" (df_delta f) in
    if negb (isEmpty dkimDetail) && negb (String.eqb dkimDetail "none")
    then withDetails c {["verifier_detail" := dkimDetail; "dkim_result" := dkimResult]} else c
  else if hasDKIMSig then warn "dkim" (lit (-5) 10) else fail "dkim" (f_of_Z (-1)).

(** DMARC. *)
Definition dmarc_lookup : dmarcLookupResult :=
  if isEmpty fromDomain then mkDmarcLookup [] "" "" false dnsOK else lookupDMARCRecord env fromDomain.
Definition dmarcRecords : list string := dm_Records dmarc_lookup.
Definition dmarcPolicy : string := dm_Policy dmarc_lookup.
Definition alignedSPF : bool := relaxedAligned env envelopeDomain fromDomain.
Definition dkimDomains : list string := dkimSigningDomains headers.
Definition aligned_signature : option string := List.find (fun d => relaxedAligned env d fromDomain) dkimDomains.
Definition alignedDKIM : bool := match aligned_signature with Some _ => true | None => false end.
Definition dkimDomain : string := default (firstNonEmpty dkimDomains) aligned_signature.

Definition dmarc_check : CheckResult :=
  if String.eqb dmarcResult "pass" then pass "dmarc" (lit 4 10)
  else match dmarcRecords, dm_Status dmarc_lookup with
       | _ :: _, _ =>
           if alignedSPF || alignedDKIM then
             if isForwarded && negb alignedSPF && alignedDKIM then warn "dmarc" (lit (-2) 10) else warn "dmarc" (lit (-3) 10)
           else if isForwarded then warn "dmarc" (lit (-5) 10)
           else fail "dmarc" (f_of_Z (-1))
       | [], dnsUnavailable => unresolved "dmarc"
       | [], _ => fail "dmarc" (lit (-12) 10)
       end.

Definition primaryDomain : string := firstNonEmpty [fromDomain; envelopeDomain].
Definition bounceDomain : string := firstNonEmpty [returnPathDomain; envelopeDomain].

Definition helo_check : CheckResult :=
  let helo := TrimSpace (m_HELO msg) in
  if isEmpty helo then fail "helo" (lit (-8) 10)
  else if isIPLiteralHELO helo then warn "helo" (lit (-4) 10)
  else if (Count helo "." <? 1)%nat then warn "helo" (lit (-3) 10)
  else pass "helo" (lit 1 10).

Definition from_alignment_check : CheckResult :=
  if isEmpty fromDomain || isEmpty envelopeDomain then warn "from_alignment" (lit (-4) 10)
  else if String.eqb fromDomain envelopeDomain || HasSuffix envelopeDomain ("." +:+ fromDomain)
  then pass "from_alignment" (lit 2 10)
  else warn "from_alignment" (lit (-7) 10).

Definition return_path_checks : list CheckResult :=
  if one_of headerMailType ["personal"; "transactional"] then [na "return_path"]
  else if negb (has headers "Return-Path") then [warn "return_path" (lit (-5) 10)]
  else if isEmpty returnPathDomain then [] else [pass "return_path" (lit 1 10)].

Definition reply_to_check : CheckResult :=
  if isEmpty (TrimSpace (Get headers "Reply-To")) then info "reply_to" fzero else pass "reply_to" fzero.

Definition receivedLines : list string := headerValues headers "Received".
Definition received_check : CheckResult :=
  match receivedLines with [] => fail "received_chain" (lit (-12) 10) | _ => info "received_chain" fzero end.

Definition arc_check : CheckResult :=
  if String.eqb (parseAuthResult authResults "arc") "fail" then warn "arc" (lit (-2) 10) else info "arc" fzero.

Definition google_check : CheckResult :=
  if String.eqb (parseAuthResult authResults "x-google-dkim") "fail"
  then warn "x_google_dkim" (lit (-2) 10) else info "x_google_dkim" fzero.

(** Body. *)
Definition mime_findings : list CheckResult * parsedBody := inspectBody (cl_body lib) headers bodyBytes.
Definition theBody : parsedBody := snd mime_findings.
Definition theLinks : list string := dedupeSorted (extractLinks (pb_AllText theBody +:+ lf +:+ pb_HTML theBody)).

Definition broken_links_check : CheckResult :=
  if o_EnableBrokenLinks opts || in_EnableBrokenLinks inp
  then brokenLinksCheck (w_probe w) (w_arrive w) theLinks else info "broken_links" fzero.

Definition looks_bulk : bool := String.eqb headerMailType "personal" && looksLikeBulkContent headers theBody.
Definition mailType : string := if looks_bulk then "bulk" else headerMailType.

Definition header_checks : list CheckResult :=
  [spf_check; dkim_check; dmarc_check;
   spfAlignmentCheck fromDomain envelopeDomain spfResult alignedSPF;
   dkimAlignmentCheck fromDomain dkimDomain dkimResult alignedDKIM;
   dmarcAlignmentCheck fromDomain spfResult dkimResult alignedSPF alignedDKIM;
   dmarcPolicyCheck dmarcRecords dmarcPolicy; spfStrictnessCheck env spfRecords;
   displayNameCheck lib (Get headers "From") fromDomain; helo_check; from_alignment_check]
  ++ return_path_checks
  ++ [reply_to_check; received_check; tlsTransportCheck receivedLines; arc_check; google_check].

Definition content_checks : list CheckResult :=
  fst mime_findings ++ fst (evaluateURLs lib theLinks)
  ++ [templateURLCheck theLinks headerMailType; linkDomainMismatchCheck lib (pb_HTML theBody) fromDomain; broken_links_check]
  ++ htmlHeuristics lib (pb_HTML theBody)
  ++ fst (subjectHeuristics lib (Get headers "Subject"))
  ++ fst (headerHeuristics lib headers now)
  ++ [fst (unicodeObfuscationCheck (pb_AllText theBody))]
  ++ newsletterHeuristics headers theBody mailType.

Definition spam_signals : list string :=
  snd (evaluateURLs lib theLinks) ++ snd (subjectHeuristics lib (Get headers "Subject"))
  ++ (let s := snd (unicodeObfuscationCheck (pb_AllText theBody)) in if isEmpty s then [] else [s]).

Definition content_warnings : list string :=
  snd (headerHeuristics lib headers now) ++ (if looks_bulk then [bulkContentWarning] else []).

Definition enrichCtx : checkContext :=
  mkContext now msg (in_SMTPDomain inp) headers fromDomain envelopeDomain (Get headers "Return-Path") returnPathDomain
    authHeaderValues spfResult spfRecords dkimResult dkimDomain dkimDetail keyDiag dmarcResult dmarcRecords dmarcPolicy
    alignedSPF alignedDKIM receivedLines theBody theLinks.

(** Network checks. *)
Definition task (id : string) (r : list CheckResult) : checkTask :=
  mkTask id (match w_crash w id with Some p => Err p | None => Ok r end).

Definition netTasks : list checkTask :=
  let signature := Get headers "DKIM-Signature" in
  let providers := o_DomainBlocklistProviders opts in
  [task "mx_records" [mxRecordCheck env primaryDomain];
   task "address_records" [addressRecordCheck env primaryDomain];
   task "dkim_keylength" [dkimKeyLengthCheck env (w_ParsePKIX w) signature];
   task "envelope_mx" [envelopeBounceMXCheck env bounceDomain];
   task "mta_sts" [mtaStsCheck env primaryDomain];
   task "tls_rpt" [tlsRptCheck env primaryDomain];
   task "bimi" [bimiCheck env primaryDomain];
   task "dnssec" [dnssecCheck env (w_resolv w) (w_exchange w) primaryDomain];
   task "dane_tlsa" [daneCheck env (w_resolv w) (w_exchange w) primaryDomain];
   task "ptr" [ptrPlausibility env (m_RemoteIP msg) (m_HELO msg)];
   task "ptr_pattern" [ptrPatternCheck env (m_RemoteIP msg)];
   task "from_domain_rcv" [fromDomainReceiveCheck env fromDomain bounceDomain]]
  ++ (if o_EnableRBLChecks opts
      then [task "rbl" (rblHeuristics env (w_err_text w) (m_RemoteIP msg) (o_RBLProviders opts))] else [])
  ++ (if o_EnableSpamAssassin opts && negb (isEmpty (TrimSpace (o_SpamAssassinHostPort opts)))
      then [task "spamassassin" [spamAssassinHeuristic (w_spamd w) (o_SpamAssassinHostPort opts) (m_RawSource msg)
                                   (o_SpamAssassinWarnRatio opts)]] else [])
  ++ (if o_EnableRspamd opts && negb (isEmpty (TrimSpace (o_RspamdURL opts)))
      then [task "rspamd" [rspamdHeuristic (w_rspamd w) (o_RspamdURL opts) (o_RspamdPassword opts) msg]] else [])
  ++ (if o_EnableDomainAge opts || in_EnableDomainAge inp
      then [task "domain_age" [domainAgeCheck env (w_rdap w) now primaryDomain]] else [])
  ++ (if o_EnableDomainBlocklist opts || in_EnableDomainBlocklist inp
      then [task "domain_blocklist" [domainBlocklistCheck env primaryDomain providers];
            task "link_blocklist" [linkBlocklistCheck env (cl_ParseURL lib) (w_order w) theLinks providers]] else []).

(** A placeholder is enriched once here and once with all others. *)
Definition placeholder (id : string) : CheckResult :=
  add_detail simulatorSkippedMarker "ja" (enrichCheckResult enrichCtx (info id fzero)).

Definition placeholders : list CheckResult := placeholder <$> (simGroupBIDs ++ simGroupCIDs).

(** The checks before the enrichment of the report. *)
Definition raw_checks (bodyFails : bool) : list CheckResult :=
  let local := (if bodyFails then [warn "body_read" (lit (-5) 10)] else []) ++ header_checks ++ content_checks in
  if in_SimulationMode inp then markSimulatedAuthResults (local ++ placeholders)
  else local ++ sequential netTasks.

Definition all_checks (bodyFails : bool) : list CheckResult := enrichCheckResult enrichCtx <$> raw_checks bodyFails.

Definition by_delta (a b : CheckResult) : bool := fltb (c_ScoreDelta a) (c_ScoreDelta b).

(** The advice of the failed and warning checks, the most costly first. *)
Definition suggestions (checks : list CheckResult) : list string :=
  dedupeKeepOrder (w_recommendation w enrichCtx <$>
    List.filter (fun c => String.eqb (c_Status c) "fail" || String.eqb (c_Status c) "warn") (SliceStable by_delta checks)).

Definition report_score (checks : list CheckResult) : float64 :=
  let score := clampScore (sum_deltas checks ten) in
  if negb (in_SimulationMode inp) && fltb essentialPerfectCap score && negb (essentialsAllPass checks)
  then essentialPerfectCap else score.

Definition report_warnings (checks raw : list CheckResult) : list string :=
  let skipped := countSimulatorSkipped raw in
  let open := countUnresolved checks in
  dedupeSorted (content_warnings
    ++ (if in_SimulationMode inp && (0 <? skipped)%nat then [simulatorWarning skipped] else [])
    ++ (if (0 <? open)%nat then [unresolvedWarning open] else [])).

Definition analyze_parsed (bodyFails : bool) : AnalysisReport :=
  let checks := all_checks bodyFails in
  assignLabel (mkReport 0 (m_ID msg) now (report_score checks) "" mailType checks (report_warnings checks (raw_checks bodyFails))
    (suggestions checks) (map_to_list headers) theLinks (dedupeSorted spam_signals)).

End Parsed.

(** ** The whole analysis *)

Section Whole.
Context (w : world) (opts : Options) (inp : Input) (now : Z).

Definition parse_check (err : string) : CheckResult :=
  let m := in_Message inp in
  mkCheck "mime_parse" "" "fail" (f_of_Z (-2)) "" ""
    {["remote_ip" := orElse (m_RemoteIP m) "unknown"; "helo_ehlo" := orElse (m_HELO m) "unknown";
      "raw_bytes" := Itoa (Z.of_nat (String.length (m_RawSource m))); "parse_error" := err]}
    "" "" [] "high" "Header und Rohdaten" "" "" "" "" "".

Definition parse_failure (err : string) : AnalysisReport :=
  assignLabel (mkReport 0 (m_ID (in_Message inp)) now (clampScore (fadd ten (f_of_Z (-2)))) "" "" [parse_check err] [err] [] [] [] []).

Definition bodyLimit : Z := 4 * 1024 * 1024.

Definition Analyze : AnalysisReport :=
  match w_ReadMessage w (m_RawSource (in_Message inp)) with
  | Err e => parse_failure e
  | Ok (headers, data, fails) =>
      match readLimited data fails bodyLimit with
      | None => analyze_parsed w opts inp now headers "" true
      | Some body => analyze_parsed w opts inp now headers body false
      end
  end.

(** The deferred [recover]: what is left of a report whose analysis panicked. *)
Definition recovered_report (r : AnalysisReport) (panic : string) : AnalysisReport :=
  let checks := r_Checks r ++ [errorCheck "analyze" panic] in
  assignLabel (mkReport (r_ID r) (r_MessageID r) (r_CreatedAt r) (clampScore (sum_deltas checks ten)) (r_ScoreLabel r)
    (r_MailType r) checks (r_Warnings r) (r_Suggestions r) (r_RawHeaders r) (r_Links r) (r_SpamSignals r)).

End Whole.

(** ** Rechecks

    The checks of [Recheck] that talk to other services than the resolver. *)
Section Services.
Context (w : world) (opts : Options) (now : Z).

Definition service_result (id : string) (rin : RecheckInput) : CheckResult :=
  let primary := firstNonEmpty [ri_FromDomain rin; ri_EnvelopeDomain rin] in
  let env := w_checks w in
  let providers := o_DomainBlocklistProviders opts in
  if String.eqb id "dkim_keylength" then dkimKeyLengthCheck env (w_ParsePKIX w) (ri_DKIMSignature rin)
  else if String.eqb id "dnssec" then dnssecCheck env (w_resolv w) (w_exchange w) primary
  else if String.eqb id "dane_tlsa" then daneCheck env (w_resolv w) (w_exchange w) primary
  else if String.eqb id "domain_age" then domainAgeCheck env (w_rdap w) now primary
  else if String.eqb id "domain_blocklist" then domainBlocklistCheck env primary providers
  else if String.eqb id "link_blocklist" then
    linkBlocklistCheck env (cl_ParseURL (w_content w)) (w_order w) (ri_Links rin) providers
  else brokenLinksCheck (w_probe w) (w_arrive w) (ri_Links rin).

Definition service_check (id : string) (rin : RecheckInput) : outcome string CheckResult :=
  match w_crash w id with Some p => Err p | None => Ok (service_result id rin) end.

Definition engine_recheck (id : string) (rin : RecheckInput) : option CheckResult := Recheck (w_checks w) service_check id rin.

End Services.
