(* ===== verification/Reports.v ===== *)
(** * Properties of the analysis

    What holds of every report [Analyze] produces: which checks it contains, how
    its score follows from them, what the simulator may claim, and what the
    warnings and the advice say. *)

From S2P Require Import Prelude F64 GoStrings GoSort GoTime Regex GoNet Model Score Spf Checks Dkim MailHeaders Body Content.
From S2P Require Import Blocklists DomainChecks SpamFilters Enrich Runner Analyze.

Local Open Scope string_scope.
Local Open Scope list_scope.
Local Open Scope Z_scope.

(** ** Identifiers and finite scores *)

(** A finite score, and no mark of the simulator. *)
Definition sound_check (c : CheckResult) : Prop :=
  is_finite (c_ScoreDelta c) = true /\ c_TechnicalDetails c !! simulatorSkippedMarker = None.

(** A sound check with a given identifier. *)
Definition is_check (id : string) (c : CheckResult) : Prop := c_ID c = id /\ sound_check c.

(** Checks whose identifiers are among [ids], in that order and each at most once. *)
Definition checks_of (ids : list string) (l : list CheckResult) : Prop :=
  sublist (c_ID <$> l) ids /\ Forall sound_check l.

Definition header_ids : list string :=
  ["spf"; "dkim"; "dmarc"; "spf_alignment"; "dkim_alignment"; "dmarc_alignment"; "dmarc_policy"; "spf_strictness";
   "display_name"; "helo"; "from_alignment"; "return_path"; "reply_to"; "received_chain"; "tls_transport"; "arc"; "x_google_dkim"].

Definition content_ids : list string :=
  ["mime_ct"; "mime_boundary"; "plain_text"; "multipart_alt"; "attachments"; "image_text_ratio"; "image_alt"; "charset";
   "links"; "shortener"; "tracking_links"; "too_many_links"; "template_urls"; "link_domain_mismatch"; "broken_links";
   "html"; "hidden_html"; "html_validity"; "harmful_html"; "subject"; "subject_exclaim"; "subject_caps";
   "date"; "date_skew"; "message_id"; "message_id_format"; "fake_reply"; "no_reply_reply_to"; "unicode";
   "list_unsub"; "one_click_unsub"; "preheader"].

Definition net_ids : list string :=
  ["mx_records"; "address_records"; "dkim_keylength"; "envelope_mx"; "mta_sts"; "tls_rpt"; "bimi"; "dnssec"; "dane_tlsa";
   "ptr"; "ptr_pattern"; "from_domain_rcv"; "rbl"; "spamassassin"; "rspamd"; "domain_age"; "domain_blocklist"; "link_blocklist"].

Lemma checks_of_nil ids : checks_of ids [].
Proof. split; [apply sublist_nil_l|constructor]. Qed.

Lemma checks_of_app i1 i2 l1 l2 : checks_of i1 l1 -> checks_of i2 l2 -> checks_of (i1 ++ i2) (l1 ++ l2).
Proof. intros [S1 F1] [S2 F2]. split; [rewrite fmap_app; by apply sublist_app|by apply Forall_app]. Qed.

Lemma checks_of_cons id ids c l : is_check id c -> checks_of ids l -> checks_of (id :: ids) (c :: l).
Proof. intros [E F] [S Fl]. split; [rewrite fmap_cons, E; by apply sublist_skip|by constructor]. Qed.

Lemma checks_of_skip id ids l : checks_of ids l -> checks_of (id :: ids) l.
Proof. intros [S F]. split; [by apply sublist_cons|done]. Qed.

Ltac one_check := intros; repeat (cbn zeta; case_match); by (split; [reflexivity|split; reflexivity]).

(** Solves a goal on a list of checks with conditional parts. *)
Ltac check_list :=
  repeat (first [ apply checks_of_nil | apply checks_of_cons; [by split|] | apply checks_of_skip ]).

Section World.
Context (w : world) (opts : Options) (inp : Input) (now : Z) (headers : mail_header) (body : string).

Lemma spf_is : is_check "spf" (spf_check w inp headers).
Proof. unfold spf_check. one_check. Qed.

Lemma classify_finite r d n k : is_finite (df_delta (classifyDKIMFailure r d n k)) = true.
Proof. unfold classifyDKIMFailure, dkimMissingKeyFinding. by repeat case_match. Qed.

Lemma dkim_is : is_check "dkim" (dkim_check w now headers).
Proof.
  unfold dkim_check. cbn zeta. pose proof (classify_finite (dkimResult headers) (dkimDetail headers) now (keyDiag w headers)).
  repeat case_match; by split.
Qed.

Lemma dmarc_is : is_check "dmarc" (dmarc_check w inp headers).
Proof. unfold dmarc_check. one_check. Qed.

Lemma header_checks_of :
  checks_of header_ids
    (header_checks w inp now headers).
Proof.
  unfold header_checks.
  repeat apply checks_of_cons; cbn [app]; try (apply spf_is || apply dkim_is || apply dmarc_is).
  - unfold spfAlignmentCheck. one_check.
  - unfold dkimAlignmentCheck. one_check.
  - unfold dmarcAlignmentCheck. one_check.
  - unfold dmarcPolicyCheck. one_check.
  - unfold spfStrictnessCheck. one_check.
  - unfold displayNameCheck. one_check.
  - unfold helo_check. one_check.
  - unfold from_alignment_check. one_check.
  - apply (checks_of_app ["return_path"]).
    + unfold return_path_checks. repeat case_match; try apply checks_of_nil; apply checks_of_cons; by try apply checks_of_nil.
    + repeat apply checks_of_cons; [..|apply checks_of_nil].
      * unfold reply_to_check. one_check.
      * unfold received_check. one_check.
      * unfold tlsTransportCheck. one_check.
      * unfold arc_check. one_check.
      * unfold google_check. one_check.
Qed.

Lemma body_checks_of pb :
  checks_of ["plain_text"; "multipart_alt"; "attachments"; "image_text_ratio"; "image_alt"; "charset"]
    (fst (body_checks (cl_body (w_content w)) pb)).
Proof.
  unfold body_checks. cbn [fst]. rewrite <- !app_assoc.
  apply (checks_of_app ["plain_text"]); [unfold plain_text_checks; repeat case_match; check_list|].
  apply (checks_of_app ["multipart_alt"]); [unfold alternative_checks; repeat case_match; check_list|].
  apply (checks_of_app ["attachments"]); [repeat case_match; check_list|].
  apply (checks_of_app ["image_text_ratio"]).
  { apply checks_of_cons; [unfold image_text_check; one_check|apply checks_of_nil]. }
  apply (checks_of_app ["image_alt"]).
  { case_match; [|apply checks_of_nil]. apply checks_of_cons; [unfold image_alt_check; one_check|apply checks_of_nil]. }
  repeat case_match; check_list.
Qed.

Lemma mime_checks_of :
  checks_of ["mime_ct"; "mime_boundary"; "plain_text"; "multipart_alt"; "attachments"; "image_text_ratio"; "image_alt"; "charset"]
    (fst (mime_findings w headers body)).
Proof.
  unfold mime_findings, inspectBody. cbn zeta.
  repeat case_match; cbn [fst]; try (do 2 apply checks_of_skip; apply body_checks_of); check_list.
Qed.

(** The penalty for broken links is finite: at most 50 links are probed. *)
Lemma broken_penalties :
  forallb (fun n => forallb (fun b => is_finite (fdiv (fmul (lit (-4) 10) (f_of_Z b)) (f_of_Z (n + 1)))) (seqZ 0 51)) (seqZ 0 51) = true.
Proof. vm_compute. reflexivity. Qed.

Lemma broken_links_is : (forall l, w_arrive w l ≡ₚ l) -> is_check "broken_links" (broken_links_check w opts inp headers body).
Proof.
  intros Hp. unfold broken_links_check. case_match; [|by split]. unfold brokenLinksCheck. case_match; [by split|].
  set (rs := w_arrive w _). assert (Hlen : (List.length rs <= 50)%nat).
  { unfold rs. rewrite Hp, length_fmap. unfold probed_links. rewrite length_take. lia. }
  assert (Hb : (List.length (List.filter is_broken rs) <= List.length rs)%nat) by apply filter_length_le.
  unfold broken_links_verdict. cbn zeta. destruct (List.filter is_broken rs) as [|b bs] eqn:Eb.
  - case_match; by split.
  - split; [done|]. rewrite <- Eb in *. split; [|done]. cbn [withDetails warn verdict c_ScoreDelta].
    pose proof broken_penalties as H1. rewrite forallb_forall in H1.
    specialize (H1 (Z.of_nat (List.length rs))). rewrite <- list_elem_of_In, elem_of_seqZ in H1. specialize (H1 ltac:(lia)).
    rewrite forallb_forall in H1. apply H1. rewrite <- list_elem_of_In, elem_of_seqZ. lia.
Qed.

Lemma header_heuristics_of :
  checks_of ["date"; "date_skew"; "message_id"; "message_id_format"; "fake_reply"; "no_reply_reply_to"]
    (fst (headerHeuristics (w_content w) headers now)).
Proof.
  unfold headerHeuristics. destruct (date_checks (w_content w) headers now) as [c1 w1] eqn:E1.
  destruct (message_id_checks headers) as [c2 w2] eqn:E2, (fake_reply_checks headers) as [c3 w3] eqn:E3. cbn [fst].
  apply (checks_of_app ["date"; "date_skew"]).
  { revert E1. unfold date_checks. cbn zeta. repeat case_match; intros [= <- _]; check_list. }
  apply (checks_of_app ["message_id"; "message_id_format"]).
  { revert E2. unfold message_id_checks. cbn zeta. repeat case_match; intros [= <- _]; check_list. }
  apply (checks_of_app ["fake_reply"]).
  { revert E3. unfold fake_reply_checks. cbn zeta. repeat case_match; intros [= <- _]; check_list. }
  unfold no_reply_checks. repeat case_match; check_list.
Qed.

Lemma content_checks_of : (forall l, w_arrive w l ≡ₚ l) ->
  checks_of content_ids
    (content_checks w opts inp now headers body).
Proof.
  intros Hp. unfold content_checks.
  apply (checks_of_app ["mime_ct"; "mime_boundary"; "plain_text"; "multipart_alt"; "attachments"; "image_text_ratio"; "image_alt"; "charset"]);
    [apply mime_checks_of|].
  apply (checks_of_app ["links"; "shortener"; "tracking_links"; "too_many_links"]).
  { unfold evaluateURLs. case_match; cbn [fst]; [check_list|].
    apply (checks_of_app ["links"]); [check_list|]. apply (checks_of_app ["shortener"]); [case_match; check_list|].
    apply (checks_of_app ["tracking_links"]); [case_match; check_list|]. repeat case_match; check_list. }
  apply (checks_of_app ["template_urls"; "link_domain_mismatch"; "broken_links"]).
  { repeat apply checks_of_cons; [| | |apply checks_of_nil].
    - unfold templateURLCheck. one_check.
    - unfold linkDomainMismatchCheck. one_check.
    - by apply broken_links_is. }
  apply (checks_of_app ["html"; "hidden_html"; "html_validity"; "harmful_html"]).
  { unfold htmlHeuristics. case_match; [check_list|]. apply checks_of_skip. repeat apply checks_of_cons; [| | |apply checks_of_nil]; one_check. }
  apply (checks_of_app ["subject"; "subject_exclaim"; "subject_caps"]).
  { unfold subjectHeuristics. cbn zeta. case_match; cbn [fst]; [check_list|].
    apply (checks_of_app ["subject"]); [check_list|]. apply (checks_of_app ["subject_exclaim"]); case_match; check_list. }
  apply (checks_of_app ["date"; "date_skew"; "message_id"; "message_id_format"; "fake_reply"; "no_reply_reply_to"]).
  { apply header_heuristics_of. }
  apply (checks_of_app ["unicode"]).
  { apply checks_of_cons; [|apply checks_of_nil]. unfold unicodeObfuscationCheck. repeat (cbn zeta; case_match); by split. }
  unfold newsletterHeuristics. case_match; [check_list|].
  apply (checks_of_app ["list_unsub"; "one_click_unsub"]); [|unfold preheader_checks; repeat case_match; check_list].
  unfold bulk_checks, unknown_type_checks. repeat case_match; check_list.
Qed.

(** *** Network checks *)

Lemma task_of id l : checks_of [id] l -> checks_of [id] (task_result (task w id l)).
Proof. intros H. unfold task, task_result. destruct (w_crash w id); cbn [task_fn task_name]; [check_list|done]. Qed.

Lemma task_one id c : is_check id c -> checks_of [id] (task_result (task w id [c])).
Proof. intros H. apply task_of, checks_of_cons; [done|apply checks_of_nil]. Qed.

(** The details that name the rules and symbols of a spam filter. *)
Lemma symbols_unmarked {A} (name val : A -> string) l (d : gmap string string) :
  fold_left (fun d r => <["sym:" +:+ name r := val r]> d) l d !! simulatorSkippedMarker = d !! simulatorSkippedMarker.
Proof. revert d. induction l as [|x l IH]; intros d; [done|]. cbn [fold_left]. rewrite IH. by apply lookup_insert_ne. Qed.

Lemma spamassassin_is h raw ratio : is_check "spamassassin" (spamAssassinHeuristic (w_spamd w) h raw ratio).
Proof.
  unfold spamAssassinHeuristic. cbn zeta. case_match; [by split|]. case_match; [|one_check].
  split; [|split]; [unfold spamassassin_verdict; by repeat (cbn zeta; case_match)..|].
  cbn [c_TechnicalDetails withDetails]. rewrite lookup_insert_ne by done. unfold rule_details. by rewrite symbols_unmarked.
Qed.

Lemma rspamd_is url pw m : is_check "rspamd" (rspamdHeuristic (w_rspamd w) url pw m).
Proof.
  unfold rspamdHeuristic. repeat (case_match; try by split).
  split; [|split]; [unfold rspamd_verdict; by repeat (cbn zeta; case_match)..|].
  cbn [c_TechnicalDetails withDetails]. unfold symbol_details. by rewrite symbols_unmarked.
Qed.

Lemma rbl_is : checks_of ["rbl"] (rblHeuristics (w_checks w) (w_err_text w) (m_RemoteIP (in_Message inp)) (o_RBLProviders opts)).
Proof.
  unfold rblHeuristics, rbl_verdict. repeat case_match; check_list.
Qed.

Lemma domain_age_is d :
  (forall d t, rdapRegistrationDate (w_rdap w) d = Ok t -> 0 <= age_days now (zt_unix t)) ->
  is_check "domain_age" (domainAgeCheck (w_checks w) (w_rdap w) now d).
Proof.
  intros Hpast. unfold domainAgeCheck. case_match; [by split|]. destruct (rdapRegistrationDate _ _) as [t|e] eqn:Et; [|by split].
  cbn zeta. case_match; [by split|]. split; [done|]. split; [|done]. cbn [c_ScoreDelta withDetails verdict]. specialize (Hpast _ _ Et).
  rewrite age_delta_penalty by done. destruct (penalty_steps _ Hpast) as [_ Hp].
  assert (Hall : forallb (fun p => is_finite (fdiv (f_of_Z (- p)) (f_of_Z 100))) (seqZ 0 201) = true) by (vm_compute; reflexivity).
  rewrite forallb_forall in Hall. apply Hall. rewrite <- list_elem_of_In, elem_of_seqZ. lia.
Qed.

Lemma net_checks_of :
  (forall d t, rdapRegistrationDate (w_rdap w) d = Ok t -> 0 <= age_days now (zt_unix t)) ->
  checks_of net_ids (sequential (netTasks w opts inp now headers body)).
Proof.
  intros Hpast. unfold sequential, netTasks. rewrite !fmap_app, !concat_app.
  apply (checks_of_app ["mx_records"; "address_records"; "dkim_keylength"; "envelope_mx"; "mta_sts"; "tls_rpt"; "bimi"; "dnssec"; "dane_tlsa";
             "ptr"; "ptr_pattern"; "from_domain_rcv"]).
  { cbn [fmap list_fmap List.concat].
    apply (checks_of_app ["mx_records"]); [apply task_one; unfold mxRecordCheck; one_check|].
    apply (checks_of_app ["address_records"]); [apply task_one; unfold addressRecordCheck; one_check|].
    apply (checks_of_app ["dkim_keylength"]); [apply task_one; unfold dkimKeyLengthCheck; one_check|].
    apply (checks_of_app ["envelope_mx"]); [apply task_one; unfold envelopeBounceMXCheck; one_check|].
    apply (checks_of_app ["mta_sts"]); [apply task_one; unfold mtaStsCheck, txt_policy_check; one_check|].
    apply (checks_of_app ["tls_rpt"]); [apply task_one; unfold tlsRptCheck, txt_policy_check; one_check|].
    apply (checks_of_app ["bimi"]); [apply task_one; unfold bimiCheck, txt_policy_check; one_check|].
    apply (checks_of_app ["dnssec"]); [apply task_one; unfold dnssecCheck; one_check|].
    apply (checks_of_app ["dane_tlsa"]); [apply task_one; unfold daneCheck; one_check|].
    apply (checks_of_app ["ptr"]); [apply task_one; unfold ptrPlausibility; one_check|].
    apply (checks_of_app ["ptr_pattern"]); [apply task_one; unfold ptrPatternCheck; one_check|].
    apply (checks_of_app ["from_domain_rcv"]); [apply task_one; unfold fromDomainReceiveCheck; one_check|apply checks_of_nil]. }
  apply (checks_of_app ["rbl"]).
  { case_match; cbn [fmap list_fmap List.concat]; [|apply checks_of_nil]. rewrite app_nil_r. apply task_of, rbl_is. }
  apply (checks_of_app ["spamassassin"]).
  { case_match; cbn [fmap list_fmap List.concat]; [|apply checks_of_nil]. rewrite app_nil_r. apply task_one, spamassassin_is. }
  apply (checks_of_app ["rspamd"]).
  { case_match; cbn [fmap list_fmap List.concat]; [|apply checks_of_nil]. rewrite app_nil_r. apply task_one, rspamd_is. }
  apply (checks_of_app ["domain_age"]).
  { case_match; cbn [fmap list_fmap List.concat]; [|apply checks_of_nil]. rewrite app_nil_r. by apply task_one, domain_age_is. }
  case_match; cbn [fmap list_fmap List.concat]; [|apply checks_of_nil]. rewrite app_nil_r.
  apply (checks_of_app ["domain_blocklist"]); apply task_one; [unfold domainBlocklistCheck|unfold linkBlocklistCheck]; one_check.
Qed.

End World.

(** ** The checks of a report *)

Definition local_ids : list string := ["body_read"] ++ header_ids ++ content_ids.

Definition sim_ids : list string := simGroupBIDs ++ simGroupCIDs.

Definition report_ids (simulated : bool) : list string := local_ids ++ (if simulated then sim_ids else net_ids).

Lemma report_ids_unique b : NoDup (report_ids b).
Proof. destruct b; apply (bool_decide_unpack _); vm_compute; exact I. Qed.

(** What is assumed of the outside: every probe of a link reports exactly once,
    and no domain is registered in the future. *)
Record world_ok (w : world) (now : Z) : Prop := {
  probes_report_once : forall l, w_arrive w l ≡ₚ l;
  registered_in_the_past : forall d t, rdapRegistrationDate (w_rdap w) d = Ok t -> 0 <= age_days now (zt_unix t)
}.

Lemma scoreFor_finite i s : is_finite (scoreFor i s) = true.
Proof. unfold scoreFor. by repeat case_match. Qed.

Lemma enrich_finite ctx c : is_finite (c_ScoreDelta c) = true -> is_finite (c_ScoreDelta (enrichCheckResult ctx c)) = true.
Proof.
  intros H. rewrite enrich_delta. unfold enrich_verdict. repeat (case_if; cbn [c_ScoreDelta]); try done. apply scoreFor_finite.
Qed.

(** Identifiers as above and finite scores, marked or not. *)
Definition finite_checks (ids : list string) (l : list CheckResult) : Prop :=
  sublist (c_ID <$> l) ids /\ Forall (fun c => is_finite (c_ScoreDelta c) = true) l.

Lemma finite_of_checks ids l : checks_of ids l -> finite_checks ids l.
Proof. intros [S F]. split; [done|]. eapply Forall_impl; [exact F|]. by intros c []. Qed.

Lemma finite_checks_app i1 i2 l1 l2 : finite_checks i1 l1 -> finite_checks i2 l2 -> finite_checks (i1 ++ i2) (l1 ++ l2).
Proof. intros [S1 F1] [S2 F2]. split; [rewrite fmap_app; by apply sublist_app|by apply Forall_app]. Qed.

(** Changing results one by one without touching identifiers and finiteness. *)
Lemma finite_checks_fmap (f : CheckResult -> CheckResult) ids l :
  (forall c, c_ID (f c) = c_ID c) -> (forall c, is_finite (c_ScoreDelta c) = true -> is_finite (c_ScoreDelta (f c)) = true) ->
  finite_checks ids l -> finite_checks ids (f <$> l).
Proof.
  intros Hid Hf [S F]. split.
  - rewrite <- list_fmap_compose. by erewrite list_fmap_ext; [exact S|]; intros; cbn.
  - apply Forall_fmap. eapply Forall_impl; [exact F|]. cbn. auto.
Qed.

Section Report.
Context (w : world) (opts : Options) (inp : Input) (now : Z) (Hw : world_ok w now).

Section Parsed.
Context (headers : mail_header) (body : string) (bodyFails : bool).

Let ctx := enrichCtx w inp now headers body.
Let raw := raw_checks w opts inp now headers body bodyFails.
Let checks := all_checks w opts inp now headers body bodyFails.

Lemma placeholders_of : finite_checks sim_ids (placeholders w inp now headers body).
Proof.
  unfold placeholders, sim_ids. split.
  - assert (E : c_ID <$> (placeholder w inp now headers body <$> simGroupBIDs ++ simGroupCIDs) = simGroupBIDs ++ simGroupCIDs); [|by rewrite E].
    rewrite <- list_fmap_compose. rewrite <- (list_fmap_id (simGroupBIDs ++ simGroupCIDs)) at 2. apply list_fmap_ext.
    intros i id _. apply (enrich_id (enrichCtx w inp now headers body) (info id fzero)).
  - apply Forall_fmap, Forall_forall. intros id _. by apply (enrich_finite (enrichCtx w inp now headers body) (info id fzero)).
Qed.

(** The checks that do not need the network. *)
Definition local_checks : list CheckResult :=
  (if bodyFails then [warn "body_read" (lit (-5) 10)] else []) ++ header_checks w inp now headers ++ content_checks w opts inp now headers body.

Lemma local_checks_of : checks_of local_ids local_checks.
Proof.
  apply (checks_of_app ["body_read"]); [case_match; check_list|]. apply (checks_of_app header_ids content_ids); [apply header_checks_of|].
  apply content_checks_of, (probes_report_once _ _ Hw).
Qed.

Lemma raw_checks_of : finite_checks (report_ids (in_SimulationMode inp)) raw.
Proof.
  unfold raw, raw_checks, report_ids. cbn zeta. fold local_checks. pose proof (finite_of_checks _ _ local_checks_of).
  destruct (in_SimulationMode inp).
  - unfold markSimulatedAuthResults. apply finite_checks_fmap.
    + intros c. cbv beta. by destruct (one_of (c_ID c) auth_ids).
    + intros c. cbv beta. by destruct (one_of (c_ID c) auth_ids).
    + apply finite_checks_app; [done|apply placeholders_of].
  - apply finite_checks_app; [done|]. apply finite_of_checks, net_checks_of, (registered_in_the_past _ _ Hw).
Qed.

Lemma all_checks_of : finite_checks (report_ids (in_SimulationMode inp)) checks.
Proof. apply finite_checks_fmap; [apply enrich_id|apply enrich_finite|apply raw_checks_of]. Qed.

Lemma checks_unique : NoDup (c_ID <$> checks).
Proof. eapply sublist_NoDup; [apply report_ids_unique|apply all_checks_of]. Qed.

Lemma checks_ids : c_ID <$> checks = c_ID <$> raw.
Proof. unfold checks, all_checks. rewrite <- list_fmap_compose. apply list_fmap_ext. intros. apply enrich_id. Qed.

Lemma essential_present id : is_essential id = true -> id ∈ c_ID <$> checks.
Proof.
  intros H. rewrite checks_ids.
  assert (Hm : forall l, c_ID <$> markSimulatedAuthResults l = c_ID <$> l).
  { intros l. unfold markSimulatedAuthResults. rewrite <- list_fmap_compose. apply list_fmap_ext. intros ? c _. unfold compose. by destruct (one_of (c_ID c) auth_ids). }
  assert (Hh : forall x, x ∈ ["spf"; "dkim"; "dmarc"] -> x ∈ c_ID <$> header_checks w inp now headers).
  { intros x Hx. unfold header_checks. rewrite fmap_app, elem_of_app. left. cbn [fmap list_fmap].
    rewrite (proj1 (spf_is w inp headers)), (proj1 (dkim_is w now headers)), (proj1 (dmarc_is w inp headers)). set_solver. }
  assert (Hid : id ∈ ["spf"; "dkim"; "dmarc"] \/ id = "ptr").
  { unfold is_essential, one_of in H. apply existsb_exists in H as (x & Hx & ->%String.eqb_eq). cbn in Hx. set_solver. }
  unfold raw, raw_checks. cbn zeta. destruct Hid as [Hid| ->].
  - specialize (Hh id Hid). destruct (in_SimulationMode inp); rewrite ?Hm, !fmap_app, !elem_of_app; auto.
  - destruct (in_SimulationMode inp); rewrite ?Hm, fmap_app, elem_of_app; right.
    + unfold placeholders. rewrite <- list_fmap_compose. apply list_elem_of_fmap. exists "ptr". split; [|set_solver].
      symmetry. apply (enrich_id (enrichCtx w inp now headers body) (info "ptr" fzero)).
    + unfold sequential, netTasks. rewrite fmap_app, concat_app, fmap_app, elem_of_app. left. cbn [fmap list_fmap List.concat].
      rewrite !fmap_app. do 9 (apply elem_of_app; right). apply elem_of_app; left.
      unfold task, task_result. cbn [task_fn task_name]. destruct (w_crash w "ptr"); [left|].
      rewrite fmap_cons. replace (c_ID _) with "ptr"; [left|]. unfold ptrPlausibility. by repeat (cbn zeta; case_match).
Qed.

(** The score of the report is what the recomputation from its checks gives. *)
Lemma parsed_score : in_SimulationMode inp = false ->
  let r := analyze_parsed w opts inp now headers body bodyFails in (r_Score r, r_ScoreLabel r) = ComputeScore (r_Checks r).
Proof. intros Hs. cbn. unfold report_score, ComputeScore. by rewrite Hs. Qed.

Lemma parsed_range :
  exists k, 0 <= k <= 100 /\ r_Score (analyze_parsed w opts inp now headers body bodyFails) = tenth k.
Proof.
  change (exists k, 0 <= k <= 100 /\ report_score inp checks = tenth k).
  destruct (clampScore_tenth (sum_deltas checks ten)) as (k & Hk & Hc).
  { apply sum_not_nan; [done|]. apply all_checks_of. }
  unfold report_score. rewrite Hc. case_if; [exists 95; split; [lia|reflexivity]|eauto].
Qed.

Lemma checks_length : (List.length checks <= List.length (report_ids (in_SimulationMode inp)))%nat.
Proof. rewrite <- (length_fmap c_ID checks). apply sublist_length, all_checks_of. Qed.

End Parsed.

(** What Analyze returns: the report on an unreadable message, or that on a parsed one. *)
Lemma Analyze_cases :
  (exists e, Analyze w opts inp now = parse_failure inp now e)
  \/ (exists headers body fails, Analyze w opts inp now = analyze_parsed w opts inp now headers body fails).
Proof.
  unfold Analyze. destruct (w_ReadMessage w _) as [[[h d] f]|e]; [right|left; eauto].
  destruct (readLimited d f bodyLimit); eauto.
Qed.

End Report.

(** ** Theorems *)


(** A world without network, in which messages have one fixed header. *)
Definition sample_header : mail_header :=
  {["Authentication-Results" := ["mx.example; spf=pass smtp.mailfrom=a.example; dkim=pass header.d=a.example; dmarc=pass"];
    "From" := ["a@a.example"]; "Message-Id" := ["<1@a.example>"]]}.

Definition sample_body_lib : body_lib :=
  mkBodyLib (fun _ => mkMediaType "text/plain" ∅ false) (fun _ _ => []) (fun _ => None).

Definition sample_content_lib : content_lib :=
  mkContentLib sample_body_lib (fun _ => None) (fun d => (d, false)) (fun _ => None)
    (fun s => Some (mkAddress "" s)) (fun _ => None) (fun _ => false) (fun _ => false) (fun s => s).

Definition sample_world : world :=
  mkWorld (fun _ => Ok (sample_header, "Hello", false)) no_dns sample_content_lib (fun _ => None) [] (fun _ _ => None)
    (fun l => rev l) (fun l => l) (fun _ => "") None (fun _ _ _ _ => None) sample_rdap (fun _ _ => SpamdError "")
    (sample_rspamd None None) (fun id => if String.eqb id "bimi" then Some "index out of range" else None) (fun _ c => c_ID c).

Definition sample_options : Options :=
  mkOptions true ["zen.spamhaus.org"] true "spamd:783" (lit 9 10) true "http://rspamd" "" true true ["dbl.example"] true.

Definition sample_input (simulate : bool) : Input :=
  mkInput (mkMessage 7 1 "bounce@a.example" "x@mx.example" "192.0.2.7" "mail.a.example" 0 "raw" "" "" 3 "") "mx.example" true true true simulate.

Definition sample_now : Z := (1767225600 + 400 * 86400) * second.

Lemma sample_world_ok : world_ok sample_world sample_now.
Proof.
  split; [intros l; symmetry; apply Permutation_rev|]. intros d t. unfold rdapRegistrationDate.
  change (w_rdap sample_world) with sample_rdap. unfold sample_rdap at 1. cbn [rl_Get].
  destruct (String.eqb _ _); [|done]. intros H. vm_compute in H. injection H as <-. vm_compute. discriminate.
Qed.




(** *** Simulation *)

Definition provenance : string := "herkunft".

Lemma marked_provenance l c :
  c ∈ markSimulatedAuthResults l -> one_of (c_ID c) auth_ids = true -> has_detail provenance c = true.
Proof.
  unfold markSimulatedAuthResults. intros (c0 & -> & _)%list_elem_of_fmap. destruct (one_of (c_ID c0) auth_ids) eqn:E.
  - intros _. unfold has_detail. apply bool_decide_eq_true. cbn. unfold provenance. rewrite lookup_insert_eq. eauto.
  - congruence.
Qed.

Lemma mark_id l : c_ID <$> markSimulatedAuthResults l = c_ID <$> l.
Proof. unfold markSimulatedAuthResults. rewrite <- list_fmap_compose. apply list_fmap_ext. intros ? c _. unfold compose. by destruct (one_of (c_ID c) auth_ids). Qed.

Lemma enrich_info_zero ctx c : c_Status c = "info" -> c_ScoreDelta c = fzero -> c_ScoreDelta (enrichCheckResult ctx c) = fzero.
Proof.
  intros Hs Hd. rewrite enrich_delta. unfold enrich_verdict. rewrite Hs. cbn [String.eqb Ascii.eqb Bool.eqb c_ScoreDelta].
  repeat case_if; [done..|]. by apply scoreFor_deducts.
Qed.

Lemma placeholder_spec w inp now headers body id :
  id ∈ sim_ids ->
  let c := placeholder w inp now headers body id in
  c_ID c = id /\ c_Status c = "info" /\ c_ScoreDelta (enrichCheckResult (enrichCtx w inp now headers body) c) = fzero
  /\ has_detail simulatorSkippedMarker c = true /\ one_of (c_ID c) auth_ids = false.
Proof.
  intros Hid. cbv zeta. set (ctx := enrichCtx w inp now headers body).
  assert (Hi : c_ID (placeholder w inp now headers body id) = id) by apply (enrich_id ctx (info id fzero)).
  split_and!; [done|apply (enrich_status ctx (info id fzero))| | |].
  - apply enrich_info_zero; [apply (enrich_status ctx (info id fzero))|]. by apply (enrich_info_zero ctx (info id fzero)).
  - unfold has_detail. apply bool_decide_eq_true. cbn. rewrite lookup_insert_eq. eauto.
  - rewrite Hi. revert Hid. unfold sim_ids, simGroupBIDs, simGroupCIDs. cbn [app].
    intros Hid. repeat (apply elem_of_cons in Hid as [->|Hid]; [reflexivity|]). by apply not_elem_of_nil in Hid.
Qed.

Lemma count_app l1 l2 : countSimulatorSkipped (l1 ++ l2) = (countSimulatorSkipped l1 + countSimulatorSkipped l2)%nat.
Proof. unfold countSimulatorSkipped. by rewrite List.filter_app, length_app. Qed.

Lemma count_none l : Forall sound_check l -> countSimulatorSkipped l = 0%nat.
Proof.
  unfold countSimulatorSkipped. induction 1 as [|c l [_ Hc] _ IH]; [done|]. cbn [List.filter].
  replace (has_detail simulatorSkippedMarker c) with false; [done|]. symmetry. apply bool_decide_eq_false. rewrite Hc. by intros [].
Qed.

Lemma count_all l : Forall (fun c => has_detail simulatorSkippedMarker c = true) l -> countSimulatorSkipped l = List.length l.
Proof. unfold countSimulatorSkipped. induction 1 as [|c l Hc _ IH]; [done|]. cbn [List.filter]. rewrite Hc. cbn. by rewrite IH. Qed.

Lemma count_mark l : countSimulatorSkipped (markSimulatedAuthResults l) = countSimulatorSkipped l.
Proof.
  unfold countSimulatorSkipped, markSimulatedAuthResults. induction l as [|c l IH]; [done|]. rewrite fmap_cons. cbn [List.filter].
  replace (has_detail simulatorSkippedMarker (if one_of (c_ID c) auth_ids then _ else c)) with (has_detail simulatorSkippedMarker c).
  - destruct (has_detail simulatorSkippedMarker c); cbn [List.length]; by rewrite IH.
  - destruct (one_of (c_ID c) auth_ids); [|done]. unfold has_detail. cbn. by rewrite lookup_insert_ne.
Qed.

Section Simulated.
Context (w : world) (opts : Options) (inp : Input) (now : Z) (Hw : world_ok w now) (Hsim : in_SimulationMode inp = true).
Context (headers : mail_header) (body : string) (bodyFails : bool).

Let ctx := enrichCtx w inp now headers body.
Let checks := all_checks w opts inp now headers body bodyFails.

Lemma simulated_raw :
  raw_checks w opts inp now headers body bodyFails
  = markSimulatedAuthResults (local_checks w opts inp now headers body bodyFails ++ placeholders w inp now headers body).
Proof. unfold raw_checks. by rewrite Hsim. Qed.

Lemma simulated_count : countSimulatorSkipped (raw_checks w opts inp now headers body bodyFails) = 16%nat.
Proof.
  rewrite simulated_raw, count_mark, count_app, count_none, count_all; [done| |].
  - unfold placeholders. apply Forall_fmap, Forall_forall. intros id Hid. by apply placeholder_spec.
  - by apply (local_checks_of w opts inp now Hw headers body bodyFails).
Qed.

Lemma simulated_placeholder id : id ∈ sim_ids -> enrichCheckResult ctx (placeholder w inp now headers body id) ∈ checks.
Proof.
  intros Hid. unfold checks, all_checks. rewrite simulated_raw. apply list_elem_of_fmap. eexists. split; [reflexivity|].
  unfold markSimulatedAuthResults. apply list_elem_of_fmap. exists (placeholder w inp now headers body id). split.
  - destruct (placeholder_spec w inp now headers body id Hid) as (_ & _ & _ & _ & ->). done.
  - apply elem_of_app. right. unfold placeholders. by apply list_elem_of_fmap_2.
Qed.

End Simulated.

(** The simulator claims nothing it did not check. In a simulated report the
    16 checks that need the network are present, neutral and marked as skipped; the
    results for SPF, DKIM, DMARC and their alignment carry the note that they are
    taken over from the pasted header; and the report warns that it is a partial
    result with the number of skipped checks. *)
Theorem simulation_is_declared w opts inp now :
  world_ok w now -> in_SimulationMode inp = true ->
  is_ok (w_ReadMessage w (m_RawSource (in_Message inp))) = true ->
  let r := Analyze w opts inp now in
  (forall id, id ∈ sim_ids -> exists c, c ∈ r_Checks r /\ c_ID c = id)
  /\ (forall c, c ∈ r_Checks r -> c_ID c ∈ sim_ids ->
        c_Status c = "info" /\ c_ScoreDelta c = fzero /\ has_detail simulatorSkippedMarker c = true)
  /\ (forall c, c ∈ r_Checks r -> one_of (c_ID c) auth_ids = true -> has_detail provenance c = true)
  /\ simulatorWarning 16 ∈ r_Warnings r.
Proof.
  intros Hw Hsim Hok. cbv zeta.
  assert (Hp : exists h body fails, Analyze w opts inp now = analyze_parsed w opts inp now h body fails).
  { unfold Analyze. destruct (w_ReadMessage w _) as [[[h d] f]|e]; [|done]. destruct (readLimited d f bodyLimit); eauto. }
  destruct Hp as (h & body & fails & ->). set (checks := all_checks w opts inp now h body fails).
  change (r_Checks (analyze_parsed w opts inp now h body fails)) with checks. set (ctx := enrichCtx w inp now h body).
  assert (Hph := fun id => simulated_placeholder w opts inp now Hsim h body fails id). fold checks ctx in Hph.
  split_and!.
  - intros id Hid. eexists. split; [by apply Hph|]. rewrite enrich_id. by apply placeholder_spec.
  - intros c Hc Hid. destruct (placeholder_spec w inp now h body (c_ID c) Hid) as (Hi & Hs & Hd & Hm & _).
    replace c with (enrichCheckResult ctx (placeholder w inp now h body (c_ID c))).
    + rewrite enrich_status, enrich_has_detail by done. done.
    + apply (NoDup_fmap_elem c_ID checks); [apply (checks_unique w opts inp now Hw)|by apply Hph|done|].
      by rewrite enrich_id.
  - intros c Hc Ha. unfold checks, all_checks in Hc. rewrite simulated_raw in Hc by done.
    apply list_elem_of_fmap in Hc as (c0 & -> & Hc0). rewrite enrich_id in Ha. rewrite enrich_has_detail by done. by eapply marked_provenance.
  - cbn [r_Warnings analyze_parsed assignLabel]. unfold report_warnings. rewrite (simulated_count w opts inp now Hw Hsim), Hsim.
    apply dedupeSorted_spec. split; [done|]. exists (simulatorWarning 16). split; [|vm_compute; reflexivity].
    cbn [andb Nat.ltb Nat.leb]. rewrite !elem_of_app. right. left. left.
Qed.

Lemma simulation_is_declared_witness :
  simulatorWarning 16 ∈ r_Warnings (Analyze sample_world sample_options (sample_input true) sample_now).
Proof. apply (simulation_is_declared sample_world sample_options (sample_input true) sample_now sample_world_ok eq_refl eq_refl). Defined.

(** *** Warnings and advice *)

Lemma unresolved_texts : forallb (fun n => String.eqb (TrimSpace (unresolvedWarning n)) (unresolvedWarning n)) (seq 0 101) = true.
Proof. vm_compute. reflexivity. Qed.

Lemma report_ids_length b : (List.length (report_ids b) <= 100)%nat.
Proof. destruct b; vm_compute; lia. Qed.

Lemma StronglySorted_filter {A} (R : relation A) (p : A -> bool) l : StronglySorted R l -> StronglySorted R (List.filter p l).
Proof.
  induction 1 as [|x l Hs IH Hx]; cbn [List.filter]; [constructor|]. destruct (p x); [|done]. constructor; [done|].
  rewrite Forall_forall in *. intros y Hy. apply Hx. apply list_elem_of_In in Hy. apply filter_In in Hy as [Hy _]. by apply list_elem_of_In.
Qed.

#[export] Instance by_delta_order : WeakOrder (fun c => is_nan (c_ScoreDelta c) = false) by_delta.
Proof. apply (wo_preimage c_ScoreDelta (fun x => is_nan x = false) fltb), float_order. Qed.

Definition costs (c : CheckResult) : bool := String.eqb (c_Status c) "fail" || String.eqb (c_Status c) "warn".

(** What a report says about its own completeness and what it advises. If
    any check could not ask the DNS, the report warns with the number of such
    checks. The advice comes from the failed and warning checks and from nothing
    else, the most costly finding first, each text once. *)
Theorem report_warns_and_advises w opts inp now :
  world_ok w now ->
  let r := Analyze w opts inp now in
  let n := countUnresolved (r_Checks r) in
  ((0 < n)%nat -> unresolvedWarning n ∈ r_Warnings r)
  /\ (is_ok (w_ReadMessage w (m_RawSource (in_Message inp))) = true ->
      exists ctx findings, findings ≡ₚ List.filter costs (r_Checks r)
        /\ StronglySorted (fun a b => fltb (c_ScoreDelta b) (c_ScoreDelta a) = false) findings
        /\ r_Suggestions r = dedupeKeepOrder (w_recommendation w ctx <$> findings)).
Proof.
  intros Hw. cbv zeta. split.
  - destruct (Analyze_cases w opts inp now) as [[e ->]|(h & body & fails & ->)].
    { change (countUnresolved (r_Checks (parse_failure inp now e))) with 0%nat. lia. }
    set (checks := all_checks w opts inp now h body fails). change (r_Checks (analyze_parsed w opts inp now h body fails)) with checks.
    intros Hn. set (n := countUnresolved checks) in *.
    assert (Hle : (n <= 100)%nat).
    { transitivity (List.length checks); [apply filter_length_le|]. etransitivity; [apply (checks_length w opts inp now Hw)|apply report_ids_length]. }
    cbn [r_Warnings analyze_parsed assignLabel]. unfold report_warnings. fold checks n. apply dedupeSorted_spec.
    split; [unfold unresolvedWarning; destruct (n =? 1)%nat; [done|by destruct (Itoa (Z.of_nat n))]|]. exists (unresolvedWarning n). split.
    + rewrite (proj2 (Nat.ltb_lt 0 n) Hn), !elem_of_app. right. right. left.
    + pose proof unresolved_texts as Ht. rewrite forallb_forall in Ht. apply String.eqb_eq, Ht, in_seq. lia.
  - intros Hok. assert (Hp : exists h body fails, Analyze w opts inp now = analyze_parsed w opts inp now h body fails).
    { unfold Analyze. destruct (w_ReadMessage w _) as [[[h d] f]|e]; [|done]. destruct (readLimited d f bodyLimit); eauto. }
    destruct Hp as (h & body & fails & ->). set (checks := all_checks w opts inp now h body fails).
    change (r_Checks (analyze_parsed w opts inp now h body fails)) with checks.
    exists (enrichCtx w inp now h body), (List.filter costs (SliceStable by_delta checks)). split_and!.
    + apply lfilter_Permutation, SliceStable_perm.
    + apply StronglySorted_filter, (SliceStable_sorted by_delta (P := fun c => is_nan (c_ScoreDelta c) = false)).
      destruct (all_checks_of w opts inp now Hw h body fails) as [_ Hf]. eapply Forall_impl; [exact Hf|].
      intros c Hc. cbv beta in *. by destruct (c_ScoreDelta c).
    + reflexivity.
Qed.

Lemma report_warns_and_advises_witness :
  let r := Analyze sample_world sample_options (sample_input false) sample_now in
  unresolvedWarning (countUnresolved (r_Checks r)) ∈ r_Warnings r.
Proof.
  apply (report_warns_and_advises sample_world sample_options (sample_input false) sample_now sample_world_ok).
  vm_compute. lia.
Defined.

(** *** Rechecks *)

Ltac same_id := repeat (cbn zeta; case_match); reflexivity.

Lemma dns_recheck_id env id rin c :
  is_service_check id = false -> recheck_raw env (fun _ _ => Err "") id rin = Some (Ok c) -> c_ID c = id.
Proof.
  intros Hs. unfold recheck_raw. rewrite Hs. cbn zeta.
  repeat match goal with |- context [String.eqb id ?k] => destruct (String.eqb_spec id k) as [->|]; [intros [= <-]|] end; [..|done].
  - unfold spfRecordRecheck, recheckUnconfirmed. same_id.
  - unfold spfStrictnessRecheck, spfStrictnessCheck. same_id.
  - unfold dmarcRecordRecheck, recheckUnconfirmed. same_id.
  - unfold dmarcPolicyRecheck, dmarcPolicyCheck. same_id.
  - unfold mxRecordCheck. same_id.
  - unfold addressRecordCheck. same_id.
  - unfold envelopeBounceMXCheck. same_id.
  - unfold mtaStsCheck, txt_policy_check. same_id.
  - unfold tlsRptCheck, txt_policy_check. same_id.
  - unfold bimiCheck, txt_policy_check. same_id.
  - unfold ptrPlausibility. same_id.
  - unfold ptrPatternCheck. same_id.
  - unfold fromDomainReceiveCheck. same_id.
Qed.

Lemma service_id w opts now id rin : is_service_check id = true -> c_ID (service_result w opts now id rin) = id.
Proof.
  unfold is_service_check, one_of. intros (x & Hx & ->%String.eqb_eq)%existsb_exists. apply list_elem_of_In in Hx.
  repeat (apply elem_of_cons in Hx as [->|Hx]); [..|by apply not_elem_of_nil in Hx]; unfold service_result; cbn [String.eqb Ascii.eqb Bool.eqb].
  - unfold dkimKeyLengthCheck. same_id.
  - unfold dnssecCheck. same_id.
  - unfold daneCheck. same_id.
  - unfold domainAgeCheck. same_id.
  - unfold domainBlocklistCheck. same_id.
  - unfold linkBlocklistCheck. same_id.
  - unfold brokenLinksCheck, broken_links_verdict. same_id.
Qed.

(** A recheck answers exactly the checks that are offered for it, with a
    result for the check that was asked for, so that replacing the old finding by
    its identifier keeps the report consistent; a check that panics gives an error
    result for the same check. *)
Theorem recheck_answers_its_check w opts now id rin :
  (Recheckable id = true <-> is_Some (engine_recheck w opts now id rin))
  /\ forall c, engine_recheck w opts now id rin = Some c -> c_ID c = id.
Proof.
  assert (Hv : forall c, c_ID (enrich_verdict c) = c_ID c) by (intros c; unfold enrich_verdict; by case_if).
  unfold engine_recheck, Recheck. destruct (is_service_check id) eqn:Hs.
  - assert (Hr : recheck_raw (w_checks w) (service_check w opts now) id rin = Some (service_check w opts now id rin)
                 /\ Recheckable id = true).
    { revert Hs. unfold is_service_check, one_of. intros (x & Hx & ->%String.eqb_eq)%existsb_exists. apply list_elem_of_In in Hx.
      repeat (apply elem_of_cons in Hx as [->|Hx]); [..|by apply not_elem_of_nil in Hx]; by split. }
    destruct Hr as [-> ->]. unfold service_check. destruct (w_crash w id); split; try (by split; eauto); intros c [= <-]; [done|].
    rewrite Hv. by apply service_id.
  - assert (Hr : recheck_raw (w_checks w) (service_check w opts now) id rin = recheck_raw (w_checks w) (fun _ _ => Err "") id rin).
    { unfold recheck_raw. by rewrite Hs. }
    rewrite Hr. clear Hr. split.
    + split.
      * unfold Recheckable, one_of. intros (x & Hx & ->%String.eqb_eq)%existsb_exists. apply list_elem_of_In in Hx.
        repeat (apply elem_of_cons in Hx as [->|Hx]); [..|by apply not_elem_of_nil in Hx]; by (discriminate || eexists).
      * unfold recheck_raw. rewrite Hs. cbn zeta. intros [c Hc].
        repeat match type of Hc with context [String.eqb id ?k] => destruct (String.eqb_spec id k) as [->|]; [reflexivity|] end. done.
    + intros c. destruct (recheck_raw _ _ id rin) as [[c0|e]|] eqn:E; intros Hc; [| |done].
      * assert (c = enrich_verdict c0) as -> by congruence. rewrite Hv. by eapply dns_recheck_id.
      * assert (c = errorCheck id e) as -> by congruence. done.
Qed.

(** *** Deviations *)

(** A panic outside the network checks leaves a report on which the gate for the
    essential checks does not act: here the perfect score, without any of them. *)
Example panicked_report_is_perfect :
  let r := recovered_report (mkReport 0 7 0 ten "" "" [] [] [] [] [] []) "index out of range" in
  r_Score r = ten /\ r_ScoreLabel r = "Excellent" /\ fst (ComputeScore (r_Checks r)) = ten.
Proof. vm_compute. auto. Qed.

(** In a simulation the links of the pasted message are opened when the check is
    enabled. *)
Example simulation_opens_links :
  let w := mkWorld (fun _ => Ok (sample_header, "see https://a.example/x", false)) no_dns sample_content_lib (fun _ => None) []
             (fun _ _ => Some 404) (fun l => l) (fun l => l) (fun _ => "") None (fun _ _ _ _ => None) sample_rdap
             (fun _ _ => SpamdError "") (sample_rspamd None None) (fun _ => None) (fun _ c => c_ID c) in
  let r := Analyze w sample_options (sample_input true) sample_now in
  c_Status <$> List.filter (fun c => String.eqb (c_ID c) "broken_links") (r_Checks r) = ["warn"].
Proof. vm_compute. reflexivity. Qed.

(** Mails that could not be parsed get 8.0. *)
Example unreadable_message_scores :
  let w := mkWorld (fun _ => Err "malformed header") no_dns sample_content_lib (fun _ => None) []
             (fun _ _ => None) (fun l => l) (fun l => l) (fun _ => "") None (fun _ _ _ _ => None) sample_rdap
             (fun _ _ => SpamdError "") (sample_rspamd None None) (fun _ => None) (fun _ c => c_ID c) in
  let r := Analyze w sample_options (sample_input false) sample_now in r_Score r = tenth 80 /\ r_ScoreLabel r = "Good".
Proof. vm_compute. auto. Qed.
