(* ===== verification/Rechecks.v ===== *)
(** * What the DNS checks and rechecks guarantee (internal/analyzer)

    A name server that does not answer never costs the sender points, and a
    recheck of SPF or DMARC cannot clear the finding it replaces. *)

From S2P Require Import Prelude F64 GoStrings GoNet Model Score Spf Checks.

Local Open Scope string_scope.
Local Open Scope list_scope.
Local Open Scope Z_scope.

(** ** Host names *)

(** Lower-case host names without a trailing dot: the form in which reports carry domains. *)
Definition host_char (a : ascii) : bool :=
  is_lower a || is_digit a || selem a "-._".
Definition host_name (d : string) : bool := sforall host_char d && negb (HasSuffix d ".").

Lemma host_char_props a : host_char a = true ->
  visible a = true /\ lower_byte a = a /\ (code a <? 128)%N = true.
Proof. destruct a as [[] [] [] [] [] [] [] []]; vm_compute; intros H; try discriminate H; done. Qed.

Lemma host_name_inv d : host_name d = true -> sforall host_char d = true /\ HasSuffix d "." = false.
Proof. unfold host_name. by rewrite andb_true_iff, negb_true_iff. Qed.

Section HostNames.
Context (d : string) (Hd : host_name d = true).

Lemma host_sforall p : (forall a, host_char a = true -> p a = true) -> sforall p d = true.
Proof. intros Hp. destruct (host_name_inv d Hd) as [Hc _]. by eapply sforall_impl. Qed.

Lemma host_TrimSpace : TrimSpace d = d.
Proof. apply TrimSpace_visible, host_sforall. intros a Ha. by apply host_char_props. Qed.

Lemma host_isASCII : isASCII d = true.
Proof. apply host_sforall. intros a Ha. by apply host_char_props. Qed.

Lemma host_TrimSuffix : TrimSuffix d "." = d.
Proof. unfold TrimSuffix. by rewrite (proj2 (host_name_inv d Hd)). Qed.

Lemma host_ToLower : ToLower d = d.
Proof.
  destruct (host_name_inv d Hd) as [Hc _]. clear Hd. unfold ToLower. induction d as [|a s IH]; simpl in *; [done|].
  apply andb_true_iff in Hc as [Ha Hs]. rewrite IH by done. f_equal. by apply host_char_props.
Qed.

Lemma host_normDomain : normDomain d = d.
Proof. unfold normDomain. by rewrite host_TrimSpace, host_ToLower, host_TrimSuffix. Qed.

End HostNames.

Lemma host_prefix p d :
  sforall host_char p = true -> host_name d = true -> d <> "" -> host_name (p +:+ d) = true.
Proof.
  intros Hp [Hc Hsuf]%host_name_inv Hne. unfold host_name. rewrite sforall_app, Hp, Hc. simpl.
  apply negb_true_iff, not_true_is_false. intros (t & Ht)%HasSuffix_spec.
  apply not_true_iff_false in Hsuf. apply Hsuf, HasSuffix_spec. clear -Ht Hne.
  revert t Ht. induction p as [|a p IH]; simpl; intros t Ht; [eauto|].
  destruct t as [|b t]; simpl in Ht; simplify_eq.
  - destruct p; simpl in *; [congruence|]. done.
  - eauto.
Qed.

(** ** Outages *)

(** The answer is missing: neither a record nor a definite negative. *)
Definition no_answer {A} (ans : dns_answer A) : Prop :=
  match ans with Err e => DNSLookupFailed e = true | Ok _ => False end.

(** No name server answers anything. *)
Definition dns_down (env : check_env) : Prop :=
  forall q, no_answer (env_txt (ce_dns env) q) /\ no_answer (env_mx (ce_dns env) q)
    /\ no_answer (env_ipaddr (ce_dns env) q) /\ no_answer (env_host (ce_dns env) q)
    /\ no_answer (env_addr (ce_dns env) q).

(** A result that costs nothing and claims nothing. *)
Definition neutral (c : CheckResult) : Prop := c_Status c = "info" /\ c_ScoreDelta c = fzero.

Lemma three_valued_down {A} (ans : dns_answer A) : no_answer ans -> three_valued ans = ([], dnsUnavailable).
Proof.
  destruct ans as [l|e]; [done|]. simpl. unfold DNSLookupFailed. intros H.
  by destruct (classifyDNSError e).
Qed.

Lemma lookup_with_down {A} env (q : string -> dns_answer A) d :
  (forall n, no_answer (q n)) -> host_name d = true -> d <> "" ->
  lookup_with env q d = ([], dnsUnavailable).
Proof.
  intros Hq Hd Hne. unfold lookup_with, asciiDomain.
  rewrite host_TrimSpace, host_TrimSuffix, host_isASCII by done.
  apply isEmpty_false in Hne. rewrite Hne. apply three_valued_down, Hq.
Qed.

Section Down.
Context (env : check_env) (Hdown : dns_down env).

Lemma txt_down d : host_name d = true -> d <> "" -> lookupTXT env d = ([], dnsUnavailable).
Proof. apply lookup_with_down. intros n. apply Hdown. Qed.
Lemma mx_down d : host_name d = true -> d <> "" -> lookupMX env d = ([], dnsUnavailable).
Proof. apply lookup_with_down. intros n. apply Hdown. Qed.
Lemma addr_down ip : lookupAddr env ip = ([], dnsUnavailable).
Proof. apply three_valued_down, Hdown. Qed.
Lemma ipaddr_down d : host_name d = true -> d <> "" -> lookupIPAddr env d = ([], dnsUnavailable).
Proof. apply lookup_with_down. intros n. apply Hdown. Qed.

Lemma prefixed_txt_down p d :
  sforall host_char p = true -> host_name d = true -> d <> "" -> lookupTXT env (p +:+ d) = ([], dnsUnavailable).
Proof.
  intros Hp Hd Hne. apply txt_down; [by apply host_prefix|].
  intros Hn. apply Hne. destruct p; [done|discriminate].
Qed.

Lemma dmarc_down d : host_name d = true -> d <> "" -> dm_Status (lookupDMARCRecord env d) = dnsUnavailable.
Proof.
  intros Hd Hne. unfold lookupDMARCRecord. rewrite host_normDomain by done.
  pose proof (proj2 (isEmpty_false d) Hne) as ->. unfold dmarcRecordsAt. by rewrite prefixed_txt_down.
Qed.

(** The name under test is empty (and the check says so) or reaches the resolver. *)
Ltac down_case d Hd :=
  destruct (isEmpty d) eqn:He; [done|apply isEmpty_false in He].

Lemma txt_policy_down id p v bonus d :
  sforall host_char p = true -> host_name d = true -> neutral (txt_policy_check env id p v bonus d).
Proof.
  intros Hp Hd. unfold txt_policy_check. rewrite host_normDomain by done. down_case d Hd.
  unfold txtHasPrefix. by rewrite prefixed_txt_down.
Qed.

Lemma spfRecordRecheck_down d rin : host_name d = true -> neutral (spfRecordRecheck env d rin).
Proof.
  intros Hd. unfold spfRecordRecheck. rewrite host_normDomain by done. down_case d Hd. by rewrite txt_down.
Qed.

Lemma spfStrictnessRecheck_down d : host_name d = true -> neutral (spfStrictnessRecheck env d).
Proof.
  intros Hd. unfold spfStrictnessRecheck. rewrite host_normDomain by done. down_case d Hd. by rewrite txt_down.
Qed.

Lemma dmarcRecordRecheck_down d rin : host_name d = true -> neutral (dmarcRecordRecheck env d rin).
Proof.
  intros Hd. unfold dmarcRecordRecheck. rewrite host_normDomain by done. down_case d Hd. by rewrite dmarc_down.
Qed.

Lemma dmarcPolicyRecheck_down d : host_name d = true -> neutral (dmarcPolicyRecheck env d).
Proof.
  intros Hd. unfold dmarcPolicyRecheck. rewrite host_normDomain by done. down_case d Hd. by rewrite dmarc_down.
Qed.

Lemma mxRecordCheck_down d : host_name d = true -> neutral (mxRecordCheck env d).
Proof.
  intros Hd. unfold mxRecordCheck. rewrite host_TrimSuffix, host_TrimSpace by done. down_case d Hd. by rewrite mx_down.
Qed.

Lemma addressRecordCheck_down d : host_name d = true -> neutral (addressRecordCheck env d).
Proof.
  intros Hd. unfold addressRecordCheck. rewrite host_TrimSuffix, host_TrimSpace by done.
  down_case d Hd. by rewrite ipaddr_down.
Qed.

Lemma envelopeBounceMXCheck_down d : host_name d = true -> neutral (envelopeBounceMXCheck env d).
Proof.
  intros Hd. unfold envelopeBounceMXCheck. rewrite host_ToLower, host_TrimSuffix, host_TrimSpace by done.
  down_case d Hd. by rewrite mx_down.
Qed.

Lemma fromDomainReceiveCheck_down d b : host_name d = true -> neutral (fromDomainReceiveCheck env d b).
Proof.
  intros Hd. unfold fromDomainReceiveCheck. down_case d Hd. case_if; [done|]. by rewrite mx_down.
Qed.

Lemma ptr_down ip helo : isNil (ParseIP (TrimSpace ip)) = false -> neutral (ptrPlausibility env ip helo).
Proof. intros Hip. unfold ptrPlausibility. by rewrite Hip, addr_down. Qed.

Lemma ptrPattern_down ip : neutral (ptrPatternCheck env ip).
Proof. unfold ptrPatternCheck. case_if; [done|]. by rewrite addr_down. Qed.

End Down.

Lemma enrich_neutral c : neutral c -> neutral (enrich_verdict c).
Proof.
  intros [Hs Hd]. unfold enrich_verdict. rewrite Hs. simpl. split; [done|]. simpl.
  repeat case_if; done.
Qed.

Definition host_input (rin : RecheckInput) : Prop :=
  host_name (ri_FromDomain rin) = true /\ host_name (ri_EnvelopeDomain rin) = true
  /\ host_name (ri_ReturnDomain rin) = true.

Lemma host_firstNonEmpty a b : host_name a = true -> host_name b = true -> host_name (firstNonEmpty [a; b]) = true.
Proof.
  intros Ha Hb. unfold firstNonEmpty. rewrite (host_TrimSpace a Ha), (host_TrimSpace b Hb).
  destruct (isEmpty a); [destruct (isEmpty b)|]; done.
Qed.

Create HintDb outage.
#[local] Hint Resolve spfRecordRecheck_down spfStrictnessRecheck_down dmarcRecordRecheck_down
  dmarcPolicyRecheck_down mxRecordCheck_down addressRecordCheck_down envelopeBounceMXCheck_down
  fromDomainReceiveCheck_down ptr_down ptrPattern_down host_firstNonEmpty txt_policy_down eq_refl : outage.


(** A resolver in an outage. *)
Definition down_env : check_env :=
  mkCheckEnv (mkDnsEnv (fun _ => Err (DNSError false)) (fun _ => Err (DNSError false)) (fun _ => Err OtherError)
                       (fun _ => Err (DNSError false)) (fun _ => Err OtherError))
    Some (fun _ => None).

Definition sample_recheck : RecheckInput :=
  mkRecheck "news.example.org" "bounce.example.org" "" "192.0.2.7" "mail.example.org" "" [] "fail" (lit (-26) 10).

Definition no_service (id : string) (rin : RecheckInput) : outcome string CheckResult := Err "not reachable".


(** ** A recheck of SPF or DMARC does not clear the finding *)

Definition verdict_id (id : string) : Prop := id = "spf" \/ id = "dmarc".

(** What such a recheck can be before the enrichment: neutral, a plain warning or
    failure, or the unconfirmed result that keeps the earlier delta. *)
Lemma verdict_recheck env service_check id rin :
  verdict_id id ->
  exists r, Recheck env service_check id rin = Some (enrich_verdict r)
    /\ (r = info id fzero \/ r = unresolved id \/ r = warn id fzero \/ r = fail id fzero
        \/ r = recheckUnconfirmed id rin).
Proof.
  intros [-> | ->]; eexists; (split; [reflexivity|]).
  - unfold spfRecordRecheck. case_if; [auto|]. destruct (lookupTXT _ _) as [recs []]; [| |auto];
      destruct (isEmpty (last_spf1 recs)); eauto 6.
  - unfold dmarcRecordRecheck. case_if; [auto|]. destruct (lookupDMARCRecord _ _) as [recs ? ? ? st]. simpl.
    destruct st, recs; auto 6.
Qed.

Lemma recheckUnconfirmed_enriched id rin :
  enrich_verdict (recheckUnconfirmed id rin) =
  let c := recheckUnconfirmed id rin in
  mkCheck id "" (c_Status c) (pendingDelta rin id) "" "" (c_TechnicalDetails c) "" "" []
    (checkSeverity (c_Status c)) (checkCategory id) (checkImportance id) "" "" "" "".
Proof.
  unfold enrich_verdict, recheckUnconfirmed, detail. simpl.
  destruct (fltb (pendingDelta rin id) fzero); simpl; rewrite lookup_singleton_eq; done.
Qed.

Lemma verdict_recheck_status env service_check id rin c :
  verdict_id id -> Recheck env service_check id rin = Some c ->
  c_ID c = id /\ c_Status c <> "pass"
  /\ (detail recheckPendingDetailKey c <> "" -> c_ScoreDelta c = pendingDelta rin id)
  /\ (detail recheckPendingDetailKey c = "" -> c_ScoreDelta c = scoreFor "Kritisch" (c_Status c)).
Proof.
  intros Hid Hc. destruct (verdict_recheck env service_check id rin Hid) as (r & Hr & Hcase).
  rewrite Hr in Hc. injection Hc as <-. assert (checkImportance id = "Kritisch" /\ keeps_delta id = false) as [Hi Hk].
  { by destruct Hid as [-> | ->]. }
  destruct Hcase as [->|[->|[->|[->| ->]]]];
    [split_and!; unfold enrich_verdict; simpl; rewrite ?Hi, ?Hk; done..|].
  rewrite recheckUnconfirmed_enriched. unfold recheckUnconfirmed, detail. simpl.
  destruct (fltb (pendingDelta rin id) fzero); simpl; rewrite lookup_singleton_eq; done.
Qed.

(** A recheck of SPF or DMARC, which has no message to verify, can never turn
    the verdict into a pass. When it finds the record it carries the score delta of the finding
    it replaces (the warning penalty when the client sent none), so the click changes nothing. *)
Theorem recheck_keeps_penalty env service_check id rin c :
  verdict_id id -> Recheck env service_check id rin = Some c ->
  c_Status c <> "pass"
  /\ (detail recheckPendingDetailKey c <> "" ->
      c_ScoreDelta c = (if isEmpty (ri_PrevStatus rin) then lit (-13) 10 else ri_PrevDelta rin)
      /\ (fltb (c_ScoreDelta c) fzero = true -> c_Status c = "warn")).
Proof.
  intros Hid Hc. destruct (verdict_recheck_status _ _ _ _ _ Hid Hc) as (_ & Hs & Hp & _).
  split; [done|]. intros Hd. split.
  - rewrite Hp by done. unfold pendingDelta. by destruct Hid as [-> | ->].
  - rewrite Hp by done. intros Hneg. destruct (verdict_recheck env service_check id rin Hid) as (r & Hr & Hcase).
    rewrite Hr in Hc. injection Hc as <-.
    destruct Hcase as [->|[->|[->|[->| ->]]]]; try (by destruct Hd).
    rewrite recheckUnconfirmed_enriched. unfold recheckUnconfirmed. simpl. by rewrite Hneg.
Qed.

(** The zone of the witnesses: the organisational domain publishes a DMARC record
    with a subdomain policy, every domain an SPF record. *)
Definition zone_env : check_env :=
  mkCheckEnv
    (mkDnsEnv (fun q => if String.eqb q "_dmarc.example.org" then Ok ["v=DMARC1; p=reject; sp=quarantine"]
                        else if HasPrefix q "_dmarc." then Err (DNSError true)
                        else Ok ["v=spf1 mx -all"])
              (fun _ => Err (DNSError true)) (fun _ => Err (DNSError true)) (fun _ => Err (DNSError true))
              (fun _ => Err (DNSError true)))
    Some (fun _ => Some "example.org").

Lemma recheck_keeps_penalty_witness :
  exists c, Recheck zone_env no_service "spf" sample_recheck = Some c /\ c_ScoreDelta c = lit (-26) 10.
Proof.
  destruct (Recheck zone_env no_service "spf" sample_recheck) as [c|] eqn:E; [|vm_compute in E; discriminate].
  exists c. split; [done|].
  destruct (recheck_keeps_penalty zone_env no_service "spf" sample_recheck c) as [_ H]; [by left|done|].
  apply H. vm_compute in E. injection E as <-. vm_compute. discriminate.
Defined.

(** A report that contains the result of an SPF or DMARC recheck scores at most
    9.5, whatever its other checks say and whatever the client claims the previous state was. *)
Theorem recheck_keeps_cap env service_check id rin c checks :
  verdict_id id -> Recheck env service_check id rin = Some c -> c ∈ checks ->
  Forall (fun c => is_finite (c_ScoreDelta c) = true) checks ->
  exists k, 0 <= k <= 95 /\ fst (ComputeScore checks) = tenth k.
Proof.
  intros Hid Hc Hin Hf. destruct (compute_score_range checks Hf) as (k & Hk & Hs & Hcap).
  exists k. split; [|done]. destruct (decide (95 < k)) as [Hlt|]; [|lia]. exfalso.
  apply Hcap, essentialsAllPass_spec in Hlt. rewrite Forall_forall in Hlt.
  destruct (verdict_recheck_status _ _ _ _ _ Hid Hc) as (Hcid & Hpass & _). apply Hpass, Hlt; [done|].
  rewrite Hcid. by destruct Hid as [-> | ->].
Qed.

Lemma recheck_keeps_cap_witness :
  exists c k, Recheck zone_env no_service "dmarc" sample_recheck = Some c
    /\ fst (ComputeScore [c; pass "ptr" (f_of_Z 5)]) = tenth k /\ 0 <= k <= 95.
Proof.
  destruct (Recheck zone_env no_service "dmarc" sample_recheck) as [c|] eqn:E; [|vm_compute in E; discriminate].
  destruct (recheck_keeps_cap zone_env no_service "dmarc" sample_recheck c [c; pass "ptr" (f_of_Z 5)]) as (k & Hk & Hs).
  - by right.
  - done.
  - left.
  - vm_compute in E. injection E as <-. repeat constructor.
  - exact (ex_intro _ c (ex_intro _ k (conj eq_refl (conj Hs Hk)))).
Defined.

(** ** Behaviours worth knowing

    An MTA-STS lookup that times out is neutral but is not counted among the
    unanswered ones, because the details of the check replace the marker. *)
Example outage_not_counted :
  c_Status (mtaStsCheck down_env "example.org") = "info"
  /\ countUnresolved [mtaStsCheck down_env "example.org"; mxRecordCheck down_env "example.org"] = 1%nat.
Proof. split; vm_compute; reflexivity. Qed.

(** The qualifier of "all" is found by substring, so a name that contains "-all" hides a "+all". *)
Example all_qualifier_by_substring : spfAllQualifier "v=spf1 include:mail-all.example +all" = "-all".
Proof. vm_compute. reflexivity. Qed.

(** Mechanisms with a prefix length are not counted as lookups, though they need one. *)
Example prefixed_mechanism_not_counted : strictness_terms ["v=spf1"; "a/24"; "mx/24"; "a"; "mx"] 0 "" = (2, "").
Proof. vm_compute. reflexivity. Qed.

(** A redirect whose target cannot be looked up costs 0.2 points although the
    record was found. *)
Example redirect_outage_costs :
  c_ScoreDelta (spfStrictnessCheck down_env ["v=spf1 redirect=_spf.example.org"]) = lit (-2) 10.
Proof. vm_compute. reflexivity. Qed.

(** The transport check reads the HELO name as part of the first Received header. *)
Example tls_from_helo :
  c_Status (tlsTransportCheck ["from x.with.esmtps.example (192.0.2.7) by mx.example.org with ESMTP"]) = "pass".
Proof. vm_compute. reflexivity. Qed.
