(* ===== verification/Views.v ===== *)
(** * What a report page shows (internal/web/server.go)

    The functions the templates call on a stored report: rows of blocklists and
    of spam filter rules read back from the technical details of a check, labels,
    the order and grouping of checks and links, and the formatting of numbers. A
    map is a [gmap], or the list of its entries in the order of the iteration
    where that order could matter. A panic is [None]. [strconv.ParseFloat] (its
    value, which is used without the error) and [url.Parse] are parameters. *)

From S2P Require Import Prelude F64 GoStrings GoSort GoTime Regex GoNet Model Score Spf Checks MailHeaders Body Content.
From S2P Require Import Blocklists DomainChecks SpamFilters.
From Stdlib Require Import SpecFloat.

Local Open Scope string_scope.
Local Open Scope list_scope.
Local Open Scope Z_scope.

(** Reading a Go map: a missing key gives the empty string. *)
Definition entry (k : string) (details : gmap string string) : string := default "" (details !! k).

(** Grouping by a key: a map from keys to the elements in their order. *)
Definition group_add {A} (key : A -> string) (m : gmap string (list A)) (x : A) : gmap string (list A) :=
  <[key x := default [] (m !! key x) ++ [x]]> m.
Definition group_by {A} (key : A -> string) (l : list A) : gmap string (list A) := fold_left (group_add key) l ∅.

(** ** Blocklists *)

Record RBLHit := mkRBLHit { rh_Provider : string; rh_Response : string; rh_DelistURL : string; rh_Delisting : string }.

Record RBLProviderInfo := mkRBLProviderInfo { ri_Host : string; ri_DisplayName : string; ri_Description : string }.

(** One line "host (Name)|description". The slice of the name can be out of range. *)
Definition provider_info (line : string) : option RBLProviderInfo :=
  let parts := SplitN2 line "|" in
  let hostPart := TrimSpace (default "" (parts !! 0%nat)) in
  let desc := match parts !! 1%nat with Some d => TrimSpace d | None => "" end in
  match Index hostPart " (" with
  | Some (S i) =>
      let first := (S i + 2)%nat in
      let last := (String.length hostPart - 1)%nat in
      if (last <? first)%nat then None
      else Some (mkRBLProviderInfo (stake (S i) hostPart) (stake (last - first) (sdrop first hostPart)) desc)
  | _ => Some (mkRBLProviderInfo hostPart hostPart desc)
  end.

Definition rblProvidersFn (details : gmap string string) : option (list RBLProviderInfo) :=
  let raw := entry "checked_providers" details in
  if isEmpty raw || String.eqb raw "none" then Some []
  else mapM provider_info (List.filter (fun l => negb (isEmpty l)) (TrimSpace <$> Split raw LF)).

Definition trimmed_at (l : list string) (i : nat) : string := match l !! i with Some x => TrimSpace x | None => "" end.

Definition rblHitsFn (details : gmap string string) : list RBLHit :=
  let listed := entry "listed_providers" details in
  if isEmpty listed || String.eqb listed "none" then []
  else
    let responses := Split (entry "listing_responses" details) LF in
    let urls := Split (entry "provider_delist_urls" details) LF in
    let steps := SplitSep (entry "provider_delisting" details) lflf in
    omap (fun ip => let '(i, p) := ip in
            if isEmpty (TrimSpace p) then None
            else Some (mkRBLHit (TrimSpace p) (trimmed_at responses i) (trimmed_at urls i) (trimmed_at steps i)))
      (imap pair (Split listed LF)).

Definition splitLinesFn (s : string) : list string :=
  if isEmpty s || String.eqb s "none" then []
  else List.filter (fun l => negb (isEmpty l)) (TrimSpace <$> Split s LF).

(** ** Labels *)

Definition techLabels : gmap string string := list_to_map
  [("remote_ip", "Sendende IP"); ("helo", "HELO/EHLO"); ("helo_ehlo", "HELO/EHLO"); ("ptr_hostname", "PTR-Hostname");
   ("ptr_pattern", "PTR-Muster"); ("dkim_result", "DKIM-Ergebnis"); ("dkim_domain", "DKIM-Domain (d=)");
   ("dkim_signature", "DKIM-Signatur"); ("dkim_aligned", "DKIM aligned"); ("key_type", "Schlüsseltyp");
   ("key_bits", "Schlüssellänge (Bit)"); ("dns_name", "DNS-Name"); ("selector", "DKIM-Selector (s=)");
   ("verifier_detail", "Meldung des Prüfers"); ("key_state", "Zustand des Schlüssel-Records");
   ("key_problem", "Problem im Schlüssel-Record"); ("spf_result", "SPF-Ergebnis"); ("spf_records", "SPF-Record(s)");
   ("spf_aligned", "SPF aligned"); ("all_mechanism", "SPF all-Mechanismus");
   ("lookup_mechanisms_toplevel", "SPF DNS-Lookups (Top-Level)"); ("dmarc_result", "DMARC-Ergebnis");
   ("dmarc_records", "DMARC-Record(s)"); ("dmarc_policy", "DMARC-Policy (p=)"); ("policy", "Policy");
   ("from_domain", "From-Domain"); ("header_from", "Header-From"); ("header_from_domain", "Header-From-Domain");
   ("envelope_from_domain", "Envelope-From-Domain"); ("smtp_mail_from", "Envelope-From (MAIL FROM)");
   ("return_path", "Return-Path"); ("return_path_domain", "Return-Path-Domain"); ("bounce_domain", "Bounce-Domain");
   ("mx_host", "MX-Host"); ("mx_records", "MX-Records"); ("a_aaaa_records", "A/AAAA-Records"); ("domain", "Domain");
   ("registered", "Registriert am"); ("age_days", "Domain-Alter (Tage)"); ("rdap_error", "RDAP-Fehler");
   ("dnskey_records", "DNSKEY-Records"); ("tlsa_records", "TLSA-Records"); ("tlsa_name", "TLSA-Name");
   ("mx_domain", "MX-Domain"); ("checked_providers", "Geprüfte Listen"); ("listed_on", "Gelistet auf");
   ("listed", "Gelistet"); ("listed_providers", "Gelistet auf"); ("listing_responses", "Listing-Antworten");
   ("lookup_errors", "Abfragefehler"); ("deliverability_impact", "Auswirkung auf Zustellung");
   ("rbl_query_prefix", "RBL-Abfrage"); ("query_names", "Abfrage-Namen"); ("link_count", "Anzahl Links");
   ("links", "Links"); ("link_domains_checked", "Geprüfte Link-Domains"); ("display_name", "Anzeigename");
   ("impersonated_brand", "Imitierte Marke"); ("embedded_domain", "Eingebettete Domain"); ("subject", "Betreff");
   ("subject_chars", "Betreff-Länge (Zeichen)"); ("exclamation_count", "Ausrufezeichen");
   ("message_id", "Message-ID"); ("date", "Datum"); ("date_header", "Datum-Header"); ("date_skew", "Zeitabweichung");
   ("received_count", "Anzahl Received-Header"); ("received_headers", "Received-Header");
   ("content_type", "Content-Type"); ("content_transfer_encoding", "Transfer-Encoding"); ("charset", "Zeichensatz");
   ("has_html_part", "HTML-Teil vorhanden"); ("has_text_part", "Text-Teil vorhanden");
   ("html_chars", "HTML-Zeichen"); ("text_chars", "Text-Zeichen"); ("image_count", "Bilder");
   ("image_text_ratio", "Bild/Text-Verhältnis"); ("attachment_count", "Anhänge"); ("part_count", "MIME-Teile");
   ("list_unsubscribe", "List-Unsubscribe"); ("list_id", "List-Id"); ("precedence", "Precedence");
   ("arc_seal", "ARC-Seal"); ("arc_message_signature", "ARC-Message-Signature"); ("error", "Fehler");
   ("parse_error", "Parse-Fehler"); ("raw_bytes", "Rohgröße (Bytes)"); ("action", "Aktion");
   ("required_score", "Schwellwert"); ("expected", "Erwartet"); ("spam_line", "Spam-Zeile");
   ("preheader", "Preheader"); ("multipart_alt", "multipart/alternative")].

Definition techLabelsEN : gmap string string := list_to_map
  [("remote_ip", "Sending IP"); ("ptr_hostname", "PTR hostname"); ("ptr_pattern", "PTR pattern");
   ("dkim_result", "DKIM result"); ("dkim_signature", "DKIM signature"); ("key_type", "Key type");
   ("key_bits", "Key length (bits)"); ("dns_name", "DNS name"); ("selector", "DKIM selector (s=)");
   ("verifier_detail", "Verifier message"); ("key_state", "State of the key record");
   ("key_problem", "Problem in the key record"); ("spf_result", "SPF result"); ("spf_records", "SPF record(s)");
   ("all_mechanism", "SPF all mechanism"); ("lookup_mechanisms_toplevel", "SPF DNS lookups (top level)");
   ("dmarc_result", "DMARC result"); ("dmarc_records", "DMARC record(s)");
   ("header_from_domain", "Header-From domain"); ("envelope_from_domain", "Envelope-From domain");
   ("return_path_domain", "Return-Path domain"); ("bounce_domain", "Bounce domain"); ("mx_host", "MX host");
   ("mx_records", "MX records"); ("a_aaaa_records", "A/AAAA records"); ("registered", "Registered on");
   ("age_days", "Domain age (days)"); ("rdap_error", "RDAP error"); ("dnskey_records", "DNSKEY records");
   ("tlsa_records", "TLSA records"); ("tlsa_name", "TLSA name"); ("mx_domain", "MX domain");
   ("checked_providers", "Lists checked"); ("listed_on", "Listed on"); ("listed", "Listed");
   ("listed_providers", "Listed on"); ("listing_responses", "Listing responses"); ("lookup_errors", "Lookup errors");
   ("deliverability_impact", "Impact on delivery"); ("rbl_query_prefix", "RBL query");
   ("query_names", "Query names"); ("link_count", "Number of links"); ("links", "Links");
   ("link_domains_checked", "Link domains checked"); ("display_name", "Display name");
   ("impersonated_brand", "Impersonated brand"); ("embedded_domain", "Embedded domain"); ("subject", "Subject");
   ("subject_chars", "Subject length (characters)"); ("exclamation_count", "Exclamation marks"); ("date", "Date");
   ("date_header", "Date header"); ("date_skew", "Clock skew"); ("received_count", "Number of Received headers");
   ("received_headers", "Received headers"); ("charset", "Character set"); ("has_html_part", "HTML part present");
   ("has_text_part", "Text part present"); ("html_chars", "HTML characters"); ("text_chars", "Text characters");
   ("image_count", "Images"); ("image_text_ratio", "Image-to-text ratio"); ("attachment_count", "Attachments");
   ("part_count", "MIME parts"); ("error", "Error"); ("parse_error", "Parse error");
   ("raw_bytes", "Raw size (bytes)"); ("action", "Action"); ("required_score", "Threshold");
   ("expected", "Expected"); ("spam_line", "Spam line"); ("dns_lookup", "DNS lookup"); ("beantwortet", "Answered");
   ("nicht_pruefbar", "Not checkable"); ("defekt", "Broken"); ("geprueft", "Checked");
   ("nicht_abgerufen", "Not opened"); ("nicht_abgerufen_grund", "Why not opened"); ("herkunft", "Source");
   ("pct", "pct"); ("subdomain_policy", "Subdomain policy"); ("betroffene_links", "Affected links");
   ("beantwortete_abfragen", "Answered queries"); ("recheck_pending", "Result still open");
   ("simulator_uebersprungen", "Skipped in the simulator")].

Definition humanizeKey (key : string) : string :=
  let s := ReplaceAll (TrimSpace key) "_" " " in
  if isEmpty s then key else ToUpper (stake 1 s) +:+ sdrop 1 s.

Definition english (lang : string) : bool := String.eqb lang "en".

Definition techLabel (lang key : string) : string :=
  match (if english lang then techLabelsEN !! key else None) with
  | Some v => v
  | None => match techLabels !! key with Some v => v | None => humanizeKey key end
  end.

(** The table for the client: the English entries overwrite the German ones. *)
Definition techLabelTable (lang : string) : gmap string string :=
  if english lang then techLabelsEN ∪ techLabels else techLabels.

(** ** Spam filters *)

Record RspamdSymbolRow := mkRow { rw_Name : string; rw_Score : float64; rw_Desc : string; rw_Explain : string }.

(** [strings.SplitN] with n = 3. *)
Definition SplitN3 (s sep : string) : list string :=
  match SplitN2 s sep with
  | [a; rest] => a :: SplitN2 rest sep
  | l => l
  end.

Definition magnitude (x : float64) : float64 := if fltb x fzero then SFopp x else x.

Definition row_before (a b : RspamdSymbolRow) : bool :=
  let x := magnitude (rw_Score a) in
  let y := magnitude (rw_Score b) in
  if negb (feqb x y) then fltb y x else String.ltb (rw_Name a) (rw_Name b).

Section Views.
Context (ParseFloat : string -> float64) (Hostname : string -> option string).

Definition symbol_row (kv : string * string) : option RspamdSymbolRow :=
  if HasPrefix (fst kv) "sym:" then
    let parts := SplitN3 (snd kv) "|" in
    Some (mkRow (TrimPrefix (fst kv) "sym:") (ParseFloat (default "" (parts !! 0%nat)))
            (default "" (parts !! 1%nat)) (default "" (parts !! 2%nat)))
  else None.

(** [entries]: the map in the order of the iteration. *)
Definition rspamdSymbolsFn (entries : list (string * string)) : list RspamdSymbolRow :=
  SliceStable row_before (omap symbol_row entries).

Definition rspamdMetaFn (details : gmap string string) : gmap string string :=
  filter (fun kv => HasPrefix (fst kv) "sym:" = false) details.

Definition rspamdActionClass (action : string) : string :=
  let a := ToLower (TrimSpace action) in
  if String.eqb a "no action" then "success"
  else if one_of a ["add header"; "rewrite subject"; "greylist"] then "warning"
  else if one_of a ["reject"; "soft reject"] then "danger"
  else "secondary".

Definition rspamdScorePercent (details : gmap string string) : float64 :=
  let score := ParseFloat (entry "score" details) in
  let required := ParseFloat (entry "required_score" details) in
  if fleb required fzero then fzero
  else
    let pct := fmul (fdiv score required) (f_of_Z 100) in
    let pct := if fltb (f_of_Z 100) pct then f_of_Z 100 else pct in
    if fltb pct fzero then fzero else pct.

(** ** Checks *)

(** A status that is not in the table has rank 0. *)
Definition status_rank (status : string) : Z :=
  if String.eqb status "fail" then 0
  else if String.eqb status "warn" then 1
  else if String.eqb status "info" then 2
  else if String.eqb status "pass" then 3
  else 0.

Definition check_before (a b : CheckResult) : bool :=
  let ri := status_rank (c_Status a) in
  let rj := status_rank (c_Status b) in
  if ri =? rj then String.ltb (c_Name a) (c_Name b) else ri <? rj.

Definition sortChecks (checks : list CheckResult) : list CheckResult := SliceStable check_before checks.

Definition groupTitles : gmap string string := list_to_map
  [("Authentifizierung", "Authentication"); ("DNS und Infrastruktur", "DNS and infrastructure");
   ("Spamfilter", "Spam filters"); ("Format und Inhalt", "Format and content");
   ("Header und Rohdaten", "Headers and raw data")].

Definition groupHintsDE : gmap string string := list_to_map
  [("Authentifizierung", "Beweist, dass die Nachricht wirklich von Ihrer Domain stammt. SPF, DKIM und DMARC sind heute der wichtigste Faktor für die Zustellung — Gmail und Outlook lehnen Nachrichten ohne sie zunehmend ab.");
   ("DNS und Infrastruktur", "Prüft, ob Ihre sendende IP-Adresse und Ihre Hostnamen sauber im DNS hinterlegt sind (Rückwärtsauflösung, HELO, MX, A/AAAA, TLS). Widersprüche hier wirken auf Empfänger wie ein schlecht eingerichteter oder übernommener Server.");
   ("Spamfilter", "Externe Reputations- und Inhaltsfilter (SpamAssassin, Rspamd, Blocklisten). Zeigt, wie verbreitete Filter Ihre Nachricht bewerten und welche Einzelsignale dabei zählen.");
   ("Format und Inhalt", "Aufbau der Nachricht: MIME-Struktur, Verhältnis von Text zu HTML, Links, Betreff und Anhänge. Ein schlechtes Format ist ein klassisches Spam-Signal und kann die Darstellung beim Empfänger zerstören.");
   ("Header und Rohdaten", "Technische Pflichtangaben im Kopfbereich (Datum, Message-ID, Received-Kette). Fehlende oder unplausible Felder deuten auf einen fehlerhaft eingerichteten Mailserver hin.")].

Definition groupHintsEN : gmap string string := list_to_map
  [("Authentifizierung", "Proves the message really comes from your domain. SPF, DKIM and DMARC are the single biggest factor in deliverability today — Gmail and Outlook increasingly reject mail without them.");
   ("DNS und Infrastruktur", "Checks whether your sending IP address and hostnames are properly published in DNS (reverse DNS, HELO, MX, A/AAAA, TLS). Inconsistencies here look to a receiver like a misconfigured or hijacked server.");
   ("Spamfilter", "External reputation and content filters (SpamAssassin, Rspamd, blocklists). Shows how widely used filters rate your message and which individual signals count.");
   ("Format und Inhalt", "How the message is built: MIME structure, text-to-HTML ratio, links, subject and attachments. Poor formatting is a classic spam signal and can wreck how the message looks to the reader.");
   ("Header und Rohdaten", "Mandatory technical header fields (Date, Message-ID, Received chain). Missing or implausible values point to a badly configured mail server.")].

Record ReportCheckGroup := mkGroup {
  g_Name : string;
  g_Hint : string;
  g_Checks : list CheckResult;
  g_PassCount : Z;
  g_WarnCount : Z;
  g_FailCount : Z;
  g_InfoCount : Z;
  g_NACount : Z
}.

Definition group_order : list string :=
  ["Authentifizierung"; "DNS und Infrastruktur"; "Spamfilter"; "Format und Inhalt"; "Header und Rohdaten"].

Definition group_category (c : CheckResult) : string :=
  let category := TrimSpace (c_Category c) in if isEmpty category then "Header und Rohdaten" else category.

Definition count_status (g : ReportCheckGroup) (c : CheckResult) : ReportCheckGroup :=
  let '(mkGroup n h l p w f i a) := g in
  if String.eqb (c_Status c) "pass" then mkGroup n h l (p + 1) w f i a
  else if String.eqb (c_Status c) "warn" then mkGroup n h l p (w + 1) f i a
  else if String.eqb (c_Status c) "fail" then mkGroup n h l p w (f + 1) i a
  else if String.eqb (c_Status c) "na" then mkGroup n h l p w f i (a + 1)
  else mkGroup n h l p w f (i + 1) a.

Definition check_group (lang name : string) (checks : list CheckResult) : ReportCheckGroup :=
  let hints := if english lang then groupHintsEN else groupHintsDE in
  let title := if english lang && negb (isEmpty (entry name groupTitles)) then entry name groupTitles else name in
  fold_left count_status checks (mkGroup title (entry name hints) checks 0 0 0 0 0).

Definition groupReportChecks (checks : list CheckResult) (lang : string) : list ReportCheckGroup :=
  let grouped := group_by group_category checks in
  omap (fun name =>
          match default [] (grouped !! name) with
          | [] => None
          | l => Some (check_group lang name l)
          end) group_order.

(** ** Links *)

Record ReportLinkGroup := mkLinkGroup { lg_Domain : string; lg_Count : Z; lg_Links : list string }.

(** [Hostname]: the host of the parsed link, [None] if it does not parse. *)
Definition link_domain (raw : string) : string :=
  match Hostname raw with
  | Some h => if isEmpty (TrimSpace h) then "unbekannte-domain" else ToLower (TrimPrefix h "www.")
  | None => "unbekannte-domain"
  end.

Definition groupLinksByDomain (links : list string) : list ReportLinkGroup :=
  let grouped := group_by link_domain links in
  (fun domain => let l := default [] (grouped !! domain) in
                 mkLinkGroup domain (Z.of_nat (List.length l)) (SliceStable String.ltb l))
    <$> SliceStable String.ltb (fst <$> map_to_list grouped).

(** ** Texts and numbers *)

Definition grade {A} (score : float64) (best good fair bad : A) : A :=
  if fleb (f_of_Z 9) score then best
  else if fleb (lit 75 10) score then good
  else if fleb (lit 55 10) score then fair
  else bad.

Definition reportHeroTitle (score : float64) (lang : string) : string :=
  if english lang then
    grade score "Wow, this email is very well prepared" "Solid deliverability with minor issues"
      "This email needs some technical work" "High deliverability risk detected"
  else
    grade score "Wow, diese Mail ist sehr gut vorbereitet" "Solide Zustellbarkeit mit kleinen Baustellen"
      "Diese Mail braucht technische Nacharbeit" "Hohes Zustellbarkeitsrisiko erkannt".

Definition reportHeroSubtitle (score : float64) (lang : string) : string :=
  if english lang then
    grade score "The most important authentication and content checks look good."
      "The foundation is solid; individual warnings should be resolved before larger campaigns."
      "Several signals may negatively affect inbox placement at Gmail, Outlook, Yahoo or Apple Mail."
      "Please prioritise fixing authentication, DNS and content issues before sending further."
  else
    grade score "Die wichtigsten Authentifizierungs- und Inhaltschecks sehen gut aus."
      "Die Basis stimmt, einzelne Warnungen sollten vor größeren Kampagnen geklärt werden."
      "Mehrere Signale können die Inbox-Platzierung bei Gmail, Outlook, Yahoo oder Apple Mail verschlechtern."
      "Bitte zuerst Authentifizierung, DNS und Inhalt in Ordnung bringen, bevor Sie weiter versenden.".

Definition statusIcon (status : string) : string :=
  if String.eqb status "pass" then "OK"
  else if String.eqb status "warn" then "!"
  else if String.eqb status "fail" then "X"
  else "i".

Definition quote : string := chr (ascii_of_N 34).
Definition glyph (name : string) : string := "<i class=" +:+ quote +:+ "bi bi-" +:+ name +:+ quote +:+ "></i>".

Definition statusGlyph (status : string) : string :=
  if String.eqb status "pass" then glyph "check-lg"
  else if String.eqb status "warn" then glyph "exclamation-lg"
  else if String.eqb status "fail" then glyph "x-lg"
  else if String.eqb status "na" then glyph "dash-lg"
  else glyph "info-lg".

Definition statusLabel (status : string) : string :=
  if String.eqb status "pass" then "Bestanden"
  else if String.eqb status "warn" then "Warnung"
  else if String.eqb status "fail" then "Fehler"
  else if String.eqb status "na" then "N/A"
  else "Info".

Definition fmtScore (f : float64) : string := TrimRight (TrimRight (format_2f f) "0") ".".

Definition fmtDelta (d : float64) : string :=
  if feqb d fzero then "–"
  else let s := fmtScore d in if fltb fzero d then "+" +:+ s else s.

Definition detailsText (details : gmap string string) : string :=
  TrimSpace (fold_left (fun b key => let value := TrimSpace (entry key details) in
                                     if isEmpty value then b else b +:+ key +:+ ": " +:+ value +:+ lf)
               (SliceStable String.ltb (fst <$> map_to_list details)) "").

(** A rune outside a-z and 0-9 becomes one hyphen. *)
Definition id_byte (r : Z) : ascii :=
  if ((97 <=? r) && (r <=? 122)) || ((48 <=? r) && (r <=? 57)) then ascii_of_N (Z.to_N r) else "-"%char.

Definition safeID (value : string) : string :=
  let b := string_of_list_ascii (id_byte <$> runes (ToLower (TrimSpace value))) in
  let out := Trim b "-" in
  if isEmpty out then "item" else out.

Definition scorePercent (score : float64) : float64 :=
  if fltb score fzero then fzero
  else if fltb (f_of_Z 10) score then f_of_Z 100
  else fmul score (f_of_Z 10).

Definition pickLang (lang de en : string) : string :=
  if english lang && negb (isEmpty (TrimSpace en)) then en else de.

End Views.

(** ** Labels and numbers *)

(** The label the page prints is the one the client finds in its table. *)
Lemma techLabel_table lang key : techLabel lang key = default (humanizeKey key) (techLabelTable lang !! key).
Proof.
  unfold techLabel, techLabelTable. case_if; [|by destruct (techLabels !! key)].
  rewrite lookup_union. destruct (techLabelsEN !! key), (techLabels !! key); done.
Qed.

(** A percentage that is a number stays between 0 and 100. *)
Lemma rspamdScorePercent_range ParseFloat details :
  let pct := rspamdScorePercent ParseFloat details in
  is_nan pct = true \/ fleb fzero pct && fleb pct (f_of_Z 100) = true.
Proof.
  cbv zeta. unfold rspamdScorePercent. case_if; [by right; vm_compute|]. set (x := fmul _ _).
  destruct (fltb (f_of_Z 100) x) eqn:E1.
  { right. vm_compute. reflexivity. }
  destruct (fltb x fzero) eqn:E2; [right; by vm_compute|].
  destruct (is_nan x) eqn:En; [by left|right]. by rewrite !fleb_spec, E1, E2.
Qed.

(** The score of a report in words: tenths from 0 to 10. *)
Definition tenth_text (k : Z) : string :=
  Itoa (k / 10) +:+ (if k mod 10 =? 0 then "" else "." +:+ Itoa (k mod 10)).

Lemma fmtScore_tenth k : 0 <= k <= 100 -> fmtScore (tenth k) = tenth_text k /\ scorePercent (tenth k) = f_of_Z k.
Proof.
  intros Hk. assert (Hf : forallb (fun k => String.eqb (fmtScore (tenth k)) (tenth_text k)
    && bool_decide (scorePercent (tenth k) = f_of_Z k)) (Z.of_nat <$> seq 0 101) = true) by (vm_compute; reflexivity).
  pose proof (forall_range _ 100 Hf k Hk) as H.
  apply andb_true_iff in H as [H1 H2]. split; [by apply String.eqb_eq|by apply bool_decide_eq_true in H2].
Qed.

(** ** Identifiers for HTML *)

Definition id_char (a : ascii) : bool := is_lower a || is_digit a || Ascii.eqb a "-".

Lemma id_byte_char r : id_char (id_byte r) = true.
Proof.
  unfold id_byte. case_if; [|done]. unfold id_char, is_lower, is_digit, code.
  assert (Hr : 0 <= r <= 122) by (apply orb_true_iff in Hif as [[]%andb_true_iff|[]%andb_true_iff]; bool_to_prop; lia).
  pose proof (forall_range (fun r => negb (((97 <=? r) && (r <=? 122)) || ((48 <=? r) && (r <=? 57)))
    || id_char (ascii_of_N (Z.to_N r))) 122 ltac:(vm_compute; reflexivity) r Hr) as H. cbv beta in H. by rewrite Hif in H.
Qed.

Lemma TrimLeft_head s c : match TrimLeft s (chr c) with String a _ => Ascii.eqb a c = false | EmptyString => True end.
Proof.
  unfold TrimLeft. induction s as [|a s IH]; [done|]. cbn [trim_front cut_len]. unfold selem. cbn.
  destruct (Ascii.eqb a c) eqn:E; cbn; [done|by rewrite E].
Qed.

Lemma trim_front_suffix len s k : exists p, s = p +:+ trim_front len s k.
Proof.
  revert k. induction s as [|a s IH]; intros k; [by exists ""|]. cbn [trim_front]. destruct k as [|k].
  - destruct (len (String a s)) as [|n]; [by exists ""|]. destruct (IH n) as [p Hp]. exists (String a p). cbn. by rewrite <- Hp.
  - destruct (IH k) as [p Hp]. exists (String a p). cbn. by rewrite <- Hp.
Qed.

(** A string without the byte [c] at its ends. *)
Definition no_edge (c : ascii) (s : string) : bool :=
  match s with String a _ => negb (Ascii.eqb a c) | EmptyString => true end
  && match srev s with String a _ => negb (Ascii.eqb a c) | EmptyString => true end.

Lemma Trim_no_edge s c : no_edge c (Trim s (chr c)) = true.
Proof.
  unfold Trim, no_edge. set (t := TrimLeft s (chr c)). pose proof (TrimLeft_head s c) as Ht. fold t in Ht.
  pose proof (TrimLeft_head (srev t) c) as Hr. unfold TrimRight. rewrite srev_involutive. unfold TrimLeft in Hr.
  destruct (trim_front_suffix (cut_len (chr c)) (srev t) 0) as [p Hp]. set (u := trim_front _ _ _) in *.
  assert (Hpre : t = srev u +:+ srev p) by (by rewrite <- srev_app_app, <- Hp, srev_involutive).
  apply andb_true_iff. split.
  - destruct (srev u) as [|a w]; [done|]. rewrite Hpre in Ht. cbn in Ht. by rewrite Ht.
  - destruct u; [done|]. by rewrite Hr.
Qed.

(** The identifier made from any text is one for HTML: lower case letters, digits
    and inner hyphens, and never empty. *)
Lemma safeID_shape v :
  sforall id_char (safeID v) = true /\ no_edge "-" (safeID v) = true /\ isEmpty (safeID v) = false.
Proof.
  unfold safeID. set (b := string_of_list_ascii _).
  assert (Hb : sforall id_char b = true).
  { subst b. induction (runes _) as [|r l IH]; [done|]. cbn. by rewrite id_byte_char. }
  case_if; [done|]. split_and!; [by apply sforall_Trim|apply (Trim_no_edge b "-")|done].
Qed.

(** ** Groups *)

Lemma group_fold_lookup {A} (key : A -> string) l m k :
  default [] (fold_left (group_add key) l m !! k)
  = default [] (m !! k) ++ List.filter (fun x => String.eqb (key x) k) l.
Proof.
  revert m. induction l as [|x l IH]; intros m; cbn [fold_left List.filter]; [by rewrite app_nil_r|].
  rewrite IH. unfold group_add. destruct (String.eqb_spec (key x) k) as [<-|Hk].
  - rewrite lookup_insert_eq. cbn. by rewrite <- app_assoc.
  - by rewrite lookup_insert_ne.
Qed.

Lemma group_by_lookup {A} (key : A -> string) l k :
  default [] (group_by key l !! k) = List.filter (fun x => String.eqb (key x) k) l.
Proof. unfold group_by. by rewrite group_fold_lookup, lookup_empty. Qed.

Lemma group_by_dom {A} (key : A -> string) l k : is_Some (group_by key l !! k) <-> k ∈ key <$> l.
Proof.
  unfold group_by. assert (H : forall (m : gmap string (list A)),
    is_Some (fold_left (group_add key) l m !! k) <-> is_Some (m !! k) \/ k ∈ key <$> l).
  { induction l as [|x l IH]; intros m; cbn [fold_left fmap list_fmap].
    - rewrite elem_of_nil. tauto.
    - unfold group_add at 2. rewrite IH, lookup_insert_is_Some', elem_of_cons. intuition congruence. }
  rewrite H, lookup_empty, is_Some_alt. tauto.
Qed.

Lemma filter_keys_cons {A} (key : A -> string) k ks (l : list A) : k ∉ ks ->
  List.filter (fun x => one_of (key x) (k :: ks)) l
  ≡ₚ List.filter (fun x => String.eqb (key x) k) l ++ List.filter (fun x => one_of (key x) ks) l.
Proof.
  intros Hk. induction l as [|x l IH]; [done|]. cbn [List.filter].
  change (one_of (key x) (k :: ks)) with (String.eqb (key x) k || one_of (key x) ks).
  destruct (String.eqb_spec (key x) k) as [E|E]; cbn [orb].
  - assert (Hn : one_of (key x) ks = false).
    { apply not_true_iff_false. unfold one_of. intros (y & Hy & Heq%String.eqb_eq)%existsb_exists. apply Hk.
      apply list_elem_of_In in Hy. congruence. }
    rewrite Hn. cbn. by rewrite IH.
  - case_if; [|done]. by rewrite IH, Permutation_middle.
Qed.

(** The groups of distinct keys hold every element with one of these keys once. *)
Lemma groups_partition {A} (key : A -> string) ks (l : list A) : NoDup ks ->
  List.concat ((fun k => List.filter (fun x => String.eqb (key x) k) l) <$> ks) ≡ₚ List.filter (fun x => one_of (key x) ks) l.
Proof.
  intros Hn. induction Hn as [|k ks Hk Hn IH].
  - cbn. induction l; [done|]. done.
  - cbn [fmap list_fmap List.concat]. by rewrite IH, filter_keys_cons.
Qed.

Definition group_total (g : ReportCheckGroup) : Z := g_PassCount g + g_WarnCount g + g_FailCount g + g_InfoCount g + g_NACount g.

Lemma count_fold l g :
  let g' := fold_left count_status l g in
  g_Name g' = g_Name g /\ g_Checks g' = g_Checks g /\ group_total g' = group_total g + Z.of_nat (List.length l).
Proof.
  revert g. induction l as [|c l IH]; intros g; cbn [fold_left]; [split_and!; [done|done|cbn; lia]|].
  destruct (IH (count_status g c)) as (-> & -> & ->). destruct g as [n h cs p w f i a]. unfold count_status.
  repeat case_if; unfold group_total; cbn [g_Name g_Checks g_PassCount g_WarnCount g_FailCount g_InfoCount g_NACount List.length];
    split_and!; try done; lia.
Qed.

Lemma check_group_spec lang name l :
  g_Checks (check_group lang name l) = l /\ group_total (check_group lang name l) = Z.of_nat (List.length l).
Proof. unfold check_group. cbv zeta. match goal with |- context [fold_left _ _ ?g] => by destruct (count_fold l g) as (_ & -> & ->) end. Qed.

Lemma group_order_NoDup : NoDup group_order.
Proof. apply (bool_decide_unpack _). vm_compute. exact I. Qed.

Lemma groups_checks checks lang :
  List.concat (g_Checks <$> groupReportChecks checks lang)
  = List.concat ((fun name => List.filter (fun c => String.eqb (group_category c) name) checks) <$> group_order).
Proof.
  unfold groupReportChecks. cbv zeta. induction group_order as [|name names IH]; [done|]. cbn [omap list_omap fmap list_fmap List.concat].
  rewrite group_by_lookup. destruct (List.filter _ checks) as [|c l] eqn:E; [done|].
  cbn [fmap list_fmap List.concat]. rewrite IH. f_equal. apply check_group_spec.
Qed.

Lemma lfilter_all {A} (p : A -> bool) l : (forall x, x ∈ l -> p x = true) -> List.filter p l = l.
Proof. induction l as [|x l IH]; intros H; [done|]. cbn. rewrite H by (by left). f_equal. apply IH. intros y Hy. apply H. by right. Qed.

(** A filtered part of a sorted list is sorted. *)
Lemma StronglySorted_lfilter {A} (R : A -> A -> Prop) p l : StronglySorted R l -> StronglySorted R (List.filter p l).
Proof.
  induction 1 as [|x l Hs IH Hx]; [constructor|]. cbn. case_if; [|done]. constructor; [done|].
  rewrite Forall_forall in *. intros y. rewrite list_elem_of_In, filter_In, <- list_elem_of_In. intros [Hy _]. by apply Hx.
Qed.

#[export] Instance check_order : WeakOrder (fun _ => True) check_before.
Proof.
  eapply (wo_ext _ (lex (fun a b => status_rank (c_Status a) <? status_rank (c_Status b)) (fun a b => String.ltb (c_Name a) (c_Name b)))).
  - intros a b _ _. unfold check_before, lex. destruct (Z.eqb_spec (status_rank (c_Status a)) (status_rank (c_Status b))) as [->|].
    + by rewrite Z.ltb_irrefl.
    + destruct (Z.ltb_spec (status_rank (c_Status a)) (status_rank (c_Status b))); [done|].
      by rewrite (proj2 (Z.ltb_lt _ _)) by lia.
  - apply wo_lex.
    + split; intros *; rewrite ?Z.ltb_lt, ?Z.ltb_ge; lia.
    + apply (wo_preimage c_Name (fun _ => True) String.ltb), string_order.
Qed.

(** The page of a report: every check whose category is known appears in exactly
    one group, in the order of the page, and the counters of a group add up. *)
Lemma report_groups checks lang :
  List.concat (g_Checks <$> groupReportChecks (sortChecks checks) lang) ≡ₚ List.filter (fun c => one_of (group_category c) group_order) checks
  /\ Forall (fun g => StronglySorted (not_after check_before) (g_Checks g) /\ g_Checks g <> []
                      /\ group_total g = Z.of_nat (List.length (g_Checks g))) (groupReportChecks (sortChecks checks) lang).
Proof.
  split.
  - rewrite groups_checks, groups_partition by apply group_order_NoDup. apply lfilter_Permutation, SliceStable_perm.
  - apply Forall_forall. intros g Hg. unfold groupReportChecks in Hg. cbv zeta in Hg.
    apply list_elem_of_omap in Hg as (name & _ & Hg). rewrite group_by_lookup in Hg.
    destruct (List.filter _ (sortChecks checks)) as [|c l] eqn:E; [done|]. injection Hg as <-.
    destruct (check_group_spec lang name (c :: l)) as [-> ->]. split_and!; [|done|done].
    rewrite <- E. apply StronglySorted_lfilter. unfold sortChecks. apply (SliceStable_sorted check_before (P := fun _ => True)).
    by apply Forall_forall.
Qed.

(** ** Links by domain *)

Lemma SliceStable_strings l : StronglySorted (not_after String.ltb) (SliceStable String.ltb l).
Proof. apply (SliceStable_sorted String.ltb (P := fun _ => True)). by apply Forall_forall. Qed.

(** Every link of a report appears in exactly one group, under the name of its
    host, and the domains are in order without repetition. *)
Lemma link_groups Hostname links :
  let groups := groupLinksByDomain Hostname links in
  List.concat (lg_Links <$> groups) ≡ₚ links /\ NoDup (lg_Domain <$> groups)
  /\ StronglySorted (not_after String.ltb) (lg_Domain <$> groups)
  /\ Forall (fun g => lg_Count g = Z.of_nat (List.length (lg_Links g))
                      /\ forall l, l ∈ lg_Links g <-> l ∈ links /\ link_domain Hostname l = lg_Domain g) groups.
Proof.
  cbv zeta. unfold groupLinksByDomain. cbv zeta. set (ks := SliceStable String.ltb _).
  assert (Hks : forall k, k ∈ ks <-> k ∈ link_domain Hostname <$> links).
  { intros k. subst ks. rewrite SliceStable_perm, <- (group_by_dom (link_domain Hostname) links k). split.
    - intros ([k0 l] & -> & Hk)%list_elem_of_fmap. apply elem_of_map_to_list in Hk. cbn. rewrite Hk. by eexists.
    - intros [l Hl]. apply list_elem_of_fmap. exists (k, l). split; [done|]. by apply elem_of_map_to_list. }
  assert (Hn : NoDup ks) by (subst ks; rewrite SliceStable_perm; apply NoDup_fst_map_to_list).
  assert (Hd : lg_Domain <$> ((fun domain => mkLinkGroup domain (Z.of_nat (List.length (default [] (group_by (link_domain Hostname) links !! domain))))
      (SliceStable String.ltb (default [] (group_by (link_domain Hostname) links !! domain)))) <$> ks) = ks).
  { rewrite <- list_fmap_compose. apply list_fmap_id. }
  split_and!.
  - rewrite <- list_fmap_compose. trans (List.concat ((fun k => List.filter (fun l => String.eqb (link_domain Hostname l) k) links) <$> ks)).
    + clear. induction ks as [|k ks IH]; [done|]. cbn. by rewrite SliceStable_perm, group_by_lookup, IH.
    + rewrite groups_partition by done. apply Permutation_refl'. clear -Hks.
      assert (Ha : forall l, l ∈ links -> one_of (link_domain Hostname l) ks = true).
      { intros l Hl. apply existsb_exists. exists (link_domain Hostname l). split; [|by apply String.eqb_eq].
        apply list_elem_of_In, Hks. by apply list_elem_of_fmap_2. }
      by apply lfilter_all.
  - by rewrite Hd.
  - rewrite Hd. apply SliceStable_strings.
  - apply Forall_fmap, Forall_forall. intros k _. cbn. rewrite group_by_lookup. split.
    + f_equal. by rewrite SliceStable_perm.
    + intros l. rewrite SliceStable_perm, list_elem_of_In, filter_In, <- list_elem_of_In. by rewrite String.eqb_eq.
Qed.
