(* ===== verification/ReportRows.v ===== *)
(** * Rows of a report, read back from the details of a check

    The analyzer writes lists into the technical details of a check as lines of
    text ([Blocklists], [SpamFilters]); the report page takes them apart again
    ([Views]). What comes out is what went in. *)

From S2P Require Import Prelude F64 GoStrings GoSort GoTime Regex GoNet Model Score Spf Checks MailHeaders Body Content EnvMigrate.
From S2P Require Import Blocklists DomainChecks SpamFilters Views.
From Stdlib Require Import SpecFloat.

Local Open Scope string_scope.
Local Open Scope list_scope.
Local Open Scope Z_scope.

(** ** Blocklist details read back

    The analyzer writes the blocklists into lines of text, and the page takes
    them apart again. *)

Section ReadBack.
Context (env : check_env) (err_text : dns_error -> string) (remoteIP queryIP : string).

(** What one configured list said about the sender. *)
Definition listing (provider : string) : option (list string) :=
  match env_host (ce_dns env) (queryIP +:+ "." +:+ provider) with
  | Ok (ip :: ips) => if rblQueryRefusal (ip :: ips) then None else Some (ip :: ips)
  | _ => None
  end.

Definition listings (providers : list string) : list (string * list string) :=
  omap (fun p => pair p <$> listing p) (usable_providers providers).

Definition shown_info (p : string) : RBLProviderInfo :=
  let meta := rblProviderMeta p remoteIP in mkRBLProviderInfo p (rp_Name meta) (rp_Description meta).

Definition shown_hit (l : string * list string) : RBLHit :=
  let '(p, ips) := l in
  let meta := rblProviderMeta p remoteIP in
  mkRBLHit (p +:+ " (" +:+ rp_Name meta +:+ ")") (p +:+ " → " +:+ rblResponseMeaning p ips)
    (p +:+ ": " +:+ rp_DelistURL meta) (p +:+ ": " +:+ rp_Delisting meta).

Definition info_line (p : string) : string :=
  let meta := rblProviderMeta p remoteIP in p +:+ " (" +:+ rp_Name meta +:+ ")|" +:+ rp_Description meta.

Lemma rbl_step_lists s p :
  let s' := rbl_step env err_text remoteIP queryIP s p in
  let hits := shown_hit <$> listings [p] in
  rs_cleanProviders s' = rs_cleanProviders s ++ (info_line <$> usable_providers [p])
  /\ rs_listedProviders s' = rs_listedProviders s ++ (rh_Provider <$> hits)
  /\ rs_listingResponses s' = rs_listingResponses s ++ (rh_Response <$> hits)
  /\ rs_delistingURLs s' = rs_delistingURLs s ++ (rh_DelistURL <$> hits)
  /\ rs_delistingSteps s' = rs_delistingSteps s ++ (rh_Delisting <$> hits).
Proof.
  cbv zeta. unfold rbl_step, listings, usable_providers, listing. cbn [fmap list_fmap List.filter].
  destruct (isEmpty (TrimSpace p)); cbn; [by rewrite !app_nil_r|].
  destruct (env_host _ _) as [[|ip ips]|[[]| |]]; cbn; rewrite ?app_nil_r; try done.
  case_if; cbn; by rewrite ?app_nil_r.
Qed.

Lemma usable_cons p l : usable_providers (p :: l) = usable_providers [p] ++ usable_providers l.
Proof. unfold usable_providers. cbn. by case_if. Qed.

Lemma listings_cons p l : listings (p :: l) = listings [p] ++ listings l.
Proof. unfold listings. by rewrite usable_cons, omap_app. Qed.

Lemma rbl_fold_lists providers s :
  let s' := fold_left (rbl_step env err_text remoteIP queryIP) providers s in
  let hits := shown_hit <$> listings providers in
  rs_cleanProviders s' = rs_cleanProviders s ++ (info_line <$> usable_providers providers)
  /\ rs_listedProviders s' = rs_listedProviders s ++ (rh_Provider <$> hits)
  /\ rs_listingResponses s' = rs_listingResponses s ++ (rh_Response <$> hits)
  /\ rs_delistingURLs s' = rs_delistingURLs s ++ (rh_DelistURL <$> hits)
  /\ rs_delistingSteps s' = rs_delistingSteps s ++ (rh_Delisting <$> hits).
Proof.
  revert s. induction providers as [|p l IH]; intros s; cbv zeta; cbn [fold_left].
  - unfold listings, usable_providers. cbn. by rewrite !app_nil_r.
  - destruct (IH (rbl_step env err_text remoteIP queryIP s p)) as (-> & -> & -> & -> & ->).
    destruct (rbl_step_lists s p) as (-> & -> & -> & -> & ->).
    by rewrite (usable_cons p l), (listings_cons p l), !fmap_app, <- !app_assoc.
Qed.

End ReadBack.

(** *** The texts of the providers *)

Lemma QueryEscape_visible s : sforall visible (QueryEscape s) = true.
Proof.
  induction s as [|a s IH]; [done|]. cbn [QueryEscape]. cbv zeta. case_if; [|case_if].
  - cbn [sforall]. rewrite IH, andb_true_r. revert Hif. unfold visible, code. by destruct a as [[] [] [] [] [] [] [] []].
  - by cbn [sforall].
  - cbn [sforall]. rewrite IH. unfold hex_upper, visible, code. by destruct a as [[] [] [] [] [] [] [] []].
Qed.

(** A line of text with visible ends. *)
Definition line_text (s : string) : bool := starts s && ends s && lacks LF s.

Lemma line_text_visible s : sforall visible s = true -> isEmpty s = false -> line_text s = true.
Proof.
  intros Hs He. unfold line_text. rewrite starts_visible, ends_visible by done. by apply (visible_lacks LF).
Qed.

Lemma line_text_snoc s t : line_text s = true -> ends t && lacks LF t = true -> line_text (s +:+ t) = true.
Proof.
  unfold line_text. intros [[H1 H2]%andb_true_iff H3]%andb_true_iff [H4 H5]%andb_true_iff.
  by rewrite starts_app, ends_app, lacks_app, H3, H5.
Qed.

Lemma line_text_app s m t : line_text s = true -> lacks LF m = true -> line_text t = true -> line_text (s +:+ m +:+ t) = true.
Proof.
  intros Hs Hm Ht. apply line_text_snoc; [done|]. unfold line_text in Ht.
  apply andb_true_iff in Ht as [[_ H5]%andb_true_iff H6]. by rewrite ends_app, lacks_app, Hm, H6.
Qed.

Lemma line_text_trim s : line_text s = true -> TrimSpace s = s.
Proof. unfold line_text. intros [[H1 H2]%andb_true_iff H3]%andb_true_iff. by apply TrimSpace_edges. Qed.

Lemma meta_texts p ip :
  sforall visible p = true ->
  let meta := rblProviderMeta p ip in
  line_text (rp_Name meta) = true /\ lacks "|" (rp_Name meta) = true /\ line_text (rp_Description meta) = true
  /\ line_text (rp_Delisting meta) = true /\ line_text (rp_DelistURL meta) = true.
Proof.
  intros Hp. cbv zeta. unfold rblProviderMeta.
  repeat (case_if; [split_and!; try (vm_compute; reflexivity)|]);
    [cbn [rp_DelistURL]; apply line_text_visible; [rewrite sforall_app, QueryEscape_visible|]; reflexivity..|].
  split_and!; try (vm_compute; reflexivity). cbn [rp_DelistURL]. apply line_text_visible; [|reflexivity]. by rewrite sforall_app, Hp.
Qed.

Lemma meaning_texts p ips :
  ips <> [] -> Forall (fun ip => sforall visible ip = true /\ isEmpty ip = false) ips -> line_text (rblResponseMeaning p ips) = true.
Proof.
  intros Hn HF. unfold rblResponseMeaning. induction HF as [|ip l [Hv He] HF IH]; [done|].
  assert (Ha : line_text (address_meaning (ToLower p) ip) = true).
  { pose proof (line_text_visible _ Hv He) as H.
    unfold address_meaning, spamhaus_meaning, dronebl_meaning. repeat case_if; try done;
      (apply line_text_snoc; [exact H|vm_compute; reflexivity]). }
  destruct l as [|x l]; [done|].
  change (line_text (address_meaning (ToLower p) ip +:+ ", " +:+ Join (address_meaning (ToLower p) <$> x :: l) ", ") = true).
  apply line_text_app; [done|done|]. by apply IH.
Qed.

(** *** Reading the lines *)

Lemma line_text_nonempty s : line_text s = true -> isEmpty s = false.
Proof. by destruct s. Qed.

Lemma joined_lines l sep :
  l <> [] -> Forall (fun x => line_text x = true) l -> isEmpty (Join l sep) = false /\ orElse (Join l sep) "none" = Join l sep.
Proof.
  intros Hn HF. destruct HF as [|x l Hx HF]; [done|].
  assert (He : isEmpty (Join (x :: l) sep) = false).
  { apply line_text_nonempty in Hx. destruct l; [done|]. cbn [Join]. by destruct x. }
  split; [done|]. unfold orElse. by rewrite He.
Qed.

Lemma Forall_line_lacks l : Forall (fun x => line_text x = true) l -> Forall (fun x => lacks LF x = true) l.
Proof. intros H. eapply Forall_impl; [exact H|]. unfold line_text. by intros x [_ Hx]%andb_true_iff. Qed.

(** Rows put together by index. *)
Lemma rows_by_index (hits pre suf : list RBLHit) :
  Forall (fun h => line_text (rh_Provider h) = true /\ line_text (rh_Response h) = true
                   /\ line_text (rh_DelistURL h) = true /\ line_text (rh_Delisting h) = true) hits ->
  hits = pre ++ suf ->
  omap (fun ip => let '(i, p) := ip in
          if isEmpty (TrimSpace p) then None
          else Some (mkRBLHit (TrimSpace p) (trimmed_at (rh_Response <$> hits) i) (trimmed_at (rh_DelistURL <$> hits) i)
                       (trimmed_at (rh_Delisting <$> hits) i)))
    (imap (fun i p => ((List.length pre + i)%nat, p)) (rh_Provider <$> suf)) = suf.
Proof.
  intros HF. revert pre. induction suf as [|h suf IH]; intros pre Hh; [done|]. cbn [fmap list_fmap imap omap list_omap].
  rewrite Nat.add_0_r. assert (Hl : hits !! List.length pre = Some h) by (rewrite Hh; by apply list_lookup_middle).
  rewrite Forall_forall in HF. destruct (HF h) as (H1 & H2 & H3 & H4).
  { rewrite Hh. set_solver. }
  unfold trimmed_at at 1 2 3. rewrite !list_lookup_fmap, Hl. cbn [fmap option_fmap option_map].
  rewrite !line_text_trim by done. rewrite line_text_nonempty by done. f_equal; [by destruct h|].
  rewrite <- (IH (pre ++ [h])) at 2 by (by rewrite <- app_assoc).
  f_equal. apply imap_ext. intros i x _. cbn. rewrite length_app. cbn. f_equal. lia.
Qed.

Lemma shown_hit_texts remoteIP p ips :
  sforall visible p = true -> isEmpty p = false -> ips <> [] ->
  Forall (fun ip => sforall visible ip = true /\ isEmpty ip = false) ips ->
  let h := shown_hit remoteIP (p, ips) in
  line_text (rh_Provider h) = true /\ line_text (rh_Response h) = true
  /\ line_text (rh_DelistURL h) = true /\ line_text (rh_Delisting h) = true.
Proof.
  intros Hp He Hn HF. pose proof (line_text_visible _ Hp He) as H.
  destruct (meta_texts p remoteIP Hp) as (H1 & _ & _ & H4 & H5).
  cbn [shown_hit rh_Provider rh_Response rh_DelistURL rh_Delisting]. split_and!.
  - apply line_text_snoc; [done|]. change (" (" +:+ rp_Name (rblProviderMeta p remoteIP) +:+ ")") with (" (" +:+ (rp_Name (rblProviderMeta p remoteIP) +:+ ")")).
    assert (Hl : line_text (rp_Name (rblProviderMeta p remoteIP) +:+ ")") = true) by (by apply line_text_snoc).
    unfold line_text in Hl. apply andb_true_iff in Hl as [[_ H6]%andb_true_iff H7]. by rewrite ends_app, lacks_app, H7.
  - apply line_text_app; [done|done|]. by apply meaning_texts.
  - by apply line_text_app.
  - by apply line_text_app.
Qed.

Lemma provider_line remoteIP p :
  sforall visible p = true -> isEmpty p = false -> lacks "|" p = true ->
  line_text (info_line remoteIP p) = true /\ provider_info (info_line remoteIP p) = Some (shown_info remoteIP p).
Proof.
  intros Hp He Hb. destruct (meta_texts p remoteIP Hp) as (H1 & Hn & H3 & _).
  pose proof (line_text_visible _ Hp He) as H. unfold info_line, shown_info. cbv zeta.
  set (n := rp_Name _) in *. set (d := rp_Description _) in *.
  assert (Hh : line_text (p +:+ " (" +:+ n +:+ ")") = true).
  { apply line_text_snoc; [done|]. assert (Hl : line_text (n +:+ ")") = true) by (by apply line_text_snoc).
    unfold line_text in Hl. apply andb_true_iff in Hl as [[_ H6]%andb_true_iff H7]. by rewrite ends_app, lacks_app, H7. }
  assert (Heq : p +:+ " (" +:+ n +:+ ")|" +:+ d = (p +:+ " (" +:+ n +:+ ")") +:+ String "|" d).
  { change (")|" +:+ d) with (")" +:+ String "|" d). by rewrite !sapp_assoc. }
  split.
  { rewrite Heq. change (String "|" d) with ("|" +:+ d). by apply line_text_app. }
  unfold provider_info. rewrite Heq, SplitN2_first by (by rewrite !lacks_app, Hb, Hn). cbn [lookup list_lookup default from_option id].
  rewrite !line_text_trim by done.
  assert (Hi : Index (p +:+ " (" +:+ n +:+ ")") " (" = Some (String.length p)).
  { apply (Index_first p " " "(" (n +:+ ")")). by apply (visible_lacks " "). }
  rewrite Hi. destruct p as [|a p]; [done|]. cbn [String.length].
  assert (Hlen : String.length (String a p +:+ " (" +:+ n +:+ ")") = (S (String.length p) + 2 + String.length n + 1)%nat).
  { rewrite !slength_app. cbn. lia. }
  rewrite Hlen. destruct (Nat.ltb_spec (S (String.length p) + 2 + String.length n + 1 - 1) (S (String.length p) + 2)); [lia|].
  f_equal. f_equal.
  - apply (stake_app (String a p)).
  - rewrite (sdrop_app_plus (String a p) _ 2 : sdrop (S (String.length p) + 2) _ = _). cbn [sdrop String.append].
    replace (_ - _)%nat with (String.length n) by lia. apply stake_app.
Qed.

Lemma read_providers remoteIP l :
  Forall (fun p => sforall visible p = true /\ isEmpty p = false /\ lacks "|" p = true) l ->
  (let raw := Join (info_line remoteIP <$> l) lf in
   if isEmpty raw || String.eqb raw "none" then Some []
   else mapM provider_info (List.filter (fun x => negb (isEmpty x)) (TrimSpace <$> Split raw LF)))
  = Some (shown_info remoteIP <$> l).
Proof.
  intros HF. cbv zeta. destruct (decide (l = [])) as [->|Hl]; [done|].
  assert (Hf : Forall (fun x => line_text x = true) (info_line remoteIP <$> l)).
  { apply Forall_fmap. eapply Forall_impl; [exact HF|]. intros p (H1 & H2 & H3). by apply provider_line. }
  assert (Hn : info_line remoteIP <$> l <> []) by (by destruct l).
  destruct (joined_lines _ lf Hn Hf) as [-> _].
  assert (Hs : Split (Join (info_line remoteIP <$> l) lf) LF = info_line remoteIP <$> l)
    by (apply Split_Join; [done|by apply Forall_line_lacks]).
  assert (Hx : String.eqb (Join (info_line remoteIP <$> l) lf) "none" = false).
  { apply String.eqb_neq. intros E. rewrite E in Hs. destruct l as [|p l]; [done|]. cbn in Hs. injection Hs as Hp _.
    apply (f_equal (lacks "|")) in Hp. revert Hp. unfold info_line. rewrite !lacks_app.
    change (lacks "|" ")|") with false. rewrite !andb_false_r. done. }
  rewrite Hx, Hs. cbn [orb]. clear Hl Hn Hs Hx. induction HF as [|p l (H1 & H2 & H3) HF IH]; [done|].
  apply Forall_cons in Hf as [Hp Hf]. specialize (IH Hf). cbn [fmap list_fmap] in *. rewrite line_text_trim by done.
  cbn [List.filter]. rewrite line_text_nonempty by done. cbn [negb mapM]. destruct (provider_line remoteIP p H1 H2 H3) as [_ ->].
  cbn. by rewrite IH.
Qed.

Lemma read_hits hits :
  Forall (fun h => line_text (rh_Provider h) = true /\ line_text (rh_Response h) = true
                   /\ line_text (rh_DelistURL h) = true /\ line_text (rh_Delisting h) = true) hits ->
  (forall h, h ∈ hits -> rh_Provider h <> "none") ->
  (let listed := orElse (Join (rh_Provider <$> hits) lf) "none" in
   if isEmpty listed || String.eqb listed "none" then []
   else
     let responses := Split (orElse (Join (rh_Response <$> hits) lf) "none") LF in
     let urls := Split (orElse (Join (rh_DelistURL <$> hits) lf) "none") LF in
     let steps := SplitSep (orElse (Join (rh_Delisting <$> hits) lflf) "none") lflf in
     omap (fun ip => let '(i, p) := ip in
             if isEmpty (TrimSpace p) then None
             else Some (mkRBLHit (TrimSpace p) (trimmed_at responses i) (trimmed_at urls i) (trimmed_at steps i)))
       (imap pair (Split listed LF))) = hits.
Proof.
  intros HF Hnone. cbv zeta. destruct (decide (hits = [])) as [->|Hl]; [done|].
  assert (Hn : forall f : RBLHit -> string, f <$> hits <> []) by (intros f; by destruct hits).
  assert (Hf : forall f, (forall h, h ∈ hits -> line_text (f h) = true) -> Forall (fun x => line_text x = true) (f <$> hits))
    by (intros f H; by apply Forall_fmap, Forall_forall).
  rewrite Forall_forall in HF.
  assert (F1 := Hf rh_Provider (fun h Hh => proj1 (HF h Hh))).
  assert (F2 := Hf rh_Response (fun h Hh => proj1 (proj2 (HF h Hh)))).
  assert (F3 := Hf rh_DelistURL (fun h Hh => proj1 (proj2 (proj2 (HF h Hh))))).
  assert (F4 := Hf rh_Delisting (fun h Hh => proj2 (proj2 (proj2 (HF h Hh))))).
  destruct (joined_lines _ lf (Hn _) F1) as [E1 ->], (joined_lines _ lf (Hn _) F2) as [_ ->],
    (joined_lines _ lf (Hn _) F3) as [_ ->], (joined_lines _ lflf (Hn _) F4) as [_ ->]. rewrite E1.
  unfold lf, lflf. rewrite !Split_Join, SplitSep_Join by (try apply Forall_line_lacks; auto).
  assert (Hx : String.eqb (Join (rh_Provider <$> hits) (chr LF)) "none" = false).
  { apply String.eqb_neq. intros E. pose proof (Split_Join _ LF (Hn rh_Provider) (Forall_line_lacks _ F1)) as Hs.
    rewrite E in Hs. destruct hits as [|h hits]; [done|]. cbn in Hs. injection Hs as Hp _.
    apply (Hnone h); [left|by rewrite Hp]. }
  rewrite Hx. cbn [orb]. apply (rows_by_index hits []); [|done]. by apply Forall_forall.
Qed.

(** The report page shows exactly the blocklists the analyzer asked and the
    listings it found: taking the lines of the technical details apart gives back
    every configured list with its name and description, and one row per listing,
    in order, each with the response, link and advice of its own list. *)
Theorem rbl_details_read_back env err_text remoteIP providers :
  providers <> [] -> isNil (To4 (ParseIP remoteIP)) = false ->
  Forall (fun p => sforall visible p = true /\ lacks "|" p = true) (usable_providers providers) ->
  (forall name ips, env_host (ce_dns env) name = Ok ips ->
                    Forall (fun ip => sforall visible ip = true /\ isEmpty ip = false) ips) ->
  exists c, rblHeuristics env err_text remoteIP providers = [c]
    /\ rblProvidersFn (c_TechnicalDetails c) = Some (shown_info remoteIP <$> usable_providers providers)
    /\ rblHitsFn (c_TechnicalDetails c)
       = (shown_hit remoteIP <$> listings env (rbl_query_ip (ParseIP remoteIP)) providers).
Proof.
  intros Hne H4 HP Hips. unfold rblHeuristics. destruct providers as [|p0 ps]; [done|]. set (providers := p0 :: ps) in *.
  assert (Hnil : isNil (ParseIP remoteIP) = false) by (destruct (ParseIP remoteIP); [discriminate|done]).
  rewrite Hnil, H4. cbn [orb]. eexists. split; [reflexivity|].
  set (q := rbl_query_ip _). destruct (rbl_fold_lists env err_text remoteIP q providers rbl_init) as (Hc & Hl & Hr & Hu & Hs).
  set (s := fold_left _ _ _) in *. cbn [rbl_init rs_cleanProviders rs_listedProviders rs_listingResponses rs_delistingURLs rs_delistingSteps app] in *.
  assert (Hd : c_TechnicalDetails (withDetails (rbl_verdict s) (rbl_details remoteIP q s)) = rbl_details remoteIP q s) by done.
  rewrite Hd. clear Hd.
  assert (Hus : Forall (fun p => sforall visible p = true /\ isEmpty p = false /\ lacks "|" p = true) (usable_providers providers)).
  { rewrite Forall_forall in HP |- *. intros x Hx. destruct (HP x Hx). split_and!; [done| |done].
    unfold usable_providers in Hx. apply list_elem_of_In, filter_In in Hx as [_ Hx]. by apply negb_true_iff in Hx. }
  split.
  - unfold rblProvidersFn.
    assert (He : entry "checked_providers" (rbl_details remoteIP q s) = Join (info_line remoteIP <$> usable_providers providers) lf)
      by (rewrite <- Hc; reflexivity).
    rewrite He. apply read_providers. done.
  - unfold rblHitsFn.
    assert (He1 : entry "listed_providers" (rbl_details remoteIP q s) = orElse (Join (rs_listedProviders s) lf) "none") by reflexivity.
    assert (He2 : entry "listing_responses" (rbl_details remoteIP q s) = orElse (Join (rs_listingResponses s) lf) "none") by reflexivity.
    assert (He3 : entry "provider_delist_urls" (rbl_details remoteIP q s) = orElse (Join (rs_delistingURLs s) lf) "none") by reflexivity.
    assert (He4 : entry "provider_delisting" (rbl_details remoteIP q s) = orElse (Join (rs_delistingSteps s) lflf) "none") by reflexivity.
    rewrite He1, He2, He3, He4, Hl, Hr, Hu, Hs. apply read_hits; [apply Forall_fmap, Forall_forall|].
    2: { intros h ([p ips] & -> & _)%list_elem_of_fmap E. apply (f_equal (lacks "(")) in E. revert E.
         cbn [shown_hit rh_Provider]. rewrite !lacks_app. change (lacks "(" " (") with false. by rewrite !andb_false_r. }
    intros [p ips] Hx. unfold listings in Hx. apply list_elem_of_omap in Hx as (p' & Hp & Hx).
    rewrite Forall_forall in Hus. destruct (Hus p' Hp) as (Hv & Hn & _).
    unfold listing in Hx. destruct (env_host _ _) as [[|ip l]|] eqn:Ea; try done. case_if_in Hx; [done|].
    cbn in Hx. injection Hx as <- <-. apply shown_hit_texts; [done|done|done|]. by apply (Hips _ _ Ea).
Qed.

Lemma rbl_details_read_back_witness :
  exists c, rblHeuristics sample_rbl_env (fun _ => "") "192.0.2.7" ["zen.spamhaus.org"; " bl.spamcop.net"] = [c]
    /\ rh_Response <$> rblHitsFn (c_TechnicalDetails c) = ["bl.spamcop.net → 127.0.0.2 → SpamCop: von Nutzern gemeldete Spam-IP"].
Proof.
  destruct (rbl_details_read_back sample_rbl_env (fun _ => "") "192.0.2.7" ["zen.spamhaus.org"; " bl.spamcop.net"]
    ltac:(discriminate) ltac:(reflexivity) ltac:(repeat constructor)) as (c & Hc & _ & Hh).
  - intros name ips. cbn. case_if; [|case_if; [|discriminate]]; intros E; injection E as <-; repeat constructor.
  - exists c. split; [exact Hc|]. rewrite Hh. vm_compute. reflexivity.
Defined.

(** The link of a row is the line of the details, name of the list included, so
    it is no address: the template puts it into an href. *)
Example delisting_link_is_no_url :
  rh_DelistURL (shown_hit "192.0.2.7" ("zen.spamhaus.org", ["127.0.0.2"])) = "zen.spamhaus.org: https://check.spamhaus.org/".
Proof. reflexivity. Qed.

(** ** Symbols of a spam filter *)

Lemma magnitude_nan x : is_nan (magnitude x) = is_nan x.
Proof. unfold magnitude. case_if; [by destruct x|done]. Qed.

Definition as_symbol (r : RspamdSymbolRow) : rspamdSymbol := mkSymbol (rw_Name r) (rw_Score r) (rw_Desc r).

Definition row_weight (r : RspamdSymbolRow) : Prop := has_weight (as_symbol r).

#[export] Instance row_order : WeakOrder row_weight row_before.
Proof.
  eapply wo_ext; [|exact (wo_preimage as_symbol _ _ (weight_order magnitude magnitude_nan))].
  intros a b Ha Hb. cbv beta. rewrite <- (weight_lex magnitude) by (done || apply magnitude_nan).
  unfold row_before. by destruct (feqb _ _).
Qed.

Lemma row_before_names a b :
  row_weight a -> row_weight b -> row_before a b = false -> row_before b a = false -> rw_Name a = rw_Name b.
Proof.
  unfold row_weight, has_weight, row_before. cbn [as_symbol sy_Score]. intros Ha Hb.
  rewrite !feqb_spec by (by rewrite magnitude_nan).
  destruct (fltb (magnitude (rw_Score a)) (magnitude (rw_Score b))), (fltb (magnitude (rw_Score b)) (magnitude (rw_Score a))); try done.
  apply ltb_incomparable.
Qed.

Lemma pad2_lacks_bar z : lacks "|" (pad 2 z) = true.
Proof.
  unfold pad. rewrite lacks_app, Itoa_lacks by done.
  assert (Hn : (2 - String.length (Itoa z) <= 2)%nat) by lia. revert Hn. generalize (2 - String.length (Itoa z))%nat.
  intros [|[|[|n]]] H; [done..|lia].
Qed.

Lemma format_2f_lacks_bar x : lacks "|" (format_2f x) = true.
Proof.
  unfold format_2f. destruct x as [[]|[]| |[] m e]; try done; cbv zeta; by rewrite !lacks_app, Itoa_lacks, pad2_lacks_bar by done.
Qed.

Lemma format_plus_2f_lacks_bar x : lacks "|" (format_plus_2f x) = true.
Proof. unfold format_plus_2f. case_if; [|cbn]; apply format_2f_lacks_bar. Qed.

Section Rows.
Context (ParseFloat : string -> float64).

(** The row of a symbol: its score to two decimals, its description and what it means. *)
Definition shown_symbol (s : rspamdSymbol) : RspamdSymbolRow :=
  mkRow (sy_Name s) (ParseFloat (format_plus_2f (sy_Score s))) (sy_Description s) (rspamdSymbolExplain (sy_Name s)).

Lemma symbol_row_details s :
  lacks "|" (sy_Description s) = true ->
  symbol_row ParseFloat ("sym:" +:+ sy_Name s, format_plus_2f (sy_Score s) +:+ "|" +:+ sy_Description s +:+ "|" +:+ rspamdSymbolExplain (sy_Name s))
  = Some (shown_symbol s).
Proof.
  intros Hd. unfold symbol_row. cbn [fst snd]. rewrite HasPrefix_app. unfold TrimPrefix. rewrite HasPrefix_app.
  rewrite (sdrop_app "sym:" (sy_Name s)). unfold SplitN3.
  change ("|" +:+ sy_Description s +:+ "|" +:+ rspamdSymbolExplain (sy_Name s))
    with (String "|" (sy_Description s +:+ String "|" (rspamdSymbolExplain (sy_Name s)))).
  rewrite (SplitN2_first _ "|") by apply format_plus_2f_lacks_bar. rewrite (SplitN2_first _ "|") by done. reflexivity.
Qed.

Lemma symbol_rows symbols base :
  NoDup (sy_Name <$> symbols) -> Forall (fun s => lacks "|" (sy_Description s) = true) symbols ->
  (forall s, s ∈ symbols -> base !! ("sym:" +:+ sy_Name s) = None) ->
  omap (symbol_row ParseFloat) (map_to_list (symbol_details symbols base))
  ≡ₚ (shown_symbol <$> symbols) ++ omap (symbol_row ParseFloat) (map_to_list base).
Proof.
  revert base. induction symbols as [|s l IH]; intros base Hn HF Hb; [done|].
  apply NoDup_cons in Hn as [Hs Hn]. apply Forall_cons in HF as [Hd HF]. unfold symbol_details. cbn [fold_left].
  etrans; [apply IH; [done|done|]|].
  - intros t Ht. rewrite lookup_insert_ne; [apply Hb; by right|]. intros E%sapp_inv_head. apply Hs. rewrite E.
    by apply list_elem_of_fmap_2.
  - rewrite map_to_list_insert by (apply Hb; by left). cbn [omap list_omap]. rewrite symbol_row_details by done.
    cbn [fmap list_fmap app]. by rewrite Permutation_middle.
Qed.

End Rows.

(** The symbols of Rspamd come back from the details with score, description and
    explanation, sorted by weight, whatever the order in which the map of details is
    iterated. *)
Theorem rspamd_rows_read_back ParseFloat symbols base entries :
  NoDup (sy_Name <$> symbols) -> Forall (fun s => lacks "|" (sy_Description s) = true) symbols ->
  (forall k v, base !! k = Some v -> HasPrefix k "sym:" = false) ->
  Forall (fun s => is_nan (ParseFloat (format_plus_2f (sy_Score s))) = false) symbols ->
  entries ≡ₚ map_to_list (symbol_details symbols base) ->
  rspamdSymbolsFn ParseFloat entries = SliceStable row_before (shown_symbol ParseFloat <$> symbols).
Proof.
  intros Hn HF Hb Hw He. symmetry. apply (SliceStable_unique row_before (P := row_weight)).
  - by apply Forall_fmap.
  - rewrite He, symbol_rows; [|done|done|].
    + replace (omap (symbol_row ParseFloat) (map_to_list base)) with (@nil RspamdSymbolRow); [by rewrite app_nil_r|].
      symmetry. assert (Hall : Forall (fun kv => symbol_row ParseFloat kv = None) (map_to_list base)).
      { apply Forall_forall. intros [k v] Hkv%elem_of_map_to_list. unfold symbol_row. cbn. by rewrite (Hb _ _ Hkv). }
      clear -Hall. induction Hall as [|kv l H Hall IH]; [done|]. cbn. by rewrite H.
    + intros s _. destruct (base !! _) eqn:E; [|done]. apply Hb in E. by rewrite HasPrefix_app in E.
  - intros x y (s & -> & Hs)%list_elem_of_fmap (t & -> & Ht)%list_elem_of_fmap H1 H2. rewrite Forall_forall in Hw.
    f_equal. apply (NoDup_fmap_elem sy_Name symbols); [done..|]. apply (row_before_names (shown_symbol ParseFloat s) (shown_symbol ParseFloat t));
      [by apply Hw..|done|done].
Qed.

Lemma rspamd_rows_read_back_witness :
  let parse s := if String.eqb s "+5.00" then f_of_Z 5 else f_of_Z (-2) in
  rspamdSymbolsFn parse [("action", "reject"); ("sym:R_SPF_ALLOW", "-2.00||x"); ("sym:BAD", "+5.00|looks bad|")]
  = rspamdSymbolsFn parse (map_to_list {["sym:BAD" := "+5.00|looks bad|"; "sym:R_SPF_ALLOW" := "-2.00||x"; "action" := "reject"]})
  /\ rspamdSymbolsFn parse (map_to_list (symbol_details [mkSymbol "BAD" (f_of_Z 5) "looks bad"] {["action" := "reject"]}))
     = [mkRow "BAD" (f_of_Z 5) "looks bad" ""].
Proof.
  intros parse. split; [vm_compute; reflexivity|].
  rewrite (rspamd_rows_read_back parse [mkSymbol "BAD" (f_of_Z 5) "looks bad"] {["action" := "reject"]}
             (map_to_list (symbol_details [mkSymbol "BAD" (f_of_Z 5) "looks bad"] {["action" := "reject"]}))).
  - vm_compute. reflexivity.
  - repeat constructor. by apply not_elem_of_nil.
  - repeat constructor.
  - intros k v [<- _]%lookup_singleton_Some. reflexivity.
  - repeat constructor.
  - done.
Defined.
