(* ===== verification/WebRequest.v ===== *)
(** * What the web interface believes about a request (internal/web/server.go)

    Trusted proxies, client address, scheme and host of a request, the
    redirect to HTTPS and its exempt paths, the rate limit in front of every
    page, and the page the language switch returns to. Parsing of URLs
    (package net/url) is a parameter. *)

From S2P Require Import Prelude GoStrings GoTime GoNet RateLimit Config.

Local Open Scope string_scope.
Local Open Scope list_scope.
Local Open Scope Z_scope.

(** ** Networks (package net) *)

Record IPNet := mkIPNet { net_IP : IP; net_Mask : list Z }.

(** The decimal digits at the front of [s]: value, number of digits. As in
    package net, values from 0xFFFFFF on are an error. *)
Fixpoint dtoi_aux (s : string) (n : Z) : option Z :=
  match s with
  | EmptyString => Some n
  | String a s' =>
      if is_digit a then
        let n := n * 10 + (Z.of_N (code a) - 48) in
        if 16777215 <=? n then None else dtoi_aux s' n
      else None
  end.
Definition dtoi (s : string) : option Z := if isEmpty s then None else dtoi_aux s 0.

(** [netip.ParseAddr] without a zone: the 16-byte form and the bit length. *)
Definition ParseAddr (s : string) : option (IP * Z) :=
  let ip := ParseIP s in
  if isNil ip then None else Some (ip, if Ascii.eqb (ip_kind s) "." then 32 else 128).

Definition ParseCIDR (s : string) : option IPNet :=
  match Cut s "/" with
  | (addr, mask, true) =>
      match ParseAddr addr, dtoi mask with
      | Some (ip, bits), Some n =>
          if bits <? n then None
          else let m := CIDRMask n bits in Some (mkIPNet (IP_Mask ip m) m)
      | _, _ => None
      end
  | _ => None
  end.

Definition networkNumberAndMask (n : IPNet) : option (IP * list Z) :=
  let ip := if isNil (To4 (net_IP n)) then net_IP n else To4 (net_IP n) in
  let lip := List.length ip in
  let lm := List.length (net_Mask n) in
  if negb ((lip =? 4)%nat || (lip =? 16)%nat) then None
  else if (lm =? 4)%nat then (if (lip =? 4)%nat then Some (ip, net_Mask n) else None)
  else if (lm =? 16)%nat then Some (ip, if (lip =? 4)%nat then drop 12 (net_Mask n) else net_Mask n)
  else None.

Definition IPNet_Contains (n : IPNet) (ip : IP) : bool :=
  let ip := if isNil (To4 ip) then ip else To4 ip in
  match networkNumberAndMask n with
  | None => isNil ip
  | Some (nn, m) => (List.length ip =? List.length nn)%nat && zlist_eqb (and_bytes nn m) (and_bytes ip m)
  end.

(** ** Requests *)

Record request := mkRequest {
  rq_Method : string;
  rq_RemoteAddr : string;
  rq_TLS : bool;
  rq_Host : string;
  rq_Header : string -> string;   (** Header.Get *)
  rq_Path : string;
  rq_RawPath : string;
  rq_RawQuery : string
}.

(** The parts of a parsed URL the code reads. *)
Record parsed_url := mkURL { u_Host : string; u_EscapedPath : string; u_RawQuery : string }.

Record web_server := mkWeb {
  ws_cfg : Config;
  ws_trustedProxy : list IPNet
}.

Inductive proxy_error := BadProxyEntry (value : string).

(** A single address stands for the network that holds only it. The printed form of
    an address parses again; the empty network stands for the nil that cannot occur. *)
Fixpoint parseTrustedProxyCIDRs (values : list string) : outcome proxy_error (list IPNet) :=
  match values with
  | [] => Ok []
  | value :: rest =>
      let value := TrimSpace value in
      if isEmpty value then parseTrustedProxyCIDRs rest
      else
        let ip := ParseIP value in
        if negb (isNil ip) then
          let bits := if isNil (To4 ip) then 128 else 32 in
          match ParseCIDR (IP_String ip +:+ "/" +:+ Itoa bits) with
          | Some cidr => let! out := parseTrustedProxyCIDRs rest in Ok (cidr :: out)
          | None => let! out := parseTrustedProxyCIDRs rest in Ok (mkIPNet [] [] :: out)
          end
        else match ParseCIDR value with
             | None => Err (BadProxyEntry value)
             | Some cidr => let! out := parseTrustedProxyCIDRs rest in Ok (cidr :: out)
             end
  end.

Definition remoteAddrIP (remoteAddr : string) : string :=
  match SplitHostPort (TrimSpace remoteAddr) with
  | Some (host, _) => let ip := ParseIP host in if isNil ip then host else IP_String ip
  | None => let ip := ParseIP (TrimSpace remoteAddr) in if isNil ip then "" else IP_String ip
  end.

Fixpoint first_ip (parts : list string) : string :=
  match parts with
  | [] => ""
  | part :: rest => let ip := ParseIP (TrimSpace part) in if isNil ip then first_ip rest else IP_String ip
  end.
Definition firstForwardedIP (header : string) : string := first_ip (Split header ",").

Fixpoint first_value (parts : list string) : string :=
  match parts with
  | [] => ""
  | part :: rest => let v := ToLower (TrimSpace part) in if isEmpty v then first_value rest else v
  end.
Definition firstHeaderValue (header : string) : string := first_value (Split header ",").

(** The pairs of all elements, in order. *)
Fixpoint forwarded_pair (pairs : list string) (key : string) : string :=
  match pairs with
  | [] => ""
  | kv :: rest =>
      let '(name, value, ok) := Cut (TrimSpace kv) "=" in
      if negb ok || negb (String.eqb (ToLower (TrimSpace name)) key) then forwarded_pair rest key
      else ToLower (Trim (TrimSpace value) (chr (ascii_of_N 34)))
  end.
Definition forwardedHeaderValue (header key : string) : string :=
  forwarded_pair (List.concat ((fun e => Split e ";") <$> Split header ",")) (ToLower (TrimSpace key)).

(** The first byte of [s] that is in [chars]. *)
Fixpoint IndexAny (s chars : string) : option nat :=
  match s with
  | EmptyString => None
  | String a s' => if selem a chars then Some 0%nat else S <$> IndexAny s' chars
  end.

Definition cut_any (s chars : string) : string :=
  match IndexAny s chars with Some i => stake i s | None => s end.

Definition cleanDomain (value : string) : string :=
  let value := ToLower (TrimSpace value) in
  let value := TrimPrefix value "http://" in
  let value := TrimPrefix value "https://" in
  let rest :=
    match SplitHostPort value with
    | Some (host, _) => Trim host "[]"
    | None => Trim (cut_any value ":/?#") "[]"
    end in
  if HasPrefix value "[" then
    match Index value "]" with
    | Some i => Trim (stake (S i) value) "[]"
    | None => rest
    end
  else rest.

(** [hostPortPattern]: a name or a bracketed IPv6 address, with an optional port. *)
Definition port_ok (s : string) : bool :=
  isEmpty s || (HasPrefix s ":" && sforall is_digit (sdrop 1 s)
                && (2 <=? String.length s)%nat && (String.length s <=? 6)%nat).

Definition label_char (a : ascii) : bool := is_upper a || is_lower a || is_digit a || selem a "_-".
Definition v6_char (a : ascii) : bool :=
  is_digit a || ((65 <=? code a) && (code a <=? 70))%N || ((97 <=? code a) && (code a <=? 102))%N || selem a ":.".

(** Labels separated by dots, with at most a final empty one after a trailing dot. *)
Fixpoint labels_ok (labels : list string) : bool :=
  match labels with
  | [] => false
  | [l] => negb (isEmpty l) && sforall label_char l
  | [l; EmptyString] => negb (isEmpty l) && sforall label_char l
  | l :: rest => negb (isEmpty l) && sforall label_char l && labels_ok rest
  end.

Definition hostPortPattern (s : string) : bool :=
  if HasPrefix s "[" then
    match Index s "]" with
    | None => false
    | Some i =>
        let inner := stake (i - 1) (sdrop 1 s) in
        negb (isEmpty inner) && sforall v6_char inner && port_ok (sdrop (S i) s)
    end
  else match Index s ":" with
       | None => labels_ok (Split s ".")
       | Some i => labels_ok (Split (stake i s) ".") && port_ok (sdrop i s)
       end.

Section Server.
Context (s : web_server) (url_Parse : string -> option parsed_url).

Definition isTrustedProxy (ipText : string) : bool :=
  let ip := ParseIP (TrimSpace ipText) in
  if isNil ip then false else existsb (fun cidr => IPNet_Contains cidr ip) (ws_trustedProxy s).

Definition isRequestFromTrustedProxy (r : request) : bool := isTrustedProxy (remoteAddrIP (rq_RemoteAddr r)).

Definition clientIP (r : request) : string :=
  let remoteIP := remoteAddrIP (rq_RemoteAddr r) in
  let xf := firstForwardedIP (rq_Header r "X-Forwarded-For") in
  if isTrustedProxy remoteIP && negb (isEmpty xf) then xf
  else if negb (isEmpty remoteIP) then remoteIP
  else rq_RemoteAddr r.

Definition is_scheme (proto : string) : bool := String.eqb proto "https" || String.eqb proto "http".

Definition requestScheme (r : request) : string :=
  if rq_TLS r || EnableTLS (ws_cfg s) then "https"
  else if isRequestFromTrustedProxy r then
    let proto := firstHeaderValue (rq_Header r "X-Forwarded-Proto") in
    if is_scheme proto then proto
    else
      let proto := forwardedHeaderValue (rq_Header r "Forwarded") "proto" in
      if is_scheme proto then proto else "http"
  else "http".

Definition requestHost (r : request) : string :=
  let host := TrimSpace (rq_Host r) in
  let host :=
    if isRequestFromTrustedProxy r then
      let forwardedHost := forwardedHeaderValue (rq_Header r "Forwarded") "host" in
      let xfHost := firstHeaderValue (rq_Header r "X-Forwarded-Host") in
      if negb (isEmpty forwardedHost) then forwardedHost
      else if negb (isEmpty xfHost) then xfHost else host
    else host in
  let host := TrimSpace (Trim host (chr (ascii_of_N 34))) in
  let host := TrimPrefix host "http://" in
  let host := TrimPrefix host "https://" in
  let host := cut_any host "/?#" in
  if isEmpty host then "localhost:8080" else host.

Definition publicBaseURL (r : request) : string :=
  if isEmpty (PublicBaseURL (ws_cfg s)) then requestScheme r +:+ "://" +:+ requestHost r
  else PublicBaseURL (ws_cfg s).

Definition requestSMTPDomain (r : request) : string :=
  let domain := cleanDomain (SMTPDomain (ws_cfg s)) in
  if isEmpty domain then cleanDomain (requestHost r) else domain.

Definition secureCookies (r : request) : bool :=
  let mode := CookieSecure (ws_cfg s) in
  String.eqb mode "always"
  || (String.eqb mode "auto"
      && (String.eqb (requestScheme r) "https" || HasPrefix (ToLower (PublicBaseURL (ws_cfg s))) "https://")).

(** ** The redirect to HTTPS *)

Fixpoint clean_segments (segs : list string) : bool :=
  match segs with
  | [] => true
  | [seg] => negb (String.eqb seg "." || String.eqb seg "..")
  | seg :: rest => negb (String.eqb seg "." || String.eqb seg ".." || isEmpty seg) && clean_segments rest
  end.

Definition cleanRequestPath (p : string) : bool :=
  HasPrefix p "/" && clean_segments (Split (sdrop 1 p) "/").

Definition httpsExempt (path : string) : bool :=
  cleanRequestPath path
  && existsb (fun p => String.eqb path p || (HasSuffix p "/" && HasPrefix path p)) (ForceHTTPSExemptPaths (ws_cfg s)).

Definition publicHost : string :=
  match url_Parse (PublicBaseURL (ws_cfg s)) with
  | Some u => if hostPortPattern (u_Host u) then u_Host u else ""
  | None => ""
  end.

Definition httpsRedirectHost (r : request) : string :=
  if negb (isEmpty publicHost) then publicHost
  else if hostPortPattern (requestHost r) then requestHost r else "".

(** What the middleware does: pass the request on, answer 400, or redirect to
    the same path and query on a host. *)
Inductive https_action :=
| ServeNext
| BadHost
| RedirectHTTPS (host path rawPath rawQuery : string).

Definition withHTTPSRedirect (r : request) : https_action :=
  if negb (ForceHTTPS (ws_cfg s)) then ServeNext
  else if String.eqb (requestScheme r) "https" || httpsExempt (rq_Path r) then ServeNext
  else
    let host := httpsRedirectHost r in
    if isEmpty host then BadHost
    else RedirectHTTPS host (rq_Path r) (rq_RawPath r) (rq_RawQuery r).

(** ** Rate limit *)

Record web_limits := mkLimits { wl_minute : Limiter; wl_burst : Limiter; wl_rateLimited : Z }.

Definition limit_exempt (path : string) : bool :=
  HasPrefix path "/healthz" || HasPrefix path "/readyz" || HasPrefix path "/metrics" || HasPrefix path "/static/".

(** True: the request reaches the next handler. The second limiter is only
    asked when the first one agrees. *)
Definition withRateLimit (now1 now2 : Z) (r : request) (l : web_limits) : bool * web_limits :=
  if limit_exempt (rq_Path r) then (true, l)
  else
    let ip := clientIP r in
    let '(ok1, minute) := Allow now1 ("web:minute:" +:+ ip) (wl_minute l) in
    if negb ok1 then (false, mkLimits minute (wl_burst l) (wl_rateLimited l + 1))
    else
      let '(ok2, burst) := Allow now2 ("web:burst:" +:+ ip) (wl_burst l) in
      if ok2 then (true, mkLimits minute burst (wl_rateLimited l))
      else (false, mkLimits minute burst (wl_rateLimited l + 1)).

(** ** The way back after a language switch *)

Definition localReturnPath (referer : string) : string :=
  match url_Parse referer with
  | None => "/"
  | Some ref =>
      let path := u_EscapedPath ref in
      if negb (HasPrefix path "/") || HasPrefix path "//" || HasPrefix path "/\" then "/"
      else if isEmpty (u_RawQuery ref) then path else path +:+ "?" +:+ u_RawQuery ref
  end.

End Server.

(** ** Waiting *)

Definition waitSeconds (d : Z) : Z :=
  let secs := Z.quot (d + second - 1) second in
  if secs <? 1 then 1 else secs.

(** ** Whom the server believes *)

(** Two requests on connections that look the same, with whatever headers. *)
Definition same_connection (r r' : request) : Prop :=
  rq_RemoteAddr r = rq_RemoteAddr r' /\ rq_TLS r = rq_TLS r' /\ rq_Host r = rq_Host r' /\ rq_Path r = rq_Path r'
  /\ rq_RawPath r = rq_RawPath r' /\ rq_RawQuery r = rq_RawQuery r'.

(** C20: a client that is not a trusted proxy cannot influence through headers what the
    server believes: its address for the rate limits, the scheme, the host, the Secure attribute of
    cookies and the redirect are the same whatever X-Forwarded-* or Forwarded headers it sends. *)
Theorem untrusted_headers_ignored s url_Parse r r' :
  isRequestFromTrustedProxy s r = false -> same_connection r r' ->
  clientIP s r = clientIP s r' /\ requestScheme s r = requestScheme s r' /\ requestHost s r = requestHost s r'
  /\ secureCookies s r = secureCookies s r'
  /\ withHTTPSRedirect s url_Parse r = withHTTPSRedirect s url_Parse r'
  /\ (forall now1 now2 l, withRateLimit s now1 now2 r l = withRateLimit s now1 now2 r' l).
Proof.
  intros Hu (Ha & Ht & Hh & Hp & Hrp & Hq).
  assert (Hu' : isRequestFromTrustedProxy s r' = false) by (unfold isRequestFromTrustedProxy in *; by rewrite <- Ha).
  assert (Hip : clientIP s r = clientIP s r').
  { unfold clientIP. unfold isRequestFromTrustedProxy in Hu. rewrite <- Ha, Hu. done. }
  assert (Hs : requestScheme s r = requestScheme s r') by (unfold requestScheme; by rewrite Hu, Hu', Ht).
  assert (Hho : requestHost s r = requestHost s r') by (unfold requestHost; by rewrite Hu, Hu', Hh).
  split_and!; [done..| | |].
  - unfold secureCookies. by rewrite Hs.
  - unfold withHTTPSRedirect, httpsRedirectHost. by rewrite Hs, Hho, Hp, Hrp, Hq.
  - intros. unfold withRateLimit. by rewrite Hip, Hp.
Qed.

(** ** HTTPS is enforced *)

(** C31: with FORCE_HTTPS, a request that did not arrive over HTTPS is served only under a
    configured exempt path (the path itself, or below an entry that ends in a slash) free of empty,
    dot and dot-dot segments; with an accepted configuration the start page is never one. Every
    other request is refused or redirected to the same path and query, on a host of valid form. *)
Theorem https_enforced s url_Parse r :
  ForceHTTPS (ws_cfg s) = true -> requestScheme s r <> "https" ->
  match withHTTPSRedirect s url_Parse r with
  | ServeNext => cleanRequestPath (rq_Path r) = true
      /\ (exists p, p ∈ ForceHTTPSExemptPaths (ws_cfg s)
           /\ (rq_Path r = p \/ exists t u, p = t +:+ "/" /\ rq_Path r = p +:+ u))
      /\ (sane (ws_cfg s) -> rq_Path r <> "/")
  | BadHost => True
  | RedirectHTTPS host path rawPath rawQuery =>
      hostPortPattern host = true /\ path = rq_Path r /\ rawPath = rq_RawPath r /\ rawQuery = rq_RawQuery r
  end.
Proof.
  intros Hf Hs. unfold withHTTPSRedirect. rewrite Hf. simpl.
  apply String.eqb_neq in Hs as Hs'. rewrite Hs'. simpl.
  destruct (httpsExempt s (rq_Path r)) eqn:He.
  - unfold httpsExempt in He. apply andb_true_iff in He as [Hc He]. apply existsb_exists in He as (p & Hin & Hp).
    apply list_elem_of_In in Hin. split; [done|].
    assert (Hcase : rq_Path r = p \/ exists t u, p = t +:+ "/" /\ rq_Path r = p +:+ u).
    { apply orb_true_iff in Hp as [->%String.eqb_eq|[Hsuf Hpre]%andb_true_iff]; [by left|right].
      apply HasSuffix_spec in Hsuf as [t ->]. apply HasPrefix_spec in Hpre as [u ->]. eauto. }
    split; [eauto|]. intros Hsane Hroot. pose proof (sane_paths _ Hsane) as Hall.
    rewrite Forall_forall in Hall. destruct (Hall p Hin) as (Hpat & _ & Hne).
    apply exempt_absolute in Hpat. apply HasPrefix_spec in Hpat as [w ->].
    destruct Hcase as [Hr|(t & u & _ & Hr)]; rewrite Hroot in Hr; simpl in Hr.
    + injection Hr as <-. done.
    + injection Hr as Hr. destruct w; [done|discriminate].
  - destruct (isEmpty (httpsRedirectHost s url_Parse r)) eqn:Hh; [done|].
    split; [|done]. unfold httpsRedirectHost in *. destruct (negb (isEmpty (publicHost s url_Parse))) eqn:Hpub.
    + unfold publicHost in *. destruct (url_Parse _) as [u|]; [|done].
      by destruct (hostPortPattern (u_Host u)) eqn:E.
    + by destruct (hostPortPattern (requestHost s r)) eqn:E.
Qed.

(** ** Returning to a local page *)

(** The language switch never sends the visitor to another site: whatever the referrer,
    the target is an absolute path that no browser reads as a host reference. *)
Theorem localReturnPath_local url_Parse referer :
  exists t, localReturnPath url_Parse referer = "/" +:+ t
    /\ HasPrefix t "/" = false /\ HasPrefix t "\" = false.
Proof.
  unfold localReturnPath. destruct (url_Parse referer) as [u|]; [|by exists ""].
  case_if; [by exists ""|]. bool_to_prop. apply HasPrefix_spec in H as [w Hw]. rewrite Hw in *.
  assert (Hp : HasPrefix w "/" = false /\ HasPrefix w "\" = false).
  { simpl in H0, H1. destruct w; [done|]. simpl in *. split; done. }
  destruct Hp as [Hp1 Hp2]. destruct (isEmpty (u_RawQuery u)).
  - by exists w.
  - exists (w +:+ "?" +:+ u_RawQuery u). split; [done|].
    destruct w as [|a w]; [done|]. simpl in *. by rewrite HasPrefix_nil in *.
Qed.

(** ** The rate limit in front of the pages *)

(** A run of requests with their two clock readings: the times (first reading)
    of the requests of [ip] under the limit that were served. *)
Fixpoint served (s : web_server) (reqs : list (Z * Z * request)) (ip : string) (l : web_limits) : list Z :=
  match reqs with
  | [] => []
  | (now1, now2, r) :: rest =>
      let '(ok, l') := withRateLimit s now1 now2 r l in
      let more := served s rest ip l' in
      if ok && negb (limit_exempt (rq_Path r)) && String.eqb (clientIP s r) ip then now1 :: more else more
  end.

(** The calls of the per-minute limiter in such a run. *)
Definition minute_calls (s : web_server) (reqs : list (Z * Z * request)) : list (Z * string) :=
  omap (fun '(now1, _, r) => if limit_exempt (rq_Path r) then None else Some (now1, "web:minute:" +:+ clientIP s r)) reqs.

Lemma minute_key_eqb a b : String.eqb ("web:minute:" +:+ a) ("web:minute:" +:+ b) = String.eqb a b.
Proof.
  destruct (String.eqb_spec a b) as [->|Hne]; [apply String.eqb_refl|].
  apply String.eqb_neq. intros H. by apply sapp_inv_head in H.
Qed.

Lemma served_sublist s reqs ip l :
  served s reqs ip l `sublist_of` snd (admitted (minute_calls s reqs) ("web:minute:" +:+ ip) (wl_minute l)).
Proof.
  revert l. induction reqs as [|[[now1 now2] r] reqs IH]; intros l; [constructor|].
  cbn [served minute_calls omap list_omap]. unfold withRateLimit.
  destruct (limit_exempt (rq_Path r)); [rewrite andb_false_r; apply IH|].
  cbn [admitted]. fold (minute_calls s reqs). rewrite minute_key_eqb.
  destruct (Allow now1 _ (wl_minute l)) as [ok1 minute].
  destruct ok1; simpl; [|specialize (IH (mkLimits minute (wl_burst l) (wl_rateLimited l + 1))); simpl in IH;
    by destruct (admitted (minute_calls s reqs) _ minute)].
  destruct (Allow now2 _ (wl_burst l)) as [ok2 burst]. destruct ok2; simpl.
  - specialize (IH (mkLimits minute burst (wl_rateLimited l))). simpl in IH.
    destruct (admitted (minute_calls s reqs) _ minute). simpl in *.
    destruct (String.eqb (clientIP s r) ip); [by constructor|done].
  - specialize (IH (mkLimits minute burst (wl_rateLimited l + 1))). simpl in IH.
    destruct (admitted (minute_calls s reqs) _ minute). simpl in *.
    destruct (String.eqb (clientIP s r) ip); [by constructor|done].
Qed.

Lemma sublist_filter_length {A} (p : A -> bool) l k :
  l `sublist_of` k -> (List.length (List.filter p l) <= List.length (List.filter p k))%nat.
Proof. induction 1 as [|x l k _ IH|x l k _ IH]; simpl; [done|destruct (p x); simpl; lia..]. Qed.

(** The web interface serves one client address at most WEB_RATE_LIMIT_PER_MIN limited
    requests in any minute, in whatever order requests of other addresses, exempt paths and
    refused requests interleave. *)
Theorem web_rate_limit_enforced s reqs ip burst rl from a :
  0 < WebRateLimitPerMin (ws_cfg s) -> clock_ok from (minute_calls s reqs) ->
  Z.of_nat (List.length (List.filter (fun t => (a <? t) && (t <=? a + minute))
    (served s reqs ip (mkLimits (New minute (WebRateLimitPerMin (ws_cfg s))) burst rl))))
  <= WebRateLimitPerMin (ws_cfg s).
Proof.
  intros Hm Hcl. etrans; [apply inj_le, sublist_filter_length, served_sublist|].
  apply (window_bound _ _ _ _ from); [done|lia|done].
Qed.

(** ** Retry-After *)

(** The value of the Retry-After header is enough: a client that waits that many whole
    seconds is let through, and the header is never zero and never more than one second too long. *)
Theorem retry_after_header_suffices l key now :
  0 < maxHits l -> 0 < window l -> sortedZ (entries l key) -> Forall (fun t => t <= now) (entries l key) ->
  let w := waitSeconds (RetryAfter now key l) in
  1 <= w /\ w * second <= Z.max second (RetryAfter now key l + second - 1)
  /\ fst (Allow (now + w * second) key l) = true.
Proof.
  intros Hm Hw Hs Hf w. destruct (retry_after_exact l key now Hm Hw Hs Hf) as (Hd & _ & Ha).
  set (d := RetryAfter now key l) in *.
  assert (Hq : d <= Z.quot (d + second - 1) second * second <= d + second - 1).
  { unfold second. rewrite Z.quot_div_nonneg by lia.
    pose proof (Z.div_mod (d + 1000000000 - 1) 1000000000 ltac:(lia)).
    pose proof (Z.mod_pos_bound (d + 1000000000 - 1) 1000000000 ltac:(lia)). lia. }
  assert (Hge : d <= w * second /\ 1 <= w /\ w * second <= Z.max second (d + second - 1)).
  { unfold w, waitSeconds. fold d. unfold second in *. case_if; bool_to_prop; lia. }
  split_and!; [apply Hge..|]. apply Allow_later with (t := now + d); [lia|done].
Qed.

(** ** Witnesses *)

Definition https_env (k : string) : string := if String.eqb k "FORCE_HTTPS" then "true" else "".
Definition https_cfg : Config := read_config https_env 365 30 3 32 (10 * minute) (30 * second) (5 * second) 0.
Definition proxied : web_server := mkWeb https_cfg [mkIPNet [10; 0; 0; 0] [255; 0; 0; 0]].

Definition plain_request (addr : string) (header : string -> string) (path : string) : request :=
  mkRequest "GET" addr false "mx.example.org" header path "" "q=1".

Definition spoofed (k : string) : string :=
  if String.eqb k "X-Forwarded-For" then "198.51.100.9" else if String.eqb k "X-Forwarded-Proto" then "https" else "".

Lemma untrusted_headers_ignored_witness :
  clientIP proxied (plain_request "192.0.2.7:4711" spoofed "/") = "192.0.2.7"
  /\ requestScheme proxied (plain_request "192.0.2.7:4711" spoofed "/") = "http".
Proof.
  destruct (untrusted_headers_ignored proxied (fun _ => None) (plain_request "192.0.2.7:4711" spoofed "/")
    (plain_request "192.0.2.7:4711" (fun _ => "") "/")) as (H1 & H2 & _).
  - vm_compute. reflexivity.
  - repeat split.
  - rewrite H1, H2. split; vm_compute; reflexivity.
Defined.

Lemma https_enforced_witness :
  exists host, withHTTPSRedirect proxied (fun _ => None) (plain_request "192.0.2.7:4711" spoofed "/about")
               = RedirectHTTPS host "/about" "" "q=1" /\ hostPortPattern host = true.
Proof.
  pose proof (https_enforced proxied (fun _ => None) (plain_request "192.0.2.7:4711" spoofed "/about")
    ltac:(vm_compute; reflexivity) ltac:(vm_compute; discriminate)) as H.
  exists "mx.example.org". split; [vm_compute; reflexivity|].
  assert (E : withHTTPSRedirect proxied (fun _ => None) (plain_request "192.0.2.7:4711" spoofed "/about")
              = RedirectHTTPS "mx.example.org" "/about" "" "q=1") by (vm_compute; reflexivity).
  rewrite E in H. apply H.
Defined.

Lemma web_rate_limit_enforced_witness :
  Z.of_nat (List.length (List.filter (fun t => (0 <? t) && (t <=? 0 + minute))
    (served proxied [(1, 2, plain_request "192.0.2.7:4711" spoofed "/"); (3, 3, plain_request "192.0.2.7:4712" spoofed "/")]
       "192.0.2.7" (mkLimits (New minute (WebRateLimitPerMin https_cfg)) (New (10 * second) 20) 0)))) <= 60.
Proof.
  apply (web_rate_limit_enforced proxied _ "192.0.2.7" (New (10 * second) 20) 0 0 0); [vm_compute; reflexivity|].
  vm_compute. repeat split; discriminate.
Defined.

Lemma retry_after_header_suffices_witness :
  fst (Allow (12 + waitSeconds (RetryAfter 12 "k" (mkLimiter 10 2 {["k" := [1; 5; 9]]})) * second) "k"
         (mkLimiter 10 2 {["k" := [1; 5; 9]]})) = true.
Proof.
  apply (retry_after_header_suffices (mkLimiter 10 2 {["k" := [1; 5; 9]]}) "k" 12); [done|done|done|].
  repeat constructor; done.
Defined.

(** A proxy that appends to X-Forwarded-For leaves the client's own entry in
    front, and that one is believed. *)
Example forwarded_address_chosen_by_client :
  clientIP proxied (plain_request "10.0.0.2:5000"
    (fun k => if String.eqb k "X-Forwarded-For" then "203.0.113.1, 192.0.2.7" else "") "/") = "203.0.113.1".
Proof. vm_compute. reflexivity. Qed.
