(* ===== verification/WebApi.v ===== *)
(** * The mailbox API of the web interface (internal/web/server.go)

    Creating and deleting mailboxes, storing the result of a recheck, handing
    out encrypted payloads, and access to placement tests. JSON bodies arrive
    decoded ([None]: the decoder failed); random bytes and clock readings are
    arguments, numbered in the order in which the handler asks for them. *)

From S2P Require Import Prelude F64 GoStrings GoTime GoNet Model Score Ipt RateLimit Store SealedBox Ingest Config WebRequest.

Local Open Scope string_scope.
Local Open Scope list_scope.
Local Open Scope Z_scope.

(** ** Encodings *)

(** [hex.EncodeToString]. *)
Fixpoint hex_encode (s : string) : string :=
  match s with
  | EmptyString => ""
  | String a s' =>
      let c := Z.of_N (code a) in
      String (hex_digit (c / 16)) (String (hex_digit (c mod 16)) (hex_encode s'))
  end.

Definition b64url_val (a : ascii) : option N :=
  if is_upper a then Some (code a - 65)%N
  else if is_lower a then Some (code a - 71)%N
  else if is_digit a then Some (code a + 4)%N
  else if Ascii.eqb a "-" then Some 62%N
  else if Ascii.eqb a "_" then Some 63%N
  else None.

(** The groups of [base64.RawURLEncoding.DecodeString]; unused bits are not checked. *)
Fixpoint b64url_groups (s : string) : option string :=
  match s with
  | EmptyString => Some ""
  | String a (String b EmptyString) =>
      match b64url_val a, b64url_val b with
      | Some x, Some y => Some (chr (ascii_of_N ((x * 64 + y) / 16)))
      | _, _ => None
      end
  | String a (String b (String c EmptyString)) =>
      match b64url_val a, b64url_val b, b64url_val c with
      | Some x, Some y, Some z =>
          let v := ((x * 64 + y) * 64 + z)%N in
          Some (String (ascii_of_N (v / 1024)) (chr (ascii_of_N (v / 4 mod 256))))
      | _, _, _ => None
      end
  | String a (String b (String c (String d s'))) =>
      match b64url_val a, b64url_val b, b64url_val c, b64url_val d, b64url_groups s' with
      | Some x, Some y, Some z, Some w, Some t =>
          let v := (((x * 64 + y) * 64 + z) * 64 + w)%N in
          Some (String (ascii_of_N (v / 65536)) (String (ascii_of_N (v / 256 mod 256)) (String (ascii_of_N (v mod 256)) t)))
      | _, _, _, _, _ => None
      end
  | String _ EmptyString => None
  end.

(** Line breaks are skipped by the decoder. *)
Definition b64url_decode (s : string) : option string :=
  b64url_groups (sfilter (fun a => negb (Ascii.eqb a CR || Ascii.eqb a LF)) s).

(** ** Creating a mailbox *)

Record create_body := mkCreateBody {
  cb_Identifier : string;
  cb_PublicKey : string;
  cb_CheckDomainAge : bool;
  cb_CheckDomainBlocklist : bool;
  cb_CheckBrokenLinks : bool
}.

Inductive create_response :=
| CreateError (status : Z)
| ExistingMailbox (mb : Mailbox)     (** 200 *)
| NewMailbox (mb : Mailbox)          (** 201 *)
| NewMailboxForm (mb : Mailbox).     (** 303 with the mailbox cookie *)

Section Api.
Context {C : Crypto} (s : web_server).

(** Up to eight attempts to find an address that is not in use. *)
Fixpoint generate_attempts (n : nat) (i : nat) (rand : nat -> option string) (domain : string) (d : DB)
  : option (string * string) :=
  match n with
  | O => None
  | S n' =>
      match rand i with
      | None => None
      | Some bytes =>
          let tok := hex_encode bytes in
          let addr := tok +:+ "@" +:+ domain in
          match GetMailboxByAddress addr d with
          | Err ErrNotFound => Some (tok, addr)
          | Err _ => None
          | Ok _ => generate_attempts n' (S i) rand domain d
          end
      end
  end.

Definition generateMailboxAddress (rand : nat -> option string) (domain : string) (d : DB) : option (string * string) :=
  let domain := cleanDomain domain in
  let domain := if isEmpty domain then "sender-report.local" else domain in
  generate_attempts 8 0 rand domain d.

Definition with_checks (mb : Mailbox) (b : create_body) : Mailbox :=
  mkMailbox (mb_ID mb) (mb_Token mb) (mb_Address mb) (mb_PublicKey mb) (mb_CreatedIP mb) (mb_CreatedAt mb)
    (mb_ExpiresAt mb) (mb_LastSeenAt mb) (cb_CheckDomainAge b) (cb_CheckDomainBlocklist b) (cb_CheckBrokenLinks b).

(** The insertion on the end-to-end path, with the checks the visitor chose. *)
Definition create_keyed (clock : nat -> Z) (ip addr : string) (b : create_body) (d : DB) (created : Z)
  : create_response * DB * Z :=
  match CreateMailbox (clock 4%nat) (cb_Identifier b) addr (cb_PublicKey b) ip (MailboxTTL (ws_cfg s)) d with
  | Err _ => (CreateError 500, d, created)
  | Ok (mb, d) =>
      if cb_CheckDomainAge b || cb_CheckDomainBlocklist b || cb_CheckBrokenLinks b then
        let d' := match UpdateMailboxChecks (mb_Token mb) (cb_CheckDomainAge b) (cb_CheckDomainBlocklist b)
                          (cb_CheckBrokenLinks b) d with Ok d' => d' | Err _ => d end in
        (NewMailbox (with_checks mb b), d', created + 1)
      else (NewMailbox mb, d, created + 1)
  end.

(** The end-to-end path: the client brings its identity. Clock readings: 2 the
    expiry of an existing mailbox, 3 its touch, 4 the creation. *)
Definition create_with_key (clock : nat -> Z) (ip domain : string) (b : create_body) (d : DB) (created : Z)
  : create_response * DB * Z :=
  match hex_decode (cb_PublicKey b) with
  | None => (CreateError 400, d, created)
  | Some pubBytes =>
      if negb (String.length pubBytes =? 32)%nat then (CreateError 400, d, created)
      else if negb (String.eqb (Identifier pubBytes) (cb_Identifier b)) then (CreateError 400, d, created)
      else
        let addr := cb_Identifier b +:+ "@" +:+ cleanDomain domain in
        match GetMailboxByToken (cb_Identifier b) d with
        | Ok existing =>
            if clock 2%nat <? mb_ExpiresAt existing
            then (ExistingMailbox existing, TouchMailbox (clock 3%nat) (mb_ID existing) d, created)
            else create_keyed clock ip addr b
                   (match DeleteMailboxByToken (mb_Token existing) d with Ok d' => d' | Err _ => d end) created
        | Err _ => create_keyed clock ip addr b d created
        end
  end.

(** The paths on which the server makes up the token. *)
Definition create_generated (clock : nat -> Z) (rand : nat -> option string) (ip domain : string)
    (resp : Mailbox -> create_response) (d : DB) (created : Z) : create_response * DB * Z :=
  match generateMailboxAddress rand domain d with
  | None => (CreateError 500, d, created)
  | Some (token, addr) =>
      match CreateMailbox (clock 4%nat) token addr "" ip (MailboxTTL (ws_cfg s)) d with
      | Err _ => (CreateError 500, d, created)
      | Ok (mb, d) => (resp mb, d, created + 1)
      end
  end.

(** Clock readings 0 and 1 are those of the two counts. [created] is the metric. *)
Definition createMailbox (clock : nat -> Z) (rand : nat -> option string) (r : request) (body : option create_body)
    (d : DB) (created : Z) : create_response * DB * Z :=
  if negb (String.eqb (rq_Method r) "POST") then (CreateError 405, d, created)
  else
    let ip := clientIP s r in
    if MaxActivePerIP (ws_cfg s) <=? Z.of_nat (CountActiveMailboxesByIP (clock 0%nat) ip d) then (CreateError 429, d, created)
    else if MaxActiveGlobal (ws_cfg s) <=? Z.of_nat (CountActiveMailboxes (clock 1%nat) d) then (CreateError 429, d, created)
    else
      let domain := requestSMTPDomain s r in
      if Contains (rq_Header r "Content-Type") "application/json" then
        match body with
        | Some b =>
            if negb (isEmpty (cb_Identifier b)) && negb (isEmpty (cb_PublicKey b))
            then create_with_key clock ip domain b d created
            else create_generated clock rand ip domain NewMailbox d created
        | None => create_generated clock rand ip domain NewMailbox d created
        end
      else create_generated clock rand ip domain NewMailboxForm d created.

(** ** Messages of a mailbox *)

Definition messageReference (mailboxToken : string) (messageID : Z) : string :=
  hex_encode (stake 8 (sha256 (mailboxToken +:+ ":" +:+ Itoa messageID))).

Definition selectMessageWithReport (token : string) (msgs : list MessageWithReport) (msgRef : string)
  : option MessageWithReport :=
  let msgRef := TrimSpace msgRef in
  if isEmpty msgRef then None
  else List.find (fun x => String.eqb (messageReference token (m_ID (mwr_Message x))) msgRef) msgs.

(** Status and payload. *)
Definition payloadAPI (now : Z) (r : request) (lim : Limiter) (d : DB) : Z * string * Limiter :=
  if negb (String.eqb (rq_Method r) "GET") then (405, "", lim)
  else
    let '(ok, lim) := Allow now ("payload:" +:+ clientIP s r) lim in
    if negb ok then (429, "", lim)
    else match SplitN2 (TrimPrefix (rq_Path r) "/api/payload/") "/" with
    | [token; msgRef] =>
        match GetMailboxByToken token d with
        | Err _ => (404, "", lim)
        | Ok mb =>
            if isEmpty (mb_PublicKey mb) then (404, "", lim)
            else match selectMessageWithReport token (ListMessagesWithReports (mb_ID mb) 100 d) msgRef with
                 | None => (404, "", lim)
                 | Some selected =>
                     if negb (Encrypted (mwr_Message selected)) then (404, "", lim)
                     else (200, m_PayloadEnc (mwr_Message selected), lim)
                 end
        end
    | _ => (400, "", lim)
    end.

Record persist_body := mkPersistBody { pb_PayloadEnc : string; pb_Checks : list CheckResult }.

(** The clear-text rest of a check. *)
Definition strip_check (c : CheckResult) : CheckResult :=
  mkCheck (c_ID c) (c_Name c) (c_Status c) fzero "" "" ∅ "" "" [] "" "" "" "" "" "" "".

Definition sealed_payload (payload : string) : bool :=
  match b64url_decode payload with
  | Some blob => negb (String.length blob <? 4)%nat && String.eqb (stake 4 blob) "MPE1"
  | None => false
  end.

(** The status; the second update can fail after the first has been made. *)
Definition recheckPersistAPI (now : Z) (r : request) (body : option persist_body) (lim : Limiter) (d : DB)
  : Z * Limiter * DB :=
  if negb (String.eqb (rq_Method r) "POST") then (405, lim, d)
  else
    let '(ok, lim) := Allow now ("recheck:" +:+ clientIP s r) lim in
    if negb ok then (429, lim, d)
    else match SplitN2 (TrimPrefix (rq_Path r) "/api/recheck-persist/") "/" with
    | [token; msgRef] =>
        if isEmpty token || isEmpty msgRef then (400, lim, d)
        else match GetMailboxByToken token d with
        | Err _ => (404, lim, d)
        | Ok mb =>
            match List.find (fun m => String.eqb (messageReference token (m_ID m)) msgRef)
                    (ListMessagesByMailbox (mb_ID mb) 500 d) with
            | None => (404, lim, d)
            | Some msg =>
                if negb (Encrypted msg) then (404, lim, d)
                else match body with
                | None => (400, lim, d)
                | Some b =>
                    if negb (sealed_payload (pb_PayloadEnc b)) then (400, lim, d)
                    else if (List.length (pb_Checks b) =? 0)%nat then (400, lim, d)
                    else
                      let '(score, label) := ComputeScore (pb_Checks b) in
                      match UpdateMessagePayloadEnc (m_ID msg) (pb_PayloadEnc b) d with
                      | Err _ => (500, lim, d)
                      | Ok d =>
                          match UpdateReportScoreChecks (m_ID msg) score label (strip_check <$> pb_Checks b) d with
                          | Err _ => (500, lim, d)
                          | Ok d => (200, lim, d)
                          end
                      end
                end
            end
        end
    | _ => (400, lim, d)
    end.

(** ** Placement tests *)

Definition newPlacementToken (rand : nat -> option string) : option string :=
  let n := IPTTokenLength (ws_cfg s) in
  if (n <? MinIPTTokenLength) || (MaxIPTTokenLength <? n) then None
  else match rand (Z.to_nat ((n + 1) / 2)) with
       | None => None
       | Some bytes => Some (stake (Z.to_nat n) (hex_encode bytes))
       end.

Definition placementTokenAccepted (token : string) (pt : PlacementTest) (now : Z) : bool :=
  (IPTTokenLength (ws_cfg s) <=? Z.of_nat (String.length token)) || (now <? pt_ExpiresAt pt).

Definition placementTestFor (now : Z) (mb : Mailbox) (ptToken : string) (d : DB) : result PlacementTest :=
  let! pt := GetPlacementTest ptToken d in
  if negb (pt_MailboxID pt =? mb_ID mb) || negb (placementTokenAccepted ptToken pt now) then Err ErrNotFound
  else Ok pt.

End Api.

(** ** Creation keeps the database well-formed and the limits *)

(** Creating a mailbox appends one row that nothing refers to yet. *)
Lemma CreateMailbox_spec now token address pk ip ttl d mb d' :
  db_ok d -> CreateMailbox now token address pk ip ttl d = Ok (mb, d') ->
  db_ok d' /\ mailboxes d' = mailboxes d ++ [mb] /\ messages d' = messages d
  /\ mb_Token mb = token /\ mb_Address mb = address /\ mb_PublicKey mb = pk
  /\ (forall m, m ∈ messages d -> m_MailboxID m <> mb_ID mb).
Proof.
  intros Hd H. pose proof (CreateMailbox_ok _ _ _ _ _ _ _ _ _ Hd H) as Hd'. revert H.
  unfold CreateMailbox. case_if; [done|]. case_if; [done|].
  set (d1 := mkDB _ _ _ _ _ _ _ _ _ _). intros [<- <-]%(inj Ok)%pair_equal_spec.
  destruct (incrCounter_tables "mailboxes_created" (f_of_Z 1) d1) as (-> & -> & _).
  split_and!; try done. intros m Hm Heq. simpl in Heq.
  destruct (ok_message_fk d Hd m Hm) as (b & Hb & Hk). destruct (ok_mailboxes d Hd) as (_ & Hf & _).
  rewrite Forall_forall in Hf. apply Hf in Hb. lia.
Qed.

(** A count of unexpired mailboxes satisfying [q] shrinks with time and with deletion. *)
Definition active (q : Mailbox -> bool) (now : Z) (l : list Mailbox) : nat :=
  List.length (List.filter (fun m => q m && (now <? mb_ExpiresAt m)) l).

Lemma active_snoc q now now' l mb :
  now <= now' -> (active q now' (l ++ [mb]) <= S (active q now l))%nat.
Proof.
  intros Hle. unfold active. rewrite List.filter_app, length_app.
  assert (H : (List.length (List.filter (fun m => q m && (now' <? mb_ExpiresAt m)%Z) l)
               <= List.length (List.filter (fun m => q m && (now <? mb_ExpiresAt m)%Z) l))%nat).
  { apply filter_length_impl. intros x _ [Hq Ht%Z.ltb_lt]%andb_true_iff.
    rewrite Hq. apply Z.ltb_lt. lia. }
  simpl. case_if; simpl; lia.
Qed.

Lemma active_filter q p now l : (active q now (List.filter p l) <= active q now l)%nat.
Proof.
  unfold active. induction l as [|x l IH]; simpl; [done|].
  destruct (p x); simpl; case_if; simpl; lia.
Qed.

Lemma active_update q now p f l :
  (forall m, q (f m) = q m /\ mb_ExpiresAt (f m) = mb_ExpiresAt m) -> active q now (update_where p f l) = active q now l.
Proof.
  intros Hf. unfold active. induction l as [|x l IH]; simpl; [done|].
  assert (Hx : q (if p x then f x else x) && (now <? mb_ExpiresAt (if p x then f x else x)) = q x && (now <? mb_ExpiresAt x)).
  { destruct (p x); [|done]. by destruct (Hf x) as [-> ->]. }
  rewrite Hx. case_if; simpl; by rewrite IH.
Qed.

Section CreateTheorems.
Context {C : Crypto} (s : web_server).

(** The outcome of the two ways to create, from a database in which the counts
    leave room. *)
Definition created_in (d : DB) (now : Z) (mb : Mailbox) (d' : DB) : Prop :=
  db_ok d'
  /\ (forall q t, t <= now -> (forall m b, q (with_checks m b) = q m) ->
        (active q now (mailboxes d') <= S (active q t (mailboxes d)))%nat)
  /\ (exists row, row ∈ mailboxes d' /\ mb_ID row = mb_ID mb /\ mb_Token row = mb_Token mb
        /\ mb_PublicKey row = mb_PublicKey mb)
  /\ (forall m, m ∈ messages d' -> m_MailboxID m <> mb_ID mb).

Lemma CreateMailbox_created now token address pk ip ttl d0 d mb d' :
  db_ok d -> (forall q t, (active q t (mailboxes d) <= active q t (mailboxes d0))%nat) ->
  CreateMailbox now token address pk ip ttl d = Ok (mb, d') -> created_in d0 now mb d'.
Proof.
  intros Hd Hact H. apply CreateMailbox_spec in H as (Hd' & Hmb & Hmsg & _ & _ & _ & Hnew); [|done].
  split_and!; [done| | |by rewrite Hmsg].
  - intros q t Ht _. rewrite Hmb. pose proof (active_snoc q t now (mailboxes d) mb Ht). specialize (Hact q t). lia.
  - exists mb. rewrite Hmb. set_solver.
Qed.

(** Storing the chosen checks changes nothing else. *)
Lemma created_with_checks d0 now mb d' b d'' :
  created_in d0 now mb d' ->
  UpdateMailboxChecks (mb_Token mb) (cb_CheckDomainAge b) (cb_CheckDomainBlocklist b) (cb_CheckBrokenLinks b) d' = Ok d'' ->
  created_in d0 now (with_checks mb b) d''.
Proof.
  intros (Hd & Hact & (row & Hrow & Hid & Htok & Hpk) & Hmsg) H.
  pose proof (store_step_ok _ _ (step_checks _ _ _ _ _ _ H) Hd) as Hd''.
  unfold UpdateMailboxChecks in H. case_if_in H; [done|]. injection H as <-. split_and!; [done| | |done].
  - intros q t Ht Hq. simpl. rewrite active_update; [by apply Hact|]. intros m. split; [|done]. apply (Hq m b).
  - exists (if String.eqb (mb_Token row) (mb_Token mb) then with_checks row b else row). split.
    + apply elem_of_update_where. by exists row.
    + by case_if.
Qed.

Lemma delete_active token d q t :
  (active q t (mailboxes (match DeleteMailboxByToken token d with Ok d' => d' | Err _ => d end))
   <= active q t (mailboxes d))%nat.
Proof. unfold DeleteMailboxByToken. case_if; [done|]. simpl. apply active_filter. Qed.

Lemma delete_ok token d :
  db_ok d -> db_ok (match DeleteMailboxByToken token d with Ok d' => d' | Err _ => d end).
Proof. intros Hd. destruct (DeleteMailboxByToken token d) eqn:E; [|done]. exact (store_step_ok _ _ (step_delete _ _ _ E) Hd). Qed.

(** What a call leaves behind. *)
Definition create_outcome (clock : nat -> Z) (d : DB) (created : Z) (out : create_response * DB * Z) : Prop :=
  let '(resp, d', created') := out in
  db_ok d' /\
  match resp with
  | NewMailbox mb | NewMailboxForm mb =>
      created_in d (clock 4%nat) mb d' /\ created' = created + 1
      /\ (mb_PublicKey mb <> "" -> exists pub, hex_decode (mb_PublicKey mb) = Some pub
            /\ String.length pub = 32%nat /\ mb_Token mb = Identifier pub)
  | ExistingMailbox mb => mb ∈ mailboxes d /\ messages d' = messages d /\ reports d' = reports d /\ created' = created
  | CreateError _ => created' = created
  end.

Lemma create_generated_outcome clock rand ip domain resp d created :
  db_ok d -> (resp = NewMailbox \/ resp = NewMailboxForm) ->
  create_outcome clock d created (create_generated s clock rand ip domain resp d created).
Proof.
  intros Hd Hresp. unfold create_generated. destruct (generateMailboxAddress _ _ _) as [[token addr]|]; [|done].
  destruct (CreateMailbox _ _ _ _ _ _ d) as [[mb d']|] eqn:E; [|done].
  pose proof (CreateMailbox_created _ _ _ _ _ _ d d mb d' Hd ltac:(done) E) as Hc.
  apply CreateMailbox_spec in E as (Hd' & _ & _ & _ & _ & Hpk & _); [|done].
  destruct Hresp as [-> | ->]; simpl; split_and!; try done; by rewrite Hpk.
Qed.

Lemma create_keyed_outcome clock ip addr b d d1 created pub :
  db_ok d1 -> (forall q t, (active q t (mailboxes d1) <= active q t (mailboxes d))%nat) ->
  hex_decode (cb_PublicKey b) = Some pub -> String.length pub = 32%nat -> cb_Identifier b = Identifier pub ->
  create_outcome clock d created (create_keyed s clock ip addr b d1 created).
Proof.
  intros Hd1 Hact Hpub Hlen Hident. unfold create_keyed.
  destruct (CreateMailbox _ _ _ _ _ _ d1) as [[mb d2]|] eqn:E; [|done].
  pose proof (CreateMailbox_created _ _ _ _ _ _ d d1 mb d2 Hd1 Hact E) as Hc.
  apply CreateMailbox_spec in E as (Hd2 & Hmb & _ & Htok & _ & Hpk & _); [|done].
  assert (Hkey : exists p, hex_decode (mb_PublicKey mb) = Some p /\ String.length p = 32%nat /\ mb_Token mb = Identifier p).
  { exists pub. rewrite Hpk, Htok. auto. }
  case_if; [|by simpl; split_and!].
  destruct (UpdateMailboxChecks _ _ _ _ d2) as [d3|] eqn:Hu.
  - pose proof (created_with_checks _ _ _ _ _ _ Hc Hu) as Hc3. simpl. split_and!; [apply Hc3|done|done|done].
  - exfalso. unfold UpdateMailboxChecks in Hu. case_if_in Hu; [|done]. apply negb_true_iff in Hif0.
    pose proof (existsb_none _ _ Hif0 mb ltac:(rewrite Hmb; set_solver)) as Hx. simpl in Hx.
    by rewrite String.eqb_refl in Hx.
Qed.

Lemma create_with_key_outcome clock ip domain b d created :
  db_ok d -> create_outcome clock d created (create_with_key s clock ip domain b d created).
Proof.
  intros Hd. unfold create_with_key. destruct (hex_decode (cb_PublicKey b)) as [pub|] eqn:Hpub; [|done].
  destruct (String.length pub =? 32)%nat eqn:Hlen; [|done].
  destruct (String.eqb (Identifier pub) (cb_Identifier b)) eqn:Hident; [|done]. cbn [negb]. bool_to_prop.
  destruct (GetMailboxByToken (cb_Identifier b) d) as [existing|] eqn:Hget; [|by eapply create_keyed_outcome].
  case_if.
  - split; [by apply update_mailboxes_ok|]. split_and!; [|done..].
    unfold GetMailboxByToken, query_row in Hget. destruct (List.find _ _) as [x|] eqn:Hfind; [|done].
    injection Hget as <-. apply List.find_some in Hfind as [Hin _]. by apply list_elem_of_In.
  - eapply create_keyed_outcome; [by apply delete_ok|intros; apply delete_active|done..].
Qed.

End CreateTheorems.

(** C19: creating a mailbox keeps the database well-formed and the configured limits: after
    it, the caller's address has at most MAX_ACTIVE_MAILBOXES_PER_IP and the service at most
    MAX_ACTIVE_MAILBOXES_GLOBAL unexpired mailboxes. The new mailbox starts without messages, also when
    it replaces an expired one with the same token, and if it has a public key its token is the
    identifier of that key, so nobody can claim a foreign identity. *)
Theorem createMailbox_sound {C : Crypto} s clock rand r body d created resp d' created' :
  db_ok d -> clock 0%nat <= clock 4%nat -> clock 1%nat <= clock 4%nat ->
  createMailbox s clock rand r body d created = (resp, d', created') ->
  db_ok d' /\
  match resp with
  | NewMailbox mb | NewMailboxForm mb =>
      Z.of_nat (CountActiveMailboxesByIP (clock 4%nat) (clientIP s r) d') <= MaxActivePerIP (ws_cfg s)
      /\ Z.of_nat (CountActiveMailboxes (clock 4%nat) d') <= MaxActiveGlobal (ws_cfg s)
      /\ (forall m, m ∈ messages d' -> m_MailboxID m <> mb_ID mb)
      /\ (mb_PublicKey mb <> "" -> exists pub, hex_decode (mb_PublicKey mb) = Some pub
            /\ String.length pub = 32%nat /\ mb_Token mb = Identifier pub)
  | ExistingMailbox mb => mb ∈ mailboxes d /\ messages d' = messages d /\ reports d' = reports d
  | CreateError _ => created' = created
  end.
Proof.
  intros Hd Ht0 Ht1. unfold createMailbox. case_if; [by intros [= <- <- <-]|].
  case_if; [by intros [= <- <- <-]|]. case_if; [by intros [= <- <- <-]|]. intros H. bool_to_prop.
  assert (Hout : create_outcome clock d created (resp, d', created')).
  { rewrite <- H. destruct (Contains _ _); [|apply create_generated_outcome; auto].
    destruct body as [b|]; [|apply create_generated_outcome; auto].
    case_if; [by apply create_with_key_outcome|apply create_generated_outcome; auto]. }
  clear H. assert (Hlim : forall mb, created_in d (clock 4%nat) mb d' ->
    Z.of_nat (CountActiveMailboxesByIP (clock 4%nat) (clientIP s r) d') <= MaxActivePerIP (ws_cfg s)
    /\ Z.of_nat (CountActiveMailboxes (clock 4%nat) d') <= MaxActiveGlobal (ws_cfg s)).
  { intros mb (_ & Hact & _).
    pose proof (Hact (fun m => String.eqb (mb_CreatedIP m) (clientIP s r)) (clock 0%nat) Ht0 ltac:(done)) as Hip.
    pose proof (Hact (fun _ => true) (clock 1%nat) Ht1 ltac:(done)) as Hall.
    unfold active in *. simpl in Hall. unfold CountActiveMailboxesByIP, CountActiveMailboxes in *. lia. }
  destruct Hout as [Hok Hresp]. split; [done|].
  destruct resp as [st|mb|mb|mb]; [done|naive_solver|..];
    destruct Hresp as (Hc & _ & Hkey); destruct (Hlim mb Hc); split_and!; try done; apply Hc.
Qed.


(** ** Storing a recheck *)

Lemma elem_of_insert_desc x m l : x ∈ insert_desc m l <-> x = m \/ x ∈ l.
Proof. induction l as [|y l IH]; simpl; [set_solver|]. case_if; set_solver. Qed.

Lemma elem_of_order_desc x l : x ∈ order_desc l <-> x ∈ l.
Proof. induction l as [|y l IH]; simpl; [done|]. rewrite elem_of_insert_desc. set_solver. Qed.

Lemma ListMessagesByMailbox_sound id limit d m :
  m ∈ ListMessagesByMailbox id limit d -> m ∈ messages d /\ m_MailboxID m = id.
Proof.
  unfold ListMessagesByMailbox. intros (i & Hi & _)%elem_of_take. apply list_elem_of_lookup_2 in Hi as Hm.
  apply elem_of_order_desc, elem_of_filterb in Hm as [Hm Hk%Z.eqb_eq]. done.
Qed.

(** Updating the row of one key. *)
Lemma elem_of_update_key {A} (key : A -> Z) f rows x y :
  NoDup (key <$> rows) -> x ∈ rows ->
  y ∈ update_where (fun r => key r =? key x) f rows <-> (y ∈ rows /\ key y <> key x) \/ y = f x.
Proof.
  intros Hn Hx. rewrite elem_of_update_where. split.
  - intros (z & Hz & ->). case_if; bool_to_prop; [right|by left].
    by rewrite (NoDup_fmap_inj _ _ _ _ Hn Hz Hx Hif).
  - intros [[Hy Hne]| ->].
    + exists y. split; [done|]. by rewrite (proj2 (Z.eqb_neq _ _) Hne).
    + exists x. split; [done|]. by rewrite Z.eqb_refl.
Qed.

(** The rows a stored recheck may touch: the payload of one message, and score
    and clear-text checks of its report. *)
Definition persisted (d : DB) (msg : Message) (b : persist_body) (d' : DB) : Prop :=
  mailboxes d' = mailboxes d /\ placement d' = placement d /\ counters d' = counters d
  /\ (forall m, m ∈ messages d' <-> (m ∈ messages d /\ m_ID m <> m_ID msg) \/ m = set_payload (pb_PayloadEnc b) msg)
  /\ (forall row, rr_message_id row <> m_ID msg -> row ∈ reports d' <-> row ∈ reports d).

Definition rescored (b : persist_body) (row : report_row) : Prop :=
  rr_score row = fst (ComputeScore (pb_Checks b)) /\ rr_score_label row = snd (ComputeScore (pb_Checks b))
  /\ rr_checks row = strip_check <$> pb_Checks b.

Lemma UpdateMessagePayloadEnc_persisted d msg b d1 :
  db_ok d -> msg ∈ messages d -> UpdateMessagePayloadEnc (m_ID msg) (pb_PayloadEnc b) d = Ok d1 ->
  persisted d msg b d1 /\ reports d1 = reports d.
Proof.
  intros Hd Hmsg H. unfold UpdateMessagePayloadEnc in H. case_if_in H; [done|]. injection H as <-.
  split; [|done]. split_and!; try done. intros m. simpl.
  apply elem_of_update_key; [apply (ok_messages d Hd)|done].
Qed.

Lemma UpdateReportScoreChecks_persisted d msg b d1 d2 :
  persisted d msg b d1 ->
  UpdateReportScoreChecks (m_ID msg) (fst (ComputeScore (pb_Checks b))) (snd (ComputeScore (pb_Checks b)))
    (strip_check <$> pb_Checks b) d1 = Ok d2 ->
  persisted d msg b d2 /\ forall row, row ∈ reports d2 -> rr_message_id row = m_ID msg -> rescored b row.
Proof.
  intros (H1 & H2 & H3 & H4 & H5) H. unfold UpdateReportScoreChecks in H. case_if_in H; [done|].
  injection H as <-. split; [split_and!; try done|].
  - intros row Hne. rewrite <- H5 by done. simpl. rewrite elem_of_update_where. split.
    + intros (x & Hx & ->). case_if; bool_to_prop; [by simpl in Hne|done].
    + intros Hr. exists row. split; [done|]. by rewrite (proj2 (Z.eqb_neq _ _) Hne).
  - intros row Hr Hk. simpl in Hr. apply elem_of_update_where in Hr as (x & Hx & ->).
    case_if; bool_to_prop; [done|congruence].
Qed.

Lemma persist_effect {C : Crypto} s now r body lim d st lim' d' :
  db_ok d -> recheckPersistAPI s now r body lim d = (st, lim', d') ->
  db_ok d' /\
  (d' = d \/ exists token msgRef mb msg b,
    body = Some b /\ SplitN2 (TrimPrefix (rq_Path r) "/api/recheck-persist/") "/" = [token; msgRef]
    /\ GetMailboxByToken token d = Ok mb /\ msg ∈ messages d /\ m_MailboxID msg = mb_ID mb
    /\ messageReference token (m_ID msg) = msgRef /\ Encrypted msg = true /\ sealed_payload (pb_PayloadEnc b) = true
    /\ persisted d msg b d'
    /\ (st = 200 -> forall row, row ∈ reports d' -> rr_message_id row = m_ID msg -> rescored b row)).
Proof.
  intros Hd H. unfold recheckPersistAPI in H.
  case_if_in H; [injection H as <- <- <-; auto|]. destruct (Allow now _ lim) as [ok lim1].
  destruct (negb ok); [injection H as <- <- <-; auto|].
  destruct (SplitN2 _ _) as [|token [|msgRef [|]]] eqn:Hsplit; try (injection H as <- <- <-; auto; fail).
  case_if_in H; [injection H as <- <- <-; auto|].
  destruct (GetMailboxByToken token d) as [mb|] eqn:Hmb; [|injection H as <- <- <-; auto].
  destruct (List.find _ _) as [msg|] eqn:Hfind; [|injection H as <- <- <-; auto].
  destruct (negb (Encrypted msg)) eqn:Henc; [injection H as <- <- <-; auto|].
  destruct body as [b|]; [|injection H as <- <- <-; auto].
  destruct (negb (sealed_payload (pb_PayloadEnc b))) eqn:Hseal; [injection H as <- <- <-; auto|].
  case_if_in H; [injection H as <- <- <-; auto|].
  apply List.find_some in Hfind as [Hin Href]. apply list_elem_of_In, ListMessagesByMailbox_sound in Hin as [Hin Hown].
  bool_to_prop. rewrite (surjective_pairing (ComputeScore (pb_Checks b))) in H.
  destruct (UpdateMessagePayloadEnc _ _ d) as [d1|] eqn:Hup; [|injection H as <- <- <-; auto].
  pose proof (store_step_ok _ _ (step_payload _ _ _ _ Hup) Hd) as Hd1.
  destruct (UpdateMessagePayloadEnc_persisted d msg b d1 Hd Hin Hup) as [Hper Hrep].
  destruct (UpdateReportScoreChecks _ _ _ _ d1) as [d2|] eqn:Hrs; injection H as <- <- <-.
  - pose proof (store_step_ok _ _ (step_score _ _ _ _ _ _ Hrs) Hd1) as Hd2.
    destruct (UpdateReportScoreChecks_persisted d msg b d1 d2 Hper Hrs) as [Hper2 Hresc].
    split; [done|right]. exists token, msgRef, mb, msg, b. by split_and!.
  - split; [done|right]. exists token, msgRef, mb, msg, b. by split_and!.
Qed.

(** Storing a recheck reaches exactly one message: the database stays as it was, or the
    request names by token and reference an encrypted message of that token's mailbox, the new payload is
    a sealed blob, and nothing changes but that message's payload and, on success, its report, whose
    score the server has computed itself and whose checks carry no details. *)
Theorem recheckPersist_scope {C : Crypto} s now r body lim d st lim' d' :
  db_ok d -> recheckPersistAPI s now r body lim d = (st, lim', d') ->
  db_ok d' /\
  (d' = d \/ exists token msgRef mb msg b,
    body = Some b /\ SplitN2 (TrimPrefix (rq_Path r) "/api/recheck-persist/") "/" = [token; msgRef]
    /\ GetMailboxByToken token d = Ok mb /\ msg ∈ messages d /\ m_MailboxID msg = mb_ID mb
    /\ messageReference token (m_ID msg) = msgRef /\ Encrypted msg = true /\ sealed_payload (pb_PayloadEnc b) = true
    /\ persisted d msg b d'
    /\ (st = 200 -> forall row, row ∈ reports d' -> rr_message_id row = m_ID msg -> rescored b row)).
Proof. apply persist_effect. Qed.

(** ** Access to payloads and placement tests *)

(** A payload is handed out only for an encrypted message of the mailbox whose
    token the request names. *)
Lemma payloadAPI_scope {C : Crypto} s now r lim d payload lim' :
  payloadAPI s now r lim d = (200, payload, lim') ->
  exists token msgRef mb msg,
    SplitN2 (TrimPrefix (rq_Path r) "/api/payload/") "/" = [token; msgRef] /\ GetMailboxByToken token d = Ok mb
    /\ mb_PublicKey mb <> "" /\ msg ∈ messages d /\ m_MailboxID msg = mb_ID mb /\ Encrypted msg = true
    /\ payload = m_PayloadEnc msg.
Proof.
  unfold payloadAPI. case_if; [done|]. destruct (Allow now _ lim) as [ok lim1].
  destruct (negb ok); [done|]. destruct (SplitN2 _ _) as [|token [|msgRef [|]]] eqn:Hsplit; try done.
  destruct (GetMailboxByToken token d) as [mb|] eqn:Hmb; [|done]. case_if; [done|].
  unfold selectMessageWithReport. case_if; [done|]. destruct (List.find _ _) as [x|] eqn:Hfind; [|done].
  destruct (negb (Encrypted (mwr_Message x))) eqn:He; [done|]. intros [= <- _].
  apply List.find_some in Hfind as [Hin _]. apply list_elem_of_In, list_elem_of_fmap in Hin as (m & -> & Hm).
  apply ListMessagesByMailbox_sound in Hm as [Hm Hown]. apply isEmpty_false in Hif0. bool_to_prop. simpl in *.
  exists token, msgRef, mb, m. by split_and!.
Qed.

(** A placement test is shown only to the mailbox that started it, and with a
    token shorter than configured only until the test expires. *)
Lemma placementTestFor_scope s now mb ptToken d pt :
  placementTestFor s now mb ptToken d = Ok pt ->
  pt ∈ placement d /\ pt_PlacementToken pt = ptToken /\ pt_MailboxID pt = mb_ID mb
  /\ (IPTTokenLength (ws_cfg s) <= Z.of_nat (String.length ptToken) \/ now < pt_ExpiresAt pt).
Proof.
  unfold placementTestFor. rewrite obind_ok. intros (x & Hx & H). case_if_in H; [done|]. injection H as ->.
  apply orb_false_iff in Hif as [Hm Ha]. apply negb_false_iff in Hm, Ha. apply Z.eqb_eq in Hm.
  unfold GetPlacementTest, query_row in Hx. destruct (List.find _ _) as [y|] eqn:Hfind; [|done]. injection Hx as ->.
  apply List.find_some in Hfind as [Hin%list_elem_of_In Htok%String.eqb_eq]. split_and!; try done.
  unfold placementTokenAccepted in Ha. apply orb_true_iff in Ha as [?%Z.leb_le|?%Z.ltb_lt]; auto.
Qed.

(** ** Witnesses *)

Definition plain_cfg : Config := read_config (fun _ => "") 365 30 3 32 (10 * minute) (30 * second) (5 * second) 0.
Definition plain_server : web_server := mkWeb plain_cfg [].

Definition post (path : string) : request :=
  mkRequest "POST" "192.0.2.7:4711" false "mx.example.org" (fun _ => "application/json") path "" "".

Definition thirty_zeros : string := Join (replicate 32 "30") "".

Lemma createMailbox_sound_witness :
  exists mb d', @createMailbox toy_crypto plain_server (fun _ => 100) (fun _ => None) (post "/api/mailboxes")
      (Some (mkCreateBody (@Identifier toy_crypto (zeros 32)) thirty_zeros true false false)) empty_db 0
      = (NewMailbox mb, d', 1)
    /\ (forall m, m ∈ messages d' -> m_MailboxID m <> mb_ID mb).
Proof.
  destruct (@createMailbox toy_crypto plain_server (fun _ => 100) (fun _ => None) (post "/api/mailboxes")
    (Some (mkCreateBody (@Identifier toy_crypto (zeros 32)) thirty_zeros true false false)) empty_db 0)
    as [[resp d'] c] eqn:E.
  pose proof (@createMailbox_sound toy_crypto plain_server (fun _ => 100) _ _ _ _ _ _ _ _
    empty_ok (Z.le_refl 100) (Z.le_refl 100) E) as [_ H].
  assert (Hr : exists mb, resp = NewMailbox mb /\ c = 1).
  { vm_compute in E. injection E as <- _ <-. eexists. split; reflexivity. }
  destruct Hr as (mb & -> & ->). exists mb, d'. split; [reflexivity|apply H].
Defined.

(** One encrypted message with its report in the mailbox of the other witnesses. *)
Definition filled_db : DB :=
  match SaveMessage 120 (mkMessage 0 1 "[encrypted]" "tok@inbox.example" "[encrypted]" "[encrypted]" 0 "[encrypted]"
                           "[encrypted]" "[encrypted]" 10 "TVBFMQ") keyed_db with
  | Ok (_, d) =>
      match SaveReport 120 (mkReport 0 1 0 (f_of_Z 5) "High Risk" "" [] [] [] [] [] []) d with
      | Ok (_, d') => d'
      | Err _ => d
      end
  | Err _ => keyed_db
  end.

Lemma filled_db_ok : db_ok filled_db.
Proof.
  unfold filled_db. destruct (SaveMessage _ _ _) as [[m d]|] eqn:E; [|apply keyed_db_ok].
  assert (Hd : db_ok d) by (eapply SaveMessage_ok; [apply keyed_db_ok|exact E]).
  destruct (SaveReport _ _ d) as [[r' d']|] eqn:E2; [eapply SaveReport_ok; [exact Hd|exact E2]|exact Hd].
Qed.

Lemma recheckPersist_scope_witness :
  exists lim' d', @recheckPersistAPI toy_crypto plain_server 130
      (post ("/api/recheck-persist/tok/" +:+ @messageReference toy_crypto "tok" 1))
      (Some (mkPersistBody "TVBFMQAA" [sample_check "spf" "fail"])) (New minute 30) filled_db = (200, lim', d')
    /\ db_ok d' /\ mailboxes d' = mailboxes filled_db.
Proof.
  destruct (@recheckPersistAPI toy_crypto plain_server 130
      (post ("/api/recheck-persist/tok/" +:+ @messageReference toy_crypto "tok" 1))
      (Some (mkPersistBody "TVBFMQAA" [sample_check "spf" "fail"])) (New minute 30) filled_db) as [[st lim'] d'] eqn:E.
  destruct (@recheckPersist_scope toy_crypto plain_server _ _ _ _ _ _ _ _ filled_db_ok E) as [Hok Hcase].
  exists lim', d'. split; [|split; [exact Hok|]].
  - assert (Hst : st = 200) by (vm_compute in E; injection E as <- _ _; reflexivity). by rewrite Hst.
  - destruct Hcase as [->|(? & ? & ? & ? & ? & _ & _ & _ & _ & _ & _ & _ & _ & (Hm & _) & _)]; [reflexivity|exact Hm].
Defined.

(** The stored score follows the deltas the client sends, whatever the status says. *)
Example persisted_score_follows_deltas :
  fst (ComputeScore [mkCheck "rbl" "" "fail" fzero "" "" ∅ "" "" [] "" "" "" "" "" "" ""]) = f_of_Z 10.
Proof. vm_compute. reflexivity. Qed.
