(* ===== verification/Lang.v ===== *)
(** * Languages of the web interface (internal/i18n, internal/web/seo.go)

    The language of a response: the prefix of the path, the cookie of the
    language switch, the browser's preference, English; the texts of both
    languages; the addresses of a page in each language; the language switch. The
    value of the language cookie is an argument. *)

From S2P Require Import Prelude GoStrings GoTime GoNet RateLimit Config WebRequest.

Local Open Scope string_scope.
Local Open Scope list_scope.
Local Open Scope Z_scope.

Definition DE : string := "de".
Definition EN : string := "en".

Definition is_lang (l : string) : bool := String.eqb l DE || String.eqb l EN.

(** ** Detection *)

(** The primary tag of one entry of Accept-Language. *)
Definition primary_tag (part : string) : string :=
  let tag := TrimSpace (fst (fst (Cut part ";"))) in fst (fst (Cut (ToLower tag) "-")).

Fixpoint first_language (parts : list string) : string :=
  match parts with
  | [] => EN
  | part :: rest =>
      let primary := primary_tag part in
      if String.eqb primary "de" then DE else if String.eqb primary "en" then EN else first_language rest
  end.

Definition detectFromHeader (header : string) : string := first_language (Split header ",").

(** [cookie]: the value of the language cookie, if the request has one. *)
Definition Detect (cookie : option string) (accept : string) : string :=
  match cookie with
  | Some l => if is_lang l then l else detectFromHeader accept
  | None => detectFromHeader accept
  end.

(** ** Texts *)

Definition de_texts : gmap string string := list_to_map
  [("nav.home", "sender.report"); ("nav.about", "Über"); ("nav.privacy", "Datenschutz"); ("nav.mailbox", "Mailbox");
   ("nav.report", "Report"); ("nav.more", "Mehr"); ("nav.about_checks", "Was wird geprüft?");
   ("nav.theme_toggle", "Darstellung wählen"); ("theme.menu_title", "Darstellung"); ("theme.auto", "System");
   ("theme.light", "Hell"); ("theme.dark", "Dunkel"); ("theme.werkbank", "Werkbank");
   ("home.title", "E-Mail-Zustellbarkeit testen");
   ("home.subtitle", "Prüf in Sekunden ob deine Mails bei Gmail, Outlook und Co. ankommen – kostenlos, anonym und Ende-zu-Ende verschlüsselt.");
   ("home.widget_title", "Deine Test-Mailbox"); ("home.e2e_badge", "Ende-zu-Ende verschlüsselt");
   ("home.loading", "Mailbox wird vorbereitet …"); ("home.copy_hint", "Klicken zum Kopieren");
   ("home.copy_link", "Link kopieren (inkl. Schlüssel)"); ("home.copied_modal_title", "Adresse kopiert!");
   ("home.copied_modal_body", "Jetzt gleich eine neue Mail an diese Adresse öffnen?");
   ("home.copied_modal_open", "Mail-Programm öffnen"); ("home.copied_modal_dismiss", "Später");
   ("home.start", "Check starten"); ("home.new_address", "Neue Mailbox");
   ("home.adv_checks", "Erweiterte Reputations-Checks"); ("home.waiting", "Warte auf eingehende E-Mail …");
   ("home.idle", "Noch keine E-Mail für diese Mailbox geprüft."); ("home.expires", "Gültig bis");
   ("home.e2e_footer", "E2E verschlüsselt"); ("home.prev_title", "Frühere Mailboxen");
   ("home.trust_title", "Sicher – ganz ohne Aufwand für dich"); ("home.features_title", "Was wird geprüft?");
   ("home.feat_auth", "SPF · DKIM · DMARC");
   ("home.feat_auth_desc", "Kryptografisch verifiziert – genau wie echte Mailserver.");
   ("home.feat_dns", "PTR · MX · HELO");
   ("home.feat_dns_desc", "DNS-Infrastruktur auf Konfigurationsfehler prüfen.");
   ("home.feat_spam", "SpamAssassin · Rspamd · RBL");
   ("home.feat_spam_desc", "Externe Filter-Scores und Blocklist-Status.");
   ("home.feat_content", "MIME · Links · Betreff");
   ("home.feat_content_desc", "Inhalt und Format auf Spam-Signale analysieren.");
   ("home.feat_advanced", "Domain-Alter · Blocklisten");
   ("home.feat_advanced_desc", "Optionale Reputations-Checks – opt-in."); ("home.open_report", "Report öffnen");
   ("home.mail_received", "E-Mail empfangen"); ("home.mail_analysed", "Analysiert"); ("home.cancel", "Abbrechen");
   ("home.apply", "Auswahl übernehmen"); ("home.adv_modal_title", "Erweiterte Reputations-Checks");
   ("nav.close", "Schließen"); ("mailbox.send_to", "Sende deine Testmail an");
   ("mailbox.auto_update", "aktualisiert automatisch"); ("mailbox.waiting", "Warte auf eingehende E-Mail …");
   ("mailbox.expires", "Mailbox läuft ab"); ("mailbox.new_check", "Neuer Check");
   ("mailbox.no_messages", "Noch keine Mails empfangen."); ("mailbox.receives_until", "Empfängt bis");
   ("mailbox.receiving", "Empfang"); ("mailbox.receiving_closed", "beendet");
   ("mailbox.reports_kept", "Berichte bleiben %d Tage nach Eingang abrufbar"); ("mailbox.direct_link", "Direktlink");
   ("mailbox.copy_link", "Link kopieren"); ("mailbox.received_messages", "Empfangene Nachrichten");
   ("mailbox.newest_first", "Neueste zuerst"); ("mailbox.col_message", "Nachricht");
   ("mailbox.col_actions", "Aktionen"); ("mailbox.no_email_yet", "Noch keine E-Mail empfangen");
   ("mailbox.auto_updates_msg", "Diese Seite aktualisiert sich automatisch, sobald eine Nachricht eingeht.");
   ("mailbox.analysing", "Analyse …"); ("nav.home_link", "Startseite"); ("report.score_label", "Gesamtscore");
   ("report.e2e_badge", "E2E verschlüsselt"); ("report.e2e_unlocked", "Entschlüsselt");
   ("report.passed", "bestanden"); ("report.warnings", "Warnungen"); ("report.errors", "Fehler");
   ("report.infos", "Infos"); ("report.subject", "Betreff"); ("report.received", "Empfangen");
   ("report.from", "Envelope-From"); ("report.source", "Quelle (IP / HELO)"); ("report.size", "Größe");
   ("report.share_title", "Report teilen"); ("report.share_full", "Vollständiger Link (inkl. Schlüssel)");
   ("report.share_nokey", "Link ohne Schlüssel"); ("report.share_key", "Nur der Schlüssel");
   ("report.copy", "Klicken zum Kopieren"); ("report.copy_button", "Kopieren"); ("report.copied", "Kopiert!");
   ("check.explanation", "Erklärung"); ("check.how_to_fix", "Wie wird's gemacht?");
   ("check.sources", "Quellen & Tools"); ("check.raw_data", "Rohdaten anzeigen");
   ("check.raw_hide", "Rohdaten ausblenden"); ("group.action_needed", "Handlungsbedarf");
   ("group.check_recommended", "Prüfen empfohlen"); ("group.all_good", "Alles in Ordnung");
   ("group.reload", "Ganze Sektion neu prüfen");
   ("group.reload_check", "Neu prüfen (frische DNS-/Reputations-Abfrage)"); ("cat.auth", "Authentifizierung");
   ("cat.dns", "DNS und Infrastruktur"); ("cat.spam", "Spamfilter"); ("cat.content", "Format und Inhalt");
   ("cat.headers", "Header und Rohdaten");
   ("hint.auth", "Beweist, dass die Mail wirklich von deiner Domain stammt. SPF, DKIM und DMARC sind heute der wichtigste Faktor für die Zustellung – Gmail und Outlook lehnen ohne sie zunehmend ab.");
   ("hint.dns", "Prüft, ob deine sendende IP und deine Hostnamen sauber im DNS hinterlegt sind (Reverse DNS, HELO, MX, A/AAAA, TLS). Inkonsistenzen hier wirken wie ein schlecht konfigurierter oder gekaperter Server.");
   ("hint.spam", "Externe Reputations- und Inhaltsfilter (SpamAssassin, Rspamd, DNSBL). Zeigt, wie verbreitete Filter deine Mail bewerten und welche Einzelsignale dabei zählen.");
   ("hint.content", "Aufbau der Nachricht: MIME-Struktur, Text/HTML-Verhältnis, Links, Betreff und Anhänge. Schlechtes Format ist ein klassisches Spam-Signal und kann die Darstellung beim Empfänger zerstören.");
   ("hint.headers", "Technische Basis-Header (Date, Message-ID, Received-Kette). Fehlende oder unplausible Pflichtfelder deuten auf einen fehlkonfigurierten Mailserver hin.");
   ("status.pass", "Bestanden"); ("status.warn", "Warnung"); ("status.fail", "Fehler"); ("status.info", "Info");
   ("status.na", "N/A"); ("imp.critical", "Kritisch"); ("imp.important", "Wichtig");
   ("imp.recommended", "Empfohlen"); ("imp.optional", "Optional"); ("mailtype.personal", "Persönlich");
   ("mailtype.transactional", "Transactional"); ("mailtype.bulk", "Newsletter/Bulk");
   ("mailtype.unknown", "Unbekannt"); ("mailtype.detected", "Automatisch erkannter Mail-Typ");
   ("report.download_pdf", "Als PDF"); ("report.recommendations", "Empfehlungen");
   ("report.spam_signals", "Spam-Indikatoren"); ("report.links_title", "Gefundene Links");
   ("report.links_clean", "Alle Links unauffällig"); ("report.no_links", "Keine Links in der Mail gefunden.");
   ("report.raw_headers", "Rohe Header"); ("report.advanced_title", "Erweiterte Checks");
   ("report.advanced_info", "Erweiterte Reputations-Checks"); ("rbl.listed_on", "Gelistet auf");
   ("rbl.before_delisting", "Vor dem Delisting"); ("rbl.template_letter", "Formulierungshilfe anzeigen (DE / EN)");
   ("rbl.delisting_hints", "Delisting-Hinweise anzeigen"); ("rbl.delisting_btn", "Delisting");
   ("recheck.updated", "Aktualisiert"); ("recheck.saved", "Gespeichert");
   ("recheck.failed", "Aktualisiert ✓ (Speichern fehlgeschlagen)"); ("misc.encrypted_content", "🔒 verschlüsselt");
   ("misc.no_subject", "(kein Betreff)"); ("misc.unknown", "unbekannt"); ("misc.none", "–")].

Definition en_texts : gmap string string := list_to_map
  [("nav.home", "sender.report"); ("nav.about", "About"); ("nav.privacy", "Privacy"); ("nav.mailbox", "Mailbox");
   ("nav.report", "Report"); ("nav.more", "More"); ("nav.about_checks", "What gets checked?");
   ("nav.theme_toggle", "Choose appearance"); ("theme.menu_title", "Appearance"); ("theme.auto", "System");
   ("theme.light", "Light"); ("theme.dark", "Dark"); ("theme.werkbank", "Workbench");
   ("home.title", "Test your email deliverability");
   ("home.subtitle", "Check in seconds whether your emails reach Gmail, Outlook and others – free, anonymous and end-to-end encrypted.");
   ("home.widget_title", "Your test mailbox"); ("home.e2e_badge", "End-to-end encrypted");
   ("home.loading", "Preparing mailbox …"); ("home.copy_hint", "Click to copy");
   ("home.copy_link", "Copy link (incl. key)"); ("home.copied_modal_title", "Address copied!");
   ("home.copied_modal_body", "Open a new email to this address now?"); ("home.copied_modal_open", "Open mail app");
   ("home.copied_modal_dismiss", "Later"); ("home.start", "Start check"); ("home.new_address", "New mailbox");
   ("home.adv_checks", "Advanced reputation checks"); ("home.waiting", "Waiting for incoming email …");
   ("home.idle", "No email received for this mailbox yet."); ("home.expires", "Valid until");
   ("home.e2e_footer", "E2E encrypted"); ("home.prev_title", "Previous mailboxes");
   ("home.trust_title", "Secure – no effort required"); ("home.features_title", "What gets checked?");
   ("home.feat_auth", "SPF · DKIM · DMARC");
   ("home.feat_auth_desc", "Cryptographically verified – exactly like real mail servers.");
   ("home.feat_dns", "PTR · MX · HELO"); ("home.feat_dns_desc", "Check DNS infrastructure for misconfigurations.");
   ("home.feat_spam", "SpamAssassin · Rspamd · RBL");
   ("home.feat_spam_desc", "External filter scores and blocklist status.");
   ("home.feat_content", "MIME · Links · Subject");
   ("home.feat_content_desc", "Analyse content and format for spam signals.");
   ("home.feat_advanced", "Domain age · Blocklists");
   ("home.feat_advanced_desc", "Optional reputation checks – opt-in."); ("home.open_report", "Open report");
   ("home.mail_received", "Email received"); ("home.mail_analysed", "Analysed"); ("home.cancel", "Cancel");
   ("home.apply", "Apply"); ("home.adv_modal_title", "Advanced Reputation Checks"); ("nav.close", "Close");
   ("mailbox.send_to", "Send your test email to"); ("mailbox.auto_update", "updates automatically");
   ("mailbox.waiting", "Waiting for incoming email …"); ("mailbox.expires", "Mailbox expires");
   ("mailbox.new_check", "New check"); ("mailbox.no_messages", "No emails received yet.");
   ("mailbox.receives_until", "Receives until"); ("mailbox.receiving", "Receiving");
   ("mailbox.receiving_closed", "closed");
   ("mailbox.reports_kept", "Reports stay retrievable for %d days after delivery");
   ("mailbox.direct_link", "Direct link"); ("mailbox.copy_link", "Copy link");
   ("mailbox.received_messages", "Received messages"); ("mailbox.newest_first", "Newest first");
   ("mailbox.col_message", "Message"); ("mailbox.col_actions", "Actions");
   ("mailbox.no_email_yet", "No email received yet");
   ("mailbox.auto_updates_msg", "This page updates automatically as soon as a message arrives.");
   ("mailbox.analysing", "Analysing …"); ("nav.home_link", "Home"); ("report.score_label", "Overall score");
   ("report.e2e_badge", "E2E encrypted"); ("report.e2e_unlocked", "Decrypted"); ("report.passed", "passed");
   ("report.warnings", "warnings"); ("report.errors", "errors"); ("report.infos", "infos");
   ("report.subject", "Subject"); ("report.received", "Received"); ("report.from", "Envelope-From");
   ("report.source", "Source (IP / HELO)"); ("report.size", "Size"); ("report.share_title", "Share report");
   ("report.share_full", "Full link (incl. key)"); ("report.share_nokey", "Link without key");
   ("report.share_key", "Key only"); ("report.copy", "Click to copy"); ("report.copy_button", "Copy");
   ("report.copied", "Copied!"); ("check.explanation", "Explanation"); ("check.how_to_fix", "How to fix it");
   ("check.sources", "Sources & tools"); ("check.raw_data", "Show raw data"); ("check.raw_hide", "Hide raw data");
   ("group.action_needed", "Action needed"); ("group.check_recommended", "Review recommended");
   ("group.all_good", "All good"); ("group.reload", "Re-check entire section");
   ("group.reload_check", "Re-check (fresh DNS / reputation lookup)"); ("cat.auth", "Authentication");
   ("cat.dns", "DNS & Infrastructure"); ("cat.spam", "Spam filters"); ("cat.content", "Format & content");
   ("cat.headers", "Headers & raw data");
   ("hint.auth", "Proves the email genuinely comes from your domain. SPF, DKIM and DMARC are the most important factor for deliverability today – Gmail and Outlook increasingly reject mail without them.");
   ("hint.dns", "Checks whether your sending IP and hostnames are correctly set up in DNS (reverse DNS, HELO, MX, A/AAAA, TLS). Inconsistencies here look like a misconfigured or hijacked server.");
   ("hint.spam", "External reputation and content filters (SpamAssassin, Rspamd, DNSBL). Shows how common filters score your email and which individual signals contribute.");
   ("hint.content", "Message structure: MIME layout, text/HTML ratio, links, subject and attachments. Poor formatting is a classic spam signal and can break rendering for recipients.");
   ("hint.headers", "Technical base headers (Date, Message-ID, Received chain). Missing or implausible mandatory fields indicate a misconfigured mail server.");
   ("status.pass", "Passed"); ("status.warn", "Warning"); ("status.fail", "Failed"); ("status.info", "Info");
   ("status.na", "N/A"); ("imp.critical", "Critical"); ("imp.important", "Important");
   ("imp.recommended", "Recommended"); ("imp.optional", "Optional"); ("mailtype.personal", "Personal");
   ("mailtype.transactional", "Transactional"); ("mailtype.bulk", "Newsletter/Bulk");
   ("mailtype.unknown", "Unknown"); ("mailtype.detected", "Auto-detected mail type");
   ("report.download_pdf", "Download PDF"); ("report.recommendations", "Recommendations");
   ("report.spam_signals", "Spam signals"); ("report.links_title", "Links found");
   ("report.links_clean", "All links are clean"); ("report.no_links", "No links found in this email.");
   ("report.raw_headers", "Raw headers"); ("report.advanced_title", "Advanced checks");
   ("report.advanced_info", "Advanced reputation checks"); ("rbl.listed_on", "Listed on");
   ("rbl.before_delisting", "Before requesting delisting");
   ("rbl.template_letter", "Show template letter (DE / EN)"); ("rbl.delisting_hints", "Show delisting hints");
   ("rbl.delisting_btn", "Delisting"); ("recheck.updated", "Updated"); ("recheck.saved", "Saved");
   ("recheck.failed", "Updated ✓ (save failed)"); ("misc.encrypted_content", "🔒 encrypted");
   ("misc.no_subject", "(no subject)"); ("misc.unknown", "unknown"); ("misc.none", "–")].


Definition T (lang key : string) : string :=
  let m := if String.eqb lang DE then de_texts else en_texts in
  match m !! key with
  | Some s => s
  | None => default key (en_texts !! key)
  end.

(** ** Addresses with a language *)

Definition langPrefixedPage (rest : string) : bool :=
  existsb (String.eqb rest) ["/"; "/about"; "/privacy"; "/simulate"; "/guides"]
  || HasPrefix rest "/guides/" && (String.length "/guides/" <? String.length rest)%nat.

(** The loop over the two languages. *)
Fixpoint split_prefix (langs : list string) (path : string) : option (string * string) :=
  match langs with
  | [] => None
  | l :: rest =>
      let p := "/" +:+ l in
      if String.eqb path p then Some (l, "/")
      else if HasPrefix path (p +:+ "/") && langPrefixedPage (TrimPrefix path p) then Some (l, TrimPrefix path p)
      else split_prefix rest path
  end.

Definition splitLangPrefix (path : string) : option (string * string) := split_prefix [DE; EN] path.

Definition langPath (lang path : string) : string :=
  let lang := if is_lang lang then lang else EN in
  if isEmpty path || String.eqb path "/" then "/" +:+ lang +:+ "/"
  else "/" +:+ lang +:+ (if HasPrefix path "/" then path else "/" +:+ path).

Definition swapLangPrefix (target lang : string) : string :=
  let '(path, query, hasQuery) := Cut target "?" in
  let path := match splitLangPrefix path with Some (_, rest) => langPath lang rest | None => path end in
  if hasQuery : bool then path +:+ "?" +:+ query else path.

(** [withLangPrefix]: the language the path asks for, the path the pages see, and
    whether the response gets the Vary header. *)
Definition withLangPrefix (path : string) : option string * string * bool :=
  match splitLangPrefix path with
  | Some (l, rest) => (Some l, rest, false)
  | None => (None, path, langPrefixedPage path)
  end.

(** The language of the response to a request for [path]. *)
Definition lang (path : string) (cookie : option string) (accept : string) : string :=
  match fst (fst (withLangPrefix path)) with
  | Some l => l
  | None => Detect cookie accept
  end.

(** ** The language switch *)

Inductive switch_response :=
| SwitchRefused                                                       (** 405 with Allow: POST *)
| SwitchTo (cookie : string) (maxAge : Z) (secure : bool) (target : string).  (** 303 *)

Definition secondsPerDay : Z := 24 * 60 * 60.

(** [l] is the form value. *)
Definition setLang (s : web_server) (url_Parse : string -> option parsed_url) (r : request) (l : string) : switch_response :=
  if negb (String.eqb (rq_Method r) "POST") then SwitchRefused
  else
    let lang := if is_lang l then l else EN in
    SwitchTo lang (LangCookieDays (ws_cfg s) * secondsPerDay) (secureCookies s r)
      (swapLangPrefix (localReturnPath url_Parse (rq_Header r "Referer")) lang).

(** ** Head lines, robots.txt *)

(** [html.EscapeString]. *)
Fixpoint EscapeString (s : string) : string :=
  match s with
  | EmptyString => EmptyString
  | String a rest =>
      let c := code a in
      (if (c =? 38)%N then "&amp;" else if (c =? 39)%N then "&#39;" else if (c =? 60)%N then "&lt;"
       else if (c =? 62)%N then "&gt;" else if (c =? 34)%N then "&#34;" else chr a) +:+ EscapeString rest
  end.

Definition dq : string := chr (ascii_of_N 34).

Definition head_link (attrs href : string) : string :=
  "  <link " +:+ attrs +:+ " href=" +:+ dq +:+ EscapeString href +:+ dq +:+ " />" +:+ lf.

Definition rel (name : string) : string := "rel=" +:+ dq +:+ name +:+ dq.
Definition hreflang (name : string) : string := rel "alternate" +:+ " hreflang=" +:+ dq +:+ name +:+ dq.

Definition seoHead (lang publicURL path : string) : string :=
  let base := TrimRight publicURL "/" in
  let path := if isEmpty path then "/" else path in
  let canonical := base +:+ langPath lang path in
  head_link (rel "canonical") canonical
  +:+ head_link (hreflang "de") (base +:+ langPath "de" path)
  +:+ head_link (hreflang "en") (base +:+ langPath "en" path)
  +:+ head_link (hreflang "x-default") (base +:+ path)
  +:+ "  <meta property=" +:+ dq +:+ "og:url" +:+ dq +:+ " content=" +:+ dq +:+ EscapeString canonical +:+ dq +:+ " />" +:+ lf.

Definition robotsTxt (s : web_server) (r : request) : string :=
  Join ["User-agent: *"; "Allow: /$"; "Allow: /de/"; "Allow: /en/"; "Allow: /about"; "Allow: /guides"; "Allow: /privacy";
        "Disallow: /mailbox/"; "Disallow: /report/"; "Disallow: /raw/"; "Disallow: /api/";
        "Sitemap: " +:+ publicBaseURL s r +:+ "/sitemap.xml"; ""] lf.

(** ** Theorems *)

Lemma is_lang_cases l : is_lang l = true <-> l = DE \/ l = EN.
Proof. unfold is_lang. by rewrite orb_true_iff, !String.eqb_eq. Qed.

Lemma first_language_lang parts : is_lang (first_language parts) = true.
Proof. induction parts as [|p parts IH]; [done|]. cbn. by repeat case_if. Qed.

(** The language of a response is always one of the two. *)
Lemma Detect_lang cookie accept : is_lang (Detect cookie accept) = true.
Proof. unfold Detect. destruct cookie as [l|]; [case_if; [done|]|]; apply first_language_lang. Qed.

(** Both languages have a text for the same keys, and [T] finds one for each of them. *)
Lemma translations_complete : dom de_texts = dom en_texts.
Proof. apply (bool_decide_unpack _). vm_compute. exact I. Qed.

Lemma T_found lang key : key ∈ dom en_texts -> exists t, (if String.eqb lang DE then de_texts else en_texts) !! key = Some t /\ T lang key = t.
Proof.
  intros Hk. unfold T. assert (H : is_Some ((if String.eqb lang DE then de_texts else en_texts) !! key)).
  { apply elem_of_dom. case_if; [by rewrite translations_complete|done]. }
  destruct H as [t Ht]. exists t. rewrite Ht. split; reflexivity.
Qed.

(** *** Prefixes *)

Lemma page_slash rest : langPrefixedPage rest = true -> exists t, rest = "/" +:+ t.
Proof.
  unfold langPrefixedPage. rewrite orb_true_iff, andb_true_iff. intros [(x & Hx & ->%String.eqb_eq)%existsb_exists|[H _]].
  - apply list_elem_of_In in Hx. repeat (apply elem_of_cons in Hx as [->|Hx]; [by eexists|]). by apply not_elem_of_nil in Hx.
  - apply HasPrefix_spec in H as [t ->]. by exists ("guides/" +:+ t).
Qed.

Lemma TrimPrefix_app p t : TrimPrefix (p +:+ t) p = t.
Proof. unfold TrimPrefix. by rewrite HasPrefix_app, sdrop_app. Qed.

Lemma split_prefix_hit l langs t :
  langPrefixedPage ("/" +:+ t) = true -> split_prefix (l :: langs) ("/" +:+ l +:+ "/" +:+ t) = Some (l, "/" +:+ t).
Proof.
  intros Hp. cbn [split_prefix]. rewrite (proj2 (String.eqb_neq _ _)).
  2: { intros E%(f_equal String.length). rewrite !slength_app in E. cbn in E. lia. }
  replace ("/" +:+ l +:+ "/" +:+ t) with (("/" +:+ l) +:+ ("/" +:+ t)) by (by rewrite !sapp_assoc).
  rewrite TrimPrefix_app, Hp, andb_true_r. rewrite (proj2 (HasPrefix_spec _ _)); [done|].
  exists t. by rewrite !sapp_assoc.
Qed.

Lemma langPath_slash l t : is_lang l = true -> langPath l ("/" +:+ t) = "/" +:+ l +:+ "/" +:+ t.
Proof.
  intros Hl. unfold langPath. rewrite Hl. case_if; [|by rewrite HasPrefix_app]. destruct t; [done|].
  by apply orb_true_iff in Hif as [?|?].
Qed.

(** Path and language come back from the address of a page. *)
Lemma split_langPath l rest : is_lang l = true -> langPrefixedPage rest = true -> splitLangPrefix (langPath l rest) = Some (l, rest).
Proof.
  intros Hl Hp. destruct (page_slash rest Hp) as [t ->].
  rewrite langPath_slash by done. unfold splitLangPrefix. apply is_lang_cases in Hl as [-> | ->].
  - by apply split_prefix_hit.
  - etransitivity; [|by apply (split_prefix_hit EN [])]. reflexivity.
Qed.

(** A recognised prefix is followed by a public page, and only the address
    without its final slash differs from the canonical one. *)
Lemma split_sound path l rest :
  splitLangPrefix path = Some (l, rest) ->
  is_lang l = true /\ langPrefixedPage rest = true /\ (langPath l rest = path \/ path = "/" +:+ l /\ rest = "/").
Proof.
  unfold splitLangPrefix.
  assert (Hgen : forall langs, Forall (fun l => is_lang l = true) langs -> split_prefix langs path = Some (l, rest) ->
    is_lang l = true /\ langPrefixedPage rest = true /\ (langPath l rest = path \/ path = "/" +:+ l /\ rest = "/")).
  { intros langs HF. induction HF as [|lg langs Hlg HF IH]; [done|]. cbn [split_prefix].
    destruct (String.eqb_spec path ("/" +:+ lg)) as [->|_].
    { intros E. injection E as <- <-. split_and!; [done|done|by right]. }
    destruct (HasPrefix path (("/" +:+ lg) +:+ "/") && _) eqn:Hif; [|done]. intros E. injection E as <- <-.
    apply andb_true_iff in Hif as [[t ->]%HasPrefix_spec Hp].
    replace ((("/" +:+ lg) +:+ "/") +:+ t) with (("/" +:+ lg) +:+ ("/" +:+ t)) in * by (by rewrite !sapp_assoc).
    rewrite TrimPrefix_app in *. split_and!; [done|done|]. left. rewrite langPath_slash by done. by rewrite sapp_assoc. }
  apply Hgen. by repeat constructor.
Qed.

(** *** The switch *)

(** Cutting at one byte. *)
Lemma Cut_byte s a : exists x y, lacks a x = true /\ (Cut s (String a "") = (x, y, true) /\ s = x +:+ String a y
                                                    \/ Cut s (String a "") = (x, "", false) /\ s = x).
Proof.
  assert (H : lacks a s = true \/ exists x y, lacks a x = true /\ s = x +:+ String a y).
  { unfold lacks. induction s as [|b s IH]; [by left|]. cbn. destruct (Ascii.eqb_spec b a) as [->|Hb].
    - right. by exists "", s.
    - destruct IH as [->|(x & y & Hx & ->)]; [by left|]. right. exists (String b x), y. cbn. rewrite Hx.
      split; [|done]. by rewrite (proj2 (Ascii.eqb_neq b a) Hb). }
  destruct H as [H|(x & y & Hx & ->)].
  - exists s, "". split; [done|]. right. split; [|done]. unfold Cut. destruct (Index s (String a "")) as [i|] eqn:E; [|done].
    apply Index_Some in E as (u & v & -> & _). rewrite !lacks_app in H. cbn in H. rewrite Ascii.eqb_refl in H. cbn in H.
    by rewrite andb_false_r in H.
  - exists x, y. split; [done|]. left. split; [|done]. by apply Cut_first.
Qed.

Lemma Cut_lacks s a : lacks a s = true -> Cut s (String a "") = (s, "", false).
Proof.
  intros H. destruct (Cut_byte s a) as (x & y & Hx & [[_ ->]|[-> ->]]); [|done].
  rewrite lacks_app in H. cbn in H. rewrite Ascii.eqb_refl in H. cbn in H. by rewrite andb_false_r in H.
Qed.

(** The path of a target. *)
Definition target_path (target : string) : string := fst (fst (Cut target "?")).

Definition is_local (target : string) : Prop :=
  exists t, target = "/" +:+ t /\ HasPrefix t "/" = false /\ HasPrefix t "\" = false.

Lemma swap_local target l : is_lang l = true -> is_local target -> is_local (swapLangPrefix target l).
Proof.
  intros Hl (t & -> & Ht). unfold swapLangPrefix.
  destruct (Cut_byte ("/" +:+ t) "?") as (path & q & Hp & Hc).
  assert (Hlang : forall rest u, langPrefixedPage rest = true -> is_local (langPath l rest +:+ u)).
  { intros rest u (w & ->)%page_slash. rewrite langPath_slash by done.
    apply is_lang_cases in Hl as [-> | ->]; eexists; (split; [reflexivity|done]). }
  destruct Hc as [[-> He]|[-> He]]; destruct (splitLangPrefix path) as [[l' rest]|] eqn:Es.
  - apply split_sound in Es as (_ & Hr & _). by apply Hlang.
  - exists t. split; [|done]. by rewrite He.
  - apply split_sound in Es as (_ & Hr & _). rewrite <- (sapp_nil_r (langPath l rest)). by apply Hlang.
  - exists t. by rewrite <- He.
Qed.

Lemma langPath_lacks l l' rest path :
  is_lang l = true -> splitLangPrefix path = Some (l', rest) -> lacks "?" path = true -> lacks "?" (langPath l rest) = true.
Proof.
  intros Hl Hs Hp. apply split_sound in Hs as (Hl' & Hr & [E|[_ ->]]).
  - destruct (page_slash rest Hr) as [w ->]. rewrite langPath_slash in * by done. rewrite <- E in Hp. rewrite !lacks_app in *.
    bool_to_prop. apply is_lang_cases in Hl as [-> | ->]; by repeat (apply andb_true_iff; split).
  - by apply is_lang_cases in Hl as [-> | ->].
Qed.

(** The language of the page the switch leads to. *)
Lemma swap_language target l accept : is_lang l = true -> lang (target_path (swapLangPrefix target l)) (Some l) accept = l.
Proof.
  intros Hl. unfold swapLangPrefix, target_path. destruct (Cut_byte target "?") as (path & q & Hp & Hc).
  set (path' := match splitLangPrefix path with Some (_, rest) => langPath l rest | None => path end).
  assert (Hlacks : lacks "?" path' = true).
  { subst path'. destruct (splitLangPrefix path) as [[l' rest]|] eqn:Es; [|done]. by eapply langPath_lacks. }
  assert (Hgoal : lang path' (Some l) accept = l).
  { unfold lang, withLangPrefix. subst path'. destruct (splitLangPrefix path) as [[l' rest]|] eqn:Es.
    - apply split_sound in Es as (_ & Hr & _). by rewrite split_langPath.
    - rewrite Es. cbn [fst]. unfold Detect. by rewrite Hl. }
  destruct Hc as [[-> _]|[-> _]].
  - fold path'. change ("?" +:+ q) with (String "?" q). by rewrite (Cut_first path' "?" q Hlacks : Cut _ "?" = _).
  - fold path'. by rewrite (Cut_lacks path' "?" Hlacks).
Qed.

(** The language switch works and stays on the site: it stores one of the two
    languages and leads to a path of this server (never to another host), and the
    page behind that path then appears in the chosen language, whatever the browser
    prefers and whichever language its address had before. *)
Theorem language_switch s url_Parse r l cookie maxAge secure target :
  setLang s url_Parse r l = SwitchTo cookie maxAge secure target ->
  cookie = (if is_lang l then l else EN) /\ is_local target
  /\ forall accept, lang (target_path target) (Some cookie) accept = cookie.
Proof.
  unfold setLang. case_if; [done|]. intros E. injection E as <- _ _ <-.
  assert (Hc : is_lang (if is_lang l then l else EN) = true) by (by case_if).
  split_and!; [done| |intros accept; by apply swap_language].
  apply swap_local; [done|]. destruct (localReturnPath_local url_Parse (rq_Header r "Referer")) as (t & -> & Ht). by exists t.
Qed.

(** *** Round trip *)

(** Every public page has an address per language: the address of a page in a
    language is recognised as that page in that language, and every recognised address
    is the one of its page, a missing final slash after the language apart. *)
Theorem language_addresses :
  (forall l page, is_lang l = true -> langPrefixedPage page = true -> withLangPrefix (langPath l page) = (Some l, page, false))
  /\ (forall path l page vary, withLangPrefix path = (Some l, page, vary) ->
        is_lang l = true /\ langPrefixedPage page = true /\ (path = langPath l page \/ path = "/" +:+ l /\ page = "/")).
Proof.
  split.
  - intros l page Hl Hp. unfold withLangPrefix. by rewrite split_langPath.
  - intros path l page vary. unfold withLangPrefix. destruct (splitLangPrefix path) as [[l' rest]|] eqn:Es; [|done].
    intros E. injection E as <- <- <-. apply split_sound in Es as (H1 & H2 & [H3|H3]); auto.
Qed.

(** A visitor on a German page picks English. *)
Definition switch_request : request :=
  mkRequest "POST" "192.0.2.7:4711" false "mx.example.org"
    (fun k => if String.eqb k "Referer" then "https://mx.example.org/de/guides/spf?a=1" else "") "/lang" "" "".

Definition parse_referer (s : string) : option parsed_url :=
  if String.eqb s "https://mx.example.org/de/guides/spf?a=1" then Some (mkURL "mx.example.org" "/de/guides/spf" "a=1")
  else if String.eqb s "https://mx.example.org/%64e/about" then Some (mkURL "mx.example.org" "/%64e/about" "")
  else None.

Lemma language_switch_witness :
  setLang proxied parse_referer switch_request "en" = SwitchTo "en" (365 * secondsPerDay) false "/en/guides/spf?a=1"
  /\ lang (target_path "/en/guides/spf?a=1") (Some "en") "de-DE,de;q=0.9" = "en".
Proof.
  assert (E : exists age sec, setLang proxied parse_referer switch_request "en" = SwitchTo "en" age sec "/en/guides/spf?a=1")
    by (do 2 eexists; vm_compute; reflexivity).
  destruct E as (age & sec & E).
  destruct (language_switch proxied parse_referer switch_request "en" _ _ _ _ E) as (_ & _ & H).
  split; [vm_compute; reflexivity|]. exact (H "de-DE,de;q=0.9").
Defined.

(** The switch looks at the path as it is written, the pages at the decoded one:
    behind a prefix with an escaped letter the language stays. *)
Example escaped_prefix_keeps_language :
  swapLangPrefix (localReturnPath parse_referer "https://mx.example.org/%64e/about") "en" = "/%64e/about"
  /\ lang "/de/about" (Some "en") "" = "de".
Proof. split; reflexivity. Qed.

(** Weights in Accept-Language are not read: the first known language wins. *)
Example weights_ignored : detectFromHeader "en;q=0.1, de;q=0.9" = "en" /\ detectFromHeader "fr, de-AT" = "de".
Proof. split; reflexivity. Qed.
