(* ===== verification/Placement.v ===== *)
(** * Placement tests (internal/web/server.go, internal/ipt)

    Health of the seed accounts and the alert mail, the start of a test, its
    background polling, and the stream of its progress. Pinging an account, sending
    a mail and the random choice of accounts are parameters; the polling of one account is
    [pollOne] of Ipt.v. *)

From S2P Require Import Prelude F64 GoStrings GoTime GoNet Model Score Ipt RateLimit Store SealedBox Ingest Config WebRequest WebApi.
From S2P Require Import GoSort Regex Spf Checks MailHeaders Body Content Blocklists DomainChecks SpamFilters Views Lang.

Local Open Scope string_scope.
Local Open Scope list_scope.
Local Open Scope Z_scope.

(** ** Health of the accounts *)

Record AccountStatus := mkAccountStatus {
  as_Provider : string;
  as_User : string;
  as_IMAP : string;
  as_OK : bool;
  as_ErrRaw : string;
  as_CheckedAt : Z
}.

(** [PingAccount]: [None] on success, else the error; with the time of the answer. *)
Definition ping := Account -> string -> option string * Z.

(** [CheckAll]: every goroutine writes its own slot, so the order is that of the accounts. *)
Definition CheckAll (p : ping) (providers : list Provider) : list AccountStatus :=
  pr ← providers; acc ← p_Accounts pr;
  let '(err, now) := p acc (p_IMAP pr) in
  [mkAccountStatus (p_Name pr) (acc_User acc) (p_IMAP pr) (match err with None => true | Some _ => false end) (default "" err) now].

Definition health_key (provider user : string) : string := provider +:+ ":" +:+ user.

(** The cache of the latest status per account. *)
Notation health := (gmap string AccountStatus).

(** One round of the loop: the accounts that newly failed, the new cache. *)
Definition health_step (acc : list AccountStatus * health) (st : AccountStatus) : list AccountStatus * health :=
  let '(newlyFailed, h) := acc in
  let key := health_key (as_Provider st) (as_User st) in
  let was_ok := match h !! key with Some prev => as_OK prev | None => true end in
  (if negb (as_OK st) && was_ok then newlyFailed ++ [st] else newlyFailed, <[key := st]> h).

Definition update_health (statuses : list AccountStatus) (h : health) : list AccountStatus * health :=
  fold_left health_step statuses ([], h).

Record MailerConfig := mkMailerConfig {
  ml_Addr : string; ml_From : string; ml_User : string; ml_Pass : string; ml_IncludeRawErrs : bool
}.

Definition Enabled (m : MailerConfig) : bool := negb (isEmpty (ml_Addr m)) && negb (isEmpty (ml_From m)).

Definition dashes : string := String.concat "" (repeat "-" 60).

(** [stamp]: the layout of a time in the mail. *)
Definition alert_entry (m : MailerConfig) (stamp : Z -> string) (s : AccountStatus) : string :=
  "  Provider : " +:+ as_Provider s +:+ crlf +:+ "  Account  : " +:+ as_User s +:+ crlf
  +:+ "  IMAP     : " +:+ as_IMAP s +:+ crlf +:+ "  Checked  : " +:+ stamp (as_CheckedAt s) +:+ crlf
  +:+ (if ml_IncludeRawErrs m && negb (isEmpty (as_ErrRaw s)) then "  Error    : " +:+ as_ErrRaw s +:+ crlf else "")
  +:+ crlf.

Definition alert_body (m : MailerConfig) (stamp : Z -> string) (now : Z) (to : string) (failed : list AccountStatus) : string :=
  let n := Itoa (Z.of_nat (List.length failed)) in
  "From: sender.report <" +:+ ml_From m +:+ ">" +:+ crlf +:+ "To: " +:+ to +:+ crlf
  +:+ "Subject: [sender.report] IPT seed account failure (" +:+ n +:+ " account(s))" +:+ crlf
  +:+ "MIME-Version: 1.0" +:+ crlf +:+ "Content-Type: text/plain; charset=utf-8" +:+ crlf +:+ crlf
  +:+ "sender.report – Inbox Placement Testing alert" +:+ crlf +:+ "Checked: " +:+ stamp now +:+ crlf
  +:+ dashes +:+ crlf +:+ crlf +:+ n +:+ " seed account(s) failed connectivity/auth check:" +:+ crlf +:+ crlf
  +:+ String.concat "" (alert_entry m stamp <$> failed)
  +:+ dashes +:+ crlf +:+ "Action: check the account credentials and IMAP host in seeds.json." +:+ crlf
  +:+ "Users selecting these providers will see them as unavailable." +:+ crlf.

(** The mail handed to the SMTP client, if any; without one the call reports success. *)
Definition SendIPTAlert (m : MailerConfig) (stamp : Z -> string) (now : Z) (to : string) (failed : list AccountStatus) : option string :=
  if negb (Enabled m) || (List.length failed =? 0)%nat || isEmpty to then None
  else Some (alert_body m stamp now to failed).

(** The mailer exists when recipient and server are configured. *)
Definition iptMailer (cfg : Config) : option MailerConfig :=
  if negb (isEmpty (IPTAlertEmail cfg)) && negb (isEmpty (IPTAlertSMTPAddr cfg))
  then Some (mkMailerConfig (IPTAlertSMTPAddr cfg) (IPTAlertSMTPFrom cfg) (IPTAlertSMTPUser cfg) (IPTAlertSMTPPass cfg) (IPTAlertIncludeRaw cfg))
  else None.

(** The new cache, the accounts an alert is attempted for, and the mail that goes out. *)
Definition runIPTHealthCheck (cfg : Config) (seeds : option SeedConfig) (p : ping) (stamp : Z -> string) (now : Z) (h : health)
  : health * list AccountStatus * option string :=
  match seeds with
  | None => (h, [], None)
  | Some sc =>
      let '(newlyFailed, h') := update_health (CheckAll p (Providers sc)) h in
      match newlyFailed, iptMailer cfg with
      | _ :: _, Some m =>
          if isEmpty (IPTAlertEmail cfg) then (h', [], None)
          else (h', newlyFailed, SendIPTAlert m stamp now (IPTAlertEmail cfg) newlyFailed)
      | _, _ => (h', [], None)
      end
  end.

(** A provider is offered while one of its accounts works or was never checked. *)
Definition account_usable (h : health) (provider : string) (acc : Account) : bool :=
  match h !! health_key provider (acc_User acc) with Some st => as_OK st | None => true end.

Definition provider_healthy (h : health) (p : Provider) : bool := existsb (account_usable h (p_Name p)) (p_Accounts p).

Definition iptProviders (seeds : option SeedConfig) (h : health) : list (string * bool) :=
  match seeds with
  | None => []
  | Some sc => (fun p => (p_Name p, provider_healthy h p)) <$> Providers sc
  end.

Definition iptProviderNames (seeds : option SeedConfig) : list string :=
  match seeds with None => [] | Some sc => ProviderNames sc end.

(** ** Loading the seeds *)

(** [read]: the file decoded, or the error of reading or decoding it. *)
Definition LoadSeeds (read : string -> option SeedConfig) (path : string) : outcome unit (option SeedConfig) :=
  if isEmpty (TrimSpace path) then Ok None
  else match read path with Some sc => Ok (Some sc) | None => Err () end.

(** What [New] keeps: a configuration that does not load or validate disables the feature. *)
Definition loaded_seeds (cfg : Config) (read : string -> option SeedConfig) : option SeedConfig :=
  if EnableInboxPlacement cfg && negb (isEmpty (SeedAccountsFile cfg)) then
    match LoadSeeds read (SeedAccountsFile cfg) with
    | Ok (Some sc) => if is_ok (Validate sc) then Some sc else None
    | _ => None
    end
  else None.

(** ** Texts about waiting *)

Definition countNoun (n : Z) (one many : string) : string :=
  if n =? 1 then "1 " +:+ one else Itoa n +:+ " " +:+ many.

Definition waitText (lang : string) (d : Z) : string :=
  let secs := waitSeconds d in
  if secs <? 60 then
    if String.eqb lang EN then countNoun secs "second" "seconds" else countNoun secs "Sekunde" "Sekunden"
  else
    let mins := Z.quot (secs + 59) 60 in
    if String.eqb lang EN then countNoun mins "minute" "minutes" else countNoun mins "Minute" "Minuten".

(** ** Starting a test *)

(** An answer with the technical reason and an explanation. *)
Record api_error := mkApiError { ae_status : Z; ae_reason : string; ae_message : string }.

Record poll_job := mkPollJob {
  pj_infos : list SeedInfo;
  pj_accounts : list Account;
  pj_hosts : list string;
  pj_token : string;
  pj_since : Z;
  pj_deadline : Z;
  pj_interval : Z;
  pj_spamFolders : list string
}.

Inductive start_response :=
| StartError (e : api_error)
| StartLimited (retryAfter : Z) (e : api_error)
| StartUnavailable (e : api_error) (unavailable : list string)
| Started (token tag : string) (seeds : list SeedInfo) (expiresAt : Z) (unavailable : list string)
| StartPanic.

Section Start.
Context (s : web_server) (seeds : option SeedConfig).

Definition apiError (lang : string) (status : Z) (reason de en : string) : start_response :=
  StartError (mkApiError status reason (pickLang lang de en)).

Definition placementRateLimited (lang : string) (wait : Z) : start_response :=
  let n := IPTRateLimitPerHour (ws_cfg s) in
  StartLimited (waitSeconds wait)
    (mkApiError 429 ("rate limit: max " +:+ countNoun n "placement test" "placement tests" +:+ " per hour")
      (pickLang lang
        ("Ihre IP-Adresse hat in der letzten Stunde schon " +:+ countNoun n "Platzierungstest" "Platzierungstests"
         +:+ " gestartet, das ist die Obergrenze dieses Servers. Den nächsten Test können Sie in " +:+ waitText DE wait +:+ " starten.")
        ("Your IP address has already started " +:+ countNoun n "placement test" "placement tests"
         +:+ " in the last hour, which is the limit on this server. You can start the next test in " +:+ waitText EN wait +:+ "."))).

Definition healthy_providers (h : health) (ps : list Provider) : list Provider := List.filter (provider_healthy h) ps.
Definition unhealthy_names (h : health) (ps : list Provider) : list string :=
  p_Name <$> List.filter (fun p => negb (provider_healthy h p)) ps.

(** Clock readings: 0 the limiter, 1 the wait, 2 the expiry, 3 the row, 4 the start of
    the search. [body]: the names of the decoded body. *)
Definition iptStartAPI (lang : string) (clock : nat -> Z) (rand : nat -> option string) (choose : nat -> nat -> nat)
    (r : request) (mailboxToken : string) (body : option (list string)) (h : health) (lim : Limiter) (d : DB)
  : start_response * Limiter * DB * option poll_job :=
  match seeds with
  | None =>
      (apiError lang 503 "inbox placement testing not configured"
         "Platzierungstests stehen auf diesem Server gerade nicht zur Verfügung. Laden Sie die Seite neu, um den aktuellen Stand zu sehen."
         "Placement tests are unavailable on this server right now. Reload the page to see the current state.", lim, d, None)
  | Some sc =>
      let key := "ipt:" +:+ clientIP s r in
      let '(ok, lim) := Allow (clock 0%nat) key lim in
      if negb ok then (placementRateLimited lang (RetryAfter (clock 1%nat) key lim), lim, d, None)
      else match GetMailboxByToken mailboxToken d with
      | Err _ =>
          (apiError lang 404 "mailbox not found"
             "Dieses Test-Postfach gibt es nicht mehr, wahrscheinlich ist es abgelaufen. Legen Sie auf der Startseite ein neues an und starten Sie den Test dort."
             "This test mailbox no longer exists; it has probably expired. Create a new one on the home page and start the test there.", lim, d, None)
      | Ok mb =>
          match body with
          | None =>
              (apiError lang 400 "invalid body"
                 "Die Anfrage zum Start des Tests ließ sich nicht lesen. Laden Sie die Seite neu und starten Sie den Test erneut."
                 "The request to start the test could not be read. Reload the page and start the test again.", lim, d, None)
          | Some selected =>
              let all := Filter sc selected in
              let providers := healthy_providers h all in
              let unavailable := unhealthy_names h all in
              match all, providers with
              | [], _ =>
                  (apiError lang 400 "no valid providers selected"
                     "Keiner der gewählten Anbieter ist auf diesem Server eingerichtet. Wählen Sie mindestens einen der angezeigten Anbieter aus."
                     "None of the selected providers is set up on this server. Select at least one of the providers shown.", lim, d, None)
              | _, [] =>
                  let names := Join unavailable ", " in
                  (StartUnavailable (mkApiError 503 "all selected providers are currently unavailable"
                     (pickLang lang
                       ("Die gewählten Anbieter sind gerade nicht erreichbar: " +:+ names +:+ ". Wählen Sie andere Anbieter oder starten Sie den Test später erneut.")
                       ("The selected providers cannot be reached right now: " +:+ names +:+ ". Select other providers or start the test again later.")))
                     unavailable, lim, d, None)
              | _, _ =>
                  match newPlacementToken s rand with
                  | None =>
                      (apiError lang 500 "token error"
                         "Der Server konnte kein Token für den Test erzeugen. Starten Sie den Test erneut; tritt der Fehler wieder auf, informieren Sie den Betreiber."
                         "The server could not create a token for the test. Start the test again; if the error persists, tell the operator.", lim, d, None)
                  | Some pt =>
                      match Pick choose providers with
                      | None => (StartPanic, lim, d, None)
                      | Some (infos, accounts) =>
                          let expiresAt := clock 2%nat + IPTTestDuration (ws_cfg s) in
                          match CreatePlacementTest (clock 3%nat) (mb_ID mb) pt infos expiresAt d with
                          | Err _ =>
                              (apiError lang 500 "db error"
                                 "Der Server konnte den Test nicht speichern. Starten Sie den Test erneut; tritt der Fehler wieder auf, informieren Sie den Betreiber."
                                 "The server could not save the test. Start the test again; if the error persists, tell the operator.", lim, d, None)
                          | Ok d' =>
                              (Started pt ("[SR-" +:+ pt +:+ "]") infos expiresAt unavailable, lim, d',
                               Some (mkPollJob infos accounts (p_IMAP <$> providers) pt
                                       (clock 4%nat - IPTSearchMargin (ws_cfg s)) expiresAt
                                       (IPTPollInterval (ws_cfg s)) (IPTSpamFolders (ws_cfg s))))
                          end
                      end
                  end
              end
          end
      end
  end.

End Start.

(** ** Polling in the background

    One goroutine per seed account sends its result into a channel with room for
    all of them, another closes the channel when all are done, and the collector
    writes every result to the database as it arrives. Meanwhile other requests
    change the database. *)

Definition is_timeout (r : ProviderResult) : bool := String.eqb (pr_Status r) "timeout".

(** The status after [collected] of [n] results. *)
Definition collected_status (n : nat) (collected : list ProviderResult) : string :=
  if (List.length collected =? n)%nat then if existsb is_timeout collected then "timeout" else "done" else "running".

Record poll_state := mkPollState {
  ps_pending : list ProviderResult;    (** what the running goroutines will find *)
  ps_channel : list ProviderResult;
  ps_closed : bool;
  ps_collected : list ProviderResult;
  ps_db : DB
}.

Definition test_row (token : string) (d : DB) : option PlacementTest :=
  List.find (fun t => String.eqb (pt_PlacementToken t) token) (placement d).

Section Polling.
Context (token : string) (n : nat).

Inductive poll_step : poll_state -> poll_state -> Prop :=
| poll_send l1 r l2 ch closed col d :
    poll_step (mkPollState (l1 ++ r :: l2) ch closed col d) (mkPollState (l1 ++ l2) (ch ++ [r]) closed col d)
| poll_close ch col d :
    poll_step (mkPollState [] ch false col d) (mkPollState [] ch true col d)
| poll_receive pend r ch closed col d :
    poll_step (mkPollState pend (r :: ch) closed col d)
      (mkPollState pend ch closed (col ++ [r])
        (UpdatePlacementTestResult token (col ++ [r]) (collected_status n (col ++ [r])) d)).

(** A change by others: the row of the test stays or is deleted. *)
Inductive other_step : poll_state -> poll_state -> Prop :=
| other_db pend ch closed col d d' :
    test_row token d' = test_row token d \/ test_row token d' = None ->
    other_step (mkPollState pend ch closed col d) (mkPollState pend ch closed col d').

(** Runs, with the number of steps of the poller. *)
Inductive poll_run : nat -> poll_state -> poll_state -> Prop :=
| run_refl st : poll_run 0 st st
| run_poll k st st' st'' : poll_run k st st' -> poll_step st' st'' -> poll_run (S k) st st''
| run_other k st st' st'' : poll_run k st st' -> other_step st' st'' -> poll_run k st st''.

Definition poll_init (results : list ProviderResult) (d : DB) : poll_state := mkPollState results [] false [] d.

Definition poll_measure (st : poll_state) : nat :=
  2 * List.length (ps_pending st) + List.length (ps_channel st) + (if ps_closed st then 0 else 1).

Definition poll_inv (results : list ProviderResult) (st : poll_state) : Prop :=
  ps_collected st ++ ps_channel st ++ ps_pending st ≡ₚ results
  /\ (ps_closed st = true -> ps_pending st = [])
  /\ match test_row token (ps_db st) with
     | None => True
     | Some t => ps_collected st = [] \/ pt_Results t = ps_collected st /\ pt_Status t = collected_status n (ps_collected st)
     end.

Lemma test_row_update results status d :
  test_row token (UpdatePlacementTestResult token results status d)
  = (fun t => mkPlacementTest (pt_ID t) (pt_MailboxID t) (pt_PlacementToken t) status (pt_CreatedAt t) (pt_ExpiresAt t) (pt_Seeds t) results)
      <$> test_row token d.
Proof.
  unfold test_row, UpdatePlacementTestResult, set_placement. cbn [placement]. by apply find_update_same.
Qed.

Lemma poll_step_inv results st st' : poll_inv results st -> poll_step st st' -> poll_inv results st' /\ (poll_measure st' < poll_measure st)%nat.
Proof.
  intros (Hp & Hc & Hr) Hs. destruct Hs as [l1 r l2 ch closed col d|ch col d|pend r ch closed col d];
    unfold poll_inv, poll_measure in *; cbn [ps_pending ps_channel ps_closed ps_collected ps_db] in *.
  - split; [split_and!|].
    + rewrite <- Hp. rewrite <- (Permutation_middle l1 l2 r), <- !app_assoc. cbn. done.
    + intros H. specialize (Hc H). by destruct l1.
    + done.
    + rewrite !length_app. cbn [List.length]. destruct closed; lia.
  - split; [by split_and!|lia].
  - split; [split_and!|].
    + rewrite <- Hp. by rewrite <- !app_assoc.
    + done.
    + rewrite test_row_update. destruct (test_row token d); cbn; [by right|done].
    + cbn. lia.
Qed.

Lemma other_step_inv results st st' : poll_inv results st -> other_step st st' -> poll_inv results st' /\ poll_measure st' = poll_measure st.
Proof.
  intros (Hp & Hc & Hr) Hs. destruct Hs as [pend ch closed col d d' Hd]. unfold poll_inv, poll_measure in *. cbn in *.
  split; [|done]. split_and!; [done|done|]. by destruct Hd as [-> | ->].
Qed.

Lemma poll_run_inv results k st st' :
  poll_inv results st -> poll_run k st st' -> poll_inv results st' /\ (k + poll_measure st' <= poll_measure st)%nat.
Proof.
  intros Hi Hr. induction Hr as [st|k st st1 st2 Hr IH Hs|k st st1 st2 Hr IH Hs]; [split; [done|lia]| |].
  - destruct (IH Hi) as [Hi1 Hm]. destruct (poll_step_inv _ _ _ Hi1 Hs) as [Hi2 Hm2]. split; [done|lia].
  - destruct (IH Hi) as [Hi1 Hm]. destruct (other_step_inv _ _ _ Hi1 Hs) as [Hi2 Hm2]. split; [done|lia].
Qed.

Lemma poll_progress st : (forall st', ~ poll_step st st') -> ps_pending st = [] /\ ps_channel st = [] /\ ps_closed st = true.
Proof.
  intros Hno. destruct st as [pend ch closed col d]. cbn. destruct pend as [|r pend].
  - destruct ch as [|r ch]; [|by destruct (Hno _ (poll_receive [] r ch closed col d))].
    destruct closed; [done|]. by destruct (Hno _ (poll_close [] col d)).
  - by destruct (Hno _ (poll_send [] r pend ch closed col d)).
Qed.
End Polling.

Lemma poll_completes token results d k st :
  results <> [] -> poll_run token (List.length results) k (poll_init results d) st ->
  (k <= 2 * List.length results + 1)%nat
  /\ ((forall st', ~ poll_step token (List.length results) st st') ->
      ps_collected st ≡ₚ results
      /\ match test_row token (ps_db st) with
         | None => True
         | Some t => pt_Results t ≡ₚ results /\ pt_Status t = (if existsb is_timeout results then "timeout" else "done")
         end).
Proof.
  intros Hne Hr. assert (Hi : poll_inv token (List.length results) results (poll_init results d)).
  { split_and!; [done|done|]. cbn. destruct (test_row token d); [by left|done]. }
  destruct (poll_run_inv _ _ _ _ _ _ Hi Hr) as [(Hp & _ & Hrow) Hm]. split; [unfold poll_measure in Hm; cbn in Hm; lia|].
  intros Hno. destruct (poll_progress _ _ _ Hno) as (E1 & E2 & E3). rewrite E1, E2, !app_nil_r in Hp. split; [done|].
  destruct (test_row token (ps_db st)) as [t|]; [|done]. destruct Hrow as [Hn|[-> ->]].
  { rewrite Hn in Hp. apply Permutation_nil_l in Hp. by subst results. }
  split; [done|]. unfold collected_status. rewrite Hp, Nat.eqb_refl.
  assert (He : existsb is_timeout (ps_collected st) = existsb is_timeout results); [|by rewrite He].
  apply eq_true_iff_eq. rewrite !existsb_exists. setoid_rewrite <- list_elem_of_In. setoid_rewrite Hp. done.
Qed.

(** A placement test comes to its end whatever happens around it. Under every
    interleaving of the goroutines, the collector and other requests, the poller
    makes at most 2n+1 steps for n accounts, and when it can make no more, every account
    has reported exactly once and the stored test, unless it was deleted meanwhile,
    holds all results and is marked as timed out if one account timed out, as done otherwise. *)
Theorem placement_test_completes token results d k st :
  results <> [] -> poll_run token (List.length results) k (poll_init results d) st ->
  (k <= 2 * List.length results + 1)%nat
  /\ ((forall st', ~ poll_step token (List.length results) st st') ->
      ps_collected st ≡ₚ results
      /\ match test_row token (ps_db st) with
         | None => True
         | Some t => pt_Results t ≡ₚ results /\ pt_Status t = (if existsb is_timeout results then "timeout" else "done")
         end).
Proof. apply poll_completes. Qed.

Lemma placement_test_completes_witness :
  let r1 := mkProviderResult "Gmail" "a@gmail.com" "inbox" "INBOX" 5 in
  let r2 := mkProviderResult "GMX" "c@gmx.net" "timeout" "" 9 in
  exists st, poll_run "tok" 2 5 (poll_init [r1; r2] sample_db) st /\ (5 <= 5)%nat /\ ps_collected st ≡ₚ [r1; r2].
Proof.
  intros r1 r2. set (run := poll_run "tok" 2).
  assert (H : run 5%nat (poll_init [r1; r2] sample_db)
    (mkPollState [] [] true ([] ++ [r2] ++ [r1])
      (UpdatePlacementTestResult "tok" ([] ++ [r2] ++ [r1]) (collected_status 2 ([] ++ [r2] ++ [r1]))
        (UpdatePlacementTestResult "tok" [r2] (collected_status 2 [r2]) sample_db)))).
  { eapply run_poll; [eapply run_poll; [eapply run_poll; [eapply run_poll; [eapply run_poll; [apply run_refl|]|]|]|]|].
    - apply (poll_send "tok" 2 [r1] r2 [] [] false [] sample_db).
    - apply (poll_receive "tok" 2 [r1] r2 [] false [] sample_db).
    - apply (poll_send "tok" 2 [] r1 [] [] false [r2]).
    - apply (poll_close "tok" 2 [r1] [r2]).
    - apply (poll_receive "tok" 2 [] r1 [] true [r2]). }
  eexists. split; [exact H|]. split; [lia|].
  destruct (placement_test_completes "tok" [r1; r2] sample_db 5 _ ltac:(discriminate) H) as [_ Hend]. apply Hend.
  intros st' Hs. inversion Hs as [l1| |]. by destruct l1.
Defined.

(** ** The start of a test *)

Lemma GetPlacementTest_created now id token infos exp d d' :
  CreatePlacementTest now id token infos exp d = Ok d' ->
  GetPlacementTest token d' = Ok (mkPlacementTest (seq_placement d + 1) id token "waiting" now exp infos []).
Proof.
  unfold CreatePlacementTest. case_if; [done|]. case_if; [done|]. intros E. injection E as <-.
  unfold GetPlacementTest, query_row. cbn [placement]. rewrite find_snoc, find_none_existsb by done.
  cbn. by rewrite String.eqb_refl.
Qed.

Section StartTheorems.
Context (s : web_server) (sc : SeedConfig).

(** What is started fits the configuration: account by account, the host belongs
    to the provider and the account to the host. *)
Definition job_fits (h : health) (j : poll_job) : Prop :=
  List.length (pj_accounts j) = List.length (pj_infos j) /\ List.length (pj_hosts j) = List.length (pj_infos j)
  /\ forall k info, pj_infos j !! k = Some info ->
       exists p a, p ∈ Providers sc /\ provider_healthy h p = true /\ a ∈ p_Accounts p
         /\ info = mkSeedInfo (p_Name p) (acc_User a) /\ pj_accounts j !! k = Some a /\ pj_hosts j !! k = Some (p_IMAP p).

Lemma Filter_sub selected p : p ∈ Filter sc selected -> p ∈ Providers sc.
Proof. unfold Filter. destruct selected; [done|]. rewrite list_elem_of_In, filter_In, <- list_elem_of_In. by intros []. Qed.

Lemma Validate_accounts p : Validate sc = Ok () -> p ∈ Providers sc -> p_Accounts p <> [].
Proof. unfold Validate. destruct (Providers sc) as [|q l]; [done|]. apply validate_providers_accounts. Qed.

Lemma picked_job_fits h choose selected infos accounts :
  Validate sc = Ok () -> healthy_providers h (Filter sc selected) <> [] ->
  Pick choose (healthy_providers h (Filter sc selected)) = Some (infos, accounts) ->
  infos <> [] /\ forall token since deadline iv folders,
    job_fits h (mkPollJob infos accounts (p_IMAP <$> healthy_providers h (Filter sc selected)) token since deadline iv folders).
Proof.
  intros Hv Hne Hpick. set (ps := healthy_providers h (Filter sc selected)) in *.
  assert (Hps : forall p, p ∈ ps -> p ∈ Providers sc /\ provider_healthy h p = true).
  { intros p. unfold ps, healthy_providers. rewrite list_elem_of_In, filter_In, <- list_elem_of_In. intros [Hp Hh]. split; [by eapply Filter_sub|done]. }
  destruct (pick_from_ok choose 0 ps) as (i & a & Hp & Hl1 & Hl2 & Hk).
  { intros p Hp. apply Validate_accounts; [done|]. by apply Hps. }
  unfold Pick in Hpick. rewrite Hp in Hpick. injection Hpick as <- <-. split.
  { intros ->. cbn in Hl1. by destruct ps. }
  intros. split_and!; cbn [pj_accounts pj_infos pj_hosts]; [lia|by rewrite length_fmap|].
  intros k info Hinfo. assert (Hlt : (k < List.length ps)%nat) by (rewrite <- Hl1; by eapply lookup_lt_Some).
  apply lookup_lt_is_Some in Hlt as [p Hpk]. destruct (Hk k p Hpk) as (acc & Ha & Hin & Hi).
  destruct (Hps p ltac:(by eapply list_elem_of_lookup_2)). exists p, acc. split_and!; [done|done|done|congruence|done|].
  by rewrite list_lookup_fmap, Hpk.
Qed.


End StartTheorems.

Definition sample_start : start_response * Limiter * DB * option poll_job :=
  iptStartAPI plain_server (Some sample_seeds) "en" (fun _ => 1000) (fun n => Some (zeros n)) (fun _ n => n - 1)%nat
    (post "/api/mailboxes/tok/ipt/start") "tok" (Some ["GMX"]) ∅ (New hour 3) sample_db.


(** ** Alerts *)

Definition status_key (st : AccountStatus) : string := health_key (as_Provider st) (as_User st).

(** Was the account working, as far as known? *)
Definition was_fine (h : health) (st : AccountStatus) : bool :=
  match h !! status_key st with Some prev => as_OK prev | None => true end.

Lemma update_health_spec statuses acc h :
  NoDup (status_key <$> statuses) ->
  let '(failed, h') := fold_left health_step statuses (acc, h) in
  failed = acc ++ List.filter (fun st => negb (as_OK st) && was_fine h st) statuses
  /\ (forall st, st ∈ statuses -> h' !! status_key st = Some st)
  /\ (forall k, k ∉ status_key <$> statuses -> h' !! k = h !! k).
Proof.
  revert acc h. induction statuses as [|st l IH]; intros acc h Hn.
  { cbn. split_and!; [by rewrite app_nil_r|by intros st ?%not_elem_of_nil|done]. }
  apply NoDup_cons in Hn as [Hst Hn]. cbn [fold_left].
  destruct (health_step (acc, h) st) as [acc1 h1] eqn:E. specialize (IH acc1 h1 Hn).
  destruct (fold_left health_step l (acc1, h1)) as [failed h']. destruct IH as (-> & H2 & H3).
  assert (Hacc : acc1 = acc ++ (if negb (as_OK st) && was_fine h st then [st] else []) /\ h1 = <[status_key st := st]> h).
  { unfold health_step in E. fold (status_key st) in E. fold (was_fine h st) in E. injection E as <- <-. split; [|done].
    case_if; [done|by rewrite app_nil_r]. }
  destruct Hacc as [-> ->]. split_and!.
  - rewrite <- app_assoc. f_equal. cbn [List.filter].
    assert (Hf : List.filter (fun x => negb (as_OK x) && was_fine (<[status_key st := st]> h) x) l
                 = List.filter (fun x => negb (as_OK x) && was_fine h x) l).
    { apply List.filter_ext_in. intros x Hx%list_elem_of_In. unfold was_fine. rewrite lookup_insert_ne; [done|].
      intros Heq. apply Hst. rewrite Heq. by apply list_elem_of_fmap_2. }
    rewrite Hf. by case_if.
  - intros x [->|Hx]%elem_of_cons; [|by apply H2]. rewrite H3 by done. apply lookup_insert_eq.
  - intros k. rewrite fmap_cons, not_elem_of_cons. intros [Hk1 Hk2]. rewrite H3 by done. by apply lookup_insert_ne.
Qed.

(** An account is reported when it fails after it worked (or at its first check),
    and not again while it stays broken. *)
Theorem alert_once_per_outage statuses h failed h' :
  NoDup (status_key <$> statuses) -> update_health statuses h = (failed, h') ->
  failed = List.filter (fun st => negb (as_OK st) && was_fine h st) statuses
  /\ forall later, (status_key <$> later) = (status_key <$> statuses) -> (as_OK <$> later) = (as_OK <$> statuses) ->
     fst (update_health later h') = [].
Proof.
  intros Hn Hu. unfold update_health in *. pose proof (update_health_spec statuses [] h Hn) as H. rewrite Hu in H.
  destruct H as (-> & H2 & _). split; [done|]. intros later Hk Ho.
  pose proof (update_health_spec later [] h' ltac:(by rewrite Hk)) as H. destruct (fold_left health_step later ([], h')) as [f h''].
  destruct H as (-> & _). cbn [fst app].
  assert (Hnone : forall x, x ∈ later -> negb (as_OK x) && was_fine h' x = false).
  { intros x (i & Hx)%list_elem_of_lookup_1. apply (f_equal (fun l => l !! i)) in Hk. apply (f_equal (fun l => l !! i)) in Ho.
    rewrite !list_lookup_fmap, Hx in Hk. rewrite !list_lookup_fmap, Hx in Ho.
    destruct (statuses !! i) as [y|] eqn:Hy; [|done]. cbn in Hk, Ho. injection Hk as Hk. injection Ho as Ho.
    assert (Hf : was_fine h' x = as_OK y) by (unfold was_fine; by rewrite Hk, (H2 y) by (by eapply list_elem_of_lookup_2)).
    rewrite Hf, Ho. by destruct (as_OK y). }
  clear -Hnone. induction later as [|x l IH]; [done|]. cbn. rewrite Hnone by (by left). apply IH. intros y Hy. apply Hnone. by right.
Qed.

(** ** What the health check does not prevent *)

(** A provider stays available while one account works, but the account of a test is drawn
    from all of them. *)
Example broken_account_is_polled :
  let h : health := {["Gmail:b@gmail.com" := mkAccountStatus "Gmail" "b@gmail.com" "imap.gmail.com:993" false "auth failed" 1]} in
  let '(_, _, _, job) := iptStartAPI plain_server (Some sample_seeds) "en" (fun _ => 1000) (fun n => Some (zeros n)) (fun _ n => n - 1)%nat
    (post "/api/mailboxes/tok/ipt/start") "tok" (Some ["Gmail"]) h (New hour 3) sample_db in
  option_map pj_infos job = Some [mkSeedInfo "Gmail" "b@gmail.com"].
Proof. vm_compute. reflexivity. Qed.

(** Without a sender address no mail goes out, and the call still reports success. *)
Example alert_without_sender : forall stamp now st, SendIPTAlert (mkMailerConfig "mx:587" "" "" "" true) stamp now "ops@example.org" [st] = None.
Proof. reflexivity. Qed.
