(* ===== verification/WebPages.v ===== *)
(** * Pages and downloads of a mailbox (internal/web/server.go)

    The pages that show stored data (mailbox, report, raw source, report as JSON
    or PDF), the views of a message body, and the dispatch of the mailbox API. Templates
    and the PDF library get the data and are not modelled; the decoders of
    quoted-printable and of charsets are parameters. *)

From S2P Require Import Prelude F64 GoStrings GoTime GoNet Model Score Ipt RateLimit Store SealedBox Ingest Config WebRequest WebApi.
From S2P Require Import GoSort Regex Spf Checks Dkim MailHeaders Body Content Blocklists DomainChecks SpamFilters Views Lang.

Local Open Scope string_scope.
Local Open Scope list_scope.
Local Open Scope Z_scope.

(** ** Views of a body *)

(** [io.ReadAll] on a reader limited to [limit] bytes; [None] is the reader's error. *)
Definition read_all (data : string) (fails : bool) (limit : Z) : option string :=
  if limit <=? size data then Some (stake (Z.to_nat limit) data) else if fails then None else Some data.

Definition removeWhitespace (s : string) : string := TrimSpace (removeCRLF s).

(** [htmlTagPattern.ReplaceAllString(s, " ")]: a tag ends at the first ">" after
    its "<"; without one there is no tag. *)
Fixpoint replace_tags (s : string) (inside : bool) : string :=
  match s with
  | EmptyString => EmptyString
  | String a rest =>
      if inside then replace_tags rest (negb (Ascii.eqb a ">"))
      else if Ascii.eqb a "<" && selem ">" rest then String " " (replace_tags rest true)
      else String a (replace_tags rest false)
  end.

Definition stripHTMLTags (s : string) : string := Join (Fields (replace_tags s false)) " ".

Section BodyViews.
Context (lib : body_lib) (quotedprintable : string -> option string) (charset_reader : string -> string -> option string).

Definition decodeCharset (headers : mail_header) (body : string) : string :=
  let mt := bl_ParseMediaType lib (Get headers "Content-Type") in
  if mt_Err mt then body
  else
    let label := TrimSpace (param mt "charset") in
    if isEmpty label then body else default body (charset_reader label body).

Definition decodeTransferBody (headers : mail_header) (body : string) : string :=
  let enc := ToLower (TrimSpace (Get headers "Content-Transfer-Encoding")) in
  decodeCharset headers
    (if String.eqb enc "base64" then default body (DecodeString (removeWhitespace body))
     else if String.eqb enc "quoted-printable" then default body (quotedprintable body)
     else body).

Definition view_limit : Z := 3 * 1024 * 1024.

(** The first text that is not empty. *)
Definition keep_first (old new : string) : string := if isEmpty old && negb (isEmpty new) then new else old.

(** Plain text and HTML source. The recursion has no limit of its own; [None]: out of fuel. *)
Fixpoint extractBodyViews (fuel : nat) (headers : mail_header) (body : string) : option (string * string) :=
  match fuel with
  | O => None
  | S fuel =>
      let mt := bl_ParseMediaType lib (Get headers "Content-Type") in
      let decoded := TrimSpace (decodeTransferBody headers body) in
      if mt_Err mt then Some (decoded, "")
      else
        let mediaType := ToLower (TrimSpace (mt_Type mt)) in
        if HasPrefix mediaType "multipart/" then
          let boundary := TrimSpace (param mt "boundary") in
          if isEmpty boundary then Some (decoded, "")
          else
            let views := fold_left (fun acc part =>
              match acc, read_all (mp_Data part) (mp_Fails part) view_limit with
              | Some (p, h), Some b =>
                  match extractBodyViews fuel (mp_Header part) b with
                  | Some (pText, pHTML) => Some (keep_first p pText, keep_first h pHTML)
                  | None => None
                  end
              | acc, _ => acc
              end) (bl_Parts lib body boundary) (Some ("", "")) in
            (fun v => (TrimSpace (fst v), TrimSpace (snd v))) <$> views
        else if String.eqb mediaType "text/html" then Some ("", decoded)
        else Some (decoded, "")
  end.

Definition message_limit : Z := 5 * 1024 * 1024.

Context (ReadMessage : string -> outcome string (mail_header * string * bool)).

(** The fuel is the size of the body, which bounds the depth of its parts. *)
Definition messageBodyViews (raw : string) : option (string * string) :=
  match ReadMessage raw with
  | Err _ => Some ("", "")
  | Ok (headers, data, fails) =>
      match read_all data fails message_limit with
      | None => Some ("", "")
      | Some body =>
          (fun v => let '(p, h) := v in
                    let p := if isEmpty p && negb (isEmpty h) then TrimSpace (stripHTMLTags h) else p in
                    (TrimSpace p, TrimSpace h)) <$> extractBodyViews (S (String.length body)) headers body
      end
  end.

End BodyViews.

(** ** Pages *)

(** A status without content, or the content of a successful answer. *)
Inductive page (A : Type) : Type :=
| Status (code : Z)
| Shown (a : A).
Arguments Status {A} code.
Arguments Shown {A} a.

(** What comes after the prefix of a route, when it is one segment. *)
Definition path_token (prefix : string) (r : request) : option string :=
  let token := TrimPrefix (rq_Path r) prefix in
  if isEmpty token || Contains token "/" then None else Some token.

Record mailbox_view := mkMailboxView {
  mv_Mailbox : Mailbox;
  mv_Messages : list MessageWithReport;
  mv_Now : Z;
  mv_PublicURL : string;
  mv_Lang : string;
  mv_RetentionDays : Z
}.

Record report_view := mkReportView {
  rv_Message : Message;
  rv_Mailbox : Mailbox;
  rv_Report : AnalysisReport;
  rv_Statuses : gmap string Z;
  rv_CheckGroups : list ReportCheckGroup;
  rv_LinkGroups : list ReportLinkGroup;
  rv_HeroTitle : string;
  rv_HeroSubtitle : string;
  rv_PlainTextBody : string;
  rv_HTMLSourceBody : string;
  rv_Encrypted : bool;
  rv_MsgRef : string
}.

Definition set_checks (r : AnalysisReport) (checks : list CheckResult) : AnalysisReport :=
  mkReport (r_ID r) (r_MessageID r) (r_CreatedAt r) (r_Score r) (r_ScoreLabel r) (r_MailType r) checks (r_Warnings r)
    (r_Suggestions r) (r_RawHeaders r) (r_Links r) (r_SpamSignals r).

Definition statuses_of (checks : list CheckResult) : gmap string Z :=
  fold_left (fun m c => <[c_Status c := default 0 (m !! c_Status c) + 1]> m) checks
    {["pass" := 0; "warn" := 0; "fail" := 0; "info" := 0]}.

Section Pages.
Context {C : Crypto} (s : web_server) (lang : request -> string).
Context (views : string -> option (string * string)) (Hostname : string -> option string).

(** Whole days of the retention time: [int(d.Hours() / 24)]. *)
Definition retention_days : Z := ftrunc (fdiv (Hours (RetentionTTL (ws_cfg s))) (f_of_Z 24)).

Definition mailboxPage (now : nat -> Z) (r : request) (d : DB) : page mailbox_view * DB :=
  if negb (String.eqb (rq_Method r) "GET") then (Status 405, d)
  else match path_token "/mailbox/" r with
  | None => (Status 404, d)
  | Some token =>
      match GetMailboxByToken token d with
      | Err ErrNotFound => (Status 404, d)
      | Err _ => (Status 500, d)
      | Ok mb =>
          let d := TouchMailbox (now 0%nat) (mb_ID mb) d in
          (Shown (mkMailboxView mb (ListMessagesWithReports (mb_ID mb) 30 d) (now 1%nat) (publicBaseURL s r) (lang r) retention_days), d)
      end
  end.

(** The message asked for, or the newest one with a report. *)
Definition select_report (token : string) (msgs : list MessageWithReport) (msgRef : string) : option MessageWithReport :=
  match selectMessageWithReport token msgs (TrimSpace msgRef) with
  | Some x => Some x
  | None => List.find (fun x => match mwr_Report x with Some _ => true | None => false end) msgs
  end.

(** [msg]: the query parameter. [None] when the views of the body run out of fuel. *)
Definition reportPage (r : request) (msg : string) (d : DB) : option (page report_view) :=
  if negb (String.eqb (rq_Method r) "GET") then Some (Status 405)
  else match path_token "/report/" r with
  | None => Some (Status 404)
  | Some token =>
      match GetMailboxByToken token d with
      | Err _ => Some (Status 404)
      | Ok mb =>
          match select_report token (ListMessagesWithReports (mb_ID mb) 100 d) msg with
          | Some (mkMessageWithReport m (Some rep)) =>
              match (if Encrypted m then Some ("", "") else views (m_RawSource m)) with
              | None => None
              | Some (plainText, htmlSource) =>
                  let checks := sortChecks (r_Checks rep) in
                  Some (Shown (mkReportView m mb (set_checks rep checks) (statuses_of checks)
                    (groupReportChecks checks (lang r)) (groupLinksByDomain Hostname (r_Links rep))
                    (reportHeroTitle (r_Score rep) (lang r)) (reportHeroSubtitle (r_Score rep) (lang r))
                    plainText htmlSource (Encrypted m) (messageReference (mb_Token mb) (m_ID m))))
              end
          | _ => Some (Status 404)
          end
      end
  end.

Definition rawPage (r : request) (d : DB) : page string :=
  if negb (String.eqb (rq_Method r) "GET") then Status 405
  else match Split (TrimPrefix (rq_Path r) "/raw/") "/" with
  | [p0; p1; p2] =>
      let token := TrimSpace p0 in
      let msgRef := TrimSpace p1 in
      let part := TrimSpace p2 in
      if isEmpty token || isEmpty msgRef then Status 404
      else match GetMailboxByToken token d with
      | Err _ => Status 404
      | Ok mb =>
          match List.find (fun m => String.eqb (messageReference token (m_ID m)) msgRef) (ListMessagesByMailbox (mb_ID mb) 500 d) with
          | None => Status 404
          | Some m =>
              if String.eqb part "headers" then Shown (m_HeaderBlock m)
              else if String.eqb part "source" then Shown (m_RawSource m)
              else Status 404
          end
      end
  | _ => Status 404
  end.

Definition reportAPI (r : request) (d : DB) : page (Mailbox * Message * AnalysisReport) :=
  if negb (String.eqb (rq_Method r) "GET") then Status 405
  else match Split (TrimPrefix (rq_Path r) "/api/reports/") "/" with
  | [p0; p1] =>
      let token := TrimSpace p0 in
      let msgRef := TrimSpace p1 in
      if isEmpty token || isEmpty msgRef then Status 404
      else match GetMailboxByToken token d with
      | Err _ => Status 404
      | Ok mb =>
          match selectMessageWithReport token (ListMessagesWithReports (mb_ID mb) 500 d) msgRef with
          | Some (mkMessageWithReport m (Some rep)) => Shown (mb, m, rep)
          | _ => Status 404
          end
      end
  | _ => Status 404
  end.

(** *** PDF *)

Record pdf_options := mkPdfOptions {
  po_Pass : bool; po_Warn : bool; po_Fail : bool; po_Info : bool; po_Hero : bool; po_Meta : bool; po_Details : bool
}.

(** A query parameter; missing means yes. *)
Definition boolParam (q : string -> string) (key : string) : bool :=
  let v := q key in if isEmpty v then true else String.eqb v "1" || String.eqb v "true".

Definition pdf_options_of (q : string -> string) : pdf_options :=
  mkPdfOptions (boolParam q "pass") (boolParam q "warn") (boolParam q "fail") (boolParam q "info")
    (boolParam q "hero") (boolParam q "meta") (boolParam q "details").

Record pdf_download := mkPdfDownload {
  pd_Mailbox : Mailbox;
  pd_Message : Message;
  pd_Report : AnalysisReport;
  pd_Groups : list ReportCheckGroup;
  pd_Options : pdf_options;
  pd_FileName : string
}.

(** [None]: the panic of [token[:8]]. The generator gets the data of the result. *)
Definition reportPDFHandler (r : request) (q : string -> string) (d : DB) : option (page pdf_download) :=
  if negb (String.eqb (rq_Method r) "GET") then Some (Status 405)
  else match path_token "/api/pdf/" r with
  | None => Some (Status 404)
  | Some token =>
      match GetMailboxByToken token d with
      | Err _ => Some (Status 404)
      | Ok mb =>
          match ListMessagesWithReports (mb_ID mb) 1 d with
          | mkMessageWithReport m (Some _) :: _ =>
              match GetReportByMessageID (m_ID m) d with
              | Err _ => Some (Status 404)
              | Ok rep =>
                  if (String.length token <? 8)%nat then None
                  else Some (Shown (mkPdfDownload mb m rep (groupReportChecks (r_Checks rep) (lang r)) (pdf_options_of q)
                               ("deliverability-report-" +:+ stake 8 token +:+ ".pdf")))
              end
          | _ => Some (Status 404)
          end
      end
  end.

End Pages.

(** ** The views of a body always end *)

(** A part is a piece of the body between two boundary lines. *)
Definition parts_shrink (lib : body_lib) : Prop :=
  forall body boundary part, part ∈ bl_Parts lib body boundary -> (String.length (mp_Data part) < String.length body)%nat.

Lemma read_all_size data fails limit b : read_all data fails limit = Some b -> (String.length b <= String.length data)%nat.
Proof.
  unfold read_all. case_if; [|case_if; [done|]]; intros E; injection E as <-; [|done]. rewrite slength_stake. lia.
Qed.

Lemma extractBodyViews_total lib qp cs fuel headers body :
  parts_shrink lib -> (String.length body < fuel)%nat -> is_Some (extractBodyViews lib qp cs fuel headers body).
Proof.
  intros Hs. revert headers body. induction fuel as [|fuel IH]; intros headers body Hf; [lia|]. cbn [extractBodyViews].
  case_if; [eauto|]. case_if; [|case_if; eauto]. case_if; [eauto|].
  assert (Hfold : forall parts v, (forall p, p ∈ parts -> (String.length (mp_Data p) < String.length body)%nat) -> is_Some
    (fold_left (fun acc part =>
       match acc, read_all (mp_Data part) (mp_Fails part) view_limit with
       | Some (p, h), Some b =>
           match extractBodyViews lib qp cs fuel (mp_Header part) b with
           | Some (pText, pHTML) => Some (keep_first p pText, keep_first h pHTML)
           | None => None
           end
       | acc, _ => acc
       end) parts (Some v))).
  { induction parts as [|part parts IHp]; intros [p h] Hp; cbn [fold_left]; [eauto|].
    destruct (read_all _ _ _) as [b|] eqn:Hr; [|apply IHp; set_solver].
    destruct (IH (mp_Header part) b) as [[pt ht] ->].
    { apply read_all_size in Hr. pose proof (Hp part ltac:(left)). lia. }
    apply IHp. set_solver. }
  destruct (Hfold (bl_Parts lib body (TrimSpace (param (bl_ParseMediaType lib (Get headers "Content-Type")) "boundary"))) ("", "")) as [v Hv].
  - intros p Hp. by eapply Hs.
  - rewrite Hv. cbn. eauto.
Qed.

(** The view of a message is found for every message, however its parts are nested. *)
Theorem body_views_total lib qp cs ReadMessage raw :
  parts_shrink lib -> is_Some (messageBodyViews lib qp cs ReadMessage raw).
Proof.
  intros Hs. unfold messageBodyViews. destruct (ReadMessage raw) as [[[headers data] fails]|]; [|eauto].
  destruct (read_all data fails message_limit) as [body|]; [|eauto].
  destruct (extractBodyViews_total lib qp cs (S (String.length body)) headers body Hs ltac:(lia)) as [v ->]. cbn. eauto.
Qed.

(** A toy format: a body of letters m is a multipart with the rest as its only part,
    anything else is text. *)
Definition nested_header (body : string) : mail_header :=
  {["Content-Type" := [if HasPrefix body "m" then "multipart/mixed" else "text/plain"]]}.
Definition nested_lib : body_lib :=
  mkBodyLib (fun ct => mkMediaType ct {["boundary" := "b"]} false)
    (fun body _ => match body with String a rest => [mkPart (nested_header rest) rest false ""] | EmptyString => [] end)
    (fun _ => None).
Definition deep_body : string := "mmmmmmmmmmmmBuy now".

(** The analyzer stops at the eleventh level of a message, the report page does not. *)
Example page_reads_deeper_than_analyzer :
  extractBodyViews nested_lib (fun _ => None) (fun _ _ => None) 20 (nested_header deep_body) deep_body = Some ("Buy now", "")
  /\ pb_Text (walkMIMEParts nested_lib (maxMIMEDepth + 1) (mkParsedBody "" "" "" 0 false false 0 0 "") deep_body "b") = "".
Proof. split; vm_compute; reflexivity. Qed.

(** ** What a token opens *)

Lemma ListMessagesWithReports_sound id limit d x :
  x ∈ ListMessagesWithReports id limit d ->
  mwr_Message x ∈ messages d /\ m_MailboxID (mwr_Message x) = id
  /\ forall rep, mwr_Report x = Some rep -> r_MessageID rep = m_ID (mwr_Message x).
Proof.
  unfold ListMessagesWithReports. intros (m & -> & Hm)%list_elem_of_fmap.
  apply (ListMessagesByMailbox_sound id limit d m) in Hm as [Hm Hown]. split_and!; [done|done|]. cbn. intros rep Hrep.
  destruct (List.find _ _) as [row|] eqn:Hf; [|done]. injection Hrep as <-. apply List.find_some in Hf as [_ Hf%Z.eqb_eq]. done.
Qed.

Lemma GetMailboxByToken_token token d mb : GetMailboxByToken token d = Ok mb -> mb_Token mb = token /\ mb ∈ mailboxes d.
Proof.
  unfold GetMailboxByToken, query_row. destruct (List.find _ _) as [x|] eqn:Hf; [|done]. intros E. injection E as <-.
  apply List.find_some in Hf as [Hin Ht%String.eqb_eq]. split; [done|by apply list_elem_of_In].
Qed.

(** A message, and possibly its report, of the mailbox with this token. *)
Definition owned (d : DB) (token : string) (m : Message) : Prop :=
  exists mb, mb ∈ mailboxes d /\ mb_Token mb = token /\ m ∈ messages d /\ m_MailboxID m = mb_ID mb.

Section Access.
Context {C : Crypto} (lang : request -> string).
Context (views : string -> option (string * string)) (Hostname : string -> option string).

Lemma select_sound token limit d mb x :
  GetMailboxByToken token d = Ok mb -> x ∈ ListMessagesWithReports (mb_ID mb) limit d ->
  owned d token (mwr_Message x) /\ forall rep, mwr_Report x = Some rep -> r_MessageID rep = m_ID (mwr_Message x).
Proof.
  intros Hmb Hx. apply GetMailboxByToken_token in Hmb as [Ht Hin].
  apply ListMessagesWithReports_sound in Hx as (H1 & H2 & H3). split; [|done]. by exists mb.
Qed.

Lemma selectMessageWithReport_in token msgs ref x :
  selectMessageWithReport token msgs ref = Some x -> x ∈ msgs.
Proof. unfold selectMessageWithReport. case_if; [done|]. intros [H _]%List.find_some. by apply list_elem_of_In. Qed.

Lemma select_report_in token msgs ref x : select_report token msgs ref = Some x -> x ∈ msgs.
Proof.
  unfold select_report. destruct (selectMessageWithReport _ _ _) as [y|] eqn:E.
  - intros H. injection H as <-. by eapply selectMessageWithReport_in.
  - intros [H _]%List.find_some. by apply list_elem_of_In.
Qed.

Lemma reportPage_scope r msg d v :
  reportPage lang views Hostname r msg d = Some (Shown v) ->
  exists token, path_token "/report/" r = Some token /\ owned d token (rv_Message v)
    /\ r_MessageID (rv_Report v) = m_ID (rv_Message v)
    /\ (Encrypted (rv_Message v) = true -> rv_PlainTextBody v = "" /\ rv_HTMLSourceBody v = "").
Proof.
  unfold reportPage. case_if; [done|]. destruct (path_token "/report/" r) as [token|] eqn:Ht; [|done].
  destruct (GetMailboxByToken token d) as [mb|] eqn:Hmb; [|done].
  destruct (select_report _ _ _) as [[m [rep|]]|] eqn:Hs; [|done|done]. apply select_report_in in Hs.
  destruct (select_sound token 100 d mb _ Hmb Hs) as [Ho Hr]. cbn in Ho. specialize (Hr rep eq_refl). cbn in Hr.
  destruct (Encrypted m) eqn:He; [|destruct (views (m_RawSource m)) as [[p h]|]; [|done]];
    intros E; injection E as <-; exists token; cbn [rv_Message rv_Report rv_PlainTextBody rv_HTMLSourceBody];
    rewrite He; by split_and!.
Qed.

Lemma rawPage_scope r d text :
  rawPage r d = Shown text ->
  exists p0 p1 p2 m, Split (TrimPrefix (rq_Path r) "/raw/") "/" = [p0; p1; p2] /\ owned d (TrimSpace p0) m
    /\ (text = m_HeaderBlock m \/ text = m_RawSource m).
Proof.
  unfold rawPage. case_if; [done|]. destruct (Split _ _) as [|p0 [|p1 [|p2 [|]]]] eqn:Hsp; try done. cbv zeta.
  case_if; [done|]. destruct (GetMailboxByToken _ d) as [mb|] eqn:Hmb; [|done].
  destruct (List.find _ _) as [m|] eqn:Hf; [|done]. apply List.find_some in Hf as [Hin _].
  apply list_elem_of_In, ListMessagesByMailbox_sound in Hin as [Hin Hown]. apply GetMailboxByToken_token in Hmb as [Ht Hb].
  intros E. exists p0, p1, p2, m. split_and!; [done|by exists mb|].
  case_if_in E; [injection E as <-; by left|]. case_if_in E; [injection E as <-; by right|done].
Qed.

Lemma reportAPI_scope r d mb m rep :
  reportAPI r d = Shown (mb, m, rep) ->
  exists p0 p1, Split (TrimPrefix (rq_Path r) "/api/reports/") "/" = [p0; p1] /\ mb_Token mb = TrimSpace p0
    /\ owned d (TrimSpace p0) m /\ r_MessageID rep = m_ID m.
Proof.
  unfold reportAPI. case_if; [done|]. destruct (Split _ _) as [|p0 [|p1 [|]]] eqn:Hsp; try done. cbv zeta.
  case_if; [done|]. destruct (GetMailboxByToken _ d) as [mb'|] eqn:Hmb; [|done].
  destruct (selectMessageWithReport _ _ _) as [[m' [rep'|]]|] eqn:Hs; [|done|done]. apply selectMessageWithReport_in in Hs.
  destruct (select_sound _ 500 d mb' _ Hmb Hs) as [Ho Hr]. intros E. injection E as <- <- <-.
  exists p0, p1. split_and!; [done|by apply GetMailboxByToken_token in Hmb as [-> _]|done|by apply Hr].
Qed.

Lemma reportPDF_scope r q d v :
  reportPDFHandler lang r q d = Some (Shown v) ->
  exists token, path_token "/api/pdf/" r = Some token /\ owned d token (pd_Message v)
    /\ r_MessageID (pd_Report v) = m_ID (pd_Message v).
Proof.
  unfold reportPDFHandler. case_if; [done|]. destruct (path_token "/api/pdf/" r) as [token|] eqn:Ht; [|done].
  destruct (GetMailboxByToken token d) as [mb|] eqn:Hmb; [|done].
  destruct (ListMessagesWithReports (mb_ID mb) 1 d) as [|[m [rep|]] l] eqn:Hl; [done| |done].
  destruct (GetReportByMessageID (m_ID m) d) as [rep'|] eqn:Hr; [|done]. case_if; [done|]. intros E. injection E as <-.
  destruct (select_sound token 1 d mb (mkMessageWithReport m (Some rep)) Hmb) as [Ho _]; [rewrite Hl; left|].
  exists token. cbn. split_and!; [done|done|]. revert Hr. unfold GetReportByMessageID, find_report, query_row.
  destruct (List.find _ _) as [row|] eqn:Hf; [|done]. cbn. intros E. injection E as <-. by apply List.find_some in Hf as [_ Hf%Z.eqb_eq].
Qed.


End Access.
