(* ===== verification/WebAnalysis.v ===== *)
(** * Rechecks, reanalysis and simulation over HTTP (internal/web/server.go)

    The handlers that let a visitor run the analyzer again: one check
    (recheckAPI), a whole message (reanalyzeAPI), a message that was never sent
    (simulateAPI, simulateRecheckAPI). They talk to other hosts on behalf of the
    visitor, so who may call them, how often and for which message matters as
    much as their result. Decoded request bodies are arguments; [None] is a body
    that does not decode. *)

From S2P Require Import Prelude F64 GoStrings GoTime GoNet Model Score Ipt RateLimit Store SealedBox Ingest Config AuthHeaders Smtp.
From S2P Require Import WebRequest WebApi GoSort Regex Spf Checks Dkim MailHeaders Body Content Blocklists DomainChecks SpamFilters Enrich Runner Analyze.
From S2P Require Import Reports Rechecks Views Lang WebPages.

Local Open Scope string_scope.
Local Open Scope list_scope.
Local Open Scope Z_scope.

(** ** The two engines *)

(** The engine of the receiving side (main.go). *)
Definition receive_options (cfg : Config) : Options :=
  mkOptions (EnableRBLChecks cfg) (RBLProviders cfg) (EnableSpamAssassin cfg) (SpamAssassinHostPort cfg) (SpamAssassinWarnRatio cfg)
    (EnableRspamd cfg) (RspamdURL cfg) (RspamdPassword cfg) (EnableDomainAge cfg) (EnableDomainBlocklist cfg)
    (DomainBlocklistProviders cfg) (EnableBrokenLinks cfg).

(** The engine of the web server: EnableBrokenLinks keeps its zero value. *)
Definition web_options (cfg : Config) : Options :=
  mkOptions (EnableRBLChecks cfg) (RBLProviders cfg) (EnableSpamAssassin cfg) (SpamAssassinHostPort cfg) (SpamAssassinWarnRatio cfg)
    (EnableRspamd cfg) (RspamdURL cfg) (RspamdPassword cfg) (EnableDomainAge cfg) (EnableDomainBlocklist cfg)
    (DomainBlocklistProviders cfg) false.

(** ** Handlers *)

Record recheck_body := mkRecheckBody { rb_CheckID : string; rb_Input : RecheckInput }.
Record reanalyze_body := mkReanalyzeBody { ab_RawSource : string; ab_RemoteIP : string; ab_HELO : string; ab_SMTPFrom : string }.
Record simulate_body := mkSimulateBody { sb_Token : string; sb_Source : string }.
Record reanalysis := mkReanalysis { ra_Report : AnalysisReport; ra_RawSource : string; ra_HeaderBlock : string }.

Section Handlers.
Context {C : Crypto} (s : web_server) (w : world).
(** [reverify]: the hook main.go sets, [reverifyReceiverAuth]. *)
Context (reverify : option (ReceivedMail -> string -> option string)).

Let opts := web_options (ws_cfg s).

(** The opt-in that a recheck with activate=1 stores. *)
Definition activated (id : string) (mb : Mailbox) (d : DB) : DB :=
  let store a b c := match UpdateMailboxChecks (mb_Token mb) a b c d with Ok d' => d' | Err _ => d end in
  if String.eqb id "domain_age" then store true (mb_CheckDomainBlocklist mb) (mb_CheckBrokenLinks mb)
  else if String.eqb id "domain_blocklist" then store (mb_CheckDomainAge mb) true (mb_CheckBrokenLinks mb)
  else if String.eqb id "broken_links" then store (mb_CheckDomainAge mb) (mb_CheckDomainBlocklist mb) true
  else d.

(** The common end of both rechecks. *)
Definition run_recheck (now : Z) (b : recheck_body) : page CheckResult :=
  match engine_recheck w opts now (rb_CheckID b) (rb_Input b) with
  | Some res => Shown res
  | None => Status 400
  end.

(** [activate]: the query parameter. *)
Definition recheckAPI (now : nat -> Z) (r : request) (activate : string) (body : option recheck_body) (lim : Limiter) (d : DB)
  : page CheckResult * Limiter * DB :=
  if negb (String.eqb (rq_Method r) "POST") then (Status 405, lim, d)
  else
    let '(ok, lim) := Allow (now 0%nat) ("recheck:" +:+ clientIP s r) lim in
    if negb ok then (Status 429, lim, d)
    else match SplitN2 (TrimPrefix (rq_Path r) "/api/recheck/") "/" with
    | [token; _] =>
        if isEmpty token then (Status 400, lim, d)
        else match GetMailboxByToken token d with
        | Err _ => (Status 404, lim, d)
        | Ok mb =>
            match body with
            | None => (Status 400, lim, d)
            | Some b =>
                if negb (Recheckable (rb_CheckID b)) then (Status 400, lim, d)
                else
                  let d := if String.eqb activate "1" then activated (rb_CheckID b) mb d else d in
                  (run_recheck (now 1%nat) b, lim, d)
            end
        end
    | _ => (Status 400, lim, d)
    end.

Definition simulateRecheckAPI (now : nat -> Z) (r : request) (body : option recheck_body) (lim : Limiter) (d : DB)
  : page CheckResult * Limiter :=
  if negb (String.eqb (rq_Method r) "POST") then (Status 405, lim)
  else
    let '(ok, lim) := Allow (now 0%nat) ("recheck:" +:+ clientIP s r) lim in
    if negb ok then (Status 429, lim)
    else
      let token := TrimPrefix (rq_Path r) "/api/simulate/recheck/" in
      if isEmpty token then (Status 400, lim)
      else match GetMailboxByToken token d with
      | Err _ => (Status 404, lim)
      | Ok _ =>
          match body with
          | None => (Status 400, lim)
          | Some b => if negb (Recheckable (rb_CheckID b)) then (Status 400, lim) else (run_recheck (now 1%nat) b, lim)
          end
      end.

Definition simulated_input (source : string) : Input :=
  mkInput (mkMessage 0 0 "" "" "" "" zero_time source "" "" 0 "") "" false false false true.

Definition simulateAPI (now : nat -> Z) (r : request) (body : option simulate_body) (lim : Limiter) (d : DB)
  : page AnalysisReport * Limiter :=
  if negb (String.eqb (rq_Method r) "POST") then (Status 405, lim)
  else
    let '(ok, lim) := Allow (now 0%nat) ("simulate:" +:+ clientIP s r) lim in
    if negb ok then (Status 429, lim)
    else match body with
    | None => (Status 400, lim)
    | Some b =>
        match GetMailboxByToken (sb_Token b) d with
        | Err _ => (Status 401, lim)
        | Ok _ =>
            if isEmpty (TrimSpace (sb_Source b)) then (Status 400, lim)
            else (Shown (Analyze w opts (simulated_input (sb_Source b)) (now 1%nat)), lim)
        end
    end.

(** The input of a reanalysis: what the browser decrypted, and the choices of the mailbox. *)
Definition reanalysis_input (now : Z) (mb : Mailbox) (b : reanalyze_body) (raw : string) : Input :=
  mkInput (mkMessage 0 (mb_ID mb) (ab_SMTPFrom b) (mb_Address mb) (ab_RemoteIP b) (ab_HELO b) now raw "" "" 0 "")
    (SMTPDomain (ws_cfg s)) (mb_CheckDomainAge mb) (mb_CheckDomainBlocklist mb) (mb_CheckBrokenLinks mb) false.

(** [None] when the verification runs out of fuel. *)
Definition reverified (mb : Mailbox) (b : reanalyze_body) : option string :=
  match reverify with
  | None => Some (ab_RawSource b)
  | Some f => f (mkReceivedMail (ab_RemoteIP b) (ab_HELO b) (ab_SMTPFrom b) (mb_Address mb) "" false) (ab_RawSource b)
  end.

Definition reanalyzeAPI (now : nat -> Z) (r : request) (body : option reanalyze_body) (lim : Limiter) (d : DB)
  : option (page reanalysis) * Limiter :=
  if negb (String.eqb (rq_Method r) "POST") then (Some (Status 405), lim)
  else
    let '(ok, lim) := Allow (now 0%nat) ("recheck:" +:+ clientIP s r) lim in
    if negb ok then (Some (Status 429), lim)
    else match SplitN2 (TrimPrefix (rq_Path r) "/api/reanalyze/") "/" with
    | [token; msgRef] =>
        if isEmpty token || isEmpty msgRef then (Some (Status 400), lim)
        else match GetMailboxByToken token d with
        | Err _ => (Some (Status 404), lim)
        | Ok mb =>
            if negb (existsb (fun m => String.eqb (messageReference token (m_ID m)) msgRef) (ListMessagesByMailbox (mb_ID mb) 500 d))
            then (Some (Status 404), lim)
            else match body with
            | None => (Some (Status 400), lim)
            | Some b =>
                if isEmpty (TrimSpace (ab_RawSource b)) then (Some (Status 400), lim)
                else match reverified mb b with
                | None => (None, lim)
                | Some raw =>
                    let report := Analyze w opts (reanalysis_input (now 1%nat) mb b raw) (now 2%nat) in
                    let '(head, _, _) := Cut (ReplaceAll raw crlf lf) lflf in
                    (Some (Shown (mkReanalysis report raw (ReplaceAll head lf crlf))), lim)
                end
            end
        end
    | _ => (Some (Status 400), lim)
    end.

End Handlers.

(** ** Who may run the analyzer *)

Section Access.
Context {C : Crypto} (s : web_server) (w : world) (reverify : option (ReceivedMail -> string -> option string)).

(** The passage a handler gives: a POST request that the limiter let through. *)
Definition passed (prefix : string) (now : Z) (r : request) (lim lim' : Limiter) : Prop :=
  rq_Method r = "POST" /\ Allow now (prefix +:+ clientIP s r) lim = (true, lim').

Lemma recheckAPI_shown now r activate body lim d res lim' d' :
  recheckAPI s w now r activate body lim d = (Shown res, lim', d') ->
  passed "recheck:" (now 0%nat) r lim lim'
  /\ exists token rest mb b, SplitN2 (TrimPrefix (rq_Path r) "/api/recheck/") "/" = [token; rest]
       /\ GetMailboxByToken token d = Ok mb /\ body = Some b /\ Recheckable (rb_CheckID b) = true
       /\ engine_recheck w (web_options (ws_cfg s)) (now 1%nat) (rb_CheckID b) (rb_Input b) = Some res
       /\ d' = (if String.eqb activate "1" then activated (rb_CheckID b) mb d else d).
Proof.
  unfold recheckAPI, passed, run_recheck. destruct (String.eqb_spec (rq_Method r) "POST") as [->|]; [|done]. cbn [negb].
  destruct (Allow _ _ lim) as [[] l]; [|done]. cbn [negb].
  destruct (SplitN2 _ _) as [|token [|rest [|? ?]]] eqn:Hsp; [done|done| |done]. case_if; [done|].
  destruct (GetMailboxByToken token d) as [mb|] eqn:Hg; [|done]. destruct body as [b|]; [|done].
  destruct (Recheckable (rb_CheckID b)) eqn:Hr; [|done]. cbn [negb].
  destruct (engine_recheck _ _ _ _ _) as [x|] eqn:He; [|done]. intros E. injection E as <- <- <-.
  split; [done|]. exists token, rest, mb, b. by split_and!.
Qed.

Lemma simulateRecheckAPI_shown now r body lim d res lim' :
  simulateRecheckAPI s w now r body lim d = (Shown res, lim') ->
  passed "recheck:" (now 0%nat) r lim lim'
  /\ exists mb b, GetMailboxByToken (TrimPrefix (rq_Path r) "/api/simulate/recheck/") d = Ok mb
       /\ body = Some b /\ Recheckable (rb_CheckID b) = true
       /\ engine_recheck w (web_options (ws_cfg s)) (now 1%nat) (rb_CheckID b) (rb_Input b) = Some res.
Proof.
  unfold simulateRecheckAPI, passed, run_recheck. destruct (String.eqb_spec (rq_Method r) "POST") as [->|]; [|done]. cbn [negb].
  destruct (Allow _ _ lim) as [[] l]; [|done]. cbn [negb]. cbv zeta. case_if; [done|].
  destruct (GetMailboxByToken _ d) as [mb|] eqn:Hg; [|done]. destruct body as [b|]; [|done].
  destruct (Recheckable (rb_CheckID b)) eqn:Hr; [|done]. cbn [negb].
  destruct (engine_recheck _ _ _ _ _) as [x|] eqn:He; [|done]. intros E. injection E as <- <-.
  split; [done|]. exists mb, b. by split_and!.
Qed.

Lemma simulateAPI_shown now r body lim d res lim' :
  simulateAPI s w now r body lim d = (Shown res, lim') ->
  passed "simulate:" (now 0%nat) r lim lim'
  /\ exists mb b, body = Some b /\ GetMailboxByToken (sb_Token b) d = Ok mb
       /\ res = Analyze w (web_options (ws_cfg s)) (simulated_input (sb_Source b)) (now 1%nat).
Proof.
  unfold simulateAPI, passed. destruct (String.eqb_spec (rq_Method r) "POST") as [->|]; [|done]. cbn [negb].
  destruct (Allow _ _ lim) as [[] l]; [|done]. cbn [negb]. destruct body as [b|]; [|done].
  destruct (GetMailboxByToken _ d) as [mb|] eqn:Hg; [|done]. case_if; [done|]. intros E. injection E as <- <-.
  split; [done|]. by exists mb, b.
Qed.

Lemma reanalyzeAPI_shown now r body lim d res lim' :
  reanalyzeAPI s w reverify now r body lim d = (Some (Shown res), lim') ->
  passed "recheck:" (now 0%nat) r lim lim'
  /\ exists token msgRef mb b m, SplitN2 (TrimPrefix (rq_Path r) "/api/reanalyze/") "/" = [token; msgRef]
       /\ GetMailboxByToken token d = Ok mb /\ body = Some b
       /\ owned d token m /\ messageReference token (m_ID m) = msgRef
       /\ reverified reverify mb b = Some (ra_RawSource res)
       /\ ra_Report res = Analyze w (web_options (ws_cfg s)) (reanalysis_input s (now 1%nat) mb b (ra_RawSource res)) (now 2%nat).
Proof.
  unfold reanalyzeAPI, passed. destruct (String.eqb_spec (rq_Method r) "POST") as [->|]; [|done]. cbn [negb].
  destruct (Allow _ _ lim) as [[] l]; [|done]. cbn [negb].
  destruct (SplitN2 _ _) as [|token [|msgRef [|? ?]]] eqn:Hsp; [done|done| |done]. case_if; [done|].
  destruct (GetMailboxByToken token d) as [mb|] eqn:Hg; [|done].
  destruct (existsb _ _) eqn:Hm; [|done]. cbn [negb]. destruct body as [b|]; [|done]. case_if; [done|].
  destruct (reverified reverify mb b) as [raw|] eqn:Hv; [|done]. destruct (Cut _ _) as [[head x] y]. intros E. injection E as <- <-.
  split; [done|]. apply existsb_exists in Hm as (m & Hin & Href%String.eqb_eq).
  apply list_elem_of_In, ListMessagesByMailbox_sound in Hin as [Hin Hown]. pose proof Hg as Hg'.
  apply GetMailboxByToken_token in Hg' as [Ht Hmb].
  exists token, msgRef, mb, b, m. split_and!; try done. by exists mb.
Qed.

(** Two databases that differ at most in checks chosen for the mailbox [token]. *)
Definition only_opt_in (token : string) (d d' : DB) : Prop :=
  messages d' = messages d /\ reports d' = reports d /\ placement d' = placement d
  /\ exists f, mailboxes d' = f <$> mailboxes d
     /\ forall mb, (mb_Token mb <> token -> f mb = mb)
        /\ mb_Token (f mb) = mb_Token mb /\ mb_ID (f mb) = mb_ID mb /\ mb_Address (f mb) = mb_Address mb
        /\ mb_PublicKey (f mb) = mb_PublicKey mb /\ mb_ExpiresAt (f mb) = mb_ExpiresAt mb.

Lemma only_opt_in_refl token d : only_opt_in token d d.
Proof. split_and!; [done|done|done|]. exists id. by rewrite list_fmap_id. Qed.

Lemma activated_only id mb d : only_opt_in (mb_Token mb) d (activated id mb d).
Proof.
  assert (H : forall a b c, only_opt_in (mb_Token mb) d (match UpdateMailboxChecks (mb_Token mb) a b c d with Ok d' => d' | Err _ => d end)).
  { intros a b c. destruct (UpdateMailboxChecks _ _ _ _ d) as [d'|] eqn:E; [|apply only_opt_in_refl].
    unfold UpdateMailboxChecks in E. case_if_in E; [done|]. injection E as <-. split_and!; [done|done|done|].
    eexists. split; [reflexivity|]. intros m. cbn beta. destruct (String.eqb_spec (mb_Token m) (mb_Token mb)); by split_and!. }
  unfold activated. cbv zeta. repeat (case_if; [apply H|]). apply only_opt_in_refl.
Qed.

Lemma find_update {A} (p q : A -> bool) (f : A -> A) l :
  (forall x, p (f x) = p x) -> List.find p (update_where q f l) = (fun x => if q x then f x else x) <$> List.find p l.
Proof.
  intros Hf. unfold update_where. induction l as [|x l IH]; [done|]. cbn.
  replace (p (if q x then f x else x)) with (p x) by (by destruct (q x)). by destruct (p x).
Qed.

Definition flags_kept (mb mb' : Mailbox) : Prop :=
  (mb_CheckDomainAge mb = true -> mb_CheckDomainAge mb' = true)
  /\ (mb_CheckDomainBlocklist mb = true -> mb_CheckDomainBlocklist mb' = true)
  /\ (mb_CheckBrokenLinks mb = true -> mb_CheckBrokenLinks mb' = true).

Lemma activated_kept id token mb d :
  GetMailboxByToken token d = Ok mb ->
  exists mb', GetMailboxByToken token (activated id mb d) = Ok mb' /\ flags_kept mb mb'.
Proof.
  intros Hg. pose proof Hg as Hg'. apply GetMailboxByToken_token in Hg' as [Ht _].
  assert (H : forall a b c, (mb_CheckDomainAge mb = true -> a = true) -> (mb_CheckDomainBlocklist mb = true -> b = true) ->
    (mb_CheckBrokenLinks mb = true -> c = true) -> exists mb',
    GetMailboxByToken token (match UpdateMailboxChecks (mb_Token mb) a b c d with Ok d' => d' | Err _ => d end) = Ok mb' /\ flags_kept mb mb').
  { intros a b c Ha Hb Hc. destruct (UpdateMailboxChecks _ _ _ _ d) as [d'|] eqn:E; [|by exists mb].
    unfold UpdateMailboxChecks in E. case_if_in E; [done|]. injection E as <-.
    unfold GetMailboxByToken, query_row in *. cbn [mailboxes set_mailboxes]. rewrite find_update by done.
    destruct (List.find _ _) as [x|]; [|done]. injection Hg as ->. cbn [fmap option_fmap option_map]. rewrite String.eqb_refl.
    eexists. by split. }
  unfold activated. cbv zeta. repeat (case_if; [by apply H|]). by exists mb.
Qed.

(** C15: the analyzer looks up names and opens connections on behalf of a visitor only in answer to
    a POST request that the limit of the visitor's address let through and that names the token of an existing
    mailbox; a recheck only for a check that offers one, and a reanalysis only for a message
    of that mailbox, with the checks chosen for it and never in the simulator mode. The answer is that of the
    engine, and nothing is stored except, with activate=1, a check chosen in addition. *)
Theorem analysis_on_behalf_of_mailbox now r lim d lim' :
  (forall activate body res d', recheckAPI s w now r activate body lim d = (Shown res, lim', d') ->
     passed "recheck:" (now 0%nat) r lim lim'
     /\ exists token rest mb mb' b, SplitN2 (TrimPrefix (rq_Path r) "/api/recheck/") "/" = [token; rest]
          /\ GetMailboxByToken token d = Ok mb /\ body = Some b /\ Recheckable (rb_CheckID b) = true
          /\ engine_recheck w (web_options (ws_cfg s)) (now 1%nat) (rb_CheckID b) (rb_Input b) = Some res
          /\ only_opt_in token d d' /\ GetMailboxByToken token d' = Ok mb' /\ flags_kept mb mb' /\ (activate <> "1" -> d' = d))
  /\ (forall body res, simulateRecheckAPI s w now r body lim d = (Shown res, lim') ->
     passed "recheck:" (now 0%nat) r lim lim'
     /\ exists mb b, GetMailboxByToken (TrimPrefix (rq_Path r) "/api/simulate/recheck/") d = Ok mb
          /\ body = Some b /\ Recheckable (rb_CheckID b) = true
          /\ engine_recheck w (web_options (ws_cfg s)) (now 1%nat) (rb_CheckID b) (rb_Input b) = Some res)
  /\ (forall body res, simulateAPI s w now r body lim d = (Shown res, lim') ->
     passed "simulate:" (now 0%nat) r lim lim'
     /\ exists mb b, body = Some b /\ GetMailboxByToken (sb_Token b) d = Ok mb
          /\ res = Analyze w (web_options (ws_cfg s)) (simulated_input (sb_Source b)) (now 1%nat))
  /\ (forall body res, reanalyzeAPI s w reverify now r body lim d = (Some (Shown res), lim') ->
     passed "recheck:" (now 0%nat) r lim lim'
     /\ exists token msgRef mb b m, SplitN2 (TrimPrefix (rq_Path r) "/api/reanalyze/") "/" = [token; msgRef]
          /\ GetMailboxByToken token d = Ok mb /\ body = Some b
          /\ owned d token m /\ messageReference token (m_ID m) = msgRef
          /\ reverified reverify mb b = Some (ra_RawSource res)
          /\ ra_Report res = Analyze w (web_options (ws_cfg s)) (reanalysis_input s (now 1%nat) mb b (ra_RawSource res)) (now 2%nat)).
Proof.
  split_and!; intros *; [|apply simulateRecheckAPI_shown|apply simulateAPI_shown|apply reanalyzeAPI_shown].
  intros (Hp & token & rest & mb & b & H1 & H2 & H3 & H4 & H5 & ->)%recheckAPI_shown. split; [done|].
  pose proof H2 as Ht. apply GetMailboxByToken_token in Ht as [Ht _].
  exists token, rest, mb. destruct (String.eqb_spec activate "1") as [->|].
  - destruct (activated_kept (rb_CheckID b) token mb d H2) as (mb' & Hm & Hf). exists mb', b. split_and!; try done.
    rewrite <- Ht. apply activated_only.
  - exists mb, b. split_and!; try done. apply only_opt_in_refl.
Qed.

End Access.

(** ** Rate of the requests that reach the analyzer *)

(** The requests that share the payload limiter. *)
Inductive call :=
| CallRecheck (now : nat -> Z) (r : request) (activate : string) (body : option recheck_body)
| CallSimulateRecheck (now : nat -> Z) (r : request) (body : option recheck_body)
| CallSimulate (now : nat -> Z) (r : request) (body : option simulate_body)
| CallReanalyze (now : nat -> Z) (r : request) (body : option reanalyze_body)
| CallPersist (now : Z) (r : request) (body : option persist_body)
| CallPayload (now : Z) (r : request).

Definition call_time (c : call) : Z :=
  match c with
  | CallRecheck now _ _ _ | CallSimulateRecheck now _ _ | CallSimulate now _ _ | CallReanalyze now _ _ => now 0%nat
  | CallPersist now _ _ | CallPayload now _ => now
  end.

Section Rate.
Context {C : Crypto} (s : web_server) (w : world) (reverify : option (ReceivedMail -> string -> option string)).

Definition call_key (c : call) : string :=
  match c with
  | CallRecheck _ r _ _ | CallSimulateRecheck _ r _ | CallReanalyze _ r _ | CallPersist _ r _ => "recheck:" +:+ clientIP s r
  | CallSimulate _ r _ => "simulate:" +:+ clientIP s r
  | CallPayload _ r => "payload:" +:+ clientIP s r
  end.

(** The right method: other requests are refused before the limiter is asked. *)
Definition call_method_ok (c : call) : bool :=
  match c with
  | CallRecheck _ r _ _ | CallSimulateRecheck _ r _ | CallReanalyze _ r _ | CallPersist _ r _ | CallSimulate _ r _ => String.eqb (rq_Method r) "POST"
  | CallPayload _ r => String.eqb (rq_Method r) "GET"
  end.

(** An answer other than 405 and 429. *)
Definition worked_status (code : Z) : bool := negb (code =? 405) && negb (code =? 429).
Definition worked {A} (p : page A) : bool := match p with Status code => worked_status code | Shown _ => true end.

(** Whether the request was worked on, and what it leaves behind. *)
Definition serve (c : call) (lim : Limiter) (d : DB) : bool * Limiter * DB :=
  match c with
  | CallRecheck now r activate body => let '(p, lim, d) := recheckAPI s w now r activate body lim d in (worked p, lim, d)
  | CallSimulateRecheck now r body => let '(p, lim) := simulateRecheckAPI s w now r body lim d in (worked p, lim, d)
  | CallSimulate now r body => let '(p, lim) := simulateAPI s w now r body lim d in (worked p, lim, d)
  | CallReanalyze now r body => let '(p, lim) := reanalyzeAPI s w reverify now r body lim d in (from_option worked true p, lim, d)
  | CallPersist now r body => let '(code, lim, d) := recheckPersistAPI s now r body lim d in (worked_status code, lim, d)
  | CallPayload now r => let '(code, _, lim) := payloadAPI s now r lim d in (worked_status code, lim, d)
  end.

(** The times at which requests with [key] were worked on; [others]: what other requests do to the database
    between two of these. *)
Fixpoint served (others : DB -> DB) (calls : list call) (key : string) (lim : Limiter) (d : DB) : list Z :=
  match calls with
  | [] => []
  | c :: rest =>
      let '(ok, lim, d) := serve c lim d in
      let l := served others rest key lim (others d) in
      if ok && String.eqb (call_key c) key then call_time c :: l else l
  end.

(** A handler asks the limiter once, and works on the request exactly if the limiter lets it through. *)
Lemma serve_limited c lim d :
  let '(ok, lim', _) := serve c lim d in
  if call_method_ok c then (ok, lim') = Allow (call_time c) (call_key c) lim else ok = false /\ lim' = lim.
Proof.
  destruct c as [now r act body|now r body|now r body|now r body|now r body|now r]; cbn [serve call_method_ok call_time call_key];
    unfold recheckAPI, simulateRecheckAPI, simulateAPI, reanalyzeAPI, recheckPersistAPI, payloadAPI, run_recheck;
    cbv zeta; (destruct (String.eqb (rq_Method r) _); cbn [negb]; [|done]); destruct (Allow _ _ lim) as [[] l]; cbn [negb]; try done.
  all: repeat first [done | case_match]; simplify_eq; done.
Qed.

(** The limiter calls behind a list of requests. *)
Definition limiter_calls (calls : list call) : list (Z * string) :=
  (fun c => (call_time c, call_key c)) <$> List.filter call_method_ok calls.

Lemma served_admitted others calls key lim d : served others calls key lim d = snd (admitted (limiter_calls calls) key lim).
Proof.
  revert lim d. induction calls as [|c calls IH]; intros lim d; [done|]. cbn [served]. unfold limiter_calls. cbn [List.filter].
  pose proof (serve_limited c lim d) as H. destruct (serve c lim d) as [[ok lim'] d']. destruct (call_method_ok c).
  - cbn [fmap list_fmap admitted]. rewrite <- H. rewrite IH. fold (limiter_calls calls).
    by destruct (admitted (limiter_calls calls) key lim') as [l a].
  - destruct H as [-> ->]. cbn [andb]. apply IH.
Qed.

Fixpoint times_ok (from : Z) (calls : list call) : Prop :=
  match calls with
  | [] => True
  | c :: rest => from <= call_time c /\ times_ok (call_time c) rest
  end.

Lemma times_weaken from from' calls : from <= from' -> times_ok from' calls -> times_ok from calls.
Proof. intros H. destruct calls as [|c l]; [done|]. intros [H1 H2]. split; [lia|done]. Qed.

Lemma times_clock from calls : times_ok from calls -> clock_ok from (limiter_calls calls).
Proof.
  revert from. induction calls as [|c calls IH]; intros from; [done|]. intros [H1 H2]. unfold limiter_calls. cbn [List.filter].
  destruct (call_method_ok c); [split; [done|by apply IH]|]. apply IH. by apply (times_weaken _ (call_time c)).
Qed.

(** In every minute at most PAYLOAD_RATE_LIMIT_PER_MIN requests of one address for rechecks,
    reanalyses and stored rechecks together are worked on, as many simulations and as many downloads of
    payloads, however these requests and all others interleave; beyond that they are answered with 429
    without a lookup. *)
Theorem analysis_rate_bounded others calls from a ip d :
  0 <= PayloadRateLimitPerMin (ws_cfg s) -> times_ok from calls ->
  forall prefix, prefix ∈ ["recheck:"; "simulate:"; "payload:"] ->
  Z.of_nat (List.length (List.filter (fun t => (a <? t) && (t <=? a + minute))
    (served others calls (prefix +:+ ip) (New minute (PayloadRateLimitPerMin (ws_cfg s))) d)))
  <= PayloadRateLimitPerMin (ws_cfg s).
Proof. intros Hm Ht prefix _. rewrite served_admitted. apply (window_bound _ _ _ _ from); [done|done|]. by apply times_clock. Qed.

End Rate.

(** Three rechecks against a limit of two: the first two are worked on. *)
Definition limited_server : web_server := mkWeb (read_config (fun _ => "") 365 2 3 32 (10 * minute) (30 * second) (5 * second) 0) [].

Definition recheck_call (t : Z) : call :=
  CallRecheck (fun _ => t) (post "/api/recheck/tok/x") "" (Some (mkRecheckBody "spf" (mkRecheck "a.example" "" "" "" "" "" [] "fail" fzero))).

Lemma analysis_rate_bounded_witness :
  let calls := [recheck_call 1; recheck_call 2; recheck_call 3] in
  served (C := toy_crypto) limited_server sample_world None id calls "recheck:192.0.2.7" (New minute 2) sample_db = [1; 2]
  /\ Z.of_nat (List.length (List.filter (fun t => (0 <? t) && (t <=? 0 + minute))
       (served (C := toy_crypto) limited_server sample_world None id calls "recheck:192.0.2.7" (New minute 2) sample_db))) <= 2.
Proof.
  split; [vm_compute; reflexivity|].
  refine (analysis_rate_bounded (C := toy_crypto) limited_server sample_world None id _ 0 0 "192.0.2.7" sample_db _ _ "recheck:" _);
    [vm_compute; discriminate|vm_compute; repeat split; discriminate|by left].
Defined.

(** With ENABLE_BROKEN_LINKS=true the links of a received message are opened, while a reanalysis reports the check as not carried out. *)
Example reanalysis_skips_links :
  let cfg := read_config (fun k => if String.eqb k "ENABLE_BROKEN_LINKS" then "true" else "") 365 30 3 32 (10 * minute) (30 * second) (5 * second) 0 in
  o_EnableBrokenLinks (receive_options cfg) = true /\ o_EnableBrokenLinks (web_options cfg) = false.
Proof. vm_compute. by split. Qed.
