(* ===== verification/Events.v ===== *)
(** * Mailbox API and event streams (internal/web/server.go)

    The dispatch of /api/mailboxes/{token}/..., the status of a mailbox and the
    three event streams (mailbox, statistics, placement test). A stream is modelled by what it
    sees at each tick: the clock and the database, which other requests change
    between two ticks. Reading the database does not fail in this model, and
    the encoder of encoding/json is a parameter. *)

From S2P Require Import Prelude F64 GoStrings GoTime GoNet Model Score Ipt RateLimit Store SealedBox Ingest Config WebRequest WebApi.
From S2P Require Import GoSort Regex Spf Checks Body Content Views Lang Placement WebPages.

Local Open Scope string_scope.
Local Open Scope list_scope.
Local Open Scope Z_scope.

(** ** Status of a mailbox *)

Record latest_message := mkLatest { lm_ID : Z; lm_ReceivedAt : Z; lm_Report : option (string * float64) }.

Record status_payload := mkStatusPayload {
  sp_Mailbox : string;
  sp_ExpiresAt : Z;
  sp_MessageCount : Z;
  sp_Latest : option latest_message
}.

Record event := mkEvent { ev_Name : string; ev_Data : string }.

(** [send] of the streams: an event only if the payload has changed. *)
Definition send_changed (name raw last : string) : list event * string :=
  if String.eqb raw last then ([], last) else ([mkEvent name raw], raw).

Fixpoint send_all (name : string) (raws : list string) (last : string) : list event :=
  match raws with
  | [] => []
  | raw :: rest => let '(evs, last) := send_changed name raw last in evs ++ send_all name rest last
  end.

Section Streams.
Context {C : Crypto} (s : web_server).

Definition mailboxStatusPayload (mb : Mailbox) (limit : Z) (d : DB) : status_payload :=
  let msgs := ListMessagesWithReports (mb_ID mb) limit d in
  mkStatusPayload (mb_Address mb) (mb_ExpiresAt mb) (Z.of_nat (List.length msgs))
    (match msgs with
     | [] => None
     | mkMessageWithReport m rep :: _ =>
         Some (mkLatest (m_ID m) (m_ReceivedAt m)
           ((fun r => ("/report/" +:+ mb_Token mb +:+ "?msg=" +:+ messageReference (mb_Token mb) (m_ID m), r_Score r)) <$> rep))
     end).

(** The databases the stream reads: when it opens and at every tick until the client leaves. *)
Definition mailboxEvents (Marshal : status_payload -> string) (token : string) (d : DB) (ticks : list DB) : page (list event) :=
  match GetMailboxByToken token d with
  | Err _ => Status 404
  | Ok mb => Shown (send_all "status" (Marshal ∘ mailboxStatusPayload mb 1 <$> d :: ticks) "")
  end.

Definition statsEvents (Marshal : GlobalStats -> string) (r : request) (start : Z * DB) (ticks : list (Z * DB)) : page (list event) :=
  if negb (String.eqb (rq_Method r) "GET") then Status 405
  else Shown (send_all "stats" ((fun t => Marshal (GetGlobalStats (fst t) (snd t))) <$> start :: ticks) "").

(** *** Placement tests *)

Definition finished (pt : PlacementTest) : bool := String.eqb (pt_Status pt) "done" || String.eqb (pt_Status pt) "timeout".

Definition done_event : event := mkEvent "done" "{}".
Definition gone_event : event := mkEvent "error" ("{" +:+ quote +:+ "error" +:+ quote +:+ ":" +:+ quote +:+ "test not found" +:+ quote +:+ "}").

Section Ipt.
Context (Marshal : PlacementTest -> string).

Definition ipt_send (mb : Mailbox) (ptToken : string) (tick : Z * DB) (last : string) : result (list event * string * bool) :=
  let! pt := placementTestFor s (fst tick) mb ptToken (snd tick) in
  let '(evs, last) := send_changed "ipt" (Marshal pt) last in
  Ok (evs, last, finished pt).

(** The events of the ticks, and whether the server has closed the stream. The store has one error here, ErrNotFound. *)
Fixpoint ipt_loop (mb : Mailbox) (ptToken : string) (ticks : list (Z * DB)) (last : string) : list event * bool :=
  match ticks with
  | [] => ([], false)
  | tick :: rest =>
      match ipt_send mb ptToken tick last with
      | Err _ => ([gone_event], true)
      | Ok (evs, last, true) => (evs ++ [done_event], true)
      | Ok (evs, last, false) => let '(l, closed) := ipt_loop mb ptToken rest last in (evs ++ l, closed)
      end
  end.

(** [start] is read twice: for the access check and for the first event. *)
Definition iptEventsAPI (mailboxToken ptToken : string) (check start : Z * DB) (ticks : list (Z * DB)) : page (list event * bool) :=
  match GetMailboxByToken mailboxToken (snd check) with
  | Err _ => Status 404
  | Ok mb =>
      match placementTestFor s (fst check) mb ptToken (snd check) with
      | Err _ => Status 404
      | Ok _ =>
          match ipt_send mb ptToken start "" with
          | Err _ => Shown ([], true)
          | Ok (evs, last, true) => Shown (evs ++ [done_event], true)
          | Ok (evs, last, false) => let '(l, closed) := ipt_loop mb ptToken ticks last in Shown (evs ++ l, closed)
          end
      end
  end.

End Ipt.

Definition iptResultAPI (now : Z) (mailboxToken ptToken : string) (d : DB) : page PlacementTest :=
  match GetMailboxByToken mailboxToken d with
  | Err _ => Status 404
  | Ok mb => match placementTestFor s now mb ptToken d with Err _ => Status 404 | Ok pt => Shown pt end
  end.

(** ** Dispatch

    /api/mailboxes/{token}/{action}... *)

Inductive api_answer :=
| ApiStatus (code : Z)
| ApiMailbox (p : status_payload)
| ApiChecks (domainAge domainBlocklist brokenLinks : bool)
| ApiDeleted
| ApiEvents (p : page (list event))
| ApiStart (resp : start_response) (job : option poll_job)
| ApiTestEvents (p : page (list event * bool))
| ApiTest (p : page PlacementTest).

(** What the handlers take from outside: clock, random bytes, health of the accounts, decoded bodies, and
    the later states of the database that a stream reads. *)
Record api_world := mkApiWorld {
  aw_clock : nat -> Z;
  aw_rand : nat -> option string;
  aw_choose : nat -> nat -> nat;
  aw_health : health;
  aw_seeds : option SeedConfig;
  aw_lang : string;
  aw_selected : option (list string);
  aw_checks : option (bool * bool * bool);
  aw_start : Z * DB;
  aw_ticks : list (Z * DB);
  aw_marshal_status : status_payload -> string;
  aw_marshal_test : PlacementTest -> string
}.

Definition not_found_or_500 (e : store_error) : api_answer := ApiStatus (match e with ErrNotFound => 404 | _ => 500 end).

(** The cases after the start of a placement test. *)
Definition mailbox_action (w : api_world) (r : request) (token action : string) (rest : list string) (lim : Limiter) (d : DB)
  : api_answer * Limiter * DB :=
  let method m := String.eqb (rq_Method r) m in
  let does a := String.eqb action a in
  if does "ipt" && (List.length rest =? 2)%nat && String.eqb (nth 1 rest "") "events" && method "GET" then
    (ApiTestEvents (iptEventsAPI (aw_marshal_test w) token (nth 0 rest "") (aw_clock w 0%nat, d) (aw_start w) (aw_ticks w)), lim, d)
  else if does "ipt" && (List.length rest =? 1)%nat && method "GET" then
    (ApiTest (iptResultAPI (aw_clock w 0%nat) token (nth 0 rest "") d), lim, d)
  else if does "status" && method "GET" then
    match GetMailboxByToken token d with
    | Err _ => (ApiStatus 404, lim, d)
    | Ok mb => (ApiMailbox (mailboxStatusPayload mb 1 d), lim, d)
    end
  else if does "events" && method "GET" then (ApiEvents (mailboxEvents (aw_marshal_status w) token d (snd <$> aw_ticks w)), lim, d)
  else if does "checks" && method "POST" then
    match aw_checks w with
    | None => (ApiStatus 400, lim, d)
    | Some (a, b, c) =>
        match UpdateMailboxChecks token a b c d with
        | Err e => (not_found_or_500 e, lim, d)
        | Ok d' => (ApiChecks a b c, lim, d')
        end
    end
  else if does "delete" && method "POST" then
    match DeleteMailboxByToken token d with
    | Err e => (not_found_or_500 e, lim, d)
    | Ok d' => (ApiDeleted, lim, d')
    end
  else (ApiStatus 404, lim, d).

Definition mailboxAPI (w : api_world) (r : request) (lim : Limiter) (d : DB) : api_answer * Limiter * DB :=
  match Split (TrimPrefix (rq_Path r) "/api/mailboxes/") "/" with
  | token :: action :: rest =>
      if String.eqb action "ipt" && (List.length rest =? 1)%nat && String.eqb (nth 0 rest "") "start" && String.eqb (rq_Method r) "POST" then
        let '(resp, lim, d, job) := iptStartAPI s (aw_seeds w) (aw_lang w) (aw_clock w) (aw_rand w) (aw_choose w) r token (aw_selected w)
                                      (aw_health w) lim d in
        (ApiStart resp job, lim, d)
      else mailbox_action w r token action rest lim d
  | _ => (ApiStatus 404, lim, d)
  end.

End Streams.

(** ** What a client sees *)

(** The data of the last event, or what the client had before. *)
Definition view (evs : list event) (before : string) : string := from_option ev_Data before (list.last evs).

Lemma view_app evs evs' before : view (evs ++ evs') before = view evs' (view evs before).
Proof. unfold view. rewrite last_app. by destruct (list.last evs'). Qed.

Lemma send_changed_view name raw before :
  snd (send_changed name raw before) = raw /\ view (fst (send_changed name raw before)) before = raw.
Proof. unfold send_changed. destruct (String.eqb_spec raw before) as [->|]; done. Qed.

Lemma send_all_app name raws raws' before :
  send_all name (raws ++ raws') before = send_all name raws before ++ send_all name raws' (view (send_all name raws before) before).
Proof.
  revert before. induction raws as [|raw raws IH]; intros before; [done|]. cbn [app send_all].
  destruct (send_changed_view name raw before) as [H1 H2]. destruct (send_changed name raw before) as [evs x]. cbn [fst snd] in H1, H2. subst x.
  rewrite IH, <- app_assoc, view_app, H2. done.
Qed.

(** After every tick the client has the current payload. *)
Lemma send_all_current name raws raw before : view (send_all name (raws ++ [raw]) before) before = raw.
Proof.
  rewrite send_all_app, view_app. set (b := view _ before). cbn [send_all].
  destruct (send_changed_view name raw b) as [_ H]. destruct (send_changed name raw b) as [evs x]. cbn [fst] in H. by rewrite app_nil_r.
Qed.

(** No event repeats the payload before it. *)
Fixpoint changing (before : string) (evs : list event) : Prop :=
  match evs with
  | [] => True
  | e :: rest => ev_Data e <> before /\ changing (ev_Data e) rest
  end.

Lemma send_all_changing name raws before : changing before (send_all name raws before).
Proof.
  revert before. induction raws as [|raw raws IH]; intros before; [done|]. cbn [send_all]. unfold send_changed.
  destruct (String.eqb_spec raw before) as [->|Hne]; [apply IH|]. cbn. split; [done|apply IH].
Qed.

Section StreamTheorems.
Context {C : Crypto} (s : web_server).

(** The page of an open mailbox is never behind by more than a tick. At every tick the last status event
    holds the payload of the database at that tick, no event repeats the one before it, and what was
    sent stays as it was when the stream goes on. *)
Theorem mailbox_stream_current Marshal token d ticks now evs :
  mailboxEvents Marshal token d (ticks ++ [now]) = Shown evs ->
  exists mb, GetMailboxByToken token d = Ok mb
    /\ view evs "" = Marshal (mailboxStatusPayload mb 1 now)
    /\ changing "" evs
    /\ exists earlier later, mailboxEvents Marshal token d ticks = Shown earlier /\ evs = earlier ++ later.
Proof.
  unfold mailboxEvents. destruct (GetMailboxByToken token d) as [mb|]; [|done]. rewrite fmap_cons, fmap_app, app_comm_cons, <- fmap_cons.
  intros E. assert (Hevs : evs = send_all "status" ((Marshal ∘ mailboxStatusPayload mb 1 <$> d :: ticks) ++ [Marshal (mailboxStatusPayload mb 1 now)]) "")
    by (injection E as <-; reflexivity). subst evs. exists mb. split_and!; [done|apply send_all_current|apply send_all_changing|].
  eexists _, _. split; [reflexivity|]. apply send_all_app.
Qed.

(** ** Placement tests *)

Section Tests.
Context (Marshal : PlacementTest -> string).

(** A tick that keeps the stream open: the test is visible and not finished. *)
Definition going_on (mb : Mailbox) (ptToken : string) (tick : Z * DB) : Prop :=
  exists t, placementTestFor s (fst tick) mb ptToken (snd tick) = Ok t /\ finished t = false.

Lemma ipt_loop_open mb ptToken pre ticks before :
  Forall (going_on mb ptToken) pre ->
  exists evs last, ipt_loop s Marshal mb ptToken (pre ++ ticks) before
    = (let '(l, closed) := ipt_loop s Marshal mb ptToken ticks last in (evs ++ l, closed)) /\ view evs before = last.
Proof.
  intros Hpre. revert before. induction Hpre as [|tick pre (t & Ht & Hf) _ IH]; intros before.
  - exists [], before. cbn [app]. split; [by destruct (ipt_loop _ _ _ _ ticks before)|done].
  - cbn [app ipt_loop]. unfold ipt_send. rewrite Ht. cbn [obind].
    destruct (send_changed_view "ipt" (Marshal t) before) as [H1 H2]. destruct (send_changed _ _ before) as [evs x]. cbn [fst snd] in H1, H2. subst x.
    rewrite Hf. destruct (IH (Marshal t)) as (evs' & last & -> & Hv). exists (evs ++ evs'), last.
    rewrite view_app, H2. split; [|done]. destruct (ipt_loop _ _ _ _ ticks last) as [l c]. by rewrite app_assoc.
Qed.

Lemma ipt_loop_done mb ptToken tick t rest before :
  placementTestFor s (fst tick) mb ptToken (snd tick) = Ok t -> finished t = true ->
  exists evs, ipt_loop s Marshal mb ptToken (tick :: rest) before = (evs ++ [done_event], true) /\ view evs before = Marshal t.
Proof.
  intros Ht Hf. cbn [ipt_loop]. unfold ipt_send. rewrite Ht. cbn [obind].
  destruct (send_changed_view "ipt" (Marshal t) before) as [_ H2]. destruct (send_changed _ _ before) as [evs x]. cbn [fst] in H2.
  rewrite Hf. by exists evs.
Qed.

(** A stream that has seen a finished or vanished test is closed. *)
Lemma ipt_loop_closes mb ptToken pre tick post before :
  ~ going_on mb ptToken tick -> snd (ipt_loop s Marshal mb ptToken (pre ++ tick :: post) before) = true.
Proof.
  intros Hno. revert before. induction pre as [|p pre IH]; intros before; cbn [app ipt_loop].
  - unfold ipt_send. destruct (placementTestFor _ _ _ _ _) as [t|] eqn:Ht; [|done]. cbn [obind].
    destruct (send_changed _ _ _) as [evs x]. destruct (finished t) eqn:Hf; [done|]. destruct Hno. by exists t.
  - destruct (ipt_send _ _ _ _ _ _) as [[[evs x] []]|]; [done| |done]. specialize (IH x).
    by destruct (ipt_loop _ _ _ _ _ x).
Qed.

Lemma test_row_for now mb ptToken d t : placementTestFor s now mb ptToken d = Ok t -> test_row ptToken d = Some t.
Proof.
  unfold placementTestFor. rewrite obind_ok. intros (x & Hx & H). case_if_in H; [done|]. injection H as ->.
  unfold GetPlacementTest, query_row in Hx. unfold test_row. by destruct (List.find _ _); [injection Hx as ->|].
Qed.

(** Who watches a placement test is told its outcome. Once the poller has made its last
    step, the next tick closes the stream if the test is still visible: every account has reported exactly
    once, the last ipt event holds the stored test with all results, and the event done follows
    it. A stream that was not closed before ends there, whatever other requests did between the ticks. *)
Theorem placement_stream_ends ptToken results d k st now mb t pre post before :
  results <> [] -> poll_run ptToken (List.length results) k (poll_init results d) st ->
  (forall st', ~ poll_step ptToken (List.length results) st st') ->
  placementTestFor s now mb ptToken (ps_db st) = Ok t ->
  snd (ipt_loop s Marshal mb ptToken (pre ++ (now, ps_db st) :: post) before) = true
  /\ (Forall (going_on mb ptToken) pre ->
      pt_Results t ≡ₚ results /\ pt_MailboxID t = mb_ID mb
      /\ exists evs, ipt_loop s Marshal mb ptToken (pre ++ (now, ps_db st) :: post) before = (evs ++ [done_event], true)
           /\ view evs before = Marshal t).
Proof.
  intros Hne Hrun Hend Ht. destruct (poll_completes ptToken results d k st Hne Hrun) as [_ Hfin].
  destruct (Hfin Hend) as [_ Hrow]. rewrite (test_row_for _ _ _ _ _ Ht) in Hrow. destruct Hrow as [Hres Hst].
  assert (Hf : finished t = true) by (unfold finished; rewrite Hst; by destruct (existsb is_timeout results)).
  split.
  - apply ipt_loop_closes. intros (t' & Ht' & Hf'). cbn in Ht'. rewrite Ht in Ht'. injection Ht' as <-. by rewrite Hf in Hf'.
  - intros Hpre. split; [done|]. split; [by apply placementTestFor_scope in Ht as (_ & _ & ? & _)|].
    destruct (ipt_loop_open mb ptToken pre ((now, ps_db st) :: post) before Hpre) as (evs & last & -> & Hv).
    destruct (ipt_loop_done mb ptToken (now, ps_db st) t post last Ht Hf) as (evs' & -> & Hv').
    exists (evs ++ evs'). rewrite app_assoc. split; [done|]. by rewrite view_app, Hv.
Qed.

End Tests.

(** ** Requests keep to their mailbox *)

(** [id] is not the mailbox of [token]. *)
Definition foreign (d : DB) (token : string) (id : Z) : Prop := forall mb, mb ∈ mailboxes d -> mb_Token mb = token -> mb_ID mb <> id.

(** Everything that belongs to other mailboxes is the same in both databases. *)
Definition others_untouched (token : string) (d d' : DB) : Prop :=
  (forall b, mb_Token b <> token -> b ∈ mailboxes d' <-> b ∈ mailboxes d)
  /\ (forall m, foreign d token (m_MailboxID m) -> m ∈ messages d' <-> m ∈ messages d)
  /\ (forall r, (forall m, m ∈ messages d -> m_ID m = rr_message_id r -> foreign d token (m_MailboxID m)) -> r ∈ reports d' <-> r ∈ reports d)
  /\ (forall t, foreign d token (pt_MailboxID t) -> t ∈ placement d' <-> t ∈ placement d).

Lemma others_refl token d : others_untouched token d d.
Proof. by split_and!. Qed.

Lemma checks_others token a b c d d' : UpdateMailboxChecks token a b c d = Ok d' -> others_untouched token d d'.
Proof.
  unfold UpdateMailboxChecks. case_if; [done|]. intros E. injection E as <-. split_and!; [|done..]. intros x Hx. cbn [mailboxes set_mailboxes].
  rewrite elem_of_update_where. split.
  - intros (y & Hy & ->). destruct (String.eqb_spec (mb_Token y) token); done.
  - intros Hin. exists x. split; [done|]. by destruct (String.eqb_spec (mb_Token x) token).
Qed.

Lemma delete_others token d d' : db_ok d -> DeleteMailboxByToken token d = Ok d' -> others_untouched token d d'.
Proof.
  intros Hd H. assert (Hmb : exists mb, mb ∈ mailboxes d /\ mb_Token mb = token).
  { unfold DeleteMailboxByToken in H. case_if_in H; [done|]. apply negb_false_iff, existsb_elem in Hif as (mb & Hin & Ht%String.eqb_eq). eauto. }
  destruct Hmb as (mb & Hin & Ht). destruct (delete_exact token mb d d' Hd Hin Ht H) as (H1 & H2 & H3 & H4). split_and!.
  - intros b Hb. rewrite H1. split; [by intros [? _]|]. intros Hx. split; [done|]. by intros ->.
  - intros m Hm. rewrite H2. split; [by intros [? _]|]. intros Hx. split; [done|]. intros E. by apply (Hm mb).
  - intros r Hr. rewrite H3. split; [by intros [? _]|]. intros Hx. split; [done|]. intros m Hm Hk E. by apply (Hr m Hm Hk mb).
  - intros t Hf. rewrite H4. split; [by intros [? _]|]. intros Hx. split; [done|]. intros E. by apply (Hf mb).
Qed.

Lemma start_effect seeds lang clock rand choose r token body h lim d resp lim' d' job :
  iptStartAPI s seeds lang clock rand choose r token body h lim d = (resp, lim', d', job) ->
  d' = d \/ exists mb now pt infos exp, GetMailboxByToken token d = Ok mb /\ CreatePlacementTest now (mb_ID mb) pt infos exp d = Ok d'.
Proof.
  unfold iptStartAPI. destruct seeds as [sc|]; [|intros E; injection E as _ _ <- _; by left].
  destruct (Allow _ _ lim) as [[] lim1]; cbn [negb]; [|intros E; injection E as _ _ <- _; by left].
  destruct (GetMailboxByToken token d) as [mb|] eqn:Hmb; [|intros E; injection E as _ _ <- _; by left].
  destruct body as [sel|]; [|intros E; injection E as _ _ <- _; by left]. cbv zeta.
  destruct (Filter sc sel) as [|p l]; [intros E; injection E as _ _ <- _; by left|].
  destruct (healthy_providers h (p :: l)) as [|q ps]; [intros E; injection E as _ _ <- _; by left|].
  destruct (newPlacementToken s rand) as [pt|]; [|intros E; injection E as _ _ <- _; by left].
  destruct (Pick choose (q :: ps)) as [[infos accounts]|]; [|intros E; injection E as _ _ <- _; by left].
  destruct (CreatePlacementTest _ _ pt infos _ d) as [d1|] eqn:Hc; intros E; injection E as _ _ <- _; [|by left].
  right. by exists mb, (clock 3%nat), pt, infos, (clock 2%nat + IPTTestDuration (ws_cfg s)).
Qed.

Lemma create_test_others token mb now pt infos exp d d' :
  GetMailboxByToken token d = Ok mb -> CreatePlacementTest now (mb_ID mb) pt infos exp d = Ok d' -> others_untouched token d d'.
Proof.
  intros Hg. apply GetMailboxByToken_token in Hg as [Ht Hin]. unfold CreatePlacementTest. case_if; [done|]. case_if; [done|].
  intros E. injection E as <-. split_and!; [done..|]. intros t Hf. cbn [placement]. rewrite elem_of_app, list_elem_of_singleton.
  split; [|by left]. intros [?| ->]; [done|]. by destruct (Hf mb).
Qed.

Lemma mailbox_action_effect w r token action rest lim d ans lim' d' :
  mailbox_action s w r token action rest lim d = (ans, lim', d') ->
  d' = d \/ (exists a b c, UpdateMailboxChecks token a b c d = Ok d') \/ DeleteMailboxByToken token d = Ok d'.
Proof.
  unfold mailbox_action. cbv zeta. do 2 (case_if; [intros E; injection E as _ _ <-; by left|]).
  case_if; [destruct (GetMailboxByToken token d); intros E; injection E as _ _ <-; by left|].
  case_if; [intros E; injection E as _ _ <-; by left|].
  case_if.
  { destruct (aw_checks w) as [[[a b] c]|]; [|intros E; injection E as _ _ <-; by left].
    destruct (UpdateMailboxChecks token a b c d) eqn:Hu; intros E; injection E as _ _ <-; [|by left]. right. left. by exists a, b, c. }
  case_if; [|intros E; injection E as _ _ <-; by left].
  destruct (DeleteMailboxByToken token d) eqn:Hx; intros E; injection E as _ _ <-; [|by left]. right. by right.
Qed.

Lemma mailboxAPI_effect w r lim d ans lim' d' :
  db_ok d -> mailboxAPI s w r lim d = (ans, lim', d') ->
  db_ok d' /\ match Split (TrimPrefix (rq_Path r) "/api/mailboxes/") "/" with
              | token :: _ :: _ => others_untouched token d d'
              | _ => d' = d
              end.
Proof.
  intros Hd. unfold mailboxAPI. destruct (Split _ _) as [|token [|action rest]]; try (intros E; by injection E as _ _ <-).
  assert (Ha : forall ans lim' d', mailbox_action s w r token action rest lim d = (ans, lim', d') -> db_ok d' /\ others_untouched token d d').
  { intros x y z [-> |[(a & b & c & Hu)|Hx]]%mailbox_action_effect.
    - split; [done|apply others_refl].
    - split; [exact (store_step_ok _ _ (step_checks _ _ _ _ _ _ Hu) Hd)|by eapply checks_others].
    - split; [exact (store_step_ok _ _ (step_delete _ _ _ Hx) Hd)|by apply delete_others]. }
  assert (Hs : forall resp l z job, iptStartAPI s (aw_seeds w) (aw_lang w) (aw_clock w) (aw_rand w) (aw_choose w) r token (aw_selected w)
    (aw_health w) lim d = (resp, l, z, job) -> db_ok z /\ others_untouched token d z).
  { intros resp l z job [-> |(mb & now & pt & infos & exp & Hg & Hc)]%start_effect; [split; [done|apply others_refl]|].
    split; [by eapply CreatePlacementTest_ok|by eapply create_test_others]. }
  case_if; [|apply Ha]. destruct (iptStartAPI _ _ _ _ _ _ _ _ _ _ _ _) as [[[resp l] z] job] eqn:E. intros F. injection F as _ _ <-.
  by eapply Hs.
Qed.

(** The address of a request decides what it can change. A request under /api/mailboxes/{token}/
    (checks, deletion, start of a placement test, status, streams) keeps the database well-formed and leaves every
    mailbox with another token, its messages, reports and placement tests as they were. *)
Theorem mailbox_api_isolated w r lim d ans lim' d' :
  db_ok d -> mailboxAPI s w r lim d = (ans, lim', d') ->
  db_ok d' /\ match Split (TrimPrefix (rq_Path r) "/api/mailboxes/") "/" with
              | token :: _ :: _ => others_untouched token d d'
              | _ => d' = d
              end.
Proof. apply mailboxAPI_effect. Qed.

End StreamTheorems.

(** ** Witnesses *)

Definition sample_payload (p : status_payload) : string :=
  sp_Mailbox p +:+ "/" +:+ Itoa (sp_MessageCount p) +:+ "/" +:+ match sp_Latest p with Some l => Itoa (lm_ID l) | None => "" end.

Lemma mailbox_stream_current_witness :
  exists evs, mailboxEvents (C := toy_crypto) sample_payload "tok" sample_db ([sample_db; sample_db] ++ [empty_db]) = Shown evs
    /\ List.length evs = 2%nat /\ view evs "" = "tok@inbox.example/0/".
Proof.
  eexists. split; [vm_compute; reflexivity|]. split; [reflexivity|].
  destruct (mailbox_stream_current (C := toy_crypto) sample_payload "tok" sample_db [sample_db; sample_db] empty_db _ eq_refl) as (mb & Hm & Hv & _).
  vm_compute in Hm. injection Hm as <-. vm_compute in Hv. vm_compute. exact Hv.
Defined.

(** A test of one account of the sample mailbox, and its database after the result has come in. *)
Definition test_db : DB :=
  match CreatePlacementTest 200 1 (Join (replicate 32 "a") "") [mkSeedInfo "Gmail" "a@gmail.com"] 900 sample_db with Ok d => d | Err _ => empty_db end.

Definition test_result : ProviderResult := mkProviderResult "Gmail" "a@gmail.com" "inbox" "INBOX" 5.
Definition test_token : string := Join (replicate 32 "a") "".

Definition polled_db : DB := UpdatePlacementTestResult test_token ([] ++ [test_result]) (collected_status 1 ([] ++ [test_result])) test_db.

Lemma test_run : poll_run test_token 1 3 (poll_init [test_result] test_db) (mkPollState [] [] true ([] ++ [test_result]) polled_db).
Proof.
  eapply run_poll; [eapply run_poll; [eapply run_poll; [apply run_refl|]|]|].
  - apply (poll_send test_token 1 [] test_result [] [] false [] test_db).
  - apply (poll_close test_token 1 [test_result] [] test_db).
  - apply (poll_receive test_token 1 [] test_result [] true [] test_db).
Qed.

Definition test_view (t : PlacementTest) : string := pt_Status t.

Lemma placement_stream_ends_witness :
  exists mb t evs, GetMailboxByToken "tok" sample_db = Ok mb
    /\ placementTestFor plain_server 300 mb test_token polled_db = Ok t
    /\ ipt_loop plain_server test_view mb test_token ([(250, test_db)] ++ (300, polled_db) :: []) "" = (evs ++ [done_event], true)
    /\ view evs "" = "done".
Proof.
  destruct (GetMailboxByToken "tok" sample_db) as [mb|] eqn:Hm; [|vm_compute in Hm; discriminate Hm].
  destruct (placementTestFor plain_server 300 mb test_token polled_db) as [t|] eqn:Ht;
    [|vm_compute in Hm; injection Hm as <-; vm_compute in Ht; discriminate Ht].
  destruct (placement_stream_ends plain_server test_view test_token [test_result] test_db 3 _ 300 mb t [(250, test_db)] [] ""
    ltac:(discriminate) test_run) as [_ H].
  { intros st' Hs. inversion Hs as [l1| |]. by destruct l1. }
  { exact Ht. }
  destruct H as (_ & _ & evs & He & Hv).
  { repeat constructor. eexists. split; [vm_compute in Hm; injection Hm as <-; vm_compute; reflexivity|reflexivity]. }
  exists mb, t, evs. split; [reflexivity|]. split; [exact Ht|]. split; [exact He|]. rewrite Hv.
  vm_compute in Hm. injection Hm as <-. vm_compute in Ht. injection Ht as <-. reflexivity.
Defined.

Definition sample_api : api_world :=
  mkApiWorld (fun _ => 200) (fun n => Some (zeros n)) (fun _ _ => 0%nat) ∅ None "en" None (Some (true, false, false)) (200, sample_db) []
    sample_payload test_view.

Lemma mailbox_api_isolated_witness :
  exists lim' d', mailboxAPI (C := toy_crypto) plain_server sample_api (post "/api/mailboxes/tok/delete") (New hour 3) sample_db = (ApiDeleted, lim', d')
    /\ others_untouched "tok" sample_db d'.
Proof.
  destruct (mailboxAPI (C := toy_crypto) plain_server sample_api (post "/api/mailboxes/tok/delete") (New hour 3) sample_db) as [[ans lim'] d'] eqn:E.
  exists lim', d'. split.
  - vm_compute in E. injection E as <- <- <-. reflexivity.
  - exact (proj2 (mailbox_api_isolated (C := toy_crypto) plain_server sample_api (post "/api/mailboxes/tok/delete") (New hour 3) sample_db ans lim' d'
      sample_db_ok E)).
Defined.

(** ** What the status does not tell *)

(** The status counts the messages it has read, and it reads one: two messages are reported as one. *)
Example status_counts_one_message :
  match SaveMessage 130 (mkMessage 0 1 "b@y" "tok@inbox.example" "" "" 0 "" "" "" 0 "") sample_db with
  | Ok (_, d) => match GetMailboxByToken "tok" d with
                 | Ok mb => (List.length (messages d), sp_MessageCount (mailboxStatusPayload (C := toy_crypto) mb 1 d))
                 | Err _ => (0%nat, 0)
                 end
  | Err _ => (0%nat, 0)
  end = (2%nat, 1).
Proof. vm_compute. reflexivity. Qed.

(** A stream holds on to the mailbox it was opened for: after the deletion it goes on and reports an empty mailbox. *)
Example deleted_mailbox_streams_on :
  match DeleteMailboxByToken "tok" sample_db with
  | Ok d => mailboxEvents (C := toy_crypto) sample_payload "tok" sample_db [d]
  | Err _ => Status 0
  end = Shown [mkEvent "status" "tok@inbox.example/1/1"; mkEvent "status" "tok@inbox.example/0/"].
Proof. vm_compute. reflexivity. Qed.
