(* ===== verification/TextTables.v ===== *)
(** * Texts of the findings: the fixed tables (internal/analyzer/analyzer.go)

    Names, explanations and links per check, in both languages, as the switches
    and maps of analyzer.go list them. A table that is a Go map is a [gmap]; a
    switch is a chain of tests on the check's id. *)

From S2P Require Import Prelude F64 GoStrings Model Score Checks.

Local Open Scope string_scope.
Local Open Scope list_scope.

Definition checkNameDE_table : gmap string string := list_to_map
  [("spf", "SPF"); ("dkim", "DKIM"); ("dmarc", "DMARC"); ("spf_strictness", "SPF-Strenge");
   ("dmarc_policy", "DMARC-Policy-Stärke"); ("dkim_keylength", "DKIM-Schlüssellänge"); ("mx_records", "MX-Records");
   ("address_records", "A/AAAA-Records"); ("envelope_mx", "Bounce-Empfang (Envelope-MX)");
   ("from_domain_rcv", "From-Domain Empfangsfähigkeit"); ("mta_sts", "MTA-STS"); ("tls_rpt", "TLS-RPT");
   ("bimi", "BIMI"); ("dnssec", "DNSSEC"); ("dane_tlsa", "DANE/TLSA"); ("ptr", "PTR/rDNS");
   ("ptr_pattern", "PTR-Hostname-Muster"); ("rbl", "DNSBL/RBL"); ("domain_blocklist", "Domain-Blocklist");
   ("link_blocklist", "Link-Domain-Blocklist"); ("domain_age", "Domain-Alter");
   ("broken_links", "Erreichbarkeit der Links")].

Definition checkNameDE (id : string) : string := default id (checkNameDE_table !! id).

Definition checkNameEN_table : gmap string string := list_to_map
  [("spf", "SPF"); ("dkim", "DKIM"); ("dmarc", "DMARC"); ("spf_alignment", "SPF Alignment");
   ("dkim_alignment", "DKIM Alignment"); ("dmarc_alignment", "DMARC Alignment");
   ("dmarc_policy", "DMARC Policy Strength"); ("spf_strictness", "SPF Strictness");
   ("dkim_keylength", "DKIM Key Strength"); ("from_alignment", "Envelope-From / Header-From");
   ("return_path", "Return-Path"); ("reply_to", "Reply-To"); ("display_name", "Display Name");
   ("ptr", "Reverse DNS (PTR)"); ("ptr_pattern", "PTR Pattern"); ("helo", "HELO/EHLO"); ("mx_records", "MX Records");
   ("address_records", "Address Records (A/AAAA)"); ("tls_transport", "TLS Transport");
   ("received_chain", "Received Header Chain"); ("arc", "ARC"); ("envelope_mx", "Bounce MX"); ("mta_sts", "MTA-STS");
   ("tls_rpt", "TLS-RPT"); ("bimi", "BIMI"); ("dnssec", "DNSSEC"); ("dane_tlsa", "DANE/TLSA");
   ("domain_age", "Domain Age"); ("rbl", "DNSBL/RBL"); ("domain_blocklist", "Domain Blocklist");
   ("link_blocklist", "Link Blocklist"); ("spamassassin", "SpamAssassin"); ("rspamd", "Rspamd");
   ("mime_parse", "MIME Parsing"); ("mime_ct", "MIME Content-Type"); ("mime_boundary", "MIME Boundary");
   ("plain_text", "Plain Text Part"); ("multipart_alt", "Multipart Alternative"); ("attachments", "Attachments");
   ("image_text_ratio", "Image/Text Ratio"); ("charset", "Character Set"); ("links", "Links");
   ("shortener", "Link Shorteners"); ("tracking_links", "Tracking Links"); ("html", "HTML Structure");
   ("hidden_html", "Hidden HTML"); ("html_validity", "HTML Validity"); ("subject", "Subject");
   ("subject_exclaim", "Subject Exclamation Marks"); ("subject_caps", "Subject ALL-CAPS");
   ("unicode", "Unicode/Obfuscation"); ("list_unsub", "List-Unsubscribe"); ("preheader", "Preheader");
   ("date", "Date Header"); ("date_skew", "Date Plausibility"); ("message_id", "Message-ID");
   ("body_read", "Body Readability"); ("from_domain_rcv", "From Domain Reachability");
   ("one_click_unsub", "One-Click Unsubscribe (RFC 8058)"); ("template_urls", "Template Placeholders in Links");
   ("image_alt", "Image Alt Text"); ("harmful_html", "Harmful HTML Elements"); ("fake_reply", "Fake Reply Prefix");
   ("message_id_format", "Message-ID Format"); ("x_google_dkim", "X-Google DKIM");
   ("too_many_links", "Too Many Links"); ("no_reply_reply_to", "No-Reply Without Reply-To");
   ("link_domain_mismatch", "Link Domain Mismatch"); ("broken_links", "Broken Link Check (HTTP)")].

Definition checkNameEN (id : string) : string := default id (checkNameEN_table !! id).

Definition defaultExplanation (id : string) : string :=
  if one_of id ["dmarc_policy"] then
    "Die DMARC-Policy (p=) bestimmt, was Empfänger mit Mails tun, die DMARC nicht bestehen. p=none = nur Monitoring (kein Schutz), p=quarantine = ab in den Spam, p=reject = komplett ablehnen. Wichtigkeit: hoch – nur quarantine/reject schützen Ihre Domain aktiv vor Spoofing/Phishing. Gmail & Yahoo erwarten von Bulk-Sendern zunehmend mindestens eine durchgesetzte Policy. Vorgehen: mit p=none + rua-Reporting starten, Quellen sauber konfigurieren, dann schrittweise auf quarantine und reject erhöhen."
  else
  if one_of id ["spf_strictness"] then
    "Der abschließende all-Mechanismus eines SPF-Records legt fest, wie streng nicht-autorisierte Server behandelt werden: -all = hardfail (empfohlen), ~all = softfail, ?all = neutral (wirkungslos), +all = erlaubt alle (gefährlich). Außerdem begrenzt RFC 7208 SPF auf 10 DNS-Lookups – wird das überschritten, schlägt SPF mit PermError fehl. Wichtigkeit: hoch – ein zu lascher oder kaputter SPF-Record untergräbt SPF und damit DMARC."
  else
  if one_of id ["dkim_keylength"] then
    "Die Stärke des DKIM-Schlüssels bestimmt die Fälschungssicherheit der Signatur. 512/768-Bit-RSA gilt als gebrochen, 1024 Bit als veraltet; empfohlen sind mindestens 2048-Bit-RSA oder Ed25519. Wichtigkeit: mittel bis hoch – große Provider werten schwache Schlüssel ab oder ignorieren sie, wodurch DKIM (und damit DMARC) effektiv ausfällt. Bei Schlüsselwechsel den Selector rotieren."
  else
  if one_of id ["ptr_pattern"] then
    "Selbst wenn Forward-confirmed rDNS technisch besteht, achten Spamfilter auf das Muster des PTR-Hostnamens. Namen wie '203-0-113-5.dynamic.isp.net', 'dsl-…', 'pool-…' oder 'customer-…' signalisieren Endkunden-/Dynamic-IPs, von denen seriöse Mailserver normalerweise nicht direkt senden. Wichtigkeit: hoch – SpamAssassin (RDNS_DYNAMIC) und viele Gateways werten solche Muster stark negativ. Lösung: dedizierten, sprechenden Mailserver-PTR beim Hoster setzen."
  else
  if one_of id ["display_name"] then
    "Der Anzeigename im From-Header ('Friendly From') ist frei wählbar und wird von Phishing stark missbraucht: ein vertrauter Marken- oder Personenname als Anzeige, während die echte Absenderdomain eine ganz andere ist. Wichtigkeit: hoch – Provider und Security-Gateways erkennen Display-Name-Spoofing und Marken-Imitation und stufen solche Mails als Phishing ein. Anzeigename und tatsächliche Absenderdomain konsistent halten."
  else
  if one_of id ["envelope_mx"] then
    "Der Return-Path/Envelope-From ist die Bounce-Adresse: dorthin gehen Unzustellbarkeits-Meldungen (DSN/NDR). Kann diese Domain keine Mail empfangen (kein MX, kein A/AAAA), gehen Bounces verloren – schlecht fürs Listen-Hygiene-Management und ein Qualitätssignal für Filter. Wichtigkeit: mittel – eine empfangsfähige Bounce-Domain gehört zu einem professionellen Versand-Setup."
  else
  if one_of id ["mta_sts"] then
    "MTA-STS (RFC 8461) erlaubt einer Domain, verschlüsselten SMTP-Transport (TLS) verbindlich zu verlangen, statt ihn nur opportunistisch zu nutzen. Sendende Server prüfen die per HTTPS veröffentlichte Policy und brechen ab, wenn kein gültiges TLS möglich ist – das schützt vor Downgrade-/Man-in-the-Middle-Angriffen. Wichtigkeit: mittel – kein direkter Inbox-Platzierungsfaktor, aber ein klares Reifesignal und zunehmend Standard bei seriösen Absendern."
  else
  if one_of id ["tls_rpt"] then
    "TLS-RPT (RFC 8460) lässt empfangende Server aggregierte Berichte über fehlgeschlagene oder herabgestufte TLS-Verbindungen an eine Reporting-Adresse schicken. So bemerken Sie TLS-/MTA-STS-Probleme, bevor sie zu Zustellausfällen führen. Wichtigkeit: gering bis mittel – ein Monitoring-/Reifesignal, sinnvoll in Kombination mit MTA-STS."
  else
  if one_of id ["bimi"] then
    "BIMI (Brand Indicators for Message Identification) zeigt bei unterstützenden Anbietern (Gmail, Apple Mail, Yahoo) Ihr Markenlogo neben der Nachricht an. Voraussetzung ist eine durchgesetzte DMARC-Policy (quarantine/reject) und ein SVG-Logo (bei manchen Providern zusätzlich ein VMC-Zertifikat). Wichtigkeit: gering für die Zustellung selbst, aber ein starkes Vertrauens-/Reifesignal und Beleg für ein vollständig konfiguriertes Authentifizierungs-Setup."
  else
  if one_of id ["dnssec"] then
    "DNSSEC signiert DNS-Antworten kryptografisch und schützt vor DNS-Manipulation (Cache-Poisoning, Spoofing). Eine signierte Absenderzone ist ein Reifesignal und Voraussetzung für DANE. Wichtigkeit: gering bis mittel für die reine Inbox-Platzierung, aber relevant für die Gesamtintegrität der Mail-Infrastruktur."
  else
  if one_of id ["dane_tlsa"] then
    "DANE (TLSA-Records, RFC 7672) bindet das TLS-Zertifikat des Mailservers per DNSSEC an die Domain und erzwingt so authentifiziertes TLS beim SMTP-Transport – eine Alternative/Ergänzung zu MTA-STS. Voraussetzung ist DNSSEC. Wichtigkeit: gering für Inbox-Platzierung, aber ein hohes Sicherheits-/Reifesignal, v. a. im europäischen/Behörden-Umfeld."
  else
  if one_of id ["domain_age"] then
    "Das Registrierungsalter der Absenderdomain ist ein starkes Reputationssignal. Frisch registrierte Domains werden von Gmail, Outlook und Spamhaus mit großem Misstrauen behandelt – Domains unter 30 Tagen sind ein klassisches Spam-/Phishing-Muster. Wichtigkeit: hoch für neue Domains – ältere, etablierte Domains genießen Vertrauensvorschuss. Hinweis: weiches Signal (alte Domains können gekapert, neue legitim sein); wird per RDAP bei einem Dritt-Dienst abgefragt und ist daher opt-in."
  else
  if one_of id ["domain_blocklist"] then
    "Domain-Blocklists (z. B. Spamhaus DBL) listen Domains, die in Spam/Phishing auftauchen – unabhängig von der sendenden IP. Eine gelistete Absenderdomain führt bei vielen Providern direkt zu Ablehnung oder Spam-Einordnung. Wichtigkeit: sehr hoch, falls gelistet. Hinweis: DNS-Abfrage beim Blocklist-Anbieter (Dritt-Dienst), daher opt-in; öffentliche Resolver werden von Spamhaus geblockt – eigenen Resolver verwenden."
  else
  if one_of id ["link_blocklist"] then
    "URI-/Domain-Blocklists (URIBL, SURBL, Spamhaus DBL) prüfen die in der Mail verlinkten Domains gegen bekannte Spam-/Malware-Domains. Da Spam fast immer einen Link enthält, ist das eines der wirksamsten Filtersignale überhaupt. Wichtigkeit: sehr hoch, falls eine verlinkte Domain gelistet ist. Hinweis: DNS-Abfrage beim Blocklist-Anbieter (Dritt-Dienst), daher opt-in."
  else
  if one_of id ["from_alignment"] then
    "From-Alignment prüft, ob Envelope-From (SMTP MAIL FROM) und Header-From (sichtbare Absenderadresse) zur gleichen Domain gehören. Abweichungen sind technisch möglich (z. B. ESP-Bounce-Adressen), können aber DMARC-Alignment gefährden und Spamfiltern Muster für Spoofing-Versuche liefern. Wichtigkeit: mittel – viele Nutzer prüfen die sichtbare From-Adresse; Mismatch kann Vertrauen kosten und DMARC-SPF-Alignment brechen. Tipp: Bounce-Domains als Subdomain der From-Domain konfigurieren."
  else
  if one_of id ["spf_alignment"] then
    "SPF-Alignment prüft, ob die Envelope-From-Domain (MAIL FROM) und die sichtbare Header-From-Domain zusammenpassen. Für DMARC muss SPF-Alignment stimmen – andernfalls kann SPF zwar bestehen, aber DMARC trotzdem scheitern. Wichtigkeit: hoch – ESPs nutzen oft eigene Bounce-Domains; diese müssen als Subdomain der From-Domain konfiguriert sein oder DKIM muss DMARC alleine tragen. Tipp: entweder Bounce-Domain angleichen oder sicherstellen, dass DKIM-Alignment funktioniert."
  else
  if one_of id ["dkim_alignment"] then
    "DKIM-Alignment prüft, ob die Domain im d=-Tag der DKIM-Signatur zur sichtbaren Header-From-Domain passt. Nur aligned bestandenes DKIM zählt für DMARC. Wichtigkeit: hoch – ohne korrekt aligntes DKIM kann DMARC scheitern, selbst wenn die Signatur technisch gültig ist. Tipp: Signing-Keys von ESPs (Mailchimp, Sendgrid etc.) müssen auf der eigenen Domain oder einer autorisierten Subdomain konfiguriert sein, nicht auf der ESP-Domain."
  else
  if one_of id ["dmarc_alignment"] then
    "DMARC-Alignment ist der Gesamtcheck: Besteht SPF oder DKIM, UND ist die jeweilige Domain zur sichtbaren From-Domain aligned? Nur wenn mindestens einer dieser beiden Pfade stimmt, zählt DMARC als bestanden. Wichtigkeit: kritisch – Gmail, Yahoo, Apple Mail und Outlook setzen für Bulk-Sender DMARC-Alignment voraus; ohne aligned Pass scheitert DMARC-Enforcement und die Domain ist offen für Spoofing."
  else
  if one_of id ["return_path"] then
    "Return-Path enthält die Bounce-Adresse (Envelope-From / SMTP MAIL FROM). Hierhin gehen Delivery Status Notifications (DSN/NDR) bei Zustellfehlern. Wichtigkeit: mittel – Return-Path sollte zur SPF-Domain passen und mit dem SMTP-Envelope-From konsistent sein. Viele Spamfilter prüfen Return-Path auf Domain-Alignment, fehlende MX-Records und Blacklist-Status. Tipp: Bounce-Adressen auf einer eigenen Subdomain (z. B. bounce.example.org) betreiben und SPF dafür pflegen."
  else
  if one_of id ["reply_to"] then
    "Reply-To steuert, wohin Antworten gehen, wenn Nutzer auf 'Antworten' klicken. Wichtigkeit: gering bis mittel – eine Abweichung zur From-Adresse kann legitim sein (Support-Alias, Teampostfach), ist aber auch ein bekanntes Phishing-Signal. Einige Spamfilter bewerten Reply-To-Domain gegen From-Domain und melden bei starker Abweichung (z. B. andere TLD oder kostenloser Webmailer) einen Verdacht. Tipp: Reply-To nur setzen wenn nötig und dann zur eigenen Domain passend."
  else
  if one_of id ["mime_ct"] then
    "Content-Type beschreibt den Medientyp der Nachricht. Wichtigkeit: hoch – ein fehlerhafter oder fehlender Content-Type verhindert korrektes Rendering in Mailclients und führt zu erhöhten Spam-Scores bei SpamAssassin und Rspamd. RFC 2045 schreibt vor, dass jede MIME-Nachricht einen gültigen Content-Type-Header enthalten muss. Tipp: Mailversand-Bibliothek oder MTA erzeugt diesen Header in der Regel automatisch – prüfen ob der MTA korrekt konfiguriert ist."
  else
  if one_of id ["mime_boundary"] then
    "Multipart-Nachrichten benötigen eine eindeutige Boundary-Zeichenkette, die alle Teile trennt. Wichtigkeit: hoch – eine fehlende oder kollidierende Boundary macht die Nachricht unparsbar. SpamAssassin, Rspamd und viele Gateway-Scanner werten kaputte MIME-Strukturen stark negativ. Tipp: Boundary-String darf in keinem der MIME-Parts vorkommen; eine zufällige UUID als Boundary ist bewährt."
  else
  if one_of id ["multipart_alt"] then
    "Multipart/alternative ist das empfohlene Format für HTML-Mails: ein text/plain-Part und ein text/html-Part. Wichtigkeit: mittel – der Empfänger-Client wählt den am besten geeigneten Part. Fehlt der text/plain-Part, können Mails in Text-only-Clients unlesbar werden, und Spamfilter sehen reines HTML als Spam-Signal. Tipp: Plaintext-Version immer mitschicken, auch wenn sie nur eine Kurzversion des HTML-Inhalts ist."
  else
  if one_of id ["plain_text"] then
    "Ein text/plain-Part erhöht Kompatibilität mit Text-Clients, Screen-Readern und Archivierungssystemen erheblich. Wichtigkeit: mittel – reine HTML-Mails ohne Plaintext-Äquivalent erzielen bei SpamAssassin (MIME_HTML_ONLY) und Rspamd negative Scores. Gmail und Outlook rendern Plaintext-Parts separat und nutzen sie für Suche und Preheader-Erkennung. Tipp: Auch eine einfache Text-Version reicht – einfach den HTML-Inhalt ohne Tags darstellen."
  else
  if one_of id ["attachments"] then
    "Anhänge erhöhen Größe, Risiko und Scanaufwand. Wichtigkeit: situationsabhängig – ausführbare Dateitypen (exe, js, vbs, bat) werden von den meisten Providern blockiert. Archive (zip, rar) werden auf Malware gescannt. Große Anhänge reduzieren Zustellwahrscheinlichkeit und erhöhen Bounce-Risiko durch Quotas. Tipp: Dateien besser extern verlinken (Cloud-Speicher, eigene Download-URL); Office-Dateien mit Makros sind besonders problematisch."
  else
  if one_of id ["image_text_ratio"] then
    "Mails mit vielen Bildern und wenig Text sind ein klassisches Spam-Signal, weil Spammer früh lernten, Text in Bilder zu verlagern, um Textfilter zu umgehen. Wichtigkeit: mittel – SpamAssassin (HTML_IMAGE_RATIO_*) und Rspamd bewerten ein ungünstiges Bild/Text-Verhältnis negativ. Tipp: zentrale Aussage immer auch als Text ausdrücken, Bilder mit Alt-Text versehen, kein Bild-only-Layout verwenden."
  else
  if one_of id ["links"] then
    "Links werden von Mailprovidern und Gateways intensiv geprüft: Domain-Reputation, Blacklist-Status, Redirect-Ketten, Homoglyph-Domains und Phishing-Muster. Wichtigkeit: hoch – viele Domains in einer Mail, Mismatch zwischen angezeigtem und tatsächlichem Linkziel oder Links auf verdächtige TLDs erhöhen Spam-Scores erheblich. Tipp: Nur notwendige Links verwenden, eigene saubere Tracking-Domain einsetzen, HTTPS überall sicherstellen."
  else
  if one_of id ["shortener"] then
    "URL-Shortener (bit.ly, t.co, tinyurl etc.) verbergen das tatsächliche Ziel und können nicht geprüft werden. Wichtigkeit: hoch – Spamfilter, Security-Gateways und Virenscanner lehnen Shortener-Links oft pauschal ab oder erhöhen den Spam-Score stark. Tipp: Eigene Tracking-Domains (z. B. go.example.org) mit eigenem Redirect-Service sind die professionelle Alternative zu öffentlichen Shortenern."
  else
  if one_of id ["tracking_links"] then
    "Tracking-Links mit fremden Redirect-Domains (ESP-Domains wie click.mailchimp.com, r.sendgrid.net) oder aggressiven UTM-Parametern werden von Spamfiltern und Security-Gateways geprüft. Wichtigkeit: mittel – die Tracking-Domain sollte sauber (nicht gelistet) und HTTPS-fähig sein. Tipp: Eigene Tracking-Subdomains (z. B. click.example.org) signalisieren professionellen Betrieb und sind unabhängig von der ESP-Reputation."
  else
  if one_of id ["html"] then
    "HTML-Inhalt wird von Mailclients restriktiv gerendert (kein JavaScript, eingeschränktes CSS) und von Spamfiltern auf Phishing-Muster, versteckte Texte, kaputte Struktur und verdächtige Tags geprüft. Wichtigkeit: mittel – komplexes HTML, inline Styles in übermäßigen Mengen und defekte Tags erhöhen Spam-Scores. Tipp: Einfaches, tabellen-basiertes Layout verwenden, CSS nur inline und sparsam, keine externen Ressourcen einbinden."
  else
  if one_of id ["hidden_html"] then
    "Versteckte HTML-Elemente (display:none, font-size:0, color:white auf weißem Hintergrund, overflow:hidden mit height:0) sind eine bekannte Spam-Taktik. Wichtigkeit: hoch – SpamAssassin, Rspamd und Gmail erkennen diese Muster explizit und erhöhen den Spam-Score erheblich. Tipp: Preheader-Text darf versteckt sein, aber sparsam und ohne aggressives Hiding; alle anderen Inhalte sichtbar halten."
  else
  if one_of id ["html_validity"] then
    "Valides HTML verbessert Rendering-Konsistenz über alle Mailclients und wird von Spamfiltern als Qualitätssignal gewertet. Wichtigkeit: mittel – kaputte Tags, unkorrekt geschachtelte Elemente und fehlende Pflicht-Attribute können zu inkonsistenter Darstellung und erhöhten Spam-Scores führen. Tipp: HTML mit dem W3C Validator oder einem Mail-spezifischen Tester prüfen; Litmus und Email on Acid zeigen Rendering in echten Clients."
  else
  if one_of id ["subject"] then
    "Der Betreff ist eines der stärksten Nutzer- und Filterbewertungs-Signale. Wichtigkeit: hoch – ein leerer oder generischer Betreff, fehlender Bezug zum Absender oder betrügerische Muster (Re:, Fwd: ohne Kontext) werden von Spamfiltern und Nutzern negativ bewertet. Tipp: Betreff klar, konkret und zum Inhalt passend formulieren; keine Großschreibung, keine Ausrufezeichen-Häufungen, keine spamverdächtigen Wörter wie 'kostenlos', 'gratis', 'Gewinn'."
  else
  if one_of id ["subject_exclaim"] then
    "Mehrfache Ausrufezeichen und andere Sonderzeichen-Häufungen im Betreff sind klassische Spam-Signale. Wichtigkeit: mittel – SpamAssassin prüft SUBJECT_ENDS_IN_EXCLAIM, SUBJ_MULT_EXCLAIM und ähnliche Muster explizit. Tipp: Professionelle Transaktionsmails nutzen maximal ein Ausrufezeichen, wenn überhaupt. Dringlichkeit besser durch klare Formulierung als durch Sonderzeichen ausdrücken."
  else
  if one_of id ["subject_caps"] then
    "Durchgehende Großschreibung (ALL CAPS) im Betreff ist ein sehr starkes Spam-Signal. Wichtigkeit: hoch – wird von SpamAssassin (SUBJ_ALL_CAPS), Rspamd und manuellen Nutzern sofort als aufdringlich wahrgenommen. Tipp: Nur dort Großbuchstaben nutzen, wo grammatikalisch korrekt – Produktnamen, Abkürzungen. Niemals komplette Wörter oder Sätze in Großbuchstaben schreiben."
  else
  if one_of id ["message_id"] then
    "Message-ID ist ein RFC-Pflichtfeld (RFC 5322) und identifiziert jede Nachricht eindeutig. Wichtigkeit: hoch – sie wird für E-Mail-Threading (In-Reply-To, References), Duplikaterkennung und Reputationsverfolgung genutzt. Fehlende oder generische Message-IDs (z. B. mit lokalem Hostnamen wie localhost) erhöhen Spam-Scores und stören Client-Threading. Tipp: Format wie <unique-uuid@mail.example.org> verwenden; niemals localhost oder interne IP-Adressen in der Message-ID."
  else
  if one_of id ["date"] then
    "Der Date-Header muss ein gültiges RFC 2822-Datum enthalten, das plausibel zur tatsächlichen Versandzeit passt. Wichtigkeit: mittel – falsches Datum signalisiert falsch gestellte Serverzeit, manipulierte Nachrichten oder Software-Fehler. Manche Spamfilter lehnen Mails ab, die weit in der Zukunft oder Vergangenheit datiert sind. Tipp: NTP auf dem Mailserver aktivieren und sicherstellen, dass der MTA keinen manuell manipulierten Date-Header erzeugt."
  else
  if one_of id ["date_skew"] then
    "Starke Zeitabweichung zwischen Date-Header und tatsächlichem Empfangszeitpunkt ist ein Spam-Signal. Wichtigkeit: mittel – erlaubt sind typischerweise ±24 h für Zeitzonendifferenzen und Netzwerkverzögerungen. Tipp: Serverzeit per NTP synchronisieren (ntpd oder systemd-timesyncd), Zeitzone korrekt konfigurieren und sicherstellen, dass der MTA keine manipulierten Date-Header erzeugt."
  else
  if one_of id ["tls_transport"] then
    "TLS (STARTTLS oder SMTPS) schützt den SMTP-Transport vor Abhören und Manipulation. Wichtigkeit: hoch – viele Provider (Gmail, Outlook, Yahoo) bevorzugen oder erzwingen TLS-verschlüsselten Empfang. Opportunistisches STARTTLS ist heute Minimalstandard. Tipp: DANE (DNSSEC + TLSA-Records) ist der nächste Härtungsschritt für kritische Infrastruktur; MTA-STS bietet eine einfachere Alternative für erzwungenes TLS."
  else
  if one_of id ["received_chain"] then
    "Received-Header dokumentieren den kompletten Transportweg der Nachricht. Jeder MTA trägt seinen Received-Header ein. Wichtigkeit: mittel – empfangende Systeme nutzen die Kette für IP-Reputation, Routing-Analyse und Forensik. Tipp: Fehlende Header können durch falsch konfigurierte Proxies entstehen; zu viele Hops können auf Fehlkonfiguration oder Mailloops hinweisen. Mindestens ein Received-Header sollte vorhanden sein."
  else
  if one_of id ["arc"] then
    "ARC (Authenticated Received Chain) erhält Authentifizierungs-Ergebnisse (SPF, DKIM, DMARC) über Weiterleitungs-Hops hinweg. Wichtigkeit: mittel bis hoch für weitergeleitete Mails – wenn eine Mail weitergeleitet wird, können SPF/DKIM-Signaturen brechen. ARC-Header dokumentieren den Originalzustand. Tipp: Besonders relevant bei Mailing-Listen, Alumni-Weiterleitungen und Catchall-Setups; der weiterleitende Mailserver muss ARC unterstützen."
  else
  if one_of id ["list_unsub"] then
    "List-Unsubscribe ist seit 2024 von Gmail und Yahoo für Bulk-Sender (>5.000 Mails/Tag) verpflichtend. Wichtigkeit: kritisch für Bulk-Sender – der Header ermöglicht Providern, einen 'Abmelden'-Button direkt in der UI anzubieten. List-Unsubscribe-Post (One-Click) muss RFC 8058 entsprechen: POST-Anfrage an eine HTTPS-URL, die sofortige Abmeldung ausführt. Tipp: Fehlender Header führt bei Gmail zu Spam-Einstufung für Bulk-Sender; auch für kleinere Versandmengen ist er Best Practice."
  else
  if one_of id ["preheader"] then
    "Der Preheader-Text ist der erste sichtbare Text im Mail-Body und wird von Mailclients (Gmail, Outlook, Apple Mail, iOS Mail) als Vorschau-Snippet neben dem Betreff angezeigt. Wichtigkeit: mittel – ohne expliziten Preheader ziehen Clients oft unpassenden Text (Links, Abmeldehinweise, HTML-Code). Tipp: Einen kurzen, ansprechenden Satz (40–90 Zeichen) als versteckten Preheader-Text einfügen, der den Betreff ergänzt und zum Öffnen animiert."
  else
  if one_of id ["unicode"] then
    "Zero-Width-Zeichen (U+200B, U+FEFF etc.), Bidi-Override-Zeichen und Unicode-Homoglyphen-Substitutionen sind bekannte Techniken, um Spamfilter zu umgehen und Nutzer zu täuschen. Wichtigkeit: hoch wenn vorhanden – SpamAssassin, Rspamd und Gmail erkennen gängige Unicode-Obfuskationsmuster explizit. Tipp: Normale Sonderzeichen für Sprache (Umlaute, Akzente) sind unproblematisch; nur Zero-Width- und Steuerzeichen vermeiden."
  else
  if one_of id ["from_domain_rcv"] then
    "Prüft, ob die From-Domain tatsächlich E-Mails empfangen kann (MX- oder A/AAAA-Records). Wenn Antworten und Bounces nicht zustellbar sind, wertet das viele Spamfilter als Zeichen einer No-Reply- oder Wegwerf-Absenderkonfiguration. Eine From-Domain ohne E-Mail-Infrastruktur signalisiert auch, dass der Sender keine Zwei-Wege-Kommunikation erwartet."
  else
  if one_of id ["one_click_unsub"] then
    "RFC 8058 definiert One-Click-Abmeldung: der Header List-Unsubscribe-Post mit dem Wert 'List-Unsubscribe=One-Click' kombiniert mit einer HTTPS-URL in List-Unsubscribe, die HTTP-POST verarbeitet und den Nutzer sofort abmeldet – ohne Bestätigungsseite oder Login. Google und Yahoo haben dies ab Februar 2024 für Bulk-Sender (>5.000 Mails/Tag) verpflichtend gemacht."
  else
  if one_of id ["template_urls"] then
    "Erkennt nicht ersetzte Merge-Tag-Platzhalter in E-Mail-Links – Muster wie {abmelde_url}, {{email}}, *|UNSUB|* oder ${tracking_id}. Dies sind Fehler in der Bulk-Mail-Template-Rendering-Pipeline: ESP oder Versandsystem haben eine Variable nicht ersetzt. Betroffene Links sind für Empfänger kaputt und können Spamfilter auslösen sowie Abmelde- und Tracking-Flows unterbrechen."
  else
  if one_of id ["image_alt"] then
    "Das alt-Attribut an <img>-Tags hat zwei Funktionen für die Zustellbarkeit: Erstens liefert es Fallback-Text, wenn Bilder blockiert sind (die meisten E-Mail-Clients blockieren Bilder beim ersten Öffnen standardmäßig), zweitens verbessert es das Bild/Text-Verhältnis, das Spamfilter auswerten. Eine Mail aus lauter Bildern ohne Alt-Text wirkt wie ein Spam-Template – der Empfänger sieht nichts, und Filter haben keinen Textinhalt zum Auswerten. Alt-Texte sollten das Bild prägnant beschreiben."
  else
  if one_of id ["harmful_html"] then
    "E-Mail-HTML wird in stark eingeschränkten Umgebungen gerendert: kein JavaScript, keine Meta-Redirects, kein externes CSS. <script>-Tags oder <meta http-equiv=refresh>-Redirects im Mail-Body sind ein starkes Spam-Signal – kein seriöser Absender braucht sie, denn sie werden von keinem Mail-Client ausgeführt. Viele Spamfilter geben bei deren Fund hohe Penalty-Scores oder lehnen die Mail direkt ab."
  else
  if one_of id ["fake_reply"] then
    "Einige Spam-Kampagnen stellen dem Betreff 'Re:' oder 'Fwd:' voran, um den Eindruck eines laufenden Gesprächs zu erwecken und Empfänger zum Öffnen zu verleiten. Eine echte Antwort oder Weiterleitung enthält immer In-Reply-To- und/oder References-Header mit der Message-ID der Originalnachricht. Fehlen diese Thread-Header, ist das Re:/Fwd:-Präfix mit hoher Wahrscheinlichkeit gefälscht – eine Technik, die viele Spamfilter explizit erkennen."
  else
  if one_of id ["message_id_format"] then
    "Der Message-ID-Header muss dem RFC-5322-Format entsprechen: ein in spitze Klammern eingeschlossener Identifier mit einem lokalen Teil und einer Domain, getrennt durch '@', z. B. <unique-id@sending-domain.com>. Eine fehlerhafte Message-ID ist ein Spam-Signal, da seriöse Mailserver immer korrekt formatierte Message-IDs erzeugen. Manche Provider (Outlook, Gmail) nutzen das Format auch zur Erkennung von Bulk-Mail aus schlecht konfigurierten Systemen."
  else
  if one_of id ["x_google_dkim"] then
    "X-Google-DKIM ist ein Google-internes DKIM-Verification-Signal, das in Authentication-Results eingefügt wird, wenn E-Mails über Google-Infrastruktur (Gmail, Google Workspace) geleitet werden. Ein fail-Wert bedeutet, dass Googles interne Verifikation die DKIM-Signatur abgelehnt hat – das kann die Zustellbarkeit an Gmail-Empfänger negativ beeinflussen, auch wenn der Standard-DKIM-Check bestanden wurde. Nur relevant für Mails, die über Google-Infrastruktur geroutet werden."
  else
  if one_of id ["too_many_links"] then
    "Mehr als 30 Links in einer einzelnen E-Mail ist ein anerkanntes Spam-Signal, das von SpamAssassin, Rspamd und Googles Filtern ausgewertet wird. Legitime Mails benötigen selten Dutzende von Links. Kampagnen mit übermäßig vielen Links deuten oft auf Link-Farming, Tracker-Injection oder Template-Fehler hin."
  else
  if one_of id ["no_reply_reply_to"] then
    "Wenn die From-Adresse eine Noreply-Adresse ist (noreply@, no-reply@, donotreply@) und kein Reply-To-Header gesetzt ist, landet jede Antwort ins Leere. Reply-To auf ein überwachtes Postfach zu setzen ist Best Practice und verbessert das Vertrauen der Empfänger. Einige Spamfilter bewerten Noreply-Absender ohne Reply-To negativer."
  else
  if one_of id ["link_domain_mismatch"] then
    "Erkennt Links, bei denen der sichtbare Anzeigetext eine andere Domain zeigt als das tatsächliche href-Ziel – ein klassisches Phishing-Muster. Spamfilter und Anti-Phishing-Systeme prüfen dieses Muster explizit. Legitime Mails müssen Linkziele nie verschleiern."
  else
  if one_of id ["broken_links"] then
    "Stellt HTTP-GET-Anfragen an alle Links in der Mail und prüft, ob sie mit einem Fehler-Status (4xx/5xx) antworten oder einen Timeout verursachen. Defekte Links schaden dem Vertrauen der Empfänger und können die Zustellbarkeit negativ beeinflussen. Datenschutzhinweis: Dieser Check kontaktiert externe Server. Die Zielserver erhalten eine HTTP-Anfrage von sender.reports Server. Nur aktivieren, wenn Sie damit einverstanden sind."
  else
    "Dieser Check bewertet ein technisches Signal, das Mailprovider für Zustellbarkeit, Missbrauchserkennung oder Nutzervertrauen heranziehen.".

Definition explanationEN (id : string) : string :=
  if one_of id ["spf"] then
    "SPF (Sender Policy Framework) defines which servers are authorised to send email on behalf of a domain. Receiving servers check the sending IP against the SPF TXT record of the envelope-from domain. Gmail, Outlook, Yahoo and most gateways weight SPF heavily, especially when DMARC is active. Without an SPF pass, DMARC cannot be satisfied and many providers increase the spam score or reject the message outright."
  else
  if one_of id ["dkim"] then
    "DKIM (DomainKeys Identified Mail) cryptographically signs relevant headers and body content. The receiving server fetches the public key via DNS using the selector in the DKIM-Signature header. Gmail, Outlook, Yahoo and Apple Mail use DKIM heavily to detect tampering, forwarding issues and domain spoofing. DKIM is the second pillar of DMARC and strongly influences domain reputation. Without a DKIM signature emails land in spam far more often."
  else
  if one_of id ["dmarc"] then
    "DMARC ties SPF and DKIM to the visible From domain. A message passes DMARC if SPF or DKIM succeeds AND the respective domain aligns with the From domain. Modern providers expect at least a DMARC policy for reputable sending domains; for bulk mail it has been practically mandatory since the 2024 Gmail/Yahoo requirements. Without DMARC, other providers can abuse your domain for phishing (domain spoofing), and large providers classify non-DMARC-authenticated bulk mail as spam."
  else
  if one_of id ["ptr"] then
    "Reverse DNS (PTR/rDNS) shows which hostname belongs to a sending IP. Receivers typically check: (1) does the IP have a valid PTR record? (2) does that PTR hostname resolve back to the same IP (forward-confirmed rDNS)? (3) does the PTR name plausibly match HELO/EHLO? Outlook/Exchange, Barracuda, Mimecast and enterprise gateways reject directly when PTR is missing. Gmail and Yahoo use it as a quality signal. A missing or inconsistent PTR record is one of the most common reasons for direct rejection by enterprise mail gateways. PTR records are set at your IP/hosting provider, not in your own DNS."
  else
  if one_of id ["dmarc_policy"] then
    "The DMARC policy (p=) tells receivers what to do with mail that fails DMARC. p=none = monitoring only (no protection), p=quarantine = send to spam, p=reject = reject entirely. Only quarantine/reject actively protect your domain against spoofing/phishing. Gmail and Yahoo increasingly expect at least an enforced policy from bulk senders. Recommended approach: start with p=none + rua reporting, clean up sources, then gradually raise to quarantine and reject."
  else
  if one_of id ["spf_strictness"] then
    "The trailing 'all' mechanism of an SPF record determines how strictly unauthorised servers are treated: -all = hardfail (recommended), ~all = softfail, ?all = neutral (ineffective), +all = allows everyone (dangerous). RFC 7208 also limits SPF to 10 DNS lookups — exceeding this causes a PermError. A too-permissive or broken SPF record undermines SPF and therefore DMARC."
  else
  if one_of id ["dkim_keylength"] then
    "The DKIM key strength determines how tamper-proof the signature is. 512/768-bit RSA is considered broken, 1024-bit is outdated; at least 2048-bit RSA or Ed25519 is recommended. Large providers downgrade or ignore weak keys, effectively disabling DKIM (and therefore DMARC). Rotate the selector when changing keys."
  else
  if one_of id ["spf_alignment"] then
    "SPF alignment checks whether the envelope-from domain (MAIL FROM) matches the visible header-from domain. For DMARC, SPF alignment must hold — otherwise SPF may pass but DMARC still fails. ESPs often use their own bounce domains; these must be configured as a subdomain of the from domain, or DKIM must carry DMARC on its own."
  else
  if one_of id ["dkim_alignment"] then
    "DKIM alignment checks whether the domain in the d= tag of the DKIM signature matches the visible header-from domain. Only aligned DKIM passes count for DMARC. Without correct DKIM alignment, DMARC can fail even if the signature itself is technically valid."
  else
  if one_of id ["dmarc_alignment"] then
    "DMARC alignment is the overall check: does SPF or DKIM pass AND is the respective domain aligned with the visible From domain? Only if at least one of these two paths holds does DMARC count as passed. Gmail, Yahoo, Apple Mail and Outlook require DMARC alignment for bulk senders; without an aligned pass, DMARC enforcement fails and the domain is open to spoofing."
  else
  if one_of id ["rbl"] then
    "DNS-based blocklists (DNSBL/RBL) list IPs known for spam, malware or botnet activity. A single listing on a major list like Spamhaus ZEN causes direct rejection at Gmail, Outlook, Yahoo and most enterprise gateways. Multiple listings signal a serious infrastructure problem that must be fixed before further sending."
  else
  if one_of id ["domain_age"] then
    "The registration age of the sending domain is a strong reputation signal. Freshly registered domains are treated with great suspicion by Gmail, Outlook and Spamhaus — domains under 30 days are a classic spam/phishing pattern. Older, established domains enjoy a trust advantage. Note: soft signal (old domains can be hijacked, new ones can be legitimate); fetched via RDAP from a third-party service, therefore opt-in."
  else
  if one_of id ["ptr_pattern"] then
    "Even when forward-confirmed rDNS technically passes, spam filters examine the pattern of the PTR hostname. Names like '203-0-113-5.dynamic.isp.net', 'dsl-…', 'pool-…' or 'customer-…' signal residential/dynamic IPs from which legitimate mail servers do not normally send. SpamAssassin (RDNS_DYNAMIC) and many gateways score such patterns very negatively. Solution: set a dedicated, meaningful mail server PTR at your hosting provider."
  else
  if one_of id ["helo"] then
    "HELO/EHLO is the hostname an MTA presents when opening an SMTP connection. Many filters check that it is a valid FQDN and that it plausibly matches the PTR hostname of the sending IP. An IP literal or single-label name is a strong spam signal."
  else
  if one_of id ["mx_records"] then
    "MX records define which servers receive email for a domain. Correct MX records are a sign of a properly configured mail infrastructure and are checked by some filters as a plausibility signal."
  else
  if one_of id ["tls_transport"] then
    "TLS transport encrypts the SMTP connection between mail servers. Modern mail delivery requires TLS (STARTTLS or SMTPS). Without TLS, message content can be read or manipulated in transit. Gmail, Outlook and Yahoo require TLS from bulk senders."
  else
  if one_of id ["from_alignment"] then
    "From alignment checks whether the envelope-from (SMTP MAIL FROM) and the visible header-from address belong to the same domain. Deviations are technically possible (e.g. ESP bounce addresses) but can endanger DMARC alignment and give spam filters a spoofing signal."
  else
  if one_of id ["return_path"] then
    "Return-Path contains the bounce address (envelope-from / SMTP MAIL FROM). Delivery status notifications (DSN/NDR) go here when delivery fails. Return-Path should match the SPF domain and be consistent with the SMTP envelope-from. Many spam filters check Return-Path for domain alignment, missing MX records and blacklist status."
  else
  if one_of id ["reply_to"] then
    "The Reply-To header redirects replies to a different address than the From. Absent is normal; present should be intentional. A Reply-To pointing to a completely different domain is a classic phishing signal and is flagged by many filters."
  else
  if one_of id ["display_name"] then
    "The display name in the From header ('Friendly From') is freely chosen and heavily abused in phishing: a familiar brand or person name as display, while the actual sending domain is entirely different. Providers and security gateways detect display name spoofing and brand impersonation and classify such mail as phishing."
  else
  if one_of id ["envelope_mx"] then
    "The Return-Path/envelope-from is the bounce address: undeliverable mail (DSN/NDR) goes there. If this domain cannot receive mail (no MX, no A/AAAA), bounces are lost — bad for list hygiene management and a quality signal for filters."
  else
  if one_of id ["mta_sts"] then
    "MTA-STS (RFC 8461) allows a domain to mandate encrypted SMTP transport (TLS) rather than just using it opportunistically. Sending servers check the policy published via HTTPS and abort if valid TLS is not possible — protecting against downgrade/man-in-the-middle attacks."
  else
  if one_of id ["tls_rpt"] then
    "TLS-RPT (RFC 8460) lets receiving servers send aggregate reports about failed or downgraded TLS connections to a reporting address. This way you notice TLS/MTA-STS problems before they cause delivery failures."
  else
  if one_of id ["bimi"] then
    "BIMI (Brand Indicators for Message Identification) displays your brand logo next to the message at supporting providers (Gmail, Apple Mail, Yahoo). Requires an enforced DMARC policy (quarantine/reject) and an SVG logo (some providers also require a VMC certificate)."
  else
  if one_of id ["dnssec"] then
    "DNSSEC cryptographically signs DNS responses and protects against DNS manipulation (cache poisoning, spoofing). A signed sender zone is a maturity signal and a prerequisite for DANE."
  else
  if one_of id ["dane_tlsa"] then
    "DANE (TLSA records, RFC 7672) binds the mail server's TLS certificate to the domain via DNSSEC, enforcing authenticated TLS for SMTP transport — an alternative/complement to MTA-STS. Requires DNSSEC."
  else
  if one_of id ["arc"] then
    "ARC (Authenticated Received Chain) preserves authentication results (SPF, DKIM, DMARC) across forwarding hops. Particularly relevant for mailing lists, alumni forwarding and catch-all setups where SPF/DKIM signatures can break."
  else
  if one_of id ["from_domain_rcv"] then
    "Checks whether the From: header domain can actually receive email (has MX or A/AAAA records). If replies or bounces sent to the From address cannot be delivered — because the domain has no mail infrastructure — it signals a no-reply or disposable sender pattern that many spam filters flag. A From domain that cannot receive mail also breaks the expectation that email is a two-way communication channel."
  else
  if one_of id ["one_click_unsub"] then
    "RFC 8058 defines one-click unsubscribe: a List-Unsubscribe-Post header with the value 'List-Unsubscribe=One-Click', combined with an HTTPS URL in the List-Unsubscribe header that processes an HTTP POST and immediately unsubscribes the user — no confirmation page, no login required. Google and Yahoo made this mandatory for bulk senders (>5,000 emails/day) in February 2024. Without it, Gmail shows a manual unsubscribe link instead of the integrated button, which hurts engagement metrics and can trigger spam classification."
  else
  if one_of id ["template_urls"] then
    "Detects unreplaced merge-tag placeholders in email links — patterns like {unsubscribe_url}, {{email}}, *|UNSUB|*, or ${tracking_id}. These are bugs in the bulk-mail template rendering pipeline: the ESP or sending tool failed to substitute a variable before delivery. Affected links are broken (clicking them opens a 404 or a URL with literal braces), which damages sender reputation, triggers spam filters, and breaks tracking and unsubscribe flows."
  else
  if one_of id ["list_unsub"] then
    "List-Unsubscribe is mandatory for newsletters and bulk mail (required by Gmail and Yahoo since 2024 for senders of more than 5,000 emails/day). For personal and transactional individual messages it is not required."
  else
  if one_of id ["preheader"] then
    "The preheader text is the first visible text in the mail body and is shown by mail clients (Gmail, Outlook, Apple Mail, iOS Mail) as a preview snippet next to the subject. Without an explicit preheader, clients often pull unsuitable text (links, unsubscribe notices, HTML code)."
  else
  if one_of id ["unicode"] then
    "Zero-width characters (U+200B, U+FEFF etc.), bidi override characters and Unicode homoglyph substitutions are known techniques to bypass spam filters and deceive users. SpamAssassin, Rspamd and Gmail explicitly detect common Unicode obfuscation patterns."
  else
  if one_of id ["subject"] then
    "The email subject is evaluated for spam signals: excessive exclamation marks, ALL-CAPS, common spam phrases and suspicious patterns that trigger spam filter rules."
  else
  if one_of id ["domain_blocklist"] then
    "Domain blocklists (e.g. Spamhaus DBL) list domains that appear in spam/phishing — independent of the sending IP. A listed sending domain leads to direct rejection or spam classification at many providers."
  else
  if one_of id ["link_blocklist"] then
    "URI/domain blocklists (URIBL, SURBL, Spamhaus DBL) check the domains linked in the email against known spam/malware domains. Since spam almost always contains a link, this is one of the most effective filter signals."
  else
  if one_of id ["spamassassin"] then
    "SpamAssassin is a widely used open-source spam filter that scores emails using hundreds of rules (header patterns, content analysis, RBL checks, Bayes). A score above the threshold (typically 5.0) causes the mail to be classified as spam."
  else
  if one_of id ["rspamd"] then
    "Rspamd is a modern, high-performance spam filter used by many mail servers. It analyses mail using statistical methods, machine learning and rule-based checks. The action (greylist/add_header/rewrite_subject/reject) depends on the total score."
  else
  if one_of id ["mime_parse"] then
    "A correctly structured MIME message is a prerequisite for all further authentication, header and content checks. Malformed raw messages are scored lower or rejected directly by providers."
  else
  if one_of id ["message_id"] then
    "Every email should have a stable, globally unique Message-ID. Missing or malformed Message-IDs are a classic spam signal and can also cause problems with threading in mail clients."
  else
  if one_of id ["message_id_format"] then
    "The Message-ID header must follow the format defined in RFC 5322: an angle-bracket-enclosed identifier with a local part and a domain separated by '@', e.g. <unique-id@sending-domain.com>. A malformed Message-ID is a spam signal many filters flag because legitimate mail servers always generate properly formatted Message-IDs. Some providers (Outlook, Gmail) also use Message-ID format to detect bulk mail from badly configured senders."
  else
  if one_of id ["received_chain"] then
    "Received headers document the complete transport path of the message. Each MTA adds its Received header. Receiving systems use the chain for IP reputation analysis, routing analysis and forensics."
  else
  if one_of id ["image_alt"] then
    "The alt attribute on <img> tags serves two purposes for email deliverability: it provides fallback text when images are blocked (most email clients block images by default on first open), and it reduces the image-to-text ratio that spam filters use. A message consisting entirely of images with no alt text looks like a spam or phishing template — the recipient sees nothing, and filters see no text content to evaluate. Alt text should describe the image concisely."
  else
  if one_of id ["harmful_html"] then
    "Email HTML is rendered in highly restricted environments: no JavaScript, no meta-redirects, no external CSS. Finding <script> tags or <meta http-equiv=refresh> redirects in an email body is a strong spam signal because no legitimate sender needs them — they are never executed by mail clients but are commonly used by malicious bulk mail to obscure intent. Most spam filters apply heavy penalties or reject such messages outright."
  else
  if one_of id ["fake_reply"] then
    "Some spam campaigns prefix their subject line with 'Re:' or 'Fwd:' to make messages appear part of an existing conversation and trick recipients into opening them. A genuine reply or forward always includes In-Reply-To and/or References headers referencing the original message's Message-ID. When these thread headers are absent, the Re:/Fwd: prefix is almost certainly fabricated — a technique known as 'fake-reply spam'. Many spam filters detect this pattern."
  else
  if one_of id ["x_google_dkim"] then
    "Google's internal DKIM verification signal added to Authentication-Results when email is routed through Google infrastructure (Gmail, Google Workspace). A 'fail' value means Google's internal verification rejected the DKIM signature, which can negatively impact deliverability to Gmail recipients even if the standard DKIM check passed."
  else
  if one_of id ["too_many_links"] then
    "Having more than 30 links in a single email is a recognised spam signal used by SpamAssassin, Rspamd and Gmail's filters. Legitimate emails rarely need dozens of links. Bulk campaigns with excessive link counts often indicate link-farming, tracker injection or templating errors."
  else
  if one_of id ["no_reply_reply_to"] then
    "When the From address is a no-reply address (noreply@, no-reply@, donotreply@) and no Reply-To header is set, any recipient who hits 'Reply' will compose a message that bounces or is silently discarded. Setting Reply-To to a monitored inbox is a best practice that improves recipient trust and ensures replies reach the right team. Some spam filters also rate no-reply senders without Reply-To more negatively."
  else
  if one_of id ["link_domain_mismatch"] then
    "Detects links where the visible anchor text shows a different domain than the actual href target — a classic phishing technique. For example, showing 'paypal.com' as the link text while the href points to 'evil-example.com'. Spam filters and anti-phishing engines check for this pattern explicitly. Legitimate email never needs to disguise link destinations."
  else
  if one_of id ["broken_links"] then
    "Makes HTTP GET requests to all links in the email and checks if they return an error status (4xx/5xx) or time out. Broken links damage recipient trust and can negatively affect deliverability — some spam filters flag emails with non-reachable links. Privacy note: this check contacts external servers. The destination servers will receive an HTTP request from sender.report's server. Enable only if you accept this."
  else
    "This check evaluates a technical signal that mail providers use for deliverability, abuse detection or user trust.".

Definition naExplanation (id : string) : string :=
  if one_of id ["return_path"] then
    "Return-Path (Bounce-Adresse) ist primär für Massen- und Newsletter-Mails relevant, damit Unzustellbarkeitsmeldungen (NDR/DSN) automatisch verarbeitet werden können. Für persönliche und transaktionale Einzelmails wird kein gesonderter Return-Path erwartet – der Absender ist über den From-Header eindeutig. Dieser Check hat keinen Einfluss auf den Score für diese Mail."
  else
  if one_of id ["list_unsub"] then
    "List-Unsubscribe ist ein Pflichtfeld für Newsletter und Bulk-Mails (seit 2024 von Gmail und Yahoo für Versender über 5.000 Mails/Tag vorgeschrieben). Für persönliche und transaktionale Einzelmails ist er nicht erforderlich und würde im Kontext sogar befremdlich wirken. Kein Einfluss auf den Score für diese Mail."
  else
  if one_of id ["one_click_unsub"] then
    "One-Click-Abmeldung (RFC 8058) ist nur für Bulk-/Newsletter-Mails relevant. Gmail und Yahoo verlangen dies erst ab 5.000 E-Mails/Tag. Für persönliche und transaktionale E-Mails ist es weder erwartet noch sinnvoll."
  else
  if one_of id ["template_urls"] then
    "Template-Platzhalter-Prüfung ist nur für Bulk-Mail relevant, bei der Templates mit Merge-Tags genutzt werden."
  else
    "Dieser Check ist für den erkannten Mail-Typ nicht zutreffend und hat keinen Einfluss auf den Score.".

Definition naExplanationEN (id : string) : string :=
  if one_of id ["return_path"] then
    "Return-Path (bounce address) is primarily relevant for bulk/newsletter mail so that undeliverable mail notifications (NDR/DSN) can be processed automatically. For personal and transactional individual messages no Return-Path is expected – the sender is clearly identified via the From header. This check has no impact on the score for this mail."
  else
  if one_of id ["list_unsub"] then
    "List-Unsubscribe is mandatory for newsletters and bulk mail (required by Gmail and Yahoo since 2024 for senders of more than 5,000 emails/day). For personal and transactional individual messages it is not required and would actually be out of place. No impact on the score for this mail."
  else
  if one_of id ["one_click_unsub"] then
    "One-Click Unsubscribe (RFC 8058) is only required for bulk/newsletter mail. Google and Yahoo mandate it for senders of more than 5,000 emails per day. For personal and transactional mail it is neither expected nor appropriate."
  else
  if one_of id ["template_urls"] then
    "Template placeholder checks only apply to bulk mail where merge-tag templates are used."
  else
    "This check is not applicable for the detected mail type and has no impact on the score.".

Definition simPlaceholderText (id : string) : string :=
  if one_of id ["rbl"; "ptr"; "ptr_pattern"] then
    "Im Simulator nicht prüfbar: Dafür wird die IP-Adresse des sendenden Servers gebraucht, und die entsteht erst, wenn eine Nachricht wirklich zugestellt wird. Schicken Sie eine Testmail, um diesen Punkt zu prüfen."
  else
    if Recheckable id then "Im Simulator nicht ausgeführt – mit dem Knopf ↻ einzeln abrufbar."
    else "Im Simulator nicht ausgeführt.".

Definition defaultDocLinks (id : string) : list DocLink :=
  if one_of id ["from_alignment"; "spf_alignment"; "dkim_alignment"; "dmarc_alignment"] then
    [mkDocLink "DMARC Alignment erklärt – dmarcian" "https://dmarcian.com/alignment/";
     mkDocLink "RFC 7489 – DMARC Alignment" "https://www.rfc-editor.org/rfc/rfc7489#section-3.1"]
  else
  if one_of id ["return_path"] then
    [mkDocLink "Return-Path vs. From – Postmark" "https://postmarkapp.com/blog/what-is-the-return-path";
     mkDocLink "RFC 5321 – SMTP Reverse-Path" "https://www.rfc-editor.org/rfc/rfc5321#section-4.1.1.2"]
  else
  if one_of id ["reply_to"] then
    [mkDocLink "RFC 5322 – Reply-To Header" "https://www.rfc-editor.org/rfc/rfc5322#section-3.6.2"]
  else
  if one_of id ["tls_transport"] then
    [mkDocLink "STARTTLS erklärt – Fastmail" "https://www.fastmail.help/hc/en-us/articles/1500000278321";
     mkDocLink "DANE für SMTP – IETF RFC 7672" "https://www.rfc-editor.org/rfc/rfc7672";
     mkDocLink "TLS-Check – internet.nl" "https://internet.nl/mail/"]
  else
  if one_of id ["received_chain"] then
    [mkDocLink "RFC 5321 – Received Header" "https://www.rfc-editor.org/rfc/rfc5321#section-4.4";
     mkDocLink "E-Mail-Header analysieren – MXToolbox" "https://mxtoolbox.com/EmailHeaders.aspx"]
  else
  if one_of id ["arc"] then
    [mkDocLink "ARC erklärt – arc-spec.org" "https://arc-spec.org/";
     mkDocLink "RFC 8617 – ARC" "https://www.rfc-editor.org/rfc/rfc8617"]
  else
  if one_of id ["mime_ct"; "mime_boundary"; "multipart_alt"] then
    [mkDocLink "RFC 2045 – MIME Part One" "https://www.rfc-editor.org/rfc/rfc2045";
     mkDocLink "MIME-Typen – MDN" "https://developer.mozilla.org/en-US/docs/Web/HTTP/Basics_of_HTTP/MIME_types"]
  else
  if one_of id ["plain_text"] then
    [mkDocLink "Multipart/Alternative Best Practices" "https://www.litmus.com/blog/best-practices-multipart-alternative-emails/"]
  else
  if one_of id ["html"; "hidden_html"; "html_validity"] then
    [mkDocLink "HTML E-Mail Guide – Campaign Monitor" "https://www.campaignmonitor.com/dev-resources/guides/html-email-best-practices/";
     mkDocLink "E-Mail-Kompatibilitätstests – Can I Email" "https://www.caniemail.com/"]
  else
  if one_of id ["links"; "shortener"; "tracking_links"] then
    [mkDocLink "Link-Tracking Best Practices – Postmark" "https://postmarkapp.com/blog/link-tracking-in-email";
     mkDocLink "URL-Reputation prüfen – Google" "https://transparencyreport.google.com/safe-browsing/search";
     mkDocLink "URL-Reputation – VirusTotal" "https://www.virustotal.com/gui/home/url"]
  else
  if one_of id ["subject"; "subject_exclaim"; "subject_caps"] then
    [mkDocLink "Betreff Best Practices – Mailchimp" "https://mailchimp.com/resources/email-subject-line-best-practices/";
     mkDocLink "SpamAssassin Subject-Regeln" "https://spamassassin.apache.org/tests_3_4_x.html"]
  else
  if one_of id ["message_id"] then
    [mkDocLink "RFC 5322 – Message-ID" "https://www.rfc-editor.org/rfc/rfc5322#section-3.6.4"]
  else
  if one_of id ["date"; "date_skew"] then
    [mkDocLink "RFC 5322 – Date Header" "https://www.rfc-editor.org/rfc/rfc5322#section-3.6.1";
     mkDocLink "NTP-Synchronisierung – pool.ntp.org" "https://www.ntppool.org/en/"]
  else
  if one_of id ["attachments"; "image_text_ratio"] then
    [mkDocLink "Attachment Best Practices – Postmark" "https://postmarkapp.com/developer/user-guide/send-email-with-attachments";
     mkDocLink "Bild/Text-Verhältnis – Validity" "https://www.validity.com/resource-center/image-to-text-ratio/"]
  else
  if one_of id ["list_unsub"] then
    [mkDocLink "Gmail Bulk-Sender Anforderungen" "https://support.google.com/mail/answer/81126";
     mkDocLink "Yahoo Sender Best Practices" "https://senders.yahooinc.com/best-practices/";
     mkDocLink "RFC 8058 – One-Click Unsubscribe" "https://www.rfc-editor.org/rfc/rfc8058";
     mkDocLink "RFC 2369 – List-Unsubscribe Header" "https://www.rfc-editor.org/rfc/rfc2369"]
  else
  if one_of id ["preheader"] then
    [mkDocLink "Preheader Best Practices – Litmus" "https://www.litmus.com/blog/the-ultimate-guide-to-preview-text-support/"]
  else
  if one_of id ["unicode"] then
    [mkDocLink "Unicode-Zeichen prüfen – Unicode Inspector" "https://apps.timwhitlock.info/unicode/inspect";
     mkDocLink "IDN Homograph Attack erklärt" "https://www.xudongz.com/blog/2017/idn-phishing/"]
  else
  if one_of id ["from_domain_rcv"] then
    [mkDocLink "RFC 5321 – SMTP" "https://www.rfc-editor.org/rfc/rfc5321"]
  else
  if one_of id ["one_click_unsub"] then
    [mkDocLink "RFC 8058 – One-Click Unsubscribe" "https://www.rfc-editor.org/rfc/rfc8058";
     mkDocLink "Google Bulk Sender Guidelines" "https://support.google.com/mail/answer/81126"]
  else
    [].

Definition spfDocLinks : list DocLink :=
    [mkDocLink "RFC 7208 – Sender Policy Framework" "https://www.rfc-editor.org/rfc/rfc7208";
     mkDocLink "SPF-Record prüfen – MXToolbox" "https://mxtoolbox.com/spf.aspx";
     mkDocLink "SPF-Wizard – dmarcian" "https://dmarcian.com/spf-wizard/";
     mkDocLink "SPF-Lookup-Limit erklären – Google" "https://support.google.com/a/answer/10684623"].

Definition dkimDocLinks : list DocLink :=
    [mkDocLink "RFC 6376 – DomainKeys Identified Mail" "https://www.rfc-editor.org/rfc/rfc6376";
     mkDocLink "DKIM-Record prüfen – MXToolbox" "https://mxtoolbox.com/dkim.aspx";
     mkDocLink "DKIM-Schlüssel generieren – EasyDMARC" "https://easydmarc.com/tools/dkim-record-generator";
     mkDocLink "OpenDKIM Installationsanleitung" "https://www.opendkim.org/"].

Definition dmarcDocLinks : list DocLink :=
    [mkDocLink "RFC 7489 – DMARC" "https://www.rfc-editor.org/rfc/rfc7489";
     mkDocLink "DMARC-Einstiegsguide – dmarc.org" "https://dmarc.org/overview/";
     mkDocLink "DMARC-Record prüfen – MXToolbox" "https://mxtoolbox.com/dmarc.aspx";
     mkDocLink "DMARC-Analyzer – dmarcian" "https://dmarcian.com/dmarc-inspector/"].

Definition specific_explanation (id : string) : string :=
  if one_of id ["spf"] then
    "SPF (Sender Policy Framework) ist eine öffentliche Liste in Ihrer Domain-Verwaltung, die festhält, welche Server E-Mails in Ihrem Namen verschicken dürfen. Der empfangende Mailserver sieht dort nach, ob die Adresse, von der die Nachricht kam, in dieser Liste steht. Steht sie nicht darin, wirkt die Mail wie eine Fälschung. Gmail, Outlook und Yahoo gewichten das besonders stark, solange Ihre Absenderadresse noch keinen langen guten Ruf hat. Bedeutung: hoch – ohne bestandenes SPF greift auch DMARC nicht, und viele Anbieter verschieben die Nachricht in den Spam-Ordner oder lehnen sie ganz ab."
  else
  if one_of id ["dkim"] then
    "DKIM (DomainKeys Identified Mail) versieht jede Ihrer Nachrichten beim Versand mit einer Art unsichtbarem Siegel. Den passenden Prüfschlüssel hinterlegen Sie öffentlich in Ihrer Domain-Verwaltung. Der empfangende Server holt ihn dort ab und stellt damit zweierlei fest: dass die Nachricht wirklich aus Ihrem Haus stammt und dass unterwegs niemand daran etwas verändert hat. Bedeutung: sehr hoch – DKIM ist neben SPF die zweite Säule von DMARC. Anders als SPF übersteht es Weiterleitungen, weil das Siegel an der Nachricht hängt und nicht am versendenden Server. Ohne DKIM landen Nachrichten deutlich häufiger im Spam-Ordner."
  else
  if one_of id ["dmarc"] then
    "DMARC ist die Anweisung, was ein Empfänger mit Nachrichten tun soll, die vorgeben, von Ihnen zu stammen, aber weder die SPF- noch die DKIM-Prüfung bestehen: durchlassen, in den Spam-Ordner legen oder ablehnen. Damit eine Nachricht DMARC besteht, reicht eine der beiden Prüfungen — sie muss aber zu genau der Absenderadresse gehören, die der Empfänger im Postfach sieht. Diese Zusammengehörigkeit heißt Alignment. Bedeutung: kritisch – ohne DMARC kann jeder Fremde in Ihrem Namen schreiben, und seit 2024 verlangen Gmail und Yahoo es von allen, die größere Mengen versenden."
  else
  if one_of id ["ptr"] then
    "Reverse DNS (PTR/rDNS) zeigt, welcher Hostname zu einer sendenden IP gehört. Empfänger prüfen typischerweise: (1) Hat die IP einen gültigen PTR-Eintrag? (2) Löst dieser PTR-Name per Forward-DNS wieder auf die gleiche IP auf (Forward-Confirmed rDNS)? (3) Stimmt der PTR-Name plausibel mit HELO/EHLO überein? Outlook/Exchange, Barracuda, Mimecast und Unternehmens-Gateways lehnen bei fehlendem PTR direkt ab. Gmail und Yahoo nutzen es als Qualitätssignal. Wichtigkeit: sehr hoch – fehlender oder inkonsistenter PTR-Record ist einer der häufigsten Gründe für direkte Ablehnung durch Unternehmens-Mailgateways. PTR-Records werden beim IP-Hosting-Provider gesetzt, nicht im eigenen DNS."
  else
  if one_of id ["helo"] then
    "HELO/EHLO ist der Hostname, mit dem sich der sendende MTA beim Empfänger-SMTP anmeldet. Er sollte ein stabiler, vollqualifizierter Domainname (FQDN) sein – kein 'localhost', keine rohe IP-Adresse ([203.0.113.1]) und kein zufälliger Container-Name. Empfangende Systeme prüfen: Ist der HELO-Name ein gültiger FQDN? Stimmt er mit dem PTR/rDNS der sendenden IP überein? Hat er einen A/AAAA-Record? Wichtigkeit: hoch – SpamAssassin wertet HELO_DYNAMIC, HELO_NO_DOMAIN, HELO_IP_4_5_6 mit negativen Scores; viele kommerzielle Gateways lehnen bei inkonsistentem HELO/PTR ab. Der HELO-Name wird dauerhaft im Server konfiguriert (nicht per Mail änderbar)."
  else
  if one_of id ["mx_records"] then
    "MX-Records definieren, welcher Mailserver E-Mails für eine Domain empfängt. Für reine Versanddomains ist ein MX technisch nicht zwingend, aber Domains ohne MX werden von vielen Spamfiltern misstrauischer eingestuft – weil wegwerf-artige oder kompromittierte Domains oft keinen MX haben. Außerdem setzen Bounce-Handling, DMARC-Forensik-Reports (ruf=) und Reply-To-Routing Empfangbarkeit voraus. Wichtigkeit: mittel – für transaktionale Mails nicht kritisch, aber für professionelles Domain-Setup empfohlen."
  else
  if one_of id ["address_records"] then
    "A/AAAA-Records zeigen, auf welche IPs ein Hostname zeigt. Mailserver-Hostnamen aus HELO/EHLO und MX-Einträgen müssen sauber auflösen. Ein HELO-Name ohne gültigen A/AAAA-Record erhöht Spam-Scores und signalisiert schlechte DNS-Hygiene. Tracking-Subdomains und Bounce-Domains sollten ebenfalls konsistent auflösen. Wichtigkeit: hoch – inkonsistente DNS-Auflösung ist ein verlässliches Zeichen für schlechte Infrastruktur-Qualität und erhöht den Spam-Score bei fast allen Filtersystemen."
  else
  if one_of id ["spamassassin"] then
    "SpamAssassin bewertet Nachrichten mit einem gewichteten Regelsystem aus mehreren hundert Tests: Authentifizierung, IP-Reputation, Header-Konsistenz, Inhaltsmuster, MIME-Struktur, URLs und Bayes-Filter. Ab einem Schwellwert (typisch 5.0) gilt eine Mail als Spam. SpamAssassin ist bei ISPs, Unternehmens-Gateways, Postfix/Dovecot-Setups und cPanel-Hosting weit verbreitet. Wichtigkeit: hoch – hohe SA-Scores sind ein verlässlicher Indikator für reale Zustellprobleme. Die einzelnen Regeln zeigen genau, wo die Probleme liegen; jede Regel sollte einzeln nachgeschlagen und behoben werden."
  else
  if one_of id ["rbl"] then
    "RBLs/DNSBLs listen IPs, die Spam-, Abuse-, Botnet-, Proxy- oder Angriffssignale ausgelöst haben. Die bekanntesten Listen (Spamhaus SBL/XBL/PBL, Barracuda, SpamCop) werden von großen Mailbox-Providern, kommerziellen Gateways und selbst betriebenen Mailservern aktiv genutzt. Wichtigkeit: sehr hoch – ein Spamhaus-Listing führt bei Gmail, Outlook und Yahoo nahezu sicher zur Ablehnung oder Spam-Einstufung. Die richtige Reihenfolge: erst Ursache stoppen (offenes Relay, kompromittiertes Konto, Botnet), dann Infrastruktur sichern, dann Delisting beantragen. Delisting ohne Ursachenbehebung führt zur Wiederlisting."
  else
    defaultExplanation id.

Definition specific_links (id : string) : list DocLink :=
  if one_of id ["spf"] then
    spfDocLinks
  else
  if one_of id ["dkim"] then
    dkimDocLinks
  else
  if one_of id ["dmarc"] then
    dmarcDocLinks
  else
  if one_of id ["ptr"] then
    [mkDocLink "PTR/rDNS Lookup – MXToolbox" "https://mxtoolbox.com/ReverseLookup.aspx";
     mkDocLink "Forward-confirmed rDNS – Wikipedia" "https://en.wikipedia.org/wiki/Forward-confirmed_reverse_DNS";
     mkDocLink "Outlook Sender Requirements" "https://sendersupport.olc.protection.outlook.com/pm/policies.aspx"]
  else
  if one_of id ["helo"] then
    [mkDocLink "RFC 5321 – SMTP EHLO" "https://www.rfc-editor.org/rfc/rfc5321#section-4.1.1.1";
     mkDocLink "SpamAssassin HELO-Tests" "https://spamassassin.apache.org/tests_3_4_x.html"]
  else
  if one_of id ["mx_records"] then
    [mkDocLink "MX-Record prüfen – MXToolbox" "https://mxtoolbox.com/MXLookup.aspx";
     mkDocLink "RFC 5321 – MX-Record Semantik" "https://www.rfc-editor.org/rfc/rfc5321#section-5"]
  else
  if one_of id ["address_records"] then
    [mkDocLink "DNS A-Record erklärt – Cloudflare" "https://www.cloudflare.com/learning/dns/dns-records/dns-a-record/";
     mkDocLink "DNS-Diagnose – MXToolbox" "https://mxtoolbox.com/DNSLookup.aspx"]
  else
  if one_of id ["spamassassin"] then
    [mkDocLink "SpamAssassin Regelwerk" "https://spamassassin.apache.org/tests_3_4_x.html";
     mkDocLink "SA Score-Konfiguration" "https://wiki.apache.org/spamassassin/WritingRules"]
  else
  if one_of id ["rbl"] then
    [mkDocLink "Spamhaus Check & Delist" "https://check.spamhaus.org/";
     mkDocLink "MXToolbox Blacklist Check" "https://mxtoolbox.com/blacklists.aspx";
     mkDocLink "MultiRBL – mehrere Listen prüfen" "https://multirbl.valli.org/";
     mkDocLink "Barracuda Reputation Lookup" "https://www.barracudacentral.org/lookups"]
  else
    defaultDocLinks id.
