(* ===== verification/Texts.v ===== *)
(** * Texts of the findings (internal/analyzer/analyzer.go, dkim_diag.go)

    The wording a report shows: the summaries and recommendations that depend on
    the message under analysis, the German recommendation and the English
    variants [enrichCheckResult] stores beside the German text. [enrich_texts] is
    the whole of [enrichCheckResult]; [enrichCheckResult] of Enrich.v is its part
    that decides the verdict and the technical details, and
    [enrich_texts_verdict] proves that the two agree.

    [Quote] is the %q verb of the formatting package. *)

From S2P Require Import Prelude F64 GoStrings GoTime GoNet Model Score Spf Checks Dkim MailHeaders Body Enrich Analyze Rechecks Reports Views Lang TextTables.

Local Open Scope string_scope.
Local Open Scope list_scope.
Local Open Scope Z_scope.

(** [strings.Replace] with a count of one. *)
Definition Replace1 (s old new : string) : string :=
  match Cut s old with
  | (a, b, true) => a +:+ new +:+ b
  | (_, _, false) => s
  end.

Definition unresolvedSummaryEN : string :=
  "This could not be checked: the DNS lookup did not answer. That says nothing about your settings — the record may well be in place. We simply could not read it at this moment.".
Definition unresolvedRecommendationEN : string :=
  "Wait a moment and run the check again. If this notice persists, the cause is either your domain's name servers or this test server's own connection to DNS — not your mail setup.".

(** ** The wording of a DKIM failure *)

Record wording := mkWording {
  dw_summaryDE : string;
  dw_summaryEN : string;
  dw_suggestDE : string;
  dw_suggestEN : string
}.

Section WithQuote.
Context (Quote : string -> string).

(** What [inspectDKIMKeyRecords] says about the problem it found. *)
Definition problem_text_de (p : key_problem) : string :=
  match p with
  | SeveralRecords n => "unter dem Namen liegen " +:+ Itoa (Z.of_nat n) +:+ " TXT-Records, zulässig ist genau einer"
  | WrongVersion v => "das Tag v= hat den Wert " +:+ Quote v +:+ ", erwartet ist v=DKIM1"
  | NoKeyTag => "im Record fehlt das Tag p= mit dem öffentlichen Schlüssel (der Record gehört vermutlich zu etwas anderem, etwa einem Verifizierungstext)"
  | Revoked => "p= ist leer, der Schlüssel gilt damit als widerrufen"
  | NotForEmail s => "das Tag s=" +:+ s +:+ " erlaubt den Schlüssel nicht für E-Mail (zulässig sind * und email)"
  | NotBase64 => "der Wert von p= ist kein gültiges Base64, oft durch Zeilenumbrüche oder Anführungszeichen, die beim Eintragen im DNS-Panel mitkopiert wurden"
  | Unparsable => "p= enthält keinen lesbaren öffentlichen Schlüssel"
  | KeyTypeMismatch k => "k=" +:+ k +:+ " passt nicht zum Schlüssel in p="
  | KeyTooShort bits => "der RSA-Schlüssel hat nur " +:+ Itoa bits +:+ " Bit, mindestens 1024 sind nach RFC 8301 erforderlich"
  end.

Definition problem_text_en (p : key_problem) : string :=
  match p with
  | SeveralRecords n => Itoa (Z.of_nat n) +:+ " TXT records exist under that name, exactly one is allowed"
  | WrongVersion v => "the v= tag is " +:+ Quote v +:+ ", v=DKIM1 is expected"
  | NoKeyTag => "the record has no p= tag with the public key (it probably belongs to something else, such as a verification text)"
  | Revoked => "p= is empty, which marks the key as revoked"
  | NotForEmail s => "the s=" +:+ s +:+ " tag does not allow the key for email (* and email are valid)"
  | NotBase64 => "the p= value is not valid base64, often because line breaks or quotes were copied into the DNS panel"
  | Unparsable => "p= does not contain a readable public key"
  | KeyTypeMismatch k => "k=" +:+ k +:+ " does not match the key in p="
  | KeyTooShort bits => "the RSA key has only " +:+ Itoa bits +:+ " bits, RFC 8301 requires at least 1024"
  end.

Definition problem_de (diag : dkimKeyDiag) : string := default "" (problem_text_de <$> kd_Problem diag).
Definition problem_en (diag : dkimKeyDiag) : string := default "" (problem_text_en <$> kd_Problem diag).

Definition missing_key_wording (detail : string) (diag : dkimKeyDiag) : wording :=
  let f := mkWording
      ("Der öffentliche DKIM-Schlüssel konnte nicht gefunden oder gelesen werden (Selector-DNS-Record fehlt, ist leer oder fehlerhaft).")
      ("The DKIM public key could not be found or read (selector DNS record missing, empty or malformed).")
      ("TXT-Record <selector>._domainkey.<domain> prüfen: v=DKIM1; k=rsa; p=<base64-Key>.")
      ("Check the TXT record <selector>._domainkey.<domain>: v=DKIM1; k=rsa; p=<base64-key>.") in
  if negb (known diag) then f
  else
    let n := kd_DNSName diag in
    let head := "Die Mail ist mit Selector „" +:+ kd_Selector diag +:+ "“ für die Domain " +:+ kd_Domain diag +:+ " signiert. Der Prüfer suchte den Schlüssel im TXT-Record " +:+ n +:+ " und fand ihn nicht." in
    let headEN := "The mail is signed with selector “" +:+ kd_Selector diag +:+ "” for the domain " +:+ kd_Domain diag +:+ ". The verifier looked for the key in the TXT record " +:+ n +:+ " and did not find it." in
    let check := "Kontrolle: dig +short TXT " +:+ n in
    let checkEN := "Check: dig +short TXT " +:+ n in
    let resolvers := Join (kd_ExternalResolvers diag) ", " in
    let external s := if (List.length (kd_ExternalResolvers diag) =? 0)%nat then "" else s in
    let f :=
      if String.eqb (kd_State diag) dkimKeyAbsent then mkWording
        (head +:+ " Unter diesem Namen gibt es im DNS keinen TXT-Record." +:+ external (" Auch die externen Resolver " +:+ resolvers +:+ " kennen den Namen nicht."))
        (headEN +:+ " The DNS has no TXT record under that name." +:+ external (" The external resolvers " +:+ resolvers +:+ " do not know the name either."))
        ("TXT-Record " +:+ n +:+ " anlegen mit dem Wert v=DKIM1; k=rsa; p=<öffentlicher Schlüssel>. Den Schlüssel erzeugt die Software, die signiert (etwa OpenDKIM, Rspamd oder der Mailanbieter). Der Selector im Namen muss genau dem s= der Signatur entsprechen: " +:+ kd_Selector diag +:+ ". Existiert der Record schon unter einem anderen Selector, den Signer auf diesen umstellen. " +:+ check)
        ("Create the TXT record " +:+ n +:+ " with the value v=DKIM1; k=rsa; p=<public key>. The software that signs (for example OpenDKIM, Rspamd or the mail provider) generates the key. The selector in the name has to match the s= of the signature exactly: " +:+ kd_Selector diag +:+ ". If the record already exists under another selector, switch the signer to that one. " +:+ checkEN)
      else if String.eqb (kd_State diag) dkimKeyUnavailable then mkWording
        (head +:+ " Die DNS-Abfrage wurde nicht beantwortet (Zeitüberschreitung oder Serverfehler). Ob der Record fehlt, ist damit offen.")
        (headEN +:+ " The DNS query got no answer (timeout or server error), so it is unknown whether the record is missing.")
        ("Testmail erneut senden. Antwortet das DNS wieder nicht, die Nameserver der Domain " +:+ kd_Domain diag +:+ " prüfen (dig NS " +:+ kd_Domain diag +:+ "). " +:+ check)
        ("Send the test mail again. If the DNS stays silent, check the name servers of " +:+ kd_Domain diag +:+ " (dig NS " +:+ kd_Domain diag +:+ "). " +:+ checkEN)
      else if String.eqb (kd_State diag) dkimKeyUnusable then mkWording
        (head +:+ " Der Record ist vorhanden, aber unbrauchbar: " +:+ problem_de diag +:+ ".")
        (headEN +:+ " The record exists but is unusable: " +:+ problem_en diag +:+ ".")
        ("Den TXT-Record " +:+ n +:+ " korrigieren: " +:+ problem_de diag +:+ ". Gültige Form: v=DKIM1; k=rsa; p=<Base64 ohne Zeilenumbrüche>. " +:+ check)
        ("Fix the TXT record " +:+ n +:+ ": " +:+ problem_en diag +:+ ". Valid form: v=DKIM1; k=rsa; p=<base64 without line breaks>. " +:+ checkEN)
      else if String.eqb (kd_State diag) dkimKeyUsable then mkWording
        (head +:+ " Beim Prüfen der Mail meldete der DNS-Resolver des Servers, der Name existiere nicht. Inzwischen ist der Record abrufbar und enthält einen gültigen Schlüssel (" +:+ kd_KeyInfo diag +:+ "). Das passiert bei einem frisch angelegten Record, dessen Negativ-Antwort noch im Cache stand, oder bei einem unzuverlässigen Resolver.")
        (headEN +:+ " When the mail was verified, the server's DNS resolver reported that the name does not exist. The record can be fetched now and holds a valid key (" +:+ kd_KeyInfo diag +:+ "). This happens with a freshly created record whose negative answer was still cached, or with an unreliable resolver.")
        ("Testmail erneut senden. Besteht DKIM danach, lag es am Zwischenspeicher. Bleibt es beim Fehler, den Resolver des Servers prüfen: dig +short TXT " +:+ n +:+ " @<Resolver des Servers>.")
        ("Send the test mail again. If DKIM passes, a cache was the cause. If it keeps failing, check the server's resolver: dig +short TXT " +:+ n +:+ " @<server resolver>.")
      else f in
    let d := TrimSpace detail in
    if negb (isEmpty d) && negb (String.eqb d "none")
    then mkWording (dw_summaryDE f +:+ " Meldung des Prüfers: " +:+ d) (dw_summaryEN f +:+ " Verifier message: " +:+ d) (dw_suggestDE f) (dw_suggestEN f)
    else f.

Definition dkim_wording (result detail : string) (now : Z) (diag : dkimKeyDiag) : wording :=
  let d := ToLower detail in
  if Contains d "hash algorithm too weak" || Contains d "sha1" then
    if now <? dkimSHA1HardFailFrom then mkWording
      ("DKIM ist mit dem veralteten Algorithmus rsa-sha1 signiert. Die Signatur ist kryptografisch gültig, aber rsa-sha1 ist laut RFC 8301 unzulässig — Gmail, Yahoo und Outlook lehnen es zunehmend ab. Ab dem 01.01.2027 wird das hier als Fehler gewertet.")
      ("DKIM is signed with the deprecated rsa-sha1 algorithm. The signature is cryptographically valid, but RFC 8301 disallows rsa-sha1 — Gmail, Yahoo and Outlook increasingly reject it. From 2027-01-01 this will be scored as an error here.")
      ("Beim Signieren auf rsa-sha256 umstellen (a=rsa-sha256). Bei OpenDKIM: SignatureAlgorithm rsa-sha256; ggf. neuen Schlüssel veröffentlichen.")
      ("Switch signing to rsa-sha256 (a=rsa-sha256). OpenDKIM: SignatureAlgorithm rsa-sha256; republish the key if needed.")
    else mkWording
      ("DKIM ist mit dem veralteten Algorithmus rsa-sha1 signiert, der laut RFC 8301 unzulässig ist. Gmail, Yahoo und Outlook lehnen rsa-sha1 ab — die Signatur zählt dort nicht.")
      ("DKIM is signed with the deprecated rsa-sha1 algorithm, which RFC 8301 disallows. Gmail, Yahoo and Outlook reject rsa-sha1 — the signature does not count there.")
      ("Beim Signieren auf rsa-sha256 umstellen (a=rsa-sha256). Bei OpenDKIM: SignatureAlgorithm rsa-sha256; ggf. neuen Schlüssel veröffentlichen.")
      ("Switch signing to rsa-sha256 (a=rsa-sha256). OpenDKIM: SignatureAlgorithm rsa-sha256; republish the key if needed.")
  else if Contains d "body length" then
    mkWording
      ("Die DKIM-Signatur nutzt das unsichere l=-Tag (Body-Length). Die Signatur ist gültig, aber damit lässt sich Inhalt anhängen, ohne die Signatur zu brechen — strikte Verifier lehnen das ab.")
      ("The DKIM signature uses the insecure l= (body length) tag. The signature is valid, but content can be appended without breaking it — strict verifiers reject this.")
      ("Das l=-Tag in der Signer-Konfiguration entfernen.")
      ("Remove the l= tag from the signer configuration.")
  else if Contains d "too short" then
    mkWording
      ("Der DKIM-Schlüssel ist zu kurz (< 1024 Bit) und wird laut RFC 8301 nicht als gültig akzeptiert.")
      ("The DKIM key is too short (< 1024 bits) and is not accepted as valid per RFC 8301.")
      ("Neuen DKIM-Schlüssel mit mindestens 2048 Bit erzeugen und im Selector veröffentlichen.")
      ("Generate a new DKIM key of at least 2048 bits and publish it in the selector.")
  else if Contains d "expired" then
    mkWording
      ("Die DKIM-Signatur ist abgelaufen (x=-Tag liegt in der Vergangenheit).")
      ("The DKIM signature has expired (x= tag is in the past).")
      ("Signatur-Lebensdauer (x=) verlängern oder x= weglassen; Systemuhr des Signers prüfen.")
      ("Extend the signature lifetime (x=) or omit x=; check the signer's system clock.")
  else if Contains d "body hash did not verify" then
    mkWording
      ("Der DKIM-Body-Hash stimmt nicht — der Mail-Inhalt wurde nach dem Signieren verändert (z. B. durch eine Mailingliste, einen Footer-/Disclaimer-Injektor oder ein Gateway).")
      ("DKIM body hash mismatch — the message was modified after signing (mailing list, footer/disclaimer injector or gateway).")
      ("Signierung als letzten Schritt vor dem Versand ausführen; nachgelagerte Content-Änderungen vermeiden oder danach neu signieren.")
      ("Sign as the last step before sending; avoid post-signing content changes or re-sign afterwards.")
  else if dkimDetailIsKeyProblem d then missing_key_wording detail diag
  else if Contains d "multiple txt" then
    mkWording
      ("Für den DKIM-Selector existieren mehrere TXT-Records — das Ergebnis ist damit undefiniert (RFC 6376) und wird abgelehnt.")
      ("Multiple TXT records exist for the DKIM selector — the result is undefined (RFC 6376) and rejected.")
      ("Pro Selector genau einen TXT-Record veröffentlichen.")
      ("Publish exactly one TXT record per selector.")
  else if Contains d "domain mismatch" || Contains d "from field not signed" then
    mkWording
      ("Die DKIM-Signatur ist formal ungültig (From-Feld nicht signiert oder i=/d=-Domain passt nicht).")
      ("The DKIM signature is formally invalid (From field not signed or i=/d= domain mismatch).")
      ("Signer so konfigurieren, dass das From-Feld signiert wird und i= zur d=-Domain passt.")
      ("Configure the signer to sign the From field and align i= with the d= domain.")
  else if negb (isEmpty (TrimSpace detail)) && negb (String.eqb detail "none") && negb (String.eqb detail "no signature") then
    mkWording
      ("DKIM-Prüfung fehlgeschlagen (" +:+ result +:+ "): " +:+ detail)
      ("DKIM verification failed (" +:+ result +:+ "): " +:+ detail)
      ("Selector, Canonicalization und Signatur prüfen.")
      ("Check selector, canonicalization and signature.")
  else
    mkWording
      ("DKIM meldet " +:+ result +:+ ".")
      ("DKIM reports " +:+ result +:+ ".")
      ("Selector, Canonicalization und Signatur prüfen.")
      ("Check selector, canonicalization and signature.").

Section WithContext.
Context (ctx : checkContext).

(** The wording of [classifyDKIMFailure] where it recognised the cause. *)
Definition specific_wording : option wording :=
  if df_specific (classifyDKIMFailure (cc_DKIMResult ctx) (cc_DKIMDetail ctx) (cc_Now ctx) (cc_DKIMKey ctx))
  then Some (dkim_wording (cc_DKIMResult ctx) (cc_DKIMDetail ctx) (cc_Now ctx) (cc_DKIMKey ctx))
  else None.

Definition summaryEN (id status deSummary : string) : string :=
  let key := id +:+ ":" +:+ status in
  if one_of key ["spf:pass"] then
    "SPF passed according to Authentication-Results."
  else
  if one_of key ["spf:fail"] then
    "SPF reports a fail or softfail."
  else
  if one_of key ["spf:warn"] then
    "SPF record present but no clear result in the header."
  else
  if one_of key ["spf:info"] then
    "SPF record present, no definitive result."
  else
  if one_of key ["dkim:pass"] then
    "DKIM passed according to Authentication-Results."
  else
  if one_of key ["dkim:fail"; "dkim:warn"] then
    (match specific_wording with
    | Some w => dw_summaryEN w
    | None => if String.eqb status "warn" then "DKIM signature present but no valid result detectable."
      else "DKIM reports a failure."
    end)
  else
  if one_of key ["dkim:info"] then
    "No DKIM signature found."
  else
  if one_of key ["dmarc:pass"] then
    "DMARC passed according to Authentication-Results."
  else
  if one_of key ["dmarc:fail"] then
    (if negb (isEmpty (cc_FromDomain ctx)) then "No DMARC record found for " +:+ cc_FromDomain ctx +:+ "."
    else "DMARC failed or no record found.")
  else
  if one_of key ["dmarc:warn"] then
    "DMARC record present but no clear pass in the header."
  else
  if one_of key ["dmarc_policy:pass"] then
    "DMARC p=reject – strongest protection against domain spoofing."
  else
  if one_of key ["dmarc_policy:warn"] then
    "DMARC p=none – monitoring only, no active protection against domain spoofing."
  else
  if one_of key ["ptr:pass"] then
    "Reverse DNS is correctly set up (forward-confirmed rDNS)."
  else
  if one_of key ["ptr:fail"] then
    "Reverse DNS (PTR) is missing or not forward-confirmed."
  else
  if one_of key ["ptr:warn"] then
    "Reverse DNS is present but inconsistent."
  else
  if one_of key ["spf_strictness:pass"] then
    "SPF ends with -all (hardfail) – strictest and recommended setting."
  else
  if one_of key ["spf_strictness:warn"] then
    "SPF ends with ~all (softfail) – acceptable, but -all provides stronger protection."
  else
  if one_of key ["spf_strictness:fail"] then
    "SPF ends with +all – allows ANYONE to send on your behalf (dangerous)."
  else
  if one_of key ["spf_strictness:info"] then
    "No SPF record evaluable."
  else
  if one_of key ["rbl:pass"] then
    "No hits in the configured blocklists."
  else
  if one_of key ["rbl:fail"] then
    "Sending IP is listed on one or more blocklists."
  else
  if one_of key ["rbl:info"] then
    "RBL check active but no providers configured."
  else
  if one_of key ["tls_transport:pass"] then
    "Email was transmitted with TLS encryption."
  else
  if one_of key ["tls_transport:warn"] then
    "No clear TLS transport signal found."
  else
  if one_of key ["tls_transport:fail"] then
    "Email appears to have been transmitted without TLS."
  else
  if one_of key ["mx_records:pass"] then
    "MX records found for the sending domain."
  else
  if one_of key ["mx_records:fail"] then
    "No MX records found for the sending domain."
  else
  if one_of key ["display_name:pass"] then
    "Display name is consistent with the actual sender domain."
  else
  if one_of key ["display_name:fail"] then
    "Display name contains a domain different from the actual sender – phishing signal."
  else
  if one_of key ["helo:pass"] then
    "HELO/EHLO looks plausible."
  else
  if one_of key ["helo:fail"] then
    "HELO/EHLO is missing."
  else
  if one_of key ["helo:warn"] then
    "HELO/EHLO does not look like a valid FQDN."
  else
  if one_of key ["spf_alignment:pass"] then
    "Envelope-from and header-from domains are SPF-aligned."
  else
  if one_of key ["spf_alignment:fail"] then
    "Envelope-from and header-from domains are not aligned for SPF."
  else
  if one_of key ["dkim_alignment:pass"] then
    "DKIM d= domain matches the header-from domain."
  else
  if one_of key ["dkim_alignment:fail"] then
    "DKIM d= domain does not match the header-from domain."
  else
  if one_of key ["dmarc_alignment:pass"] then
    "DMARC alignment check passed (SPF or DKIM aligned)."
  else
  if one_of key ["dmarc_alignment:fail"] then
    "DMARC alignment failed: neither SPF nor DKIM aligns with the From domain."
  else
  if one_of key ["message_id:pass"] then
    "Message-ID present."
  else
  if one_of key ["message_id:fail"] then
    "Message-ID is missing."
  else
  if one_of key ["list_unsub:pass"] then
    "List-Unsubscribe header present."
  else
  if one_of key ["list_unsub:warn"] then
    "Bulk mail detected but List-Unsubscribe is missing (Gmail/Yahoo requirement since 2024)."
  else
  if one_of key ["list_unsub:na"] then
    "Not applicable for this mail type – no impact on score."
  else
  if one_of key ["return_path:pass"] then
    "Return-Path header is present."
  else
  if one_of key ["return_path:warn"] then
    "No Return-Path header visible."
  else
  if one_of key ["return_path:na"] then
    "Not applicable for this mail type – no impact on score."
  else
  if one_of key ["bimi:pass"] then
    "BIMI record published – logo display at supporting providers (requires enforced DMARC)."
  else
  if one_of key ["bimi:info"] then
    "No BIMI record found (optional; requires DMARC p=quarantine/reject and an SVG logo)."
  else
  if one_of key ["mta_sts:pass"] then
    "MTA-STS policy published."
  else
  if one_of key ["mta_sts:info"] then
    "No MTA-STS policy found (optional but recommended)."
  else
  if one_of key ["dnssec:pass"] then
    "DNSSEC is enabled for the sending domain."
  else
  if one_of key ["dnssec:info"] then
    "DNSSEC not detected (optional)."
  else
  if one_of key ["arc:info"] then
    (if Contains deSummary "vorhanden" then "ARC headers present."
    else "No ARC headers present (only relevant for forwarding scenarios).")
  else
  if one_of key ["arc:warn"] then
    "ARC chain broken – forwarding chain may be manipulated or misconfigured."
  else
  if one_of key ["from_domain_rcv:pass"] then
    "From domain can receive email (MX records present)."
  else
  if one_of key ["from_domain_rcv:warn"] then
    "From domain cannot receive email — replies and bounces will be lost."
  else
  if one_of key ["from_domain_rcv:info"] then
    deSummary
  else
  if one_of key ["one_click_unsub:pass"] then
    "One-Click Unsubscribe present (RFC 8058 compliant) — maximum compatibility with Gmail and Yahoo."
  else
  if one_of key ["one_click_unsub:warn"] then
    "List-Unsubscribe present but One-Click Unsubscribe (RFC 8058) missing — Gmail/Yahoo compliance gap."
  else
  if one_of key ["one_click_unsub:na"] then
    "Not applicable for this mail type."
  else
  if one_of key ["template_urls:pass"] then
    "No obvious template placeholders found in links."
  else
  if one_of key ["template_urls:fail"] then
    ReplaceAll (ReplaceAll deSummary "Nicht ersetzte Template-Variablen" "Unreplaced template variables") "Link(s) gefunden:" "link(s) found:"
  else
  if one_of key ["template_urls:info"] then
    "No links present — template placeholder check not applicable."
  else
  if one_of key ["template_urls:na"] then
    "Not applicable for this mail type."
  else
  if one_of key ["received_chain:fail"] then
    "No Received headers present."
  else
  if one_of key ["received_chain:info"] then
    deSummary
  else
  if one_of key ["reply_to:info"] then
    "No Reply-To header set."
  else
  if one_of key ["reply_to:pass"] then
    "Reply-To header is present."
  else
  if one_of key ["domain_age:pass"] then
    "Domain is established – good reputation signal."
  else
  if one_of key ["domain_age:fail"] then
    "Sending domain is very young – strong spam/phishing signal."
  else
  if one_of key ["domain_age:warn"] then
    "Sending domain is relatively young – some reputation impact."
  else
  if one_of key ["image_alt:pass"] then
    "All images have an alt attribute."
  else
  if one_of key ["image_alt:warn"] then
    (if Contains deSummary "Allen" then "All images are missing the alt attribute."
    else deSummary)
  else
  if one_of key ["image_alt:info"] then
    "No images in HTML part – alt text check not applicable."
  else
  if one_of key ["harmful_html:pass"] then
    "No obvious harmful HTML elements detected."
  else
  if one_of key ["harmful_html:fail"] then
    "Script tags found in HTML body – strong spam signal, blocked by all email clients."
  else
  if one_of key ["harmful_html:warn"] then
    "Meta-refresh redirect detected in HTML – some spam filters penalise this."
  else
  if one_of key ["fake_reply:warn"] then
    deSummary
  else
  if one_of key ["message_id_format:pass"] then
    "Message-ID has correct RFC format (<id@domain>)."
  else
  if one_of key ["message_id_format:warn"] then
    deSummary
  else
  if one_of key ["x_google_dkim:pass"; "x_google_dkim:info"] then
    (if Contains deSummary "Kein X-Google-DKIM" then "No X-Google-DKIM signal (only relevant for Google-routed mail)."
    else "Google internal DKIM signal: pass.")
  else
  if one_of key ["x_google_dkim:warn"] then
    "Google internal DKIM signal: fail – mail may be flagged by Google's infrastructure."
  else
  if one_of key ["too_many_links:warn"] then
    Replace1 deSummary "Links erkannt – mehr als 30 Links in einer Mail ist ein Spam-Signal." " links detected – more than 30 links is a spam signal."
  else
  if one_of key ["too_many_links:info"] then
    deSummary
  else
  if one_of key ["no_reply_reply_to:warn"] then
    "From is a no-reply address but Reply-To is missing — replies will be lost."
  else
  if one_of key ["link_domain_mismatch:fail"] then
    Replace1 deSummary "Link(s) mit irreführendem Anzeigetext erkannt: der sichtbare Domainname weicht vom tatsächlichen Ziel ab – klassisches Phishing-Muster." " link(s) with misleading display text detected — visible domain does not match actual destination (phishing pattern)."
  else
  if one_of key ["link_domain_mismatch:pass"] then
    "No obvious link domain mismatches detected."
  else
  if one_of key ["link_domain_mismatch:info"] then
    deSummary
  else
  if one_of key ["broken_links:pass"] then
    Replace1 deSummary "Alle " "All "
  else
  if one_of key ["broken_links:warn"] then
    deSummary
  else
  if one_of key ["broken_links:info"] then
    (if Contains deSummary "deaktiviert" then "Broken link check disabled — opt-in required."
    else deSummary)
  else
    "".

Definition recommendationEN (id status : string) : string :=
  let primary := firstNonEmpty [cc_FromDomain ctx; cc_EnvelopeDomain ctx] in
  let ip := orElse (m_RemoteIP (cc_Message ctx)) "203.0.113.10" in
  if one_of id ["spf"] then
    (if String.eqb status "fail" || String.eqb status "warn" then "Publish an SPF TXT record for " +:+ orElse (cc_EnvelopeDomain ctx) "example.org" +:+ ", e.g.: v=spf1 ip4:" +:+ ip +:+ " ~all" +:+ lf +:+ "Then tighten to -all once all sending IPs are covered."
    else "")
  else
  if one_of id ["dkim"] then
    (if String.eqb status "fail" || String.eqb status "warn" then match specific_wording with
      | Some w => dw_suggestEN w
      | None => "Generate a 2048-bit RSA or Ed25519 DKIM key pair, publish the public key as a TXT record at <selector>._domainkey." +:+ orElse (cc_FromDomain ctx) "example.org" +:+ ", and configure your MTA to sign all outgoing mail."
      end
    else "")
  else
  if one_of id ["dmarc"] then
    (if String.eqb status "fail" then "Publish a DMARC record: _dmarc." +:+ orElse (cc_FromDomain ctx) "example.org" +:+ " TXT " +:+ dq +:+ "v=DMARC1; p=none; rua=mailto:dmarc@" +:+ orElse (cc_FromDomain ctx) "example.org" +:+ dq +:+ lf +:+ "Monitor aggregate reports, then raise to p=quarantine and p=reject."
    else "")
  else
  if one_of id ["ptr"] then
    (if String.eqb status "fail" || String.eqb status "warn" then "Set a PTR record for " +:+ ip +:+ " at your IP/hosting provider (NOT in your own DNS)." +:+ lf +:+ "Target: " +:+ ip +:+ " → PTR → " +:+ orElse (m_HELO (cc_Message ctx)) "mail.example.org" +:+ " → A → " +:+ ip +:+ lf +:+ "Check with: dig -x " +:+ ip +:+ " +short"
    else "")
  else
  if one_of id ["dmarc_policy"] then
    (if String.eqb status "warn" then "Raise the DMARC policy to at least p=quarantine: _dmarc." +:+ primary +:+ " TXT " +:+ dq +:+ "v=DMARC1; p=quarantine; rua=mailto:dmarc@" +:+ primary +:+ dq +:+ lf +:+ "Check DMARC aggregate reports for a few weeks first to make sure all legitimate sources are covered."
    else "")
  else
  if one_of id ["spf_strictness"] then
    (if String.eqb status "warn" then "Once all legitimate sending sources are covered in your SPF record, change ~all to -all for maximum protection: v=spf1 ... -all"
    else if String.eqb status "fail" then "Immediately change +all to -all or at minimum ~all. +all authorises every server in the world to send on your behalf."
    else "")
  else
  if one_of id ["rbl"] then
    (if String.eqb status "fail" then "1. Temporarily stop or throttle sending from " +:+ ip +:+ "." +:+ lf +:+ "2. Check mail queue, auth logs, bounce logs and web forms for spam waves." +:+ lf +:+ "3. Fix compromised accounts, open relays, open proxies, malware and misdirected bounces." +:+ lf +:+ "4. Make SPF, DKIM, DMARC, PTR/rDNS and HELO consistent." +:+ lf +:+ "5. Only then request delisting at each provider and document the fix."
    else "")
  else
  if one_of id ["helo"] then
    (if String.eqb status "fail" || String.eqb status "warn" then "Configure the MTA to use a fully qualified domain name (FQDN) as EHLO, e.g. mail.example.org. The FQDN should ideally match the PTR hostname of the sending IP."
    else "")
  else
  if one_of id ["list_unsub"] then
    (if String.eqb status "warn" then "Add a List-Unsubscribe header, e.g.:" +:+ lf +:+ "List-Unsubscribe: <mailto:unsubscribe@" +:+ orElse (cc_FromDomain ctx) "example.org" +:+ ">, <https://" +:+ orElse (cc_FromDomain ctx) "example.org" +:+ "/unsubscribe/...>" +:+ lf +:+ "List-Unsubscribe-Post: List-Unsubscribe=One-Click"
    else "")
  else
  if one_of id ["return_path"] then
    (if String.eqb status "warn" then "Set a valid envelope-from/bounce address in your MTA or ESP." +:+ lf +:+ "Example: bounce@" +:+ orElse (cc_FromDomain ctx) "example.org" +:+ " with an SPF record authorising the sending IP."
    else "")
  else
  if one_of id ["display_name"] then
    (if String.eqb status "fail" || String.eqb status "warn" then "Make the display name consistent with the actual sending domain. Do not use third-party brand names or person names that differ from your domain."
    else "")
  else
  if one_of id ["tls_transport"] then
    (if String.eqb status "warn" || String.eqb status "fail" then "Enable STARTTLS on your outgoing MTA and ensure the certificate and hostname are valid."
    else "")
  else
  if one_of id ["from_domain_rcv"] then
    "Set an MX record on the From domain, or use a From address on a domain that can receive email. If this is intentionally a no-reply address, consider using a Reply-To header pointing to a reachable address instead."
  else
  if one_of id ["one_click_unsub"] then
    "Add a 'List-Unsubscribe-Post: List-Unsubscribe=One-Click' header alongside your List-Unsubscribe header. The HTTPS URL in List-Unsubscribe must handle a POST request and immediately unsubscribe the recipient without requiring any further interaction."
  else
  if one_of id ["template_urls"] then
    "Check your bulk-mail template for unsubstituted variables before sending. Ensure all ESP merge tags are fully populated. Test with a real recipient address before deploying a campaign."
  else
  if one_of id ["image_alt"] then
    (if String.eqb status "warn" then "Add a meaningful alt attribute to every <img> tag. Example: <img src=" +:+ dq +:+ "banner.jpg" +:+ dq +:+ " alt=" +:+ dq +:+ "Summer sale – 20% off all products" +:+ dq +:+ ">. For purely decorative images use alt=" +:+ dq +:+ dq +:+ " (empty string) to signal to screen readers and filters that no text description is needed."
    else "")
  else
  if one_of id ["harmful_html"] then
    (if String.eqb status "fail" then "Remove all <script> tags from the email HTML. JavaScript is never executed in email clients and is a strong spam signal. Move any dynamic behaviour to your sending infrastructure or landing pages."
    else if String.eqb status "warn" then "Remove the <meta http-equiv=" +:+ dq +:+ "refresh" +:+ dq +:+ "> tag from the email HTML. Use a regular hyperlink if you want to direct recipients to a URL."
    else "")
  else
  if one_of id ["fake_reply"] then
    (if String.eqb status "warn" then "Remove the Re:/Fwd: prefix from the subject line. If this is a genuine reply, ensure the In-Reply-To and References headers are set correctly with the original message's Message-ID."
    else "")
  else
  if one_of id ["message_id_format"] then
    (if String.eqb status "warn" then "Configure your mail server or sending software to generate a properly formatted Message-ID. Required format: <unique-id@" +:+ orElse (cc_FromDomain ctx) "sending-domain.com" +:+ ">. The identifier before @ should be unique per message (e.g. a UUID or timestamp)."
    else "")
  else
  if one_of id ["no_reply_reply_to"] then
    (if String.eqb status "warn" then "Set a Reply-To header pointing to a monitored inbox, e.g. Reply-To: support@your-domain.com. This ensures replies from recipients are routed correctly even though the From address is a no-reply address."
    else "")
  else
  if one_of id ["link_domain_mismatch"] then
    (if String.eqb status "fail" then "Ensure the visible link text always reflects the actual destination domain. Never display one domain while linking to another."
    else "")
  else
  if one_of id ["broken_links"] then
    (if String.eqb status "warn" then "Fix or remove the broken links. Test all links before sending a campaign."
    else "")
  else
  if one_of id ["too_many_links"] then
    (if String.eqb status "warn" then "Reduce the number of links in the email. More than 30 links is a recognised spam signal."
    else "")
  else
    "".

Definition defaultRecommendation (c : CheckResult) : string :=
  let id := c_ID c in
  if one_of id ["from_alignment"] then
    "Envelope-From/Bounce-Domain und sichtbare From-Domain angleichen. Aktuell: Header-From `" +:+ orElse (get ctx "From") "none" +:+ "`, Envelope-From-Domain `" +:+ orElse (cc_EnvelopeDomain ctx) "none" +:+ "`. Empfehlenswert ist z. B. Bounce-Adresse `bounce@" +:+ orElse (cc_FromDomain ctx) "example.org" +:+ "` oder eine Subdomain wie `bounce." +:+ orElse (cc_FromDomain ctx) "example.org" +:+ "`, die per SPF autorisiert ist."
  else
  if one_of id ["return_path"] then
    "Im Versand-MTA oder ESP eine gültige Envelope-From/Bounce-Adresse setzen. Beispiel für die DNS-/MTA-Konfiguration: `bounce@" +:+ orElse (cc_FromDomain ctx) "example.org" +:+ "` mit SPF-Record für die sendende IP " +:+ orElse (m_RemoteIP (cc_Message ctx)) "203.0.113.10" +:+ "."
  else
  if one_of id ["reply_to"] then
    "Wenn Antworten an eine andere Adresse gehen sollen, Reply-To bewusst setzen, z. B. `Reply-To: support@example.org`. Wenn nicht, Reply-To weglassen oder zur sichtbaren From-Domain passend halten."
  else
  if one_of id ["spf_alignment"] then
    "SPF für die Envelope-From-Domain `" +:+ orElse (cc_EnvelopeDomain ctx) "none" +:+ "` so konfigurieren, dass die sendende IP " +:+ orElse (m_RemoteIP (cc_Message ctx)) "<sender-ip>" +:+ " erlaubt ist, und die Bounce-Domain als gleiche Domain oder Subdomain von `" +:+ orElse (cc_FromDomain ctx) "example.org" +:+ "` verwenden."
  else
  if one_of id ["dkim_alignment"] then
    "DKIM mit einer Domain signieren, die zur sichtbaren From-Domain passt. Beispiel: `d=" +:+ orElse (cc_FromDomain ctx) "example.org" +:+ "` oder eine erlaubte Subdomain; DNS-Record unter `selector._domainkey." +:+ orElse (cc_FromDomain ctx) "example.org" +:+ "` setzen."
  else
  if one_of id ["dmarc_alignment"] then
    "Mindestens SPF oder DKIM muss aligned bestehen. Praktisch: DKIM-Signatur mit `d=" +:+ orElse (cc_FromDomain ctx) "example.org" +:+ "` aktivieren und SPF für `" +:+ orElse (cc_EnvelopeDomain ctx) "example.org" +:+ "` korrigieren; DMARC-Record unter `_dmarc." +:+ orElse (cc_FromDomain ctx) "example.org" +:+ "` pflegen."
  else
  if one_of id ["received_chain"] then
    "Der empfangende SMTP-Server sollte mindestens einen Received-Header schreiben. Wenn vorgeschaltete Relays Header entfernen, deren Konfiguration prüfen und RFC-konforme Received-Zeilen erhalten."
  else
  if one_of id ["message_id"] then
    "Mailserver oder Versandsoftware so konfigurieren, dass jede Nachricht eine eindeutige Message-ID erzeugt, z. B. `<unique-id@" +:+ orElse (cc_FromDomain ctx) "example.org" +:+ ">`."
  else
  if one_of id ["mime_ct"; "mime_boundary"; "multipart_alt"] then
    "Das Template als RFC-konforme MIME-Mail erzeugen. Für HTML-Mails empfohlen: `multipart/alternative` mit `text/plain` und `text/html`, sauberer Boundary und `Content-Type: multipart/alternative; boundary=...`."
  else
  if one_of id ["plain_text"] then
    "Im Versandtemplate einen text/plain-Part zusätzlich zum HTML-Part ausliefern."
  else
  if one_of id ["attachments"] then
    "Anhänge nur verwenden, wenn noetig. Große Dateien extern verlinken, Dateinamen klar halten und riskante Dateitypen wie ausführbare Dateien vermeiden."
  else
  if one_of id ["image_text_ratio"] then
    "Mehr echten Text in die Mail aufnehmen und Bild-only-Layouts vermeiden. Richtwert: zentrale Aussage als Text ausgeben, Bilder mit Alt-Text versehen und nicht mehr als wenige Hero-/Produktbilder verwenden."
  else
  if one_of id ["charset"] then
    "UTF-8 als Charset verwenden und Content-Type korrekt setzen, z. B. `Content-Type: text/html; charset=UTF-8`."
  else
  if one_of id ["links"] then
    "Nur notwendige Links verwenden und sichtbare Link-Domain, Ziel-Domain und Absenderdomain plausibel zusammenhalten. Kritische Links mit der eigenen Domain oder einer sauber eingerichteten Tracking-Domain ausliefern."
  else
  if one_of id ["shortener"] then
    "URL-Shortener entfernen. Stattdessen direkte HTTPS-URLs oder eine eigene Tracking-Domain mit passendem CNAME/A-Record und TLS verwenden."
  else
  if one_of id ["tracking_links"] then
    "Tracking-Parameter reduzieren. Wenn Tracking notwendig ist, eine eigene Subdomain wie `click." +:+ orElse (cc_FromDomain ctx) "example.org" +:+ "` verwenden und diese sauber per DNS/TLS konfigurieren."
  else
  if one_of id ["html"; "hidden_html"; "html_validity"] then
    "HTML-Template validieren, versteckte Elemente minimieren und kritische Inhalte nicht per `display:none`, `font-size:0` oder komplexem CSS verstecken. Lange CSS-Blöcke und kaputte Tags bereinigen."
  else
  if one_of id ["subject"] then
    "Einen konkreten, normalen Betreff setzen, der Inhalt und Absender widerspiegelt. Beispiel: `Ihre Buchungsbestätigung für Veranstaltung XY` statt leerer oder generischer Betreffzeile."
  else
  if one_of id ["subject_exclaim"; "subject_caps"] then
    "Betreff normalisieren: wenige Satzzeichen, keine durchgehende Großschreibung, keine aggressiven Triggerwörter. Beispiel: `Aktualisierung zu Ihrer Bestellung`."
  else
  if one_of id ["date"; "date_skew"] then
    "Serverzeit per NTP synchronisieren und Date-Header vom MTA korrekt erzeugen lassen. Bei Postfix/Exim keine manuell manipulierten Date-Header aus der Anwendung erzwingen."
  else
  if one_of id ["tls_transport"] then
    "STARTTLS am ausgehenden MTA aktivieren und Zertifikat/Hostname prüfen."
  else
  if one_of id ["list_unsub"] then
    "Für Newsletter einen RFC-konformen Header setzen, z. B. `List-Unsubscribe: <mailto:unsubscribe@" +:+ orElse (cc_FromDomain ctx) "example.org" +:+ ">, <https://" +:+ orElse (cc_FromDomain ctx) "example.org" +:+ "/unsubscribe/...>` und optional `List-Unsubscribe-Post: List-Unsubscribe=One-Click`."
  else
  if one_of id ["preheader"] then
    "Im HTML-Template einen kurzen Preheader direkt am Anfang des Body platzieren. Beispiel: ein 80–120 Zeichen langer Vorschautext, visuell dezent versteckt, aber nicht missbräuchlich obfuskiert."
  else
  if one_of id ["unicode"] then
    "Zero-Width-Zeichen und unnötige Unicode-Obfuskation aus Betreff und Body entfernen. Normale Sonderzeichen für Sprache sind ok; versteckte Steuerzeichen sollten vermieden werden."
  else
    (if negb (isEmpty (c_Suggestion c)) then c_Suggestion c
    else "Den genannten Wert im Mailserver, DNS oder Versandtemplate korrigieren und danach erneut testen.").

Definition spfRecommendation : string :=
  let domain := orElse (cc_EnvelopeDomain ctx) "example.org" in
  let ip := orElse (m_RemoteIP (cc_Message ctx)) "203.0.113.10" in
  if (List.length (cc_SPFRecords ctx) =? 0)%nat then "Keinen SPF-Record auf der Envelope-From-Domain gefunden. DNS-TXT-Record anlegen:" +:+ lf +:+ lf +:+ "  Name:  " +:+ domain +:+ "   (oder @ im DNS-Manager)" +:+ lf +:+ "  Typ:   TXT" +:+ lf +:+ "  Wert:  " +:+ dq +:+ "v=spf1 ip4:" +:+ ip +:+ " -all" +:+ dq +:+ lf +:+ lf +:+ "Wenn ein Versanddienst genutzt wird (Google Workspace, Mailchimp, SendGrid…):" +:+ lf +:+ "  " +:+ dq +:+ "v=spf1 include:_spf.google.com -all" +:+ dq +:+ lf +:+ "  " +:+ dq +:+ "v=spf1 include:sendgrid.net -all" +:+ dq +:+ lf +:+ lf +:+ "Qualifier:" +:+ lf +:+ "  -all  → Hard Fail  (empfohlen für Produktion)" +:+ lf +:+ "  ~all  → Soft Fail  (toleranter; für den Einstieg geeignet)" +:+ lf +:+ lf +:+ "Prüfen: dig TXT " +:+ domain +:+ " +short"
  else "SPF-Record für " +:+ domain +:+ " vorhanden, aber die sendende IP " +:+ ip +:+ " ist nicht berechtigt." +:+ lf +:+ lf +:+ "Aktueller Record: " +:+ Join (cc_SPFRecords ctx) " | " +:+ lf +:+ lf +:+ "Häufige Ursachen:" +:+ lf +:+ "  • IP nicht in ip4:/ip6:-Mechanismus gelistet" +:+ lf +:+ "  • Kein passendes include: für den Versanddienst" +:+ lf +:+ "  • SPF-Lookup-Limit überschritten (max. 10 DNS-Lookups pro Prüfung)" +:+ lf +:+ lf +:+ "Fix: IP oder include: ergänzen, bei zu vielen Lookups ein SPF-Flattening-Tool nutzen." +:+ lf +:+ "Prüfen: dig TXT " +:+ domain +:+ " +short".

Definition dkimRecommendation : string :=
  let domain := orElse (cc_FromDomain ctx) "example.org" in
  match specific_wording with
  | Some w => dw_suggestDE w
  | None => "DKIM-Schlüsselpaar erzeugen und DNS-TXT-Record anlegen." +:+ lf +:+ lf +:+ "1. Schlüssel erzeugen (2048 Bit empfohlen):" +:+ lf +:+ "   openssl genrsa -out dkim_private.pem 2048" +:+ lf +:+ "   openssl rsa -in dkim_private.pem -pubout -out dkim_public.pem" +:+ lf +:+ lf +:+ "2. DNS-Eintrag:" +:+ lf +:+ "   Name:  mail._domainkey." +:+ domain +:+ lf +:+ "   Typ:   TXT" +:+ lf +:+ "   Wert:  " +:+ dq +:+ "v=DKIM1; k=rsa; p=<Base64-Inhalt von dkim_public.pem ohne Header>" +:+ dq +:+ lf +:+ lf +:+ "3. MTA konfigurieren – Beispiel Postfix + OpenDKIM (/etc/opendkim.conf):" +:+ lf +:+ "   Domain         " +:+ domain +:+ lf +:+ "   Selector       mail" +:+ lf +:+ "   KeyFile        /etc/dkim/dkim_private.pem" +:+ lf +:+ lf +:+ "4. Prüfen: dig TXT mail._domainkey." +:+ domain +:+ " +short"
  end.

Definition dmarcRecommendation : string :=
  let domain := orElse (cc_FromDomain ctx) "example.org" in
  if (List.length (cc_DMARCRecords ctx) =? 0)%nat then "Keinen DMARC-Record für " +:+ domain +:+ " gefunden. DNS-TXT-Record anlegen:" +:+ lf +:+ lf +:+ "  Name:  _dmarc." +:+ domain +:+ lf +:+ "  Typ:   TXT" +:+ lf +:+ lf +:+ "Einstieg (p=none – nur Monitoring, kein Einfluss auf Zustellung):" +:+ lf +:+ "  " +:+ dq +:+ "v=DMARC1; p=none; rua=mailto:dmarc@" +:+ domain +:+ dq +:+ lf +:+ lf +:+ "Empfohlen für Produktion (Quarantäne):" +:+ lf +:+ "  " +:+ dq +:+ "v=DMARC1; p=quarantine; pct=100; rua=mailto:dmarc@" +:+ domain +:+ dq +:+ lf +:+ lf +:+ "Streng (Ablehnung – nur wenn SPF + DKIM stabil laufen):" +:+ lf +:+ "  " +:+ dq +:+ "v=DMARC1; p=reject; pct=100; rua=mailto:dmarc@" +:+ domain +:+ dq +:+ lf +:+ lf +:+ "Voraussetzungen: SPF und DKIM müssen aligned bestehen." +:+ lf +:+ "Vorgehen: p=none → Berichte analysieren → p=quarantine → p=reject"
  else "DMARC für " +:+ domain +:+ " ist gesetzt (Policy: " +:+ orElse (cc_DMARCPolicy ctx) "none" +:+ "), aber SPF oder DKIM besteht nicht aligned." +:+ lf +:+ lf +:+ "Checkliste:" +:+ lf +:+ "  ✓ SPF muss für die Envelope-From-Domain bestehen und aligned zur From-Domain sein" +:+ lf +:+ "  ✓ DKIM muss mit d=" +:+ domain +:+ " signieren" +:+ lf +:+ "  ✓ Beide Mechanismen separat mit dig und Mail-Tests prüfen" +:+ lf +:+ lf +:+ "Aktuelle Records: " +:+ Join (cc_DMARCRecords ctx) " | ".

Definition rblGenericRecommendation : string :=
  "Wenn ein RBL-Listing auftritt: Ursache für IP " +:+ orElse (m_RemoteIP (cc_Message ctx)) "<sender-ip>" +:+ " zuerst abstellen, Versand temporär stoppen, Logs und Queue prüfen, dann über die jeweilige Provider-Seite delisten. Ohne behobene Ursache führt Delisting fast immer zu erneutem Listing.".

Definition ptr_recommendation : string :=
  "PTR-Record für IP " +:+ orElse (m_RemoteIP (cc_Message ctx)) "<sender-ip>" +:+ " setzen (beim IP-/Hosting-Provider, nicht im eigenen DNS)." +:+ lf +:+ lf +:+ "Zielzustand:" +:+ lf +:+ "  " +:+ orElse (m_RemoteIP (cc_Message ctx)) "<sender-ip>" +:+ " -> PTR -> " +:+ orElse (m_HELO (cc_Message ctx)) "mail.example.tld" +:+ lf +:+ "  " +:+ orElse (m_HELO (cc_Message ctx)) "mail.example.tld" +:+ " -> A   -> " +:+ orElse (m_RemoteIP (cc_Message ctx)) "<sender-ip>" +:+ lf +:+ lf +:+ "Postfix: myhostname = " +:+ orElse (m_HELO (cc_Message ctx)) "mail.example.tld" +:+ lf +:+ "Exim:    primary_hostname = " +:+ orElse (m_HELO (cc_Message ctx)) "mail.example.tld" +:+ lf +:+ lf +:+ "Bei Hetzner: Server > Networking > Reverse DNS" +:+ lf +:+ "Bei DigitalOcean: Networking > Floating IP > Edit PTR" +:+ lf +:+ "Prüfen: dig -x " +:+ orElse (m_RemoteIP (cc_Message ctx)) "<sender-ip>" +:+ " +short".

Definition helo_recommendation : string :=
  "HELO/EHLO-Hostname auf stabilen FQDN setzen, der zu IP " +:+ orElse (m_RemoteIP (cc_Message ctx)) "<sender-ip>" +:+ " und PTR passt." +:+ lf +:+ lf +:+ "Postfix (/etc/postfix/main.cf):" +:+ lf +:+ "  myhostname = " +:+ orElse (m_HELO (cc_Message ctx)) "mail.example.tld" +:+ lf +:+ lf +:+ "Exim (/etc/exim4/exim4.conf):" +:+ lf +:+ "  primary_hostname = " +:+ orElse (m_HELO (cc_Message ctx)) "mail.example.tld" +:+ lf +:+ lf +:+ "Sendmail:" +:+ lf +:+ "  Djmailhost.example.org (in sendmail.mc)" +:+ lf +:+ lf +:+ "Prüfen: telnet " +:+ orElse (m_RemoteIP (cc_Message ctx)) "<sender-ip>" +:+ " 25 -> EHLO senden -> Antwort vergleichen".

Definition mx_recommendation : string :=
  "MX-Record für " +:+ orElse (cc_FromDomain ctx) (cc_EnvelopeDomain ctx) +:+ " setzen:" +:+ lf +:+ lf +:+ "  Name: " +:+ orElse (cc_FromDomain ctx) (cc_EnvelopeDomain ctx) +:+ lf +:+ "  Typ:  MX 10" +:+ lf +:+ "  Wert: mail." +:+ orElse (cc_FromDomain ctx) (cc_EnvelopeDomain ctx) +:+ lf +:+ lf +:+ "Dann A/AAAA für mail." +:+ orElse (cc_FromDomain ctx) (cc_EnvelopeDomain ctx) +:+ " setzen." +:+ lf +:+ "Redundanz: zweiten MX mit Priorität 20 empfohlen." +:+ lf +:+ "Prüfen: dig MX " +:+ orElse (cc_FromDomain ctx) (cc_EnvelopeDomain ctx) +:+ " +short".

Definition address_recommendation : string :=
  "A-Record setzen:" +:+ lf +:+ lf +:+ "  Name: " +:+ orElse (m_HELO (cc_Message ctx)) "mail.example.org" +:+ lf +:+ "  Typ:  A" +:+ lf +:+ "  Wert: " +:+ orElse (m_RemoteIP (cc_Message ctx)) "203.0.113.10" +:+ lf +:+ lf +:+ "Bei IPv6: zusätzlich AAAA und PTR für IPv6." +:+ lf +:+ "Prüfen: dig A " +:+ orElse (m_HELO (cc_Message ctx)) "mail.example.org" +:+ " +short".

Definition spamassassin_recommendation : string :=
  "SA-Regeln nach Gewicht priorisieren – nicht Text verschleiern:" +:+ lf +:+ lf +:+ "1. Authentifizierung: SPF/DKIM/DMARC ohne pass verschlechtern SA-Score signifikant" +:+ lf +:+ "2. IP-Reputation: RBL-Listings (RCVD_IN_*) sofort beheben" +:+ lf +:+ "3. Header: Date, Message-ID, From, Return-Path korrekt setzen" +:+ lf +:+ "4. Inhalt: Trigger-Wörter, ALL CAPS, excessive Ausrufezeichen" +:+ lf +:+ "5. Links: URL-Shortener, fremde Redirect-Ketten" +:+ lf +:+ lf +:+ "Jede Regel nachschlagen: https://spamassassin.apache.org/tests_3_4_x.html".

Definition named_address_recommendation (c : CheckResult) (domain : string) : string :=
  c_Suggestion c +:+ lf +:+ lf +:+ "Prüfen:" +:+ lf +:+ "  dig MX " +:+ domain +:+ " +short" +:+ lf +:+ "  dig A " +:+ domain +:+ " +short" +:+ lf +:+ "  dig AAAA " +:+ domain +:+ " +short".

(** ** Enrichment *)

Definition enriched_name (c : CheckResult) : string :=
  if String.eqb (c_ID c) "spf" then "SPF für " +:+ orElse (cc_EnvelopeDomain ctx) "Envelope-From" else c_Name c.

(** [details] are the technical details after enrichment. *)
Definition enriched_recommendation (c : CheckResult) (details : gmap string string) : string :=
  let id := c_ID c in
  let given := c_Recommendation c in
  let rec :=
    if String.eqb id "spf" then spfRecommendation
    else if String.eqb id "dkim" then dkimRecommendation
    else if String.eqb id "dmarc" then dmarcRecommendation
    else if String.eqb id "ptr" then ptr_recommendation
    else if String.eqb id "helo" then helo_recommendation
    else if String.eqb id "mx_records" then orElse given mx_recommendation
    else if String.eqb id "address_records" then
      let domain := default "" (details !! "domain") in
      let named :=
        if isEmpty given && negb (isEmpty (c_Suggestion c)) && negb (isEmpty domain)
        then named_address_recommendation c domain else given in
      orElse named address_recommendation
    else if String.eqb id "spamassassin" then orElse given spamassassin_recommendation
    else if String.eqb id "rbl" then orElse given rblGenericRecommendation
    else orElse given (defaultRecommendation c) in
  orElse rec (c_Suggestion c).

Definition own_links (id : string) : bool :=
  one_of id ["spf"; "dkim"; "dmarc"; "ptr"; "helo"; "mx_records"; "address_records"; "spamassassin"; "rbl"].

Definition enriched_links (c : CheckResult) : list DocLink :=
  if own_links (c_ID c) then specific_links (c_ID c)
  else match c_DocLinks c with [] => defaultDocLinks (c_ID c) | given => given end.

Definition with_english (c : CheckResult) (name summary explanation recommendation : string) : CheckResult :=
  mkCheck (c_ID c) (c_Name c) (c_Status c) (c_ScoreDelta c) (c_Summary c) (c_Suggestion c) (c_TechnicalDetails c)
    (c_Explanation c) (c_Recommendation c) (c_DocLinks c) (c_Severity c) (c_Category c) (c_Importance c)
    name summary explanation recommendation.

Definition enrichEnglish (c : CheckResult) : CheckResult :=
  match c_TechnicalDetails c !! unresolvedDetailKey with
  | Some _ => with_english c (checkNameEN (c_ID c)) unresolvedSummaryEN (explanationEN (c_ID c)) unresolvedRecommendationEN
  | None =>
      with_english c (checkNameEN (c_ID c)) (summaryEN (c_ID c) (c_Status c) (c_Summary c))
        (explanationEN (c_ID c)) (recommendationEN (c_ID c) (c_Status c))
  end.

Definition with_german (c : CheckResult) (name explanation recommendation : string) (links : list DocLink) : CheckResult :=
  mkCheck (c_ID c) name (c_Status c) (c_ScoreDelta c) (c_Summary c) (c_Suggestion c) (c_TechnicalDetails c)
    explanation recommendation links (c_Severity c) (c_Category c) (c_Importance c)
    (c_NameEN c) (c_SummaryEN c) (c_ExplanationEN c) (c_RecommendationEN c).

Definition naSummaryEN : string := "Not applicable for this mail type – no impact on score.".

Definition enrich_texts (c : CheckResult) : CheckResult :=
  let v := enrichCheckResult ctx c in
  if String.eqb (c_Status c) "na" then
    with_english (with_german v (c_Name c) (orElse (c_Explanation c) (naExplanation (c_ID c))) (c_Recommendation c) (c_DocLinks c))
      (checkNameEN (c_ID c)) naSummaryEN (naExplanationEN (c_ID c)) (c_RecommendationEN c)
  else
    enrichEnglish
      (with_german v (enriched_name c) (specific_explanation (c_ID c))
         (enriched_recommendation c (c_TechnicalDetails v)) (enriched_links c)).

End WithContext.
End WithQuote.

(** ** The verdict is not touched by the texts *)

Definition same_verdict (a b : CheckResult) : Prop :=
  c_ID a = c_ID b /\ c_Status a = c_Status b /\ c_ScoreDelta a = c_ScoreDelta b /\ c_Summary a = c_Summary b
  /\ c_Suggestion a = c_Suggestion b /\ c_TechnicalDetails a = c_TechnicalDetails b /\ c_Severity a = c_Severity b
  /\ c_Category a = c_Category b /\ c_Importance a = c_Importance b.

Lemma enrichEnglish_verdict Quote ctx c : same_verdict (enrichEnglish Quote ctx c) c.
Proof. unfold enrichEnglish, same_verdict. by destruct (_ !! _). Qed.

Lemma enrich_texts_verdict Quote ctx c : same_verdict (enrich_texts Quote ctx c) (enrichCheckResult ctx c).
Proof.
  unfold enrich_texts. cbv zeta. destruct (String.eqb (c_Status c) "na"); [done|].
  destruct (enrichEnglish_verdict Quote ctx
    (with_german (enrichCheckResult ctx c) (enriched_name ctx c) (specific_explanation (c_ID c))
       (enriched_recommendation Quote ctx c (c_TechnicalDetails (enrichCheckResult ctx c))) (enriched_links c))) as (H1 & H2 & H3 & H4 & H5 & H6 & H7 & H8 & H9).
  by split_and!.
Qed.

(** ** Every finding carries its texts *)

Definition filled (s : string) : Prop := isEmpty s = false.

Lemma filled_orElse a b : filled b -> filled (orElse a b).
Proof. unfold filled, orElse. by destruct (isEmpty a) eqn:E; [|rewrite E]. Qed.

Lemma filled_orElse_l a b : filled a -> filled (orElse a b).
Proof. unfold filled, orElse. intros E. by rewrite E. Qed.

Lemma filled_if (b : bool) x y : filled x -> filled y -> filled (if b then x else y).
Proof. by destruct b. Qed.

Ltac filled_cases := repeat (refine (filled_if _ _ _ _ _); [reflexivity|]); reflexivity.

Lemma dkim_wording_filled Quote result detail now diag : filled (dw_suggestDE (dkim_wording Quote result detail now diag)).
Proof. unfold dkim_wording, missing_key_wording. cbv zeta. repeat case_if; reflexivity. Qed.

Lemma explanations_filled id :
  filled (specific_explanation id) /\ filled (explanationEN id) /\ filled (naExplanation id) /\ filled (naExplanationEN id).
Proof.
  unfold specific_explanation, defaultExplanation, explanationEN, naExplanation, naExplanationEN.
  split_and!; filled_cases.
Qed.

Lemma recommendation_filled Quote ctx c details : filled (enriched_recommendation Quote ctx c details).
Proof.
  unfold enriched_recommendation. cbv zeta.
  apply filled_orElse_l.
  repeat (case_if; [try (apply filled_orElse); try reflexivity|]).
  - unfold spfRecommendation. by case_if.
  - unfold dkimRecommendation, specific_wording. cbv zeta. case_if; [apply dkim_wording_filled|reflexivity].
  - unfold dmarcRecommendation. by case_if.
  - apply filled_orElse. unfold defaultRecommendation. cbv zeta.
    repeat (case_if; [try reflexivity; first [by destruct (c_Suggestion c)|idtac]|]). by destruct (isEmpty _) eqn:E.
Qed.

(** The ids of the checks a report can list. *)
Definition known_ids : list string := "mime_parse" :: report_ids true ++ report_ids false.

Definition named (id : string) : bool := negb (isEmpty (checkNameEN id)) && negb (String.eqb (checkNameEN id) id).

Lemma known_ids_named id : id ∈ known_ids -> named id = true.
Proof.
  intros Hid. assert (H : forallb named known_ids = true) by (vm_compute; reflexivity).
  rewrite forallb_forall in H. by apply H, list_elem_of_In.
Qed.

Lemma placeholders_named id : id ∈ sim_ids -> checkNameDE id <> id.
Proof.
  intros Hid. assert (H : forallb (fun i => negb (String.eqb (checkNameDE i) i)) sim_ids = true) by (vm_compute; reflexivity).
  rewrite forallb_forall in H. apply list_elem_of_In, H in Hid. apply negb_true_iff in Hid. by apply String.eqb_neq.
Qed.

Definition has_texts (e : CheckResult) : Prop :=
  named (c_ID e) = true /\ c_NameEN e = checkNameEN (c_ID e)
  /\ filled (c_Explanation e) /\ filled (c_ExplanationEN e)
  /\ (c_Status e <> "na" -> filled (c_Recommendation e)).

(** Every finding a report can list leaves the enrichment with an English name of its
    own, an explanation in both languages and, unless it does not apply to the mail, advice;
    and the texts leave status, score, details, severity, category and importance exactly as
    the verdict set them. *)
Theorem report_texts_complete Quote ctx c :
  c_ID c ∈ known_ids ->
  has_texts (enrich_texts Quote ctx c) /\ same_verdict (enrich_texts Quote ctx c) (enrichCheckResult ctx c).
Proof.
  intros Hid. pose proof (enrich_texts_verdict Quote ctx c) as Hv. split; [|done].
  destruct Hv as (Hi & Hs & _). rewrite enrich_id in Hi. rewrite enrich_status in Hs. unfold has_texts. rewrite Hi, Hs.
  destruct (explanations_filled (c_ID c)) as (He & Hen & Hna & Hnaen). split; [by apply known_ids_named|].
  clear Hi Hs. unfold enrich_texts. cbv zeta. destruct (String.eqb_spec (c_Status c) "na") as [E|E].
  - assert (Hx : filled (orElse (c_Explanation c) (naExplanation (c_ID c)))) by by apply filled_orElse.
    refine (conj eq_refl (conj Hx (conj Hnaen _))). by intros [].
  - assert (Hi : c_ID (enrichCheckResult ctx c) = c_ID c) by apply enrich_id.
    set (rec := enriched_recommendation _ _ _ _). assert (Hr : filled rec) by apply recommendation_filled. clearbody rec.
    unfold enrichEnglish. cbn [c_TechnicalDetails c_ID with_german]. rewrite Hi.
    destruct (c_TechnicalDetails (enrichCheckResult ctx c) !! unresolvedDetailKey);
      cbn [with_english with_german c_NameEN c_Explanation c_ExplanationEN c_Recommendation];
      exact (conj eq_refl (conj He (conj Hen (fun _ => Hr)))).
Qed.

Lemma report_texts_complete_witness :
  let c := fail "rbl" (f_of_Z (-1)) in
  c_ID c ∈ known_ids
  /\ has_texts (enrich_texts (fun s => s) (enrichCtx sample_world (sample_input false) sample_now sample_header "Hello") c).
Proof.
  cbv zeta. assert (H : c_ID (fail "rbl" (f_of_Z (-1))) ∈ known_ids) by (apply (bool_decide_unpack _); vm_compute; exact I).
  split; [exact H|]. apply (report_texts_complete (fun s => s) _ (fail "rbl" (f_of_Z (-1))) H).
Defined.

(** A check that could not ask the DNS never asserts anything in English: whatever the
    check and the message, its summary says that the lookup was not answered and its advice
    is to try again, and the score it carries is that of its verdict. *)
Theorem unanswered_says_so Quote ctx c :
  c_Status c <> "na" -> has_detail unresolvedDetailKey c = true ->
  let e := enrich_texts Quote ctx c in
  c_SummaryEN e = unresolvedSummaryEN /\ c_RecommendationEN e = unresolvedRecommendationEN
  /\ c_ScoreDelta e = c_ScoreDelta (enrichCheckResult ctx c).
Proof.
  intros Hs Hd. cbv zeta. destruct (enrich_texts_verdict Quote ctx c) as (_ & _ & Hdelta & _).
  assert (Hd' : has_detail unresolvedDetailKey (enrichCheckResult ctx c) = true) by by rewrite enrich_has_detail.
  rewrite Hdelta. clear Hdelta. unfold enrich_texts. cbv zeta. apply String.eqb_neq in Hs. rewrite Hs.
  unfold enrichEnglish, has_detail in *. cbn [c_TechnicalDetails with_german] in *.
  by destruct (c_TechnicalDetails (enrichCheckResult ctx c) !! unresolvedDetailKey).
Qed.

Definition sample_ctx : checkContext :=
  enrichCtx sample_world (sample_input true) sample_now sample_header "Hello".

Lemma unanswered_says_so_witness :
  has_detail unresolvedDetailKey (unresolved "mx_records") = true
  /\ c_SummaryEN (enrich_texts (fun s => s) sample_ctx (unresolved "mx_records")) = unresolvedSummaryEN.
Proof.
  assert (H : has_detail unresolvedDetailKey (unresolved "mx_records") = true) by (vm_compute; reflexivity).
  split; [exact H|]. apply (unanswered_says_so (fun s => s) sample_ctx (unresolved "mx_records")); [discriminate|exact H].
Defined.

(** ** Behaviours worth knowing *)

(** A message that failed DMARC although its domain publishes a record: the German
    advice says that the record is set, the English summary that there is none. *)
Definition failed_dmarc_ctx : checkContext :=
  mkContext sample_now (in_Message (sample_input false)) "mx.example" sample_header "a.example" "b.example" "" "" [] "fail" []
    "fail" "" "" noDiag "fail" ["v=DMARC1; p=reject"] "reject" false false [] (theBody sample_world sample_header "Hello") [].

Example english_denies_dmarc_record :
  let e := enrich_texts (fun s => s) failed_dmarc_ctx (fail "dmarc" (f_of_Z (-1))) in
  HasPrefix (c_Recommendation e) "DMARC für a.example ist gesetzt (Policy: reject)" = true
  /\ c_SummaryEN e = "No DMARC record found for a.example."
  /\ HasPrefix (c_RecommendationEN e) "Publish a DMARC record" = true.
Proof. vm_compute. done. Qed.

(** What the simulator never asked is reported in English as absent. *)
Example placeholders_assert_absence :
  let summary id := c_SummaryEN (enrich_texts (fun s => s) sample_ctx (info id fzero)) in
  HasPrefix (summary "mta_sts") "No MTA-STS policy found" = true /\ HasPrefix (summary "bimi") "No BIMI record found" = true
  /\ HasPrefix (summary "dnssec") "DNSSEC not detected" = true.
Proof. vm_compute. done. Qed.

(** An MTA-STS lookup that was not answered has lost its marker, so its English
    summary asserts that there is no policy. *)
Example outage_asserts_absence :
  HasPrefix (c_SummaryEN (enrich_texts (fun s => s) sample_ctx (mtaStsCheck down_env "example.org")))
    "No MTA-STS policy found" = true.
Proof. vm_compute. reflexivity. Qed.

(** Checks that have an explanation of their own in German and the general sentence in English. *)
Definition generic_explanation : string := explanationEN "".

Example english_explanations_missing :
  List.filter (fun id => String.eqb (explanationEN id) generic_explanation
                         && negb (String.eqb (specific_explanation id) (defaultExplanation ""))) (report_ids false)
  = ["mime_ct"; "mime_boundary"; "plain_text"; "multipart_alt"; "attachments"; "image_text_ratio"; "links"; "shortener";
     "tracking_links"; "html"; "hidden_html"; "html_validity"; "subject_exclaim"; "subject_caps"; "date"; "date_skew";
     "address_records"].
Proof. vm_compute. reflexivity. Qed.
