(* ===== verification/Guides.v ===== *)
(** * Guides and sitemap (internal/web/guides.go, seo.go)

    The pages under /guides with their structured data, and the sitemap that
    lists the public pages in both languages. A structured-data block is the
    value that is handed to the JSON encoder; a page is the data its template gets. *)

From S2P Require Import Prelude GoStrings GoTime Config WebRequest Views WebPages Lang GuideTexts.

Local Open Scope string_scope.
Local Open Scope list_scope.
Local Open Scope Z_scope.

(** ** Looking up guides *)

Definition guide_text (g : guide) (lang : string) : guideText := if String.eqb lang DE then g_DE g else g_EN g.

Record guideLink := mkGuideLink {
  gl_Slug : string;
  gl_Title : string;
  gl_Description : string;
  gl_Icon : string
}.

Definition findGuide (slug : string) : option guide := List.find (fun g => String.eqb (g_Slug g) slug) guideList.

Definition contains (list : list string) (s : string) : bool := existsb (fun v => String.eqb v s) list.

(** [slugs]: [None] stands for a nil slice, which selects every guide. *)
Definition guideLinks (lang : string) (slugs : option (list string)) : list guideLink :=
  (fun g => let t := guide_text g lang in mkGuideLink (g_Slug g) (gt_H1 t) (gt_Description t) (g_Icon g))
  <$> List.filter (fun g => match slugs with None => true | Some l => contains l (g_Slug g) end) guideList.

Definition guidesName (lang : string) : string := if String.eqb lang DE then "Ratgeber" else "Guides".

Definition guidesIntro (lang : string) : string * string * string :=
  if String.eqb lang DE then
    ("Ratgeber zur E-Mail-Zustellbarkeit",
     "Verständliche Anleitungen zu SPF, DKIM, DMARC, Spam-Score, Blacklists und Reverse-DNS. Jeder Ratgeber erklärt das Verfahren, nennt typische Fehler und führt zum kostenlosen Test.",
     "Ratgeber zu SPF, DKIM, DMARC, Spam-Score, Blacklists und Reverse-DNS: so verbesserst du die Zustellbarkeit deiner E-Mails. Mit kostenlosem Test.")
  else
    ("Email deliverability guides",
     "Clear guides to SPF, DKIM, DMARC, spam score, blacklists and reverse DNS. Each guide explains the standard, names typical mistakes and leads to the free test.",
     "Guides to SPF, DKIM, DMARC, spam score, blacklists and reverse DNS: how to improve the deliverability of your email. With a free test.").

(** ** Structured data *)

Inductive json :=
| JStr (s : string)
| JNum (n : Z)
| JList (l : list json)
| JObj (fields : list (string * json)).

Definition typed (t : string) (fields : list (string * json)) : json := JObj (("@type", JStr t) :: fields).

Definition list_item (position : Z) (name item : string) : json :=
  typed "ListItem" [("position", JNum position); ("name", JStr name); ("item", JStr item)].

Definition guideJSONLD (g : guide) (lang base app : string) : json :=
  let t := guide_text g lang in
  let pageURL := base +:+ langPath lang ("/guides/" +:+ g_Slug g) in
  let faq := (fun f => typed "Question" [("name", JStr (fst f)); ("acceptedAnswer", typed "Answer" [("text", JStr (snd f))])]) <$> gt_FAQ t in
  let org := typed "Organization" [("name", JStr app); ("url", JStr (base +:+ "/"))] in
  let graph :=
    [typed "Article" [("headline", JStr (gt_H1 t)); ("description", JStr (gt_Description t)); ("inLanguage", JStr lang);
       ("datePublished", JStr (g_Updated g)); ("dateModified", JStr (g_Updated g)); ("mainEntityOfPage", JStr pageURL);
       ("author", org); ("publisher", org)];
     typed "BreadcrumbList" [("itemListElement",
       JList [list_item 1 app (base +:+ langPath lang "/"); list_item 2 (guidesName lang) (base +:+ langPath lang "/guides");
              list_item 3 (gt_H1 t) pageURL])]]
    ++ (if (0 <? List.length faq)%nat then [typed "FAQPage" [("mainEntity", JList faq)]] else []) in
  JObj [("@context", JStr "https://schema.org"); ("@graph", JList graph)].

Definition guidesIndexJSONLD (lang base app : string) : json :=
  let items := imap (fun i g => typed "ListItem" [("position", JNum (Z.of_nat i + 1));
    ("url", JStr (base +:+ langPath lang ("/guides/" +:+ g_Slug g))); ("name", JStr (gt_H1 (guide_text g lang)))]) guideList in
  JObj [("@context", JStr "https://schema.org");
        ("@graph", JList [typed "CollectionPage" [("name", JStr (guidesName lang +:+ " – " +:+ app)); ("inLanguage", JStr lang);
                            ("url", JStr (base +:+ langPath lang "/guides"))];
                          typed "ItemList" [("itemListElement", JList items)]])].

(** ** The pages *)

Record guide_view := mkGuideView {
  gv_AppName : string;
  gv_Domain : string;
  gv_PublicURL : string;
  gv_Lang : string;
  gv_Slug : string;
  gv_SEOPath : string;
  gv_PageTitle : string;
  gv_H1 : string;
  gv_Lead : string;
  gv_Description : string;
  gv_Guide : option guideText;
  gv_Icon : string;
  gv_Updated : string;
  gv_Related : list guideLink;
  gv_Guides : list guideLink;
  gv_JSONLD : json
}.

Definition reads (r : request) : bool := String.eqb (rq_Method r) "GET" || String.eqb (rq_Method r) "HEAD".

(** [lang] is the language of the response. *)
Definition guidesIndex (s : web_server) (lang : string) (r : request) : page guide_view :=
  if negb (reads r) then Status 405
  else
    let base := publicBaseURL s r in
    let '(title, lead, desc) := guidesIntro lang in
    let app := AppName (ws_cfg s) in
    Shown (mkGuideView app (requestSMTPDomain s r) base lang "" "/guides" (title +:+ " – " +:+ app) title lead desc None "" ""
             [] (guideLinks lang None) (guidesIndexJSONLD lang base app)).

Definition guidePage (s : web_server) (lang : string) (r : request) : page guide_view :=
  if negb (reads r) then Status 405
  else match findGuide (Trim (TrimPrefix (rq_Path r) "/guides/") "/") with
  | None => Status 404
  | Some g =>
      let base := publicBaseURL s r in
      let app := AppName (ws_cfg s) in
      let t := guide_text g lang in
      Shown (mkGuideView app (requestSMTPDomain s r) base lang (g_Slug g) ("/guides/" +:+ g_Slug g) (gt_Title t) (gt_H1 t) (gt_Lead t)
               (gt_Description t) (Some t) (g_Icon g) (g_Updated g) (guideLinks lang (Some (g_Related g))) []
               (guideJSONLD g lang base app))
  end.

(** ** Sitemap *)

Definition number (s : string) : option Z :=
  if sforall is_digit s then match leadingInt s 0 with Some (n, "") => Some n | _ => None end else None.

Definition leap (y : Z) : bool := (y mod 4 =? 0) && (negb (y mod 100 =? 0) || (y mod 400 =? 0)).
Definition daysIn (m y : Z) : Z :=
  if m =? 2 then (if leap y then 29 else 28) else if existsb (Z.eqb m) [4; 6; 9; 11] then 30 else 31.

(** [time.Parse] with the layout 2006-01-02 accepts [date]. *)
Definition valid_date (date : string) : bool :=
  (String.length date =? 10)%nat && String.eqb (stake 1 (sdrop 4 date)) "-" && String.eqb (stake 1 (sdrop 7 date)) "-" &&
  match number (stake 4 date), number (stake 2 (sdrop 5 date)), number (sdrop 8 date) with
  | Some y, Some m, Some d => (1 <=? m) && (m <=? 12) && (1 <=? d) && (d <=? daysIn m y)
  | _, _, _ => false
  end.

Definition lastModified (date : string) : string := if valid_date date then date else "".

Record sitemapPage := mkSitemapPage {
  sp_Path : string;
  sp_Priority : string;
  sp_Changes : string;
  sp_Updated : string
}.

Definition sitemapPages : list sitemapPage :=
  [mkSitemapPage "/" "1.0" "weekly" ""; mkSitemapPage "/guides" "0.9" "weekly" ""; mkSitemapPage "/about" "0.8" "monthly" "";
   mkSitemapPage "/privacy" "0.3" "yearly" ""]
  ++ ((fun g => mkSitemapPage ("/guides/" +:+ g_Slug g) "0.8" "monthly" (g_Updated g)) <$> guideList).

Definition alternate (code href : string) : string :=
  "    <xhtml:link rel=" +:+ dq +:+ "alternate" +:+ dq +:+ " hreflang=" +:+ dq +:+ code +:+ dq +:+ " href=" +:+ dq +:+ EscapeString href
  +:+ dq +:+ "/>" +:+ lf.

Definition sitemap_entry (base : string) (p : sitemapPage) (l : string) : string :=
  "  <url>" +:+ lf +:+ "    <loc>" +:+ EscapeString (base +:+ langPath l (sp_Path p)) +:+ "</loc>" +:+ lf
  +:+ alternate "de" (base +:+ langPath "de" (sp_Path p)) +:+ alternate "en" (base +:+ langPath "en" (sp_Path p))
  +:+ alternate "x-default" (base +:+ sp_Path p)
  +:+ (let d := lastModified (sp_Updated p) in if isEmpty d then "" else "    <lastmod>" +:+ d +:+ "</lastmod>" +:+ lf)
  +:+ "    <changefreq>" +:+ sp_Changes p +:+ "</changefreq>" +:+ lf +:+ "    <priority>" +:+ sp_Priority p +:+ "</priority>" +:+ lf
  +:+ "  </url>" +:+ lf.

Definition sitemapXML (s : web_server) (r : request) : string :=
  let base := publicBaseURL s r in
  "<?xml version=" +:+ dq +:+ "1.0" +:+ dq +:+ " encoding=" +:+ dq +:+ "UTF-8" +:+ dq +:+ "?>" +:+ lf
  +:+ "<urlset xmlns=" +:+ dq +:+ "http://www.sitemaps.org/schemas/sitemap/0.9" +:+ dq +:+ " xmlns:xhtml=" +:+ dq
  +:+ "http://www.w3.org/1999/xhtml" +:+ dq +:+ ">" +:+ lf
  +:+ String.concat "" (List.concat ((fun p => sitemap_entry base p <$> ["de"; "en"]) <$> sitemapPages))
  +:+ "</urlset>" +:+ lf.

(** ** Guides are complete and linked *)

Definition filled_text (t : guideText) : bool :=
  negb (isEmpty (gt_Title t)) && negb (isEmpty (gt_Description t)) && negb (isEmpty (gt_H1 t)) && negb (isEmpty (gt_Lead t))
  && (0 <? List.length (gt_Sections t))%nat.

(** Both languages have the same shape: as many sections and questions. *)
Definition parallel (a b : guideText) : bool :=
  (List.length (gt_Sections a) =? List.length (gt_Sections b))%nat && (List.length (gt_FAQ a) =? List.length (gt_FAQ b))%nat.

Definition guide_ok (g : guide) : bool :=
  filled_text (g_DE g) && filled_text (g_EN g) && parallel (g_DE g) (g_EN g) && valid_date (g_Updated g)
  && forallb (fun slug => match findGuide slug with Some g' => negb (String.eqb (g_Slug g') (g_Slug g)) | None => false end) (g_Related g).

Lemma guides_ok g : g ∈ guideList -> guide_ok g = true.
Proof.
  intros Hg. assert (H : forallb guide_ok guideList = true) by (vm_compute; reflexivity).
  rewrite forallb_forall in H. by apply H, list_elem_of_In.
Qed.

Lemma guide_slugs_unique : NoDup (g_Slug <$> guideList).
Proof. apply (bool_decide_unpack _). vm_compute. exact I. Qed.

Lemma findGuide_slug g : g ∈ guideList -> findGuide (g_Slug g) = Some g.
Proof.
  pose proof guide_slugs_unique as Hn. unfold findGuide. revert Hn.
  induction guideList as [|x l IH]; [by intros _ ?%not_elem_of_nil|]. rewrite fmap_cons, NoDup_cons. intros [Hx Hn] Hg. cbn.
  destruct (String.eqb_spec (g_Slug x) (g_Slug g)) as [E|E].
  - apply elem_of_cons in Hg as [->|Hg]; [done|]. destruct Hx. rewrite E. by apply list_elem_of_fmap_2.
  - apply elem_of_cons in Hg as [->|Hg]; [done|]. by apply IH.
Qed.

(** Every link from a guide to a related one leads to a page that exists, in the same language. *)
Lemma related_shown s lang r g l :
  g ∈ guideList -> l ∈ guideLinks lang (Some (g_Related g)) -> rq_Method r = "GET" ->
  rq_Path r = "/guides/" +:+ gl_Slug l ->
  exists v, guidePage s lang r = Shown v /\ gv_Slug v = gl_Slug l /\ gv_H1 v = gl_Title l /\ gv_Lang v = lang.
Proof.
  intros _ Hl Hm Hp. unfold guideLinks in Hl. apply list_elem_of_fmap in Hl as (g' & -> & Hg').
  apply list_elem_of_In, filter_In in Hg' as [Hg'%list_elem_of_In _]. cbn [gl_Slug gl_Title] in *.
  assert (Hs : forallb (fun x => String.eqb (Trim (TrimPrefix ("/guides/" +:+ g_Slug x) "/guides/") "/") (g_Slug x)) guideList = true)
    by (vm_compute; reflexivity).
  rewrite forallb_forall in Hs. apply list_elem_of_In in Hg' as Hin. apply Hs, String.eqb_eq in Hin.
  unfold guidePage, reads. rewrite Hm, Hp, Hin, (findGuide_slug g' Hg'). cbn. eauto 10.
Qed.
