(* ===== verification/Routes.v ===== *)
(** * Routing (internal/web/server.go, Handler)

    The table of routes, and what of net/url and net/http decides which handler
    gets a request: the escaped path of a URL, the cleaning of paths and the
    pattern matching of [http.ServeMux]. The main lemma translates a route back
    into the decoded path, on which the middleware has decided before. *)

From S2P Require Import Prelude GoStrings Config WebRequest Lang.

Local Open Scope string_scope.
Local Open Scope list_scope.
Local Open Scope Z_scope.

(** ** net/url: escaping of paths *)

Definition unhex (a : ascii) : option N :=
  let c := code a in
  if (48 <=? c)%N && (c <=? 57)%N then Some (c - 48)%N
  else if (97 <=? c)%N && (c <=? 102)%N then Some (c - 87)%N
  else if (65 <=? c)%N && (c <=? 70)%N then Some (c - 55)%N
  else None.

Definition upperhex (n : N) : ascii := ascii_of_N (if (n <? 10)%N then n + 48 else n + 55).

Fixpoint PathUnescape (s : string) : option string :=
  match s with
  | EmptyString => Some EmptyString
  | String a s' =>
      if Ascii.eqb a "%" then
        match s' with
        | String h1 (String h2 rest) =>
            match unhex h1, unhex h2, PathUnescape rest with
            | Some x, Some y, Some t => Some (String (ascii_of_N (16 * x + y)) t)
            | _, _, _ => None
            end
        | _ => None
        end
      else String a <$> PathUnescape s'
  end.

(** [shouldEscape] for paths. *)
Definition shouldEscape (a : ascii) : bool := negb (is_upper a || is_lower a || is_digit a || selem a "-_.~$&+,/:;=@").

Fixpoint escape (s : string) : string :=
  match s with
  | EmptyString => EmptyString
  | String a s' =>
      if shouldEscape a then String "%" (String (upperhex (code a / 16)) (String (upperhex (code a mod 16)) (escape s')))
      else String a (escape s')
  end.

Definition validEncoded (s : string) : bool := sforall (fun a => selem a "!$&'()*+,;=:@[]%" || negb (shouldEscape a)) s.

(** [URL.EscapedPath]. *)
Definition EscapedPath (path raw : string) : string :=
  if negb (isEmpty raw) && validEncoded raw && bool_decide (PathUnescape raw = Some path) then raw
  else if String.eqb path "*" then "*" else escape path.

(** ** net/http: cleaning of paths *)

(** One segment of [path.Clean] on a rooted path; [stack] holds the earlier ones, the last first. *)
Definition clean_step (stack : list string) (seg : string) : list string :=
  if isEmpty seg || String.eqb seg "." then stack
  else if String.eqb seg ".." then tail stack
  else seg :: stack.

Definition path_Clean (p : string) : string := "/" +:+ Join (rev (fold_left clean_step (Split p "/") [])) "/".

Definition cleanPath (p : string) : string :=
  if isEmpty p then "/"
  else
    let p := if HasPrefix p "/" then p else "/" +:+ p in
    let np := path_Clean p in
    if HasSuffix p "/" && negb (String.eqb np "/") then np +:+ "/" else np.

(** ** The routes *)

Inductive route :=
| RStatic | RFavicon | RRobots | RSitemap | RLang | RHome | RAbout | RPrivacy | RGuides | RGuide
| RHealth | RReady | RMetrics | RStats | RStatsEvents | RCreate | RMailboxAPI | RReportAPI | RPdf | RPayload
| RRecheck | RRecheckPersist | RReanalyze | RSimulate | RSimulateAPI | RSimulateRecheck | RMailbox | RReport | RRaw.

#[export] Instance route_eq_dec : EqDecision route.
Proof. solve_decision. Defined.

(** A pattern without wildcards: its segments, and whether it ends in a slash and
    so matches everything below. *)
Record pattern := mkPattern { p_segments : list string; p_below : bool; p_route : route }.

Definition patterns : list pattern :=
  [mkPattern ["static"] true RStatic;
   mkPattern ["favicon.ico"] false RFavicon;
   mkPattern ["robots.txt"] false RRobots;
   mkPattern ["sitemap.xml"] false RSitemap;
   mkPattern ["lang"] false RLang;
   mkPattern [] true RHome;
   mkPattern ["about"] false RAbout;
   mkPattern ["privacy"] false RPrivacy;
   mkPattern ["guides"] false RGuides;
   mkPattern ["guides"] true RGuide;
   mkPattern ["healthz"] false RHealth;
   mkPattern ["readyz"] false RReady;
   mkPattern ["metrics"] false RMetrics;
   mkPattern ["api"; "stats"] false RStats;
   mkPattern ["api"; "stats"; "events"] false RStatsEvents;
   mkPattern ["api"; "mailboxes"] false RCreate;
   mkPattern ["api"; "mailboxes"] true RMailboxAPI;
   mkPattern ["api"; "reports"] true RReportAPI;
   mkPattern ["api"; "pdf"] true RPdf;
   mkPattern ["api"; "payload"] true RPayload;
   mkPattern ["api"; "recheck"] true RRecheck;
   mkPattern ["api"; "recheck-persist"] true RRecheckPersist;
   mkPattern ["api"; "reanalyze"] true RReanalyze;
   mkPattern ["simulate"] false RSimulate;
   mkPattern ["api"; "simulate"] false RSimulateAPI;
   mkPattern ["api"; "simulate"; "recheck"] true RSimulateRecheck;
   mkPattern ["mailbox"] true RMailbox;
   mkPattern ["report"] true RReport;
   mkPattern ["raw"] true RRaw].

(** ** net/http: matching *)

(** [pathUnescape]: a segment that cannot be decoded stays as it is. *)
Definition decoded (seg : string) : string := default seg (PathUnescape seg).

(** The segments of an escaped path, each decoded on its own; a path that ends in
    a slash has an empty last segment. [None] for a path that is not rooted. *)
Definition path_segments (escaped : string) : option (list string) :=
  if HasPrefix escaped "/"
  then Some (decoded <$> Split (TrimPrefix escaped "/") "/")
  else None.

Fixpoint starts_with (l pre : list string) : option (list string) :=
  match pre, l with
  | [], _ => Some l
  | x :: pre', y :: l' => if String.eqb x y then starts_with l' pre' else None
  | _ :: _, [] => None
  end.

(** A pattern that ends in a slash needs something, perhaps empty, after it. *)
Definition matches (segs : list string) (p : pattern) : bool :=
  match starts_with segs (p_segments p) with
  | Some [] => negb (p_below p)
  | Some _ => p_below p
  | None => false
  end.

(** The literal match, or the longest of the others. *)
Definition longer (best : option pattern) (p : pattern) : option pattern :=
  match best with
  | Some b => if (List.length (p_segments b) <? List.length (p_segments p))%nat then Some p else Some b
  | None => Some p
  end.

Definition match_path (segs : list string) : option pattern :=
  match List.find (fun p => negb (p_below p) && matches segs p) patterns with
  | Some p => Some p
  | None => fold_left longer (List.filter (matches segs) patterns) None
  end.

(** A path is redirected to the one with a slash when only that one is a pattern. *)
Definition needs_slash (segs : list string) : bool :=
  match match_path segs with
  | Some p => p_below p && negb (String.eqb (List.last segs "") "")
              && existsb (fun q => p_below q && bool_decide (p_segments q = segs)) patterns
  | None => false
  end.

Inductive routed :=
| Moved (path : string)          (** 301 to the path *)
| Routed (r : route)
| Unrouted.                      (** 404 *)

Definition route_segments (segs : list string) : routed :=
  match match_path segs with Some p => Routed (p_route p) | None => Unrouted end.

(** [ServeMux.findHandler]. *)
Definition findHandler (method path raw : string) : routed :=
  let escaped := EscapedPath path raw in
  let wanted := if String.eqb method "CONNECT" then escaped else cleanPath escaped in
  match path_segments wanted with
  | None => Unrouted
  | Some segs =>
      if needs_slash segs then Moved (cleanPath path +:+ "/")
      else if String.eqb wanted escaped then route_segments segs
      else Moved wanted
  end.

(** ** Decoding a path segment by segment *)

Lemma unhex_upperhex n : (n < 16)%N -> unhex (upperhex n) = Some n.
Proof.
  intros Hn. assert (H : forallb (fun k => bool_decide (unhex (upperhex (N.of_nat k)) = Some (N.of_nat k))) (seq 0 16) = true)
    by (vm_compute; reflexivity).
  rewrite forallb_forall in H. specialize (H (N.to_nat n)). rewrite N2Nat.id in H.
  apply (bool_decide_eq_true_1 _), H, in_seq. lia.
Qed.

Lemma ascii_code a : ascii_of_N (16 * (code a / 16) + code a mod 16) = a.
Proof. rewrite <- N.div_mod by done. apply ascii_N_embedding. Qed.

Lemma shouldEscape_percent : shouldEscape "%" = true.
Proof. reflexivity. Qed.

Lemma code_bound a : (code a < 256)%N.
Proof. apply N_ascii_bounded. Qed.

Lemma unescape_escape s : PathUnescape (escape s) = Some s.
Proof.
  induction s as [|a s IH]; [done|]. cbn [escape]. destruct (shouldEscape a) eqn:E.
  - cbn [PathUnescape]. rewrite Ascii.eqb_refl, !unhex_upperhex, IH, ascii_code; [done| |].
    + by apply N.mod_lt.
    + apply N.Div0.div_lt_upper_bound. pose proof (code_bound a). lia.
  - cbn [PathUnescape]. destruct (Ascii.eqb_spec a "%") as [->|]; [done|]. by rewrite IH.
Qed.

Lemma EscapedPath_decodes path raw : PathUnescape (EscapedPath path raw) = Some path.
Proof.
  unfold EscapedPath. case_if.
  - apply andb_true_iff in Hif as [_ H]. by apply bool_decide_eq_true_1 in H.
  - destruct (String.eqb_spec path "*") as [->|]; [done|]. apply unescape_escape.
Qed.

(** Decoding respects the slashes of the escaped path. *)
Lemma PathUnescape_app a b t :
  PathUnescape (a +:+ String "/" b) = Some t ->
  exists a' b', PathUnescape a = Some a' /\ PathUnescape b = Some b' /\ t = a' +:+ String "/" b'.
Proof.
  remember (String.length a) as n eqn:Hn. assert (Hle : (String.length a <= n)%nat) by lia. clear Hn.
  revert a t Hle. induction n as [|n IH]; intros [|c a] t Hle; cbn [String.length] in Hle; try lia.
  1, 2: cbn; destruct (PathUnescape b) as [b'|]; [|done]; intros [= <-]; by exists "", b'.
  cbn [append PathUnescape]. destruct (Ascii.eqb c "%").
  - destruct a as [|h1 [|h2 a]]; cbn [append].
    + destruct b as [|x b]; [done|]. cbn. by destruct (unhex x).
    + cbn. by destruct (unhex h1).
    + destruct (unhex h1) as [x|], (unhex h2) as [y|]; try done.
      destruct (PathUnescape (a +:+ String "/" b)) as [u|] eqn:E; [|done]. intros [= <-].
      apply IH in E as (a' & b' & -> & -> & ->); [|cbn in Hle; lia]. by eexists _, _.
  - destruct (PathUnescape (a +:+ String "/" b)) as [u|] eqn:E; [|done]. intros [= <-].
    apply IH in E as (a' & b' & -> & -> & ->); [|lia]. by eexists _, _.
Qed.

Lemma Join_Split s : Join (Split s "/") "/" = s.
Proof.
  induction s as [|a s IH]; [done|]. cbn [Split]. destruct (Split s "/") as [|w ws] eqn:E; [by destruct (Split_nonempty s "/")|].
  destruct (Ascii.eqb_spec a "/") as [->|].
  - change (Join ("" :: w :: ws) "/") with (String "/" (Join (w :: ws) "/")). by rewrite IH.
  - rewrite <- IH. by destruct ws.
Qed.

Lemma decode_Join segs t : PathUnescape (Join segs "/") = Some t -> Join (decoded <$> segs) "/" = t.
Proof.
  revert t. induction segs as [|x segs IH]; intros t; [by intros [= <-]|].
  destruct segs as [|y segs]; [cbn; unfold decoded; by intros ->|].
  intros (a' & b' & Ha & Hb & ->)%(PathUnescape_app x (Join (y :: segs) "/")).
  rewrite !fmap_cons in *. cbn [Join] in *. rewrite (IH b' Hb). unfold decoded. by rewrite Ha.
Qed.

Lemma segments_of_path escaped path segs :
  PathUnescape escaped = Some path -> path_segments escaped = Some segs -> path = "/" +:+ Join segs "/".
Proof.
  intros Hd. unfold path_segments. case_if; [|done]. apply HasPrefix_spec in Hif as [t ->]. rewrite TrimPrefix_app.
  intros E. injection E as <-. rewrite <- (Join_Split t) in Hd. apply (PathUnescape_app "") in Hd as (a' & b' & [= <-] & Hb & ->).
  by rewrite (decode_Join _ _ Hb).
Qed.

(** ** From the route to the path *)

Lemma starts_with_app l pre rest : starts_with l pre = Some rest -> l = pre ++ rest.
Proof.
  revert l. induction pre as [|x pre IH]; intros [|y l]; cbn; try (by intros [= <-]).
  destruct (String.eqb_spec x y) as [->|]; [|done]. by intros ->%IH.
Qed.

Lemma fold_longer l best p : fold_left longer l best = Some p -> best = Some p \/ p ∈ l.
Proof.
  revert best. induction l as [|x l IH]; intros best; [by left|]. cbn. intros [H|H]%IH; [|right; by right].
  unfold longer in H. destruct best as [b|]; [destruct (_ <? _)%nat|]; injection H as <-; set_solver.
Qed.

Lemma match_path_matches segs p : match_path segs = Some p -> p ∈ patterns /\ matches segs p = true.
Proof.
  unfold match_path. destruct (List.find _ _) as [q|] eqn:E.
  - intros [= ->]. apply List.find_some in E as [Hin H]. split; [by apply list_elem_of_In|]. by apply andb_true_iff in H as [_ H].
  - intros [?|Hin]%fold_longer; [done|]. apply list_elem_of_In, filter_In in Hin as [Hin H]. split; [by apply list_elem_of_In|done].
Qed.

(** The paths of a pattern: the one it names, or everything below it. *)
Definition pattern_path (p : pattern) : string := "/" +:+ Join (p_segments p) "/".

Definition names_path (p : pattern) (path : string) : Prop :=
  if p_below p then exists t, path = (if List.length (p_segments p) =? 0 then "/" else pattern_path p +:+ "/")%nat +:+ t
  else path = pattern_path p.

Lemma Join_app a b : a <> [] -> b <> [] -> Join (a ++ b) "/" = Join a "/" +:+ String "/" (Join b "/").
Proof.
  intros Ha Hb. induction a as [|x a IH]; [done|]. destruct a as [|y a].
  - destruct b; [done|]. reflexivity.
  - change (Join ((x :: y :: a) ++ b) "/") with (x +:+ "/" +:+ Join ((y :: a) ++ b) "/"). rewrite IH by done.
    change (Join (x :: y :: a) "/") with (x +:+ "/" +:+ Join (y :: a) "/"). by rewrite !sapp_assoc.
Qed.

(** A routed request has the path that the pattern of its route names. *)
Lemma routed_path method path raw rt :
  findHandler method path raw = Routed rt -> exists p, p ∈ patterns /\ p_route p = rt /\ names_path p path.
Proof.
  unfold findHandler. cbv zeta. set (escaped := EscapedPath path raw). set (wanted := if String.eqb method "CONNECT" then _ else _).
  destruct (path_segments wanted) as [segs|] eqn:Hs; [|done]. case_if; [done|].
  destruct (String.eqb_spec wanted escaped) as [E|]; [|done]. rewrite E in Hs. unfold route_segments.
  destruct (match_path segs) as [p|] eqn:Hm; [|done]. intros [= <-]. apply match_path_matches in Hm as [Hp Hm].
  exists p. split_and!; [done|done|]. rewrite (segments_of_path escaped path segs) by (done || apply EscapedPath_decodes).
  unfold matches in Hm. destruct (starts_with segs (p_segments p)) as [rest|] eqn:Hst; [|done]. apply starts_with_app in Hst as ->.
  unfold names_path. destruct rest as [|x rest].
  - apply negb_true_iff in Hm as ->. by rewrite app_nil_r.
  - rewrite Hm. destruct (p_segments p) as [|y l] eqn:Hseg; [by eexists|].
    exists (Join (x :: rest) "/"). cbn [List.length Nat.eqb]. unfold pattern_path. rewrite Hseg.
    rewrite Join_app by done. by rewrite !sapp_assoc.
Qed.

(** ** What a route says about its path *)

Lemma routed_cases method path raw rt (P : route -> string -> Prop) :
  findHandler method path raw = Routed rt ->
  Forall (fun p => forall q, names_path p q -> P (p_route p) q) patterns -> P rt path.
Proof. intros (p & Hp & <- & Hn)%routed_path H. rewrite Forall_forall in H. by apply H. Qed.

Ltac each_pattern := repeat first [apply Forall_nil; exact I | apply Forall_cons; split];
  unfold names_path; cbn [p_below p_segments p_route List.length Nat.eqb pattern_path Join append].

(** The request limit exempts by the decoded path. The only handlers such a request can reach are the
    three status pages, the static files and, for a path that is not "/", the not-found answer of the home page. *)
Lemma exempt_routes method path raw rt :
  limit_exempt path = true -> findHandler method path raw = Routed rt ->
  rt ∈ [RStatic; RHealth; RReady; RMetrics] \/ rt = RHome /\ path <> "/".
Proof.
  intros He Hr. revert He. apply (routed_cases method path raw rt (fun rt q => limit_exempt q = true ->
    rt ∈ [RStatic; RHealth; RReady; RMetrics] \/ rt = RHome /\ q <> "/") Hr).
  each_pattern; intros q Hq; try (subst q; try discriminate; intros _; left; set_solver);
    destruct Hq as [t ->]; cbn [append]; try discriminate; intros H; try (left; set_solver).
  right. split; [done|]. intros E. injection E as ->. discriminate H.
Qed.

(** The rules of robots.txt. *)
Definition robots_disallow : list string := ["/mailbox/"; "/report/"; "/raw/"; "/api/"].
Definition disallowed (path : string) : bool := existsb (HasPrefix path) robots_disallow.

Lemma robots_disallow_written s r p : p ∈ robots_disallow -> ("Disallow: " +:+ p) ∈ Split (robotsTxt s r) LF.
Proof.
  intros Hp. set (base := publicBaseURL s r).
  assert (E : robotsTxt s r = Join ["User-agent: *"; "Allow: /$"; "Allow: /de/"; "Allow: /en/"; "Allow: /about"; "Allow: /guides";
     "Allow: /privacy"; "Disallow: /mailbox/"; "Disallow: /report/"; "Disallow: /raw/"; "Disallow: /api/"] lf
     +:+ String LF (("Sitemap: " +:+ base +:+ "/sitemap.xml") +:+ lf +:+ "")) by reflexivity.
  rewrite E, Split_app. apply elem_of_app. left. clear E. revert Hp. unfold robots_disallow.
  repeat (rewrite elem_of_cons). intros [->|[->|[->|[->|[]%not_elem_of_nil]]]]; apply (bool_decide_unpack _); vm_compute; exact I.
Qed.

Definition public_route (rt : route) : bool :=
  match rt with
  | RStatic | RFavicon | RRobots | RSitemap | RLang | RHome | RAbout | RPrivacy | RGuides | RGuide | RHealth | RReady | RMetrics
  | RSimulate => true
  | _ => false
  end.

(** Every route that reads or changes stored data lies under a path that robots.txt closes to crawlers. *)
Lemma private_routes_disallowed method path raw rt :
  findHandler method path raw = Routed rt -> public_route rt = false -> disallowed path = true.
Proof.
  intros Hr. apply (routed_cases method path raw rt (fun rt q => public_route rt = false -> disallowed q = true) Hr).
  each_pattern; intros q Hq; try discriminate; 
    (lazymatch type of Hq with ex _ => destruct Hq as [t ->] | _ => rewrite Hq end);
    unfold disallowed; cbn; rewrite ?HasPrefix_nil; reflexivity.
Qed.
