(* ===== verification/Telemetry.v ===== *)
(** * Telemetry (internal/telemetry/telemetry.go)

    The counters with their Prometheus text, and the alert webhook. A counter is
    an atomic uint64, so a run is a sequence of increments. [FormatSeconds] is the
    %.0f verb, [Format3339] the time format, [post] the HTTP client: it delivers a
    JSON value to an address and answers with a status or an error. *)

From S2P Require Import Prelude F64 GoStrings GoTime EnvMigrate DomainChecks Lang Guides.

Local Open Scope string_scope.
Local Open Scope list_scope.
Local Open Scope Z_scope.

(** ** Counters *)

Record Counters := mkCounters {
  startedAt : Z;
  httpRequestsTotal : Z;
  mailboxesCreated : Z;
  mailsReceived : Z;
  reportsGenerated : Z;
  analyzerErrors : Z;
  inboundErrors : Z;
  webRateLimitBlocked : Z;
  smtpRateLimitBlocked : Z
}.

Definition New (now : Z) : Counters := mkCounters now 0 0 0 0 0 0 0 0.

(** [Add(1)] on a uint64. *)
Definition add1 (n : Z) : Z := (n + 1) mod 2 ^ 64.

Definition IncHTTPRequests (c : Counters) : Counters :=
  mkCounters (startedAt c) (add1 (httpRequestsTotal c)) (mailboxesCreated c) (mailsReceived c) (reportsGenerated c)
    (analyzerErrors c) (inboundErrors c) (webRateLimitBlocked c) (smtpRateLimitBlocked c).
Definition IncMailboxesCreated (c : Counters) : Counters :=
  mkCounters (startedAt c) (httpRequestsTotal c) (add1 (mailboxesCreated c)) (mailsReceived c) (reportsGenerated c)
    (analyzerErrors c) (inboundErrors c) (webRateLimitBlocked c) (smtpRateLimitBlocked c).
Definition IncMailsReceived (c : Counters) : Counters :=
  mkCounters (startedAt c) (httpRequestsTotal c) (mailboxesCreated c) (add1 (mailsReceived c)) (reportsGenerated c)
    (analyzerErrors c) (inboundErrors c) (webRateLimitBlocked c) (smtpRateLimitBlocked c).
Definition IncReportsGenerated (c : Counters) : Counters :=
  mkCounters (startedAt c) (httpRequestsTotal c) (mailboxesCreated c) (mailsReceived c) (add1 (reportsGenerated c))
    (analyzerErrors c) (inboundErrors c) (webRateLimitBlocked c) (smtpRateLimitBlocked c).
Definition IncAnalyzerErrors (c : Counters) : Counters :=
  mkCounters (startedAt c) (httpRequestsTotal c) (mailboxesCreated c) (mailsReceived c) (reportsGenerated c)
    (add1 (analyzerErrors c)) (inboundErrors c) (webRateLimitBlocked c) (smtpRateLimitBlocked c).
Definition IncInboundErrors (c : Counters) : Counters :=
  mkCounters (startedAt c) (httpRequestsTotal c) (mailboxesCreated c) (mailsReceived c) (reportsGenerated c)
    (analyzerErrors c) (add1 (inboundErrors c)) (webRateLimitBlocked c) (smtpRateLimitBlocked c).
Definition IncWebRateLimited (c : Counters) : Counters :=
  mkCounters (startedAt c) (httpRequestsTotal c) (mailboxesCreated c) (mailsReceived c) (reportsGenerated c)
    (analyzerErrors c) (inboundErrors c) (add1 (webRateLimitBlocked c)) (smtpRateLimitBlocked c).
Definition IncSMTPRateLimited (c : Counters) : Counters :=
  mkCounters (startedAt c) (httpRequestsTotal c) (mailboxesCreated c) (mailsReceived c) (reportsGenerated c)
    (analyzerErrors c) (inboundErrors c) (webRateLimitBlocked c) (add1 (smtpRateLimitBlocked c)).

(** ** The text of /metrics *)

(** The three lines of a metric. *)
Definition metric (name help kind value : string) : list string :=
  ["# HELP sender_report_" +:+ name +:+ " " +:+ help; "# TYPE sender_report_" +:+ name +:+ " " +:+ kind;
   "sender_report_" +:+ name +:+ " " +:+ value].

(** [Duration.Seconds]. *)
Definition Seconds (d : Z) : float64 :=
  fadd (f_of_Z (Z.quot d second)) (fdiv (f_of_Z (Z.rem d second)) (f_of_Z 1000000000)).

Section Render.
Context (FormatSeconds : float64 -> string).

Definition metric_lines (now : Z) (c : Counters) : list string :=
  metric "uptime_seconds" "Process uptime in seconds" "gauge" (FormatSeconds (Seconds (since now (startedAt c))))
  ++ metric "http_requests_total" "Total HTTP requests" "counter" (Itoa (httpRequestsTotal c))
  ++ metric "mailboxes_created_total" "Total created mailboxes" "counter" (Itoa (mailboxesCreated c))
  ++ metric "mails_received_total" "Total inbound mails received" "counter" (Itoa (mailsReceived c))
  ++ metric "reports_generated_total" "Total analysis reports generated" "counter" (Itoa (reportsGenerated c))
  ++ metric "analyzer_errors_total" "Total analyzer/report persistence errors" "counter" (Itoa (analyzerErrors c))
  ++ metric "inbound_errors_total" "Total inbound processing errors" "counter" (Itoa (inboundErrors c))
  ++ metric "web_ratelimit_blocked_total" "Total web requests blocked by rate limiting" "counter" (Itoa (webRateLimitBlocked c))
  ++ metric "smtp_ratelimit_blocked_total" "Total SMTP sessions blocked by rate limiting" "counter" (Itoa (smtpRateLimitBlocked c)).

Definition RenderPrometheus (now : Z) (c : Counters) : string := print_lines (metric_lines now c).

End Render.

(** ** Alerts *)

Definition NewAlerter (webhookURL : string) : string := TrimSpace webhookURL.

(** [None] is the nil alerter. *)
Definition Enabled (a : option string) : bool := match a with Some url => negb (isEmpty url) | None => false end.

Section Alert.
Context (Format3339 : Z -> string) (post : string -> json -> outcome string Z).

Definition alert_payload (now : Z) (severity event message : string) (fields : json) : json :=
  JObj [("timestamp", JStr (Format3339 now)); ("severity", JStr (ToLower (TrimSpace severity))); ("event", JStr (TrimSpace event));
        ("message", JStr (TrimSpace message)); ("fields", fields)].

(** The error, if any. *)
Definition Send (a : option string) (now : Z) (severity event message : string) (fields : json) : option string :=
  match a with
  | Some url =>
      if isEmpty url then None
      else match post url (alert_payload now severity event message fields) with
      | Err e => Some e
      | Ok status => if (status <? 200) || (300 <=? status) then Some ("alert webhook status " +:+ Itoa status) else None
      end
  | None => None
  end.

End Alert.

(** ** A scraper reads back what was counted *)

(** The value of a metric in the exposition format: the line that starts with its name. *)
Definition scrape (text name : string) : option string :=
  (fun line => sdrop (String.length name + 1) line) <$> List.find (fun line => HasPrefix line (name +:+ " ")) (Split text LF).

Definition exposed (c : Counters) : list (string * Z) :=
  [("sender_report_http_requests_total", httpRequestsTotal c); ("sender_report_mailboxes_created_total", mailboxesCreated c);
   ("sender_report_mails_received_total", mailsReceived c); ("sender_report_reports_generated_total", reportsGenerated c);
   ("sender_report_analyzer_errors_total", analyzerErrors c); ("sender_report_inbound_errors_total", inboundErrors c);
   ("sender_report_web_ratelimit_blocked_total", webRateLimitBlocked c);
   ("sender_report_smtp_ratelimit_blocked_total", smtpRateLimitBlocked c)].

Lemma metric_no_lf name help kind value :
  no_lf name = true -> no_lf help = true -> no_lf kind = true -> no_lf value = true ->
  Forall (fun l => no_lf l = true) (metric name help kind value).
Proof.
  unfold no_lf, lacks, metric. intros Hn Hh Hk Hv. rewrite !Forall_cons, Forall_nil, !sforall_app, Hn, Hh, Hk, Hv. by split_and!.
Qed.

Lemma Itoa_no_lf z : no_lf (Itoa z) = true.
Proof. by apply Itoa_lacks. Qed.

Lemma metric_lines_no_lf FormatSeconds now c :
  (forall x, no_lf (FormatSeconds x) = true) -> Forall (fun l => no_lf l = true) (metric_lines FormatSeconds now c).
Proof. intros Hf. unfold metric_lines. repeat (apply Forall_app; split); apply metric_no_lf; try reflexivity; [apply Hf|apply Itoa_no_lf..]. Qed.

Lemma scrape_metric lines rest name value :
  Forall (fun l => HasPrefix l (name +:+ " ") = false) lines ->
  List.find (fun line => HasPrefix line (name +:+ " ")) (lines ++ (name +:+ " " +:+ value) :: rest) = Some (name +:+ " " +:+ value).
Proof.
  induction 1 as [|l lines Hl _ IH]; cbn [app List.find]; [|by rewrite Hl].
  rewrite <- sapp_assoc at 1. by rewrite HasPrefix_app.
Qed.

Lemma sdrop_name name value : sdrop (String.length name + 1) (name +:+ " " +:+ value) = value.
Proof. induction name as [|a name IH]; [by destruct value|]. exact IH. Qed.

Lemma scrape_at k lines name value :
  lines !! k = Some (name +:+ " " +:+ value) -> forallb (fun l => negb (HasPrefix l (name +:+ " "))) (take k lines) = true ->
  List.find (fun line => HasPrefix line (name +:+ " ")) lines = Some (name +:+ " " +:+ value).
Proof.
  intros Hk Hl. rewrite <- (take_drop_middle lines k _ Hk). apply scrape_metric, Forall_forall. intros l Hin.
  rewrite forallb_forall in Hl. by apply negb_true_iff, Hl, list_elem_of_In.
Qed.

(** The page of the counters says what was counted: whatever the uptime looks like, a scraper finds
    for each of the eight counters its decimal value under its name. *)
Theorem metrics_scraped FormatSeconds now c name n :
  (forall x, no_lf (FormatSeconds x) = true) -> (name, n) ∈ exposed c ->
  scrape (RenderPrometheus FormatSeconds now c) name = Some (Itoa n).
Proof.
  intros Hf Hn. unfold scrape, RenderPrometheus. rewrite Split_print by (by apply metric_lines_no_lf).
  set (lines := metric_lines FormatSeconds now c ++ [""]).
  assert (H : exists k, lines !! k = Some (name +:+ " " +:+ Itoa n)
    /\ forallb (fun l => negb (HasPrefix l (name +:+ " "))) (take k lines) = true).
  { unfold exposed in Hn. repeat rewrite elem_of_cons in Hn.
    destruct Hn as [E|[E|[E|[E|[E|[E|[E|[E|[]%not_elem_of_nil]]]]]]]]; injection E as -> ->;
      [exists 5%nat|exists 8%nat|exists 11%nat|exists 14%nat|exists 17%nat|exists 20%nat|exists 23%nat|exists 26%nat];
      split; reflexivity. }
  destruct H as (k & Hk & Hl). rewrite (scrape_at k lines name (Itoa n) Hk Hl). cbn [fmap option_fmap option_map].
  by rewrite sdrop_name.
Qed.

Lemma metrics_scraped_witness :
  scrape (RenderPrometheus (fun _ => "12") 0 (IncMailsReceived (IncHTTPRequests (New 0)))) "sender_report_mails_received_total" = Some "1".
Proof.
  apply (metrics_scraped (fun _ => "12") 0 (IncMailsReceived (IncHTTPRequests (New 0))) "sender_report_mails_received_total" 1);
    [reflexivity|]. apply (bool_decide_unpack _). vm_compute. exact I.
Defined.

(** An alert reaches the webhook exactly when one is configured, and its failure is reported. *)
Lemma Send_spec Format3339 post url now severity event message fields :
  Send Format3339 post (Some (NewAlerter url)) now severity event message fields =
  if isEmpty (TrimSpace url) then None
  else match post (TrimSpace url) (alert_payload Format3339 now severity event message fields) with
       | Ok status => if (200 <=? status) && (status <=? 299) then None else Some ("alert webhook status " +:+ Itoa status)
       | Err e => Some e
       end.
Proof.
  unfold Send, NewAlerter. case_if; [done|]. destruct (post _ _) as [st|]; [|done].
  destruct (Z.ltb_spec st 200), (Z.leb_spec 300 st), (Z.leb_spec 200 st), (Z.leb_spec st 299); try lia; done.
Qed.
