(* ===== verification/Site.v ===== *)
(** * The web site as a whole (internal/web/server.go, Handler)

    One request through the whole server: the counters, the request limit, the
    redirect to HTTPS, the language prefix, the routing and the handler, on the
    state that the handlers share (database, limiters, counters). The remaining
    small pages are defined here, the larger handlers in WebApi.v, WebPages.v,
    WebAnalysis.v, Events.v, Placement.v, Lang.v and Guides.v. *)

From S2P Require Import Prelude F64 GoStrings GoTime GoNet DnsFallback Model Score Ipt RateLimit Store SealedBox Ingest Config AuthHeaders Smtp.
From S2P Require Import GoSort Regex Spf Checks Dkim MailHeaders Body Content Blocklists DomainChecks SpamFilters Enrich Runner Analyze Reports Rechecks.
From S2P Require Import Telemetry Views WebRequest WebApi Lang Placement WebPages WebAnalysis Events GuideTexts Guides Routes.

Local Open Scope string_scope.
Local Open Scope list_scope.
Local Open Scope Z_scope.

(** ** Small pages *)

Record home_view := mkHomeView {
  hv_AppName : string;
  hv_Domain : string;
  hv_PublicURL : string;
  hv_Stats : GlobalStats;
  hv_Lang : string;
  hv_EnableInboxPlacement : bool;
  hv_IPTProviderNames : list string;
  hv_IPTProviders : list (string * bool);
  hv_IPTTestMinutes : Z
}.

Record about_view := mkAboutView {
  av_AppName : string;
  av_Domain : string;
  av_PublicURL : string;
  av_Lang : string;
  av_EnableInboxPlacement : bool;
  av_RetentionDays : Z;
  av_MailboxHours : Z
}.

Record privacy_view := mkPrivacyView {
  pv_AppName : string;
  pv_PublicURL : string;
  pv_OperatorName : string;
  pv_OperatorAddress : string;
  pv_OperatorEmail : string;
  pv_HideTemplateNote : bool;
  pv_Lang : string;
  pv_CookieSecure : string;
  pv_LangCookieName : string;
  pv_LangCookieDays : Z;
  pv_MailboxCookieName : string;
  pv_MailboxHours : Z;
  pv_RetentionDays : Z;
  pv_DNSFallback : list string
}.

Record cookie := mkCookie { ck_Name : string; ck_Value : string; ck_MaxAge : Z; ck_Secure : bool }.

(** The text of a page for a link whose mailbox is gone: title, body, link. *)
Definition gonePage (lang : string) : string * string * string :=
  if String.eqb lang EN then
    ("This link has expired",
     "Test mailboxes and their reports are deleted automatically once the retention period is over — that is part of this service's privacy promise. The report behind this link no longer exists and cannot be restored. Send a new test message to get a fresh report.",
     "Start a new test")
  else
    ("Dieser Link ist abgelaufen",
     "Testpostfächer und ihre Berichte werden nach Ablauf der Aufbewahrungsfrist automatisch gelöscht — das gehört zum Datenschutzversprechen dieses Dienstes. Der Bericht dahinter existiert nicht mehr und lässt sich auch nicht wiederherstellen. Schicken Sie einfach eine neue Testmail, um einen frischen Bericht zu bekommen.",
     "Neuen Test starten").

Definition resolverHosts (addrs : list string) : list string :=
  (fun a => match SplitHostPort a with Some (h, _) => h | None => a end) <$> addrs.

(** The answer to the creation of a mailbox: the JSON of [mailboxJSON]. *)
Record mailbox_json := mkMailboxJSON {
  mj_Token : string;
  mj_Address : string;
  mj_Encrypted : bool;
  mj_ExpiresAt : Z;
  mj_MailboxURL : string;
  mj_StatusPath : string;
  mj_EventsPath : string;
  mj_Checks : bool * bool * bool
}.

Definition ready (failures : Z) : string := "ready" +:+ lf +:+ "dns_lookup_failures_total " +:+ Itoa failures +:+ lf.

Section Pages.
Context (s : web_server) (seeds : option SeedConfig).

Let cfg := ws_cfg s.

Definition mailboxHours : Z := ftrunc (Hours (MailboxTTL cfg)).
Definition has_seeds : bool := match seeds with Some _ => true | None => false end.

Definition home (lang : string) (h : gmap string AccountStatus) (now : Z) (r : request) (d : DB) : page home_view :=
  if negb (String.eqb (rq_Path r) "/") then Status 404
  else if negb (String.eqb (rq_Method r) "GET") then Status 405
  else Shown (mkHomeView (AppName cfg) (requestSMTPDomain s r) (publicBaseURL s r) (GetGlobalStats now d) lang has_seeds
                (iptProviderNames seeds) (iptProviders seeds h) (Z.quot (IPTTestDuration cfg) minute)).

Definition aboutPage (lang : string) (r : request) : page about_view :=
  if negb (String.eqb (rq_Method r) "GET") then Status 405
  else
    let host := match SplitHostPort (rq_Host r) with Some (h, _) => h | None => rq_Host r end in
    Shown (mkAboutView (AppName cfg) host (publicBaseURL s r) lang has_seeds (retention_days s) mailboxHours).

Definition privacyPage (lang : string) (r : request) : page privacy_view :=
  if negb (String.eqb (rq_Method r) "GET") then Status 405
  else Shown (mkPrivacyView (AppName cfg) (publicBaseURL s r) (PrivacyOperatorName cfg) (PrivacyOperatorAddress cfg)
                (PrivacyOperatorEmail cfg) (PrivacyHideTemplateNote cfg) lang (CookieSecure cfg) (LangCookieName cfg)
                (LangCookieDays cfg) (MailboxCookieName cfg) mailboxHours (retention_days s)
                (resolverHosts (DNSFallbackResolvers cfg))).

Definition simulatePage (lang : string) (r : request) : page string :=
  if negb (String.eqb (rq_Path r) "/simulate") then Status 404 else Shown lang.

Definition statsHandler (now : Z) (r : request) (d : DB) : page GlobalStats :=
  if negb (String.eqb (rq_Method r) "GET") then Status 405 else Shown (GetGlobalStats now d).

Definition metricsPage (FormatSeconds : float64 -> string) (now : Z) (r : request) (c : Counters) : page string :=
  if negb (String.eqb (rq_Method r) "GET") then Status 405 else Shown (RenderPrometheus FormatSeconds now c).

Definition mailboxJSON (r : request) (mb : Mailbox) : mailbox_json :=
  mkMailboxJSON (mb_Token mb) (mb_Address mb) (negb (isEmpty (mb_PublicKey mb))) (mb_ExpiresAt mb)
    (publicBaseURL s r +:+ "/mailbox/" +:+ mb_Token mb) ("/api/mailboxes/" +:+ mb_Token mb +:+ "/status")
    ("/api/mailboxes/" +:+ mb_Token mb +:+ "/events")
    (mb_CheckDomainAge mb, mb_CheckDomainBlocklist mb, mb_CheckBrokenLinks mb).

Definition setMailboxCookie (now : Z) (r : request) (mb : Mailbox) : cookie :=
  mkCookie (MailboxCookieName cfg) (mb_Token mb) (Z.max 0 (ftrunc (Seconds (since (mb_ExpiresAt mb) now)))) (secureCookies s r).

(** [v]: the query parameter. *)
Definition staticCacheHeaders (v : string) : string :=
  if negb (isEmpty v) then "public, max-age=31536000, immutable" else "no-cache".

End Pages.

Definition security_headers : list (string * string) :=
  [("X-Content-Type-Options", "nosniff"); ("X-Frame-Options", "DENY"); ("Referrer-Policy", "strict-origin-when-cross-origin");
   ("Content-Security-Policy", "default-src 'self'; script-src 'self' 'unsafe-inline'; style-src 'self' 'unsafe-inline'; img-src 'self' data: blob:; font-src 'self' data:; connect-src 'self'; frame-src 'self'; form-action 'self'; base-uri 'self'")].

(** ** The server *)

(** What a request brings from outside: the clock and the random source, the
    bodies as decoded, query parameters, the world of the analyzer and the
    later states that the streams read. *)
Record site_world := mkSiteWorld {
  sw_api : api_world;
  sw_analysis : world;
  sw_reverify : option (ReceivedMail -> string -> option string);
  sw_views : string -> option (string * string);
  sw_Hostname : string -> option string;
  sw_url_Parse : string -> option parsed_url;
  sw_FormatSeconds : float64 -> string;
  sw_marshal_stats : GlobalStats -> string;
  sw_query : string -> string;
  sw_form_lang : string;
  sw_lang_cookie : option string;
  sw_dns_failures : Z;
  sw_create : option create_body;
  sw_persist : option persist_body;
  sw_recheck : option recheck_body;
  sw_reanalyze : option reanalyze_body;
  sw_simulate : option simulate_body
}.

Record site_state := mkSiteState {
  ss_db : DB;
  ss_limits : web_limits;
  ss_payload : Limiter;
  ss_ipt : Limiter;
  ss_metrics : Counters
}.

Definition set_db (st : site_state) (d : DB) : site_state :=
  mkSiteState d (ss_limits st) (ss_payload st) (ss_ipt st) (ss_metrics st).
Definition set_payload_limiter (st : site_state) (l : Limiter) : site_state :=
  mkSiteState (ss_db st) (ss_limits st) l (ss_ipt st) (ss_metrics st).
Definition set_metrics (st : site_state) (c : Counters) : site_state :=
  mkSiteState (ss_db st) (ss_limits st) (ss_payload st) (ss_ipt st) c.

Inductive answer :=
| RateLimited                                                    (** 429 of the request limit *)
| BadHostName                                                    (** 400 *)
| ToHTTPS (host path rawPath rawQuery : string)                  (** 308 *)
| MovedTo (path : string)                                        (** 301 *)
| NotFound                                                       (** 404 *)
| StaticFile (cacheControl : string)
| PlainText (text : string)
| LangAnswer (a : switch_response)
| HomeAnswer (p : page home_view)
| AboutAnswer (p : page about_view)
| PrivacyAnswer (p : page privacy_view)
| GuideAnswer (p : page guide_view)
| MetricsAnswer (p : page string)
| StatsAnswer (p : page GlobalStats)
| StatsStream (p : page (list event))
| CreateAnswer (resp : create_response)
| ApiAnswer (a : api_answer)
| ReportJSON (p : page (Mailbox * Message * AnalysisReport))
| PdfAnswer (p : option (page pdf_download))
| PayloadAnswer (status : Z) (payload : string)
| RecheckAnswer (p : page CheckResult)
| PersistAnswer (status : Z)
| ReanalyzeAnswer (p : option (page reanalysis))
| SimulatePage (p : page string)
| SimulateAnswer (p : page AnalysisReport)
| MailboxAnswer (p : page mailbox_view)
| ReportAnswer (p : option (page report_view))
| RawAnswer (p : page string).

(** The API answers in the language of the response. *)
Definition in_lang (a : api_world) (lang : string) : api_world :=
  mkApiWorld (aw_clock a) (aw_rand a) (aw_choose a) (aw_health a) (aw_seeds a) lang (aw_selected a) (aw_checks a) (aw_start a)
    (aw_ticks a) (aw_marshal_status a) (aw_marshal_test a).

Section Server.
Context {C : Crypto} (s : web_server) (w : site_world).

Let api := sw_api w.
Let clock := aw_clock api.
Let seeds := aw_seeds api.

(** The handler of a route; [lang] is the language of the response. *)
Definition dispatch (rt : route) (lang : string) (r : request) (st : site_state) : answer * site_state :=
  let d := ss_db st in
  let speak (_ : request) := lang in
  match rt with
  | RStatic => (StaticFile (staticCacheHeaders (sw_query w "v")), st)
  | RFavicon => (MovedTo "/static/favicon.svg", st)
  | RRobots => (PlainText (robotsTxt s r), st)
  | RSitemap => (PlainText (sitemapXML s r), st)
  | RLang => (LangAnswer (setLang s (sw_url_Parse w) r (sw_form_lang w)), st)
  | RHome => (HomeAnswer (home s seeds lang (aw_health api) (clock 0%nat) r d), st)
  | RAbout => (AboutAnswer (aboutPage s seeds lang r), st)
  | RPrivacy => (PrivacyAnswer (privacyPage s lang r), st)
  | RGuides => (GuideAnswer (guidesIndex s lang r), st)
  | RGuide => (GuideAnswer (guidePage s lang r), st)
  | RHealth => (PlainText "ok", st)
  | RReady => (PlainText (ready (sw_dns_failures w)), st)
  | RMetrics => (MetricsAnswer (metricsPage (sw_FormatSeconds w) (clock 0%nat) r (ss_metrics st)), st)
  | RStats => (StatsAnswer (statsHandler (clock 0%nat) r d), st)
  | RStatsEvents => (StatsStream (statsEvents (sw_marshal_stats w) r (clock 0%nat, d) (aw_ticks api)), st)
  | RCreate =>
      let '(resp, d', created) := createMailbox s clock (aw_rand api) r (sw_create w) d 0 in
      (CreateAnswer resp, set_metrics (set_db st d') (if created =? 0 then ss_metrics st else IncMailboxesCreated (ss_metrics st)))
  | RMailboxAPI =>
      let '(a, ipt, d') := mailboxAPI s (in_lang api lang) r (ss_ipt st) d in
      (ApiAnswer a, mkSiteState d' (ss_limits st) (ss_payload st) ipt (ss_metrics st))
  | RReportAPI => (ReportJSON (reportAPI r d), st)
  | RPdf => (PdfAnswer (reportPDFHandler speak r (sw_query w) d), st)
  | RPayload =>
      let '(status, payload, lim) := payloadAPI s (clock 0%nat) r (ss_payload st) d in
      (PayloadAnswer status payload, set_payload_limiter st lim)
  | RRecheck =>
      let '(p, lim, d') := recheckAPI s (sw_analysis w) clock r (sw_query w "activate") (sw_recheck w) (ss_payload st) d in
      (RecheckAnswer p, set_payload_limiter (set_db st d') lim)
  | RRecheckPersist =>
      let '(status, lim, d') := recheckPersistAPI s (clock 0%nat) r (sw_persist w) (ss_payload st) d in
      (PersistAnswer status, set_payload_limiter (set_db st d') lim)
  | RReanalyze =>
      let '(p, lim) := reanalyzeAPI s (sw_analysis w) (sw_reverify w) clock r (sw_reanalyze w) (ss_payload st) d in
      (ReanalyzeAnswer p, set_payload_limiter st lim)
  | RSimulate => (SimulatePage (simulatePage lang r), st)
  | RSimulateAPI =>
      let '(p, lim) := simulateAPI s (sw_analysis w) clock r (sw_simulate w) (ss_payload st) d in
      (SimulateAnswer p, set_payload_limiter st lim)
  | RSimulateRecheck =>
      let '(p, lim) := simulateRecheckAPI s (sw_analysis w) clock r (sw_recheck w) (ss_payload st) d in
      (RecheckAnswer p, set_payload_limiter st lim)
  | RMailbox =>
      let '(p, d') := mailboxPage s speak clock r d in (MailboxAnswer p, set_db st d')
  | RReport => (ReportAnswer (reportPage speak (sw_views w) (sw_Hostname w) r (sw_query w "msg") d), st)
  | RRaw => (RawAnswer (rawPage r d), st)
  end.

Definition with_path (r : request) (path raw : string) : request :=
  mkRequest (rq_Method r) (rq_RemoteAddr r) (rq_TLS r) (rq_Host r) (rq_Header r) path raw (rq_RawQuery r).

(** The request as the pages see it. *)
Definition unprefixed (r : request) : request :=
  match splitLangPrefix (rq_Path r) with Some (_, rest) => with_path r rest "" | None => r end.

Definition response_lang (r : request) : string := lang (rq_Path r) (sw_lang_cookie w) (rq_Header r "Accept-Language").

(** The multiplexer behind the language prefix. *)
Definition serve_mux (r : request) (st : site_state) : answer * site_state :=
  let r' := unprefixed r in
  match findHandler (rq_Method r') (rq_Path r') (rq_RawPath r') with
  | Moved path => (MovedTo path, st)
  | Unrouted => (NotFound, st)
  | Routed rt => dispatch rt (response_lang r) r' st
  end.

(** The headers every response carries, the answer and the state after it.
    [at1], [at2]: the clock when the two limits are asked. *)
Definition ServeHTTP (at1 at2 : Z) (r : request) (st : site_state) : list (string * string) * answer * site_state :=
  let st := set_metrics st (IncHTTPRequests (ss_metrics st)) in
  let vary := if snd (withLangPrefix (rq_Path r)) then [("Vary", "Accept-Language, Cookie")] else [] in
  let '(ok, limits) := withRateLimit s at1 at2 r (ss_limits st) in
  let st := mkSiteState (ss_db st) limits (ss_payload st) (ss_ipt st) (ss_metrics st) in
  if negb ok then (security_headers, RateLimited, set_metrics st (IncWebRateLimited (ss_metrics st)))
  else match withHTTPSRedirect s (sw_url_Parse w) r with
  | BadHost => (security_headers, BadHostName, st)
  | RedirectHTTPS host path raw query => (security_headers, ToHTTPS host path raw query, st)
  | ServeNext => let '(a, st) := serve_mux r st in (security_headers ++ vary, a, st)
  end.

End Server.

(** ** A request touches one mailbox *)

Lemma others_then_same token d d1 d2 :
  others_untouched token d d1 ->
  (forall b, mb_Token b <> token -> b ∈ mailboxes d2 <-> b ∈ mailboxes d1) ->
  messages d2 = messages d1 -> reports d2 = reports d1 -> placement d2 = placement d1 ->
  others_untouched token d d2.
Proof.
  intros (H1 & H2 & H3 & H4) Hb Hm Hr Hp. split_and!.
  - intros b Ht. by rewrite Hb, H1.
  - intros m Hf. rewrite Hm. by apply H2.
  - intros r Hf. rewrite Hr. by apply H3.
  - intros t Hf. rewrite Hp. by apply H4.
Qed.

Lemma create_then_others now token address pk ip ttl d0 d mb d' :
  others_untouched token d0 d -> CreateMailbox now token address pk ip ttl d = Ok (mb, d') -> others_untouched token d0 d'.
Proof.
  intros H0. unfold CreateMailbox. case_if; [done|]. case_if; [done|]. intros E. injection E as <- <-.
  unfold incrCounter. destruct (_ !! _); (eapply others_then_same; [exact H0| |reflexivity..]);
    intros b Hb; cbn [mailboxes]; rewrite elem_of_app, list_elem_of_singleton; (split; [|by left]); by intros [?| ->].
Qed.

Lemma checks_then_others token a b c d0 d d' :
  others_untouched token d0 d -> UpdateMailboxChecks token a b c d = Ok d' -> others_untouched token d0 d'.
Proof.
  intros H0 Hu. pose proof (checks_others _ _ _ _ _ _ Hu) as (Hb & _). unfold UpdateMailboxChecks in Hu. case_if_in Hu; [done|].
  injection Hu as <-. by eapply others_then_same.
Qed.

Lemma touch_others now token mb d :
  db_ok d -> GetMailboxByToken token d = Ok mb -> others_untouched token d (TouchMailbox now (mb_ID mb) d).
Proof.
  intros Hd Hg. apply GetMailboxByToken_token in Hg as [Ht Hin]. eapply others_then_same; [apply others_refl| |done..].
  intros b Hb. cbn [mailboxes TouchMailbox set_mailboxes]. rewrite elem_of_update_key by (apply (ok_mailboxes d Hd) || done).
  split; [|intros Hx; left; split; [done|]].
  - intros [[? _]| ->]; [done|]. cbn in Hb. by rewrite Ht in Hb.
  - intros E. assert (b = mb) as -> by (by apply (NoDup_fmap_inj mb_ID (mailboxes d) b mb (proj1 (ok_mailboxes d Hd)))). congruence.
Qed.

Lemma persisted_others token mb msg b d d' :
  db_ok d -> GetMailboxByToken token d = Ok mb -> msg ∈ messages d -> m_MailboxID msg = mb_ID mb ->
  persisted d msg b d' -> others_untouched token d d'.
Proof.
  intros Hd Hg Hmsg Hown (H1 & H2 & _ & H4 & H5). apply GetMailboxByToken_token in Hg as [Ht Hin]. split_and!.
  - intros x _. by rewrite H1.
  - intros m Hf. rewrite H4. split.
    + intros [[? _]| ->]; [done|]. by destruct (Hf mb Hin Ht).
    + intros Hm. left. split; [done|]. intros E.
      assert (m = msg) as -> by (by apply (NoDup_fmap_inj m_ID (messages d) m msg (proj1 (ok_messages d Hd)))). by destruct (Hf mb Hin Ht).
  - intros r Hf. apply H5. intros E. destruct (Hf msg Hmsg (eq_sym E) mb Hin Ht). done.
  - intros t _. by rewrite H2.
Qed.

Section Creation.
Context {C : Crypto} (s : web_server).

(** The mailbox a creation may touch: one nobody has yet, or the one of the key the client presents. *)
Definition own_identity (body : option create_body) (d : DB) (token : string) : Prop :=
  (forall mb, mb ∈ mailboxes d -> mb_Token mb <> token)
  \/ exists b pub, body = Some b /\ token = cb_Identifier b /\ hex_decode (cb_PublicKey b) = Some pub
       /\ String.length pub = 32%nat /\ token = Identifier pub.

Lemma create_keyed_others clock ip addr b d0 d created :
  others_untouched (cb_Identifier b) d0 d ->
  others_untouched (cb_Identifier b) d0 (snd (fst (create_keyed s clock ip addr b d created))).
Proof.
  intros H0. unfold create_keyed. destruct (CreateMailbox _ _ _ _ _ _ d) as [[mb d1]|] eqn:E; [|done].
  pose proof (create_then_others _ _ _ _ _ _ _ _ _ _ H0 E) as H1.
  assert (Ht : mb_Token mb = cb_Identifier b).
  { unfold CreateMailbox in E. case_if_in E; [done|]. case_if_in E; [done|]. by injection E as <- _. }
  case_if; [|done]. cbn [fst snd]. rewrite Ht. destruct (UpdateMailboxChecks _ _ _ _ d1) eqn:Hu; [|done]. by eapply checks_then_others.
Qed.

Lemma create_generated_others clock rand ip domain resp d created :
  exists token, others_untouched token d (snd (fst (create_generated s clock rand ip domain resp d created)))
    /\ (snd (fst (create_generated s clock rand ip domain resp d created)) = d \/ forall mb, mb ∈ mailboxes d -> mb_Token mb <> token).
Proof.
  unfold create_generated. destruct (generateMailboxAddress _ _ _) as [[token addr]|];
    [|exists ""; split; [apply others_refl|by left]].
  exists token. destruct (CreateMailbox _ _ _ _ _ _ d) as [[mb d1]|] eqn:E; [|split; [apply others_refl|by left]]. cbn [fst snd].
  split; [by eapply create_then_others; [apply others_refl|]|]. right. intros x Hx Htok. unfold CreateMailbox in E. case_if_in E; [done|].
  pose proof (existsb_none _ _ Hif x Hx) as Hn. cbn in Hn. by rewrite Htok, String.eqb_refl in Hn.
Qed.

Lemma create_with_key_others clock ip domain b d created :
  db_ok d ->
  let d' := snd (fst (create_with_key s clock ip domain b d created)) in
  d' = d \/ others_untouched (cb_Identifier b) d d' /\ own_identity (Some b) d (cb_Identifier b).
Proof.
  intros Hd. cbv zeta. unfold create_with_key. destruct (hex_decode (cb_PublicKey b)) as [pub|] eqn:Hpub; [|by left].
  destruct (String.length pub =? 32)%nat eqn:Hlen; [|by left].
  destruct (String.eqb (Identifier pub) (cb_Identifier b)) eqn:Hident; [|by left]. cbn [negb]. bool_to_prop. right.
  split; [|right; exists b, pub; by split_and!].
  destruct (GetMailboxByToken (cb_Identifier b) d) as [existing|] eqn:Hget; [|apply create_keyed_others, others_refl].
  case_if; [by apply touch_others|]. apply create_keyed_others. apply GetMailboxByToken_token in Hget as [<- _].
  destruct (DeleteMailboxByToken _ d) eqn:E; [by apply delete_others|apply others_refl].
Qed.

Lemma createMailbox_others clock rand r body d created resp d' created' :
  db_ok d -> createMailbox s clock rand r body d created = (resp, d', created') ->
  db_ok d' /\ (d' = d \/ rq_Method r = "POST" /\ exists token, others_untouched token d d' /\ own_identity body d token).
Proof.
  intros Hd. unfold createMailbox. destruct (String.eqb_spec (rq_Method r) "POST") as [Hm|]; cbn [negb];
    [|intros E; injection E as _ <- _; split; [done|by left]].
  case_if; [intros E; injection E as _ <- _; split; [done|by left]|]. case_if; [intros E; injection E as _ <- _; split; [done|by left]|].
  assert (Hg : forall f, (f = NewMailbox \/ f = NewMailboxForm) ->
    create_generated s clock rand (clientIP s r) (requestSMTPDomain s r) f d created = (resp, d', created') ->
    db_ok d' /\ (d' = d \/ rq_Method r = "POST" /\ exists token, others_untouched token d d' /\ own_identity body d token)).
  { intros f Hf E. pose proof (create_generated_outcome s clock rand (clientIP s r) (requestSMTPDomain s r) f d created Hd Hf) as Ho.
    destruct (create_generated_others clock rand (clientIP s r) (requestSMTPDomain s r) f d created) as (token & H1 & H2).
    rewrite E in *. cbn [fst snd] in *. split; [apply Ho|]. destruct H2 as [->|H2]; [by left|]. right. split; [done|].
    exists token. split; [done|by left]. }
  case_if; [|apply Hg; auto]. destruct body as [b|]; [|apply Hg; auto]. case_if; [|apply Hg; auto]. intros E.
  pose proof (create_with_key_outcome s clock (clientIP s r) (requestSMTPDomain s r) b d created Hd) as Ho.
  pose proof (create_with_key_others clock (clientIP s r) (requestSMTPDomain s r) b d created Hd) as H.
  rewrite E in *. cbv zeta in H. cbn [fst snd] in *. split; [apply Ho|]. destruct H as [->|[H1 H2]]; [by left|]. right. eauto.
Qed.

Lemma activated_ok id mb d : db_ok d -> db_ok (activated id mb d) /\ others_untouched (mb_Token mb) d (activated id mb d).
Proof.
  intros Hd.
  assert (H : forall a b c, let d' := match UpdateMailboxChecks (mb_Token mb) a b c d with Ok d' => d' | Err _ => d end in
    db_ok d' /\ others_untouched (mb_Token mb) d d').
  { intros a b c. cbv zeta. destruct (UpdateMailboxChecks _ _ _ _ d) eqn:E; [|split; [done|apply others_refl]].
    split; [exact (store_step_ok _ _ (step_checks _ _ _ _ _ _ E) Hd)|by eapply checks_others]. }
  unfold activated. cbv zeta. repeat (case_if; [apply H|]). split; [done|apply others_refl].
Qed.

Lemma recheckAPI_effect w now r activate body lim d p lim' d' :
  recheckAPI s w now r activate body lim d = (p, lim', d') ->
  d' = d \/ exists token rest mb id, SplitN2 (TrimPrefix (rq_Path r) "/api/recheck/") "/" = [token; rest]
               /\ GetMailboxByToken token d = Ok mb /\ d' = activated id mb d.
Proof.
  unfold recheckAPI. case_if; [intros E; injection E as _ _ <-; by left|]. destruct (Allow _ _ lim) as [[] l]; cbn [negb];
    [|intros E; injection E as _ _ <-; by left].
  destruct (SplitN2 _ _) as [|token [|rest [|? ?]]] eqn:Hsp; try (intros E; injection E as _ _ <-; by left).
  case_if; [intros E; injection E as _ _ <-; by left|].
  destruct (GetMailboxByToken token d) as [mb|] eqn:Hg; [|intros E; injection E as _ _ <-; by left].
  destruct body as [b|]; [|intros E; injection E as _ _ <-; by left].
  case_if; [intros E; injection E as _ _ <-; by left|]. intros E; injection E as _ _ <-.
  case_if; [|by left]. right. by exists token, rest, mb, (rb_CheckID b).
Qed.

Lemma mailboxPage_effect lang now r d p d' :
  mailboxPage s lang now r d = (p, d') ->
  d' = d \/ exists token mb, path_token "/mailbox/" r = Some token /\ GetMailboxByToken token d = Ok mb
               /\ d' = TouchMailbox (now 0%nat) (mb_ID mb) d.
Proof.
  unfold mailboxPage. case_if; [intros E; injection E as _ <-; by left|].
  destruct (path_token _ r) as [token|]; [|intros E; injection E as _ <-; by left].
  destruct (GetMailboxByToken token d) as [mb|[]] eqn:Hg; intros E; injection E as _ <-; try (by left).
  right. by exists token, mb.
Qed.

End Creation.

(** ** The whole request *)

(** [path] addresses the mailbox [token]: it is below one of the four addresses of a mailbox, and [token]
    is the segment after it. *)
Definition addresses_mailbox (path token : string) : Prop :=
  exists prefix rest, prefix ∈ ["/mailbox/"; "/api/mailboxes/"; "/api/recheck/"; "/api/recheck-persist/"]
    /\ path = prefix +:+ token +:+ rest /\ (rest = "" \/ exists t, rest = "/" +:+ t).

Lemma SplitN2_two s a b : SplitN2 s "/" = [a; b] -> s = a +:+ "/" +:+ b.
Proof.
  unfold SplitN2. destruct (Cut_byte s "/") as (x & y & _ & [[-> ->]|[-> _]]); [|done]. by intros [= <- <-].
Qed.

Lemma Split_two s a b l : Split s "/" = a :: b :: l -> s = a +:+ "/" +:+ Join (b :: l) "/".
Proof. intros H. by rewrite <- (Join_Split s), H. Qed.

(** The path of the routes that can change the database. *)
Definition writing_path (rt : route) (path : string) : Prop :=
  match rt with
  | RCreate => path = "/api/mailboxes"
  | RMailboxAPI => exists t, path = "/api/mailboxes/" +:+ t
  | RRecheck => exists t, path = "/api/recheck/" +:+ t
  | RRecheckPersist => exists t, path = "/api/recheck-persist/" +:+ t
  | RMailbox => exists t, path = "/mailbox/" +:+ t
  | _ => True
  end.

Lemma routed_writing_path method path raw rt : findHandler method path raw = Routed rt -> writing_path rt path.
Proof. intros H. apply (routed_cases method path raw rt writing_path H). each_pattern; intros q Hq; first [exact I | exact Hq]. Qed.

Section Whole.
Context {C : Crypto} (s : web_server) (w : site_world).

Definition request_scope (path method : string) (d d' : DB) : Prop :=
  d' = d \/ exists token, others_untouched token d d'
    /\ (addresses_mailbox path token \/ path = "/api/mailboxes" /\ method = "POST" /\ own_identity (sw_create w) d token).

Lemma addressed prefix token rest path method d d' :
  prefix ∈ ["/mailbox/"; "/api/mailboxes/"; "/api/recheck/"; "/api/recheck-persist/"] ->
  path = prefix +:+ token +:+ rest -> (rest = "" \/ exists t, rest = "/" +:+ t) -> others_untouched token d d' ->
  request_scope path method d d'.
Proof. intros Hp -> Hr Ho. right. exists token. split; [done|]. left. by exists prefix, rest. Qed.

Lemma api_scope r lim d a lim' d' t l :
  db_ok d -> rq_Path r = "/api/mailboxes/" +:+ t -> mailboxAPI s (in_lang (sw_api w) l) r lim d = (a, lim', d') ->
  db_ok d' /\ request_scope (rq_Path r) (rq_Method r) d d'.
Proof.
  intros Hd Hp [Hok H]%mailboxAPI_effect; [|done]. split; [done|]. rewrite Hp, TrimPrefix_app in H.
  destruct (Split t "/") as [|token [|b rest]] eqn:E; [by left|by left|]. apply Split_two in E as ->.
  eapply (addressed "/api/mailboxes/" token ("/" +:+ Join (b :: rest) "/")); [set_solver|done|eauto|done].
Qed.

Lemma persist_scope now r body lim d code lim' d' t :
  db_ok d -> rq_Path r = "/api/recheck-persist/" +:+ t -> recheckPersistAPI s now r body lim d = (code, lim', d') ->
  db_ok d' /\ request_scope (rq_Path r) (rq_Method r) d d'.
Proof.
  intros Hd Hp H. apply persist_effect in H as [Hok H]; [|done]. split; [done|]. destruct H as [->|H]; [by left|].
  destruct H as (token & msgRef & mb & msg & b & _ & Hsp & Hg & Hm & Hown & _ & _ & _ & Hper & _).
  rewrite Hp, TrimPrefix_app in Hsp. apply SplitN2_two in Hsp as ->.
  eapply (addressed "/api/recheck-persist/" token ("/" +:+ msgRef)); [set_solver|done|eauto|by eapply persisted_others].
Qed.

Lemma recheck_scope wo now r activate body lim d p lim' d' t :
  db_ok d -> rq_Path r = "/api/recheck/" +:+ t -> recheckAPI s wo now r activate body lim d = (p, lim', d') ->
  db_ok d' /\ request_scope (rq_Path r) (rq_Method r) d d'.
Proof.
  intros Hd Hp H. apply recheckAPI_effect in H as [->|(token & rest & mb & id & Hsp & Hg & ->)]; [split; [done|by left]|].
  apply GetMailboxByToken_token in Hg as [Ht _]. destruct (activated_ok id mb d Hd) as [Hok Ho]. split; [done|].
  rewrite Hp, TrimPrefix_app in Hsp. apply SplitN2_two in Hsp as ->. rewrite Ht in Ho.
  eapply (addressed "/api/recheck/" token ("/" +:+ rest)); [set_solver|done|eauto|done].
Qed.

Lemma mailbox_page_scope lang now r d p d' t :
  db_ok d -> rq_Path r = "/mailbox/" +:+ t -> mailboxPage s lang now r d = (p, d') ->
  db_ok d' /\ request_scope (rq_Path r) (rq_Method r) d d'.
Proof.
  intros Hd Hp H. apply mailboxPage_effect in H as [->|(token & mb & Hpt & Hg & ->)]; [split; [done|by left]|].
  split; [by apply update_mailboxes_ok|]. unfold path_token in Hpt. rewrite Hp, TrimPrefix_app in Hpt. case_if_in Hpt; [done|].
  injection Hpt as <-. eapply (addressed "/mailbox/" t ""); [set_solver|by rewrite sapp_nil_r|by left|by apply touch_others].
Qed.

Lemma dispatch_scope rt lang r st a st' :
  db_ok (ss_db st) -> writing_path rt (rq_Path r) -> dispatch s w rt lang r st = (a, st') ->
  db_ok (ss_db st') /\ request_scope (rq_Path r) (rq_Method r) (ss_db st) (ss_db st').
Proof.
  intros Hd Hp. destruct rt; cbn [dispatch writing_path] in *; try (intros E; injection E as _ <-; split; [done|by left]).
  - destruct (createMailbox _ _ _ _ _ _ _) as [[resp d'] created] eqn:E. intros F. injection F as _ <-. cbn [ss_db set_metrics set_db].
    apply createMailbox_others in E as [Hok E]; [|done]. split; [done|].
    destruct E as [->|(Hm & token & Ho & Hi)]; [by left|]. right. exists token. eauto.
  - destruct (mailboxAPI _ _ _ _ _) as [[x ipt] d'] eqn:E. intros F. injection F as _ <-. destruct Hp as [t Hp]. by eapply api_scope.
  - destruct (payloadAPI _ _ _ _ _) as [[x y] lim]. intros F. injection F as _ <-. split; [done|by left].
  - destruct (recheckAPI _ _ _ _ _ _ _ _) as [[x lim] d'] eqn:E. intros F. injection F as _ <-. destruct Hp as [t Hp]. by eapply recheck_scope.
  - destruct (recheckPersistAPI _ _ _ _ _ _) as [[x lim] d'] eqn:E. intros F. injection F as _ <-. destruct Hp as [t Hp]. by eapply persist_scope.
  - destruct (reanalyzeAPI _ _ _ _ _ _ _ _) as [x lim]. intros F. injection F as _ <-. split; [done|by left].
  - destruct (simulateAPI _ _ _ _ _ _ _) as [x lim]. intros F. injection F as _ <-. split; [done|by left].
  - destruct (simulateRecheckAPI _ _ _ _ _ _ _) as [x lim]. intros F. injection F as _ <-. split; [done|by left].
  - destruct (mailboxPage _ _ _ _ _) as [x d'] eqn:E. intros F. injection F as _ <-. destruct Hp as [t Hp]. by eapply mailbox_page_scope.
Qed.

Lemma langPrefixed_public rest : langPrefixedPage rest = true -> disallowed rest = false.
Proof.
  unfold langPrefixedPage. intros [H|H]%orb_true_iff.
  - apply existsb_exists in H as (x & Hx & ->%String.eqb_eq). apply list_elem_of_In in Hx.
    assert (E : forallb (fun y => negb (disallowed y)) ["/"; "/about"; "/privacy"; "/simulate"; "/guides"] = true) by reflexivity.
    rewrite forallb_forall in E. by apply negb_true_iff, E, list_elem_of_In.
  - apply andb_true_iff in H as [H _]. apply HasPrefix_spec in H as [t ->]. reflexivity.
Qed.

Lemma splitLangPrefix_page path l rest : splitLangPrefix path = Some (l, rest) -> langPrefixedPage rest = true.
Proof.
  unfold splitLangPrefix. cbn [split_prefix]. repeat (case_if; [intros E; injection E as _ <-; first [reflexivity | by apply andb_true_iff in Hif1 as [_ ?]
    | by apply andb_true_iff in Hif0 as [_ ?] | by apply andb_true_iff in Hif2 as [_ ?]]|]). done.
Qed.

(** A route behind the language prefix is a public page. *)
Lemma private_unprefixed r rt :
  findHandler (rq_Method (unprefixed r)) (rq_Path (unprefixed r)) (rq_RawPath (unprefixed r)) = Routed rt ->
  public_route rt = false -> unprefixed r = r.
Proof.
  unfold unprefixed. destruct (splitLangPrefix (rq_Path r)) as [[l rest]|] eqn:E; [|done]. intros H Hp.
  apply private_routes_disallowed in H; [|done]. cbn [rq_Path with_path] in H.
  apply splitLangPrefix_page, langPrefixed_public in E. congruence.
Qed.

Lemma serve_mux_scope r st a st' :
  db_ok (ss_db st) -> serve_mux s w r st = (a, st') ->
  db_ok (ss_db st') /\ request_scope (rq_Path r) (rq_Method r) (ss_db st) (ss_db st').
Proof.
  intros Hd. unfold serve_mux. cbv zeta. destruct (findHandler _ _ _) as [path|rt|] eqn:Hf; [by intros [= _ <-]; split; [|left]| |by intros [= _ <-]; split; [|left]].
  pose proof (routed_writing_path _ _ _ _ Hf) as Hw. intros H. destruct (public_route rt) eqn:Hp.
  - destruct rt; try discriminate Hp; cbn [dispatch] in H; injection H as _ <-; (split; [done|by left]).
  - rewrite (private_unprefixed r rt Hf Hp) in *. by eapply dispatch_scope.
Qed.

Lemma ServeHTTP_scope at1 at2 r st headers a st' :
  db_ok (ss_db st) -> ServeHTTP s w at1 at2 r st = (headers, a, st') ->
  db_ok (ss_db st') /\ request_scope (rq_Path r) (rq_Method r) (ss_db st) (ss_db st').
Proof.
  intros Hd. unfold ServeHTTP. cbv zeta. destruct (withRateLimit _ _ _ _ _) as [[] limits]; cbn [negb];
    [|intros E; injection E as _ _ <-; split; [done|by left]].
  destruct (withHTTPSRedirect _ _ _); [|intros E; injection E as _ _ <-; (split; [done|by left])..].
  destruct (serve_mux _ _ _ _) as [x st1] eqn:E. intros F. injection F as _ _ <-. by apply serve_mux_scope in E.
Qed.

(** C4: whatever arrives at the server, one request touches at most one mailbox: the database stays
    well-formed, and either it is unchanged, or everything that belongs to mailboxes other than one is as before. That one
    is the mailbox whose token stands in the path of the request or, for POST /api/mailboxes, a mailbox that did
    not exist or whose public key the request presents. *)
Theorem request_touches_one_mailbox at1 at2 r st headers a st' :
  db_ok (ss_db st) -> ServeHTTP s w at1 at2 r st = (headers, a, st') ->
  db_ok (ss_db st') /\ request_scope (rq_Path r) (rq_Method r) (ss_db st) (ss_db st').
Proof. apply ServeHTTP_scope. Qed.

(** ** Requests without a limit *)

Lemma exempt_unprefixed r : limit_exempt (rq_Path r) = true -> unprefixed r = r.
Proof.
  intros H. unfold unprefixed. destruct (splitLangPrefix (rq_Path r)) as [[l rest]|] eqn:E; [|done]. exfalso. revert E H.
  unfold splitLangPrefix. cbn [split_prefix]. destruct (String.eqb_spec (rq_Path r) ("/" +:+ DE)) as [->|_]; [done|].
  destruct (HasPrefix (rq_Path r) (("/" +:+ DE) +:+ "/")) eqn:H1.
  { apply HasPrefix_spec in H1 as [t ->]. done. }
  cbn [andb]. destruct (String.eqb_spec (rq_Path r) ("/" +:+ EN)) as [->|_]; [done|].
  destruct (HasPrefix (rq_Path r) (("/" +:+ EN) +:+ "/")) eqn:H2; [|done]. apply HasPrefix_spec in H2 as [t ->]. done.
Qed.

(** What a request may get that no limit counts. *)
Definition harmless (a : answer) : Prop :=
  match a with
  | BadHostName | ToHTTPS _ _ _ _ | MovedTo _ | NotFound | StaticFile _ | PlainText _ | MetricsAnswer _ | HomeAnswer (Status 404) => True
  | _ => False
  end.

(** C36: the request limit has no way around it: a request that the limit does not count, because its
    path starts with /healthz, /readyz, /metrics or /static/, reads no mailbox and changes nothing, whatever encoding or dot
    segments its path has; it gets a status text, the counters, a static file, a redirect or a not-found page. *)
Theorem unlimited_requests_are_harmless at1 at2 r st headers a st' :
  limit_exempt (rq_Path r) = true -> ServeHTTP s w at1 at2 r st = (headers, a, st') ->
  harmless a /\ ss_db st' = ss_db st /\ ss_payload st' = ss_payload st /\ ss_ipt st' = ss_ipt st.
Proof.
  intros He. unfold ServeHTTP, withRateLimit. rewrite He. cbn [negb]. cbv zeta.
  destruct (withHTTPSRedirect _ _ _); [|intros E; injection E as _ <- <-; by split_and!..].
  unfold serve_mux. rewrite (exempt_unprefixed r He). cbv zeta.
  destruct (findHandler _ _ _) as [path|rt|] eqn:Hf; [intros E; injection E as _ <- <-; by split_and!| |intros E; injection E as _ <- <-; by split_and!].
  destruct (exempt_routes _ _ _ _ He Hf) as [Hrt|[-> Hp]].
  - repeat rewrite elem_of_cons in Hrt. destruct Hrt as [->|[->|[->|[->|[]%not_elem_of_nil]]]]; cbn [dispatch];
      intros E; injection E as _ <- <-; by split_and!.
  - cbn [dispatch]. unfold home. rewrite (proj2 (String.eqb_neq _ _) Hp). cbn [negb].
    intros E; injection E as _ <- <-; by split_and!.
Qed.

(** ** The sitemap *)

Definition sitemap_served (p : sitemapPage) : bool :=
  langPrefixedPage (sp_Path p) &&
  match findHandler "GET" (sp_Path p) "" with
  | Routed RHome => String.eqb (sp_Path p) "/"
  | Routed RAbout | Routed RPrivacy | Routed RGuides => true
  | Routed RGuide => match findGuide (Trim (TrimPrefix (sp_Path p) "/guides/") "/") with Some _ => true | None => false end
  | _ => false
  end.

Lemma sitemap_pages_served p : p ∈ sitemapPages -> sitemap_served p = true.
Proof.
  intros Hp. assert (H : forallb sitemap_served sitemapPages = true) by (vm_compute; reflexivity).
  rewrite forallb_forall in H. by apply H, list_elem_of_In.
Qed.

(** A page of the site, in the language [l]. *)
Definition shown_in (l : string) (a : answer) : Prop :=
  match a with
  | HomeAnswer (Shown v) => hv_Lang v = l
  | AboutAnswer (Shown v) => av_Lang v = l
  | PrivacyAnswer (Shown v) => pv_Lang v = l
  | GuideAnswer (Shown v) => gv_Lang v = l
  | _ => False
  end.

Lemma langPath_not_disallowed l path : is_lang l = true -> disallowed (langPath l path) = false.
Proof.
  intros Hl. unfold langPath. rewrite Hl. apply is_lang_cases in Hl as [-> | ->];
    (destruct (isEmpty path || String.eqb path "/"); [reflexivity|]); by destruct (HasPrefix path "/").
Qed.

(** The sitemap holds no dead or closed address: every address it lists, in either language, is
    answered with a page in that language, is not closed by robots.txt, and its request leaves the state as it was. *)
Theorem sitemap_addresses_served p l r st :
  p ∈ sitemapPages -> is_lang l = true -> rq_Method r = "GET" -> rq_Path r = langPath l (sp_Path p) ->
  shown_in l (fst (serve_mux s w r st)) /\ snd (serve_mux s w r st) = st /\ disallowed (rq_Path r) = false.
Proof.
  intros Hp Hl Hm Hpath. apply sitemap_pages_served in Hp. unfold sitemap_served in Hp. apply andb_true_iff in Hp as [Hpage Hroute].
  assert (Hu : unprefixed r = with_path r (sp_Path p) "") by (unfold unprefixed; by rewrite Hpath, split_langPath).
  assert (Hlang : response_lang w r = l) by (unfold response_lang, lang, withLangPrefix; by rewrite Hpath, split_langPath).
  cut (shown_in l (fst (serve_mux s w r st)) /\ snd (serve_mux s w r st) = st).
  { intros [H1 H2]. split_and!; [done|done|]. rewrite Hpath. by apply langPath_not_disallowed. }
  unfold serve_mux. rewrite Hu, Hlang. cbv zeta. cbn [rq_Method rq_Path rq_RawPath with_path]. rewrite Hm.
  destruct (findHandler "GET" (sp_Path p) "") as [|rt|]; [done| |done].
  destruct rt; try discriminate Hroute; cbn [dispatch fst snd shown_in]; (split; [|done]).
  - unfold home. cbn [rq_Method rq_Path with_path]. by rewrite Hroute, Hm.
  - unfold aboutPage. cbn [rq_Method with_path]. by rewrite Hm.
  - unfold privacyPage. cbn [rq_Method with_path]. by rewrite Hm.
  - unfold guidesIndex, reads. cbn [rq_Method with_path]. rewrite Hm. cbn [orb negb String.eqb]. by destruct (guidesIntro l) as [[? ?] ?].
  - unfold guidePage, reads. cbn [rq_Method rq_Path with_path]. rewrite Hm. by destruct (findGuide _).
Qed.

End Whole.

(** ** Witnesses *)

Definition sample_site : site_world :=
  mkSiteWorld sample_api sample_world None (fun _ => Some ("", "")) (fun _ => None) (fun _ => None) (fun _ => "0") (fun _ => "")
    (fun _ => "") "" None 0 None None None None None.

Definition sample_state : site_state :=
  mkSiteState sample_db (mkLimits (RateLimit.New minute 60) (RateLimit.New (10 * second) 20) 0) (RateLimit.New minute 30)
    (RateLimit.New hour 3) (Telemetry.New 0).

Definition fetch (path raw : string) : request := mkRequest "GET" "192.0.2.7:4711" false "mx.example.org" (fun _ => "") path raw "".

Lemma request_touches_one_mailbox_witness :
  exists headers st', ServeHTTP (C := toy_crypto) plain_server sample_site 5 6 (post "/api/mailboxes/tok/delete") sample_state
      = (headers, ApiAnswer ApiDeleted, st')
    /\ db_ok (ss_db st') /\ request_scope (C := toy_crypto) sample_site "/api/mailboxes/tok/delete" "POST" sample_db (ss_db st').
Proof.
  destruct (ServeHTTP (C := toy_crypto) plain_server sample_site 5 6 (post "/api/mailboxes/tok/delete") sample_state) as [[h a] st'] eqn:E.
  assert (Ha : a = ApiAnswer ApiDeleted) by (vm_compute in E; by injection E as _ <- _). subst a.
  exists h, st'. split; [reflexivity|].
  exact (request_touches_one_mailbox (C := toy_crypto) plain_server sample_site 5 6 (post "/api/mailboxes/tok/delete") sample_state h _ st' sample_db_ok E).
Defined.

Lemma unlimited_requests_are_harmless_witness :
  let r := fetch "/static/../mailbox/tok" "/static/%2e%2e/mailbox/tok" in
  limit_exempt (rq_Path r) = true
  /\ harmless (snd (fst (ServeHTTP (C := toy_crypto) plain_server sample_site 5 6 r sample_state))).
Proof.
  cbv zeta. destruct (ServeHTTP (C := toy_crypto) plain_server sample_site 5 6
    (fetch "/static/../mailbox/tok" "/static/%2e%2e/mailbox/tok") sample_state) as [[h a] st'] eqn:E. split; [reflexivity|].
  exact (proj1 (unlimited_requests_are_harmless (C := toy_crypto) plain_server sample_site 5 6
    (fetch "/static/../mailbox/tok" "/static/%2e%2e/mailbox/tok") sample_state h a st' eq_refl E)).
Defined.

Lemma sitemap_addresses_served_witness :
  shown_in "de" (fst (serve_mux (C := toy_crypto) plain_server sample_site (fetch "/de/guides/spf" "") sample_state)).
Proof.
  refine (proj1 (sitemap_addresses_served (C := toy_crypto) plain_server sample_site
    (mkSitemapPage "/guides/spf" "0.8" "monthly" (g_Updated guide_spf)) "de" (fetch "/de/guides/spf" "") sample_state _ eq_refl eq_refl eq_refl)).
  apply list_elem_of_In. cbn. do 5 right. left. reflexivity.
Defined.
