(* ===== verification/Pdf.v ===== *)
(** * PDF report (internal/pdf/report.go)

    What the PDF prints: colours and labels, the conversion of texts to the
    character set of the built-in fonts, which findings appear and with which
    counts, the meta data, and the vertical layout of a card. Lengths inside a card
    are in half millimetres, in which all constants of the code are whole
    numbers. The PDF library is a parameter: [SplitLines] breaks a text into lines
    for a font size (in half points) and a width, [GetStringWidth] measures one, and
    [Sprintf1] and [Sprintf_delta] are the formats %.1f and %+.1f. Where on which page
    everything is drawn is in PdfLayout.v. *)

From S2P Require Import Prelude F64 GoStrings GoTime Model Score Ingest Checks Views Lang WebPages.

Local Open Scope string_scope.
Local Open Scope list_scope.
Local Open Scope Z_scope.

(** ** Colours and labels *)

Record rgb := mkRgb { c_r : Z; c_g : Z; c_b : Z }.

Definition colSuccess : rgb := mkRgb 25 135 84.
Definition colWarning : rgb := mkRgb 253 126 20.
Definition colDanger : rgb := mkRgb 220 53 69.
Definition colCyan : rgb := mkRgb 13 202 240.
Definition colGray : rgb := mkRgb 108 117 125.

Definition statusColor (status : string) : rgb :=
  if String.eqb status "pass" then colSuccess
  else if String.eqb status "warn" then colWarning
  else if String.eqb status "fail" then colDanger
  else if String.eqb status "info" then colCyan
  else colGray.

Definition statusLabel (status : string) : string :=
  if String.eqb status "pass" then "OK"
  else if String.eqb status "warn" then "WARNUNG"
  else if String.eqb status "fail" then "FEHLER"
  else if String.eqb status "info" then "INFO"
  else ToUpper status.

Definition scoreColor (score : float64) : rgb :=
  if fleb (lit 75 10) score then colSuccess else if fleb (lit 55 10) score then colWarning else colDanger.

Definition scoreLabel (score : float64) : string :=
  if fleb (f_of_Z 9) score then "Ausgezeichnet"
  else if fleb (lit 75 10) score then "Sehr gut"
  else if fleb (lit 55 10) score then "Verbesserungsbedarf"
  else "Kritisch".

Definition lighten_channel (t : float64) (a : Z) : Z := a + ftrunc (fmul (f_of_Z (255 - a)) t).
Definition lighten (c : rgb) (t : float64) : rgb :=
  mkRgb (lighten_channel t (c_r c)) (lighten_channel t (c_g c)) (lighten_channel t (c_b c)).

(** ** Texts for the built-in fonts *)

Definition replacements : list (Z * string) :=
  [(228, "ae"); (246, "oe"); (252, "ue"); (196, "Ae"); (214, "Oe"); (220, "Ue"); (223, "ss"); (8211, "-"); (8212, "-");
   (8216, "'"); (8217, "'"); (8220, dq); (8221, dq); (8230, "..."); (8594, "->"); (8592, "<-"); (10003, "+"); (10007, "x");
   (10004, "+"); (9888, "!"); (8226, "*")].

(** A rune of at most two bytes in UTF-8. *)
Definition encode2 (r : Z) : string :=
  if r <? 128 then chr (ascii_of_N (Z.to_N r))
  else String (ascii_of_N (Z.to_N (192 + r / 64))) (chr (ascii_of_N (Z.to_N (128 + r mod 64)))).

Definition latin1_rune (r : Z) : string :=
  if r <? 128 then encode2 r
  else match List.find (fun p => fst p =? r) replacements with
  | Some (_, sub) => sub
  | None => if r <=? 255 then encode2 r else ""
  end.

Definition latin1 (s : string) : string := String.concat "" (latin1_rune <$> runes s).

(** ** Which findings appear *)

Record counts := mkCounts { n_pass : Z; n_warn : Z; n_fail : Z; n_info : Z }.

Definition checkCounts (checks : list CheckResult) : counts :=
  let count s := Z.of_nat (List.length (List.filter (fun c => String.eqb (c_Status c) s) checks)) in
  mkCounts (count "pass") (count "warn") (count "fail") (count "info").

Definition included (opts : pdf_options) (c : CheckResult) : bool :=
  let status s := String.eqb (c_Status c) s in
  if status "pass" then po_Pass opts
  else if status "warn" then po_Warn opts
  else if status "fail" then po_Fail opts
  else if status "info" then po_Info opts
  else false.

Definition filterChecks (checks : list CheckResult) (opts : pdf_options) : list CheckResult := List.filter (included opts) checks.

Definition countGroups (groups : list ReportCheckGroup) : nat :=
  List.length (List.filter (fun g => (0 <? List.length (g_Checks g))%nat) groups).

(** The rows of the overview. *)
Definition category_rows (groups : list ReportCheckGroup) : list (string * counts) :=
  (fun g => (latin1 (g_Name g), checkCounts (g_Checks g))) <$> List.filter (fun g => (0 <? List.length (g_Checks g))%nat) groups.

(** ** Meta data *)

Definition encryptedField : string := "[encrypted]".

Definition cleanMeta (s : string) : string :=
  if String.eqb s encryptedField || isEmpty s then "(E2E-verschluesselt - nur im Browser lesbar)" else s.

Section Library.
Context (SplitLines : Z -> Z -> string -> list string) (GetStringWidth : string -> float64) (FormatTime : Z -> string).
Context (Sprintf1 Sprintf_delta : float64 -> string).

Definition source_text (m : Message) : string :=
  if String.eqb (m_RemoteIP m) encryptedField || isEmpty (m_RemoteIP m) then cleanMeta encryptedField
  else if negb (isEmpty (m_HELO m)) && negb (String.eqb (m_HELO m) encryptedField) then m_RemoteIP m +:+ " / " +:+ m_HELO m
  else m_RemoteIP m.

Definition meta_items (m : Message) : list (string * string) :=
  [("Betreff", cleanMeta (m_Subject m));
   ("Empfangen", if m_ReceivedAt m =? zero_time then "(E2E-verschluesselt)" else FormatTime (m_ReceivedAt m));
   ("Envelope-From", cleanMeta (m_SMTPFrom m));
   ("Quelle (IP / HELO)", source_text m)].

(** The loop that cuts a value until it fits; one byte less per round. *)
Fixpoint cut_to_fit (fuel : nat) (limit : float64) (val : string) : string :=
  match fuel with
  | O => val
  | S k =>
      if (3 <? String.length val)%nat && fltb limit (GetStringWidth val)
      then cut_to_fit k limit (stake (String.length val - 4) val +:+ "...")
      else val
  end.

(** [val] has as many rounds as bytes. *)
Definition fit (limit : float64) (val : string) : string := cut_to_fit (String.length val) limit val.

(** ** A card *)

Definition wrapText (font width : Z) (s : string) : list string :=
  if isEmpty (TrimSpace s) then []
  else List.filter (fun l => negb (isEmpty (TrimSpace l))) (SplitLines font width s).

Definition noSummary : string := "(Details im Web-Report verfuegbar - Inhalt moeglicherweise E2E-verschluesselt)".

(** 169 mm are left for text on a card of 182 mm. *)
Definition summary_lines (c : CheckResult) : list string :=
  let summary := latin1 (c_Summary c) in
  wrapText 15 169 (if isEmpty (TrimSpace summary) then noSummary else summary).

Definition explanation_lines (details : bool) (c : CheckResult) : list string :=
  if details && negb (isEmpty (c_Explanation c)) then wrapText 14 167 (latin1 (c_Explanation c)) else [].

Definition recommendation_lines (details : bool) (c : CheckResult) : list string :=
  if details && negb (isEmpty (c_Recommendation c)) && (String.eqb (c_Status c) "warn" || String.eqb (c_Status c) "fail")
  then wrapText 14 167 (latin1 (c_Recommendation c)) else [].

Definition count_of (lines : list string) : Z := Z.of_nat (List.length lines).

Definition block_height (lines : list string) : Z := if 0 <? count_of lines then 11 + count_of lines * 8 + 4 else 0.

Definition card_height (details : bool) (c : CheckResult) : Z :=
  let expl := block_height (explanation_lines details c) in
  let reco := block_height (recommendation_lines details c) in
  7 + 11 + 3 + count_of (summary_lines c) * 9 + (if 0 <? expl + reco then 6 else 0) + expl + reco + 7.

(** A line of text: distance from the top of the card, height, text. *)
Record text_line := mkLine { tl_offset : Z; tl_height : Z; tl_text : string }.

Fixpoint place (cur height : Z) (lines : list string) : list text_line * Z :=
  match lines with
  | [] => ([], cur)
  | l :: rest => let '(placed, cur') := place (cur + height) height rest in (mkLine cur height l :: placed, cur')
  end.

Definition place_block (cur : Z) (title : string) (lines : list string) : list text_line * Z :=
  match lines with
  | [] => ([], cur)
  | _ => let '(placed, cur') := place (cur + 11) 8 lines in (mkLine cur 10 title :: placed, cur')
  end.

Record card := mkCard {
  cd_Badge : string;
  cd_Color : rgb;
  cd_Delta : string;
  cd_Height : Z;
  cd_Lines : list text_line
}.

Definition drawCheckCard (details : bool) (c : CheckResult) : card :=
  let expl := explanation_lines details c in
  let reco := recommendation_lines details c in
  let '(summary, cur) := place (7 + 11 + 3) 9 (summary_lines c) in
  let cur := if 0 <? block_height expl + block_height reco then cur + 6 else cur in
  let '(e, cur) := place_block cur "Erklaerung" expl in
  let cur := if 0 <? count_of expl then cur + 4 + (if 0 <? count_of reco then 3 else 0) else cur in
  let '(r, _) := place_block cur "Empfehlung" reco in
  mkCard (statusLabel (c_Status c)) (statusColor (c_Status c)) (Sprintf_delta (c_ScoreDelta c)) (card_height details c)
    (mkLine 7 11 (latin1 (c_Name c)) :: summary ++ e ++ r).

(** ** The document *)

Inductive section :=
| Header (app mailbox score : string)
| E2ENotice
| Hero (score label : string) (color : rgb) (pills : list (string * Z))
| CategoryTable (rows : list (string * counts))
| Meta (items : list (string * string))
| Group (name : string) (shown : counts) (cards : list card).

Definition drawHero (r : AnalysisReport) : section :=
  let count s := default 0 (statuses_of (r_Checks r) !! s) in
  Hero (Sprintf1 (r_Score r)) (scoreLabel (r_Score r)) (scoreColor (r_Score r))
    [("bestanden", count "pass"); ("Warnungen", count "warn"); ("Fehler", count "fail"); ("Infos", count "info")].

Definition draw_groups (opts : pdf_options) (groups : list ReportCheckGroup) : list section :=
  omap (fun g =>
    match filterChecks (g_Checks g) opts with
    | [] => None
    | filtered => Some (Group (latin1 (g_Name g)) (checkCounts filtered) (drawCheckCard (po_Details opts) <$> filtered))
    end) groups.

Definition Generate (app : string) (d : pdf_download) : list section :=
  let opts := pd_Options d in
  [Header (latin1 app) (latin1 ("Mailbox: " +:+ mb_Address (pd_Mailbox d))) (Sprintf1 (r_Score (pd_Report d)))]
  ++ (if String.eqb (m_Subject (pd_Message d)) encryptedField then [E2ENotice] else [])
  ++ (if po_Hero opts then [drawHero (pd_Report d)] else [])
  ++ [CategoryTable (category_rows (pd_Groups d))]
  ++ (if po_Meta opts
      then [Meta ((fun item => (latin1 (fst item), fit (f_of_Z 81) (latin1 (snd item)))) <$> meta_items (pd_Message d))] else [])
  ++ draw_groups opts (pd_Groups d).

End Library.

(** ** Cutting a value ends, with a value that fits *)

Lemma cut_to_fit_stops GetStringWidth fuel limit val :
  (String.length val <= fuel + 3)%nat ->
  let v := cut_to_fit GetStringWidth fuel limit val in
  ((String.length v <= 3)%nat \/ fltb limit (GetStringWidth v) = false) /\ (String.length v <= String.length val)%nat.
Proof.
  revert val. induction fuel as [|k IH]; intros val Hf; cbn [cut_to_fit]; cbv zeta in *; [split; [left; lia|done]|].
  destruct (3 <? String.length val)%nat eqn:El; cbn [andb]; [|apply Nat.ltb_ge in El; split; [by left|lia]]. apply Nat.ltb_lt in El.
  destruct (fltb limit (GetStringWidth val)) eqn:Ew; [|split; [by right|lia]].
  assert (Hlen : String.length (stake (String.length val - 4) val +:+ "...") = (String.length val - 1)%nat).
  { rewrite slength_app, slength_stake. cbn. lia. }
  destruct (IH (stake (String.length val - 4) val +:+ "...")) as [H1 H2]; [lia|]. split; [done|lia].
Qed.

Lemma fit_fits GetStringWidth limit val :
  let v := fit GetStringWidth limit val in (String.length v <= 3)%nat \/ fltb limit (GetStringWidth v) = false.
Proof. cbv zeta. unfold fit. by apply cut_to_fit_stops; lia. Qed.

(** ** Nothing on a card is clipped *)

(** The lines stand one below the other between two distances from the top. *)
Fixpoint stacked (from to : Z) (lines : list text_line) : Prop :=
  match lines with
  | [] => from <= to
  | l :: rest => from <= tl_offset l /\ 0 < tl_height l /\ stacked (tl_offset l + tl_height l) to rest
  end.

Lemma stacked_widen a a' b b' l : a' <= a -> b <= b' -> stacked a b l -> stacked a' b' l.
Proof.
  revert a a'. induction l as [|x l IH]; intros a a' Ha Hb; cbn [stacked]; [lia|]. intros (H1 & H2 & H3). split_and!; [lia|done|].
  by eapply (IH (tl_offset x + tl_height x)); [lia|done|].
Qed.

Lemma stacked_app a b c l1 l2 : stacked a b l1 -> stacked b c l2 -> stacked a c (l1 ++ l2).
Proof.
  revert a. induction l1 as [|x l1 IH]; intros a; cbn [stacked app]; [intros H; by apply stacked_widen; [|lia]|].
  intros (H1 & H2 & H3) H. split_and!; [done|done|by apply IH].
Qed.

Lemma place_spec cur height lines :
  0 < height ->
  stacked cur (cur + count_of lines * height) (fst (place cur height lines))
  /\ snd (place cur height lines) = cur + count_of lines * height /\ tl_text <$> fst (place cur height lines) = lines.
Proof.
  intros Hh. revert cur. induction lines as [|l lines IH]; intros cur; cbn [place]; [unfold count_of; split_and!; cbn [fst snd stacked List.length]; try done; lia|].
  destruct (IH (cur + height)) as (H1 & H2 & H3). destruct (place (cur + height) height lines) as [placed cur'].
  cbn [fst snd] in *. unfold count_of in *. cbn [List.length stacked tl_offset tl_height]. split_and!; try lia.
  - eapply stacked_widen; [done| |done]. lia.
  - rewrite fmap_cons. cbn [tl_text]. by rewrite H3.
Qed.

Lemma place_block_spec cur title lines :
  stacked cur (cur + block_height lines) (fst (place_block cur title lines))
  /\ snd (place_block cur title lines) = (if 0 <? count_of lines then cur + block_height lines - 4 else cur)
  /\ stacked cur (snd (place_block cur title lines)) (fst (place_block cur title lines))
  /\ tl_text <$> fst (place_block cur title lines) = (if 0 <? count_of lines then title :: lines else []).
Proof.
  destruct lines as [|l lines].
  { change (block_height []) with 0. change (0 <? count_of []) with false. cbn [place_block fst snd stacked]. split_and!; try done; lia. }
  unfold place_block. set (all := l :: lines).
  assert (Hc : 0 < count_of all) by (unfold count_of; cbn; lia). destruct (place_spec (cur + 11) 8 all ltac:(lia)) as (H1 & H2 & H3).
  unfold block_height. apply Z.ltb_lt in Hc as Hb. rewrite Hb. destruct (place (cur + 11) 8 all) as [placed cur']. cbn [fst snd] in *.
  subst cur'. cbn [stacked tl_offset tl_height]. rewrite fmap_cons, H3. cbn [tl_text]. split_and!; try done; try lia;
    (eapply stacked_widen; [| |exact H1]; lia).
Qed.

Section Cards.
Context (SplitLines : Z -> Z -> string -> list string) (Sprintf_delta : float64 -> string).

Let summary := summary_lines SplitLines.
Let explanation := explanation_lines SplitLines.
Let recommendation := recommendation_lines SplitLines.

Lemma block_height_nonneg lines : 0 <= block_height lines.
Proof. unfold block_height, count_of. case_if; lia. Qed.

Lemma block_height_lines lines : (0 <? block_height lines) = (0 <? count_of lines).
Proof. unfold block_height, count_of. destruct (0 <? Z.of_nat _) eqn:E; [apply Z.ltb_lt; lia|done]. Qed.

(** The height of a card is computed before it is drawn, and it is enough: name, summary, explanation
    and recommendation stand one below the other inside the card, and every line of the broken texts is on it. *)
Lemma card_complete details c :
  let card := drawCheckCard SplitLines Sprintf_delta details c in
  stacked 0 (cd_Height card) (cd_Lines card)
  /\ tl_text <$> cd_Lines card =
     latin1 (c_Name c) :: summary c
       ++ (if 0 <? count_of (explanation details c) then "Erklaerung" :: explanation details c else [])
       ++ (if 0 <? count_of (recommendation details c) then "Empfehlung" :: recommendation details c else []).
Proof.
  cbv zeta. unfold drawCheckCard, card_height. fold summary explanation recommendation. cbv zeta.
  set (S := summary c). set (E := explanation details c). set (R := recommendation details c).
  destruct (place_spec (7 + 11 + 3) 9 S ltac:(lia)) as (Hs1 & Hs2 & Hs3). destruct (place (7 + 11 + 3) 9 S) as [sl cur]. cbn [fst snd] in *.
  pose proof (block_height_nonneg E) as HE. pose proof (block_height_nonneg R) as HR.
  set (cur1 := if 0 <? block_height E + block_height R then cur + 6 else cur).
  destruct (place_block_spec cur1 "Erklaerung" E) as (_ & He2 & He3 & He4). destruct (place_block cur1 "Erklaerung" E) as [el cur2]. cbn [fst snd] in *.
  set (cur3 := if 0 <? count_of E then cur2 + 4 + (if 0 <? count_of R then 3 else 0) else cur2).
  destruct (place_block_spec cur3 "Empfehlung" R) as (Hr1 & Hr2 & Hr3 & Hr4). destruct (place_block cur3 "Empfehlung" R) as [rl cur4]. cbn [fst snd] in *.
  cbn [cd_Lines cd_Height]. split; [|by rewrite fmap_cons, !fmap_app, Hs3, He4, Hr4].
  cbn [stacked tl_offset tl_height]. split_and!; [lia|lia|].
  rewrite <- (block_height_lines E), <- (block_height_lines R) in *.
  apply (stacked_app _ cur1).
  { eapply stacked_widen; [| |exact Hs1]; [lia|]. unfold cur1. case_if; lia. }
  apply (stacked_app _ cur3).
  { eapply stacked_widen; [| |exact He3]; [lia|]. unfold cur3. repeat case_if; lia. }
  eapply stacked_widen; [| |exact Hr3]; [lia|]. rewrite Hr2. unfold cur3. rewrite He2. unfold cur1. rewrite Hs2.
  clear -HE HR. repeat case_if; bool_to_prop; lia.
Qed.

End Cards.

(** ** The selected findings, each once *)

Definition section_cards (s : section) : list card := match s with Group _ _ cards => cards | _ => [] end.

Definition counted (s : section) : Prop :=
  match s with
  | Group _ n cards => n_pass n + n_warn n + n_fail n + n_info n = Z.of_nat (List.length cards) /\ cards <> []
  | _ => True
  end.

Lemma included_counts opts checks :
  let n := checkCounts (filterChecks checks opts) in
  n_pass n + n_warn n + n_fail n + n_info n = Z.of_nat (List.length (filterChecks checks opts)).
Proof.
  cbv zeta. unfold filterChecks, checkCounts. cbn [n_pass n_warn n_fail n_info].
  induction checks as [|c l IH]; [done|]. cbn [List.filter]. destruct (included opts c) eqn:E; [|done]. cbn [List.filter List.length].
  unfold included in E. cbv zeta in E.
  destruct (String.eqb_spec (c_Status c) "pass") as [Hs|]; [rewrite ?Hs; cbn [String.eqb Ascii.eqb Bool.eqb List.length]; lia|].
  destruct (String.eqb_spec (c_Status c) "warn") as [Hs|]; [rewrite ?Hs; cbn [String.eqb Ascii.eqb Bool.eqb List.length]; lia|].
  destruct (String.eqb_spec (c_Status c) "fail") as [Hs|]; [rewrite ?Hs; cbn [String.eqb Ascii.eqb Bool.eqb List.length]; lia|].
  destruct (String.eqb_spec (c_Status c) "info") as [Hs|]; [rewrite ?Hs; cbn [String.eqb Ascii.eqb Bool.eqb List.length]; lia|done].
Qed.

Section Document.
Context (SplitLines : Z -> Z -> string -> list string) (Sprintf_delta : float64 -> string).

Let groups_drawn := draw_groups SplitLines Sprintf_delta.

Lemma draw_groups_cards opts groups :
  List.concat (section_cards <$> groups_drawn opts groups)
  = drawCheckCard SplitLines Sprintf_delta (po_Details opts) <$> filterChecks (List.concat (g_Checks <$> groups)) opts
  /\ Forall counted (groups_drawn opts groups).
Proof.
  unfold groups_drawn, draw_groups, filterChecks. induction groups as [|g groups [IH1 IH2]]; [by split|].
  cbn [omap list_omap fmap list_fmap List.concat]. rewrite List.filter_app, fmap_app.
  pose proof (included_counts opts (g_Checks g)) as Hn. unfold filterChecks in Hn.
  destruct (List.filter (included opts) (g_Checks g)) as [|c l]; [done|].
  cbn [omap list_omap fmap list_fmap List.concat section_cards]. split; [by f_equal|]. constructor; [|done]. cbn [counted].
  split; [|done]. rewrite Hn. cbn [List.length]. by rewrite length_fmap.
Qed.

(** The PDF contains what was asked for: whatever the statuses chosen, every finding of the report with a chosen
    status has exactly one card and no other finding has one, the counts in the heading of a group add up to its cards, and on
    every card the height computed beforehand is enough for all its text. *)
Theorem pdf_shows_selected opts checks lang :
  Forall (fun c => one_of (group_category c) group_order = true) checks ->
  exists shown, shown ≡ₚ List.filter (included opts) checks
    /\ List.concat (section_cards <$> groups_drawn opts (groupReportChecks checks lang))
       = drawCheckCard SplitLines Sprintf_delta (po_Details opts) <$> shown
    /\ Forall counted (groups_drawn opts (groupReportChecks checks lang))
    /\ Forall (fun c => stacked 0 (cd_Height c) (cd_Lines c)) (drawCheckCard SplitLines Sprintf_delta (po_Details opts) <$> shown).
Proof.
  intros Hc. exists (filterChecks (List.concat (g_Checks <$> groupReportChecks checks lang)) opts).
  destruct (draw_groups_cards opts (groupReportChecks checks lang)) as [H1 H2]. split_and!; [|done|done|].
  - rewrite groups_checks. unfold filterChecks. rewrite Forall_forall in Hc.
    pose proof (groups_partition group_category group_order checks group_order_NoDup) as Hp.
    rewrite (lfilter_all _ checks Hc) in Hp. clear -Hp. induction Hp as [|x l l' _ IH|x y l|l l' l'' _ IH1 _ IH2]; cbn [List.filter].
    + done.
    + case_if; [by constructor|done].
    + repeat case_if; try done. constructor.
    + by etrans.
  - apply Forall_fmap, Forall_forall. intros c _. apply card_complete.
Qed.

End Document.

Definition sample_pdf_options : pdf_options := mkPdfOptions false true true false true true true.

Lemma pdf_shows_selected_witness :
  let checks := [enrich_verdict (fail "rbl" (f_of_Z (-1))); enrich_verdict (pass "arc" fzero)] in
  Forall (fun c => one_of (group_category c) group_order = true) checks
  /\ exists shown, shown ≡ₚ List.filter (included sample_pdf_options) checks
    /\ Forall (fun c => stacked 0 (cd_Height c) (cd_Lines c)) (drawCheckCard (fun _ _ s => [s]) (fun _ => "-1.0") true <$> shown).
Proof.
  cbv zeta. assert (H : Forall (fun c => one_of (group_category c) group_order = true)
    [enrich_verdict (fail "rbl" (f_of_Z (-1))); enrich_verdict (pass "arc" fzero)]) by (repeat constructor).
  split; [exact H|]. destruct (pdf_shows_selected (fun _ _ s => [s]) (fun _ => "-1.0") sample_pdf_options _ "de" H) as (shown & H1 & _ & _ & H4).
  exists shown. split; [exact H1|exact H4].
Defined.

(** A check that does not apply to the mail is on the page and in none of the selections of the PDF. *)
Example not_applicable_missing c : c_Status c = "na" -> included (mkPdfOptions true true true true true true true) c = false.
Proof. intros H. unfold included. by rewrite H. Qed.

(** A Latin-1 letter without a replacement stays in UTF-8: two bytes, where the fonts read one byte per character. *)
Example latin1_stays_utf8 : latin1 "é" = "é" /\ String.length (latin1 "é") = 2%nat /\ latin1 "Prüfung – „ok“" = "Pruefung - ok" +:+ dq.
Proof. vm_compute. done. Qed.
