(* ===== verification/Startup.v ===== *)
(** * Start of the service (cmd/sender-report/main.go, storage.go, internal/tlscert, internal/db)

    What happens before the first connection: the settings file is migrated, the
    configuration loaded, the storage probed, the database opened, the web server
    built and the certificate for STARTTLS loaded or generated. The file system is
    the set of files (for the probe) or their contents (for the certificate); which
    operations it refuses, the X.509 and PEM functions and the SQL engine are
    parameters. The result of the start is a [service]: what the two servers are
    built from. *)

From S2P Require Import Prelude F64 GoStrings GoTime GoNet DnsFallback RateLimit Config EnvMigrate WebRequest Analyze WebAnalysis.
From S2P Require Import Lang Ingest Routes Telemetry.

Local Open Scope string_scope.
Local Open Scope list_scope.
Local Open Scope Z_scope.

(** ** path/filepath on Unix *)

(** One segment of [filepath.Clean] on a path that is not rooted. *)
Definition clean_rel_step (stack : list string) (seg : string) : list string :=
  if isEmpty seg || String.eqb seg "." then stack
  else if String.eqb seg ".." then
    match stack with
    | [] => [".."]
    | top :: rest => if String.eqb top ".." then ".." :: stack else rest
    end
  else seg :: stack.

Definition Clean (p : string) : string :=
  if HasPrefix p "/" then path_Clean p
  else
    let r := Join (rev (fold_left clean_rel_step (Split p "/") [])) "/" in
    if isEmpty r then "." else r.

(** The part up to the last slash, cleaned. *)
Definition Dir (p : string) : string :=
  match LastIndex p "/" with
  | Some i => Clean (stake (S i) p)
  | None => Clean ""
  end.

(** [filepath.Join] of two elements. *)
Definition Join2 (a b : string) : string :=
  if isEmpty a then (if isEmpty b then "" else Clean b)
  else if isEmpty b then Clean a else Clean (a +:+ "/" +:+ b).

(** ** checkStorage *)

(** What the file system says: the error of [MkdirAll], the name [CreateTemp]
    chooses in a directory (or its error), the errors of [Remove] and of opening an
    existing file for writing. *)
Record disk := mkDisk {
  dk_mkdir : string -> option string;
  dk_temp : string -> gset string -> outcome string string;
  dk_remove : string -> option string;
  dk_open : string -> option string;
  dk_uid : Z;
  dk_gid : Z
}.

Definition sqliteFileSuffixes : list string := [""; "-wal"; "-shm"].

Definition storageError (k : disk) (path err : string) : string :=
  let uid := Itoa (dk_uid k) in
  let gid := Itoa (dk_gid k) in
  if dk_uid k <? 0 then
    path +:+ " is not writable for the server process: " +:+ err
      +:+ ". Give the user that runs sender-report write access to it"
  else
    path +:+ " is not writable for the server process (uid " +:+ uid +:+ ", gid " +:+ gid +:+ "): " +:+ err
      +:+ ". Give this user write access; with the default docker-compose.yml run on the Docker host: sudo chown -R "
      +:+ uid +:+ ":" +:+ gid +:+ " ./data".

Definition storage_dirs (dataDir dbPath : string) : list string :=
  let dbDir := Dir dbPath in
  dataDir :: (if String.eqb (Clean dbDir) (Clean dataDir) then [] else [dbDir]).

(** The body of the first loop: a directory can be made and written. *)
Definition probe_dir (k : disk) (dir : string) (files : gset string) : option string * gset string :=
  match dk_mkdir k dir with
  | Some err => (Some (storageError k dir err), files)
  | None =>
      match dk_temp k dir files with
      | Err err => (Some (storageError k dir err), files)
      | Ok name =>
          match dk_remove k name with
          | Some err => (Some (storageError k dir err), {[ name ]} ∪ files)
          | None => (None, ({[ name ]} ∪ files) ∖ {[ name ]})
          end
      end
  end.

Fixpoint probe_dirs (k : disk) (dirs : list string) (files : gset string) : option string * gset string :=
  match dirs with
  | [] => (None, files)
  | dir :: rest =>
      match probe_dir k dir files with
      | (None, files') => probe_dirs k rest files'
      | failed => failed
      end
  end.

(** The second loop: the files of the database that exist. *)
Fixpoint probe_files (k : disk) (paths : list string) (files : gset string) : option string :=
  match paths with
  | [] => None
  | path :: rest =>
      if negb (bool_decide (path ∈ files)) then probe_files k rest files
      else match dk_open k path with
           | Some err => Some (storageError k path err)
           | None => probe_files k rest files
           end
  end.

(** The error, if any, and the files afterwards. *)
Definition checkStorage (k : disk) (dataDir dbPath : string) (files : gset string) : option string * gset string :=
  match probe_dirs k (storage_dirs dataDir dbPath) files with
  | (None, files') => (probe_files k ((fun suffix => dbPath +:+ suffix) <$> sqliteFileSuffixes) files', files')
  | failed => failed
  end.

(** ** tlscert *)

Definition certFile : string := "smtp.crt".
Definition keyFile : string := "smtp.key".

Record cert_template := mkTemplate {
  ct_SerialNumber : Z;
  ct_CommonName : string;
  ct_Organization : list string;
  ct_DNSNames : list string;
  ct_NotBefore : Z;
  ct_NotAfter : Z
}.

(** crypto/x509 and encoding/pem. *)
Record tls_lib := mkTlsLib {
  tl_key : Type;
  tl_cert : Type;
  CreateCertificate : cert_template -> tl_key -> outcome string string;
  MarshalECPrivateKey : tl_key -> outcome string string;
  EncodePEM : string -> string -> string;
  X509KeyPair : string -> string -> outcome string tl_cert
}.

(** What one start draws and how its two writes go. *)
Record gen_run (T : tls_lib) := mkGen {
  gr_key : outcome string (tl_key T);
  gr_serial : outcome string Z;
  gr_now : Z;
  gr_write_cert : write_outcome;
  gr_write_key : write_outcome
}.
Arguments mkGen {T}. Arguments gr_key {T}. Arguments gr_serial {T}. Arguments gr_now {T}.
Arguments gr_write_cert {T}. Arguments gr_write_key {T}.

(** [os.WriteFile]: the file is truncated before it is written. *)
Definition WriteFile (w : write_outcome) (path text : string) (fs : gmap string string) : outcome string unit * gmap string string :=
  match w with
  | WriteRefused => (Err "open", fs)
  | WriteCut n => if (String.length text <=? n)%nat then (Ok (), <[path := text]> fs)
                  else (Err "write", <[path := stake n text]> fs)
  | WriteDone => (Ok (), <[path := text]> fs)
  end.

Definition template (domain : string) (serial now : Z) : cert_template :=
  mkTemplate serial domain ["Sender-Report"] [domain] (now - minute) (now + 10 * 365 * 24 * hour).

Section Certificate.
Context (T : tls_lib) (readable : string -> bool).

Definition generate (g : gen_run T) (domain certPath keyPath : string) (fs : gmap string string)
  : outcome string (tl_cert T) * gmap string string :=
  match gr_key g with
  | Err e => (Err e, fs)
  | Ok priv =>
      match gr_serial g with
      | Err e => (Err e, fs)
      | Ok serial =>
          match CreateCertificate T (template domain serial (gr_now g)) priv with
          | Err e => (Err e, fs)
          | Ok certDER =>
              let certPEM := EncodePEM T "CERTIFICATE" certDER in
              match WriteFile (gr_write_cert g) certPath certPEM fs with
              | (Err e, fs1) => (Err e, fs1)
              | (Ok _, fs1) =>
                  match MarshalECPrivateKey T priv with
                  | Err e => (Err e, fs1)
                  | Ok privDER =>
                      let keyPEM := EncodePEM T "EC PRIVATE KEY" privDER in
                      match WriteFile (gr_write_key g) keyPath keyPEM fs1 with
                      | (Err e, fs2) => (Err e, fs2)
                      | (Ok _, fs2) => (X509KeyPair T certPEM keyPEM, fs2)
                      end
                  end
              end
          end
      end
  end.

(** [tls.LoadX509KeyPair]. *)
Definition LoadX509KeyPair (certPath keyPath : string) (fs : gmap string string) : outcome string (tl_cert T) :=
  match fs !! certPath, fs !! keyPath with
  | Some c, Some k => if readable certPath && readable keyPath then X509KeyPair T c k else Err "permission denied"
  | _, _ => Err "no such file"
  end.

(** The certificate of the TLS configuration, or the error; the files afterwards. *)
Definition EnsureAndLoad (g : gen_run T) (dataDir domain : string) (fs : gmap string string)
  : outcome string (tl_cert T) * gmap string string :=
  let certPath := Join2 dataDir certFile in
  let keyPath := Join2 dataDir keyFile in
  if bool_decide (is_Some (fs !! certPath)) && bool_decide (is_Some (fs !! keyPath)) then
    match LoadX509KeyPair certPath keyPath fs with
    | Err e => (Err ("tlscert: vorhandenes Zertifikat ungültig: " +:+ e), fs)
    | Ok cert => (Ok cert, fs)
    end
  else match generate g domain certPath keyPath fs with
       | (Err e, fs') => (Err ("tlscert: Generierung fehlgeschlagen: " +:+ e), fs')
       | (Ok cert, fs') => (Ok cert, fs')
       end.

End Certificate.

(** ** db.Open *)

Definition pragmas : list string :=
  ["PRAGMA journal_mode = WAL"; "PRAGMA busy_timeout = 5000"; "PRAGMA foreign_keys = ON"].

(** [exec] is the error of a statement, [migrate_db] that of the migration; the
    statements that were executed are the second component. *)
Fixpoint exec_all (exec : string -> option string) (stmts done : list string) : option string * list string :=
  match stmts with
  | [] => (None, done)
  | p :: rest =>
      match exec p with
      | Some err => (Some ("db pragma " +:+ dq +:+ p +:+ dq +:+ ": " +:+ err), done)
      | None => exec_all exec rest (done ++ [p])
      end
  end.

Definition Open (exec : string -> option string) (migrate_db : option string) : outcome string (list string) :=
  match exec_all exec pragmas [] with
  | (Some err, _) => Err err
  | (None, done) => match migrate_db with Some err => Err err | None => Ok done end
  end.

(** ** main *)

Inductive boot_error :=
| BootConfig (e : config_error)
| BootStorage (msg : string)
| BootDatabase (msg : string)
| BootTemplates (msg : string)
| BootProxies (e : proxy_error).

(** Everything one start finds outside the program. *)
Record machine := mkMachine {
  mc_Getenv : string -> string;
  mc_ParseFloat : string -> option float64;
  mc_today : Z * Z * Z;
  mc_write_env : write_outcome;
  mc_disk : disk;
  mc_files : gset string;
  mc_exec : string -> option string;
  mc_migrate : option string;
  mc_templates : option string;                          (** the error of ParseGlob *)
  mc_resolver : string -> string -> dns_answer string;
  mc_tls : tls_lib;
  mc_gen : gen_run mc_tls;
  mc_readable : string -> bool;
  mc_certs : gmap string string;
  mc_now : Z
}.

(** What the two servers run with. *)
Record service := mkService {
  sv_cfg : Config;
  sv_pragmas : list string;
  sv_alerter : string;
  sv_metrics : Counters;
  sv_fallback : fallback;
  sv_engine : Options;
  sv_web : web_server;
  sv_smtpLimiter : Limiter;
  sv_smtpBurstLimiter : Limiter;
  sv_smtpDomain : string;
  sv_smtpTLS : bool
}.

(** The settings file afterwards; the outcome of the migration only goes to the log. *)
Definition boot_migrate (m : machine) (f : env_file) : env_file :=
  let envFile := TrimSpace (mc_Getenv m "ENV_FILE") in
  if isEmpty envFile then f else snd (MigrateFile envFile (mc_today m) (mc_write_env m) f).

(** [web.New], the part that can fail. *)
Definition web_New (m : machine) (cfg : Config) : outcome boot_error web_server :=
  match mc_templates m with
  | Some err => Err (BootTemplates err)
  | None =>
      match parseTrustedProxyCIDRs (TrustedProxyCIDRs cfg) with
      | Err e => Err (BootProxies e)
      | Ok proxies => Ok (mkWeb cfg proxies)
      end
  end.

Definition boot (m : machine) : outcome boot_error service :=
  match Load (mc_Getenv m) (mc_ParseFloat m) with
  | Err e => Err (BootConfig e)
  | Ok cfg =>
      match fst (checkStorage (mc_disk m) (DataDir cfg) (DBPath cfg) (mc_files m)) with
      | Some msg => Err (BootStorage msg)
      | None =>
          match Open (mc_exec m) (mc_migrate m) with
          | Err msg => Err (BootDatabase msg)
          | Ok done =>
              let! web := web_New m cfg in
              let domain := smtpGreetingDomain (SMTPDomain cfg) in
              let smtpTLS := fst (EnsureAndLoad (mc_tls m) (mc_readable m) (mc_gen m) (DataDir cfg) domain (mc_certs m)) in
              Ok {| sv_cfg := cfg;
                    sv_pragmas := done;
                    sv_alerter := NewAlerter (AlertWebhookURL cfg);
                    sv_metrics := Telemetry.New (mc_now m);
                    sv_fallback := Configure (mc_resolver m) (DNSFallbackResolvers cfg) (DNSFallbackTimeout cfg) initial_fallback;
                    sv_engine := receive_options cfg;
                    sv_web := web;
                    sv_smtpLimiter := RateLimit.New hour (SMTPRateLimitPerHour cfg);
                    sv_smtpBurstLimiter := RateLimit.New minute (SMTPBurstPerMin cfg);
                    sv_smtpDomain := domain;
                    sv_smtpTLS := is_ok smtpTLS |}
          end
      end
  end.

(** ** Paths end in their last element *)

(** A name that [Clean] keeps as it is. *)
Definition plain_name (b : string) : bool :=
  lacks "/" b && negb (isEmpty b) && negb (String.eqb b ".") && negb (String.eqb b "..").

Lemma Join_snoc l b : exists t, Join (l ++ [b]) "/" = t +:+ b.
Proof.
  induction l as [|x l [t IH]]; [by exists ""|].
  destruct l as [|y l]; [by exists (x +:+ "/"); simpl; rewrite sapp_assoc|].
  exists (x +:+ "/" +:+ t). change (x +:+ "/" +:+ Join ((y :: l) ++ [b]) "/" = (x +:+ "/" +:+ t) +:+ b).
  by rewrite IH, !sapp_assoc.
Qed.

Lemma Clean_ends d b : plain_name b = true -> exists t, Clean (d +:+ "/" +:+ b) = t +:+ b.
Proof.
  unfold plain_name. intros H. bool_to_prop.
  assert (Hs : Split (d +:+ "/" +:+ b) "/" = Split d "/" ++ [b]).
  { change ("/" +:+ b) with (String "/" b). by rewrite Split_app, (Split_lacks b). }
  unfold Clean, path_Clean. rewrite Hs, !fold_left_app. case_if; cbn [fold_left].
  - unfold clean_step at 1. destruct (isEmpty b), (String.eqb_spec b "."), (String.eqb_spec b ".."); try done. cbn [orb rev].
    destruct (Join_snoc (rev (fold_left clean_step (Split d "/") [])) b) as [t ->]. exists ("/" +:+ t). by rewrite sapp_assoc.
  - unfold clean_rel_step at 1 3. destruct (isEmpty b) eqn:Eb, (String.eqb_spec b "."), (String.eqb_spec b ".."); try done. cbn [orb rev].
    destruct (Join_snoc (rev (fold_left clean_rel_step (Split d "/") [])) b) as [t ->].
    case_if; [|by exists t]. apply isEmpty_true in Hif0. apply isEmpty_false in Eb. by destruct t, b.
Qed.

Lemma Join2_ends d b : plain_name b = true -> exists t, Join2 d b = t +:+ b.
Proof.
  intros H. unfold Join2. assert (Hb : isEmpty b = false) by (unfold plain_name in H; by bool_to_prop).
  rewrite Hb. case_if; [|by apply Clean_ends].
  destruct (Clean_ends "." b H) as [t Ht]. unfold plain_name in H. bool_to_prop.
  exists "". unfold Clean. rewrite (Split_lacks b) by done. cbn [fold_left]. unfold clean_rel_step.
  rewrite Hb. destruct (String.eqb_spec b "."), (String.eqb_spec b ".."); try done. cbn [orb rev app Join].
  rewrite Hb. case_if; [|done]. apply HasPrefix_spec in Hif0 as [u ->]. done.
Qed.

Lemma suffix_inj t u a b : String.length a = String.length b -> t +:+ a = u +:+ b -> a = b.
Proof.
  intros Hl. revert u. induction t as [|x t IH]; intros [|y u] E; simpl in E; [done| | |].
  - apply (f_equal String.length) in E. cbn [String.length] in E. rewrite slength_app in E. lia.
  - apply (f_equal String.length) in E. cbn [String.length] in E. rewrite slength_app in E. lia.
  - injection E as _ E. by apply IH in E.
Qed.

Lemma cert_paths_differ dataDir : Join2 dataDir certFile <> Join2 dataDir keyFile.
Proof.
  destruct (Join2_ends dataDir certFile eq_refl) as [t ->], (Join2_ends dataDir keyFile eq_refl) as [u ->].
  intros E%suffix_inj; [|done]. discriminate E.
Qed.

(** ** The certificate *)

Section CertificateLemmas.
Context (T : tls_lib) (readable : string -> bool) (dataDir domain : string).
Let certPath := Join2 dataDir certFile.
Let keyPath := Join2 dataDir keyFile.

Lemma WriteFile_ok w path text fs fs' : WriteFile w path text fs = (Ok (), fs') -> fs' = <[path := text]> fs.
Proof. destruct w; cbn; repeat case_if; by intros [=]. Qed.

(** A generation that succeeded left the pair it returned in the two files. *)
Lemma generate_ok g fs cert fs' :
  generate T g domain certPath keyPath fs = (Ok cert, fs') ->
  exists c k, fs' !! certPath = Some c /\ fs' !! keyPath = Some k /\ X509KeyPair T c k = Ok cert.
Proof.
  unfold generate. destruct (gr_key g) as [priv|]; [|done]. destruct (gr_serial g); [|done].
  destruct (CreateCertificate _ _ _) as [der|]; [|done].
  destruct (WriteFile _ certPath _ _) as [[[]|] fs1] eqn:E1; [|done]. destruct (MarshalECPrivateKey _ _) as [kd|]; [|done].
  destruct (WriteFile _ keyPath _ _) as [[[]|] fs2] eqn:E2; [|done]. intros E. injection E as Ep <-.
  apply WriteFile_ok in E1 as ->. apply WriteFile_ok in E2 as ->. pose proof (cert_paths_differ dataDir) as Hne.
  do 2 eexists. split_and!; [|apply lookup_insert_eq|exact Ep].
  rewrite lookup_insert_ne by done. apply lookup_insert_eq.
Qed.

(** With both files in place a start changes nothing and uses what they hold. *)
Lemma EnsureAndLoad_present g fs c k :
  fs !! certPath = Some c -> fs !! keyPath = Some k -> readable certPath = true -> readable keyPath = true ->
  EnsureAndLoad T readable g dataDir domain fs =
  (match X509KeyPair T c k with
   | Ok cert => Ok cert
   | Err e => Err ("tlscert: vorhandenes Zertifikat ungültig: " +:+ e)
   end, fs).
Proof.
  intros Hc Hk Rc Rk. unfold EnsureAndLoad, LoadX509KeyPair. fold certPath keyPath.
  rewrite Hc, Hk, Rc, Rk, !bool_decide_true by done. cbn [andb]. by destruct (X509KeyPair T c k).
Qed.

Lemma EnsureAndLoad_ok g fs cert fs' :
  EnsureAndLoad T readable g dataDir domain fs = (Ok cert, fs') ->
  exists c k, fs' !! certPath = Some c /\ fs' !! keyPath = Some k /\ X509KeyPair T c k = Ok cert.
Proof.
  unfold EnsureAndLoad. fold certPath keyPath. case_if.
  - apply andb_true_iff in Hif as [[c Hc]%bool_decide_eq_true [k Hk]%bool_decide_eq_true].
    unfold LoadX509KeyPair. rewrite Hc, Hk. case_if; [|done]. destruct (X509KeyPair T c k) eqn:E; [|done].
    intros E'. injection E' as <- <-. eauto.
  - destruct (generate _ _ _ _ _ _) as [[c|] fs1] eqn:E; [|done]. intros E'. injection E' as <- <-. by eapply generate_ok.
Qed.

End CertificateLemmas.

(** Once a start had a certificate, every later start uses the same one and leaves
    the files alone, whatever it would have drawn itself. *)
Theorem certificate_persists T readable g g' dataDir domain domain' fs cert fs' :
  EnsureAndLoad T readable g dataDir domain fs = (Ok cert, fs') ->
  readable (Join2 dataDir certFile) = true -> readable (Join2 dataDir keyFile) = true ->
  EnsureAndLoad T readable g' dataDir domain' fs' = (Ok cert, fs').
Proof.
  intros (c & k & Hc & Hk & Hp)%EnsureAndLoad_ok Rc Rk.
  by rewrite (EnsureAndLoad_present T readable dataDir domain' g' fs' c k), Hp.
Qed.

(** A key is its number, and a pair fits when both files hold the same number. *)
Definition toy_tls : tls_lib :=
  {| tl_key := string; tl_cert := string;
     CreateCertificate := fun t k => Ok (ct_CommonName t +:+ ":" +:+ k);
     MarshalECPrivateKey := fun k => Ok k;
     EncodePEM := fun kind body => kind +:+ "=" +:+ body;
     X509KeyPair := fun c k => if String.eqb (sdrop (String.length c - 4) c) (sdrop (String.length k - 4) k) then Ok c else Err "mismatch" |}.

Definition toy_gen (key : string) (w : write_outcome) : gen_run toy_tls := @mkGen toy_tls (Ok key) (Ok 7) 0 WriteDone w.

Definition first_start : outcome string string * gmap string string :=
  EnsureAndLoad toy_tls (fun _ => true) (toy_gen "k001" WriteDone) "/data" "mx.example" ∅.

Lemma certificate_persists_witness :
  exists cert, fst first_start = Ok cert
    /\ fst (EnsureAndLoad toy_tls (fun _ => true) (toy_gen "k002" WriteDone) "/data" "other.example" (snd first_start)) = Ok cert.
Proof.
  destruct first_start as [o fs] eqn:E. destruct o as [cert|]; [|vm_compute in E; discriminate E].
  exists cert. split; [reflexivity|].
  pose proof (certificate_persists toy_tls (fun _ => true) (toy_gen "k001" WriteDone) (toy_gen "k002" WriteDone)
    "/data" "mx.example" "other.example" ∅ cert fs E eq_refl eq_refl) as H.
  cbn [fst snd]. exact (f_equal fst H).
Defined.

(** A key file that was cut off while it was written is never replaced: the second
    start fails as well, and every one after it, since it finds both files. *)
Example cut_key_is_never_replaced :
  let first := EnsureAndLoad toy_tls (fun _ => true) (toy_gen "k001" (WriteCut 9)) "/data" "mx.example" ∅ in
  let second := EnsureAndLoad toy_tls (fun _ => true) (toy_gen "k002" WriteDone) "/data" "mx.example" (snd first) in
  is_ok (fst first) = false /\ is_ok (fst second) = false /\ snd second = snd first.
Proof. vm_compute. done. Qed.

(** ** The storage probe *)

(** [CreateTemp] opens a file that did not exist. *)
Definition fresh_temp (k : disk) : Prop := forall dir files name, dk_temp k dir files = Ok name -> name ∉ files.

Definition dir_usable (k : disk) (files : gset string) (dir : string) : Prop :=
  dk_mkdir k dir = None /\ exists name, dk_temp k dir files = Ok name /\ dk_remove k name = None.

Section StorageLemmas.
Context (k : disk) (Hfresh : fresh_temp k).

Lemma probe_dir_spec dir files r files' :
  probe_dir k dir files = (r, files') ->
  files ⊆ files' /\ (r = None -> files' = files) /\ (r = None <-> dir_usable k files dir).
Proof using Hfresh.
  unfold probe_dir, dir_usable. destruct (dk_mkdir k dir); [intros [= <- <-]; naive_solver|].
  destruct (dk_temp k dir files) as [name|] eqn:Et; [|intros [= <- <-]; naive_solver].
  apply Hfresh in Et. destruct (dk_remove k name) eqn:Er; intros [= <- <-]; [split_and!; [set_solver|done|]|].
  { split; [done|]. intros (_ & n & [= <-] & ?). congruence. }
  replace (({[name]} ∪ files) ∖ {[name]}) with files by set_solver. naive_solver.
Qed.

Lemma probe_dirs_spec dirs files r files' :
  probe_dirs k dirs files = (r, files') ->
  files ⊆ files' /\ (r = None -> files' = files) /\ (r = None <-> Forall (dir_usable k files) dirs).
Proof using Hfresh.
  revert files. induction dirs as [|dir dirs IH]; intros files; simpl; [intros [= <- <-]; naive_solver|].
  destruct (probe_dir k dir files) as [r1 files1] eqn:Ep. apply probe_dir_spec in Ep as (Hs & Hn & Hu).
  destruct r1 as [e|].
  - intros [= <- <-]. split_and!; [done|done|]. split; [done|]. intros H. inversion H. tauto.
  - rewrite (Hn eq_refl). intros (Hs' & Hn' & Hu')%IH. split_and!; [done|done|]. rewrite Hu', Forall_cons. tauto.
Qed.

Lemma probe_files_spec paths files :
  probe_files k paths files = None <-> Forall (fun p => p ∈ files -> dk_open k p = None) paths.
Proof.
  induction paths as [|p paths IH]; simpl; [done|]. rewrite Forall_cons, <- IH.
  destruct (decide (p ∈ files)); [rewrite bool_decide_true by done|rewrite bool_decide_false by done]; cbn [negb]; [|tauto].
  destruct (dk_open k p); naive_solver.
Qed.

Lemma storage_dirs_cover dataDir dbPath dir :
  dir ∈ [dataDir; Dir dbPath] -> exists dir', dir' ∈ storage_dirs dataDir dbPath /\ Clean dir' = Clean dir.
Proof.
  unfold storage_dirs. intros Hin. case_if; bool_to_prop.
  - exists dataDir. split; [left|]. rewrite elem_of_cons, list_elem_of_singleton in Hin. destruct Hin as [->| ->]; done.
  - exists dir. by split.
Qed.

Lemma checkStorage_spec dataDir dbPath files r files' :
  checkStorage k dataDir dbPath files = (r, files') ->
  files ⊆ files' /\ (r = None -> files' = files)
  /\ (r = None <-> Forall (dir_usable k files) (storage_dirs dataDir dbPath)
       /\ (forall suffix, suffix ∈ sqliteFileSuffixes -> dbPath +:+ suffix ∈ files -> dk_open k (dbPath +:+ suffix) = None)).
Proof using Hfresh.
  unfold checkStorage. destruct (probe_dirs _ _ files) as [r1 files1] eqn:Ep. apply probe_dirs_spec in Ep as (Hs & Hn & Hu).
  destruct r1 as [e|]; intros E; [injection E as <- <-; split_and!; [done..|]; split; [done|]; intros [H _]; tauto|].
  rewrite (Hn eq_refl) in E. assert (Hr : r = probe_files k ((fun suffix => dbPath +:+ suffix) <$> sqliteFileSuffixes) files) by congruence.
  assert (files' = files) as -> by congruence. rewrite Hr. split_and!; [done|done|].
  rewrite probe_files_spec, Forall_fmap, Forall_forall. tauto.
Qed.

End StorageLemmas.

(** The probe says yes exactly when both directories can be made and written and
    every existing file of the database can be opened; then it leaves no trace, and in no
    case does it remove a file. *)
Theorem storage_probe_exact k dataDir dbPath files r files' :
  fresh_temp k -> checkStorage k dataDir dbPath files = (r, files') ->
  files ⊆ files' /\ (r = None -> files' = files)
  /\ (r = None <-> Forall (dir_usable k files) (storage_dirs dataDir dbPath)
       /\ (forall suffix, suffix ∈ sqliteFileSuffixes -> dbPath +:+ suffix ∈ files -> dk_open k (dbPath +:+ suffix) = None)).
Proof. intros Hf. by apply checkStorage_spec. Qed.

(** A disk on which everything but the write-ahead log may be written. *)
Definition toy_disk : disk :=
  mkDisk (fun _ => None)
    (fun dir files => let name := dir +:+ "/.write-check-1" in if bool_decide (name ∈ files) then Err "exists" else Ok name)
    (fun _ => None) (fun p => if HasSuffix p "-wal" then Some "permission denied" else None) 1000 1000.

Lemma storage_probe_exact_witness :
  fst (checkStorage toy_disk "/data" "/data/db.sqlite" {["/data/db.sqlite"]}) = None
  /\ fst (checkStorage toy_disk "/data" "/data/db.sqlite" {["/data/db.sqlite-wal"]}) <> None.
Proof.
  assert (Hf : fresh_temp toy_disk).
  { intros dir files name. cbn. destruct (decide (dir +:+ "/.write-check-1" ∈ files));
      [rewrite bool_decide_true by assumption|rewrite bool_decide_false by assumption]; [discriminate|].
    intros E. injection E as <-. assumption. }
  destruct (checkStorage toy_disk "/data" "/data/db.sqlite" {["/data/db.sqlite-wal"]}) as [r files'] eqn:E.
  destruct (storage_probe_exact toy_disk "/data" "/data/db.sqlite" {["/data/db.sqlite-wal"]} r files' Hf E) as (_ & _ & Hi).
  split; [vm_compute; reflexivity|]. cbn [fst]. intros Hr. apply Hi in Hr as [_ Hr].
  specialize (Hr "-wal"). assert (dk_open toy_disk ("/data/db.sqlite" +:+ "-wal") = None) as Hn.
  { apply Hr; [right; left|apply elem_of_singleton; reflexivity]. }
  vm_compute in Hn. discriminate Hn.
Defined.

(** ** The start as a whole *)

Lemma exec_all_ok exec stmts done r : exec_all exec stmts done = (None, r) -> r = done ++ stmts.
Proof.
  revert done. induction stmts as [|p stmts IH]; intros done; simpl; [intros [= <-]; by rewrite app_nil_r|].
  destruct (exec p); [done|]. intros ->%IH. by rewrite <- app_assoc.
Qed.

Lemma Open_ok exec mig done : Open exec mig = Ok done -> done = pragmas.
Proof.
  unfold Open. destruct (exec_all _ _ _) as [[e|] r] eqn:E; [done|]. apply exec_all_ok in E as ->.
  destruct mig; [done|]. by intros [= <-].
Qed.

(** Everything a running service may rely on. *)
Record started (m : machine) (sv : service) : Prop := {
  st_sane : sane (sv_cfg sv);
  st_storage : fst (checkStorage (mc_disk m) (DataDir (sv_cfg sv)) (DBPath (sv_cfg sv)) (mc_files m)) = None;
  st_foreign_keys : "PRAGMA foreign_keys = ON" ∈ sv_pragmas sv;
  st_web : ws_cfg (sv_web sv) = sv_cfg sv;
  st_resolvers : Resolvers (sv_fallback sv) = DNSFallbackResolvers (sv_cfg sv);
  st_rate : sv_smtpLimiter sv = RateLimit.New hour (SMTPRateLimitPerHour (sv_cfg sv));
  st_burst : sv_smtpBurstLimiter sv = RateLimit.New minute (SMTPBurstPerMin (sv_cfg sv));
  st_tls : sv_smtpTLS sv = true <->
    exists cert fs, EnsureAndLoad (mc_tls m) (mc_readable m) (mc_gen m) (DataDir (sv_cfg sv)) (sv_smtpDomain sv) (mc_certs m) = (Ok cert, fs)
}.

Lemma boot_started m sv : boot m = Ok sv -> started m sv.
Proof.
  unfold boot. destruct (Load _ _) as [cfg|] eqn:Hl; [|done]. apply Load_sane in Hl.
  destruct (fst (checkStorage _ _ _ _)) eqn:Hs; [done|]. destruct (Open _ _) as [done'|] eqn:Ho; [|done]. apply Open_ok in Ho as ->.
  destruct (web_New m cfg) as [web|] eqn:Hw; [|done]. cbn [obind]. intros E. injection E as <-.
  assert (ws_cfg web = cfg).
  { revert Hw. unfold web_New. destruct (mc_templates m); [done|]. destruct (parseTrustedProxyCIDRs _); [|done]. by intros [= <-]. }
  constructor; cbn; try done.
  - right. right. left.
  - unfold Resolvers, Configure. cbn. rewrite <- list_fmap_compose. by apply list_fmap_id.
  - destruct (EnsureAndLoad _ _ _ _ _ _) as [[cert|] fs]; cbn; split; naive_solver.
Qed.
