(* ===== verification/Listener.v ===== *)
(** * The running service (internal/smtp/server.go Start and Wait, cmd/sender-report/main.go)

    The accept loop of the SMTP server with its goroutines, as a step relation; the
    mail handler main gives to the server; and what holds of the connections and
    deliveries of a service that [boot] started. One connection is [handleConn] of
    Smtp.v, one delivery [processInbound] of Ingest.v. *)

From S2P Require Import Prelude F64 GoStrings GoTime GoNet Model Spf AuthHeaders RateLimit Smtp Store SealedBox Ingest Config.
From S2P Require Import WebRequest Lang Guides Telemetry Startup.

Local Open Scope string_scope.
Local Open Scope list_scope.
Local Open Scope Z_scope.

(** ** The accept loop *)

(** Where [Start] is: before Listen, between Listen and the first [wg.Add], at
    Accept, with a connection it has not counted yet, returned. *)
Inductive loop_pc :=
| AtListen
| Listening
| AtAccept
| Accepted (conn : nat)
| Returned.

(** The goroutine that closes the listener: not started, waiting for the context,
    closed the listener, done. *)
Inductive closer_pc := CNone | CWaiting | CClosed | CDone.

Record smtp_state := mkSmtpState {
  ss_done : bool;             (** the context is cancelled *)
  ss_open : bool;             (** the listener accepts *)
  ss_closer : closer_pc;
  ss_loop : loop_pc;
  ss_wg : Z;                  (** the counter of the wait group *)
  ss_handlers : list nat;     (** connections being handled *)
  ss_waited : bool            (** [Wait] has returned *)
}.

Definition smtp_init : smtp_state := mkSmtpState false false CNone AtListen 0 [] false.

Inductive smtp_action : smtp_state -> smtp_state -> Prop :=
| act_listen_fails d o c w h x :
    smtp_action (mkSmtpState d o c AtListen w h x) (mkSmtpState d o c Returned w h x)
| act_listen d o c w h x :
    smtp_action (mkSmtpState d o c AtListen w h x) (mkSmtpState d true c Listening w h x)
| act_spawn_closer d o c w h x :
    smtp_action (mkSmtpState d o c Listening w h x) (mkSmtpState d o CWaiting AtAccept (w + 1) h x)
| act_accept conn d c w h x :
    smtp_action (mkSmtpState d true c AtAccept w h x) (mkSmtpState d true c (Accepted conn) w h x)
| act_accept_error o c w h x :
    (** a failed Accept while the context lives: logged, and tried again *)
    smtp_action (mkSmtpState false o c AtAccept w h x) (mkSmtpState false o c AtAccept w h x)
| act_accept_closed o c w h x :
    smtp_action (mkSmtpState true o c AtAccept w h x) (mkSmtpState true o c Returned w h x)
| act_handle conn d o c w h x :
    smtp_action (mkSmtpState d o c (Accepted conn) w h x) (mkSmtpState d o c AtAccept (w + 1) (conn :: h) x)
| act_finish conn d o c l w h1 h2 x :
    (** [handleConn] ended, or its panic was recovered *)
    smtp_action (mkSmtpState d o c l w (h1 ++ conn :: h2) x) (mkSmtpState d o c l (w - 1) (h1 ++ h2) x)
| act_close o l w h x :
    smtp_action (mkSmtpState true o CWaiting l w h x) (mkSmtpState true false CClosed l w h x)
| act_closer_done d o l w h x :
    smtp_action (mkSmtpState d o CClosed l w h x) (mkSmtpState d o CDone l (w - 1) h x)
| act_cancel d o c l w h x :
    smtp_action (mkSmtpState d o c l w h x) (mkSmtpState true o c l w h x)
| act_wait o c l h :
    (** main waits after it cancelled the context *)
    smtp_action (mkSmtpState true o c l 0 h false) (mkSmtpState true o c l 0 h true).

Definition smtp_reachable : smtp_state -> Prop := rtc smtp_action smtp_init.

(** The wait group counts the goroutines. *)
Definition closer_count (c : closer_pc) : Z := match c with CWaiting | CClosed => 1 | _ => 0 end.

Definition smtp_inv (s : smtp_state) : Prop :=
  ss_wg s = closer_count (ss_closer s) + Z.of_nat (List.length (ss_handlers s))
  /\ (ss_closer s = CNone <-> ss_loop s = AtListen \/ ss_loop s = Listening \/ (ss_loop s = Returned /\ ss_closer s = CNone))
  /\ (ss_closer s = CClosed \/ ss_closer s = CDone -> ss_open s = false /\ ss_done s = true)
  /\ (ss_loop s = Returned -> ss_closer s = CNone \/ ss_done s = true).

Lemma smtp_action_inv s s' : smtp_inv s -> smtp_action s s' -> smtp_inv s'.
Proof.
  intros (Hw & Hc & Ho & Hr) Ha. unfold smtp_inv. destruct Ha; cbn in *;
    rewrite ?length_app in *; cbn in *; rewrite ?length_app in *; split_and!;
    try (destruct c; cbn in *; naive_solver lia); try naive_solver lia.
Qed.

Lemma smtp_reachable_inv s : smtp_reachable s -> smtp_inv s.
Proof.
  intros H. assert (H0 : smtp_inv smtp_init) by (unfold smtp_inv; cbn; naive_solver).
  revert H0. unfold smtp_reachable in H. induction H; [done|]. intros. apply IHrtc. by eapply smtp_action_inv.
Qed.

(** ** Shutdown *)

(** A step that changes something. *)
Definition progress (s s' : smtp_state) : Prop := smtp_action s s' /\ s <> s'.

Definition listener_closed (s : smtp_state) : Prop := ss_closer s = CClosed \/ ss_closer s = CDone.

Definition loop_work (l : loop_pc) : nat :=
  match l with AtListen => 5 | Listening => 4 | Accepted _ => 3 | AtAccept => 1 | Returned => 0 end%nat.

Definition shutdown_work (s : smtp_state) : nat :=
  (loop_work (ss_loop s) + List.length (ss_handlers s)
   + (match ss_closer s with CDone => 0 | _ => 1 end) + (if ss_waited s then 0 else 1))%nat.

Lemma progress_closed s s' :
  smtp_inv s -> listener_closed s -> progress s s' ->
  smtp_inv s' /\ listener_closed s' /\ (shutdown_work s' < shutdown_work s)%nat.
Proof.
  intros Hi Hl [Ha Hne]. split; [by eapply smtp_action_inv|]. destruct Hi as (_ & Hc & Ho & _).
  unfold listener_closed, shutdown_work in *. destruct Ha; cbn in *; rewrite ?length_app; cbn; rewrite ?length_app;
    try (destruct Hl as [->| ->]; cbn in *; naive_solver lia).
  all: destruct (Ho Hl) as [? ?]; simplify_eq; naive_solver lia.
Qed.

Lemma progress_closed_runs n s s' :
  smtp_inv s -> listener_closed s -> nsteps progress n s s' ->
  smtp_inv s' /\ listener_closed s' /\ (n + shutdown_work s' <= shutdown_work s)%nat.
Proof.
  intros Hi Hl H. induction H as [s|n s s1 s2 H1 H IH]; [by split_and!|].
  destruct (progress_closed s s1 Hi Hl H1) as (Hi1 & Hl1 & Hw). destruct (IH Hi1 Hl1) as (? & ? & ?). split_and!; [done|done|lia].
Qed.

(** With the listener closed, only a finished shutdown cannot go on. *)
Lemma stuck_closed s :
  smtp_inv s -> listener_closed s -> (forall s', ~ progress s s') ->
  ss_loop s = Returned /\ ss_handlers s = [] /\ ss_waited s = true.
Proof.
  intros (Hw & Hc & Ho & Hr) Hl Hstuck. destruct (Ho Hl) as [Hop Hd]. destruct s as [d o c l w h x]. unfold listener_closed in *. cbn in *. subst.
  assert (Hh : h = []).
  { destruct h as [|n h]; [done|]. exfalso. eapply Hstuck. split; [apply (act_finish n true false c l _ [] h)|].
    intros E. injection E as _ E. cbn in E. apply (f_equal List.length) in E. cbn in E. lia. }
  subst h. assert (Hcd : c = CDone).
  { destruct Hl as [->| ->]; [|done]. exfalso. eapply Hstuck. split; [apply act_closer_done|]. intros E. by injection E. }
  subst c. assert (Hloop : l = Returned).
  { destruct l; [..|done]; exfalso; try naive_solver.
    - eapply Hstuck. split; [apply act_accept_closed|]. done.
    - eapply Hstuck. split; [apply act_handle|]. done. }
  split_and!; [done|done|]. destruct x; [done|]. exfalso. eapply Hstuck. split; [apply act_wait|]. done.
Qed.

(** C38: in every run of the server, [Wait] returns only while no connection is handled.
    Once the listener is closed, every run of its goroutines comes to an end, and at its
    end [Start] and [Wait] have returned and no connection is handled. *)
Theorem smtp_shutdown_completes s :
  smtp_reachable s ->
  (forall s', smtp_action s s' -> ss_waited s = false -> ss_waited s' = true -> ss_handlers s = [])
  /\ (listener_closed s -> forall n s', nsteps progress n s s' ->
       (n <= shutdown_work s)%nat
       /\ ((forall s'', ~ progress s' s'') -> ss_loop s' = Returned /\ ss_handlers s' = [] /\ ss_waited s' = true)).
Proof.
  intros Hi%smtp_reachable_inv. split.
  - intros s' Ha. destruct Hi as (Hw & _). destruct Ha; cbn in *; try congruence. intros _ _.
    assert (0 <= closer_count c) by (destruct c; cbn; lia). destruct h; cbn in *; [done|lia].
  - intros Hl n s' (Hi' & Hl' & Hn)%progress_closed_runs; [|done|done]. split; [lia|]. by apply stuck_closed.
Qed.

(** A server that handles one connection while its listener has just been closed. *)
Definition closing_state : smtp_state := mkSmtpState true false CClosed AtAccept 2 [7%nat] false.

Lemma closing_reachable : smtp_reachable closing_state.
Proof.
  eapply rtc_l; [apply act_listen|]. eapply rtc_l; [apply act_spawn_closer|].
  eapply rtc_l; [apply (act_accept 7)|]. eapply rtc_l; [apply act_handle|].
  eapply rtc_l; [apply act_cancel|]. eapply rtc_l; [apply act_close|]. apply rtc_refl.
Qed.

Lemma smtp_shutdown_completes_witness :
  exists s', nsteps progress 4 closing_state s' /\ (4 <= shutdown_work closing_state)%nat.
Proof.
  assert (H : nsteps progress 4 closing_state (mkSmtpState true false CDone Returned 0 [] true)).
  { eapply nsteps_l; [split; [apply (act_finish 7 _ _ _ _ _ [] [])|discriminate]|].
    eapply nsteps_l; [split; [apply act_closer_done|discriminate]|].
    eapply nsteps_l; [split; [apply act_accept_closed|discriminate]|].
    eapply nsteps_l; [split; [apply act_wait|discriminate]|]. apply nsteps_O. }
  eexists. split; [exact H|].
  destruct (smtp_shutdown_completes closing_state closing_reachable) as [_ Hs].
  apply (Hs (or_introl eq_refl) 4%nat _ H).
Defined.

(** The accept loop itself is not counted: a connection it has accepted but not yet
    counted is handled after [Wait] has returned, while main closes the database. *)
Example handler_after_wait :
  smtp_reachable (mkSmtpState true false CDone AtAccept 1 [7%nat] true).
Proof.
  eapply rtc_l; [apply act_listen|]. eapply rtc_l; [apply act_spawn_closer|].
  eapply rtc_l; [apply (act_accept 7)|]. eapply rtc_l; [apply act_cancel|].
  eapply rtc_l; [apply act_close|]. eapply rtc_l; [apply act_closer_done|].
  eapply rtc_l; [apply act_wait|]. eapply rtc_l; [apply act_handle|]. apply rtc_refl.
Qed.

(** ** The server main builds *)

(** [allow] is what isAllowedRecipient answers when RCPT TO arrives. *)
Definition smtp_server (sv : service) (allow : string -> bool) : Server :=
  mkServer (sv_smtpDomain sv) (Config.MaxMessageBytes (sv_cfg sv)) (sv_smtpTLS sv) (Some allow) true.

Record attempt := mkAttempt { at_now : Z; at_addr : string; at_input : input }.

(** The address a connection is counted under. *)
Definition remote_ip (addr : string) : string :=
  let host := match SplitHostPort addr with Some (h, _) => h | None => "" end in
  if isEmpty host then addr else host.

Definition rate_limited (evs : option (list event)) : bool :=
  match evs with Some (OnRateLimited _ :: _) => true | _ => false end.

(** The connections in the order in which they ask the limiters, each asking both
    in one step; the times at which one from [ip] was let in. *)
Fixpoint let_in (srv : Server) (rate burst : option Limiter) (conns : list attempt) (ip : string) : list Z :=
  match conns with
  | [] => []
  | a :: rest =>
      let '(evs, rate', burst') := handleConn srv (at_now a) rate burst (at_addr a) (at_input a) in
      let later := let_in srv rate' burst' rest ip in
      if negb (rate_limited evs) && String.eqb (remote_ip (at_addr a)) ip then at_now a :: later else later
  end.

Fixpoint attempts_ok (from : Z) (conns : list attempt) : Prop :=
  match conns with
  | [] => True
  | a :: rest => from <= at_now a /\ attempts_ok (at_now a) rest
  end.

Lemma handleConn_limiters srv now rate burst addr inp :
  let ip := remote_ip addr in
  let '(ok1, rate') := Allow now ("smtp:hour:" +:+ ip) rate in
  let '(ok2, burst') := Allow now ("smtp:burst:" +:+ ip) burst in
  let '(evs, r, b) := handleConn srv now (Some rate) (Some burst) addr inp in
  r = Some rate' /\ b = Some (if ok1 then burst' else burst) /\ rate_limited evs = negb (ok1 && ok2).
Proof.
  cbv zeta. unfold handleConn. fold (remote_ip addr). cbn [ask_limiter].
  destruct (Allow now _ rate) as [ok1 rate']. destruct ok1; cbn [ask_limiter].
  - destruct (Allow now _ burst) as [[|] burst']; cbn [andb negb]; [|done].
    by destruct (smtp_loop (smtp_fuel inp) srv (remote_ip addr) initial_session inp).
  - destruct (Allow now _ burst) as [ok2 burst']. done.
Qed.

Lemma clock_ok_weaken from from' calls : from <= from' -> clock_ok from' calls -> clock_ok from calls.
Proof. destruct calls as [|[t k] calls]; simpl; [done|]. intros ? [? ?]. split; [lia|done]. Qed.

(** Who is let in was let through by both limiters. *)
Lemma let_in_admitted srv ip conns : forall from rate burst,
  attempts_ok from conns ->
  exists hourly bursts,
    clock_ok from hourly /\ clock_ok from bursts
    /\ let_in srv (Some rate) (Some burst) conns ip `sublist_of` snd (admitted hourly ("smtp:hour:" +:+ ip) rate)
    /\ let_in srv (Some rate) (Some burst) conns ip `sublist_of` snd (admitted bursts ("smtp:burst:" +:+ ip) burst).
Proof.
  induction conns as [|a conns IH]; intros from rate burst; [by exists [], []|]. cbn [attempts_ok let_in]. intros [Hf Hok].
  pose proof (handleConn_limiters srv (at_now a) rate burst (at_addr a) (at_input a)) as H. cbv zeta in H.
  destruct (Allow (at_now a) ("smtp:hour:" +:+ remote_ip (at_addr a)) rate) as [ok1 rate'] eqn:E1.
  destruct (Allow (at_now a) ("smtp:burst:" +:+ remote_ip (at_addr a)) burst) as [ok2 burst'] eqn:E2.
  destruct (handleConn _ _ _ _ _ _) as [[evs r] b]. destruct H as (-> & -> & ->). rewrite negb_involutive.
  destruct (IH (at_now a) rate' (if ok1 then burst' else burst) Hok) as (hs & bs & Hh & Hb & Sh & Sb).
  exists ((at_now a, "smtp:hour:" +:+ remote_ip (at_addr a)) :: hs).
  exists (if ok1 then (at_now a, "smtp:burst:" +:+ remote_ip (at_addr a)) :: bs else bs).
  cbn [admitted]. rewrite E1. destruct (admitted hs _ rate') as [lh ah]. cbn [snd] in *.
  assert (Hkey : forall p, String.eqb (remote_ip (at_addr a)) ip = true -> String.eqb (p +:+ remote_ip (at_addr a)) (p +:+ ip) = true).
  { intros p ->%String.eqb_eq. apply String.eqb_refl. }
  split; [done|]. destruct ok1; cbn [andb admitted].
  - rewrite E2. destruct (admitted bs _ burst') as [lb ab]. cbn [snd] in *. split; [done|].
    destruct ok2; cbn [andb];
      (destruct (String.eqb (remote_ip (at_addr a)) ip) eqn:Eip; cbn [andb]; rewrite ?(Hkey _ eq_refl);
        split; repeat case_if; try (by apply sublist_skip); try (by apply sublist_cons); done).
  - split; [by eapply clock_ok_weaken|]. done.
Qed.

(** C25: a service that came up serves no address more connections than configured: at most
    SMTP_RATE_LIMIT_PER_HOUR in any hour and SMTP_BURST_PER_MIN in any minute, whatever
    the peers send and however connections from different addresses interleave. *)
Theorem smtp_connections_limited m sv allow conns ip from a :
  boot m = Ok sv -> attempts_ok from conns ->
  let times := let_in (smtp_server sv allow) (Some (sv_smtpLimiter sv)) (Some (sv_smtpBurstLimiter sv)) conns ip in
  Z.of_nat (List.length (List.filter (fun t => (a <? t) && (t <=? a + hour)) times)) <= SMTPRateLimitPerHour (sv_cfg sv)
  /\ Z.of_nat (List.length (List.filter (fun t => (a <? t) && (t <=? a + minute)) times)) <= SMTPBurstPerMin (sv_cfg sv).
Proof.
  intros Hb%boot_started Hok. cbv zeta. rewrite (st_rate _ _ Hb), (st_burst _ _ Hb). apply st_sane, sane_limits in Hb.
  destruct (let_in_admitted (smtp_server sv allow) ip conns from (RateLimit.New hour (SMTPRateLimitPerHour (sv_cfg sv)))
    (RateLimit.New minute (SMTPBurstPerMin (sv_cfg sv))) Hok) as (hs & bs & Hh & Hbs & Sh & Sb).
  split.
  - etrans; [apply inj_le, sublist_filter_length, Sh|]. eapply window_bound; (done || lia).
  - etrans; [apply inj_le, sublist_filter_length, Sb|]. eapply window_bound; (done || lia).
Qed.

(** A machine on which every step of the start succeeds with the default settings. *)
Definition toy_machine : machine :=
  {| mc_Getenv := empty_env; mc_ParseFloat := no_float; mc_today := (2025, 1, 7); mc_write_env := EnvMigrate.WriteDone;
     mc_disk := toy_disk; mc_files := ∅; mc_exec := fun _ => None; mc_migrate := None; mc_templates := None;
     mc_resolver := fun _ _ => Ok []; mc_tls := toy_tls; mc_gen := toy_gen "k001" EnvMigrate.WriteDone;
     mc_readable := fun _ => true; mc_certs := ∅; mc_now := 0 |}.

Lemma toy_boots : exists sv, boot toy_machine = Ok sv.
Proof. destruct (boot toy_machine) as [sv|] eqn:E; [by exists sv|vm_compute in E; discriminate E]. Qed.

Lemma smtp_connections_limited_witness :
  exists sv, boot toy_machine = Ok sv
    /\ Z.of_nat (List.length (List.filter (fun t => (0 <? t) && (t <=? 0 + hour))
         (let_in (smtp_server sv (fun _ => true)) (Some (sv_smtpLimiter sv)) (Some (sv_smtpBurstLimiter sv))
            [mkAttempt 1 "192.0.2.7:25" sample_session; mkAttempt 2 "192.0.2.7:26" sample_session] "192.0.2.7")))
       <= SMTPRateLimitPerHour (sv_cfg sv).
Proof.
  destruct toy_boots as [sv Hb]. exists sv. split; [exact Hb|].
  apply (smtp_connections_limited toy_machine sv (fun _ => true) _ "192.0.2.7" 0 0 Hb). cbn. lia.
Defined.

(** ** The mail handler *)

(** What a delivery changes: the database, the counters, and the alerts sent. *)
Record node := mkNode { nd_db : DB; nd_counters : Counters; nd_alerts : list json }.

(** The increments of processInbound, each at most one per message. *)
Definition count_inbound (mt : metrics) (c : Counters) : Counters :=
  let c := if 0 <? Ingest.mailsReceived mt then IncMailsReceived c else c in
  let c := if 0 <? Ingest.analyzerErrors mt then IncAnalyzerErrors c else c in
  if 0 <? Ingest.reportsGenerated mt then IncReportsGenerated c else c.

Section Handler.
Context {C : Crypto} (env : ingest_env) (sv : service) (Format3339 : Z -> string) (error_text : store_error -> string).

Definition inbound_alert (now : Z) (rm : ReceivedMail) (e : store_error) : json :=
  alert_payload Format3339 now "error" "inbound_processing_failed" "Inbound processing failed"
    (JObj [("error", JStr (error_text e)); ("mail_from", JStr (rm_MailFrom rm)); ("rcpt_to", JStr (rm_RcptTo rm));
           ("remote_ip", JStr (rm_RemoteIP rm))]).

(** The HandleMail of main. The alert of a failed SaveReport is left out: it needs a
    message that vanishes while it is being stored. *)
Definition HandleMail (clock : nat -> Z) (rm : ReceivedMail) (nd : node) : outcome store_error unit * node :=
  let '(o, d', mt) := processInbound env (SMTPDomain (sv_cfg sv)) clock rm (nd_db nd) (mkMetrics 0 0 0) in
  let c := count_inbound mt (nd_counters nd) in
  match o with
  | Ok _ => (Ok (), mkNode d' c (nd_alerts nd))
  | Err e =>
      let sent := if Enabled (Some (sv_alerter sv)) then [inbound_alert (clock 5%nat) rm e] else [] in
      (Err e, mkNode d' (IncInboundErrors c) (nd_alerts nd ++ sent))
  end.

(** All deliveries of a connection; an error only goes to the log. *)
Fixpoint deliver_all (clock : nat -> nat -> Z) (i : nat) (mails : list ReceivedMail) (nd : node) : node :=
  match mails with
  | [] => nd
  | rm :: rest => deliver_all clock (S i) rest (snd (HandleMail (clock i) rm nd))
  end.

(** A stored message of the delivery [rm], given the mailboxes. *)
Definition stored_for (boxes : list (Z * string * Z)) (m : Message) (rm : ReceivedMail) : Prop :=
  exists id addr exp, (id, addr, exp) ∈ boxes /\ m_MailboxID m = id
    /\ matchesConfiguredDomain (SMTPDomain (sv_cfg sv)) (ToLower addr) = true
    /\ ToLower addr = ToLower (TrimSpace (rm_RcptTo rm))
    /\ m_SizeBytes m = slen (rm_Data rm).

Lemma HandleMail_effect clock rm nd :
  db_ok (nd_db nd) ->
  let nd' := snd (HandleMail clock rm nd) in
  nd' = nd \/ exists m d',
    nd' = mkNode d' (IncReportsGenerated (IncMailsReceived (nd_counters nd))) (nd_alerts nd)
    /\ db_ok d' /\ messages d' = messages (nd_db nd) ++ [m] /\ mailbox_ids d' = mailbox_ids (nd_db nd)
    /\ stored_for (mailbox_ids (nd_db nd)) m rm.
Proof.
  intros Hd. cbv zeta. unfold HandleMail.
  destruct (processInbound_cases env (SMTPDomain (sv_cfg sv)) clock rm (nd_db nd) (mkMetrics 0 0 0) Hd)
    as [->|(d' & mb & m & -> & Hd' & Hdom & Hmb & Ha & He & Hm & Hid & Hsz & _ & Hbs & _)]; [left; by destruct nd|].
  right. exists m, d'. split; [done|]. split_and!; [done|done|by eapply touched_ids|]. exists (mb_ID mb), (mb_Address mb), (mb_ExpiresAt mb).
  rewrite Ha. split_and!; try done.
  unfold mailbox_ids. apply list_elem_of_fmap. by exists mb.
Qed.

Definition counters_ok (c : Counters) : Prop := 0 <= mailsReceived c < 2 ^ 64.

Lemma deliver_all_effect clock mails : forall i nd,
  db_ok (nd_db nd) -> counters_ok (nd_counters nd) ->
  let nd' := deliver_all clock i mails nd in
  db_ok (nd_db nd') /\ mailbox_ids (nd_db nd') = mailbox_ids (nd_db nd) /\ nd_alerts nd' = nd_alerts nd
  /\ inboundErrors (nd_counters nd') = inboundErrors (nd_counters nd)
  /\ exists new kept, messages (nd_db nd') = messages (nd_db nd) ++ new
       /\ kept `sublist_of` mails /\ Forall2 (stored_for (mailbox_ids (nd_db nd))) new kept
       /\ mailsReceived (nd_counters nd') = (mailsReceived (nd_counters nd) + Z.of_nat (List.length new)) mod 2 ^ 64.
Proof.
  induction mails as [|rm mails IH]; intros i nd Hd Hc; cbv zeta; cbn [deliver_all].
  { split_and!; try done. exists [], []. rewrite app_nil_r. split_and!; try done.
    cbn [List.length]. rewrite Z.add_0_r. unfold counters_ok in Hc. by rewrite Z.mod_small. }
  destruct (HandleMail_effect (clock i) rm nd Hd) as [Hn|(m & d' & Hn & Hd' & Hm & Hids & Hst)]; cbv zeta in Hn; rewrite Hn.
  - destruct (IH (S i) nd Hd Hc) as (? & ? & ? & ? & new & kept & ? & ? & ? & ?). split_and!; try done.
    exists new, kept. split_and!; try done. by apply sublist_cons.
  - destruct (IH (S i) (mkNode d' (IncReportsGenerated (IncMailsReceived (nd_counters nd))) (nd_alerts nd)) Hd')
      as (Hdn & Hin & Han & Hen & new & kept & Hmn & Hk & Hf & Hcn).
    { unfold counters_ok. cbn. unfold add1. apply Z.mod_pos_bound. lia. }
    cbn [nd_db nd_alerts nd_counters] in *. split_and!; [done|congruence|done|done|].
    exists (m :: new), (rm :: kept). rewrite Hmn, Hm, <- app_assoc. split_and!; [done|by apply sublist_skip| |].
    + constructor; [done|]. by rewrite <- Hids.
    + rewrite Hcn. cbn. unfold add1. rewrite Zplus_mod_idemp_l. f_equal. lia.
Qed.

End Handler.

(** A message that a connection of the service [sv] may leave behind. *)
Definition accepted_message (sv : service) (allow : string -> bool) (d : DB) (m : Message) : Prop :=
  m_SizeBytes m <= Config.MaxMessageBytes (sv_cfg sv)
  /\ exists rcpt id addr exp, allow rcpt = true /\ (id, addr, exp) ∈ mailbox_ids d /\ m_MailboxID m = id
       /\ ToLower addr = ToLower (TrimSpace (ToLower rcpt))
       /\ matchesConfiguredDomain (SMTPDomain (sv_cfg sv)) (ToLower addr) = true.

(** C8: from the socket to the table. Whatever a peer sends to a service that came up, its
    connection leaves the database well-formed, with the same mailboxes, and adds only
    messages within the size limit to mailboxes of the service's domain whose address the
    recipient check accepted, at most one per delivery; the counter of received mails grows by their number. *)
Theorem connection_end_to_end {C : Crypto} env Format3339 error_text m sv allow now rate burst addr inp evs r b clock nd :
  boot m = Ok sv -> db_ok (nd_db nd) -> counters_ok (nd_counters nd) ->
  handleConn (smtp_server sv allow) now rate burst addr inp = (Some evs, r, b) ->
  let nd' := deliver_all env sv Format3339 error_text clock 0 (delivered evs) nd in
  db_ok (nd_db nd') /\ mailbox_ids (nd_db nd') = mailbox_ids (nd_db nd) /\ nd_alerts nd' = nd_alerts nd
  /\ exists new, messages (nd_db nd') = messages (nd_db nd) ++ new
       /\ (List.length new <= List.length (delivered evs))%nat
       /\ Forall (accepted_message sv allow (nd_db nd)) new
       /\ mailsReceived (nd_counters nd') = (mailsReceived (nd_counters nd) + Z.of_nat (List.length new)) mod 2 ^ 64.
Proof.
  intros Hb%boot_started Hd Hc Hrun. cbv zeta.
  destruct (deliver_all_effect env sv Format3339 error_text clock (delivered evs) 0 nd Hd Hc)
    as (? & ? & ? & _ & new & kept & Hm & Hk & Hf & Hn).
  split_and!; try done. exists new. split_and!; try done.
  - rewrite (Forall2_length _ _ _ Hf). by apply sublist_length.
  - assert (Hdel : forall rm, rm ∈ kept -> Deliver rm ∈ evs).
    { intros rm Hin. apply (elem_of_sublist _ _ _ Hin), list_elem_of_omap in Hk as (e & He & Ee).
      destruct e; [done| |done]. by injection Ee as <-. }
    clear -Hb Hrun Hf Hdel. induction Hf as [|m' rm new kept (id & ad & ex & Hbox & Hid & Hdom & Ha & Hsz) Hf IH]; constructor.
    + destruct (deliveries_accepted _ _ _ _ _ _ _ _ _ rm Hrun ltac:(apply Hdel; left)) as (_ & (rcpt & Er & _ & Hal) & Hlen & _).
      apply st_sane, sane_bytes in Hb. cbn [Smtp.MaxMessageBytes smtp_server] in Hlen. split; [lia|].
      exists rcpt, id, ad, ex. rewrite Er in Ha. split_and!; done.
    + apply IH. intros rm' Hin. apply Hdel. by right.
Qed.

Lemma connection_end_to_end_witness :
  exists sv evs r b, boot toy_machine = Ok sv
    /\ handleConn (smtp_server sv (fun _ => true)) 0 None None "192.0.2.7:25" sample_session = (Some evs, r, b)
    /\ db_ok (nd_db (@deliver_all toy_crypto sample_env sv (fun _ => "now") (fun _ => "error") (fun _ _ => 120) 0 (delivered evs)
                       (mkNode keyed_db (Telemetry.New 0) []))).
Proof.
  destruct toy_boots as [sv Hb].
  destruct (handleConn_total (smtp_server sv (fun _ => true)) 0 None None "192.0.2.7:25" sample_session) as (evs & r & b & E).
  exists sv, evs, r, b. split; [exact Hb|]. split; [exact E|].
  apply (@connection_end_to_end toy_crypto sample_env (fun _ => "now") (fun _ => "error") toy_machine sv (fun _ => true) 0 None None
    "192.0.2.7:25" sample_session evs r b (fun _ _ => 120) (mkNode keyed_db (Telemetry.New 0) []) Hb keyed_db_ok);
    [split; reflexivity || discriminate|exact E].
Defined.
