(* ===== verification/Mailer.v ===== *)
(** * The alert mail on its way (internal/ipt/mailer.go send, check.go PingAccount)

    How an alert leaves the server: the SMTP client of net/smtp as the mailer drives it,
    with every command recorded together with whether it was sent inside TLS. The peer is a
    parameter: what it offers and which commands it accepts. *)

From S2P Require Import Prelude F64 GoStrings GoTime GoNet Model Score Ipt RateLimit Store SealedBox Ingest Config WebRequest WebApi.
From S2P Require Import Placement.

Local Open Scope string_scope.
Local Open Scope list_scope.
Local Open Scope Z_scope.

(** ** net/smtp *)

Inductive command :=
| EHLO
| STARTTLS
| AUTH (user pass : string)
| MAIL (from : string)
| RCPT (to : string)
| DATA
| BODY (msg : string)
| DOT
| QUIT.

(** A command on the wire: whether the connection was inside TLS. *)
Definition wire := (bool * command)%type.

(** The other end: the errors of dialling (plain and TLS) and of the greeting, whether
    its EHLO lists STARTTLS, the error of the handshake, and its answer to a command. *)
Record peer := mkPeer {
  pe_dial : option string;
  pe_dialTLS : option string;
  pe_greeting : option string;
  pe_starttls : bool;
  pe_handshake : option string;
  pe_answer : command -> option string
}.

(** A client: the name of the server it believes to talk to, TLS, the result of its
    EHLO, whether the connection is up, and what it has sent. *)
Record client := mkClient {
  cl_host : string;
  cl_tls : bool;
  cl_hello : option (option string);
  cl_up : bool;
  cl_sent : list wire
}.

Definition closed_error : string := "use of closed network connection".

(** One command and its answer. *)
Definition cmd (p : peer) (k : command) (c : client) : option string * client :=
  if cl_up c then (pe_answer p k, mkClient (cl_host c) (cl_tls c) (cl_hello c) true (cl_sent c ++ [(cl_tls c, k)]))
  else (Some closed_error, c).

(** Run [k] unless there was an error. *)
Definition andThen (r : option string * client) (k : client -> option string * client) : option string * client :=
  match r with
  | (Some err, c) => (Some err, c)
  | (None, c) => k c
  end.

(** The greeting, sent before the first command; its error is kept. *)
Definition hello (p : peer) (c : client) : option string * client :=
  match cl_hello c with
  | Some err => (err, c)
  | None =>
      let '(err, c') := cmd p EHLO c in
      (err, mkClient (cl_host c') (cl_tls c') (Some err) (cl_up c') (cl_sent c'))
  end.

Definition request (p : peer) (k : command) (c : client) : option string * client := andThen (hello p c) (cmd p k).

Definition hang_up (c : client) : client := mkClient (cl_host c) (cl_tls c) (cl_hello c) false (cl_sent c).
Definition Quit (p : peer) (c : client) : client := hang_up (snd (request p QUIT c)).

(** [Client.Extension("STARTTLS")]. *)
Definition offers_starttls (p : peer) (c : client) : bool * client :=
  let '(err, c) := hello p c in
  (match err with None => pe_starttls p | Some _ => false end, c).

(** The handshake takes place with the EHLO that follows. *)
Definition StartTLS (p : peer) (c : client) : option string * client :=
  andThen (request p STARTTLS c) (fun c =>
  let c := mkClient (cl_host c) true (cl_hello c) (cl_up c) (cl_sent c) in
  match pe_handshake p with
  | Some err => (Some err, hang_up c)
  | None => cmd p EHLO c
  end).

Definition validateLine (line : string) : option string :=
  if selem CR line || selem LF line then Some "smtp: A line must not contain CR or LF" else None.

Definition isLocalhost (name : string) : bool := String.eqb name "localhost" || String.eqb name "127.0.0.1" || String.eqb name "::1".

(** [PlainAuth.Start]: no password for a stranger or over an open line. *)
Definition PlainAuth_Start (host : string) (c : client) : option string :=
  if negb (cl_tls c) && negb (isLocalhost (cl_host c)) then Some "unencrypted connection"
  else if negb (String.eqb (cl_host c) host) then Some "wrong host name"
  else None.

(** [Client.Auth]; a refusal of the mechanism ends the session. *)
Definition Auth (p : peer) (user pass host : string) (c : client) : option string * client :=
  andThen (hello p c) (fun c =>
  match PlainAuth_Start host c with
  | Some err => (Some err, Quit p c)
  | None => cmd p (AUTH user pass) c
  end).

(** ** The mailer *)

Definition sendViaClient (p : peer) (from to msg : string) (c : client) : option string * client :=
  match validateLine from with
  | Some err => (Some err, c)
  | None =>
      andThen (request p (MAIL from) c) (fun c =>
      match validateLine to with
      | Some err => (Some err, c)
      | None =>
          andThen (cmd p (RCPT to) c) (fun c =>
          andThen (cmd p DATA c) (fun c =>
          andThen (cmd p (BODY msg) c) (fun c => cmd p DOT c)))
      end)
  end.

Definition wrap (prefix : string) (r : option string * client) : option string * client :=
  (match fst r with Some err => Some (prefix +:+ err) | None => None end, snd r).

(** AUTH, if a user is configured. *)
Definition authenticate (p : peer) (m : MailerConfig) (host : string) (c : client) : option string * client :=
  if isEmpty (ml_User m) then (None, c) else wrap "ipt mailer: SMTP auth: " (Auth p (ml_User m) (ml_Pass m) host c).

(** The deferred Quit. *)
Definition finish (p : peer) (r : option string * client) : option string * list wire := (fst r, cl_sent (Quit p (snd r))).

(** The error, if any, and what went over the wire. The text of a bad address leaves out the reason. *)
Definition send (p : peer) (m : MailerConfig) (to msg : string) : option string * list wire :=
  match SplitHostPort (ml_Addr m) with
  | None => (Some ("ipt mailer: invalid SMTP addr " +:+ ml_Addr m), [])
  | Some (host, port) =>
      if String.eqb port "465" then
        match pe_dialTLS p with
        | Some err => (Some ("ipt mailer: TLS dial: " +:+ err), [])
        | None =>
            match pe_greeting p with
            | Some err => (Some ("ipt mailer: SMTP client: " +:+ err), [])
            | None =>
                finish p (andThen (authenticate p m host (mkClient host true None true []))
                  (sendViaClient p (ml_From m) to msg))
            end
        end
      else
        match pe_dial p with
        | Some err => (Some ("ipt mailer: dial: " +:+ err), [])
        | None =>
            match pe_greeting p with
            | Some err => (Some ("ipt mailer: dial: " +:+ err), [])
            | None =>
                let '(ok, c) := offers_starttls p (mkClient host false None true []) in
                finish p
                  (andThen (if ok then wrap "ipt mailer: STARTTLS: " (StartTLS p c) else (None, c)) (fun c =>
                   andThen (authenticate p m host c) (sendViaClient p (ml_From m) to msg)))
            end
        end
  end.

(** ** PingAccount *)

(** Dialling and logging in take some time each and may fail; the caller's context ends
    at [parent], if it does. The result of the goroutine counts if it is there in time. *)
Definition PingAccount (parent : option Z) (dial login : Z * option string) : option string :=
  let limit := match parent with Some t => Z.min t (10 * second) | None => 10 * second end in
  let '(took, err) :=
    match dial with
    | (t, Some e) => (t, Some e)
    | (t, None) => (t + fst login, snd login)
    end in
  if took <? limit then err else Some "context deadline exceeded".

(** ** What goes over the wire *)

(** A command that may be sent in state [tls] to [host], when the rest [must] be encrypted. *)
Definition allowed (host : string) (must tls : bool) (k : command) : Prop :=
  match k with
  | AUTH _ _ => tls = true \/ isLocalhost host = true
  | EHLO | STARTTLS | QUIT => True
  | _ => must = true -> tls = true
  end.

Section Wire.
Context (p : peer) (host : string) (must : bool).

Definition wire_ok (sent : list wire) : Prop := Forall (fun w => allowed host must (fst w) (snd w)) sent.
Definition on_host (c : client) : Prop := cl_host c = host /\ wire_ok (cl_sent c).
Definition ready (c : client) : Prop := on_host c /\ (must = true -> cl_tls c = true).

Lemma cmd_ok k c : allowed host must (cl_tls c) k -> on_host c ->
  on_host (snd (cmd p k c)) /\ cl_tls (snd (cmd p k c)) = cl_tls c.
Proof.
  intros Hk [Hh Hs]. unfold cmd. case_if; [|done]. cbn. split; [|done]. split; [done|].
  apply Forall_app. split; [done|]. by constructor.
Qed.

Lemma hello_ok c : on_host c -> on_host (snd (hello p c)) /\ cl_tls (snd (hello p c)) = cl_tls c.
Proof.
  intros H. unfold hello. destruct (cl_hello c); [done|].
  destruct (cmd_ok EHLO c I H) as [[? ?] ?].
  destruct (cmd p EHLO c) as [e c']. cbn in *. by repeat split.
Qed.

Lemma andThen_ok (P Q : client -> Prop) r k :
  P (snd r) -> (forall c, P c -> Q c) -> (forall c, P c -> Q (snd (k c))) -> Q (snd (andThen r k)).
Proof. destruct r as [[e|] c]; cbn; auto. Qed.

Lemma request_ok k c : allowed host must (cl_tls c) k -> on_host c ->
  on_host (snd (request p k c)) /\ cl_tls (snd (request p k c)) = cl_tls c.
Proof.
  intros Hk H. destruct (hello_ok c H) as [Hh Ht]. unfold request.
  apply (andThen_ok (fun c' => on_host c' /\ cl_tls c' = cl_tls c) (fun c' => on_host c' /\ cl_tls c' = cl_tls c)); [done..|].
  intros c' [Hc' Ht']. rewrite <- Ht' in Hk |- *. by apply cmd_ok.
Qed.

Lemma Quit_ok c : on_host c -> on_host (Quit p c).
Proof. intros H. by destruct (request_ok QUIT c I H) as [? _]. Qed.

Lemma ready_cmd k c : allowed host must (cl_tls c) k -> ready c -> ready (snd (cmd p k c)).
Proof. intros Hk [H1 H2]. destruct (cmd_ok k c Hk H1) as [? Ht]. split; [done|by rewrite Ht]. Qed.

Lemma ready_request k c : allowed host must (cl_tls c) k -> ready c -> ready (snd (request p k c)).
Proof. intros Hk [H1 H2]. destruct (request_ok k c Hk H1) as [? Ht]. split; [done|by rewrite Ht]. Qed.

Lemma sendViaClient_ready from to msg c : ready c -> on_host (snd (sendViaClient p from to msg c)).
Proof.
  intros H. unfold sendViaClient. destruct (validateLine from); [apply H|].
  assert (K : forall k c, match k with AUTH _ _ => False | _ => True end -> ready c -> allowed host must (cl_tls c) k).
  { intros [] c' Hk [_ Ht]; by cbn. }
  apply (andThen_ok ready); [apply ready_request; [by apply K|done]|by intros ? []|]. intros c1 H1.
  destruct (validateLine to); [apply H1|].
  do 3 (apply (andThen_ok ready); [apply ready_cmd; [by apply K|done]|by intros ? []|]; clear H1; intros ? H1).
  apply cmd_ok; [by apply K|apply H1].
Qed.

Lemma Auth_ready user pass c : ready c ->
  on_host (snd (Auth p user pass host c)) /\ (fst (Auth p user pass host c) = None -> ready (snd (Auth p user pass host c))).
Proof.
  intros [Hc Ht]. destruct (hello_ok c Hc) as [Hh Hht]. unfold Auth. destruct (hello p c) as [[e|] c1]; cbn in *; [done|].
  unfold PlainAuth_Start. case_if; [split; [by apply Quit_ok|done]|]. case_if; [split; [by apply Quit_ok|done]|].
  assert (Ha : allowed host must (cl_tls c1) (AUTH user pass)).
  { cbn. rewrite (proj1 Hh) in Hif. destruct (cl_tls c1); [by left|right]. cbn in Hif. by bool_to_prop. }
  destruct (cmd_ok _ c1 Ha Hh) as [H1 H2]. split; [done|]. intros _. split; [done|]. by rewrite H2, Hht.
Qed.

Lemma authenticate_ready m c k :
  ready c -> (forall c, ready c -> on_host (snd (k c))) -> on_host (snd (andThen (authenticate p m host c) k)).
Proof.
  intros H Hk. unfold authenticate. case_if; [by apply Hk|].
  destruct (Auth_ready (ml_User m) (ml_Pass m) c H) as [H1 H2]. unfold wrap.
  destruct (Auth p _ _ host c) as [[e|] c1]; cbn in *; [done|]. by apply Hk, H2.
Qed.

Lemma StartTLS_ready c : on_host c ->
  on_host (snd (StartTLS p c)) /\ (fst (StartTLS p c) = None -> ready (snd (StartTLS p c))).
Proof.
  intros H. destruct (request_ok STARTTLS c I H) as [Hr _]. unfold StartTLS.
  destruct (request p STARTTLS c) as [[e|] c1]; cbn in *; [done|].
  destruct (pe_handshake p); [done|].
  destruct (cmd_ok EHLO (mkClient (cl_host c1) true (cl_hello c1) (cl_up c1) (cl_sent c1)) I Hr) as [H1 H2].
  split; [done|]. intros _. split; [done|]. by rewrite H2.
Qed.

Lemma finish_ok r : on_host (snd r) -> wire_ok (snd (finish p r)).
Proof. intros H. by apply Quit_ok. Qed.

End Wire.

(** The dialogue of a mail that was accepted. *)
Definition dialogue (tls : bool) (from to msg : string) : list wire :=
  [(tls, MAIL from); (tls, RCPT to); (tls, DATA); (tls, BODY msg); (tls, DOT)].

Lemma cmd_done p k c c' : cmd p k c = (None, c') -> cl_sent c' = cl_sent c ++ [(cl_tls c, k)] /\ cl_tls c' = cl_tls c.
Proof. unfold cmd. case_if; intros E; [|discriminate E]. by injection E as _ <-. Qed.

Lemma andThen_done r k c' : andThen r k = (None, c') -> exists c, r = (None, c) /\ k c = (None, c').
Proof. destruct r as [[e|] c]; cbn; [done|]. eauto. Qed.

Lemma sendViaClient_done p from to msg c c' :
  sendViaClient p from to msg c = (None, c') -> exists pre tls, cl_sent c' = pre ++ dialogue tls from to msg.
Proof.
  unfold sendViaClient. destruct (validateLine from); [done|]. intros (c1 & (c0 & _ & E1)%andThen_done & H)%andThen_done.
  destruct (validateLine to); [done|].
  apply andThen_done in H as (c2 & E2 & (c3 & E3 & (c4 & E4 & E5)%andThen_done)%andThen_done).
  apply cmd_done in E1 as [S1 T1], E2 as [S2 T2], E3 as [S3 T3], E4 as [S4 T4], E5 as [S5 _].
  exists (cl_sent c0), (cl_tls c0). rewrite S5, S4, S3, S2, S1, T4, T3, T2, T1, <- !app_assoc. done.
Qed.

(** A client only adds to what it has sent. *)
Lemma cmd_adds p k c : exists rest, cl_sent (snd (cmd p k c)) = cl_sent c ++ rest.
Proof. unfold cmd. case_if; cbn; [by eexists|]. exists []. by rewrite app_nil_r. Qed.

Lemma request_adds p k c : exists rest, cl_sent (snd (request p k c)) = cl_sent c ++ rest.
Proof.
  assert (Hh : exists rest, cl_sent (snd (hello p c)) = cl_sent c ++ rest).
  { unfold hello. destruct (cl_hello c); [exists []; by rewrite app_nil_r|].
    destruct (cmd_adds p EHLO c) as [rest Hr]. exists rest. by destruct (cmd p EHLO c). }
  destruct Hh as [rest Hr]. unfold request. destruct (hello p c) as [[e|] c1]; cbn [andThen snd] in *; [by exists rest|].
  destruct (cmd_adds p k c1) as [rest' ->]. exists (rest ++ rest'). by rewrite Hr, app_assoc.
Qed.

Lemma finish_done p r sent : finish p r = (None, sent) -> exists c rest, r = (None, c) /\ sent = cl_sent c ++ rest.
Proof.
  unfold finish. destruct r as [[e|] c]; cbn [fst snd]; [done|]. intros E. exists c.
  destruct (request_adds p QUIT c) as [rest Hr]. exists rest. split; [done|]. unfold Quit, hang_up in E. cbn [cl_sent] in E. congruence.
Qed.

(** Whether the peer makes the mailer encrypt the connection. *)
Definition encrypting (p : peer) (port : string) : bool :=
  String.eqb port "465" || (pe_starttls p && bool_decide (pe_answer p EHLO = None)).

Lemma fresh_ready host must : ready host must (mkClient host true None true []).
Proof. split; [split; [done|constructor]|done]. Qed.

Lemma offers_starttls_ready p host port ok c :
  String.eqb port "465" = false -> offers_starttls p (mkClient host false None true []) = (ok, c) ->
  on_host host (encrypting p port) c /\ (ok = false -> encrypting p port = false).
Proof.
  unfold offers_starttls, hello, cmd, encrypting. intros ->. cbn. intros E. injection E as <- <-. split; [by repeat constructor|].
  destruct (pe_answer p EHLO); [by rewrite andb_false_r|]. by intros ->.
Qed.

(** The rest of the session, once the connection is as it should be. *)
Lemma session_wire p m host must from to msg c :
  ready host must c -> on_host host must (snd (andThen (authenticate p m host c) (sendViaClient p from to msg))).
Proof. intros Hc. apply authenticate_ready; [done|]. intros c' Hc'. by apply sendViaClient_ready. Qed.

Lemma send_wire p m to msg host port :
  SplitHostPort (ml_Addr m) = Some (host, port) -> wire_ok host (encrypting p port) (snd (send p m to msg)).
Proof.
  intros Ha. unfold send. rewrite Ha. destruct (String.eqb port "465") eqn:Hport.
  - destruct (pe_dialTLS p); [constructor|]. destruct (pe_greeting p); [constructor|].
    apply finish_ok, session_wire, fresh_ready.
  - destruct (pe_dial p); [constructor|]. destruct (pe_greeting p); [constructor|].
    destruct (offers_starttls p _) as [ok c0] eqn:Hoff. apply (offers_starttls_ready p host port) in Hoff as [Hc0 Hmust]; [|done].
    apply finish_ok. destruct ok; [|cbn [andThen]; apply session_wire; split; [done|by rewrite Hmust]].
    destruct (StartTLS_ready p host (encrypting p port) c0 Hc0) as [H1 H2]. unfold wrap.
    destruct (StartTLS p c0) as [[e|] c1]; cbn [fst snd andThen] in *; [done|]. by apply session_wire, H2.
Qed.

Lemma send_dialogue p m to msg sent :
  send p m to msg = (None, sent) -> exists pre tls rest, sent = pre ++ dialogue tls (ml_From m) to msg ++ rest.
Proof.
  assert (Hdone : forall c c' rest, sendViaClient p (ml_From m) to msg c = (None, c') -> sent = cl_sent c' ++ rest ->
    exists pre tls rest, sent = pre ++ dialogue tls (ml_From m) to msg ++ rest).
  { intros c c' rest (q & tls & Hc)%sendViaClient_done ->. exists q, tls, rest. by rewrite Hc, <- app_assoc. }
  unfold send. destruct (SplitHostPort _) as [[host port]|]; [|done]. case_if.
  - destruct (pe_dialTLS p); [done|]. destruct (pe_greeting p); [done|].
    intros (c & rest & (c1 & _ & E)%andThen_done & Hs)%finish_done. by eapply Hdone.
  - destruct (pe_dial p); [done|]. destruct (pe_greeting p); [done|]. destruct (offers_starttls p _) as [ok c0].
    intros (c & rest & (c1 & _ & (c2 & _ & E)%andThen_done)%andThen_done & Hs)%finish_done. by eapply Hdone.
Qed.

(** C29: whatever the peer does, the password of the alert account is only sent inside TLS or to
    the local host; on port 465, and with every peer that offers STARTTLS, envelope and
    content of the alert are only sent inside TLS; and a send that reports success has
    carried out the whole dialogue with the configured sender, the recipient and the mail. *)
Theorem alert_sent_safely p m to msg host port err sent :
  SplitHostPort (ml_Addr m) = Some (host, port) -> send p m to msg = (err, sent) ->
  (forall tls k, (tls, k) ∈ sent -> allowed host (encrypting p port) tls k)
  /\ (err = None -> exists pre tls rest, sent = pre ++ dialogue tls (ml_From m) to msg ++ rest).
Proof.
  intros Ha Hs. split; [|intros ->; by eapply send_dialogue].
  intros tls k Hin. pose proof (send_wire p m to msg host port Ha) as Hw. rewrite Hs in Hw.
  unfold wire_ok in Hw. rewrite Forall_forall in Hw. by apply (Hw (tls, k)).
Qed.

Definition toy_mailer : MailerConfig := mkMailerConfig "mx.example:587" "alert@sr.example" "alert" "secret" false.

(** A peer that accepts everything. *)
Definition toy_peer (starttls : bool) : peer := mkPeer None None None starttls None (fun _ => None).

Lemma alert_sent_safely_witness :
  exists pre tls rest, snd (send (toy_peer true) toy_mailer "ops@sr.example" "text")
                       = pre ++ dialogue tls "alert@sr.example" "ops@sr.example" "text" ++ rest.
Proof.
  destruct (send (toy_peer true) toy_mailer "ops@sr.example" "text") as [err sent] eqn:E.
  destruct (alert_sent_safely (toy_peer true) toy_mailer "ops@sr.example" "text" "mx.example" "587" err sent eq_refl E) as [_ H].
  apply H. vm_compute in E. congruence.
Defined.

(** A peer that does not offer STARTTLS: with a user the send fails, without one the alert goes out in clear text. *)
Example alert_in_clear_text :
  fst (send (toy_peer false) toy_mailer "ops@sr.example" "text") = Some "ipt mailer: SMTP auth: unencrypted connection"
  /\ send (toy_peer false) (mkMailerConfig "mx.example:587" "alert@sr.example" "" "" false) "ops@sr.example" "text"
     = (None, [(false, EHLO)] ++ dialogue false "alert@sr.example" "ops@sr.example" "text" ++ [(false, QUIT)]).
Proof. vm_compute. done. Qed.
