(* ===== verification/System.v ===== *)
(** * The whole service

    Web server, mail delivery, cleanup and the pollers of placement tests on one
    database, in any order: each handled request ([ServeHTTP] of Site.v), each delivered
    message ([HandleMail] of Listener.v), each tick of the cleanup and each stored result of
    a poller is one step. The theorems say what such a run can do to a mailbox that
    none of its steps is about. *)

From S2P Require Import Prelude F64 GoStrings GoTime GoNet Model Score Ipt Spf AuthHeaders RateLimit Smtp Store SealedBox Ingest Config WebRequest WebApi.
From S2P Require Import Lang Guides Placement WebPages WebAnalysis Events Telemetry Site Startup Listener.

Local Open Scope string_scope.
Local Open Scope list_scope.
Local Open Scope Z_scope.

(** ** Steps *)

(** What happens next: a request with everything it brings along, a delivery with its
    clock, a tick of the cleanup, a result of the poller of a placement test. *)
Inductive happening :=
| Request (w : site_world) (at1 at2 : Z) (r : request)
| Mail (env : ingest_env) (clock : nat -> Z) (rm : ReceivedMail)
| Tick (now : Z)
| Polled (token : string) (results : list ProviderResult) (status : string).

Record system := mkSystem { sy_site : site_state; sy_alerts : list json }.

Definition sy_db (y : system) : DB := ss_db (sy_site y).

Section Steps.
Context {C : Crypto} (sv : service) (Format3339 : Z -> string) (error_text : store_error -> string).

Definition step (h : happening) (y : system) : system :=
  let st := sy_site y in
  match h with
  | Request w at1 at2 r => mkSystem (snd (ServeHTTP (sv_web sv) w at1 at2 r st)) (sy_alerts y)
  | Mail env clock rm =>
      let nd := snd (HandleMail env sv Format3339 error_text clock rm (mkNode (ss_db st) (ss_metrics st) (sy_alerts y))) in
      mkSystem (set_metrics (set_db st (nd_db nd)) (nd_counters nd)) (nd_alerts nd)
  | Tick now => mkSystem (set_db st (snd (Cleanup now (RetentionTTL (sv_cfg sv)) (ss_db st)))) (sy_alerts y)
  | Polled token results status => mkSystem (set_db st (UpdatePlacementTestResult token results status (ss_db st))) (sy_alerts y)
  end.

(** A run: the happenings one after the other. *)
Definition run (hs : list happening) (y : system) : system := fold_left (fun y h => step h y) hs y.

(** ** What concerns a mailbox *)

(** The request presents the key whose identifier is [token]. *)
Definition presents_key (w : site_world) (token : string) : Prop :=
  exists b pub, sw_create w = Some b /\ token = cb_Identifier b /\ hex_decode (cb_PublicKey b) = Some pub
    /\ String.length pub = 32%nat /\ token = Identifier pub.

(** [h], happening to the database [d], is about the mailbox [mb]: a request for an address of [mb] or with its
    key, a mail to it, a result of one of its placement tests. Ticks are about nobody. *)
Definition concerns (mb : Mailbox) (d : DB) (h : happening) : Prop :=
  match h with
  | Request w _ _ r =>
      addresses_mailbox (rq_Path r) (mb_Token mb)
      \/ rq_Path r = "/api/mailboxes" /\ rq_Method r = "POST" /\ presents_key w (mb_Token mb)
  | Mail _ _ rm => ToLower (TrimSpace (rm_RcptTo rm)) = ToLower (mb_Address mb)
  | Tick _ => False
  | Polled token _ _ => exists t, t ∈ placement d /\ pt_PlacementToken t = token /\ pt_MailboxID t = mb_ID mb
  end.

End Steps.

(** ** What belongs to a mailbox *)

(** The report row [r] of [d] is about a message of [mb]. *)
Definition report_of (mb : Mailbox) (d : DB) (r : report_row) : Prop :=
  r ∈ reports d /\ exists m, m ∈ messages d /\ m_ID m = rr_message_id r /\ m_MailboxID m = mb_ID mb.

(** Everything of [mb] is the same in both databases. *)
Definition box_same (mb : Mailbox) (d d' : DB) : Prop :=
  (mb ∈ mailboxes d -> mb ∈ mailboxes d')
  /\ (forall m, m_MailboxID m = mb_ID mb -> m ∈ messages d' <-> m ∈ messages d)
  /\ (forall r, report_of mb d' r <-> report_of mb d r)
  /\ (forall t, pt_MailboxID t = mb_ID mb -> t ∈ placement d' <-> t ∈ placement d).

Lemma other_is_foreign mb d token : db_ok d -> mb ∈ mailboxes d -> mb_Token mb <> token -> foreign d token (mb_ID mb).
Proof.
  intros Hd Hmb Ht b Hb Hbt E.
  assert (b = mb) as -> by (by apply (NoDup_fmap_elem mb_ID (mailboxes d) b mb (proj1 (ok_mailboxes d Hd)))). done.
Qed.

(** What leaves all mailboxes but [token] alone leaves any other one alone. *)
Lemma others_box mb d d' token :
  db_ok d -> db_ok d' -> mb ∈ mailboxes d -> mb_Token mb <> token -> others_untouched token d d' -> box_same mb d d'.
Proof.
  intros Hd Hd' Hmb Ht (H1 & H2 & H3 & H4). pose proof (other_is_foreign mb d token Hd Hmb Ht) as Hf.
  assert (Hm : forall m, m_MailboxID m = mb_ID mb -> m ∈ messages d' <-> m ∈ messages d) by (intros m Em; apply H2; by rewrite Em).
  assert (Hr : forall r m, m ∈ messages d -> m_ID m = rr_message_id r -> m_MailboxID m = mb_ID mb -> r ∈ reports d' <-> r ∈ reports d).
  { intros r m Hin Em Eb. apply H3. intros m2 Hm2 Em2.
    assert (m2 = m) as -> by (apply (NoDup_fmap_elem m_ID (messages d) m2 m (proj1 (ok_messages d Hd))); congruence).
    by rewrite Eb. }
  split_and!; [by intros _; apply H1|done| |intros t Et; apply H4; by rewrite Et].
  intros r. unfold report_of. split; intros (Hin & m & Hmin & Em & Eb).
  - apply Hm in Hmin; [|done]. split; [by apply (Hr r m)|]. by exists m.
  - split; [by apply (Hr r m)|]. exists m. by rewrite Hm.
Qed.

(** ** One step *)

Lemma unchanged_box mb d : box_same mb d d.
Proof. by split_and!. Qed.

Lemma snoc_other {A} (x y : A) l : x <> y -> x ∈ l ++ [y] <-> x ∈ l.
Proof. intros Hne. rewrite elem_of_app, list_elem_of_singleton. tauto. Qed.

(** The rows of other mailboxes are not touched by the time of the last contact. *)
Lemma touched_other now mb b d : db_ok d -> mb ∈ mailboxes d -> b ∈ mailboxes d -> b <> mb -> b ∈ mailboxes (TouchMailbox now (mb_ID mb) d).
Proof.
  intros Hd Hmb Hb Hne. cbn [TouchMailbox mailboxes set_mailboxes]. rewrite elem_of_update_where. exists b. split; [done|].
  destruct (Z.eqb_spec (mb_ID b) (mb_ID mb)) as [E|]; [|done]. destruct Hne.
  by apply (NoDup_fmap_elem mb_ID _ b mb (proj1 (ok_mailboxes _ Hd))).
Qed.

(** A delivery leaves every mailbox but that of its recipient alone. *)
Lemma delivery_box {C : Crypto} env sv Format3339 error_text clock rm nd b :
  db_ok (nd_db nd) -> b ∈ mailboxes (nd_db nd) -> ToLower (TrimSpace (rm_RcptTo rm)) <> ToLower (mb_Address b) ->
  let d' := nd_db (snd (HandleMail env sv Format3339 error_text clock rm nd)) in
  db_ok d' /\ box_same b (nd_db nd) d'.
Proof.
  intros Hd Hb Hne. cbv zeta. unfold HandleMail.
  destruct (processInbound_cases env (SMTPDomain (sv_cfg sv)) clock rm (nd_db nd) (mkMetrics 0 0 0) Hd)
    as [->|(d' & mb & m & -> & Hd' & _ & Hmb & Ha & _ & Hm & Hid & _ & Hmid & Hbs & Hps & row & Hrs & Hrow)];
    [split; [done|apply unchanged_box]|].
  cbn [snd nd_db]. split; [done|]. assert (Hbm : b <> mb) by (intros ->; congruence).
  assert (Hown : m_MailboxID m <> mb_ID b).
  { rewrite Hid. intros E. apply Hbm. by apply (NoDup_fmap_elem mb_ID _ b mb (proj1 (ok_mailboxes _ Hd))). }
  assert (Hms : forall x, m_MailboxID x = mb_ID b -> x ∈ messages d' <-> x ∈ messages (nd_db nd)).
  { intros x Hx. rewrite Hm. apply snoc_other. intros ->. done. }
  split_and!; [intros _; rewrite Hbs; by apply touched_other|done| |intros t _; by rewrite Hps].
  intros r. unfold report_of. rewrite Hrs, elem_of_app, list_elem_of_singleton. split.
  - intros [Hr (x & Hx & Ex & Eb)]. apply Hms in Hx as Hx0; [|done]. split; [|by exists x]. destruct Hr as [?| ->]; [done|].
    assert (x = m) as -> by (apply (NoDup_fmap_elem m_ID (messages d') x m (proj1 (ok_messages d' Hd')));
      [done|rewrite Hm; set_solver|congruence]). done.
  - intros [Hr (x & Hx & Ex & Eb)]. split; [by left|]. exists x. by rewrite Hms.
Qed.

Lemma delivery_ok {C : Crypto} env sv Format3339 error_text clock rm nd :
  db_ok (nd_db nd) -> db_ok (nd_db (snd (HandleMail env sv Format3339 error_text clock rm nd))).
Proof.
  intros Hd. destruct (HandleMail_effect env sv Format3339 error_text clock rm nd Hd) as [->|(m & d' & -> & Hd' & _)]; done.
Qed.

Lemma polled_ok token results status d : db_ok d -> db_ok (UpdatePlacementTestResult token results status d).
Proof. apply store_step_ok. constructor. Qed.

Lemma polled_box mb token results status d :
  (forall t, t ∈ placement d -> pt_PlacementToken t = token -> pt_MailboxID t <> mb_ID mb) ->
  box_same mb d (UpdatePlacementTestResult token results status d).
Proof.
  intros Hno. split_and!; [done..|]. intros t Ht. cbn [UpdatePlacementTestResult placement set_placement]. rewrite elem_of_update_where. split.
  - intros (x & Hx & ->). destruct (String.eqb_spec (pt_PlacementToken x) token) as [E|]; [|done]. by destruct (Hno x Hx E).
  - intros Hx. exists t. split; [done|]. destruct (String.eqb_spec (pt_PlacementToken t) token) as [E|]; [|done]. by destruct (Hno t Hx E).
Qed.

Section Run.
Context {C : Crypto} (sv : service) (Format3339 : Z -> string) (error_text : store_error -> string).

Let next := step sv Format3339 error_text.

Lemma step_ok h y : db_ok (sy_db y) -> db_ok (sy_db (next h y)).
Proof.
  intros Hd. destruct h as [w at1 at2 r|env clock rm|now|token results status]; cbn [next step sy_db sy_site ss_db set_db].
  - destruct (ServeHTTP _ _ _ _ _ _) as [[hs a] st'] eqn:E. by apply ServeHTTP_scope in E as [? _].
  - by apply delivery_ok.
  - by apply Cleanup_ok.
  - by apply polled_ok.
Qed.

(** A step that is not about [mb], other than a tick, leaves everything of [mb] as it was. *)
Lemma step_box h y mb :
  db_ok (sy_db y) -> mb ∈ mailboxes (sy_db y) -> (forall now, h <> Tick now) -> ~ concerns mb (sy_db y) h ->
  box_same mb (sy_db y) (sy_db (next h y)).
Proof.
  intros Hd Hmb Ht Hc. pose proof (step_ok h y Hd) as Hd'.
  destruct h as [w at1 at2 r|env clock rm|now|token results status]; cbn [next step sy_db sy_site ss_db set_db concerns] in *.
  - destruct (ServeHTTP _ _ _ _ _ _) as [[hs a] st'] eqn:E.
    destruct (ServeHTTP_scope (sv_web sv) w at1 at2 r _ hs a st' Hd E) as [_ [Es|(token & Ho & Hw)]]; cbn [snd] in *.
    + unfold sy_db in *. cbn [sy_site]. rewrite Es. apply unchanged_box.
    + apply (others_box _ _ _ token); try done. intros <-. apply Hc. destruct Hw as [?|(? & ? & [Hno|Hk])]; [by left| |by right].
      by destruct (Hno mb Hmb).
  - by apply (delivery_box env sv Format3339 error_text clock rm (mkNode (ss_db (sy_site y)) (ss_metrics (sy_site y)) (sy_alerts y))).
  - by destruct (Ht now).
  - apply polled_box. intros t Hin Htok E. apply Hc. by exists t.
Qed.

(** ** Runs *)

(** None of the happenings is about [mb]. *)
Fixpoint unconcerned (mb : Mailbox) (hs : list happening) (y : system) : Prop :=
  match hs with
  | [] => True
  | h :: rest => ~ concerns mb (sy_db y) h /\ unconcerned mb rest (next h y)
  end.

(** The retention limits the ticks of a run apply. *)
Definition cutoffs (hs : list happening) : list Z :=
  omap (fun h => match h with Tick now => Some (now - RetentionTTL (sv_cfg sv)) | _ => None end) hs.

(** [d] holds of [mb] what [d0] held, less what arrived before one of the limits. *)
Definition kept_box (mb : Mailbox) (cuts : list Z) (d0 d : DB) : Prop :=
  mb ∈ mailboxes d
  /\ (forall m, m_MailboxID m = mb_ID mb -> m ∈ messages d <-> m ∈ messages d0 /\ Forall (fun c => c <= m_ReceivedAt m) cuts)
  /\ (forall r, report_of mb d r <-> r ∈ reports d0 /\ exists m, m ∈ messages d0 /\ m_ID m = rr_message_id r
        /\ m_MailboxID m = mb_ID mb /\ Forall (fun c => c <= m_ReceivedAt m) cuts)
  /\ (forall t, pt_MailboxID t = mb_ID mb -> t ∈ placement d <-> t ∈ placement d0).

Lemma kept_start mb d : mb ∈ mailboxes d -> kept_box mb [] d d.
Proof.
  intros Hmb. split_and!; [done| | |done].
  - intros m _. split; [by intros|tauto].
  - intros r. unfold report_of. split; [intros (? & m & ? & ? & ?)|intros (? & m & ? & ? & ? & _)]; (split; [done|by exists m]).
Qed.

Lemma kept_same mb cuts d0 d d' : kept_box mb cuts d0 d -> box_same mb d d' -> kept_box mb cuts d0 d'.
Proof.
  intros (H1 & H2 & H3 & H4) (B1 & B2 & B3 & B4). split_and!; [auto| | |].
  - intros m Hm. by rewrite B2, H2.
  - intros r. by rewrite B3, H3.
  - intros t Ht. by rewrite B4, H4.
Qed.

(** The placement tests of a mailbox that stays are not touched by a cleanup. *)
Lemma Cleanup_placement now ret mb d t :
  mb ∈ mailboxes d -> now - ret <= mb_ExpiresAt mb -> pt_MailboxID t = mb_ID mb ->
  t ∈ placement (snd (Cleanup now ret d)) <-> t ∈ placement d.
Proof.
  intros Hmb Hexp Ht. cbn. rewrite elem_of_filterb. split; [tauto|]. intros Hin. split; [done|]. apply existsb_elem. exists mb.
  split; [|rewrite Ht; apply Z.eqb_refl]. rewrite elem_of_filterb. split; [done|]. apply negb_true_iff, Z.ltb_ge. lia.
Qed.

Lemma kept_tick mb cuts d0 d now ret :
  kept_box mb cuts d0 d -> now - ret <= mb_ExpiresAt mb -> kept_box mb (cuts ++ [now - ret]) d0 (snd (Cleanup now ret d)).
Proof.
  intros (H1 & H2 & H3 & H4) Hexp.
  assert (Hm : forall m, m_MailboxID m = mb_ID mb ->
    m ∈ messages (snd (Cleanup now ret d)) <-> m ∈ messages d0 /\ Forall (fun c => c <= m_ReceivedAt m) (cuts ++ [now - ret])).
  { intros m Em. rewrite Cleanup_messages, (H2 m Em), Forall_app, Forall_singleton. split; [tauto|]. intros (? & ? & ?).
    split; [done|]. split; [done|]. exists mb. by rewrite Em. }
  split_and!; [by apply Cleanup_mailboxes|done| |intros t Ht; by rewrite (Cleanup_placement now ret mb), H4].
  intros r. unfold report_of. rewrite Cleanup_reports. split.
  - intros ((Hr & _) & m & Hin & Em & Eb). assert (Hold : report_of mb d r).
    { split; [done|]. exists m. apply Cleanup_messages in Hin as (? & _). done. }
    apply H3 in Hold as (Hr0 & _). split; [done|]. apply Hm in Hin as [Hin Hc]; [|done]. by exists m.
  - intros (Hr0 & m & Hin & Em & Eb & Hc). assert (Hnew : m ∈ messages (snd (Cleanup now ret d))) by (by apply Hm).
    assert (Hold : report_of mb d r).
    { apply H3. split; [done|]. exists m. apply Forall_app in Hc as [? _]. done. }
    split; [|by exists m]. split; [apply Hold|]. by exists m.
Qed.

Lemma run_keeps mb cuts d0 hs : forall y,
  db_ok (sy_db y) -> kept_box mb cuts d0 (sy_db y) -> unconcerned mb hs y -> Forall (fun c => c <= mb_ExpiresAt mb) (cutoffs hs) ->
  db_ok (sy_db (run sv Format3339 error_text hs y)) /\ kept_box mb (cuts ++ cutoffs hs) d0 (sy_db (run sv Format3339 error_text hs y)).
Proof.
  revert cuts. induction hs as [|h hs IH]; intros cuts y Hd Hk Hu Hx; cbn [run fold_left]; [by rewrite app_nil_r|].
  destruct Hu as [Hc Hu]. pose proof (step_ok h y Hd) as Hd'. fold (run sv Format3339 error_text hs (next h y)).
  assert (Hcase : (exists now, h = Tick now) \/ forall now, h <> Tick now) by (destruct h; eauto).
  destruct Hcase as [[now ->]|Hno].
  - assert (Hcut : cutoffs (Tick now :: hs) = (now - RetentionTTL (sv_cfg sv)) :: cutoffs hs) by done. rewrite Hcut in *.
    apply Forall_cons in Hx as [Hx1 Hx2]. rewrite cons_middle, app_assoc.
    apply IH; [done| |done|done]. by apply kept_tick.
  - assert (Hcut : cutoffs (h :: hs) = cutoffs hs) by (destruct h; [done|done|by destruct (Hno now)|done]). rewrite Hcut in *.
    apply IH; [done| |done|done]. eapply kept_same; [exact Hk|]. apply step_box; [done|apply Hk|done|done].
Qed.

End Run.

(** C3: nobody else's business. Let any requests, deliveries, ticks of the cleanup and results of pollers
    happen one after the other. As long as no request names the mailbox or presents its key, no mail is addressed to it and no
    test of it reports, and until its retention is over, the mailbox stays as it is: the same settings, exactly its messages but for
    those older than the limit of a cleanup, exactly their reports, and the same placement tests. The database stays well-formed throughout. *)
Theorem mailbox_left_alone {C : Crypto} sv Format3339 error_text mb hs y :
  db_ok (sy_db y) -> mb ∈ mailboxes (sy_db y) -> unconcerned sv Format3339 error_text mb hs y ->
  Forall (fun c => c <= mb_ExpiresAt mb) (cutoffs sv hs) ->
  let y' := run sv Format3339 error_text hs y in
  db_ok (sy_db y') /\ kept_box mb (cutoffs sv hs) (sy_db y) (sy_db y').
Proof. intros Hd Hmb Hu Hx. cbv zeta. apply (run_keeps sv Format3339 error_text mb [] (sy_db y) hs y); [done|by apply kept_start|done|done]. Qed.

Definition system_of (d : DB) : system := mkSystem (set_db sample_state d) [].

(** Somebody else's mail, a tick and a visit of the home page. *)
Definition other_business : list happening :=
  [Polled "test" [] "done"; Tick 0; Mail sample_env (fun _ => 120) (mkReceivedMail "192.0.2.7" "mx" "a@x.org" "else@inbox.example" "text" false);
   Request sample_site 0 0 (fetch "/" "")].

Lemma mailbox_left_alone_witness :
  exists sv mb, boot toy_machine = Ok sv /\ mb ∈ mailboxes keyed_db
    /\ mb ∈ mailboxes (sy_db (@run toy_crypto sv (fun _ => "now") (fun _ => "error") other_business (system_of keyed_db))).
Proof.
  destruct toy_boots as [sv Hb]. destruct (mailboxes keyed_db) as [|mb l] eqn:Hm; [vm_compute in Hm; discriminate Hm|].
  assert (Hin : mb ∈ mailboxes keyed_db) by (rewrite Hm; left).
  exists sv, mb. split; [exact Hb|]. split; [left|].
  assert (Hmb : mb_Token mb = "tok" /\ mb_Address mb = "tok@inbox.example" /\ 0 <= mb_ExpiresAt mb).
  { vm_compute in Hm. injection Hm as <- _. vm_compute. repeat split; discriminate. }
  destruct Hmb as (Ht & Ha & He).
  destruct (@mailbox_left_alone toy_crypto sv (fun _ => "now") (fun _ => "error") mb other_business (system_of keyed_db) keyed_db_ok Hin)
    as [_ [H _]]; [| |exact H].
  - split; [|split; [|split; [|split; [|exact I]]]].
    + intros (t & Hin' & _). vm_compute in Hin'. inversion Hin'.
    + intros [].
    + intros E. cbn [concerns] in E. rewrite Ha in E. vm_compute in E. discriminate E.
    + intros [(p & rest & Hp & E & _)|[E _]]; [|discriminate E]. repeat (apply elem_of_cons in Hp as [->|Hp]; [discriminate E|]). inversion Hp.
  - repeat constructor. apply boot_started, st_sane, sane_ttl in Hb. cbn. lia.
Defined.
