(* ===== verification/Service.v ===== *)
(** * The running service (internal/web/server.go, cmd/sender-report/main.go)

    What main starts beside the servers: the limits and counters that [New] of the web
    server begins with, and the health checks of [StartBackgroundTasks]. The theorems carry the
    limits of single components over to the whole service of System.v. *)

From S2P Require Import Prelude F64 GoStrings GoTime GoNet Model Score Ipt Spf AuthHeaders RateLimit Smtp Store SealedBox Ingest Config WebRequest WebApi.
From S2P Require Import Lang Guides Placement WebPages WebAnalysis Events Telemetry Routes Site Startup Listener System.

Local Open Scope string_scope.
Local Open Scope list_scope.
Local Open Scope Z_scope.

(** ** The state New builds *)

Definition web_New_state (s : web_server) (metrics : Counters) (d : DB) : site_state :=
  let cfg := ws_cfg s in
  mkSiteState d
    (mkLimits (RateLimit.New minute (WebRateLimitPerMin cfg)) (RateLimit.New (10 * second) (WebBurstPer10Sec cfg)) 0)
    (RateLimit.New minute (PayloadRateLimitPerMin cfg)) (RateLimit.New hour (IPTRateLimitPerHour cfg)) metrics.

(** The service after a successful start, on the database [d]. *)
Definition started_service (sv : service) (d : DB) : system := mkSystem (web_New_state (sv_web sv) (sv_metrics sv) d) [].

(** ** Requests are limited *)

Lemma dispatch_limits {C : Crypto} s w rt lang r st :
  ss_limits (snd (dispatch s w rt lang r st)) = ss_limits st /\ fst (dispatch s w rt lang r st) <> RateLimited.
Proof.
  destruct rt; cbn [dispatch]; try (by split);
    match goal with |- context [let '(_, _) := ?x in _] => destruct x end; repeat case_match; by split.
Qed.

(** The limits are asked once per request, and only they lead to the answer 429. *)
Lemma ServeHTTP_limits {C : Crypto} s w at1 at2 r st :
  ss_limits (snd (ServeHTTP s w at1 at2 r st)) = snd (withRateLimit s at1 at2 r (ss_limits st))
  /\ (snd (fst (ServeHTTP s w at1 at2 r st)) = RateLimited <-> fst (withRateLimit s at1 at2 r (ss_limits st)) = false).
Proof.
  unfold ServeHTTP. cbn [ss_limits set_metrics]. destruct (withRateLimit s at1 at2 r (ss_limits st)) as [ok l]. cbn [fst snd].
  destruct ok; cbn [negb]; [|by split].
  assert (Hd : forall rt lang r' st', let '(a, st'') := dispatch s w rt lang r' st' in ss_limits st'' = ss_limits st' /\ a <> RateLimited).
  { intros rt lang r' st'. pose proof (dispatch_limits s w rt lang r' st') as H. by destruct (dispatch s w rt lang r' st'). }
  destruct (withHTTPSRedirect _ _ _); [|by split..]. unfold serve_mux. destruct (findHandler _ _ _) as [path|rt|]; [by split| |by split].
  match goal with |- context [dispatch s w rt ?l ?r' ?st'] => specialize (Hd rt l r' st'); destruct (dispatch s w rt l r' st') end.
  cbn [fst snd]. by destruct Hd.
Qed.

Section Requests.
Context {C : Crypto} (sv : service) (Format3339 : Z -> string) (error_text : store_error -> string).

Let next := step sv Format3339 error_text.

(** When the limits let the counted requests of the address [ip] through: the times at which they were asked. *)
Fixpoint let_through (ip : string) (hs : list happening) (y : system) : list (Z * Z) :=
  match hs with
  | [] => []
  | h :: rest =>
      let more := let_through ip rest (next h y) in
      match h with
      | Request w at1 at2 r =>
          match snd (fst (ServeHTTP (sv_web sv) w at1 at2 r (sy_site y))) with
          | RateLimited => more
          | _ => if negb (limit_exempt (rq_Path r)) && String.eqb (clientIP (sv_web sv) r) ip then (at1, at2) :: more else more
          end
      | _ => more
      end
  end.

(** Each limiter is asked at times that do not go back. *)
Fixpoint ordered_times (from1 from2 : Z) (hs : list happening) : Prop :=
  match hs with
  | [] => True
  | Request _ at1 at2 _ :: rest => from1 <= at1 /\ from2 <= at2 /\ ordered_times at1 at2 rest
  | _ :: rest => ordered_times from1 from2 rest
  end.

Lemma ordered_times_weaken a b a' b' hs : a <= a' -> b <= b' -> ordered_times a' b' hs -> ordered_times a b hs.
Proof.
  intros Ha Hb. induction hs as [|h hs IH]; [done|]. destruct h; cbn [ordered_times]; [|done..]. intros (? & ? & ?). split_and!; [lia|lia|done].
Qed.

Lemma limited_match {T} (a : answer) (ok : bool) (x y : T) :
  (a = RateLimited <-> ok = false) -> match a with RateLimited => x | _ => y end = if ok then y else x.
Proof. intros [H1 H2]. destruct ok; [|by rewrite (H2 eq_refl)]. destruct a; try done. by discriminate (H1 eq_refl). Qed.

Lemma prefixed_eqb p a b : String.eqb (p +:+ a) (p +:+ b) = String.eqb a b.
Proof.
  destruct (String.eqb_spec a b) as [->|Hne]; [apply String.eqb_refl|]. apply String.eqb_neq. intros H. by apply sapp_inv_head in H.
Qed.

(** The requests let through are among the calls both limiters admitted. *)
Lemma let_through_admitted ip hs : forall f1 f2 y, ordered_times f1 f2 hs ->
  exists ms bs, clock_ok f1 ms /\ clock_ok f2 bs
    /\ (fst <$> let_through ip hs y) `sublist_of` snd (admitted ms ("web:minute:" +:+ ip) (wl_minute (ss_limits (sy_site y))))
    /\ (snd <$> let_through ip hs y) `sublist_of` snd (admitted bs ("web:burst:" +:+ ip) (wl_burst (ss_limits (sy_site y)))).
Proof.
  induction hs as [|h hs IH]; intros f1 f2 y Ht; [by exists [], []|].
  destruct h as [w at1 at2 r|env clock rm|now|token results status]; cbn [ordered_times] in Ht.
  2: exact (IH f1 f2 (next (Mail env clock rm) y) Ht).
  2: exact (IH f1 f2 (next (Tick now) y) Ht).
  2: exact (IH f1 f2 (next (Polled token results status) y) Ht).
  destruct Ht as (H1 & H2 & Ht). set (y' := next (Request w at1 at2 r) y).
  destruct (ServeHTTP_limits (sv_web sv) w at1 at2 r (sy_site y)) as [Hl Ha].
  cbn [let_through]. fold y'. rewrite (limited_match _ _ _ _ Ha).
  destruct (IH at1 at2 y' Ht) as (ms & bs & Cm & Cb & Sm & Sb).
  change (sy_site y') with (snd (ServeHTTP (sv_web sv) w at1 at2 r (sy_site y))) in Sm, Sb. rewrite Hl in Sm, Sb. clear Hl Ha IH.
  set (l := ss_limits (sy_site y)) in *. unfold withRateLimit in *. destruct (limit_exempt (rq_Path r)).
  { exists ms, bs. cbn [fst snd andb negb] in *. split_and!; [by eapply clock_ok_weaken|by eapply clock_ok_weaken|done|done]. }
  set (c := clientIP (sv_web sv) r) in *.
  destruct (Allow at1 ("web:minute:" +:+ c) (wl_minute l)) as [ok1 mn] eqn:E1. destruct ok1; cbn [negb andb fst snd wl_minute wl_burst] in *.
  2: { exists ((at1, "web:minute:" +:+ c) :: ms), bs. cbn [admitted clock_ok]. rewrite E1.
       destruct (admitted ms _ mn). cbn [andb snd] in *. split_and!; [done|done|by eapply clock_ok_weaken|done|done]. }
  destruct (Allow at2 ("web:burst:" +:+ c) (wl_burst l)) as [ok2 bu] eqn:E2.
  exists ((at1, "web:minute:" +:+ c) :: ms), ((at2, "web:burst:" +:+ c) :: bs). cbn [admitted clock_ok]. rewrite E1, E2, !prefixed_eqb.
  destruct ok2; cbn [negb andb fst snd wl_minute wl_burst] in *;
    destruct (admitted ms _ mn), (admitted bs _ bu); cbn [snd] in *; destruct (String.eqb c ip); cbn [andb];
    (split_and!; [done|done|done|done| |]); rewrite ?fmap_cons; cbn [fst snd]; first [done|by apply sublist_skip|by apply sublist_cons].
Qed.

End Requests.

(** C10: the whole service keeps its limits. In any run of a service that came up, however requests of all addresses, deliveries,
    cleanups and pollers interleave, the counted requests of an address that are not answered with 429 are at most
    WEB_RATE_LIMIT_PER_MIN in any minute and WEB_BURST_PER_10SEC in any ten seconds. *)
Theorem service_requests_limited {C : Crypto} m sv Format3339 error_text hs d ip from1 from2 a :
  boot m = Ok sv -> ordered_times from1 from2 hs ->
  let times := let_through sv Format3339 error_text ip hs (started_service sv d) in
  Z.of_nat (List.length (List.filter (fun t => (a <? t) && (t <=? a + minute)) (fst <$> times))) <= WebRateLimitPerMin (sv_cfg sv)
  /\ Z.of_nat (List.length (List.filter (fun t => (a <? t) && (t <=? a + 10 * second)) (snd <$> times))) <= WebBurstPer10Sec (sv_cfg sv).
Proof.
  intros Hb%boot_started Ht. cbv zeta.
  destruct (let_through_admitted sv Format3339 error_text ip hs from1 from2 (started_service sv d) Ht) as (ms & bs & Cm & Cb & Sm & Sb).
  cbn in Sm, Sb. rewrite (st_web _ _ Hb) in Sm, Sb. apply st_sane, sane_limits in Hb. split.
  - etrans; [apply inj_le, sublist_filter_length, Sm|]. eapply window_bound; (done || lia).
  - etrans; [apply inj_le, sublist_filter_length, Sb|]. eapply window_bound; (done || lia).
Qed.

Lemma service_requests_limited_witness :
  let hs := [Request sample_site 1 2 (fetch "/" ""); Tick 3; Request sample_site 4 5 (fetch "/about" "")] in
  exists sv, boot toy_machine = Ok sv
    /\ Z.of_nat (List.length (List.filter (fun t => (0 <? t) && (t <=? 0 + minute))
         (fst <$> @let_through toy_crypto sv (fun _ => "now") (fun _ => "error") "192.0.2.7" hs (started_service sv sample_db))))
       <= WebRateLimitPerMin (sv_cfg sv).
Proof.
  cbv zeta. destruct toy_boots as [sv Hb]. exists sv. split; [exact Hb|].
  refine (proj1 (@service_requests_limited toy_crypto toy_machine sv (fun _ => "now") (fun _ => "error") _ sample_db "192.0.2.7" 0 0 0 Hb _)).
  cbn. lia.
Defined.

(** ** The health checks of the seed accounts *)

Section Health.
Context (cfg : Config) (stamp : Z -> string).

(** One check after the other; per check the accounts an alert is attempted for. *)
Fixpoint health_checks (sc : SeedConfig) (rounds : list (ping * Z)) (h : health) : list (list AccountStatus) * health :=
  match rounds with
  | [] => ([], h)
  | (p, now) :: rest =>
      let '(h', alerted, _) := runIPTHealthCheck cfg (Some sc) p stamp now h in
      let '(more, h'') := health_checks sc rest h' in (alerted :: more, h'')
  end.

(** [first]: how the accounts answer the check at the start; [ticks]: how they answer those of the ticker. *)
Definition StartBackgroundTasks (seeds : option SeedConfig) (first : ping * Z) (ticks : list (ping * Z)) (h : health)
  : list (list AccountStatus) * health :=
  match seeds with
  | None => ([], h)
  | Some sc => health_checks sc (first :: if IPTCheckInterval cfg <=? 0 then [] else ticks) h
  end.

(** The accounts whose outage begins: broken now, and not already at the check before. *)
Definition outages (before now : list AccountStatus) : list AccountStatus :=
  List.filter (fun st => negb (as_OK st) && forallb (fun b => negb (String.eqb (status_key b) (status_key st)) || as_OK b) before) now.

(** What the alerts should be: at each check the outages that begin. *)
Fixpoint alerts_spec (sc : SeedConfig) (before : list AccountStatus) (rounds : list (ping * Z)) : list (list AccountStatus) :=
  match rounds with
  | [] => []
  | (p, _) :: rest => let now := CheckAll p (Providers sc) in outages before now :: alerts_spec sc now rest
  end.

(** The cache holds what the check before saw. *)
Definition cached (before : list AccountStatus) (h : health) : Prop :=
  forall k, match h !! k with Some st => st ∈ before /\ status_key st = k | None => k ∉ status_key <$> before end.

Definition account_keys (providers : list Provider) : list string :=
  pr ← providers; acc ← p_Accounts pr; [health_key (p_Name pr) (acc_User acc)].

Lemma CheckAll_keys p providers : status_key <$> CheckAll p providers = account_keys providers.
Proof.
  unfold CheckAll, account_keys. induction providers as [|pr providers IH]; [done|]. rewrite !bind_cons, fmap_app, IH. f_equal.
  induction (p_Accounts pr) as [|acc l IHl]; [done|]. rewrite !bind_cons, fmap_app, IHl. f_equal. by destruct (p acc (p_IMAP pr)).
Qed.

(** The cache answers what the check before saw. *)
Lemma cached_fine before h st :
  NoDup (status_key <$> before) -> cached before h ->
  was_fine h st = forallb (fun b => negb (String.eqb (status_key b) (status_key st)) || as_OK b) before.
Proof.
  intros Hn Hc. unfold was_fine. specialize (Hc (status_key st)). symmetry.
  destruct (h !! status_key st) as [prev|] eqn:E.
  - destruct Hc as [Hin Hk]. destruct (as_OK prev) eqn:Ho.
    + apply List.forallb_forall. intros b Hb%list_elem_of_In. destruct (String.eqb_spec (status_key b) (status_key st)) as [Eb|]; [|done].
      assert (b = prev) as -> by (apply (NoDup_fmap_elem status_key before b prev Hn); congruence). by rewrite Ho.
    + apply not_true_is_false. intros Hall. rewrite List.forallb_forall in Hall. specialize (Hall prev). rewrite Hk, String.eqb_refl, Ho in Hall.
      discriminate Hall. by apply list_elem_of_In.
  - apply List.forallb_forall. intros b Hb%list_elem_of_In. destruct (String.eqb_spec (status_key b) (status_key st)) as [Eb|]; [|done].
    destruct Hc. rewrite <- Eb. by apply list_elem_of_fmap_2.
Qed.

Lemma health_round before now h :
  NoDup (status_key <$> before) -> NoDup (status_key <$> now) -> (status_key <$> before) ⊆ (status_key <$> now) -> cached before h ->
  fst (update_health now h) = outages before now /\ cached now (snd (update_health now h)).
Proof.
  intros Hb Hn Hsub Hc. pose proof (update_health_spec now [] h Hn) as H. unfold update_health.
  destruct (fold_left health_step now ([], h)) as [failed h']. destruct H as (-> & H2 & H3). cbn [fst snd app]. split.
  - unfold outages. apply List.filter_ext. intros st. f_equal. by apply cached_fine.
  - intros k. destruct (decide (k ∈ status_key <$> now)) as [Hk|Hk].
    + apply list_elem_of_fmap in Hk as (st & -> & Hst). by rewrite (H2 st Hst).
    + rewrite H3 by done. specialize (Hc k). destruct (h !! k) as [st|]; [|done]. destruct Hc as [Hin <-]. destruct Hk.
      apply Hsub. by apply list_elem_of_fmap_2.
Qed.

Lemma alerted_failed sc mc p now h :
  iptMailer cfg = Some mc ->
  let '(h', alerted, _) := runIPTHealthCheck cfg (Some sc) p stamp now h in (alerted, h') = update_health (CheckAll p (Providers sc)) h.
Proof.
  intros Hm. unfold runIPTHealthCheck. destruct (update_health _ h) as [newly h']. rewrite Hm. destruct newly; [done|].
  destruct (isEmpty (IPTAlertEmail cfg)) eqn:E; [|done]. unfold iptMailer in Hm. by rewrite E in Hm.
Qed.

Lemma health_checks_spec sc mc rounds : iptMailer cfg = Some mc -> NoDup (account_keys (Providers sc)) -> forall before h,
  before = [] \/ status_key <$> before = account_keys (Providers sc) -> cached before h ->
  fst (health_checks sc rounds h) = alerts_spec sc before rounds.
Proof.
  intros Hm Hn. induction rounds as [|[p now] rounds IH]; intros before h Hb Hc; [done|]. cbn [health_checks alerts_spec].
  pose proof (alerted_failed sc mc p now h Hm) as Ha. destruct (runIPTHealthCheck cfg (Some sc) p stamp now h) as [[h' alerted] mail].
  destruct (health_round before (CheckAll p (Providers sc)) h) as [H1 H2]; rewrite ?CheckAll_keys.
  - destruct Hb as [->| ->]; [constructor|done].
  - done.
  - destruct Hb as [->| ->]; [by intros x ?%not_elem_of_nil|done].
  - done.
  - rewrite <- Ha in H1, H2. cbn [fst snd] in *. specialize (IH (CheckAll p (Providers sc)) h' (or_intror (CheckAll_keys _ _)) H2).
    destruct (health_checks sc rounds h'). cbn [fst] in *. by rewrite H1, IH.
Qed.


End Health.

Definition alert_env (key : string) : string :=
  if String.eqb key "IPT_ALERT_EMAIL" then "ops@example.org" else if String.eqb key "IPT_ALERT_SMTP_ADDR" then "mx.example.org:587"
  else if String.eqb key "IPT_ALERT_SMTP_FROM" then "ipt@example.org" else "".

(** The second Gmail account answers as told, the others always. *)
Definition second_account (ok : bool) : ping * Z :=
  (fun acc _ => (if String.eqb (acc_User acc) "b@gmail.com" && negb ok then Some "auth failed" else None, 7), 7).

