(* ===== verification/PdfLayout.v ===== *)
(** * Layout of the PDF (internal/pdf/report.go)

    Every page of the report as a list of marks: the drawing functions as sequences of
    instructions for the PDF library, and what the library does with them: the cursor, the page
    breaks it makes by itself, the footer of every page. Horizontal lengths are float64
    as in the code. Vertical lengths are in tenths of a millimetre: all the code adds up are multiples
    of half a millimetre, which float64 represents exactly. Widths of texts, line
    breaking and the formats of numbers and times are parameters, as in Pdf.v. The page is 297 mm high
    (the library computes 841.89 points, which is 0.0001 mm more and moves no comparison). After a page
    break the library goes back to the font, colours and line width of before the footer by itself. *)

From S2P Require Import Prelude F64 GoStrings GoTime Model Score Ingest Checks Views Lang WebPages Pdf.

Local Open Scope string_scope.
Local Open Scope list_scope.
Local Open Scope Z_scope.

Definition colPrimary : rgb := mkRgb 13 110 253.
Definition colLight : rgb := mkRgb 248 249 250.
Definition colBorder : rgb := mkRgb 222 226 230.
Definition colWhite : rgb := mkRgb 255 255 255.
Definition colDark : rgb := mkRgb 33 37 41.
Definition colSubtext : rgb := mkRgb 73 80 87.
Definition colGrpBg : rgb := mkRgb 235 242 255.
Definition colGrpFg : rgb := mkRgb 10 66 180.
Definition colExplFg : rgb := mkRgb 40 50 110.
Definition colRecoFg : rgb := mkRgb 102 68 3.

(** ** The PDF library *)

(** What is written to a page: shapes, texts and settings of the style. Sizes of fonts and radii are in tenths, widths of lines in hundredths. *)
Inductive mark :=
| SetFont (style : string) (pt : Z)
| SetFillColor (c : rgb)
| SetTextColor (c : rgb)
| SetDrawColor (c : rgb)
| SetLineWidth (w : Z)
| Rect (x : float64) (y : Z) (w : float64) (h : Z) (style : string)
| RoundedRect (x : float64) (y : Z) (w : float64) (h r : Z) (corners style : string)
| Line (x1 : float64) (y1 : Z) (x2 : float64) (y2 : Z)
| Circle (x : float64) (y r : Z) (style : string)
| Text (x : float64) (y : Z) (w : float64) (h : Z) (text align : string).

(** A call of the library. [Cell] is CellFormat without border; [newline] is its argument ln. *)
Inductive call :=
| Do (m : mark)
| SetXY (x : float64) (y : Z)
| SetY (y : Z)
| Ln (h : Z)
| Cell (w : float64) (h : Z) (text : string) (newline : bool) (align : string)
| AddPage.

Record canvas := mkCanvas {
  cv_page : nat;
  cv_x : float64;
  cv_y : Z;
  cv_marks : list (nat * mark)
}.

Definition sf (style : string) (pt : Z) : call := Do (SetFont style pt).
Definition fc (c : rgb) : call := Do (SetFillColor c).
Definition tc (c : rgb) : call := Do (SetTextColor c).
Definition dc (c : rgb) : call := Do (SetDrawColor c).

Definition margin : float64 := f_of_Z 14.

(** The lowest position of a cell: page height less the margin of 16 mm. *)
Definition pageBreakTrigger : Z := 2810.

Section Library.
Context (pageW : float64) (appL : string).

Definition put (m : mark) (cv : canvas) : canvas := mkCanvas (cv_page cv) (cv_x cv) (cv_y cv) (cv_marks cv ++ [(cv_page cv, m)]).

(** CellFormat once the page is settled; a width of 0 reaches to the right margin. *)
Definition cell (w : float64) (h : Z) (text : string) (newline : bool) (align : string) (cv : canvas) : canvas :=
  let w := if feqb w fzero then fsub (fsub pageW margin) (cv_x cv) else w in
  let cv' := put (Text (cv_x cv) (cv_y cv) w h text align) cv in
  if newline then mkCanvas (cv_page cv') margin (cv_y cv' + h) (cv_marks cv')
  else mkCanvas (cv_page cv') (fadd (cv_x cv') w) (cv_y cv') (cv_marks cv').

(** A call that does not start a page. *)
Definition exec_here (c : call) (cv : canvas) : canvas :=
  match c with
  | Do m => put m cv
  | SetXY x y => mkCanvas (cv_page cv) x y (cv_marks cv)
  | SetY y => mkCanvas (cv_page cv) margin y (cv_marks cv)
  | Ln h => mkCanvas (cv_page cv) margin (cv_y cv + h) (cv_marks cv)
  | Cell w h text newline align => cell w h text newline align cv
  | AddPage => cv
  end.

(** The function given to SetFooterFunc; 285 mm is 12 mm above the end of the page. *)
Definition footer (page : nat) : list call :=
  [SetY 2850; dc colBorder; Do (SetLineWidth 20); Do (Line margin 2850 (fsub pageW margin) 2850); Ln 15; sf "" 65; tc colGray;
   Cell fzero 40 (appL +:+ "  -  Deliverability Report  -  Seite " +:+ Itoa (Z.of_nat page)) false "C"].

Definition close_page (cv : canvas) : canvas := fold_left (fun cv c => exec_here c cv) (footer (cv_page cv)) cv.

(** The footer of the page that ends, and the top of the next one. *)
Definition add_page (cv : canvas) : canvas := mkCanvas (S (cv_page cv)) margin 140 (cv_marks (close_page cv)).

(** A call; a cell that does not fit on the page starts a new one by itself and keeps its horizontal position. *)
Definition exec (c : call) (cv : canvas) : canvas :=
  match c with
  | AddPage => add_page cv
  | Cell w h text newline align =>
      if pageBreakTrigger <? cv_y cv + h
      then let cv' := add_page cv in exec_here c (mkCanvas (cv_page cv') (cv_x cv) (cv_y cv') (cv_marks cv'))
      else exec_here c cv
  | _ => exec_here c cv
  end.

Definition draw (l : list call) (cv : canvas) : canvas := fold_left (fun cv c => exec c cv) l cv.

End Library.

(** ** The sections *)

Section Sections.
Context (pageW : float64) (GetStringWidth : string -> Z -> string -> float64).
Context (SplitLines : Z -> Z -> string -> list string) (FormatTime FormatMinute : Z -> string) (Sprintf1 Sprintf_delta : float64 -> string).
Context (appL : string).

Let run := draw pageW appL.

Definition drawHeader (app : string) (mailbox : string) (score : float64) (generatedAt : Z) : canvas -> canvas :=
  run [fc colPrimary; Do (Rect fzero 0 pageW 220 "F");
       fc colWhite; Do (RoundedRect (f_of_Z 10) 50 (f_of_Z 12) 120 15 "1234" "F");
       fc colPrimary; Do (Rect (lit 115 10) 70 (f_of_Z 9) 60 "F");
       dc colWhite; Do (SetLineWidth 55); Do (Line (lit 115 10) 75 (f_of_Z 16) 110); Do (Line (f_of_Z 16) 110 (lit 205 10) 75);
       fc colSuccess; Do (Circle (f_of_Z 21) 160 30 "F");
       tc colWhite; sf "B" 55; SetXY (lit 192 10) 142; Cell (lit 36 10) 36 "+" false "C";
       tc colWhite; sf "B" 120; SetXY (f_of_Z 25) 70; Cell (f_of_Z 90) 80 (latin1 app) false "L";
       sf "" 80; SetXY fzero 70; Cell (fsub pageW (f_of_Z 13)) 80 "DELIVERABILITY REPORT" false "R";
       fc colLight; Do (Rect fzero 220 pageW 90 "F"); dc colBorder; Do (SetLineWidth 20); Do (Line fzero 310 pageW 310);
       sf "" 75; tc colSubtext; SetXY margin 240;
       Cell (f_of_Z 75) 50 (latin1 ("Mailbox: " +:+ mailbox)) false "L";
       Cell (f_of_Z 40) 50 ("Score: " +:+ Sprintf1 score +:+ " / 10") false "C";
       Cell fzero 50 (latin1 ("Erstellt: " +:+ FormatMinute generatedAt)) false "R";
       SetY 360].

Definition drawE2ENotice (w : float64) (cv : canvas) : canvas :=
  let y := cv_y cv in
  run [fc (mkRgb 255 248 230); dc (mkRgb 253 200 100); Do (SetLineWidth 20); Do (RoundedRect margin y w 90 15 "1234" "FD");
       fc (mkRgb 253 126 20); Do (Rect margin y (f_of_Z 3) 90 "F"); Do (RoundedRect margin y (f_of_Z 3) 90 15 "14" "F");
       sf "B" 75; tc (mkRgb 102 68 3); SetXY (f_of_Z 20) (y + 15);
       Cell (fsub w (f_of_Z 10)) 50 "E2E-verschluesselt: Betreff, Absender und IP sind nur im Browser mit deinem Schlussel lesbar." false "L";
       sf "" 65; SetXY (f_of_Z 20) (y + 55);
       Cell (fsub w (f_of_Z 10)) 35 "Der Score und alle Pruefergebnisse sind serverseitig verfuegbar und werden vollstaendig angezeigt." false "L";
       SetY (y + 90)] cv.

(** A text centred in the left panel of the hero, 46 mm wide. *)
Definition centred (style : string) (pt : Z) (text : string) (y h : Z) : list call :=
  let tw := GetStringWidth style pt text in
  [SetXY (fadd margin (fdiv (fsub (f_of_Z 46) tw) (f_of_Z 2))) y; Cell tw h text false "L"].

(** The pills of the hero: left to right, and on to the next row where one does not fit. *)
Fixpoint hero_pills (rx right px : float64) (py : Z) (pills : list (string * string * Z)) : list call :=
  match pills with
  | [] => []
  | (status, label, n) :: rest =>
      let pc := statusColor status in
      let txt := Itoa n +:+ " " +:+ label in
      let pw := fadd (GetStringWidth "B" 65 txt) (f_of_Z 6) in
      let wraps := fltb right (fadd px pw) in
      let px := if wraps then rx else px in
      let py := if wraps then py + 80 else py in
      [fc (lighten pc (lit 82 100)); Do (RoundedRect px py pw 60 10 "1234" "F"); tc pc; SetXY px py; Cell pw 60 txt false "C"]
      ++ hero_pills rx right (fadd px (fadd pw (f_of_Z 3))) py rest
  end.

Definition drawHero (r : AnalysisReport) (w : float64) (cv : canvas) : canvas :=
  let y := cv_y cv in
  let col := scoreColor (r_Score r) in
  let label := scoreLabel (r_Score r) in
  let score := Sprintf1 (r_Score r) in
  let count s := default 0 (statuses_of (r_Checks r) !! s) in
  let rx := f_of_Z 64 in
  let rw := fsub (fsub (fsub w (f_of_Z 46)) (f_of_Z 4)) (f_of_Z 3) in
  run ([fc colWhite; dc colBorder; Do (SetLineWidth 20); Do (RoundedRect margin y w 420 20 "1234" "F");
        fc col; Do (Rect margin y (f_of_Z 46) 420 "F"); Do (RoundedRect margin y (f_of_Z 46) 420 20 "14" "F");
        dc colBorder; Do (RoundedRect margin y w 420 20 "1234" "D"); Do (SetLineWidth 12);
        Do (Line (f_of_Z 60) (y + 20) (f_of_Z 60) (y + 400))]
       ++ [sf "B" 260; tc colWhite] ++ centred "B" 260 score (y + 70) 160
       ++ [sf "" 85] ++ centred "" 85 "/ 10" (y + 240) 60
       ++ [sf "B" 60; tc (lighten col (lit 55 100))] ++ centred "B" 60 (ToUpper label) (y + 330) 50
       ++ [sf "" 65; tc colGray; SetXY rx (y + 50); Cell rw 45 "GESAMTSCORE" false "L";
           sf "B" 150; tc colDark; SetXY rx (y + 100); Cell rw 100 (latin1 label) false "L"; sf "B" 65]
       ++ hero_pills rx (fsub (fadd margin w) (f_of_Z 3)) rx (y + 230)
            [("pass", "bestanden", count "pass"); ("warn", "Warnungen", count "warn"); ("fail", "Fehler", count "fail"); ("info", "Infos", count "info")]
       ++ [SetY (y + 420)]) cv.

(** *** The overview *)

(** A row of cells from left to right. *)
Fixpoint row_cells (cx : float64) (y : Z) (cells : list (list call * float64 * string * string)) : list call :=
  match cells with
  | [] => []
  | (setup, w, text, align) :: rest => setup ++ [SetXY cx y; Cell w 55 text false align] ++ row_cells (fadd cx w) y rest
  end.

Definition table_header (w : float64) (y : Z) : list call :=
  [fc colPrimary; Do (Rect margin y w 75 "F"); sf "B" 70; tc colWhite]
  ++ row_cells (f_of_Z 17) (y + 15)
       [([], f_of_Z 70, "Kategorie", "L"); ([], f_of_Z 28, "OK", "C"); ([], f_of_Z 28, "Warnungen", "C");
        ([], f_of_Z 28, "Fehler", "C"); ([], f_of_Z 28, "Infos", "C")].

Definition count_cell (n : Z) (col : rgb) : list call * float64 * string * string :=
  (if 0 <? n then [tc col; sf "B" 70] else [tc (mkRgb 180 185 190); sf "" 70], f_of_Z 28, Itoa n, "C").

Definition table_row (w : float64) (y : Z) (even : bool) (g : ReportCheckGroup) : list call :=
  let n := checkCounts (g_Checks g) in
  [fc (if even then mkRgb 245 247 252 else colWhite); Do (Rect margin y w 75 "F"); Do (Line margin (y + 75) (fadd margin w) (y + 75));
   sf "B" 70; tc colDark; SetXY (f_of_Z 17) (y + 15); Cell (f_of_Z 70) 55 (latin1 (g_Name g)) false "L"]
  ++ row_cells (f_of_Z 87) (y + 15)
       [count_cell (n_pass n) colSuccess; count_cell (n_warn n) colWarning; count_cell (n_fail n) colDanger; count_cell (n_info n) colCyan].

(** The rows of the groups that are not empty, and the position after the last one. *)
Fixpoint table_rows (w : float64) (y : Z) (even : bool) (groups : list ReportCheckGroup) : list call * Z :=
  match groups with
  | [] => ([], y)
  | g :: rest =>
      if (List.length (g_Checks g) =? 0)%nat then table_rows w y even rest
      else let '(calls, y') := table_rows w (y + 75) (negb even) rest in (table_row w y even g ++ calls, y')
  end.

Definition drawCategoryTable (groups : list ReportCheckGroup) (w : float64) (cv : canvas) : canvas :=
  let cv := run [sf "B" 75; tc colSubtext; SetXY margin (cv_y cv); Cell w 50 "PRUEFKATEGORIEN - UEBERSICHT" true "L"; Ln 10] cv in
  let y := cv_y cv in
  let '(rows, y') := table_rows w (y + 75) false groups in
  let cv := run (table_header w y ++ [dc colBorder; Do (SetLineWidth 12)] ++ rows ++ [dc colBorder; Do (SetLineWidth 20)]) cv in
  let n := Z.of_nat (countGroups groups) in
  run [Do (Rect margin (cv_y cv - n * 75 - 75) w (n * 75 + 75) "D"); SetY y'] cv.

(** *** Meta data *)

(** One of the four boxes; [i] counts them from the top left. *)
Definition meta_box (cw : float64) (y : Z) (i : Z) (item : string * string) : list call :=
  let ix := fadd margin (fmul (f_of_Z (i mod 2)) (fadd cw (f_of_Z 4))) in
  let iy := y + i / 2 * 160 in
  [fc colWhite; Do (RoundedRect ix iy cw 140 15 "1234" "FD");
   fc colPrimary; Do (Rect (fadd ix (lit 15 10)) iy (fsub cw (f_of_Z 3)) 20 "F");
   sf "" 65; tc colGray; SetXY (fadd ix (f_of_Z 4)) (iy + 40); Cell (fsub cw (f_of_Z 6)) 40 (latin1 (fst item)) false "L";
   sf "B" 80; tc colDark; SetXY (fadd ix (f_of_Z 4)) (iy + 85);
   Cell (fsub cw (f_of_Z 6)) 50 (fit (GetStringWidth "B" 80) (fsub cw (f_of_Z 8)) (latin1 (snd item))) false "L"].

Definition drawMeta (m : Message) (w : float64) (cv : canvas) : canvas :=
  let y := cv_y cv in
  let cw := fdiv (fsub w (f_of_Z 4)) (f_of_Z 2) in
  run ([dc colBorder; Do (SetLineWidth 20)]
       ++ List.concat (imap (fun i item => meta_box cw y (Z.of_nat i) item) (meta_items FormatTime m))
       ++ [SetY (y + 320)]) cv.

(** *** Groups *)

(** The counts of a group, from right to left; those that are zero are left out. *)
Fixpoint group_pills (px : float64) (y : Z) (pills : list (Z * rgb * string)) : list call :=
  match pills with
  | [] => []
  | (n, col, lbl) :: rest =>
      if n =? 0 then group_pills px y rest
      else
        let txt := Itoa n +:+ " " +:+ lbl in
        let pw := fadd (GetStringWidth "B" 55 txt) (f_of_Z 4) in
        let px := fsub px pw in
        [fc (lighten col (lit 75 100)); Do (RoundedRect px (y + 25) pw 45 7 "1234" "F"); tc col; SetXY px (y + 25); Cell pw 45 txt false "C"]
        ++ group_pills (fsub px (f_of_Z 2)) y rest
  end.

Definition drawGroupHeader (name : string) (filtered : list CheckResult) (w : float64) (cv : canvas) : canvas :=
  let y := cv_y cv in
  let n := checkCounts filtered in
  run ([fc colGrpBg; Do (Rect margin y w 90 "F"); fc colPrimary; Do (Rect margin y (f_of_Z 3) 90 "F");
        dc colBorder; Do (SetLineWidth 15); Do (Line margin (y + 90) (fadd margin w) (y + 90));
        sf "B" 80; tc colGrpFg; SetXY (f_of_Z 19) (y + 20); Cell (f_of_Z 100) 50 (latin1 name) false "L"; sf "B" 55]
       ++ group_pills (fsub (fadd margin w) (f_of_Z 2)) y
            [(n_info n, colCyan, "I"); (n_fail n, colDanger, "F"); (n_warn n, colWarning, "W"); (n_pass n, colSuccess, "OK")]
       ++ [Ln 100]) cv.

(** *** A card *)

(** Lines of text one below the other. *)
Fixpoint text_lines (x w : float64) (h curY : Z) (lines : list string) : list call :=
  match lines with
  | [] => []
  | l :: rest => [SetXY x curY; Cell w h l false "L"] ++ text_lines x w h (curY + h) rest
  end.

(** A titled block of text, if there is any. *)
Definition text_block (txW : float64) (col : rgb) (recolour : bool) (title : string) (curY : Z) (lines : list string) : list call :=
  match lines with
  | [] => []
  | _ => [sf "B" 65; tc col; SetXY (f_of_Z 23) curY; Cell txW 50 title false "L"; sf "" 70]
         ++ (if recolour then [tc col] else [])
         ++ text_lines (f_of_Z 24) (fsub txW (f_of_Z 1)) 40 (curY + 55) lines
  end.

Definition separator (w : float64) (width y : Z) : list call :=
  [dc colBorder; Do (SetLineWidth width); Do (Line (f_of_Z 18) y (fsub (fadd margin w) (lit 5 10)) y)].

(** The card at position [y]. *)
Definition card_calls (details : bool) (c : CheckResult) (w : float64) (y : Z) : list call :=
  let col := statusColor (c_Status c) in
  let cardH := 5 * card_height SplitLines details c in
  let txW := fsub (fsub (fsub w (f_of_Z 4)) (f_of_Z 5)) (f_of_Z 4) in
  let badge := statusLabel (c_Status c) in
  let badgeW := fadd (GetStringWidth "B" 55 badge) (f_of_Z 5) in
  let delta := Sprintf_delta (c_ScoreDelta c) in
  let deltaW := fadd (GetStringWidth "B" 70 delta) (f_of_Z 3) in
  let nameW := fsub (fsub (fsub txW badgeW) deltaW) (f_of_Z 2) in
  let badgeX := fsub (fsub (fadd margin w) badgeW) (f_of_Z 4) in
  let summ := summary_lines SplitLines c in
  let expl := explanation_lines SplitLines details c in
  let reco := recommendation_lines SplitLines details c in
  let sep := 0 <? block_height expl + block_height reco in
  let curY1 := y + 35 + 70 in
  let curY2 := curY1 + 45 * count_of summ in
  let curY3 := if sep then curY2 + 30 else curY2 in
  let curY4 := if 0 <? count_of expl then curY3 + 55 + 40 * count_of expl + 20 else curY3 in
  let between := (0 <? count_of expl) && (0 <? count_of reco) in
  let curY5 := if between then curY4 + 15 else curY4 in
  [fc colWhite; dc colBorder; Do (SetLineWidth 15); Do (Rect margin y w cardH "FD"); fc col; Do (Rect margin y (f_of_Z 4) cardH "F");
   sf "B" 55; fc col; Do (RoundedRect badgeX (y + 40) badgeW 45 7 "1234" "F"); tc colWhite; SetXY badgeX (y + 40);
   Cell badgeW 45 badge false "C";
   sf "B" 70; tc col; SetXY (fsub (fsub badgeX deltaW) (f_of_Z 1)) (y + 40); Cell deltaW 45 delta false "R";
   sf "B" 85; tc colDark; SetXY (f_of_Z 23) (y + 35); Cell nameW 55 (latin1 (c_Name c)) false "L";
   sf "" 75; tc colSubtext]
  ++ text_lines (f_of_Z 23) txW 45 curY1 summ
  ++ (if sep then separator w 12 (curY2 + 15) else [])
  ++ text_block txW colExplFg false "Erklaerung" curY3 expl
  ++ (if between then separator w 10 curY4 else [])
  ++ text_block txW colRecoFg true "Empfehlung" curY5 reco
  ++ [SetY (y + cardH + 15)].

(** The fonts set to measure the texts, before the page of the card is settled. *)
Definition measure (details : bool) (c : CheckResult) : list call :=
  [sf "B" 55; sf "B" 70; sf "" 75]
  ++ (if details && negb (isEmpty (c_Explanation c)) then [sf "" 70] else [])
  ++ (if details && negb (isEmpty (c_Recommendation c)) && (String.eqb (c_Status c) "warn" || String.eqb (c_Status c) "fail") then [sf "" 70] else []).

Definition drawCheckCard (details : bool) (grpName : string) (w : float64) (cv : canvas) (c : CheckResult) : canvas :=
  let cardH := 5 * card_height SplitLines details c in
  let cv := run (measure details c) cv in
  let cv :=
    if 2760 <? cv_y cv + cardH then
      let cv := run [AddPage] cv in
      if isEmpty grpName then cv else drawGroupHeader (latin1 grpName +:+ " (Forts.)") [] w cv
    else cv in
  run (card_calls details c w (cv_y cv)) cv.

(** One group of findings. *)
Definition drawGroup (opts : pdf_options) (w : float64) (cv : canvas) (g : ReportCheckGroup) : canvas :=
  match filterChecks (g_Checks g) opts with
  | [] => cv
  | filtered =>
      let cv := if 2500 <? cv_y cv then run [AddPage] cv else cv in
      let cv := drawGroupHeader (g_Name g) filtered w cv in
      run [Ln 40] (fold_left (drawCheckCard (po_Details opts) (g_Name g) w) filtered cv)
  end.

(** *** The document *)

(** Everything before the groups. *)
Definition front_matter (app : string) (generatedAt : Z) (d : pdf_download) : canvas :=
  let opts := pd_Options d in
  let w := fsub pageW (f_of_Z 28) in
  let cv := drawHeader app (mb_Address (pd_Mailbox d)) (r_Score (pd_Report d)) generatedAt (mkCanvas 1 margin 140 []) in
  let cv := if String.eqb (m_Subject (pd_Message d)) encryptedField then run [Ln 40] (drawE2ENotice w cv) else cv in
  let cv := if po_Hero opts then run [Ln 50] (drawHero (pd_Report d) w cv) else cv in
  let cv := run [Ln 50] (drawCategoryTable (pd_Groups d) w cv) in
  if po_Meta opts then run [Ln 50] (drawMeta (pd_Message d) w cv) else cv.

(** The pages as Output writes them, with the footer of the last one. *)
Definition pages (app : string) (generatedAt : Z) (d : pdf_download) : canvas :=
  let w := fsub pageW (f_of_Z 28) in
  close_page pageW appL (fold_left (drawGroup (pd_Options d) w) (pd_Groups d) (front_matter app generatedAt d)).

End Sections.

Definition Generate pageW GetStringWidth SplitLines FormatTime FormatMinute Sprintf1 Sprintf_delta (app : string) : Z -> pdf_download -> canvas :=
  pages pageW GetStringWidth SplitLines FormatTime FormatMinute Sprintf1 Sprintf_delta (latin1 app) app.

(** ** Calls that stay on the page *)

(** The mark lies between two vertical positions. *)
Definition inside (lo hi : Z) (m : mark) : Prop :=
  match m with
  | Rect _ y _ h _ | RoundedRect _ y _ h _ _ _ | Text _ y _ h _ _ => lo <= y /\ y + h <= hi
  | Line _ y1 _ y2 => (lo <= y1 <= hi) /\ (lo <= y2 <= hi)
  | Circle _ y r _ => lo <= y - r /\ y + r <= hi
  | _ => True
  end.

(** From the vertical position [cur], all marks of the calls lie between [lo] and [hi]. *)
Fixpoint stays (lo hi cur : Z) (l : list call) : Prop :=
  match l with
  | [] => True
  | Do m :: r => inside lo hi m /\ stays lo hi cur r
  | SetXY _ y :: r | SetY y :: r => stays lo hi y r
  | Ln h :: r => stays lo hi (cur + h) r
  | Cell _ h _ newline _ :: r => (lo <= cur /\ cur + h <= hi) /\ stays lo hi (if newline then cur + h else cur) r
  | AddPage :: _ => False
  end.

(** The vertical position after the calls. *)
Fixpoint after (cur : Z) (l : list call) : Z :=
  match l with
  | [] => cur
  | Do _ :: r | AddPage :: r => after cur r
  | SetXY _ y :: r | SetY y :: r => after y r
  | Ln h :: r => after (cur + h) r
  | Cell _ h _ newline _ :: r => after (if newline then cur + h else cur) r
  end.

Definition call_texts (l : list call) : list string := omap (fun c => match c with Cell _ _ t _ _ | Do (Text _ _ _ _ t _) => Some t | _ => None end) l.
Definition mark_texts (l : list (nat * mark)) : list string :=
  omap (fun pm => match snd pm with Text _ _ _ _ t _ => Some t | _ => None end) l.

Lemma stays_app lo hi cur a b : stays lo hi cur a -> stays lo hi (after cur a) b -> stays lo hi cur (a ++ b).
Proof. revert cur. induction a as [|c a IH]; intros cur; [done|]. destruct c; cbn; intuition. Qed.

Lemma calls_after_app cur a b : after cur (a ++ b) = after (after cur a) b.
Proof. revert cur. induction a as [|c a IH]; intros cur; [done|]. destruct c; cbn; apply IH. Qed.

Lemma call_texts_app a b : call_texts (a ++ b) = call_texts a ++ call_texts b.
Proof. apply omap_app. Qed.

Lemma mark_texts_app a b : mark_texts (a ++ b) = mark_texts a ++ mark_texts b.
Proof. apply omap_app. Qed.

Section Drawing.
Context (pageW : float64) (appL : string).

(** What drawing [l] did: the page is the same, and the new marks [new] are on it, between [lo] and [hi], with the texts of the calls. *)
Definition drew (lo hi : Z) (l : list call) (cv cv' : canvas) (new : list (nat * mark)) : Prop :=
  cv_page cv' = cv_page cv /\ cv_y cv' = after (cv_y cv) l /\ cv_marks cv' = cv_marks cv ++ new
  /\ Forall (fun pm => fst pm = cv_page cv /\ inside lo hi (snd pm)) new /\ mark_texts new = call_texts l.

Lemma draw_stays lo hi l : hi <= pageBreakTrigger -> forall cv,
  stays lo hi (cv_y cv) l -> exists new, drew lo hi l cv (draw pageW appL l cv) new.
Proof.
  intros Hhi. induction l as [|c l IH]; intros cv Hs; [exists []; unfold drew; cbn; by rewrite app_nil_r|].
  assert (Hstep : exists new, drew lo hi [c] cv (exec pageW appL c cv) new /\ stays lo hi (cv_y (exec pageW appL c cv)) l).
  { destruct c as [m|x y|y|h|w h text nl al|]; cbn [stays] in Hs.
    - destruct Hs as [Hm Hs]. exists [(cv_page cv, m)]. split; [|done]. split_and!; [done..| |by destruct m]. by repeat constructor.
    - exists []. split; [|done]. unfold drew. cbn. rewrite app_nil_r. by split_and!.
    - exists []. split; [|done]. unfold drew. cbn. rewrite app_nil_r. by split_and!.
    - exists []. split; [|done]. unfold drew. cbn. rewrite app_nil_r. by split_and!.
    - destruct Hs as [Hc Hs]. cbn [exec]. replace (pageBreakTrigger <? cv_y cv + h) with false by (symmetry; apply Z.ltb_ge; lia).
      cbn [exec_here]. unfold cell.
      exists [(cv_page cv, Text (cv_x cv) (cv_y cv) (if feqb w fzero then fsub (fsub pageW margin) (cv_x cv) else w) h text al)].
      destruct nl; (split; [|exact Hs]); unfold drew; cbn; (split_and!; [done..| |done]); apply Forall_singleton; done.
    - done. }
  destruct Hstep as (n1 & (P1 & Y1 & M1 & F1 & T1) & S1). destruct (IH _ S1) as (n2 & P2 & Y2 & M2 & F2 & T2).
  exists (n1 ++ n2). unfold drew in *. change (draw pageW appL (c :: l) cv) with (draw pageW appL l (exec pageW appL c cv)). change (c :: l) with ([c] ++ l).
  rewrite calls_after_app, call_texts_app, mark_texts_app. split_and!.
  - by rewrite P2, P1.
  - by rewrite Y2, Y1.
  - by rewrite M2, M1, app_assoc.
  - apply Forall_app. split; [done|]. by rewrite P1 in F2.
  - by rewrite T1, T2.
Qed.

Lemma draw_app a b cv : draw pageW appL (a ++ b) cv = draw pageW appL b (draw pageW appL a cv).
Proof. apply fold_left_app. Qed.

Lemma draw_SetY l y cv : cv_y (draw pageW appL (l ++ [SetY y]) cv) = y.
Proof. by rewrite draw_app. Qed.

Lemma close_page_marks cv : exists new, cv_marks (close_page pageW appL cv) = cv_marks cv ++ new.
Proof. eexists. unfold close_page, footer. cbn. rewrite <- !app_assoc. reflexivity. Qed.

End Drawing.

(** ** A card and a heading stay where they are put *)

Lemma text_lines_stays lo hi x w h lines : 0 <= h -> forall cur curY,
  lo <= curY -> curY + h * count_of lines <= hi -> stays lo hi cur (text_lines x w h curY lines).
Proof.
  intros Hh. unfold count_of. induction lines as [|l lines IH]; intros cur curY Hlo Hhi; [done|]. cbn [List.length] in Hhi.
  cbn [text_lines app stays]. split; [nia|]. apply IH; nia.
Qed.

Lemma text_lines_texts x w h lines curY : call_texts (text_lines x w h curY lines) = lines.
Proof. revert curY. induction lines as [|l lines IH]; intros curY; [done|]. cbn. by f_equal. Qed.

Lemma text_block_stays lo hi txW col b title cur curY lines :
  lo <= curY -> curY + (if 0 <? count_of lines then 55 + 40 * count_of lines else 0) <= hi ->
  stays lo hi cur (text_block txW col b title curY lines).
Proof.
  destruct lines as [|l lines]; [done|]. set (all := l :: lines). intros Hlo Hhi.
  assert (Hc : 0 < count_of all) by (unfold count_of; cbn; lia). apply Z.ltb_lt in Hc as Hb. rewrite Hb in Hhi.
  unfold text_block. fold all. apply stays_app; [cbn; lia|]. apply stays_app; [by destruct b|]. apply text_lines_stays; lia.
Qed.

Definition titled (title : string) (lines : list string) : list string := match lines with [] => [] | _ => title :: lines end.

Lemma text_block_texts txW col b title curY lines : call_texts (text_block txW col b title curY lines) = titled title lines.
Proof.
  destruct lines as [|l lines]; [done|]. unfold text_block, titled. rewrite !call_texts_app, text_lines_texts. by destruct b.
Qed.

Lemma separator_stays lo hi cur w width y : lo <= y <= hi -> stays lo hi cur (separator w width y).
Proof. cbn. lia. Qed.

Lemma separator_texts w width y (b : bool) : call_texts (if b then separator w width y else []) = [].
Proof. by destruct b. Qed.

Lemma stays_if lo hi cur (b : bool) l : (b = true -> stays lo hi cur l) -> stays lo hi cur (if b then l else []).
Proof. destruct b; [by intros H; apply H|done]. Qed.

Section Cards.
Context (pageW : float64) (GetStringWidth : string -> Z -> string -> float64).
Context (SplitLines : Z -> Z -> string -> list string) (Sprintf_delta : float64 -> string) (appL : string).

Definition card_size (details : bool) (c : CheckResult) : Z := 5 * card_height SplitLines details c.

(** The texts of a card in the order they are drawn. *)
Definition card_texts (details : bool) (c : CheckResult) : list string :=
  statusLabel (c_Status c) :: Sprintf_delta (c_ScoreDelta c) :: latin1 (c_Name c) :: summary_lines SplitLines c
    ++ titled "Erklaerung" (explanation_lines SplitLines details c) ++ titled "Empfehlung" (recommendation_lines SplitLines details c).

Let calls := card_calls GetStringWidth SplitLines Sprintf_delta.

Lemma card_stays details c w y cur :
  stays y (y + card_size details c) cur (calls details c w y)
  /\ after cur (calls details c w y) = y + card_size details c + 15 /\ call_texts (calls details c w y) = card_texts details c.
Proof.
  unfold calls, card_calls, card_size, card_texts, card_height. cbv zeta.
  set (S := summary_lines SplitLines c). set (E := explanation_lines SplitLines details c). set (R := recommendation_lines SplitLines details c).
  assert (HS : 0 <= count_of S) by (unfold count_of; lia). assert (HE : 0 <= count_of E) by (unfold count_of; lia).
  assert (HR : 0 <= count_of R) by (unfold count_of; lia).
  split_and!.
  - apply stays_app; [cbn; unfold block_height; repeat case_if; lia|].
    apply stays_app; [apply text_lines_stays; unfold block_height; repeat case_if; lia|].
    apply stays_app; [apply stays_if; intros; apply separator_stays; unfold block_height; repeat case_if; lia|].
    apply stays_app; [apply text_block_stays; unfold block_height; repeat case_if; bool_to_prop; lia|].
    apply stays_app; [apply stays_if; intros; apply separator_stays; unfold block_height; repeat case_if; bool_to_prop; lia|].
    apply stays_app; [apply text_block_stays; unfold block_height; repeat case_if; bool_to_prop; lia|done].
  - rewrite !calls_after_app. done.
  - rewrite !call_texts_app, !text_block_texts, text_lines_texts, !separator_texts. cbn. by rewrite app_nil_r.
Qed.

Lemma group_pills_stays lo hi cur px y pills : lo <= y + 25 -> y + 70 <= hi -> stays lo hi cur (group_pills GetStringWidth px y pills).
Proof.
  intros Hlo Hhi. revert px cur. induction pills as [|[[n col] lbl] pills IH]; intros px cur; [done|]. cbn [group_pills]. case_if; [apply IH|].
  apply stays_app; [cbn; lia|apply IH].
Qed.

Lemma group_pills_after cur px y pills :
  after cur (group_pills GetStringWidth px y pills) = cur \/ after cur (group_pills GetStringWidth px y pills) = y + 25.
Proof.
  revert px cur. induction pills as [|[[n col] lbl] pills IH]; intros px cur; cbn [group_pills]; [by left|]. case_if; [apply IH|].
  rewrite calls_after_app. cbn [after]. right. match goal with |- after ?a (group_pills _ ?p _ _) = _ => by destruct (IH p a) end.
Qed.

(** A heading that fits on the page is drawn on it; without counts the next card is 12 mm below its top. *)
Lemma header_placed name filtered w cv :
  cv_y cv + 90 <= pageBreakTrigger ->
  let cv' := drawGroupHeader pageW GetStringWidth appL name filtered w cv in
  exists new, cv_marks cv' = cv_marks cv ++ new /\ cv_page cv' = cv_page cv
    /\ (cv_y cv' = cv_y cv + 120 \/ cv_y cv' = cv_y cv + 125) /\ (filtered = [] -> cv_y cv' = cv_y cv + 120).
Proof.
  intros Hy. cbv zeta. unfold drawGroupHeader. cbv zeta.
  match goal with |- context [draw _ _ ?l _] => set (ls := l) end.
  destruct (draw_stays pageW appL (cv_y cv) (cv_y cv + 90) ls Hy cv) as (new & P & Y & M & _).
  { unfold ls. apply stays_app; [cbn; lia|]. apply stays_app; [apply group_pills_stays; lia|done]. }
  exists new. split_and!; [done|done| |].
  - rewrite Y. unfold ls. rewrite !calls_after_app. cbn [after fc sf dc tc].
    match goal with |- context [after ?a (group_pills _ ?p _ ?q)] => destruct (group_pills_after a p (cv_y cv) q) as [-> | ->] end; [left|right]; lia.
  - intros ->. rewrite Y. unfold ls. change (checkCounts []) with (mkCounts 0 0 0 0). cbn. lia.
Qed.

(** *** Positions in the document *)

(** [q] is not above [p]: on a later page, or further down. *)
Definition not_above (p q : nat * Z) : Prop := (fst p < fst q)%nat \/ (fst p = fst q /\ snd p <= snd q).

Lemma not_above_trans p q r : not_above p q -> not_above q r -> not_above p r.
Proof. unfold not_above. intros [|[]] [|[]]; lia. Qed.

Record placement := mkPlacement { pl_page : nat; pl_top : Z; pl_bottom : Z; pl_marks : list (nat * mark) }.

(** The card of [c] is whole: all its texts are on one page, inside its box, clear of the margins and the footer. *)
Definition card_on (details : bool) (c : CheckResult) (p : placement) : Prop :=
  140 <= pl_top p /\ pl_bottom p <= 2760 /\ pl_bottom p = pl_top p + card_size details c
  /\ Forall (fun pm => fst pm = pl_page p /\ inside (pl_top p) (pl_bottom p) (snd pm)) (pl_marks p)
  /\ mark_texts (pl_marks p) = card_texts details c.

(** One below the other from one position to another. *)
Fixpoint in_order (from to : nat * Z) (l : list placement) : Prop :=
  match l with
  | [] => not_above from to
  | p :: rest => not_above from (pl_page p, pl_top p) /\ in_order (pl_page p, pl_bottom p) to rest
  end.

Lemma in_order_from p q to l : not_above p q -> in_order q to l -> in_order p to l.
Proof. intros H. destruct l; cbn; [by apply not_above_trans|]. intros [H1 H2]. split; [by eapply not_above_trans|done]. Qed.

Lemma in_order_app p q r a b : in_order p q a -> in_order q r b -> in_order p r (a ++ b).
Proof. revert p. induction a as [|x a IH]; intros p; cbn; [apply in_order_from|]. intros [H1 H2] H. split; [done|by apply IH]. Qed.

Definition position (cv : canvas) : nat * Z := (cv_page cv, cv_y cv).

(** From [cv] to [cv'], the cards [cs] were drawn, whole and in order. *)
Definition cards_drawn (details : bool) (cs : list CheckResult) (cv cv' : canvas) : Prop :=
  140 <= cv_y cv' /\ exists new ps, cv_marks cv' = cv_marks cv ++ new /\ Forall2 (card_on details) cs ps
    /\ in_order (position cv) (position cv') ps /\ List.concat (pl_marks <$> ps) `sublist_of` new.

Lemma cards_drawn_trans details a b cv1 cv2 cv3 :
  cards_drawn details a cv1 cv2 -> cards_drawn details b cv2 cv3 -> cards_drawn details (a ++ b) cv1 cv3.
Proof.
  intros (_ & n1 & p1 & M1 & F1 & O1 & S1) (H & n2 & p2 & M2 & F2 & O2 & S2). split; [done|].
  exists (n1 ++ n2), (p1 ++ p2). split_and!.
  - by rewrite M2, M1, app_assoc.
  - by apply Forall2_app.
  - by eapply in_order_app.
  - rewrite fmap_app, concat_app. by apply sublist_app.
Qed.

(** Drawing without a card. *)
Lemma nothing_drawn details cv cv' :
  140 <= cv_y cv' -> not_above (position cv) (position cv') -> (exists new, cv_marks cv' = cv_marks cv ++ new) -> cards_drawn details [] cv cv'.
Proof. intros Hy Hp [new M]. split; [done|]. exists new, []. split_and!; [done|done|done|apply sublist_nil_l]. Qed.

Lemma add_page_drawn details cv : cards_drawn details [] cv (add_page pageW appL cv).
Proof.
  apply nothing_drawn; [cbn; lia|left; cbn; lia|]. unfold add_page. cbn [cv_marks]. apply close_page_marks.
Qed.

Lemma header_drawn details name filtered w cv :
  140 <= cv_y cv -> cv_y cv + 90 <= pageBreakTrigger ->
  cards_drawn details [] cv (drawGroupHeader pageW GetStringWidth appL name filtered w cv).
Proof.
  intros Hy Hh. destruct (header_placed name filtered w cv Hh) as (new & M & P & Y & _).
  apply nothing_drawn; [lia| |by exists new]. right. unfold position. cbn [fst snd]. split; [done|lia].
Qed.

Lemma card_drawn_here details c w cv :
  140 <= cv_y cv -> cv_y cv + card_size details c <= 2760 -> cards_drawn details [c] cv (draw pageW appL (calls details c w (cv_y cv)) cv).
Proof.
  intros Hy Hh. destruct (card_stays details c w (cv_y cv) (cv_y cv)) as (Hs & Ha & Ht).
  destruct (draw_stays pageW appL (cv_y cv) (cv_y cv + card_size details c) _ ltac:(unfold pageBreakTrigger; lia) cv Hs) as (new & P & Y & M & F & T).
  assert (Hsize : 0 <= card_size details c).
  { unfold card_size, card_height. pose proof (block_height_nonneg (explanation_lines SplitLines details c)).
    pose proof (block_height_nonneg (recommendation_lines SplitLines details c)). unfold count_of. case_if; lia. }
  split; [lia|]. exists new, [mkPlacement (cv_page cv) (cv_y cv) (cv_y cv + card_size details c) new].
  split_and!; [done| | |by cbn; rewrite app_nil_r].
  - apply Forall2_cons. split; [|done]. split_and!; [done|done|done|done|by cbn [pl_marks]; rewrite T].
  - cbn [in_order pl_page pl_top pl_bottom]. split; [right; by split|]. right. unfold position. cbn [fst snd]. split; [by rewrite P|lia].
Qed.

Lemma measure_drawn details c cv :
  140 <= cv_y cv -> cards_drawn details [] cv (draw pageW appL (measure details c) cv) /\ cv_y (draw pageW appL (measure details c) cv) = cv_y cv.
Proof.
  intros Hy. destruct (draw_stays pageW appL 0 0 (measure details c) ltac:(unfold pageBreakTrigger; lia) cv) as (new & P & Y & M & _).
  { apply stays_app; [done|]. apply stays_app; by apply stays_if. }
  assert (Ya : after (cv_y cv) (measure details c) = cv_y cv) by (unfold measure; rewrite !calls_after_app; by repeat case_if).
  split; [|by rewrite Y, Ya]. apply nothing_drawn; [lia| |by exists new]. right. unfold position. cbn [fst snd]. split; [done|lia].
Qed.

Lemma card_drawn details grp w cv c :
  140 <= cv_y cv -> card_size details c <= 2500 ->
  cards_drawn details [c] cv (drawCheckCard pageW GetStringWidth SplitLines Sprintf_delta appL details grp w cv c).
Proof.
  intros Hy0 Hc. unfold drawCheckCard. fold (card_size details c). fold calls. cbv zeta.
  destruct (measure_drawn details c cv Hy0) as [D0 Y0]. change [c] with ([] ++ [c]). eapply cards_drawn_trans; [exact D0|].
  assert (Hy : 140 <= cv_y (draw pageW appL (measure details c) cv)) by lia. clear D0 Y0 Hy0. revert Hy.
  generalize (draw pageW appL (measure details c) cv). clear cv. intros cv Hy.
  destruct (2760 <? cv_y cv + card_size details c) eqn:E; [|apply Z.ltb_ge in E; by apply card_drawn_here].
  change (draw pageW appL [AddPage] cv) with (add_page pageW appL cv). set (cv1 := add_page pageW appL cv).
  assert (Y1 : cv_y cv1 = 140) by done. change [c] with ([] ++ [c]). eapply cards_drawn_trans; [apply add_page_drawn|]. fold cv1.
  destruct (isEmpty grp); [by apply card_drawn_here; lia|]. change [c] with ([] ++ [c]).
  destruct (header_placed (latin1 grp +:+ " (Forts.)") [] w cv1 ltac:(rewrite Y1; unfold pageBreakTrigger; lia)) as (_ & _ & _ & _ & Yh).
  specialize (Yh eq_refl). eapply cards_drawn_trans; [apply header_drawn; rewrite Y1; unfold pageBreakTrigger; lia|]. apply card_drawn_here; lia.
Qed.

Lemma group_cards_drawn details grp w cs : Forall (fun c => card_size details c <= 2500) cs -> forall cv,
  140 <= cv_y cv -> cards_drawn details cs cv (fold_left (drawCheckCard pageW GetStringWidth SplitLines Sprintf_delta appL details grp w) cs cv).
Proof.
  induction 1 as [|c cs Hc _ IH]; intros cv Hy; cbn [fold_left].
  - apply nothing_drawn; [done|by right|]. exists []. by rewrite app_nil_r.
  - change (c :: cs) with ([c] ++ cs). pose proof (card_drawn details grp w cv c Hy Hc) as H1.
    eapply cards_drawn_trans; [exact H1|]. apply IH, H1.
Qed.

End Cards.

(** ** The document *)

Section Document.
Context (pageW : float64) (GetStringWidth : string -> Z -> string -> float64).
Context (SplitLines : Z -> Z -> string -> list string) (FormatTime FormatMinute : Z -> string) (Sprintf1 Sprintf_delta : float64 -> string).
Context (appL : string).

Let drawn := cards_drawn SplitLines Sprintf_delta.

Lemma table_rows_end w groups : forall y even, y <= snd (table_rows w y even groups).
Proof.
  induction groups as [|g groups IH]; intros y even; cbn [table_rows]; [done|]. case_if; [apply IH|].
  specialize (IH (y + 75) (negb even)). destruct (table_rows w (y + 75) (negb even) groups). cbn [snd] in *. lia.
Qed.

Lemma category_table_end groups w cv : 140 <= cv_y cv -> 140 <= cv_y (drawCategoryTable pageW appL groups w cv).
Proof.
  intros Hy. unfold drawCategoryTable. set (cv1 := draw pageW appL _ cv).
  assert (H1 : 140 <= cv_y cv1) by (unfold cv1; cbn; case_if; cbn; lia).
  pose proof (table_rows_end w groups (cv_y cv1 + 75) false) as Hr. destruct (table_rows w (cv_y cv1 + 75) false groups) as [rows y'].
  cbn [snd] in Hr. cbn. lia.
Qed.

Lemma ends_with_SetY l y cv : List.last l AddPage = SetY y -> cv_y (draw pageW appL l cv) = y.
Proof.
  intros Hl. destruct l as [|a l] using rev_ind; [done|]. rewrite List.last_last in Hl. subst. apply draw_SetY.
Qed.

(** What comes before the groups leaves the cursor on the page. *)
Lemma front_matter_end app generatedAt d :
  140 <= cv_y (front_matter pageW GetStringWidth FormatTime FormatMinute Sprintf1 appL app generatedAt d).
Proof.
  unfold front_matter. cbv zeta. set (cv0 := drawHeader _ _ _ _ _ _ _ _ _).
  assert (H0 : 140 <= cv_y cv0) by (unfold cv0, drawHeader; erewrite ends_with_SetY by reflexivity; lia).
  set (cv1 := if String.eqb _ _ then _ else cv0).
  assert (H1 : 140 <= cv_y cv1).
  { unfold cv1. case_if; [|done]. cbn [draw fold_left exec exec_here cv_y]. unfold drawE2ENotice. erewrite ends_with_SetY by reflexivity. lia. }
  set (cv2 := if po_Hero _ then _ else cv1).
  assert (H2 : 140 <= cv_y cv2).
  { unfold cv2. case_if; [|done]. cbn [draw fold_left exec exec_here cv_y]. unfold drawHero. cbv zeta. rewrite !app_assoc, draw_SetY. lia. }
  pose proof (category_table_end (pd_Groups d) (fsub pageW (f_of_Z 28)) cv2 H2) as H3. case_if.
  - cbn [draw fold_left exec exec_here cv_y]. unfold drawMeta. cbv zeta. rewrite app_assoc, draw_SetY. cbn [draw fold_left exec exec_here cv_y]. lia.
  - cbn [draw fold_left exec exec_here cv_y]. lia.
Qed.

Lemma skip_drawn details cv h : 140 <= cv_y cv -> 0 <= h -> drawn details [] cv (draw pageW appL [Ln h] cv).
Proof.
  intros Hy Hh. apply nothing_drawn; [cbn; lia|right; cbn; lia|]. exists []. by rewrite app_nil_r.
Qed.

Lemma group_drawn opts w cv g :
  140 <= cv_y cv -> Forall (fun c => card_size SplitLines (po_Details opts) c <= 2500) (filterChecks (g_Checks g) opts) ->
  drawn (po_Details opts) (filterChecks (g_Checks g) opts) cv
    (drawGroup pageW GetStringWidth SplitLines Sprintf_delta appL opts w cv g).
Proof.
  intros Hy Hc. unfold drawGroup. destruct (filterChecks (g_Checks g) opts) as [|c cs] eqn:E.
  { apply nothing_drawn; [done|by right|]. exists []. by rewrite app_nil_r. }
  rewrite <- E in *. set (cv1 := if 2500 <? cv_y cv then _ else cv).
  assert (H1 : drawn (po_Details opts) [] cv cv1 /\ cv_y cv1 <= 2500).
  { unfold cv1. destruct (2500 <? cv_y cv) eqn:Ey; [split; [apply add_page_drawn|by cbn]|]. apply Z.ltb_ge in Ey. split; [|done].
    apply nothing_drawn; [done|by right|]. exists []. by rewrite app_nil_r. }
  destruct H1 as [D1 Y1]. change (filterChecks (g_Checks g) opts) with ([] ++ filterChecks (g_Checks g) opts).
  eapply cards_drawn_trans; [exact D1|].
  pose proof (header_drawn pageW GetStringWidth SplitLines Sprintf_delta appL (po_Details opts) (g_Name g) (filterChecks (g_Checks g) opts) w cv1
    (proj1 D1) ltac:(unfold pageBreakTrigger; lia)) as D2.
  change (filterChecks (g_Checks g) opts) with ([] ++ filterChecks (g_Checks g) opts) at 1. eapply cards_drawn_trans; [exact D2|].
  pose proof (group_cards_drawn pageW GetStringWidth SplitLines Sprintf_delta appL (po_Details opts) (g_Name g) w _ Hc _ (proj1 D2)) as D3.
  rewrite <- (app_nil_r (filterChecks (g_Checks g) opts)) at 1. eapply cards_drawn_trans; [exact D3|]. apply skip_drawn; [apply D3|lia].
Qed.

Lemma groups_drawn opts w groups : forall cv,
  140 <= cv_y cv -> Forall (fun c => card_size SplitLines (po_Details opts) c <= 2500) (filterChecks (List.concat (g_Checks <$> groups)) opts) ->
  drawn (po_Details opts) (filterChecks (List.concat (g_Checks <$> groups)) opts) cv
    (fold_left (drawGroup pageW GetStringWidth SplitLines Sprintf_delta appL opts w) groups cv).
Proof.
  induction groups as [|g groups IH]; intros cv Hy Hc; cbn [fold_left fmap list_fmap List.concat].
  { apply nothing_drawn; [done|by right|]. exists []. by rewrite app_nil_r. }
  cbn [fmap list_fmap List.concat] in Hc. unfold filterChecks in *. rewrite List.filter_app in *. apply Forall_app in Hc as [Hc1 Hc2].
  pose proof (group_drawn opts w cv g Hy Hc1) as D1. eapply cards_drawn_trans; [exact D1|]. by apply IH; [apply D1|].
Qed.


End Document.

(** *** On a concrete report *)

Definition sample_card (summary : string) : CheckResult :=
  mkCheck "rbl" "Blocklist" "fail" (f_of_Z (-1)) summary "" ∅ "Listed." "Ask for removal." [] "high" "" "" "" "" "" "".

Definition sample_download (checks : list CheckResult) : pdf_download :=
  mkPdfDownload (mkMailbox 1 "tok" "tok@inbox.example" "" "192.0.2.1" 100 150 100 false false false)
    (mkMessage 1 1 "a@x" "tok@inbox.example" "" "" 0 "" "" "Hi" 0 "") (mkReport 1 1 0 (f_of_Z 9) "Good" "" checks [] [] [] [] [])
    [mkGroup "Reputation" "" checks 0 0 (Z.of_nat (List.length checks)) 0 0] (mkPdfOptions true true true true true true true) "r.pdf".

(** A library that breaks texts at the full stops. *)
Definition sample_split (_ _ : Z) (s : string) : list string := Split s ".".

Definition sample_pdf (checks : list CheckResult) : canvas :=
  Generate (f_of_Z 210) (fun _ _ _ => f_of_Z 20) sample_split (fun _ => "t") (fun _ => "t") (fun _ => "9.0") (fun _ => "-1.0") "App" 0 (sample_download checks).


(** The border of the overview is computed from the cursor, which is still at the top of the last cells, and not from the end of the last row: it
    is drawn 6 mm too high, around the title and without the end of the table. *)
Example table_border_displaced :
  let table := drawCategoryTable (f_of_Z 210) "App" [mkGroup "Reputation" "" [sample_card ""] 0 0 1 0 0] (f_of_Z 182) (mkCanvas 1 margin 360 []) in
  cv_y table = 570
  /\ omap (fun pm => match snd pm with Rect _ y _ h style => Some (y, y + h, style) | _ => None end) (cv_marks table)
     = [(420, 495, "F"); (495, 570, "F"); (360, 510, "D")].
Proof. vm_compute. done. Qed.

(** A card higher than a page: once the end of the page is reached, each further line starts a page of its own. *)
Example tall_card_one_line_per_page :
  let tall := sample_card (Join (replicate 70 "x") ".") in
  card_size sample_split true tall = 3550 /\ cv_page (sample_pdf [tall]) = 22%nat
  /\ mark_texts (List.filter (fun pm => (20 <? fst pm)%nat) (cv_marks (sample_pdf [tall])))
     = ["Empfehlung"; "App  -  Deliverability Report  -  Seite 21"; "Ask for removal"; "App  -  Deliverability Report  -  Seite 22"].
Proof. vm_compute. done. Qed.
